(* ===== verification/_CoqProject ===== *)
-Q . S2P
Prelude.v
RmClient.v
AcceptDev.v
AcceptProps.v
PoolCtl.v
GuestPool.v
GuestPoolSpec.v
GuestPoolFacts.v
GuestPoolProps.v
Wire.v
Fence.v
ObjArray.v
CtrlQueue.v
CtrlTrace.v
GpuDev.v
GpuCmds.v
GpuProps.v
CmdWire.v
VramObj.v
VramProps.v
ObjProps.v
Submit.v
SubmitProps.v
Prime.v
PrimeProps.v
Gem.v
Ioctl.v
IoctlProps.v
PoolLife.v
Display.v
Panic.v
DisplayProps.v
Kms.v
KmsProps.v
DynTest.v
DynProps.v
DynState.v
