(* ===== verification/Prelude.v ===== *)
(** * DroidVM guest additions: a verification development

    The guest additions are two Linux kernel modules and a test module. gunyah_guest (gunyah_guest/gunyah_guest.c)
    speaks to the Gunyah resource manager and to the host's virtio device 60: it accepts and
    releases memory parcels, and grows and shrinks the pools of memory the host backs on demand.
    virtio-gpu (virtio_gpu/) is the DRM driver, extended so that blobs can be carved out of such a
    pool by the guest itself. The test module (dynpool_test/) exercises a pool from sysfs. This library
    models the three in Rocq and proves what makes them correct.

    ** How the parts interact

    The resource-manager client sends MEM_ACCEPT and MEM_RELEASE and polls for the reply. The
    accept transport serves the host's requests with it and keeps a list of what it accepted. The
    pool control queue carries grow, shrink and query requests to the host. The guest pool is an
    allocator over a prefix of a memory window, grown and shrunk by these requests; guest-pool
    blobs take their blocks from it, and the blocks come back when the host has acknowledged the
    unref of the resource. Every command to the host is a buffer on the control queue; its answer
    is dequeued, signals fences and runs a callback.

    Where one part relies on another, a class of operations and a class of laws stand between
    them: [RmApi] (what the transport calls of the client), [PoolApi] (what the guest pool calls of
    the pool queue; [PoolTestApi] adds the requests only the test module makes), [ObjArrays] (what the control queue calls of the object arrays). The
    client's theorems are proved against the class; the implementation's instance is next to it, or in
    the file of the properties where that needs both sides ([AcceptProps]).

    ** Files

    - [Prelude]: machine integers, error numbers, kernel macros, little-endian bytes, the state
      monad, tactics, and runs of a step relation.
    - [RmClient]: gg_msgq_send, gg_msgq_recv, gg_rpc, gunyah_guest_mem_accept and _release, and the
      set-up in gunyah_guest_init. State: [rm_client], the module's static variables.
    - [AcceptDev]: vga_do_accept, vga_do_release, vga_send_completion, vga_work_func, vga_comp_cb,
      vga_probe, vga_remove. State: [vga_dev]. [AcceptProps]: the ledger of parcels and memory over
      whole runs and the removal, for any resource manager that keeps [VgaRmLaws], and the client of
      [RmClient] as one that does.
    - [PoolCtl]: vga_pool_request and the gunyah_pool_ functions, as functions of one request, and
      the interleavings of requests, answers, timeouts and removal as the relation [pool_step].
    - [GuestPool], [GuestPoolSpec], [GuestPoolFacts], [GuestPoolProps]: the pool half of
      virtgpu_vram.c (the virtio_gpu_guest_pool_ functions). State: [guest_pool], the pool's fields of
      struct virtio_gpu_device. The buddy allocator of the kernel is the class [BuddyOps], its
      documented behaviour [BuddyLaws].
    - [Wire]: the commands and the byte layout of uapi/linux/virtio_gpu.h, with a parser.
    - [Fence]: virtgpu_fence.c. [ObjArray]: the object arrays of virtgpu_gem.c.
    - [CtrlQueue]: the queueing half of virtgpu_vq.c: buffers, scatter lists, submission with
      fences, notification, and the dequeue worker. State: [gpu], the queue's fields. [CtrlTrace]: the
      same on a world that logs its calls, for the properties of what is called how often and in
      which order, and the progress of a command that waits for room.
    - [GpuDev], [GpuCmds]: the command functions and response callbacks of virtgpu_vq.c on the
      device [vgdev], whose objects are a map from addresses to [gpu_bo]. [GpuProps]: their
      properties. [CmdWire]: what each command function puts on the ring, byte by byte.
    - [VramObj]: the object half of virtgpu_vram.c and virtgpu_object.c: mmap, DMA mapping,
      creation and release of the three kinds of objects. [VramProps], [ObjProps]: their
      properties.
    - [Submit]: virtgpu_submit.c, the execbuffer ioctl, and the creation of a file's context. State:
      [submit] and [fpriv]. [SubmitProps]: what every way through it gives back.
    - [Prime]: virtgpu_prime.c, with virtio_gpu_detach_object_fenced of virtgpu_object.c: UUIDs,
      export, import and the end of an import. [PrimeProps]: its properties, and the class [CtrlQuiet] of
      what sending a command leaves alone.
    - [Gem]: GEM handles and dumb buffers (virtgpu_gem.c). [Ioctl]: every other ioctl of
      virtgpu_ioctl.c. [IoctlProps]: their properties.
    - [PoolLife]: creation, import, release and the host's answers as the step relation [life_step],
      and the ownership of pool blocks along all of its runs.
    - [Display]: virtgpu_plane.c and virtgpu_display.c. State: the planes' states [plane_state] and the
      outputs [output], beside the device. [Panic]: the panic path of virtgpu_vq.c, virtgpu_gem.c and
      virtgpu_plane.c, and the cursor queue's answers. [DisplayProps]: the properties of both.
    - [Kms]: virtgpu_kms.c and virtgpu_drv.c: probe, initialisation, capability discovery,
      release, files. State: [drv] around the outputs and the device. [KmsProps]: their properties.
    - [DynTest]: dynpool_test.c: its commands, its mapping, loading and unloading. State: [dyn], the
      module's globals. [DynProps]: the commands on a host that keeps the pool contract
      [PoolContract], where any request may also fail, or time out and still be carried out.
      [DynState]: what every command keeps, and the window of /dev/dynpool.

    ** How the code is modelled

    A function of the driver is a Rocq function from a state and a world to a result, a state and
    a world ([ST]); what the kernel and the host do is an operation of the world, given by a class, and
    may do anything its laws allow. Integers are [Z] with their wrap-around written out ([u32],
    [u64], [s32]); the errors are negative numbers as in C. Structures mutated in place are
    records threaded through the functions; objects shared by address are entries of a map.

    A mutex or a sleep is a function given by the caller: [lock] is whatever other threads do
    before the mutex is ours, [sleep] whatever happens while the queue has no room, [wait] what
    happens while an answer is waited for. The theorems ask only that they keep the invariant. The requests of the pool queue, where the code holds no
    lock across its wait, are an explicit step relation instead.

    ** Loops and fuel

    A C loop is a structural recursion where it walks a list, and a recursion on fuel otherwise.
    Where the model fixes the fuel ([reclaim_fuel], [grow_fuel], the 2000 polls of gg_rpc) the theorems
    show that it is enough: the functions return a result and never the out-of-fuel value
    ([guest_pool_alloc_bounded], [reclaim_ends_at_last_live]). Where a
    loop depends on the host (waiting for room, draining a queue) the theorems state the result for
    the fuel given, and [queued_if_host_serves] says when the wait for room ends, and with how much
    fuel: one try more than the entries the command needs.

    ** What the theorems show

    - Memory safety of the pool: blocks handed out are inside granted memory, disjoint from live
      ones, returned exactly once, and returned only when the host has let go of them, or is gone.
      Backing can be lost in one way only: a shrink that timed out with its query unanswered
      ([backing_kept], [lost_shrink_breaks_backing]).
    - The ledger of accepted parcels is exact over whole runs of the accept worker and over the
      removal, but for calls to the resource manager that timed out, one parcel each.
    - The pool queue is safe under every interleaving in which no request outlives the device.
    - Fence ids increase along the ring; an event signals the right fences; none is lost.
    - Commands survive the trip through their byte layout, and each command function writes the
      fields it means; each answered buffer is called back, put and freed once.
    - The user mapping of a blob is the blob; DMA mappings and object creation are all or nothing.
    - A submission gives back all it took on every path, or hands it on ([execbuffer_gives_back]).
    - A shared buffer's attachment, mapping, pin and reference are taken and given back in pairs, over an
      import and the object's release, and over a plane's preparation and clean-up.
    - The panic path does to the device what the normal path does when nothing has to be waited for,
      but writes past the object array of a dumb buffer.
    - A probe that fails gives back device, queues and cache; removal gives back everything;
      discovery ends with what the host answered.
    - On a host that keeps the contract of the pool queue the test module, when none of its requests
      fails, finds nothing wrong; whatever fails, its self-test touches granted memory only and keeps the
      grants there were; its own state stays well-formed always.
    - Error paths give back what they took; arithmetic bounds, and the places where they fail.

    Where the code does not do what it means to, the theorem says what it does: a step that
    is not a power of two ([step_check_not_divisibility], [reclaim_stuck_unless_pow2]), a lost shrink
    ([lost_shrink_breaks_backing]), an array without room ([panic_flush_as_normal]), a request that outlives the device
    ([pool_timeout_after_remove_touches_freed]), blocks of 4 GiB ([huge_block_truncated]), an EDID
    larger than its buffer ([edid_block_past_response]), a submission without memory for its event
    ([event_failure_puts_fd0]), a handle that cannot be made ([handle_failure_keeps_object]), a mapping
    released under the host's feet ([unmap_detaches_first]), a framebuffer refused with a null
    pointer ([framebuffer_create_balanced]), capability sets above 30
    ([capset_mask_conflates]), an initialisation that fails late ([failed_init_leaks]), and a test that
    releases memory in use ([reject_releases_live_grant]).

    ** Not modelled

    The text of debugfs and the trace points; the tables of callbacks, module parameters and ids, which
    are data of the kernel's frameworks; callbacks that are empty or only call the DRM core
    (encoders, the connector's destruction); log lines; the user-space tests.
    Memory allocation, DMA, the virtqueues, GEM, the DRM core, the buffers of other drivers and the
    buddy allocator are the kernel's, and appear as operations with laws. Weak memory is not
    modelled: a step is atomic where the code holds a lock. *)

From Stdlib Require Export ZArith Lia Bool.
From stdpp Require Export base numbers list sorting.

#[global] Open Scope Z_scope.

(** ** Machine integers: a [w]-bit unsigned value is a [Z] in [0, 2^w) *)

Definition u8 (z : Z) : Z := z mod 2 ^ 8.
Definition u16 (z : Z) : Z := z mod 2 ^ 16.
Definition u32 (z : Z) : Z := z mod 2 ^ 32.
Definition u64 (z : Z) : Z := z mod 2 ^ 64.

(** the value of a C [int] holding the low 32 bits of [z] *)
Definition s32 (z : Z) : Z := (z + 2 ^ 31) mod 2 ^ 32 - 2 ^ 31.

(** C truth values: a non-zero integer is true *)
Definition c_true (z : Z) : bool := negb (z =? 0).

(** ** Error numbers of <linux/errno.h> *)

Definition ENOENT : Z := 2.
Definition EIO : Z := 5.
Definition ENOMEM : Z := 12.
Definition EACCES : Z := 13.
Definition EFAULT : Z := 14.
Definition EBUSY : Z := 16.
Definition EEXIST : Z := 17.
Definition ENODEV : Z := 19.
Definition EINVAL : Z := 22.
Definition ENOSPC : Z := 28.
Definition ERANGE : Z := 34.
Definition ENOSYS : Z := 38.
Definition ETIMEDOUT : Z := 110.
Definition EUCLEAN : Z := 117.

(** ** Kernel arithmetic macros, with their bit operations written out *)

Definition PAGE_SHIFT : Z := 12.
Definition PAGE_SIZE : Z := 4096.
Definition SZ_2M : Z := 2097152.

Definition BIT (n : Z) : Z := Z.shiftl 1 n.

(** <linux/align.h>: [((x) + ((a) - 1)) & ~((a) - 1)] *)
Definition ALIGN (x a : Z) : Z := Z.land (u64 (x + (a - 1))) (u64 (Z.lnot (a - 1))).
(** [ALIGN_DOWN(x, a)] is [__ALIGN_KERNEL((x) - ((a) - 1), (a))] *)
Definition ALIGN_DOWN (x a : Z) : Z := ALIGN (x - (a - 1)) a.
(** [IS_ALIGNED(x, a)] is [((x) & ((typeof(x))(a) - 1)) == 0] *)
Definition IS_ALIGNED (x a : Z) : bool := Z.land x (a - 1) =? 0.

(** [DIV_ROUND_UP_ULL(ll, d)]: the sum is an [unsigned long long] *)
Definition DIV_ROUND_UP_ULL (ll d : Z) : Z := u64 (ll + d - 1) / d.

(** <linux/log2.h>: [1UL << fls_long(n - 1)] and [1UL << (fls_long(n) - 1)] *)
Definition fls_long (n : Z) : Z := if n =? 0 then 0 else Z.log2 n + 1.
Definition roundup_pow_of_two (n : Z) : Z := u64 (Z.shiftl 1 (fls_long (u64 (n - 1)))).
Definition rounddown_pow_of_two (n : Z) : Z := Z.shiftl 1 (fls_long n - 1).
Definition is_power_of_2 (n : Z) : bool := negb (n =? 0) && (Z.land n (n - 1) =? 0).

(** ** Little-endian fields: [put_unaligned_le16/32/64], [cpu_to_le32], ... *)

Fixpoint le_put (n : nat) (z : Z) : list Z :=
  match n with
  | O => []
  | S n' => z mod 256 :: le_put n' (z / 256)
  end.

Fixpoint le_get (l : list Z) : Z :=
  match l with
  | [] => 0
  | b :: l' => b + 256 * le_get l'
  end.

Definition byte_ok (b : Z) : Prop := 0 <= b < 256.

(** ** A state monad for code that threads a device and the outside world *)

Definition ST (S A : Type) : Type := S -> A * S.

#[export] Instance st_ret S : MRet (ST S) := fun A a s => (a, s).
#[export] Instance st_bind S : MBind (ST S) :=
  fun A B f m s => let '(a, s') := m s in f a s'.

Definition st_get {S} : ST S S := fun s => (s, s).
Definition st_put {S} (s : S) : ST S unit := fun _ => (tt, s).
Definition st_modify {S} (f : S -> S) : ST S unit := fun s => (tt, f s).
(** read a value of the state *)
Definition st_gets {S A} (f : S -> A) : ST S A := fun s => (f s, s).

(** the weakest precondition of a run: what holds of its result and its final state *)
Definition wp {S A} (m : ST S A) (Q : A -> S -> Prop) (s : S) : Prop := Q (fst (m s)) (snd (m s)).

Lemma wp_ret {S A} (a : A) (Q : A -> S -> Prop) s : Q a s -> wp (mret a) Q s.
Proof. done. Qed.

Lemma wp_bind {S A B} (m : ST S A) (k : A -> ST S B) Q s :
  wp m (fun a => wp (k a) Q) s -> wp (m ≫= k) Q s.
Proof. unfold wp, mbind, st_bind. by destruct (m s). Qed.

Lemma wp_mono {S A} (m : ST S A) (P Q : A -> S -> Prop) s :
  wp m P s -> (forall a t, P a t -> Q a t) -> wp m Q s.
Proof. unfold wp. auto. Qed.

(** ** Tactics *)

Ltac st_simpl :=
  repeat (unfold mret, st_ret, st_get, st_put, st_modify, st_gets in *; simpl in *).

(** split the boolean tests of a C condition into arithmetic facts *)
Ltac bool_prop :=
  repeat match goal with
  | H : (_ && _) = true |- _ => apply andb_true_iff in H; destruct H
  | H : (_ || _) = false |- _ => apply orb_false_iff in H; destruct H
  | H : negb _ = true |- _ => apply negb_true_iff in H
  | H : negb _ = false |- _ => apply negb_false_iff in H
  | H : c_true _ = true |- _ => unfold c_true in H
  | H : c_true _ = false |- _ => unfold c_true in H
  | H : (_ =? _) = true |- _ => apply Z.eqb_eq in H
  | H : (_ =? _) = false |- _ => apply Z.eqb_neq in H
  | H : (_ <? _) = true |- _ => apply Z.ltb_lt in H
  | H : (_ <? _) = false |- _ => apply Z.ltb_ge in H
  | H : (_ <=? _) = true |- _ => apply Z.leb_le in H
  | H : (_ <=? _) = false |- _ => apply Z.leb_gt in H
  | H : (_ >? _) = true |- _ => apply Z.gtb_lt in H
  | H : (_ >? _) = false |- _ => rewrite Z.gtb_ltb in H; apply Z.ltb_ge in H
  | H : (_ >=? _) = true |- _ => rewrite Z.geb_leb in H; apply Z.leb_le in H
  | H : (_ >=? _) = false |- _ => rewrite Z.geb_leb in H; apply Z.leb_gt in H
  end.

(** case on the next test of the goal and turn it into arithmetic *)
Ltac case_if :=
  match goal with
  | |- context [if ?b then _ else _] => let E := fresh "E" in destruct b eqn:E
  end.

Ltac case_match_in H :=
  match type of H with
  | context [match ?x with _ => _ end] => let E := fresh "E" in destruct x eqn:E
  end.

(** ** Facts about machine integers *)

Lemma u8_range z : 0 <= u8 z < 256.
Proof. apply (Z.mod_pos_bound z 256); lia. Qed.
Lemma u16_range z : 0 <= u16 z < 2 ^ 16.
Proof. apply Z.mod_pos_bound; lia. Qed.
Lemma u32_range z : 0 <= u32 z < 2 ^ 32.
Proof. apply Z.mod_pos_bound; lia. Qed.
Lemma u64_range z : 0 <= u64 z < 2 ^ 64.
Proof. apply Z.mod_pos_bound; lia. Qed.
Lemma s32_range z : - 2 ^ 31 <= s32 z < 2 ^ 31.
Proof. unfold s32. pose proof (Z.mod_pos_bound (z + 2 ^ 31) (2 ^ 32)). lia. Qed.

Lemma u8_small z : 0 <= z < 2 ^ 8 -> u8 z = z.
Proof. apply Z.mod_small. Qed.
Lemma u16_small z : 0 <= z < 2 ^ 16 -> u16 z = z.
Proof. apply Z.mod_small. Qed.
Lemma u32_small z : 0 <= z < 2 ^ 32 -> u32 z = z.
Proof. apply Z.mod_small. Qed.
Lemma u64_small z : 0 <= z < 2 ^ 64 -> u64 z = z.
Proof. apply Z.mod_small. Qed.

(** a C [int] survives the trip through an unsigned 32-bit wire field *)
Lemma s32_u32 z : - 2 ^ 31 <= z < 2 ^ 31 -> s32 (u32 z) = z.
Proof.
  intros Hz. unfold s32, u32. rewrite Z.add_mod_idemp_l by lia.
  rewrite Z.mod_small by lia. lia.
Qed.

(** ** Little-endian round trips *)

Lemma length_le_put n z : length (le_put n z) = n.
Proof. revert z; induction n; intros z; simpl; [done | by rewrite IHn]. Qed.

Lemma le_put_bytes n z : Forall byte_ok (le_put n z).
Proof.
  revert z; induction n; intros z; simpl; constructor; [|done].
  apply Z.mod_pos_bound; lia.
Qed.

Lemma le_get_put n z : le_get (le_put n z) = z mod 256 ^ Z.of_nat n.
Proof.
  revert z; induction n as [|n IH]; intros z.
  - simpl. by rewrite Z.mod_1_r.
  - cbn [le_put le_get]. rewrite IH.
    replace (Z.of_nat (S n)) with (1 + Z.of_nat n) by lia.
    rewrite Z.pow_add_r by lia. rewrite Z.pow_1_r.
    rewrite Z.rem_mul_r by lia. lia.
Qed.

Lemma le_get_bound l : Forall byte_ok l -> 0 <= le_get l < 256 ^ Z.of_nat (length l).
Proof.
  induction 1 as [|b l Hb _ IH]; [simpl; lia|].
  cbn [le_get length]. unfold byte_ok in Hb.
  replace (Z.of_nat (S (length l))) with (1 + Z.of_nat (length l)) by lia.
  rewrite Z.pow_add_r by lia. lia.
Qed.

Lemma le_get_put_8 z : le_get (le_put 8 z) = u64 z.
Proof. rewrite le_get_put. reflexivity. Qed.
Lemma le_get_put_4 z : le_get (le_put 4 z) = u32 z.
Proof. rewrite le_get_put. reflexivity. Qed.
Lemma le_get_put_2 z : le_get (le_put 2 z) = u16 z.
Proof. rewrite le_get_put. reflexivity. Qed.

(** ** Facts about the alignment macros *)

Lemma pow2_pos k : 0 <= k -> 1 <= 2 ^ k.
Proof. intros. pose proof (Z.pow_pos_nonneg 2 k). lia. Qed.

Lemma lnot_pow2 k : 0 <= k < 64 -> u64 (Z.lnot (2 ^ k - 1)) = 2 ^ 64 - 2 ^ k.
Proof.
  intros Hk. unfold u64, Z.lnot.
  replace (Z.pred (- (2 ^ k - 1))) with (- 2 ^ k) by lia.
  pose proof (pow2_pos k ltac:(lia)).
  assert (2 ^ k < 2 ^ 64) by (apply Z.pow_lt_mono_r; lia).
  symmetry; apply Z.mod_unique with (-1); lia.
Qed.

Lemma land_low k x : 0 <= k -> Z.land x (2 ^ k - 1) = x mod 2 ^ k.
Proof.
  intros. replace (2 ^ k - 1) with (Z.ones k) by (rewrite Z.ones_equiv; lia).
  by apply Z.land_ones.
Qed.

Lemma testbit_above x m n : 0 <= x < 2 ^ m -> 0 <= m <= n -> Z.testbit x n = false.
Proof.
  intros Hx Hn. destruct (Z.eq_dec x 0) as [->|]; [apply Z.bits_0|].
  apply Z.bits_above_log2; [lia|].
  assert (Z.log2 x < m) by (apply Z.log2_lt_pow2; lia). lia.
Qed.

Lemma pow2_mask_bits k n : 0 <= k < 64 -> 0 <= n ->
  Z.testbit (2 ^ 64 - 2 ^ k) n = (k <=? n) && (n <? 64).
Proof.
  intros Hk Hn. replace (2 ^ 64 - 2 ^ k) with (2 ^ k * Z.ones (64 - k)).
  - rewrite Z.mul_comm, Z.mul_pow2_bits by lia.
    destruct (Z.leb_spec k n); [|by rewrite Z.testbit_neg_r by lia].
    destruct (Z.ltb_spec n 64).
    + by rewrite Z.ones_spec_low by lia.
    + by rewrite Z.ones_spec_high by lia.
  - rewrite Z.ones_equiv. replace (2 ^ 64) with (2 ^ k * 2 ^ (64 - k)); [lia|].
    rewrite <- Z.pow_add_r by lia. f_equal; lia.
Qed.

(** clearing the low [k] bits of a 64-bit value rounds it down *)
Lemma land_high k x : 0 <= k < 64 -> 0 <= x < 2 ^ 64 ->
  Z.land x (2 ^ 64 - 2 ^ k) = x / 2 ^ k * 2 ^ k.
Proof.
  intros Hk Hx. apply Z.bits_inj'. intros n Hn.
  rewrite Z.land_spec, pow2_mask_bits by lia.
  rewrite Z.mul_pow2_bits by lia.
  destruct (Z.leb_spec k n).
  - rewrite <- Z.shiftr_div_pow2, Z.shiftr_spec by lia.
    replace (n - k + k) with n by lia.
    destruct (Z.ltb_spec n 64); [by rewrite andb_true_r|].
    by rewrite (testbit_above x 64 n) by lia.
  - rewrite (Z.testbit_neg_r _ (n - k)) by lia. by rewrite andb_false_r.
Qed.

(** [ALIGN] to a power of two rounds up to the next multiple, in 64 bits *)
Lemma ALIGN_pow2 x k : 0 <= k < 64 ->
  ALIGN x (2 ^ k) = u64 (x + (2 ^ k - 1)) / 2 ^ k * 2 ^ k.
Proof.
  intros Hk. unfold ALIGN. rewrite lnot_pow2 by lia.
  apply land_high; [lia | apply u64_range].
Qed.

Lemma ALIGN_no_wrap x k : 0 <= k < 64 -> 0 <= x -> x + (2 ^ k - 1) < 2 ^ 64 ->
  x <= ALIGN x (2 ^ k) < x + 2 ^ k /\ (2 ^ k | ALIGN x (2 ^ k)).
Proof.
  intros Hk Hx Hs. pose proof (pow2_pos k ltac:(lia)).
  rewrite ALIGN_pow2, u64_small by lia.
  pose proof (Z.div_mod (x + (2 ^ k - 1)) (2 ^ k) ltac:(lia)).
  pose proof (Z.mod_pos_bound (x + (2 ^ k - 1)) (2 ^ k) ltac:(lia)).
  split; [lia | apply Z.divide_factor_r].
Qed.

Lemma ALIGN_range x k : 0 <= k < 64 -> 0 <= ALIGN x (2 ^ k) < 2 ^ 64.
Proof.
  intros Hk. pose proof (pow2_pos k ltac:(lia)).
  rewrite ALIGN_pow2 by lia. pose proof (u64_range (x + (2 ^ k - 1))).
  pose proof (Z.div_mod (u64 (x + (2 ^ k - 1))) (2 ^ k) ltac:(lia)).
  pose proof (Z.mod_pos_bound (u64 (x + (2 ^ k - 1))) (2 ^ k) ltac:(lia)).
  pose proof (Z.div_pos (u64 (x + (2 ^ k - 1))) (2 ^ k) ltac:(lia)). lia.
Qed.

Lemma ALIGN_id x k : 0 <= k < 64 -> 0 <= x < 2 ^ 64 -> x + (2 ^ k - 1) < 2 ^ 64 ->
  (2 ^ k | x) -> ALIGN x (2 ^ k) = x.
Proof.
  intros Hk Hx Hs [q ->]. pose proof (pow2_pos k ltac:(lia)).
  rewrite ALIGN_pow2, u64_small by lia.
  rewrite Z.add_comm, Z.div_add by lia. rewrite Z.div_small by lia. lia.
Qed.

Lemma IS_ALIGNED_pow2 x k : 0 <= k -> IS_ALIGNED x (2 ^ k) = true <-> (2 ^ k | x).
Proof.
  intros Hk. unfold IS_ALIGNED. rewrite land_low by lia. rewrite Z.eqb_eq.
  pose proof (pow2_pos k Hk). apply Z.mod_divide. lia.
Qed.

Lemma roundup_pow_of_two_spec n : 1 <= n <= 2 ^ 63 ->
  exists k, 0 <= k <= 63 /\ roundup_pow_of_two n = 2 ^ k /\ n <= 2 ^ k < 2 * n.
Proof.
  intros Hn. unfold roundup_pow_of_two, fls_long. rewrite (u64_small (n - 1)) by lia.
  destruct (Z.eqb_spec (n - 1) 0).
  - exists 0. replace n with 1 by lia. by vm_compute.
  - exists (Z.log2 (n - 1) + 1).
    pose proof (Z.log2_spec (n - 1) ltac:(lia)) as [Hl Hu].
    pose proof (Z.log2_nonneg (n - 1)).
    assert (Z.log2 (n - 1) < 63) by (apply Z.log2_lt_pow2; lia).
    rewrite Z.shiftl_1_l. rewrite Z.pow_add_r in * by lia.
    rewrite Z.pow_succ_r in Hu by lia.
    rewrite u64_small; [lia|].
    assert (2 ^ (Z.log2 (n - 1)) <= 2 ^ 62) by (apply Z.pow_le_mono_r; lia). lia.
Qed.

Lemma rounddown_pow_of_two_spec n : 1 <= n < 2 ^ 64 ->
  exists k, 0 <= k <= 63 /\ rounddown_pow_of_two n = 2 ^ k /\ 2 ^ k <= n < 2 * 2 ^ k.
Proof.
  intros Hn. unfold rounddown_pow_of_two, fls_long.
  destruct (Z.eqb_spec n 0); [lia|].
  exists (Z.log2 n). replace (Z.log2 n + 1 - 1) with (Z.log2 n) by lia.
  pose proof (Z.log2_spec n ltac:(lia)) as [Hl Hu].
  pose proof (Z.log2_nonneg n).
  assert (Z.log2 n < 64) by (apply Z.log2_lt_pow2; lia).
  rewrite Z.shiftl_1_l. rewrite Z.pow_succ_r in Hu by lia. lia.
Qed.

Lemma is_power_of_2_pow k : 0 <= k -> is_power_of_2 (2 ^ k) = true.
Proof.
  intros Hk. unfold is_power_of_2. pose proof (pow2_pos k Hk).
  rewrite land_low, Z.mod_same by lia.
  destruct (Z.eqb_spec (2 ^ k) 0); [lia | done].
Qed.

Lemma pow2_divide j k : 0 <= j <= k -> (2 ^ j | 2 ^ k).
Proof.
  intros. exists (2 ^ (k - j)). rewrite <- Z.pow_add_r by lia. f_equal; lia.
Qed.

(** a number above all of a list *)
Definition above (l : list Z) : Z := 1 + foldr Z.max 0 l.

Lemma above_fresh l : above l ∉ l.
Proof.
  assert (Hb : forall x, x ∈ l -> x <= foldr Z.max 0 l).
  { induction l as [|y l IH]; intros x Hx; [by apply elem_of_nil in Hx|].
    apply elem_of_cons in Hx as [->|Hx]; cbn; [lia|]. specialize (IH x Hx). lia. }
  intros Hin. specialize (Hb _ Hin). unfold above in Hb. lia.
Qed.

(** ** Finite runs of a step relation *)

Inductive steps {S : Type} (step : S -> S -> Prop) : S -> S -> Prop :=
| steps_refl s : steps step s s
| steps_cons s t u : step s t -> steps step t u -> steps step s u.

(** an inductive invariant holds along every run *)
Lemma steps_invariant {S} (step : S -> S -> Prop) (I : S -> Prop) s t :
  (forall x y, I x -> step x y -> I y) -> steps step s t -> I s -> I t.
Proof. intros Hstep. induction 1; eauto. Qed.

Create HintDb kernel.
#[export] Hint Resolve u8_range u16_range u32_range u64_range s32_range : kernel.
#[export] Hint Resolve le_put_bytes length_le_put pow2_pos : kernel.
#[export] Hint Rewrite length_le_put : kernel.
