(* ===== verification/RmClient.v ===== *)
(** * The Gunyah resource-manager client (gunyah_guest/gunyah_guest.c, part 1)

    The message-queue hypercalls, the RPC framing, the poll loop of [gg_rpc], and the two
    primitives the module exports: [gunyah_guest_mem_accept] and [gunyah_guest_mem_release].
    The hypervisor is the class [Hypervisor]; [RmApi] at the end is the interface the accept
    transport is written against, and this client is an instance of it. *)

From S2P Require Import Prelude.

(** ** Hypercall and RPC constants *)

(** [ARM_SMCCC_CALL_VAL(ARM_SMCCC_FAST_CALL, ARM_SMCCC_SMC_64, ARM_SMCCC_OWNER_VENDOR_HYP, fn)] *)
Definition GH_HCALL (fn : Z) : Z :=
  Z.lor (Z.shiftl 1 31) (Z.lor (Z.shiftl 1 30) (Z.lor (Z.shiftl 6 24) (Z.land fn 65535))).
Definition GH_HCALL_MSGQ_SEND : Z := GH_HCALL 0x801B.
Definition GH_HCALL_MSGQ_RECV : Z := GH_HCALL 0x801C.
Definition GH_MSGQ_TX_PUSH : Z := BIT 0.
Definition GH_ERROR_OK : Z := 0.

Definition GH_RM_RPC_API : Z := 0x21.
Definition GH_RM_RPC_TYPE_REQUEST : Z := 1.
Definition GH_RM_RPC_TYPE_REPLY : Z := 2.
Definition GH_RM_RPC_TYPE_MASK : Z := 3.
Definition GH_RM_RPC_MEM_ACCEPT : Z := 0x51000011.
Definition GH_RM_RPC_MEM_RELEASE : Z := 0x51000014.
Definition GH_RM_MSGQ_MSG_SIZE : Z := 240.
Definition GH_RM_MEM_TYPE_NORMAL : Z := 0.
Definition GH_RM_TRANS_TYPE_SHARE : Z := 2.
Definition GH_RM_MEM_ACCEPT_MAP_IPA_CONTIGUOUS : Z := BIT 4.
Definition GH_RM_MEM_ACCEPT_DONE : Z := BIT 7.

(** ** State: the file's static variables *)

Record rm_client := RmClient {
  gg_tx_capid : Z;
  gg_rx_capid : Z;
  gg_ready : bool;
  gg_seq : Z;                 (* u16 *)
  gg_txbuf : list Z;          (* u8[64] *)
  gg_rxbuf : list Z           (* u8[GH_RM_MSGQ_MSG_SIZE] *)
}.

(** the values the loader leaves in them *)
Definition rm_client_boot : rm_client :=
  RmClient 0 0 false 1 (replicate 64 0) (replicate 240 0).

(** the packed [struct gh_rpc_reply] at the start of the receive buffer *)
Record gh_rpc_reply := GhRpcReply { r_api : Z; r_type : Z; r_seq : Z; r_msg_id : Z; r_err_code : Z }.
Definition sizeof_gh_rpc_reply : Z := 12.

Definition rpc_reply (buf : list Z) : gh_rpc_reply :=
  GhRpcReply (le_get (take 1 buf)) (le_get (take 1 (drop 1 buf))) (le_get (take 2 (drop 2 buf)))
             (le_get (take 4 (drop 4 buf))) (le_get (take 4 (drop 8 buf))).

(** ** The hypervisor: one SMCCC call that may write the buffer it is given

    [arm_smccc_1_1_hvc fn capid size buf flags] returns the registers [a0] and [a1] and the
    contents of the buffer afterwards. *)
Class Hypervisor (W : Type) := {
  arm_smccc_1_1_hvc : Z -> Z -> Z -> list Z -> Z -> ST W (Z * Z * list Z)
}.

(** ** Wire images: what the [p[off++] = ...] and [put_unaligned_*] runs write *)

Definition rpc_header (seq msg_id : Z) : list Z :=
  le_put 1 GH_RM_RPC_API ++ le_put 1 GH_RM_RPC_TYPE_REQUEST ++ le_put 2 seq ++ le_put 4 msg_id.

Definition mem_accept_msg (seq handle gpa size : Z) : list Z :=
  rpc_header seq GH_RM_RPC_MEM_ACCEPT ++
  le_put 4 handle ++
  le_put 1 GH_RM_MEM_TYPE_NORMAL ++
  le_put 1 GH_RM_TRANS_TYPE_SHARE ++
  le_put 1 (Z.lor GH_RM_MEM_ACCEPT_MAP_IPA_CONTIGUOUS GH_RM_MEM_ACCEPT_DONE) ++
  le_put 1 0 ++                (* reserved1 *)
  le_put 4 0 ++                (* validate_label *)
  le_put 4 0 ++                (* acl_desc: n = 0 *)
  le_put 2 1 ++ le_put 2 0 ++  (* sgl_desc_intf: n = 1, map_vmid 0 *)
  le_put 8 gpa ++ le_put 8 size ++
  le_put 2 0 ++ le_put 2 0.    (* mem_attr_desc: n = 0 *)

Definition mem_release_msg (seq handle : Z) : list Z :=
  rpc_header seq GH_RM_RPC_MEM_RELEASE ++ le_put 4 handle ++ le_put 4 0.

Section Client.
Context {W : Type} `{HV : Hypervisor W}.

(** the client and the world it calls into *)
Definition rm_state : Type := rm_client * W.

Definition gg_msgq_send (capid : Z) (buff : list Z) (size : Z) : ST W Z := fun w =>
  let '((a0, _, _), w') := arm_smccc_1_1_hvc GH_HCALL_MSGQ_SEND capid size buff GH_MSGQ_TX_PUSH w in
  (s32 a0, w').

(** returns the error, the received size (0, the caller's value, unless [a0] is OK) and the
    buffer *)
Definition gg_msgq_recv (capid : Z) (buff : list Z) (size : Z) : ST W (Z * Z * list Z) := fun w =>
  let '((a0, a1, buff'), w') := arm_smccc_1_1_hvc GH_HCALL_MSGQ_RECV capid size buff 0 w in
  ((s32 a0, (if a0 =? GH_ERROR_OK then a1 else 0), buff'), w').

(** the test of the poll loop: a complete reply that answers request [seq] *)
Definition gg_rpc_match (seq err rxlen : Z) (rxbuf : list Z) : bool :=
  (err =? GH_ERROR_OK) && (sizeof_gh_rpc_reply <=? rxlen) &&
  (Z.land (r_type (rpc_reply rxbuf)) GH_RM_RPC_TYPE_MASK =? GH_RM_RPC_TYPE_REPLY) &&
  (r_seq (rpc_reply rxbuf) =? seq).

Definition set_rxbuf (c : rm_client) (buf : list Z) : rm_client :=
  RmClient (gg_tx_capid c) (gg_rx_capid c) (gg_ready c) (gg_seq c) (gg_txbuf c) buf.

(** [n] iterations of the receive loop; [None] is the timeout *)
Fixpoint gg_rpc_poll (n : nat) (seq : Z) : ST rm_state (option Z) := fun '(c, w) =>
  match n with
  | O => (None, (c, w))
  | S n' =>
      let '((err, rxlen, buf), w') :=
        gg_msgq_recv (gg_rx_capid c) (gg_rxbuf c) GH_RM_MSGQ_MSG_SIZE w in
      let c' := set_rxbuf c buf in
      if gg_rpc_match seq err rxlen buf then (Some (r_err_code (rpc_reply buf)), (c', w'))
      else gg_rpc_poll n' seq (c', w')
  end.

(** Send the first [txlen] bytes of the transmit buffer and wait for the reply to [seq]; the
    result is the errno and, when that is 0, the RM's [err_code] (the caller's 0 otherwise). *)
Definition gg_rpc (txlen seq : Z) : ST rm_state (Z * Z) := fun '(c, w) =>
  let '(err, w1) := gg_msgq_send (gg_tx_capid c) (take (Z.to_nat txlen) (gg_txbuf c)) txlen w in
  if c_true err then ((- EIO, 0), (c, w1))
  else
    let '(r, st) := gg_rpc_poll 2000 seq (c, w1) in
    match r with
    | Some e => ((0, e), st)
    | None => ((- ETIMEDOUT, 0), st)
    end.

Definition gunyah_guest_available (c : rm_client) : bool := gg_ready c.

(** [seq = ++gg_seq] and the message written over the front of the transmit buffer *)
Definition gg_begin (c : rm_client) (msg : list Z) : rm_client :=
  RmClient (gg_tx_capid c) (gg_rx_capid c) (gg_ready c) (u16 (gg_seq c + 1))
           (msg ++ drop (length msg) (gg_txbuf c)) (gg_rxbuf c).

Definition gunyah_guest_mem_accept (handle gpa size : Z) : ST rm_state Z := fun '(c, w) =>
  if negb (gg_ready c) then (- ENODEV, (c, w))
  else
    let seq := u16 (gg_seq c + 1) in
    let msg := mem_accept_msg seq handle gpa size in
    let '((ret, err_code), st) := gg_rpc (Z.of_nat (length msg)) seq (gg_begin c msg, w) in
    if c_true ret then (ret, st)
    else if c_true err_code then (- EACCES, st)
    else (0, st).

Definition gunyah_guest_mem_release (handle : Z) : ST rm_state Z := fun '(c, w) =>
  if negb (gg_ready c) then (- ENODEV, (c, w))
  else
    let seq := u16 (gg_seq c + 1) in
    let msg := mem_release_msg seq handle in
    let '((ret, err_code), st) := gg_rpc (Z.of_nat (length msg)) seq (gg_begin c msg, w) in
    if c_true ret then (ret, st)
    else if c_true err_code then (- EIO, st)
    else (0, st).

(** the receive results [n] polls would see from this state, in order *)
Fixpoint rx_stream (n : nat) (rxcap : Z) (buf : list Z) (w : W) : list (Z * Z * list Z) :=
  match n with
  | O => []
  | S n' =>
      let '(r, w') := gg_msgq_recv rxcap buf GH_RM_MSGQ_MSG_SIZE w in
      r :: rx_stream n' rxcap (snd r) w'
  end.

End Client.

Arguments rm_state : clear implicits.
Arguments gg_rpc_poll : simpl never.
Arguments rx_stream : simpl never.

(** Part 1 of [gunyah_guest_init]: [node] is the "gunyah-resource-manager" node, if there is
    one, with the two entries of its [reg] property. *)
Definition gunyah_guest_init_rm (node : option (option Z * option Z)) (c : rm_client) : rm_client :=
  match node with
  | None => c
  | Some (None, _) => c
  | Some (Some tx, None) =>
      RmClient tx (gg_rx_capid c) (gg_ready c) (gg_seq c) (gg_txbuf c) (gg_rxbuf c)
  | Some (Some tx, Some rx) =>
      RmClient tx rx true (gg_seq c) (gg_txbuf c) (gg_rxbuf c)
  end.

(** ** The interface in-kernel consumers use *)

Class RmApi (S : Type) := {
  rm_available : S -> bool;
  rm_mem_accept : Z -> Z -> Z -> ST S Z;     (* handle gpa size *)
  rm_mem_release : Z -> ST S Z               (* handle *)
}.

#[export] Instance rm_client_api {W} `{Hypervisor W} : RmApi (rm_state W) := {
  rm_available := fun s => gunyah_guest_available (fst s);
  rm_mem_accept := gunyah_guest_mem_accept;
  rm_mem_release := gunyah_guest_mem_release
}.

(** Without a ready client neither call succeeds, and no call changes availability. *)
Class RmApiLaws (S : Type) `{RmApi S} : Prop := {
  rm_accept_unavailable h g z s : rm_available s = false -> fst (rm_mem_accept h g z s) <> 0;
  rm_release_unavailable h s : rm_available s = false -> fst (rm_mem_release h s) <> 0;
  rm_accept_keeps h g z s : rm_available (snd (rm_mem_accept h g z s)) = rm_available s;
  rm_release_keeps h s : rm_available (snd (rm_mem_release h s)) = rm_available s
}.

(** ** A scripted hypervisor: the replies still to be delivered *)

Record script := Script { sc_sent : list (list Z); sc_rx : list (Z * Z * list Z) }.

#[export] Instance script_hypervisor : Hypervisor script := {
  arm_smccc_1_1_hvc fn capid size buf flags w :=
    if fn =? GH_HCALL_MSGQ_SEND then ((0, 0, buf), Script (sc_sent w ++ [buf]) (sc_rx w))
    else match sc_rx w with
         | [] => ((40, 0, buf), w)
         | r :: rest => (r, Script (sc_sent w) rest)
         end
}.

(** a reply message as the RM lays it out *)
Definition reply_msg (seq msg_id err : Z) : list Z :=
  le_put 1 GH_RM_RPC_API ++ le_put 1 GH_RM_RPC_TYPE_REPLY ++ le_put 2 seq ++ le_put 4 msg_id ++
  le_put 4 err.

(** ** Wire format *)

Lemma length_mem_accept_msg seq h g z : length (mem_accept_msg seq h g z) = 48%nat.
Proof. reflexivity. Qed.

Lemma length_mem_release_msg seq h : length (mem_release_msg seq h) = 16%nat.
Proof. reflexivity. Qed.

Lemma mem_accept_msg_fields seq h g z :
  let m := mem_accept_msg seq h g z in
  le_get (take 2 (drop 2 m)) = u16 seq /\ le_get (take 4 (drop 4 m)) = GH_RM_RPC_MEM_ACCEPT /\
  le_get (take 4 (drop 8 m)) = u32 h /\
  le_get (take 8 (drop 28 m)) = u64 g /\ le_get (take 8 (drop 36 m)) = u64 z.
Proof.
  cbn zeta. repeat split.
  - change (take 2 _) with (le_put 2 seq). apply le_get_put_2.
  - change (take 4 _) with (le_put 4 h). apply le_get_put_4.
  - change (take 8 _) with (le_put 8 g). apply le_get_put_8.
  - change (take 8 _) with (le_put 8 z). apply le_get_put_8.
Qed.

Lemma rpc_reply_reply_msg seq mid err rest :
  rpc_reply (reply_msg seq mid err ++ rest) =
  GhRpcReply GH_RM_RPC_API GH_RM_RPC_TYPE_REPLY (u16 seq) (u32 mid) (u32 err).
Proof.
  unfold rpc_reply. f_equal.
  - change (take 2 _) with (le_put 2 seq). apply le_get_put_2.
  - change (take 4 _) with (le_put 4 mid). apply le_get_put_4.
  - change (take 4 _) with (le_put 4 err). apply le_get_put_4.
Qed.

(** ** The poll loop picks the first reply to its own request *)

Definition rx_matches (seq : Z) (r : Z * Z * list Z) : Prop :=
  gg_rpc_match seq (fst (fst r)) (snd (fst r)) (snd r) = true.

#[export] Instance rx_matches_dec seq r : Decision (rx_matches seq r).
Proof. unfold rx_matches. apply _. Defined.

(** the specification of the poll: the error code of the first match in the stream *)
Definition first_reply (seq : Z) (l : list (Z * Z * list Z)) : option Z :=
  (fun p => r_err_code (rpc_reply (snd (snd p)))) <$> list_find (rx_matches seq) l.

Section ClientFacts.
Context {W : Type} `{HV : Hypervisor W}.
Implicit Types (c : rm_client) (w : W).

Lemma first_reply_cons seq r l :
  first_reply seq (r :: l) =
  if gg_rpc_match seq (fst (fst r)) (snd (fst r)) (snd r)
  then Some (r_err_code (rpc_reply (snd r))) else first_reply seq l.
Proof.
  unfold first_reply. cbn [list_find]. case_decide as D.
  - unfold rx_matches in D. by rewrite D.
  - unfold rx_matches in D. apply not_true_is_false in D. rewrite D.
    destruct (list_find _ l) as [[i x]|]; done.
Qed.

Lemma gg_rpc_poll_S n seq c w :
  gg_rpc_poll (S n) seq (c, w) =
  let '((err, rxlen, buf), w') := gg_msgq_recv (gg_rx_capid c) (gg_rxbuf c) GH_RM_MSGQ_MSG_SIZE w in
  if gg_rpc_match seq err rxlen buf
  then (Some (r_err_code (rpc_reply buf)), (set_rxbuf c buf, w'))
  else gg_rpc_poll n seq (set_rxbuf c buf, w').
Proof. done. Qed.

Lemma rx_stream_S n cap buf w :
  rx_stream (S n) cap buf w =
  let '(r, w') := gg_msgq_recv cap buf GH_RM_MSGQ_MSG_SIZE w in r :: rx_stream n cap (snd r) w'.
Proof. done. Qed.

Lemma gg_rpc_poll_first n seq c w :
  fst (gg_rpc_poll n seq (c, w)) = first_reply seq (rx_stream n (gg_rx_capid c) (gg_rxbuf c) w).
Proof.
  revert c w; induction n as [|n IH]; intros c w; [done|].
  rewrite gg_rpc_poll_S, rx_stream_S.
  destruct (gg_msgq_recv _ _ _ w) as [[[err rxlen] buf] w'] eqn:E.
  rewrite first_reply_cons. cbn [fst snd].
  destruct (gg_rpc_match seq err rxlen buf); [done|].
  rewrite IH. done.
Qed.

(** the receive loop touches nothing of the client but its receive buffer *)
Lemma gg_rpc_poll_frame n seq c w :
  exists buf w', snd (gg_rpc_poll n seq (c, w)) = (set_rxbuf c buf, w').
Proof.
  revert c w; induction n as [|n IH]; intros c w.
  - exists (gg_rxbuf c), w. by destruct c.
  - rewrite gg_rpc_poll_S. destruct (gg_msgq_recv _ _ _ w) as [[[err rxlen] buf] w'].
    destruct (gg_rpc_match _ _ _ _); [by exists buf, w'|].
    destruct (IH (set_rxbuf c buf) w') as (b & w'' & ->). by exists b, w''.
Qed.

Lemma gg_rpc_frame txlen seq c w :
  exists buf w', snd (gg_rpc txlen seq (c, w)) = (set_rxbuf c buf, w').
Proof.
  unfold gg_rpc. destruct (gg_msgq_send _ _ _ w) as [err w1].
  case_if; [exists (gg_rxbuf c), w1; by destruct c|].
  destruct (gg_rpc_poll 2000 seq (c, w1)) as [r st] eqn:E'.
  destruct (gg_rpc_poll_frame 2000 seq c w1) as (b & w' & Hf). rewrite E' in Hf. simpl in Hf.
  subst st. exists b, w'. by destruct r.
Qed.

Lemma first_reply_Some seq l e :
  first_reply seq l = Some e <->
  exists i r, l !! i = Some r /\ rx_matches seq r /\ e = r_err_code (rpc_reply (snd r)) /\
    forall j r', (j < i)%nat -> l !! j = Some r' -> ~ rx_matches seq r'.
Proof.
  unfold first_reply. rewrite fmap_Some. split.
  - intros [[i r] [Hf ->]]. apply list_find_Some in Hf as (Hl & Hm & Hb).
    exists i, r. repeat split; [done..|]. intros j r' Hj Hl'. by apply (Hb j r').
  - intros (i & r & Hl & Hm & -> & Hb). exists (i, r). split; [|done].
    apply list_find_Some. repeat split; [done..|]. intros j r' Hl' Hj. by apply (Hb j r').
Qed.

(** the bytes the send hypercall is given are exactly the message *)
Lemma gg_begin_sends c msg :
  (length msg <= length (gg_txbuf c))%nat ->
  take (Z.to_nat (Z.of_nat (length msg))) (gg_txbuf (gg_begin c msg)) = msg.
Proof. intros _. simpl. rewrite Nat2Z.id. apply take_app_length. Qed.

(** outcome of one RPC: send, then the first matching reply among 2000 receives *)
Definition rpc_outcome (c : rm_client) (seq : Z) (msg : list Z) (w : W) : Z + Z :=
  let '(err, w1) := gg_msgq_send (gg_tx_capid c) msg (Z.of_nat (length msg)) w in
  if c_true err then inl (- EIO)
  else match first_reply seq (rx_stream 2000 (gg_rx_capid c) (gg_rxbuf c) w1) with
       | Some e => inr e
       | None => inl (- ETIMEDOUT)
       end.

Lemma gg_rpc_outcome c seq msg w :
  fst (gg_rpc (Z.of_nat (length msg)) seq (gg_begin c msg, w)) =
  match rpc_outcome c seq msg w with inl e => (e, 0) | inr e => (0, e) end.
Proof.
  unfold gg_rpc, rpc_outcome. unfold gg_begin at 1 2.
  cbn [gg_tx_capid gg_txbuf].
  rewrite Nat2Z.id, take_app_length.
  destruct (gg_msgq_send _ msg _ w) as [err w1].
  case_if; [done|].
  pose proof (gg_rpc_poll_first 2000 seq (gg_begin c msg) w1) as H.
  destruct (gg_rpc_poll 2000 seq _) as [r st]. cbn [fst] in H.
  unfold gg_begin in H. cbn [gg_rx_capid gg_rxbuf] in H. rewrite <- H. by destruct r.
Qed.

(** how the callers turn the two results of [gg_rpc] into one errno *)
Lemma rpc_result_cases c seq msg w ret e rej :
  (ret, e) = match rpc_outcome c seq msg w with inl e => (e, 0) | inr e => (0, e) end ->
  (if c_true ret then ret else if c_true e then rej else 0) =
  match rpc_outcome c seq msg w with inl e => e | inr 0 => 0 | inr _ => rej end.
Proof.
  unfold rpc_outcome. destruct (gg_msgq_send _ _ _ w) as [err w1].
  destruct (c_true err); [by intros [= -> ->]|].
  destruct (first_reply _ _) as [e'|]; intros [= -> ->]; [|done]. by destruct e'.
Qed.

Lemma mem_accept_ready h g z c w :
  gg_ready c = true ->
  fst (gunyah_guest_mem_accept h g z (c, w)) =
  let seq := u16 (gg_seq c + 1) in
  match rpc_outcome c seq (mem_accept_msg seq h g z) w with
  | inl e => e
  | inr 0 => 0
  | inr _ => - EACCES
  end.
Proof.
  intros Hr. unfold gunyah_guest_mem_accept. rewrite Hr. cbn [negb].
  cbv zeta.
  pose proof (gg_rpc_outcome c (u16 (gg_seq c + 1)) (mem_accept_msg (u16 (gg_seq c + 1)) h g z) w) as H.
  destruct (gg_rpc _ _ _) as [[ret e] st]. cbn [fst] in H.
  rewrite <- (rpc_result_cases _ _ _ _ _ _ (- EACCES) H). repeat case_if; done.
Qed.

Lemma mem_release_ready h c w :
  gg_ready c = true ->
  fst (gunyah_guest_mem_release h (c, w)) =
  let seq := u16 (gg_seq c + 1) in
  match rpc_outcome c seq (mem_release_msg seq h) w with
  | inl e => e
  | inr 0 => 0
  | inr _ => - EIO
  end.
Proof.
  intros Hr. unfold gunyah_guest_mem_release. rewrite Hr. cbn [negb].
  cbv zeta.
  pose proof (gg_rpc_outcome c (u16 (gg_seq c + 1)) (mem_release_msg (u16 (gg_seq c + 1)) h) w) as H.
  destruct (gg_rpc _ _ _) as [[ret e] st]. cbn [fst] in H.
  rewrite <- (rpc_result_cases _ _ _ _ _ _ (- EIO) H). repeat case_if; done.
Qed.

(** Both primitives leave the client as [gg_begin] made it, up to the receive buffer. *)
Lemma mem_accept_frame h g z c w :
  exists buf w', snd (gunyah_guest_mem_accept h g z (c, w)) =
    (set_rxbuf (if gg_ready c
                then gg_begin c (mem_accept_msg (u16 (gg_seq c + 1)) h g z) else c) buf, w').
Proof.
  unfold gunyah_guest_mem_accept. destruct (gg_ready c) eqn:Hr; cbn [negb].
  - cbv zeta.
    destruct (gg_rpc_frame (Z.of_nat (length (mem_accept_msg (u16 (gg_seq c + 1)) h g z)))
      (u16 (gg_seq c + 1)) (gg_begin c (mem_accept_msg (u16 (gg_seq c + 1)) h g z)) w)
      as (b & w' & Hf).
    destruct (gg_rpc _ _ _) as [[ret e] st]. simpl in Hf. subst st.
    exists b, w'. repeat case_if; done.
  - exists (gg_rxbuf c), w. by destruct c.
Qed.

Lemma mem_release_frame h c w :
  exists buf w', snd (gunyah_guest_mem_release h (c, w)) =
    (set_rxbuf (if gg_ready c
                then gg_begin c (mem_release_msg (u16 (gg_seq c + 1)) h) else c) buf, w').
Proof.
  unfold gunyah_guest_mem_release. destruct (gg_ready c) eqn:Hr; cbn [negb].
  - cbv zeta.
    destruct (gg_rpc_frame (Z.of_nat (length (mem_release_msg (u16 (gg_seq c + 1)) h)))
      (u16 (gg_seq c + 1)) (gg_begin c (mem_release_msg (u16 (gg_seq c + 1)) h)) w)
      as (b & w' & Hf).
    destruct (gg_rpc _ _ _) as [[ret e] st]. simpl in Hf. subst st.
    exists b, w'. repeat case_if; done.
  - exists (gg_rxbuf c), w. by destruct c.
Qed.

#[export] Instance rm_client_laws : RmApiLaws (rm_state W).
Proof.
  constructor.
  - intros h g z [c w] Hr. simpl in *. unfold gunyah_guest_available in Hr. by rewrite Hr.
  - intros h [c w] Hr. simpl in *. unfold gunyah_guest_available in Hr. by rewrite Hr.
  - intros h g z [c w]. cbn [rm_available rm_mem_accept rm_client_api].
    destruct (mem_accept_frame h g z c w) as (b & w' & ->). simpl. by destruct (gg_ready c) eqn:?.
  - intros h [c w]. cbn [rm_available rm_mem_release rm_client_api].
    destruct (mem_release_frame h c w) as (b & w' & ->). simpl. by destruct (gg_ready c) eqn:?.
Qed.

End ClientFacts.

(** ** Invariant of the static variables *)

Definition rm_wf (c : rm_client) : Prop :=
  length (gg_txbuf c) = 64%nat /\ 0 <= gg_seq c < 2 ^ 16.

Lemma rm_wf_begin c msg : (length msg <= 64)%nat -> rm_wf c -> rm_wf (gg_begin c msg).
Proof.
  intros Hm [Ht Hs]. split; simpl.
  - rewrite length_app, length_drop. lia.
  - apply u16_range.
Qed.

Lemma rm_wf_rxbuf c buf : rm_wf c -> rm_wf (set_rxbuf c buf).
Proof. done. Qed.

Lemma rm_wf_boot : rm_wf rm_client_boot.
Proof. split; [done|]. simpl. lia. Qed.

Lemma rpc_outcome_reply {W} `{Hypervisor W} c seq msg w e :
  rpc_outcome c seq msg w = inr e <->
  fst (gg_msgq_send (gg_tx_capid c) msg (Z.of_nat (length msg)) w) = 0 /\
  first_reply seq (rx_stream 2000 (gg_rx_capid c) (gg_rxbuf c)
    (snd (gg_msgq_send (gg_tx_capid c) msg (Z.of_nat (length msg)) w))) = Some e.
Proof.
  unfold rpc_outcome. destruct (gg_msgq_send _ _ _ w) as [err w1]. cbn [fst snd].
  unfold c_true. destruct (Z.eqb_spec err 0) as [->|Hne]; cbn [negb].
  - destruct (first_reply _ _); split; [intros [= ->]; done | intros [_ [= ->]]; done
      | done | intros [_ ?]; done].
  - split; [done | intros [? _]; done].
Qed.

(** the result of an accept *)
Lemma mem_accept_result {W} `{Hypervisor W} h g z c (w : W) :
  let seq := u16 (gg_seq c + 1) in
  let msg := mem_accept_msg seq h g z in
  let sent := gg_msgq_send (gg_tx_capid c) msg 48 w in
  let stream := rx_stream 2000 (gg_rx_capid c) (gg_rxbuf c) (snd sent) in
  let answer e := exists i r, stream !! i = Some r /\ rx_matches seq r /\
      e = r_err_code (rpc_reply (snd r)) /\
      forall j r', (j < i)%nat -> stream !! j = Some r' -> ~ rx_matches seq r' in
  match fst (gunyah_guest_mem_accept h g z (c, w)) with
  | 0 => gg_ready c = true /\ fst sent = 0 /\ answer 0
  | r => (r = - ENODEV /\ gg_ready c = false) \/
         (r = - EIO /\ gg_ready c = true /\ fst sent <> 0) \/
         (r = - EACCES /\ gg_ready c = true /\ fst sent = 0 /\ exists e, e <> 0 /\ answer e) \/
         (r = - ETIMEDOUT /\ gg_ready c = true /\ fst sent = 0 /\
          forall i r', stream !! i = Some r' -> ~ rx_matches seq r')
  end.
Proof.
  intros seq msg sent stream answer.
  destruct (gg_ready c) eqn:Hr.
  2:{ unfold gunyah_guest_mem_accept. rewrite Hr. simpl. by left. }
  rewrite mem_accept_ready by done. cbv zeta. fold seq. fold msg.
  unfold rpc_outcome. change (Z.of_nat (length msg)) with 48. fold sent.
  destruct sent as [err w1] eqn:Es. cbn [snd] in stream. cbn [fst]. fold stream.
  unfold c_true. destruct (Z.eqb_spec err 0) as [->|Hne]; cbn [negb].
  2:{ simpl. right; left. done. }
  destruct (first_reply seq stream) as [e|] eqn:Ef.
  - apply first_reply_Some in Ef. destruct e; [done|..].
    all: right; right; left; repeat split; try done; eexists; split; [|exact Ef]; done.
  - right; right; right. repeat split; [done..|]. intros i r Hi Hm.
    unfold first_reply in Ef. apply fmap_None in Ef.
    apply list_find_None in Ef. rewrite Forall_lookup in Ef. by apply (Ef i r).
Qed.

(** a refused send ends the call there *)
Lemma gg_rpc_refused {W} `{Hypervisor W} seq msg c (w : W) :
  let sent := gg_msgq_send (gg_tx_capid c) msg (Z.of_nat (length msg)) w in
  fst sent <> 0 -> snd (gg_rpc (Z.of_nat (length msg)) seq (gg_begin c msg, w)) = (gg_begin c msg, snd sent).
Proof.
  intros sent Hs. subst sent. unfold gg_rpc. unfold gg_begin at 1 2. cbn [gg_tx_capid gg_txbuf].
  rewrite Nat2Z.id, take_app_length. destruct (gg_msgq_send _ msg _ w) as [err w1]. cbn [fst snd] in *.
  unfold c_true. by rewrite (proj2 (Z.eqb_neq err 0)).
Qed.

(** the client and the hypervisor after it *)
Lemma mem_accept_state {W} `{Hypervisor W} h g z c (w : W) :
  let seq := u16 (gg_seq c + 1) in
  let msg := mem_accept_msg seq h g z in
  let sent := gg_msgq_send (gg_tx_capid c) msg 48 w in
  let '(_, (c', w')) := gunyah_guest_mem_accept h g z (c, w) in
  (gg_ready c = false -> c' = c /\ w' = w) /\
  (gg_ready c = true ->
     gg_seq c' = seq /\ gg_txbuf c' = msg ++ drop 48 (gg_txbuf c) /\ gg_ready c' = true /\
     gg_tx_capid c' = gg_tx_capid c /\ gg_rx_capid c' = gg_rx_capid c /\
     (fst sent <> 0 -> gg_rxbuf c' = gg_rxbuf c /\ w' = snd sent)).
Proof.
  intros seq msg sent. unfold gunyah_guest_mem_accept. destruct (gg_ready c) eqn:Hr; cbn [negb]; [|done].
  cbv zeta. fold seq msg. destruct (gg_rpc_frame (Z.of_nat (length msg)) seq (gg_begin c msg) w) as (b & w1 & Hf).
  pose proof (gg_rpc_refused seq msg c w) as Hx. cbv zeta in Hx.
  change (Z.of_nat (length msg)) with 48 in Hf, Hx |- *. fold sent in Hx.
  destruct (gg_rpc 48 seq (gg_begin c msg, w)) as [[ret e] st]. cbn [snd] in Hf, Hx. subst st.
  assert (Hc : forall r : Z, let '(_, (c', w')) := (r, (set_rxbuf (gg_begin c msg) b, w1)) in
    gg_seq c' = seq /\ gg_txbuf c' = msg ++ drop 48 (gg_txbuf c) /\ gg_ready c' = true /\
    gg_tx_capid c' = gg_tx_capid c /\ gg_rx_capid c' = gg_rx_capid c /\
    (fst sent <> 0 -> gg_rxbuf c' = gg_rxbuf c /\ w' = snd sent)).
  { intros r. split_and!; [done | done | exact Hr | done | done|]. intros Hs.
    specialize (Hx Hs). injection Hx as E1 E2. by rewrite <- E1. }
  repeat case_if; (split; [done | by intros _; apply Hc]).
Qed.

(** C27: [gunyah_guest_mem_accept] reports success exactly when the RM client is ready, the
    request was accepted by the message queue, and the first reply among 2000 receives that
    carries this request's sequence number has error code 0; a missing reply is [-ETIMEDOUT], a
    non-zero error code [-EACCES], a refused send [-EIO], a client that never came up [-ENODEV],
    which leaves client and hypervisor untouched. A client that is ready comes out with the next
    sequence number and the 48 bytes of this request at the front of its transmit buffer, whatever
    the outcome; of the rest only the receive buffer changes, and that only if the send went out. *)
Theorem mem_accept_outcome {W} `{Hypervisor W} h g z c (w : W) :
  let seq := u16 (gg_seq c + 1) in
  let msg := mem_accept_msg seq h g z in
  let sent := gg_msgq_send (gg_tx_capid c) msg 48 w in
  let stream := rx_stream 2000 (gg_rx_capid c) (gg_rxbuf c) (snd sent) in
  let answer e := exists i r, stream !! i = Some r /\ rx_matches seq r /\
      e = r_err_code (rpc_reply (snd r)) /\
      forall j r', (j < i)%nat -> stream !! j = Some r' -> ~ rx_matches seq r' in
  let '(ret, (c', w')) := gunyah_guest_mem_accept h g z (c, w) in
  (if ret =? 0 then gg_ready c = true /\ fst sent = 0 /\ answer 0
   else (ret = - ENODEV /\ gg_ready c = false) \/
        (ret = - EIO /\ gg_ready c = true /\ fst sent <> 0) \/
        (ret = - EACCES /\ gg_ready c = true /\ fst sent = 0 /\ exists e, e <> 0 /\ answer e) \/
        (ret = - ETIMEDOUT /\ gg_ready c = true /\ fst sent = 0 /\
         forall i r', stream !! i = Some r' -> ~ rx_matches seq r')) /\
  (gg_ready c = false -> c' = c /\ w' = w) /\
  (gg_ready c = true ->
     gg_seq c' = seq /\ gg_txbuf c' = msg ++ drop 48 (gg_txbuf c) /\ gg_ready c' = true /\
     gg_tx_capid c' = gg_tx_capid c /\ gg_rx_capid c' = gg_rx_capid c /\
     (fst sent <> 0 -> gg_rxbuf c' = gg_rxbuf c /\ w' = snd sent)).
Proof.
  intros seq msg sent stream answer.
  pose proof (mem_accept_result h g z c w) as Hr. pose proof (mem_accept_state h g z c w) as Hst.
  cbv zeta in Hr, Hst. fold seq msg sent stream in Hr, Hst.
  destruct (gunyah_guest_mem_accept h g z (c, w)) as [ret [c' w']]. split; [by destruct ret | exact Hst].
Qed.

(** What the send hypercall is given for an accept is exactly the 48-byte message, which
    fits the 64-byte transmit buffer, and the RM's view of it (sequence number, message id,
    handle, IPA and size at their offsets) is the request that was asked for. *)
Theorem mem_accept_wire_format h g z c :
  rm_wf c -> 0 <= h < 2 ^ 32 -> 0 <= g < 2 ^ 64 -> 0 <= z < 2 ^ 64 ->
  let seq := u16 (gg_seq c + 1) in
  let sent := take 48 (gg_txbuf (gg_begin c (mem_accept_msg seq h g z))) in
  sent = mem_accept_msg seq h g z /\ (length sent <= length (gg_txbuf c))%nat /\
  Forall byte_ok sent /\
  le_get (take 1 sent) = GH_RM_RPC_API /\ le_get (take 2 (drop 2 sent)) = seq /\
  le_get (take 4 (drop 4 sent)) = GH_RM_RPC_MEM_ACCEPT /\ le_get (take 4 (drop 8 sent)) = h /\
  le_get (take 8 (drop 28 sent)) = g /\ le_get (take 8 (drop 36 sent)) = z.
Proof.
  intros [Ht Hs] Hh Hg Hz seq sent.
  assert (Hsent : sent = mem_accept_msg seq h g z).
  { unfold sent. change 48%nat with (Z.to_nat (Z.of_nat (length (mem_accept_msg seq h g z)))).
    apply gg_begin_sends. rewrite length_mem_accept_msg. lia. }
  rewrite Hsent, length_mem_accept_msg.
  destruct (mem_accept_msg_fields seq h g z) as (E1 & E2 & E3 & E4 & E5).
  rewrite E1, E2, E3, E4, E5. split; [done|]. split; [lia|]. split.
  { unfold mem_accept_msg, rpc_header. repeat (apply Forall_app; split); apply le_put_bytes. }
  rewrite u32_small, !u64_small by done.
  repeat split. unfold seq. by rewrite u16_small by apply u16_range.
Qed.

(** A reply to any of the previous 65535 requests (a late answer to a request that timed
    out) is never taken for the answer to the current one, whatever the rest of it says. *)
Theorem stale_reply_ignored c err rxlen buf k :
  0 <= k < 2 ^ 16 - 1 -> r_seq (rpc_reply buf) = u16 (gg_seq c - k) ->
  gg_rpc_match (u16 (gg_seq c + 1)) err rxlen buf = false.
Proof.
  intros Hk Hseq. unfold gg_rpc_match.
  destruct (Z.eqb_spec (r_seq (rpc_reply buf)) (u16 (gg_seq c + 1))) as [He|];
    [|by rewrite andb_false_r].
  exfalso. rewrite Hseq in He. unfold u16 in He.
  assert (Hd : (gg_seq c + 1 - (gg_seq c - k)) mod 2 ^ 16 = 0).
  { rewrite Zminus_mod, He, Z.sub_diag. done. }
  replace (gg_seq c + 1 - (gg_seq c - k)) with (k + 1) in Hd by lia.
  rewrite Z.mod_small in Hd by lia. lia.
Qed.

(** Every accept and release keeps the client's invariant (a 64-byte transmit buffer, a
    16-bit sequence number) and its capability ids, and a request that goes out takes the next
    sequence number. *)
Theorem rm_client_invariant {W} `{Hypervisor W} h g z c (w : W) :
  rm_wf c ->
  let a := fst (snd (gunyah_guest_mem_accept h g z (c, w))) in
  let r := fst (snd (gunyah_guest_mem_release h (c, w))) in
  let next := if gg_ready c then u16 (gg_seq c + 1) else gg_seq c in
  rm_wf a /\ rm_wf r /\ gg_seq a = next /\ gg_seq r = next /\
  (gg_tx_capid a, gg_rx_capid a, gg_ready a) = (gg_tx_capid c, gg_rx_capid c, gg_ready c) /\
  (gg_tx_capid r, gg_rx_capid r, gg_ready r) = (gg_tx_capid c, gg_rx_capid c, gg_ready c).
Proof.
  intros Hwf a r next. unfold a, r, next.
  destruct (mem_accept_frame h g z c w) as (b1 & w1 & ->).
  destruct (mem_release_frame h c w) as (b2 & w2 & ->). cbn [fst].
  destruct (gg_ready c) eqn:Hr; cbn; rewrite ?Hr; repeat split; try apply Hwf;
    try apply u16_range; try (apply rm_wf_rxbuf, rm_wf_begin; [cbn; lia | done]).
  all: rewrite length_drop; destruct Hwf as [-> _]; lia.
Qed.

(** a run on a scripted queue: two stale replies and a notification, then the answer *)
Definition demo_client : rm_client :=
  gunyah_guest_init_rm (Some (Some 7, Some 8)) rm_client_boot.
Definition demo_script : script :=
  Script [] [ (0, 12, reply_msg 1 0x51000011 5 ++ replicate 228 0);
              (40, 0, replicate 240 0);
              (0, 12, reply_msg 2 0x51000011 0 ++ replicate 228 0) ].

Example accept_scripted :
  fst (gunyah_guest_mem_accept 0x123 0x200000000 0x200000 (demo_client, demo_script)) = 0.
Proof. vm_compute. reflexivity. Qed.

Lemma mem_accept_wire_format_witness :
  le_get (take 8 (drop 28 (take 48 (gg_txbuf
    (gg_begin demo_client (mem_accept_msg (u16 (gg_seq demo_client + 1)) 0x123 0x200000000 0x200000))))))
  = 0x200000000.
Proof.
  apply (mem_accept_wire_format 0x123 0x200000000 0x200000 demo_client); try (vm_compute; split; congruence || done).
Defined.

Lemma stale_reply_ignored_witness :
  gg_rpc_match (u16 (gg_seq demo_client + 1)) 0 12 (reply_msg 1 0 0) = false.
Proof. apply (stale_reply_ignored demo_client 0 12 (reply_msg 1 0 0) 0); [lia | reflexivity]. Defined.

Lemma rm_client_invariant_witness :
  gg_seq (fst (snd (gunyah_guest_mem_accept 1 2 3 (demo_client, demo_script)))) = 2.
Proof.
  apply (rm_client_invariant 1 2 3 demo_client demo_script).
  split; [reflexivity | vm_compute; split; congruence].
Defined.
