(* ===== verification/AcceptDev.v ===== *)
(** * The runtime accept transport (gunyah_guest/gunyah_guest.c, part 2: queues 0 and 1)

    The host asks over the request queue for a memparcel to be accepted or released; the driver
    calls the RM client (through [RmApi]), records what it owns in a table keyed by IPA, and
    answers on the completion queue. The virtqueues and the kernel heap are the class [VgaEnv];
    [VgaEnvLaws] states what they are relied on for, [VgaRmLaws] what the RM client promises, which
    [AcceptProps] proves of the client of [RmClient]. *)

From stdpp Require Import gmap.
From S2P Require Import Prelude RmClient.

Definition VIRTIO_ID_GUNYAH_ACCEPT : Z := 60.
Definition VGA_OP_ACCEPT : Z := 1.
Definition VGA_OP_RELEASE : Z := 2.
Definition VGA_NUM_REQ_BUFS : nat := 16.

(** ** Wire structs *)

Record virtio_gunyah_accept_req := AcceptReq {
  rq_req_id : Z; rq_op : Z; rq_handle : Z; rq_flags : Z; rq_gpa : Z; rq_size : Z
}.
Definition sizeof_accept_req : Z := 32.

Definition accept_req_of_bytes (b : list Z) : virtio_gunyah_accept_req :=
  AcceptReq (le_get (take 4 b)) (le_get (take 4 (drop 4 b))) (le_get (take 4 (drop 8 b)))
            (le_get (take 4 (drop 12 b))) (le_get (take 8 (drop 16 b))) (le_get (take 8 (drop 24 b))).

(** [struct virtio_gunyah_accept_comp]: the id and the errno in two's complement *)
Definition accept_comp_bytes (req_id ret : Z) : list Z := le_put 4 req_id ++ le_put 4 (u32 ret).

(** ** State *)

Record vga_accepted := Accepted {
  va_addr : Z;       (* where the entry was allocated *)
  va_gpa : Z; va_size : Z; va_handle : Z
}.

Record vga_dev := VgaDev {
  vd_accepted : list vga_accepted;
  vd_req_bufs : list Z;               (* the request buffers' addresses *)
  vd_pool_vq : bool;                  (* pool_vq is set *)
  vd_pool_next_id : Z                 (* u32 *)
}.

Definition set_accepted (d : vga_dev) (l : list vga_accepted) : vga_dev :=
  VgaDev l (vd_req_bufs d) (vd_pool_vq d) (vd_pool_next_id d).

(** ** Environment: the heap and the two queues

    A request buffer comes back as (address, contents, used length). *)
Class VgaEnv (W : Type) := {
  kzalloc : ST W (option Z);
  kfree : Z -> ST W unit;
  req_get_buf : ST W (option (Z * list Z * Z));
  req_add_inbuf : Z -> ST W Z;
  req_kick : ST W unit;
  comp_add_outbuf : Z -> list Z -> ST W Z;
  comp_kick : ST W unit;
  comp_get_buf : ST W (option Z);
  virtio_find_vqs : ST W Z;
  del_vqs : ST W unit;
  virtio_device_ready : ST W unit;
  virtio_reset_device : ST W unit
}.

Section Transport.
Context {W : Type} `{RM : RmApi W} `{EV : VgaEnv W}.

Definition vga_st : Type := vga_dev * W.

(** ** Handlers *)

Definition vga_do_accept (handle gpa size : Z) : ST vga_st Z := fun '(d, w) =>
  if negb (rm_available w) then (- ENODEV, (d, w))
  else if (handle =? 0) || (size =? 0) then (- EINVAL, (d, w))
  else
    let '(ent, w1) := kzalloc w in
    match ent with
    | None => (- ENOMEM, (d, w1))
    | Some a =>
        let '(ret, w2) := rm_mem_accept handle gpa size w1 in
        if c_true ret then (ret, (d, snd (kfree a w2)))
        else (0, (set_accepted d (vd_accepted d ++ [Accepted a gpa size handle]), w2))
    end.

(** [list_for_each_entry] with the body's [return]s: the entries before the match, then it *)
Fixpoint split_gpa (gpa : Z) (l : list vga_accepted)
  : option (list vga_accepted * vga_accepted * list vga_accepted) :=
  match l with
  | [] => None
  | e :: l' =>
      if va_gpa e =? gpa then Some ([], e, l')
      else match split_gpa gpa l' with
           | Some (p, x, s) => Some (e :: p, x, s)
           | None => None
           end
  end.

Definition vga_do_release (gpa : Z) : ST vga_st Z := fun '(d, w) =>
  match split_gpa gpa (vd_accepted d) with
  | Some (p, ent, s) =>
      let '(ret, w1) := rm_mem_release (va_handle ent) w in
      if c_true ret then (ret, (d, w1))
      else (0, (set_accepted d (p ++ s), snd (kfree (va_addr ent) w1)))
  | None => (- ENOENT, (d, w))
  end.

Definition vga_send_completion (req_id ret : Z) : ST W unit := fun w =>
  let '(comp, w1) := kzalloc w in
  match comp with
  | None => (tt, w1)           (* host times out *)
  | Some a =>
      let '(err, w2) := comp_add_outbuf a (accept_comp_bytes req_id ret) w1 in
      if c_true err then kfree a w2 else comp_kick w2
  end.

(** the [switch] of the work function, with its length check *)
Definition vga_dispatch (req : virtio_gunyah_accept_req) (len : Z) : ST vga_st Z := fun st =>
  if len <? sizeof_accept_req then (- EINVAL, st)
  else if rq_op req =? VGA_OP_ACCEPT then
    vga_do_accept (rq_handle req) (rq_gpa req) (rq_size req) st
  else if rq_op req =? VGA_OP_RELEASE then vga_do_release (rq_gpa req) st
  else (- EINVAL, st).

(** one turn of the work function's loop on a returned buffer *)
Definition vga_work_one (a : Z) (bytes : list Z) (len : Z) : ST vga_st unit := fun st =>
  let req := accept_req_of_bytes bytes in
  let '(ret, (d1, w1)) := vga_dispatch req len st in
  let '(_, w2) := vga_send_completion (rq_req_id req) ret w1 in
  let '(err, w3) := req_add_inbuf a w2 in
  if c_true err then (tt, (d1, w3)) else (tt, (d1, snd (req_kick w3))).

(** [while ((req = virtqueue_get_buf(vga->req_vq, &len)))]; false when [fuel] ran out *)
Fixpoint vga_work_func (fuel : nat) : ST vga_st bool := fun '(d, w) =>
  match fuel with
  | O => (false, (d, w))
  | S fuel' =>
      let '(r, w1) := req_get_buf w in
      match r with
      | None => (true, (d, w1))
      | Some (a, bytes, len) =>
          let '(_, st2) := vga_work_one a bytes len (d, w1) in
          vga_work_func fuel' st2
      end
  end.

(** the completion callback: reclaim what the host consumed *)
Fixpoint vga_comp_cb (fuel : nat) : ST W bool := fun w =>
  match fuel with
  | O => (false, w)
  | S fuel' =>
      let '(r, w1) := comp_get_buf w in
      match r with
      | None => (true, w1)
      | Some a => vga_comp_cb fuel' (snd (kfree a w1))
      end
  end.

(** the pre-posting loop of [vga_probe] with [n] buffers to go; the buffers allocated so far *)
Fixpoint vga_post_bufs (n : nat) (bufs : list Z) : ST W (Z * list Z) := fun w =>
  match n with
  | O => ((0, bufs), w)
  | S n' =>
      let '(b, w1) := kzalloc w in
      match b with
      | None => ((- ENOMEM, bufs), w1)
      | Some a =>
          let '(err, w2) := req_add_inbuf a w1 in
          if c_true err then ((err, bufs ++ [a]), w2) else vga_post_bufs n' (bufs ++ [a]) w2
      end
  end.

Fixpoint kfree_all (l : list Z) : ST W unit := fun w =>
  match l with
  | [] => (tt, w)
  | a :: l' => kfree_all l' (snd (kfree a w))
  end.

(** [vga_probe]: the new device (with its own address) on success, and the errno *)
Definition vga_probe : ST W (Z * option (Z * vga_dev)) := fun w =>
  let '(vga, w1) := kzalloc w in
  match vga with
  | None => ((- ENOMEM, None), w1)
  | Some self =>
      let '(ret, w2) := virtio_find_vqs w1 in
      if c_true ret then ((ret, None), snd (kfree self w2))
      else
        let '((err, bufs), w3) := vga_post_bufs VGA_NUM_REQ_BUFS [] w2 in
        if c_true err then
          let '(_, w4) := kfree_all bufs w3 in
          ((err, None), snd (kfree self (snd (del_vqs w4))))
        else
          let w4 := snd (req_kick (snd (virtio_device_ready w3))) in
          ((0, Some (self, VgaDev [] bufs true 1)), w4)
  end.

(** drop the parcels still accepted at removal; errors are ignored *)
Fixpoint vga_release_all (l : list vga_accepted) : ST W unit := fun w =>
  match l with
  | [] => (tt, w)
  | e :: l' =>
      let '(_, w1) := rm_mem_release (va_handle e) w in
      vga_release_all l' (snd (kfree (va_addr e) w1))
  end.

(** [cancel_work_sync(&vga->work)]: work that is only queued never runs; a run in progress is waited
    for, so what it has left of its loop is done first: [Some fuel] *)
Definition cancel_work_sync (running : option nat) : ST vga_st unit := fun st =>
  match running with
  | None => (tt, st)
  | Some fuel => (tt, snd (vga_work_func fuel st))
  end.

(** [vga_remove] of the device allocated at [self]; the singleton is cleared by the caller's
    [vga_singleton == vga] test, see [PoolCtl] *)
Definition vga_remove (running : option nat) (self : Z) (d : vga_dev) : ST W unit := fun w =>
  let '(_, w1) := virtio_reset_device w in
  let '(_, (d1, w2)) := cancel_work_sync running (d, w1) in
  let '(_, w3) := del_vqs w2 in
  let '(_, w4) := vga_release_all (vd_accepted d1) w3 in
  let '(_, w5) := kfree_all (vd_req_bufs d1) w4 in
  kfree self w5.

(** ** The results a run produces, for the statements: those of the dispatches of the work function,
    and those of the releases at removal *)

Fixpoint work_results (fuel : nat) (st : vga_st) : list Z :=
  match fuel with
  | O => []
  | S fuel' =>
      let '(r, w1) := req_get_buf (snd st) in
      match r with
      | None => []
      | Some (a, bytes, len) =>
          fst (vga_dispatch (accept_req_of_bytes bytes) len (fst st, w1)) ::
          work_results fuel' (snd (vga_work_one a bytes len (fst st, w1)))
      end
  end.

Fixpoint release_results (l : list vga_accepted) (w : W) : list (Z * Z) :=
  match l with
  | [] => []
  | e :: l' =>
      let '(ret, w1) := rm_mem_release (va_handle e) w in
      (va_handle e, ret) :: release_results l' (snd (kfree (va_addr e) w1))
  end.

End Transport.

Arguments vga_st : clear implicits.

(** ** What the environment is relied on for

    [vga_obs] is the outside world as the transport can affect it: the live heap blocks, the
    requests the host has completed and not yet been taken, the request buffers posted, the
    completions queued to the host, the completions it has consumed, the parcels the RM holds
    accepted for this VM. *)
Record vga_obs := VgaObs {
  o_heap : gset Z;
  o_pending : list (Z * list Z * Z);
  o_posted : list Z;
  o_comps : list (Z * list Z);
  o_consumed : list Z;
  o_held : list Z
}.

Definition set_held (o : vga_obs) (l : list Z) : vga_obs :=
  VgaObs (o_heap o) (o_pending o) (o_posted o) (o_comps o) (o_consumed o) l.

Class VgaObserved (W : Type) := { obs : W -> vga_obs }.

Class VgaEnvLaws (W : Type) `{VgaEnv W} `{VgaObserved W} : Prop := {
  law_kzalloc w :
    match kzalloc w with
    | (None, w') => obs w' = obs w
    | (Some a, w') => (a ∉ o_heap (obs w)) /\
        obs w' = VgaObs (({[a]} : gset Z) ∪ o_heap (obs w)) (o_pending (obs w)) (o_posted (obs w))
                        (o_comps (obs w)) (o_consumed (obs w)) (o_held (obs w))
    end;
  law_kfree a w :
    obs (snd (kfree a w)) =
    VgaObs (o_heap (obs w) ∖ ({[a]} : gset Z)) (o_pending (obs w)) (o_posted (obs w)) (o_comps (obs w))
           (o_consumed (obs w)) (o_held (obs w));
  law_req_get w :
    match o_pending (obs w) with
    | [] => fst (req_get_buf w) = None /\ obs (snd (req_get_buf w)) = obs w
    | r :: l => fst (req_get_buf w) = Some r /\
        obs (snd (req_get_buf w)) = VgaObs (o_heap (obs w)) l (o_posted (obs w)) (o_comps (obs w))
                                           (o_consumed (obs w)) (o_held (obs w))
    end;
  law_req_add a w :
    obs (snd (req_add_inbuf a w)) =
    if fst (req_add_inbuf a w) =? 0
    then VgaObs (o_heap (obs w)) (o_pending (obs w)) (o_posted (obs w) ++ [a]) (o_comps (obs w))
                (o_consumed (obs w)) (o_held (obs w))
    else obs w;
  law_req_kick w : obs (snd (req_kick w)) = obs w;
  law_comp_add a b w :
    obs (snd (comp_add_outbuf a b w)) =
    if fst (comp_add_outbuf a b w) =? 0
    then VgaObs (o_heap (obs w)) (o_pending (obs w)) (o_posted (obs w)) (o_comps (obs w) ++ [(a, b)])
                (o_consumed (obs w)) (o_held (obs w))
    else obs w;
  law_comp_kick w : obs (snd (comp_kick w)) = obs w;
  law_comp_get w :
    match o_consumed (obs w) with
    | [] => fst (comp_get_buf w) = None /\ obs (snd (comp_get_buf w)) = obs w
    | a :: l => fst (comp_get_buf w) = Some a /\
        obs (snd (comp_get_buf w)) = VgaObs (o_heap (obs w)) (o_pending (obs w)) (o_posted (obs w))
                                            (o_comps (obs w)) l (o_held (obs w))
    end;
  law_find w : obs (snd (virtio_find_vqs w)) = obs w;
  law_ready w : obs (snd (virtio_device_ready w)) = obs w;
  law_reset w : obs (snd (virtio_reset_device w)) = obs w;
  law_del w : obs (snd (del_vqs w)) =
    VgaObs (o_heap (obs w)) (o_pending (obs w)) [] (o_comps (obs w)) (o_consumed (obs w)) (o_held (obs w))
}.

(** What the RM client promises of the parcels the RM holds for this VM: a success did what was
    asked for (the wire carries 32 bits of the handle); a failure did nothing, but for
    [-ETIMEDOUT], when the RM may have done it and the answer not have come. *)
Definition accepted_by_rm (h : Z) (o o' : vga_obs) : Prop := o' = set_held o (o_held o ++ [u32 h]).
Definition released_by_rm (h : Z) (o o' : vga_obs) : Prop :=
  exists l1 l2, o_held o = l1 ++ u32 h :: l2 /\ o' = set_held o (l1 ++ l2).
Definition done_or_lost (ret : Z) (done : vga_obs -> vga_obs -> Prop) (o o' : vga_obs) : Prop :=
  (ret = 0 -> done o o') /\ (ret <> 0 -> o' = o \/ ret = - ETIMEDOUT /\ done o o').

Class VgaRmLaws (W : Type) `{RmApi W} `{VgaObserved W} : Prop := {
  law_accept h g z w :
    done_or_lost (fst (rm_mem_accept h g z w)) (accepted_by_rm h) (obs w) (obs (snd (rm_mem_accept h g z w)));
  law_release h w :
    done_or_lost (fst (rm_mem_release h w)) (released_by_rm h) (obs w) (obs (snd (rm_mem_release h w)))
}.

(** how many calls of a run ended in [-ETIMEDOUT] *)
Definition timeouts (rets : list Z) : nat := length (filter (fun r => r = - ETIMEDOUT) rets).

(** The ledger between the driver's table and the outside world: the parcels the RM holds are
    the table's next to those [others] hold, but for the calls whose answer was lost: parcels in
    [stray] were accepted although the table has no entry, those in [gone] released although it
    has one. The heap blocks are the table's entries and the completions not yet reclaimed, next
    to those [base] owns. *)
Definition vga_owned `{VgaObserved W} (d : vga_dev) (w : W) : list Z :=
  (va_addr <$> vd_accepted d) ++ (fst <$> o_comps (obs w)) ++ o_consumed (obs w).
Definition table_handles (d : vga_dev) : list Z := (fun e => u32 (va_handle e)) <$> vd_accepted d.

Record vga_ledger `{VgaObserved W} (others stray gone : list Z) (base : gset Z) (d : vga_dev) (w : W) : Prop := {
  led_held : o_held (obs w) ++ gone ≡ₚ table_handles d ++ others ++ stray;
  led_heap : o_heap (obs w) = list_to_set (vga_owned d w) ∪ base;
  led_nodup : NoDup (vga_owned d w);
  led_disj : forall a, a ∈ vga_owned d w -> a ∉ base
}.

(** the handles accepted at [gpa], oldest first: what a RELEASE of [gpa] goes through *)
Definition parcels_at (gpa : Z) (l : list vga_accepted) : list Z :=
  va_handle <$> filter (fun e => va_gpa e = gpa) l.

(** The reference server: the requests of a batch are dispatched one after the other on the
    driver's table, each in a world where the RM holds what the previous one left, and each gets
    one (id, result). *)
Inductive served {W} `{RmApi W} `{VgaEnv W} `{VgaObserved W} :
  vga_dev -> list Z -> list (Z * list Z * Z) -> list (Z * Z) -> vga_dev -> list Z -> Prop :=
| served_nil d held : served d held [] [] d held
| served_cons d a bytes len l (w : W) ret d1 w1 rs d' held' :
    vga_dispatch (accept_req_of_bytes bytes) len (d, w) = (ret, (d1, w1)) ->
    served d1 (o_held (obs w1)) l rs d' held' ->
    served d (o_held (obs w)) ((a, bytes, len) :: l)
           ((rq_req_id (accept_req_of_bytes bytes), ret) :: rs) d' held'.

(** ** A concrete environment: the world is its own observation; an RM that accepts every
    parcel and releases the ones it holds, a heap that never runs out *)

Definition fresh (X : gset Z) : Z := above (elements X).

Fixpoint take_out (h : Z) (l : list Z) : option (list Z) :=
  match l with
  | [] => None
  | x :: l' => if x =? h then Some l' else option_map (cons x) (take_out h l')
  end.

#[export] Instance toy_rm : RmApi vga_obs := {
  rm_available w := true;
  rm_mem_accept h g z w :=
    (0, set_held w (o_held w ++ [u32 h]));
  rm_mem_release h w :=
    match take_out (u32 h) (o_held w) with
    | Some l => (0, set_held w l)
    | None => (- EINVAL, w)
    end
}.

#[export] Instance toy_env : VgaEnv vga_obs := {
  kzalloc w := let a := fresh (o_heap w) in
    (Some a, VgaObs (({[a]} : gset Z) ∪ o_heap w) (o_pending w) (o_posted w) (o_comps w) (o_consumed w) (o_held w));
  kfree a w := (tt, VgaObs (o_heap w ∖ ({[a]} : gset Z)) (o_pending w) (o_posted w) (o_comps w) (o_consumed w) (o_held w));
  req_get_buf w := match o_pending w with
    | [] => (None, w)
    | r :: l => (Some r, VgaObs (o_heap w) l (o_posted w) (o_comps w) (o_consumed w) (o_held w))
    end;
  req_add_inbuf a w := (0, VgaObs (o_heap w) (o_pending w) (o_posted w ++ [a]) (o_comps w) (o_consumed w) (o_held w));
  req_kick w := (tt, w);
  comp_add_outbuf a b w :=
    (0, VgaObs (o_heap w) (o_pending w) (o_posted w) (o_comps w ++ [(a, b)]) (o_consumed w) (o_held w));
  comp_kick w := (tt, w);
  comp_get_buf w := match o_consumed w with
    | [] => (None, w)
    | a :: l => (Some a, VgaObs (o_heap w) (o_pending w) (o_posted w) (o_comps w) l (o_held w))
    end;
  virtio_find_vqs w := (0, w);
  del_vqs w := (tt, VgaObs (o_heap w) (o_pending w) [] (o_comps w) (o_consumed w) (o_held w));
  virtio_device_ready w := (tt, w);
  virtio_reset_device w := (tt, w)
}.

(** ** Facts *)

Lemma fresh_spec X : fresh X ∉ X.
Proof.
  unfold fresh. rewrite <- elem_of_elements. apply above_fresh.
Qed.

Lemma take_out_spec h l : match take_out h l with
  | Some l' => exists l1 l2, l = l1 ++ h :: l2 /\ l' = l1 ++ l2
  | None => h ∉ l
  end.
Proof.
  induction l as [|x l IH]; cbn [take_out]; [set_solver|].
  destruct (Z.eqb_spec x h) as [->|Hne]; [by exists [], l|].
  destruct (take_out h l); cbn [option_map]; [|set_solver].
  destruct IH as (l1 & l2 & -> & ->). by exists (x :: l1), l2.
Qed.

#[export] Instance toy_observed : VgaObserved vga_obs := {| obs := fun w => w |}.
#[export] Instance toy_laws : VgaEnvLaws vga_obs.
Proof.
  split; intros; cbn; try done.
  - split; [apply fresh_spec | done].
  - destruct (o_pending w); done.
  - destruct (o_consumed w); done.
Qed.

#[export] Instance toy_rm_laws : VgaRmLaws vga_obs.
Proof.
  split; intros; cbn.
  - by split.
  - pose proof (take_out_spec (u32 h) (o_held w)) as Ht. destruct (take_out (u32 h) (o_held w)) as [l|]; cbn.
    + destruct Ht as (l1 & l2 & E1 & ->). split; [intros _; by exists l1, l2 | done].
    + split; [done | by left].
Qed.

Lemma split_gpa_Some gpa l p x s :
  split_gpa gpa l = Some (p, x, s) ->
  l = p ++ x :: s /\ va_gpa x = gpa /\ Forall (fun e => va_gpa e <> gpa) p.
Proof.
  revert p; induction l as [|e l IH]; intros p Hs; [done|].
  cbn [split_gpa] in Hs. destruct (Z.eqb_spec (va_gpa e) gpa).
  - injection Hs as <- <- <-. done.
  - destruct (split_gpa gpa l) as [[[p' x'] s']|]; [|done]. injection Hs as <- <- <-.
    destruct (IH p' eq_refl) as (-> & Hx & Hp). split; [done|]. split; [done|]. by constructor.
Qed.

Lemma split_gpa_None gpa l : split_gpa gpa l = None <-> Forall (fun e => va_gpa e <> gpa) l.
Proof.
  induction l as [|e l IH]; cbn [split_gpa]; [split; [constructor | done]|].
  destruct (Z.eqb_spec (va_gpa e) gpa) as [He|He].
  - split; [done|]. inversion 1; subst. done.
  - destruct (split_gpa gpa l) as [[[p x] s]|].
    + split; [done|]. inversion 1; subst. by apply IH in H3.
    + split; [|done]. constructor; [done | by apply IH].
Qed.

Lemma parcels_at_app g l1 l2 : parcels_at g (l1 ++ l2) = parcels_at g l1 ++ parcels_at g l2.
Proof. unfold parcels_at. by rewrite filter_app, fmap_app. Qed.

Lemma parcels_at_cons g e l :
  parcels_at g (e :: l) = (if decide (va_gpa e = g) then [va_handle e] else []) ++ parcels_at g l.
Proof. unfold parcels_at. rewrite filter_cons. by case_decide. Qed.

Lemma parcels_at_none g l : Forall (fun e => va_gpa e <> g) l -> parcels_at g l = [].
Proof.
  induction 1 as [|e l He _ IH]; [done|]. rewrite parcels_at_cons, IH, decide_False; done.
Qed.

Lemma served_ids {W} `{RmApi W} `{VgaEnv W} `{VgaObserved W} d held l rs d' held' : served d held l rs d' held' ->
  fst <$> rs = (fun r => rq_req_id (accept_req_of_bytes (snd (fst r)))) <$> l.
Proof.
  induction 1 as [|d a bytes len l w ret d1 w1 rs d' held' Hd Hs IH]; [done|].
  by rewrite !fmap_cons, IH.
Qed.

Section Facts.
Context {W : Type} `{LW : VgaEnvLaws W} `{RM : !RmApi W} `{RL : !VgaRmLaws W}.
Implicit Types (d : vga_dev) (w : W) (others stray gone : list Z) (base : gset Z).

(** two worlds the ledger cannot tell apart *)
Definition same_ledger (w w' : W) : Prop :=
  o_heap (obs w') = o_heap (obs w) /\ o_comps (obs w') = o_comps (obs w) /\
  o_consumed (obs w') = o_consumed (obs w) /\ o_held (obs w') = o_held (obs w).

Lemma ledger_same others stray gone base d w w' :
  same_ledger w w' -> vga_ledger others stray gone base d w -> vga_ledger others stray gone base d w'.
Proof.
  intros (Hh & Hc & Hs & Hr) [L1 L2 L3 L4].
  split; unfold vga_owned in *; rewrite ?Hh, ?Hc, ?Hs, ?Hr; done.
Qed.

Lemma obs_same_ledger w w' : obs w' = obs w -> same_ledger w w'.
Proof. intros E. unfold same_ledger. by rewrite E. Qed.

Lemma ledger_same_dev others stray gone base d d' w :
  vd_accepted d' = vd_accepted d -> vga_ledger others stray gone base d w -> vga_ledger others stray gone base d' w.
Proof. intros Hd [L1 L2 L3 L4]. split; unfold vga_owned, table_handles in *; by rewrite ?Hd. Qed.

(** allocating a block and freeing it again *)
Lemma ledger_alloc_free others stray gone base d w a w1 w2 :
  kzalloc w = (Some a, w1) -> obs w2 = obs w1 ->
  vga_ledger others stray gone base d w -> vga_ledger others stray gone base d (snd (kfree a w2)).
Proof.
  intros Hk He HL. pose proof (law_kzalloc w) as Ha. rewrite Hk in Ha. destruct Ha as [Hfresh Ha].
  apply ledger_same with w; [|done].
  pose proof (law_kfree a w2) as Hf. rewrite He, Ha in Hf. cbn in Hf.
  unfold same_ledger. rewrite Hf. cbn. repeat split. set_solver.
Qed.

Lemma kzalloc_None_same w w1 : kzalloc w = (None, w1) -> same_ledger w w1.
Proof.
  intros Hk. pose proof (law_kzalloc w) as Ha. rewrite Hk in Ha. by apply obs_same_ledger.
Qed.

(** one more call, possibly lost: the ledger with what its answer leaves open *)
Definition ledger_after (ret : Z) others stray gone base d w : Prop :=
  exists stray' gone', vga_ledger others (stray' ++ stray) (gone' ++ gone) base d w /\
    (length stray' + length gone' <= timeouts [ret])%nat.

Lemma ledger_after_same ret others stray gone base d w :
  vga_ledger others stray gone base d w -> ledger_after ret others stray gone base d w.
Proof. intros HL. exists [], []. split; [done | cbn; lia]. Qed.

Lemma timeouts_one ret : ret = - ETIMEDOUT -> timeouts [ret] = 1%nat.
Proof. by intros ->. Qed.

(** the heap and the queues as before, only the parcels the RM holds changed *)
Lemma ledger_set_held others stray gone base d w w' l stray' gone' :
  obs w' = set_held (obs w) l -> l ++ gone' ≡ₚ table_handles d ++ others ++ stray' ->
  vga_ledger others stray gone base d w -> vga_ledger others stray' gone' base d w'.
Proof. intros Ho Hl [L1 L2 L3 L4]. split; unfold vga_owned in *; rewrite Ho; done. Qed.

Lemma ledger_accept others stray gone base d w h g z :
  vga_ledger others stray gone base d w ->
  let '(ret, (d', w')) := vga_do_accept h g z (d, w) in ledger_after ret others stray gone base d' w'.
Proof.
  intros HL. unfold vga_do_accept. case_if; [by apply ledger_after_same|]. case_if; [by apply ledger_after_same|].
  pose proof (law_kzalloc w) as Ha.
  destruct (kzalloc w) as [[a|] w1] eqn:Hk.
  2:{ apply ledger_after_same, ledger_same with w; [by apply obs_same_ledger | done]. }
  destruct Ha as [Hfresh Ha]. destruct (law_accept h g z w1) as [A1 A2].
  destruct (rm_mem_accept h g z w1) as [ret w2]. cbn [fst snd] in A1, A2.
  unfold c_true. destruct (Z.eqb_spec ret 0) as [->|Hne]; cbn [negb].
  - specialize (A1 eq_refl). unfold accepted_by_rm in A1. apply ledger_after_same.
    destruct HL as [L1 L2 L3 L4]. rewrite Ha in A1. cbn in A1.
    split; unfold vga_owned, table_handles in *; rewrite A1; cbn [o_held o_heap o_comps o_consumed vd_accepted set_accepted set_held].
    + assert (Hp : (o_held (obs w) ++ [u32 h]) ++ gone ≡ₚ u32 h :: (o_held (obs w) ++ gone)) by solve_Permutation.
      rewrite Hp, L1, fmap_app. cbn. solve_Permutation.
    + rewrite L2, fmap_app. cbn. rewrite !list_to_set_app_L. cbn. set_solver.
    + rewrite fmap_app. cbn. rewrite <- app_assoc. cbn. rewrite <- Permutation_middle.
      constructor; [|done]. intros Hin. apply Hfresh. rewrite L2. set_solver.
    + intros b Hb. rewrite fmap_app in Hb. cbn in Hb.
      assert (b = a \/ b ∈ (va_addr <$> vd_accepted d) ++ (fst <$> o_comps (obs w)) ++ o_consumed (obs w))
        as [->|Hb'] by set_solver; [|by apply L4].
      intros Hb'. apply Hfresh. rewrite L2. set_solver.
  - destruct (A2 Hne) as [Ec|[-> Ec]].
    { apply ledger_after_same. by apply ledger_alloc_free with w w1. }
    exists [u32 h], []. split; [|by vm_compute].
    assert (Hf : obs (snd (kfree a w2)) = set_held (obs w) (o_held (obs w) ++ [u32 h])).
    { rewrite law_kfree, Ec, Ha. unfold set_held. cbn. f_equal. set_solver. }
    apply ledger_set_held with stray gone w (o_held (obs w) ++ [u32 h]); [done | | done].
    destruct HL as [L1 _ _ _]. assert (Hp : (o_held (obs w) ++ [u32 h]) ++ gone ≡ₚ u32 h :: (o_held (obs w) ++ gone))
      by solve_Permutation. rewrite Hp, L1. cbn [app]. solve_Permutation.
Qed.

Lemma ledger_release others stray gone base d w g :
  vga_ledger others stray gone base d w ->
  let '(ret, (d', w')) := vga_do_release g (d, w) in ledger_after ret others stray gone base d' w'.
Proof.
  intros HL. unfold vga_do_release.
  destruct (split_gpa g (vd_accepted d)) as [[[p x] s]|] eqn:Hs; [|by apply ledger_after_same].
  apply split_gpa_Some in Hs as (Hd & _ & _). destruct (law_release (va_handle x) w) as [R1 R2].
  destruct (rm_mem_release (va_handle x) w) as [ret w1]. cbn [fst snd] in R1, R2.
  unfold c_true. destruct (Z.eqb_spec ret 0) as [->|Hne]; cbn [negb].
  2:{ destruct (R2 Hne) as [E|[-> (l1 & l2 & Hh & E)]].
      { apply ledger_after_same, ledger_same with w; [by apply obs_same_ledger | done]. }
      exists [], [u32 (va_handle x)]. split; [|by vm_compute].
      apply ledger_set_held with stray gone w (l1 ++ l2); [done | | done].
      destruct HL as [L1 _ _ _]. cbn [app]. rewrite <- L1, Hh, <- !app_assoc. cbn. by rewrite <- Permutation_middle. }
  apply ledger_after_same. destruct (R1 eq_refl) as (l1 & l2 & Hh & Hobs). clear R1 R2.
  destruct HL as [L1 L2 L3 L4].
  pose proof (law_kfree (va_addr x) w1) as Hf. rewrite Hobs in Hf. cbn in Hf.
  unfold vga_owned, table_handles in *. rewrite Hd in *.
  rewrite fmap_app, fmap_cons in L1, L2, L3, L4.
  split; unfold vga_owned, table_handles; rewrite Hf; cbn [o_held o_heap o_comps o_consumed vd_accepted set_accepted].
  - rewrite Hh in L1. rewrite fmap_app.
    apply (Permutation_cons_inv (a := u32 (va_handle x))). rewrite <- !app_assoc in L1 |- *.
    rewrite (Permutation_middle l1 (l2 ++ gone)). cbn in L1. rewrite L1. by rewrite <- Permutation_middle.
  - rewrite L2, fmap_app. rewrite <- app_assoc in L3. cbn in L3.
    apply NoDup_app in L3 as (N1 & N2 & N3). apply NoDup_cons in N3 as [N3 N4].
    assert (Hx : va_addr x ∉ va_addr <$> p) by (intros Hx; apply (N2 _ Hx); set_solver).
    assert (Hb : va_addr x ∉ base) by (apply L4; set_solver).
    rewrite !list_to_set_app_L in *. cbn. apply set_eq. intros b.
    rewrite elem_of_difference, !elem_of_union, elem_of_singleton, !elem_of_list_to_set.
    set_solver.
  - rewrite fmap_app. rewrite <- app_assoc in *. cbn in L3.
    rewrite <- Permutation_middle in L3. by apply NoDup_cons in L3 as [_ L3].
  - intros b Hb. apply L4. rewrite fmap_app in Hb. set_solver.
Qed.

Lemma ledger_dispatch others stray gone base d w req len :
  vga_ledger others stray gone base d w ->
  let '(ret, (d', w')) := vga_dispatch req len (d, w) in ledger_after ret others stray gone base d' w'.
Proof.
  intros HL. unfold vga_dispatch. case_if; [by apply ledger_after_same|].
  case_if; [by apply ledger_accept|]. case_if; [by apply ledger_release | by apply ledger_after_same].
Qed.

Lemma ledger_completion others stray gone base d w id ret :
  vga_ledger others stray gone base d w -> vga_ledger others stray gone base d (snd (vga_send_completion id ret w)).
Proof.
  intros HL. unfold vga_send_completion.
  pose proof (law_kzalloc w) as Ha.
  destruct (kzalloc w) as [[a|] w1] eqn:Hk.
  2:{ cbn. by apply ledger_same with w; [apply obs_same_ledger|]. }
  destruct Ha as [Hfresh Ha].
  pose proof (law_comp_add a (accept_comp_bytes id ret) w1) as Hc.
  destruct (comp_add_outbuf a (accept_comp_bytes id ret) w1) as [err w2]. cbn [fst snd] in Hc.
  unfold c_true. destruct (Z.eqb_spec err 0) as [->|Hne]; cbn [negb fst snd].
  - apply ledger_same with w2; [apply obs_same_ledger, law_comp_kick|].
    destruct HL as [L1 L2 L3 L4]. rewrite Ha in Hc. cbn in Hc.
    split; unfold vga_owned in *; rewrite Hc; cbn [o_held o_heap o_comps o_consumed].
    + done.
    + rewrite L2, fmap_app. cbn. rewrite !list_to_set_app_L. cbn. set_solver.
    + rewrite fmap_app. cbn. rewrite <- !app_assoc in *. cbn.
      rewrite (app_assoc (va_addr <$> _)), <- Permutation_middle, <- app_assoc.
      constructor; [|done]. intros Hin. apply Hfresh. rewrite L2. set_solver.
    + intros b Hb. rewrite fmap_app in Hb. cbn in Hb.
      assert (b = a \/ b ∈ (va_addr <$> vd_accepted d) ++ (fst <$> o_comps (obs w)) ++ o_consumed (obs w))
        as [->|Hb'] by set_solver; [|by apply L4].
      intros Hb'. apply Hfresh. rewrite L2. set_solver.
  - by apply ledger_alloc_free with w w1.
Qed.


Lemma ledger_req_add others stray gone base d w a :
  vga_ledger others stray gone base d w -> vga_ledger others stray gone base d (snd (req_add_inbuf a w)).
Proof.
  intros HL. apply ledger_same with w; [|done].
  pose proof (law_req_add a w) as H'. case_match; unfold same_ledger; by rewrite H'.
Qed.

Lemma ledger_work_one others stray gone base d w a bytes len :
  vga_ledger others stray gone base d w ->
  let '(_, (d', w')) := vga_work_one a bytes len (d, w) in
  ledger_after (fst (vga_dispatch (accept_req_of_bytes bytes) len (d, w))) others stray gone base d' w'.
Proof.
  intros HL. unfold vga_work_one.
  pose proof (ledger_dispatch others stray gone base d w (accept_req_of_bytes bytes) len HL) as H1.
  destruct (vga_dispatch _ len (d, w)) as [ret [d1 w1]]. destruct H1 as (st' & go' & H1 & Hn). cbn [fst].
  pose proof (ledger_completion others (st' ++ stray) (go' ++ gone) base d1 w1
    (rq_req_id (accept_req_of_bytes bytes)) ret H1) as H2.
  destruct (vga_send_completion _ ret w1) as [u w2]. cbn [snd] in H2.
  pose proof (ledger_req_add others (st' ++ stray) (go' ++ gone) base d1 w2 a H2) as H3.
  destruct (req_add_inbuf a w2) as [err w3]. cbn [snd] in H3.
  destruct (c_true err); exists st', go'; (split; [|done]); [done|].
  apply ledger_same with w3; [apply obs_same_ledger, law_req_kick | done].
Qed.

Lemma ledger_req_get others stray gone base d w :
  vga_ledger others stray gone base d w -> vga_ledger others stray gone base d (snd (req_get_buf w)).
Proof.
  intros HL. apply ledger_same with w; [|done]. pose proof (law_req_get w) as H'.
  destruct (o_pending (obs w)); destruct H' as [_ H']; unfold same_ledger; by rewrite H'.
Qed.

(** ** What each step does to the queues *)

Lemma done_or_lost_queues ret (done : vga_obs -> vga_obs -> Prop) o o' :
  (forall o o', done o o' -> exists l, o' = set_held o l) -> done_or_lost ret done o o' ->
  exists l, o' = set_held o l.
Proof.
  intros Hd [H1 H2]. destruct (decide (ret = 0)) as [E|E]; [by apply Hd, H1|].
  destruct (H2 E) as [-> | [_ Hl]]; [exists (o_held o); by destruct o | by apply Hd].
Qed.

Lemma accept_queues h g z w : exists l, obs (snd (rm_mem_accept h g z w)) = set_held (obs w) l.
Proof. eapply done_or_lost_queues; [|apply law_accept]. intros o o' ->. by eexists. Qed.
Lemma release_queues h w : exists l, obs (snd (rm_mem_release h w)) = set_held (obs w) l.
Proof. eapply done_or_lost_queues; [|apply law_release]. intros o o' (l1 & l2 & _ & ->). by eexists. Qed.

Lemma dispatch_queues req len d w :
  let w' := snd (snd (vga_dispatch req len (d, w))) in
  o_pending (obs w') = o_pending (obs w) /\ o_posted (obs w') = o_posted (obs w) /\
  o_comps (obs w') = o_comps (obs w).
Proof.
  cbv zeta. unfold vga_dispatch, vga_do_accept, vga_do_release.
  repeat (case_if; [done|]).
  destruct (_ =? VGA_OP_ACCEPT).
  - repeat (case_if; [done|]). pose proof (law_kzalloc w) as Ha.
    destruct (kzalloc w) as [[a|] w1]; cbn [fst snd]; [|by rewrite Ha].
    destruct Ha as [_ Ha]. destruct (accept_queues (rq_handle req) (rq_gpa req) (rq_size req) w1) as [l Hc].
    destruct (rm_mem_accept _ _ _ w1) as [ret w2]. cbn [fst snd] in Hc.
    destruct (c_true ret); cbn [fst snd]; rewrite ?law_kfree, Hc, Ha; done.
  - case_if; [|done]. destruct (split_gpa _ _) as [[[p x] s]|]; [|done].
    destruct (release_queues (va_handle x) w) as [l Hr].
    destruct (rm_mem_release _ w) as [ret w1]. cbn [fst snd] in Hr.
    destruct (c_true ret); cbn [fst snd]; by rewrite ?law_kfree, Hr.
Qed.

(** nothing the driver asks of the heap or the queues is refused *)
Definition env_ok : Prop :=
  (forall w, exists a, fst (kzalloc w) = Some a) /\
  (forall a b w, fst (comp_add_outbuf a b w) = 0) /\ (forall a w, fst (req_add_inbuf a w) = 0).

Lemma completion_sent id ret w : env_ok ->
  exists a, let w' := snd (vga_send_completion id ret w) in
  o_pending (obs w') = o_pending (obs w) /\ o_posted (obs w') = o_posted (obs w) /\
  o_held (obs w') = o_held (obs w) /\
  o_comps (obs w') = o_comps (obs w) ++ [(a, accept_comp_bytes id ret)].
Proof.
  intros (Ek & Ec & _). unfold vga_send_completion.
  destruct (Ek w) as [a Ha]. exists a. cbv zeta. pose proof (law_kzalloc w) as Hk.
  destruct (kzalloc w) as [r w1]. cbn in Ha. subst r. destruct Hk as [_ Hk].
  pose proof (law_comp_add a (accept_comp_bytes id ret) w1) as Hc.
  pose proof (Ec a (accept_comp_bytes id ret) w1) as E0.
  destruct (comp_add_outbuf _ _ w1) as [err w2]. cbn [fst snd] in *. subst err. cbn in Hc |- *.
  rewrite law_comp_kick, Hc, Hk. done.
Qed.

(** one turn of the loop on a healthy environment *)
Lemma work_one_answers a bytes len d w : env_ok ->
  let '(_, (d', w')) := vga_work_one a bytes len (d, w) in
  let req := accept_req_of_bytes bytes in
  exists ret w1 ca, vga_dispatch req len (d, w) = (ret, (d', w1)) /\
  o_pending (obs w') = o_pending (obs w) /\ o_posted (obs w') = o_posted (obs w) ++ [a] /\
  o_held (obs w') = o_held (obs w1) /\
  o_comps (obs w') = o_comps (obs w) ++ [(ca, accept_comp_bytes (rq_req_id req) ret)].
Proof.
  intros Henv. unfold vga_work_one.
  pose proof (dispatch_queues (accept_req_of_bytes bytes) len d w) as Hq. cbv zeta in Hq.
  destruct (vga_dispatch _ len (d, w)) as [ret [d1 w1]]. cbn [fst snd] in Hq.
  destruct (completion_sent (rq_req_id (accept_req_of_bytes bytes)) ret w1 Henv) as (ca & Hc).
  cbv zeta in Hc. destruct (vga_send_completion _ ret w1) as [u w2]. cbn [snd] in Hc.
  destruct Henv as (_ & _ & Ea). specialize (Ea a w2). pose proof (law_req_add a w2) as Hr.
  destruct (req_add_inbuf a w2) as [err w3]. cbn [fst snd] in *. subst err. cbn in Hr |- *.
  exists ret, w1, ca. rewrite law_req_kick, Hr. cbn.
  destruct Hq as (Q1 & Q2 & Q3), Hc as (C1 & C2 & C3 & C4).
  rewrite C1, C2, C3, C4, Q1, Q2, Q3. done.
Qed.

(** the work function takes the batch [o_pending], answers it as the reference server does, one
    completion each in order, and posts every buffer back *)
Lemma work_func_serves l d w : env_ok -> o_pending (obs w) = l ->
  let '(finished, (d', w')) := vga_work_func (S (length l)) (d, w) in
  finished = true /\ o_pending (obs w') = [] /\
  o_posted (obs w') = o_posted (obs w) ++ ((fun r => fst (fst r)) <$> l) /\
  exists results, served d (o_held (obs w)) l results d' (o_held (obs w')) /\
  (snd <$> o_comps (obs w')) = (snd <$> o_comps (obs w)) ++
     ((fun r => accept_comp_bytes (fst r) (snd r)) <$> results).
Proof.
  intros Henv. revert d w; induction l as [|[[a bytes] len] l IH]; intros d w Hp.
  - cbn. pose proof (law_req_get w) as Hg. rewrite Hp in Hg. destruct Hg as [Hg1 Hg2].
    destruct (req_get_buf w) as [r w1]. cbn in *. subst r. rewrite Hg2, Hp.
    split; [done|]. split; [done|]. rewrite app_nil_r. split; [done|].
    exists []. split; [constructor|]. cbn. by rewrite app_nil_r.
  - cbn [length]. generalize dependent (S (length l)). intros fuel IH. cbn [vga_work_func].
    pose proof (law_req_get w) as Hg. rewrite Hp in Hg. destruct Hg as [Hg1 Hg2].
    destruct (req_get_buf w) as [r w1]. cbn [fst snd] in *. subst r.
    pose proof (work_one_answers a bytes len d w1 Henv) as H1.
    destruct (vga_work_one a bytes len (d, w1)) as [u [d2 w2]].
    destruct H1 as (ret & w3 & ca & Hd & P1 & P2 & P4 & P3).
    rewrite Hg2 in P1, P2, P3. cbn in P1, P2, P3.
    assert (Hh : o_held (obs w) = o_held (obs w1)) by (by rewrite Hg2). rewrite Hh.
    specialize (IH d2 w2 P1). rewrite P4 in IH.
    destruct (vga_work_func fuel (d2, w2)) as [fin [d' w']].
    destruct IH as (-> & -> & -> & results & Hs & Hcomp).
    split; [done|]. split; [done|]. split.
    { rewrite P2. cbn. by rewrite <- app_assoc. }
    eexists ((_, ret) :: results). split; [eapply served_cons; eassumption|].
    rewrite Hcomp, P3, fmap_app. cbn. by rewrite <- app_assoc.
Qed.

Lemma timeouts_cons r l : timeouts (r :: l) = (timeouts [r] + timeouts l)%nat.
Proof. unfold timeouts. rewrite !filter_cons. by case_decide. Qed.

Lemma ledger_work_func fuel others stray gone base d w :
  vga_ledger others stray gone base d w ->
  let '(_, (d', w')) := vga_work_func fuel (d, w) in
  exists stray' gone', vga_ledger others (stray' ++ stray) (gone' ++ gone) base d' w' /\
    (length stray' + length gone' <= timeouts (work_results fuel (d, w)))%nat.
Proof.
  revert stray gone d w; induction fuel as [|fuel IH]; intros stray gone d w HL; [by exists [], []|].
  cbn [vga_work_func work_results fst snd].
  pose proof (ledger_req_get others stray gone base d w HL) as Hg.
  destruct (req_get_buf w) as [[[[a bytes] len]|] w1]; cbn [snd] in Hg; [|by exists [], []].
  pose proof (ledger_work_one others stray gone base d w1 a bytes len Hg) as H1.
  rewrite timeouts_cons. set (ret := fst (vga_dispatch _ _ _)) in *.
  destruct (vga_work_one _ _ _ _) as [u [d2 w2]]. destruct H1 as (st1 & go1 & H1 & N1). cbn [snd].
  specialize (IH _ _ d2 w2 H1). destruct (vga_work_func fuel (d2, w2)) as [fin [d' w']].
  destruct IH as (st2 & go2 & H2 & N2). exists (st2 ++ st1), (go2 ++ go1). rewrite <- !app_assoc.
  split; [done|]. rewrite !length_app. lia.
Qed.

(** the completion callback frees exactly what the host consumed *)
Lemma comp_cb_obs l w : o_consumed (obs w) = l ->
  fst (vga_comp_cb (S (length l)) w) = true /\
  obs (snd (vga_comp_cb (S (length l)) w)) =
    VgaObs (o_heap (obs w) ∖ list_to_set l) (o_pending (obs w)) (o_posted (obs w)) (o_comps (obs w))
           [] (o_held (obs w)).
Proof.
  revert w; induction l as [|a l IH]; intros w Hc; cbn [length].
  - cbn. pose proof (law_comp_get w) as Hg. rewrite Hc in Hg. destruct Hg as [Hg1 Hg2].
    destruct (comp_get_buf w) as [r w1]. cbn in *. subst r. split; [done|]. cbn.
    rewrite Hg2, <- Hc. rewrite difference_empty_L. by destruct (obs w).
  - generalize dependent (S (length l)). intros fuel IH. cbn [vga_comp_cb].
    pose proof (law_comp_get w) as Hg. rewrite Hc in Hg. destruct Hg as [Hg1 Hg2].
    destruct (comp_get_buf w) as [r w1]. cbn [fst snd] in *. subst r.
    pose proof (law_kfree a w1) as Hk. rewrite Hg2 in Hk. cbn in Hk.
    destruct (IH (snd (kfree a w1))) as [I1 I2]; [by rewrite Hk|].
    split; [done|]. rewrite I2, Hk. cbn. f_equal. set_solver.
Qed.

Lemma ledger_comp_cb others stray gone base d w :
  vga_ledger others stray gone base d w ->
  vga_ledger others stray gone base d (snd (vga_comp_cb (S (length (o_consumed (obs w)))) w)).
Proof.
  intros [L1 L2 L3 L4]. destruct (comp_cb_obs (o_consumed (obs w)) w eq_refl) as [_ E].
  unfold vga_owned in *. split; unfold vga_owned; rewrite E; cbn; rewrite ?app_nil_r; try done.
  - rewrite L2. rewrite app_assoc in L3.
    apply NoDup_app in L3 as (N1 & N2 & N3). apply set_eq. intros b. specialize (N2 b). specialize (L4 b).
    rewrite elem_of_difference, !elem_of_union, !elem_of_list_to_set.
    rewrite !elem_of_app in *. tauto.
  - rewrite app_assoc in L3. by apply NoDup_app in L3 as (N1 & _ & _).
  - intros b Hb. apply L4. rewrite app_assoc. apply elem_of_app. by left.
Qed.

(** ** Removal and probing *)

Lemma kfree_all_obs l w :
  obs (snd (kfree_all l w)) =
  VgaObs (o_heap (obs w) ∖ list_to_set l) (o_pending (obs w)) (o_posted (obs w)) (o_comps (obs w))
         (o_consumed (obs w)) (o_held (obs w)).
Proof.
  revert w; induction l as [|a l IH]; intros w; cbn [kfree_all].
  - cbn. destruct (obs w); cbn. f_equal. set_solver.
  - rewrite IH, law_kfree. cbn. f_equal. set_solver.
Qed.

(** the handles of the releases that did not succeed *)
Definition refused (l : list (Z * Z)) : list Z := (fun x => u32 (fst x)) <$> filter (fun x => snd x <> 0) l.

(** the sweep: what the RM does not hold any more are the parcels whose release succeeded, and
    perhaps some whose answer was lost *)
Lemma release_all_obs l others stray gone w :
  o_held (obs w) ++ gone ≡ₚ ((fun e => u32 (va_handle e)) <$> l) ++ others ++ stray ->
  let w' := snd (vga_release_all l w) in
  (exists gone', o_held (obs w') ++ gone' ++ gone ≡ₚ refused (release_results l w) ++ others ++ stray /\
     (length gone' <= timeouts (snd <$> release_results l w))%nat) /\
  o_heap (obs w') = o_heap (obs w) ∖ list_to_set (va_addr <$> l) /\
  o_comps (obs w') = o_comps (obs w) /\ o_consumed (obs w') = o_consumed (obs w).
Proof.
  revert others stray gone w; induction l as [|e l IH]; intros others stray gone w Hh;
    cbn [vga_release_all release_results].
  - cbn. split; [by exists []|]. split; [set_solver | done].
  - destruct (law_release (va_handle e) w) as [R1 R2].
    destruct (rm_mem_release (va_handle e) w) as [ret w1]. cbn [fst snd] in R1, R2.
    pose proof (law_kfree (va_addr e) w1) as Hk. rewrite fmap_cons, timeouts_cons. cbn [fmap list_fmap app] in Hh.
    (* the next world, and what it holds of the rest of the list *)
    assert (Hnext : o_heap (obs w1) = o_heap (obs w) /\ o_comps (obs w1) = o_comps (obs w) /\
      o_consumed (obs w1) = o_consumed (obs w)).
    { destruct (decide (ret = 0)) as [E|E].
      - destruct (R1 E) as (l1 & l2 & _ & ->). done.
      - destruct (R2 E) as [-> |[_ (l1 & l2 & _ & ->)]]; done. }
    assert (Hstep : exists extra g', (ret = 0 -> extra = []) /\ (ret <> 0 -> extra = [u32 (va_handle e)]) /\
      o_held (obs (snd (kfree (va_addr e) w1))) ++ g' ++ gone ≡ₚ
        ((fun e => u32 (va_handle e)) <$> l) ++ (extra ++ others) ++ stray /\ (length g' <= timeouts [ret])%nat).
    { rewrite Hk. cbn [o_held]. destruct (decide (ret = 0)) as [->|E].
      - destruct (R1 eq_refl) as (l1 & l2 & Hl & Ho). exists [], []. split_and!; [done | done | | cbn; lia].
        rewrite Ho. cbn. apply (Permutation_cons_inv (a := u32 (va_handle e))). rewrite <- Hh, Hl, <- !app_assoc.
        cbn. by rewrite Permutation_middle.
      - destruct (R2 E) as [Eo|[-> (l1 & l2 & Hl & Ho)]].
        + exists [u32 (va_handle e)], []. split_and!; [done | done | | cbn; lia]. rewrite Eo. cbn. rewrite Hh. solve_Permutation.
        + exists [u32 (va_handle e)], [u32 (va_handle e)]. split_and!; [done | done | | by vm_compute].
          rewrite Ho. cbn. rewrite Hl in Hh.
          transitivity ((l1 ++ u32 (va_handle e) :: l2) ++ gone); [solve_Permutation|]. rewrite Hh. solve_Permutation. }
    destruct Hstep as (extra & g' & X1 & X2 & Hh' & Hn).
    destruct (IH _ _ _ _ Hh') as ((gone' & I1 & I2) & I3 & I4 & I5). cbv zeta.
    rewrite I3, I4, I5, Hk. cbn [o_heap o_comps o_consumed]. destruct Hnext as (-> & -> & ->).
    split_and!; [|cbn; set_solver | done | done].
    exists (gone' ++ g'). rewrite length_app. cbn [snd]. split; [|lia].
    rewrite <- app_assoc, I1. unfold refused. rewrite filter_cons. cbn [snd].
    destruct (decide (ret = 0)) as [E|E]; case_decide; try done.
    + by rewrite (X1 E).
    + rewrite (X2 E). cbn. by rewrite <- Permutation_middle.
Qed.

(** the work function does not touch the list of request buffers *)
Lemma work_func_bufs fuel d w : vd_req_bufs (fst (snd (vga_work_func fuel (d, w)))) = vd_req_bufs d.
Proof.
  revert d w; induction fuel as [|fuel IH]; intros d w; [done|]. cbn [vga_work_func].
  destruct (req_get_buf w) as [[[[a bytes] len]|] w1]; [|done].
  assert (Hd : vd_req_bufs (fst (snd (vga_dispatch (accept_req_of_bytes bytes) len (d, w1)))) = vd_req_bufs d).
  { unfold vga_dispatch, vga_do_accept, vga_do_release. repeat case_if; try done.
    - destruct (kzalloc w1) as [[x|] w2]; [|done]. destruct (rm_mem_accept _ _ _ w2) as [r w3]. by case_if.
    - destruct (split_gpa _ _) as [[[p x] s]|]; [|done]. destruct (rm_mem_release _ w1) as [r w3]. by case_if. }
  unfold vga_work_one. destruct (vga_dispatch _ len (d, w1)) as [ret [d1 w2]]. cbn [fst snd] in Hd.
  destruct (vga_send_completion _ ret w2) as [u w3]. destruct (req_add_inbuf a w3) as [err w4].
  destruct (c_true err); by rewrite IH.
Qed.

Lemma cancel_work_bufs running d w : vd_req_bufs (fst (snd (cancel_work_sync running (d, w)))) = vd_req_bufs d.
Proof. destruct running; [apply work_func_bufs | done]. Qed.

Lemma ledger_cancel running others stray gone base d w :
  vga_ledger others stray gone base d w ->
  let '(_, (d', w')) := cancel_work_sync running (d, w) in
  exists stray' gone', vga_ledger others (stray' ++ stray) (gone' ++ gone) base d' w' /\
    (length stray' + length gone' <= timeouts (match running with Some n => work_results n (d, w) | None => [] end))%nat.
Proof.
  intros HL. destruct running as [n|]; [|by exists [], []]. unfold cancel_work_sync.
  pose proof (ledger_work_func n others stray gone base d w HL) as Hw.
  by destruct (vga_work_func n (d, w)) as [fin [d' w']].
Qed.

(** every entry is passed to the RM once *)
Lemma release_results_handles l w : fst <$> release_results l w = va_handle <$> l.
Proof.
  revert w; induction l as [|e l IH]; intros w; [done|]. cbn [release_results].
  destruct (rm_mem_release (va_handle e) w) as [ret w1]. by rewrite !fmap_cons, IH.
Qed.

Lemma post_bufs_obs n bufs w :
  let '((err, bufs'), w') := vga_post_bufs n bufs w in
  exists new, bufs' = bufs ++ new /\ NoDup new /\
  (forall a, a ∈ new -> a ∉ o_heap (obs w)) /\
  o_heap (obs w') = list_to_set new ∪ o_heap (obs w) /\
  (err = 0 -> length new = n /\ o_posted (obs w') = o_posted (obs w) ++ new).
Proof.
  revert bufs w; induction n as [|n IH]; intros bufs w; cbn [vga_post_bufs].
  - exists []. rewrite !app_nil_r. repeat split; try done; [constructor | set_solver | set_solver].
  - pose proof (law_kzalloc w) as Hk. destruct (kzalloc w) as [[a|] w1].
    2:{ exists []. rewrite app_nil_r, Hk. repeat split; try done; [constructor | set_solver | set_solver]. }
    destruct Hk as [Hf Hk]. pose proof (law_req_add a w1) as Ha.
    destruct (req_add_inbuf a w1) as [err w2]. cbn [fst snd] in Ha. unfold c_true.
    destruct (Z.eqb_spec err 0) as [->|Hne]; cbn [negb].
    + specialize (IH (bufs ++ [a]) w2). destruct (vga_post_bufs n _ w2) as [[e b'] w'].
      destruct IH as (new & -> & Hnd & Hfr & Hh & Herr).
      rewrite Ha, Hk in Hfr, Hh, Herr. cbn in Hfr, Hh, Herr.
      exists (a :: new). split; [by rewrite <- app_assoc|]. split.
      { constructor; [|done]. intros Hin. apply (Hfr a Hin). set_solver. }
      split. { intros b Hb. apply elem_of_cons in Hb as [->|Hb]; [done|]. specialize (Hfr b Hb). set_solver. }
      split. { rewrite Hh. cbn. set_solver. }
      intros He. destruct (Herr He) as [Hl Hp]. cbn. rewrite Hl, Hp, <- app_assoc. done.
    + exists [a]. split; [done|]. split; [by apply NoDup_singleton|]. split; [set_solver|].
      rewrite Ha, Hk. cbn. split; [set_solver | done].
Qed.

Lemma post_bufs_held n bufs w : o_held (obs (snd (vga_post_bufs n bufs w))) = o_held (obs w).
Proof.
  revert bufs w; induction n as [|n IH]; intros bufs w; cbn [vga_post_bufs]; [done|].
  pose proof (law_kzalloc w) as Hk. destruct (kzalloc w) as [[a|] w1]; [|by cbn; rewrite Hk].
  destruct Hk as [_ Hk]. pose proof (law_req_add a w1) as Ha.
  destruct (req_add_inbuf a w1) as [err w2]. cbn [fst snd] in Ha. unfold c_true.
  destruct (err =? 0); cbn [negb snd]; rewrite ?IH, Ha, Hk; done.
Qed.

End Facts.
