(* ===== verification/AcceptProps.v ===== *)
(** * Properties of the accept transport, on the real RM client

    [AcceptDev] is written against the interface [RmApi]. Here the client of [RmClient] is shown to
    keep what [VgaRmLaws] asks of that interface, from what a resource manager does with the
    messages it is sent ([RmHost]); then the properties of the transport, with witnesses that run
    the whole stack over a resource manager that may lose its answers. *)

From stdpp Require Import gmap.
From S2P Require Import Prelude RmClient AcceptDev.

(** ** The resource manager: what the two messages do to the parcels it holds for this VM

    A refused send does nothing. A message that went out is acted on or not; when an answer to it
    arrives, its error code says which. Receiving changes no parcel. *)
Class RmHost (W : Type) `{Hypervisor W} `{VgaObserved W} : Prop := {
  host_recv cap buf size flags w : obs (snd (arm_smccc_1_1_hvc GH_HCALL_MSGQ_RECV cap size buf flags w)) = obs w;
  host_accept cap rx buf seq h g z w :
    let '(err, w1) := gg_msgq_send cap (mem_accept_msg seq h g z) 48 w in
    (err <> 0 -> obs w1 = obs w) /\
    (err = 0 -> (obs w1 = obs w \/ accepted_by_rm h (obs w) (obs w1)) /\
       forall e, first_reply seq (rx_stream 2000 rx buf w1) = Some e ->
         if e =? 0 then accepted_by_rm h (obs w) (obs w1) else obs w1 = obs w);
  host_release cap rx buf seq h w :
    let '(err, w1) := gg_msgq_send cap (mem_release_msg seq h) 16 w in
    (err <> 0 -> obs w1 = obs w) /\
    (err = 0 -> (obs w1 = obs w \/ released_by_rm h (obs w) (obs w1)) /\
       forall e, first_reply seq (rx_stream 2000 rx buf w1) = Some e ->
         if e =? 0 then released_by_rm h (obs w) (obs w1) else obs w1 = obs w)
}.

(** ** The client over such a host *)

#[export] Instance client_observed {W} `{VgaObserved W} : VgaObserved (rm_state W) := {| obs := fun s => obs (snd s) |}.

(** the heap and the queues are the host's; the client is carried along *)
Definition with_client {W A} (m : ST W A) : ST (rm_state W) A := fun s =>
  let '(a, w1) := m (snd s) in (a, (fst s, w1)).
#[export] Instance client_env {W} `{VgaEnv W} : VgaEnv (rm_state W) := {
  kzalloc := with_client kzalloc;
  kfree a := with_client (kfree a);
  req_get_buf := with_client req_get_buf;
  req_add_inbuf a := with_client (req_add_inbuf a);
  req_kick := with_client req_kick;
  comp_add_outbuf a b := with_client (comp_add_outbuf a b);
  comp_kick := with_client comp_kick;
  comp_get_buf := with_client comp_get_buf;
  virtio_find_vqs := with_client virtio_find_vqs;
  del_vqs := with_client del_vqs;
  virtio_device_ready := with_client virtio_device_ready;
  virtio_reset_device := with_client virtio_reset_device
}.

Lemma with_client_run {W A} (m : ST W A) s : with_client m s = (fst (m (snd s)), (fst s, snd (m (snd s)))).
Proof. unfold with_client. by destruct (m (snd s)). Qed.

#[export] Instance client_env_laws {W} `{LW : VgaEnvLaws W} : VgaEnvLaws (rm_state W).
Proof.
  split; intros; cbn [kzalloc kfree req_get_buf req_add_inbuf req_kick comp_add_outbuf comp_kick comp_get_buf
    virtio_find_vqs del_vqs virtio_device_ready virtio_reset_device client_env obs client_observed];
    rewrite ?with_client_run; cbn [fst snd].
  - pose proof (law_kzalloc (snd w)) as Hl. by destruct (kzalloc (snd w)) as [[a|] w1].
  - apply law_kfree.
  - apply law_req_get.
  - apply law_req_add.
  - apply law_req_kick.
  - apply law_comp_add.
  - apply law_comp_kick.
  - apply law_comp_get.
  - apply law_find.
  - apply law_ready.
  - apply law_reset.
  - apply law_del.
Qed.

Section Client.
Context {W : Type} `{HV : Hypervisor W} `{VO : !VgaObserved W} `{RH : !RmHost W}.

Lemma poll_quiet n seq c (w : W) : obs (snd (snd (gg_rpc_poll n seq (c, w)))) = obs w.
Proof.
  revert c w; induction n as [|n IH]; intros c w; [done|]. rewrite gg_rpc_poll_S. unfold gg_msgq_recv.
  pose proof (host_recv (gg_rx_capid c) (gg_rxbuf c) GH_RM_MSGQ_MSG_SIZE 0 w) as Hq.
  destruct (arm_smccc_1_1_hvc _ _ _ _ _ w) as [[[a0 a1] b] w1]. cbn [snd] in Hq.
  destruct (gg_rpc_match _ _ _ _); [done|]. by rewrite IH.
Qed.

(** one RPC of a host that keeps to its word: what it did, by the client's result *)
Lemma rpc_done (done : vga_obs -> vga_obs -> Prop) seq msg rej c (w : W) :
  rej <> 0 ->
  (let '(err, w1) := gg_msgq_send (gg_tx_capid c) msg (Z.of_nat (length msg)) w in
   (err <> 0 -> obs w1 = obs w) /\
   (err = 0 -> (obs w1 = obs w \/ done (obs w) (obs w1)) /\
      forall e, first_reply seq (rx_stream 2000 (gg_rx_capid c) (gg_rxbuf c) w1) = Some e ->
        if e =? 0 then done (obs w) (obs w1) else obs w1 = obs w)) ->
  let '((ret, e), (_, w')) := gg_rpc (Z.of_nat (length msg)) seq (gg_begin c msg, w) in
  done_or_lost (if c_true ret then ret else if c_true e then rej else 0) done (obs w) (obs w').
Proof.
  intros Hrej Hh. unfold gg_rpc. unfold gg_begin at 1 2. cbn [gg_tx_capid gg_txbuf]. rewrite Nat2Z.id, take_app_length.
  destruct (gg_msgq_send _ msg _ w) as [err w1]. destruct Hh as [H1 H2]. unfold c_true at 1.
  destruct (Z.eqb_spec err 0) as [->|Hne]; cbn [negb].
  2:{ specialize (H1 Hne). rewrite H1. split; [done | by left]. }
  destruct (H2 eq_refl) as [H3 H4]. clear H1 H2.
  pose proof (poll_quiet 2000 seq (gg_begin c msg) w1) as Hq.
  pose proof (gg_rpc_poll_first 2000 seq (gg_begin c msg) w1) as Hf.
  destruct (gg_rpc_poll 2000 seq (gg_begin c msg, w1)) as [r [c2 w2]]. cbn [fst snd] in Hq, Hf.
  unfold gg_begin in Hf. cbn [gg_rx_capid gg_rxbuf] in Hf. destruct r as [e|].
  - specialize (H4 e (eq_sym Hf)). change (c_true 0) with false. cbv iota. rewrite Hq. unfold c_true.
    destruct (e =? 0); cbn [negb]; split; intros; try done; by left.
  - change (c_true (- ETIMEDOUT)) with true. cbv iota. rewrite Hq. split; [done|]. intros _.
    destruct H3 as [->|Hd]; [by left | by right].
Qed.

(** the client keeps the interface's promise *)
#[export] Instance client_rm_laws : VgaRmLaws (rm_state W).
Proof.
  split.
  - intros h g z [c w]. cbn [rm_mem_accept rm_client_api obs client_observed snd]. unfold gunyah_guest_mem_accept.
    destruct (gg_ready c); cbn [negb]; [|split; [done | by left]]. cbv zeta.
    set (seq := u16 (gg_seq c + 1)). set (msg := mem_accept_msg seq h g z).
    pose proof (rpc_done (accepted_by_rm h) seq msg (- EACCES) c w ltac:(done)
      (host_accept (gg_tx_capid c) (gg_rx_capid c) (gg_rxbuf c) seq h g z w)) as Hd.
    destruct (gg_rpc _ _ _) as [[ret e] [c2 w2]]. by destruct (c_true ret), (c_true e).
  - intros h [c w]. cbn [rm_mem_release rm_client_api obs client_observed snd]. unfold gunyah_guest_mem_release.
    destruct (gg_ready c); cbn [negb]; [|split; [done | by left]]. cbv zeta.
    set (seq := u16 (gg_seq c + 1)). set (msg := mem_release_msg seq h).
    pose proof (rpc_done (released_by_rm h) seq msg (- EIO) c w ltac:(done)
      (host_release (gg_tx_capid c) (gg_rx_capid c) (gg_rxbuf c) seq h w)) as Hd.
    destruct (gg_rpc _ _ _) as [[ret e] [c2 w2]]. by destruct (c_true ret), (c_true e).
Qed.
End Client.

(** ** A resource manager behind a mailbox: it does what it is told, answers each message, and
    loses the answers its plan says *)

Record mailbox := Mailbox { mb_obs : vga_obs; mb_rx : list (list Z); mb_lose : list bool }.

(** what it does with a message, and the error code it answers *)
Definition rm_serve (msg : list Z) (o : vga_obs) : Z * vga_obs :=
  let h := le_get (take 4 (drop 8 msg)) in
  if le_get (take 4 (drop 4 msg)) =? GH_RM_RPC_MEM_ACCEPT then (0, set_held o (o_held o ++ [h]))
  else match take_out h (o_held o) with Some l => (0, set_held o l) | None => (22, o) end.

#[export] Instance mailbox_hypervisor : Hypervisor mailbox := {
  arm_smccc_1_1_hvc fn cap size buf flags w :=
    if fn =? GH_HCALL_MSGQ_SEND then
      let '(e, o) := rm_serve buf (mb_obs w) in
      let reply := reply_msg (le_get (take 2 (drop 2 buf))) (le_get (take 4 (drop 4 buf))) e ++ replicate 228 0 in
      ((0, 0, buf), Mailbox o (if default false (head (mb_lose w)) then [] else [reply]) (tail (mb_lose w)))
    else match mb_rx w with
         | [] => ((40, 0, buf), w)
         | r :: rest => ((0, 240, r), Mailbox (mb_obs w) rest (mb_lose w))
         end
}.

#[export] Instance mailbox_observed : VgaObserved mailbox := {| obs := mb_obs |}.
Definition in_mailbox {A} (m : ST vga_obs A) : ST mailbox A := fun w =>
  let '(a, o) := m (mb_obs w) in (a, Mailbox o (mb_rx w) (mb_lose w)).
#[export] Instance mailbox_env : VgaEnv mailbox := {
  kzalloc := in_mailbox kzalloc;
  kfree a := in_mailbox (kfree a);
  req_get_buf := in_mailbox req_get_buf;
  req_add_inbuf a := in_mailbox (req_add_inbuf a);
  req_kick := in_mailbox req_kick;
  comp_add_outbuf a b := in_mailbox (comp_add_outbuf a b);
  comp_kick := in_mailbox comp_kick;
  comp_get_buf := in_mailbox comp_get_buf;
  virtio_find_vqs := in_mailbox virtio_find_vqs;
  del_vqs := in_mailbox del_vqs;
  virtio_device_ready := in_mailbox virtio_device_ready;
  virtio_reset_device := in_mailbox virtio_reset_device
}.
#[export] Instance mailbox_laws : VgaEnvLaws mailbox.
Proof.
  split; intros; cbn; try done.
  - split; [apply fresh_spec | done].
  - unfold in_mailbox. cbn. destruct (o_pending (mb_obs w)); done.
  - unfold in_mailbox. cbn. destruct (o_consumed (mb_obs w)); done.
Qed.

(** an empty mailbox never answers *)
Lemma rx_stream_empty n seq rx buf (w : mailbox) : mb_rx w = [] -> first_reply seq (rx_stream n rx buf w) = None.
Proof.
  intros Hw. revert buf; induction n as [|n IH]; intros buf; [done|]. rewrite rx_stream_S. unfold gg_msgq_recv.
  cbn [arm_smccc_1_1_hvc mailbox_hypervisor]. change (GH_HCALL_MSGQ_RECV =? GH_HCALL_MSGQ_SEND) with false.
  cbv iota. rewrite Hw. rewrite first_reply_cons. cbn [fst snd]. apply IH.
Qed.

(** and one with an answer to this message gives its error code *)
Lemma rx_stream_one n seq seq' e rx buf (w : mailbox) mid r : u32 e = e ->
  mb_rx w = [reply_msg seq' mid e ++ replicate 228 0] -> 
  first_reply seq (rx_stream n rx buf w) = Some r -> r = e.
Proof.
  intros He Hw. destruct n as [|n]; [done|]. rewrite rx_stream_S. unfold gg_msgq_recv.
  cbn [arm_smccc_1_1_hvc mailbox_hypervisor]. change (GH_HCALL_MSGQ_RECV =? GH_HCALL_MSGQ_SEND) with false.
  cbv iota. rewrite Hw. rewrite first_reply_cons. cbn [fst snd]. rewrite rpc_reply_reply_msg. cbn [r_err_code].
  destruct (gg_rpc_match _ _ _ _).
  - intros [= <-]. done.
  - by rewrite rx_stream_empty.
Qed.

#[export] Instance mailbox_rm : RmHost mailbox.
Proof.
  split.
  - intros. cbn [arm_smccc_1_1_hvc mailbox_hypervisor]. change (GH_HCALL_MSGQ_RECV =? GH_HCALL_MSGQ_SEND) with false.
    cbv iota. by destruct (mb_rx w).
  - intros cap rx buf seq h g z w. unfold gg_msgq_send. cbn [arm_smccc_1_1_hvc mailbox_hypervisor].
    change (GH_HCALL_MSGQ_SEND =? GH_HCALL_MSGQ_SEND) with true. cbv iota.
    destruct (mem_accept_msg_fields seq h g z) as (_ & E2 & E3 & _ & _).
    set (msg := mem_accept_msg seq h g z) in *. unfold rm_serve. rewrite E2, E3, Z.eqb_refl. cbv iota beta.
    split; [done|]. intros _. split; [by right|]. intros e Hf.
    destruct (default false (head (mb_lose w))); [by rewrite rx_stream_empty in Hf|].
    by eapply (rx_stream_one _ _ _ 0) in Hf as ->.
  - intros cap rx buf seq h w. unfold gg_msgq_send. cbn [arm_smccc_1_1_hvc mailbox_hypervisor].
    change (GH_HCALL_MSGQ_SEND =? GH_HCALL_MSGQ_SEND) with true. cbv iota.
    set (msg := mem_release_msg seq h) in *.
    assert (E3 : le_get (take 4 (drop 8 msg)) = u32 h) by (change (take 4 _) with (le_put 4 h); apply le_get_put_4).
    unfold rm_serve. rewrite E3. change (le_get (take 4 (drop 4 msg))) with GH_RM_RPC_MEM_RELEASE.
    change (GH_RM_RPC_MEM_RELEASE =? GH_RM_RPC_MEM_ACCEPT) with false. cbv iota.
    pose proof (take_out_spec (u32 h) (o_held (mb_obs w))) as Ht.
    destruct (take_out (u32 h) (o_held (mb_obs w))) as [l|]; split; try done; intros _; cbn [obs mailbox_observed mb_obs].
    + destruct Ht as (l1 & l2 & E1 & ->). assert (Hr : released_by_rm h (mb_obs w) (set_held (mb_obs w) (l1 ++ l2)))
        by (by exists l1, l2).
      split; [by right|]. intros e Hf. destruct (default false (head (mb_lose w))); [by rewrite rx_stream_empty in Hf|].
      by eapply (rx_stream_one _ _ _ 0) in Hf as ->.
    + split; [by left|]. intros e Hf. destruct (default false (head (mb_lose w))); [by rewrite rx_stream_empty in Hf|].
      by eapply (rx_stream_one _ _ _ 22) in Hf as ->.
Qed.

(** ** Properties *)

Lemma filter_ne_parcels g g' p x s : va_gpa x = g -> g' <> g ->
  parcels_at g' (p ++ x :: s) = parcels_at g' (p ++ s).
Proof.
  intros Hx Hne. rewrite !parcels_at_app, parcels_at_cons, decide_False; [done | congruence].
Qed.

(** An ACCEPT either succeeds, and then the RM has accepted a non-empty parcel with a
    non-zero handle, which is entered last in the owner table and is the only change to it, or
    fails with the table and the heap exactly as they were; the parcels held are too, but for a
    call that timed out, which may have accepted the parcel. *)
Theorem do_accept_all_or_nothing {W} `{VgaEnvLaws W} `{RM : !RmApi W} `{RL : !VgaRmLaws W} h g z d (w : W) :
  let '(ret, (d', w')) := vga_do_accept h g z (d, w) in
  if ret =? 0
  then rm_available w = true /\ h <> 0 /\ z <> 0 /\
       o_held (obs w') = o_held (obs w) ++ [u32 h] /\
       exists a, (a ∉ o_heap (obs w)) /\ o_heap (obs w') = ({[a]} : gset Z) ∪ o_heap (obs w) /\
         d' = set_accepted d (vd_accepted d ++ [Accepted a g z h])
  else d' = d /\ (obs w' = obs w \/ ret = - ETIMEDOUT /\ accepted_by_rm h (obs w) (obs w')) /\
       (rm_available w = false -> ret = - ENODEV) /\
       (rm_available w = true -> h = 0 \/ z = 0 -> ret = - EINVAL).
Proof.
  unfold vga_do_accept. case_if; bool_prop; [cbn; split_and!; try congruence; by left|].
  case_if. { cbn. apply orb_true_iff in E0. split_and!; try congruence; by left. }
  bool_prop. pose proof (law_kzalloc w) as Ha.
  destruct (kzalloc w) as [[a|] w1]; [|cbn; split_and!; [done | by left | congruence | lia]].
  destruct Ha as [Hf Ha]. destruct (law_accept h g z w1) as [A1 A2].
  destruct (rm_mem_accept h g z w1) as [ret w2]. cbn [fst snd] in A1, A2.
  unfold c_true. destruct (Z.eqb_spec ret 0) as [->|Hne]; cbn [negb].
  - cbn. rewrite (A1 eq_refl), Ha. cbn. split_and!; try done. by exists a.
  - rewrite (proj2 (Z.eqb_neq ret 0)) by done. rewrite law_kfree.
    assert (Hheap : forall l, VgaObs ((({[a]} : gset Z) ∪ o_heap (obs w)) ∖ {[a]}) (o_pending (obs w)) (o_posted (obs w))
      (o_comps (obs w)) (o_consumed (obs w)) l = set_held (obs w) l) by (intros l; unfold set_held; f_equal; set_solver).
    split_and!; [done | | congruence | lia]. destruct (A2 Hne) as [E2|[-> E2]]; rewrite E2, Ha; cbn; rewrite Hheap.
    + left. by destruct (obs w).
    + by right.
Qed.

(** A RELEASE of an IPA returns the oldest parcel accepted there: ENOENT and no effect when
    the table has none; otherwise the RM decides, the entry goes only on the RM's success, and
    the parcels of every other IPA are untouched. *)
Theorem do_release_fifo {W} `{RmApi W} `{VgaEnv W} g d (w : W) :
  let '(ret, (d', w')) := vga_do_release g (d, w) in
  match parcels_at g (vd_accepted d) with
  | [] => ret = - ENOENT /\ d' = d /\ w' = w
  | h :: later =>
      ret = fst (rm_mem_release h w) /\
      (ret <> 0 -> d' = d /\ w' = snd (rm_mem_release h w)) /\
      (ret = 0 -> parcels_at g (vd_accepted d') = later /\
                  forall g', g' <> g -> parcels_at g' (vd_accepted d') = parcels_at g' (vd_accepted d))
  end.
Proof.
  unfold vga_do_release. destruct (split_gpa g (vd_accepted d)) as [[[p x] s]|] eqn:Hs.
  - apply split_gpa_Some in Hs as (Hd & Hx & Hp).
    rewrite Hd, parcels_at_app, (parcels_at_none _ _ Hp), parcels_at_cons, decide_True by done.
    cbn [app]. destruct (rm_mem_release (va_handle x) w) as [ret w1]. unfold c_true.
    destruct (Z.eqb_spec ret 0) as [->|Hne]; cbn [negb fst snd].
    + repeat split; try done; intros; cbn [vd_accepted set_accepted].
      * by rewrite parcels_at_app, (parcels_at_none _ _ Hp).
      * by rewrite (filter_ne_parcels g).
    + repeat split; done.
  - apply split_gpa_None in Hs. rewrite (parcels_at_none _ _ Hs). done.
Qed.

(** C5: the owner ledger is an invariant of the request work function, whatever the host sends
    and whatever fails: the parcels the RM holds for this VM stay those in the table (plus those
    of other owners), and the heap blocks stay exactly the table's entries and the completions in
    flight, so nothing is leaked, freed twice or released twice. The only deviations are calls the
    client reported as [-ETIMEDOUT], whose outcome it cannot know: each leaves at most one parcel
    accepted without an entry, or released with one; when none timed out the ledger is exact. *)
Theorem work_func_keeps_ledger {W} `{VgaEnvLaws W} `{RM : !RmApi W} `{RL : !VgaRmLaws W}
  fuel others stray gone base d (w : W) (HL : vga_ledger others stray gone base d w) :
  let '(_, (d', w')) := vga_work_func fuel (d, w) in
  exists stray' gone',
    (length stray' + length gone' <= timeouts (work_results fuel (d, w)))%nat /\
    vga_ledger others (stray' ++ stray) (gone' ++ gone) base d' w' /\
    vga_ledger others (stray' ++ stray) (gone' ++ gone) base d'
      (snd (vga_comp_cb (S (length (o_consumed (obs w')))) w')).
Proof.
  pose proof (ledger_work_func fuel others stray gone base d w HL) as Hw.
  destruct (vga_work_func fuel (d, w)) as [fin [d' w']]. destruct Hw as (st & go & Hw & Hn).
  exists st, go. split_and!; [done | done | by apply ledger_comp_cb].
Qed.

(** a batch the host left: accept 7 at 0x1000, release it, an unknown op and a short message *)
Definition toy_request (id op handle gpa size : Z) : list Z :=
  le_put 4 id ++ le_put 4 op ++ le_put 4 handle ++ le_put 4 0 ++ le_put 8 gpa ++ le_put 8 size.

Definition toy_batch : list (Z * list Z * Z) :=
  [(10, toy_request 1 VGA_OP_ACCEPT 7 4096 8192, 32);
   (11, toy_request 2 VGA_OP_ACCEPT 8 4096 8192, 32);
   (12, toy_request 3 VGA_OP_RELEASE 0 4096 0, 32);
   (13, toy_request 4 9 0 0 0, 32);
   (10, toy_request 5 VGA_OP_ACCEPT 9 4096 8192, 16)].

Definition toy_world : vga_obs := VgaObs ({[1; 10; 11; 12; 13]} : gset Z) toy_batch [] [] [] [3].
Definition toy_dev : vga_dev := VgaDev [] [10; 11; 12; 13] true 1.

(** the real client on the mailbox: the answer to the second message is lost *)
Definition mail_world (lose : list bool) (o : vga_obs) : rm_state mailbox := (demo_client, Mailbox o [] lose).

Lemma mail_ledger lose :
  vga_ledger [3] [] [] ({[1; 10; 11; 12; 13]} : gset Z) toy_dev (mail_world lose toy_world).
Proof.
  split; cbn; [done | set_solver | constructor|]. intros a Ha. by apply elem_of_nil in Ha.
Qed.

Lemma work_func_keeps_ledger_witness :
  let '(_, (d', w')) := vga_work_func 6 (toy_dev, mail_world [false; true] toy_world) in
  exists stray' gone',
    (length stray' + length gone' <= timeouts (work_results 6 (toy_dev, mail_world [false; true] toy_world)))%nat /\
    vga_ledger [3] (stray' ++ []) (gone' ++ []) ({[1; 10; 11; 12; 13]} : gset Z) d' w' /\
    vga_ledger [3] (stray' ++ []) (gone' ++ []) ({[1; 10; 11; 12; 13]} : gset Z) d'
      (snd (vga_comp_cb (S (length (o_consumed (obs w')))) w')).
Proof. apply (work_func_keeps_ledger 6 [3] [] [] _ toy_dev), mail_ledger. Defined.

(** there the second accept is answered with [-ETIMEDOUT] although the RM holds the parcel *)
Example mail_batch :
  let '(_, (d', (_, m))) := vga_work_func 6 (toy_dev, mail_world [false; true] toy_world) in
  (work_results 6 (toy_dev, mail_world [false; true] toy_world), va_handle <$> vd_accepted d', o_held (mb_obs m)) =
  ([0; - ETIMEDOUT; 0; - EINVAL; - EINVAL], [], [3; 8]).
Proof. vm_compute. reflexivity. Qed.

(** In an environment that refuses nothing, one run of the work function drains the queue:
    every request completed by the host is dispatched once, in order, gets exactly one
    completion carrying its id and its result, and its buffer goes back to the queue. *)
Theorem work_func_answers_batch {W} `{VgaEnvLaws W} `{RM : !RmApi W} `{RL : !VgaRmLaws W} batch d (w : W)
  (Henv : env_ok (W := W)) (Hbatch : o_pending (obs w) = batch) :
  let '(finished, (d', w')) := vga_work_func (S (length batch)) (d, w) in
  finished = true /\ o_pending (obs w') = [] /\
  o_posted (obs w') = o_posted (obs w) ++ ((fun r => fst (fst r)) <$> batch) /\
  exists results, served d (o_held (obs w)) batch results d' (o_held (obs w')) /\
  fst <$> results = (fun r => rq_req_id (accept_req_of_bytes (snd (fst r)))) <$> batch /\
  (snd <$> o_comps (obs w')) = (snd <$> o_comps (obs w)) ++
     ((fun r => accept_comp_bytes (fst r) (snd r)) <$> results).
Proof.
  pose proof (work_func_serves batch d w Henv Hbatch) as Hs.
  destruct (vga_work_func _ _) as [fin [d' w']].
  destruct Hs as (-> & -> & -> & results & Hs & Hc). repeat split; try done.
  exists results. split; [done|]. split; [by eapply served_ids | done].
Qed.

Lemma toy_env_ok : env_ok (W := vga_obs).
Proof. split; [intros w; by eexists | done]. Qed.

Lemma work_func_answers_batch_witness :
  let '(finished, (d', w')) := vga_work_func (S (length toy_batch)) (toy_dev, toy_world) in
  finished = true /\ o_pending (obs w') = [] /\
  o_posted (obs w') = o_posted (obs toy_world) ++ ((fun r => fst (fst r)) <$> toy_batch) /\
  exists results, served toy_dev (o_held (obs toy_world)) toy_batch results d' (o_held (obs w')) /\
  fst <$> results = (fun r => rq_req_id (accept_req_of_bytes (snd (fst r)))) <$> toy_batch /\
  (snd <$> o_comps (obs w')) = (snd <$> o_comps (obs toy_world)) ++
     ((fun r => accept_comp_bytes (fst r) (snd r)) <$> results).
Proof. apply work_func_answers_batch; [apply toy_env_ok | reflexivity]. Defined.

(** the answers of the sample batch: both accepts succeed, the release pops the older one, the
    unknown op and the short message are refused *)
Example toy_batch_answers :
  let '(_, (d', w')) := vga_work_func 6 (toy_dev, toy_world) in
  (snd <$> o_comps w', va_handle <$> vd_accepted d', o_held w') =
  ([accept_comp_bytes 1 0; accept_comp_bytes 2 0; accept_comp_bytes 3 0;
    accept_comp_bytes 4 (- EINVAL); accept_comp_bytes 5 (- EINVAL)], [8], [3; 8]).
Proof. vm_compute. reflexivity. Qed.

(** C34: removal returns the accepted parcels to the RM and the memory to the heap. The device is
    reset, a run of the work function in progress is waited for and may still serve requests, and
    the handle of every entry then in the table is passed to the RM once, in order, whatever the
    earlier answers were. Afterwards the RM holds for this VM what others own and the parcels whose
    release it refused, and nothing else, but for calls reported as [-ETIMEDOUT], at most one parcel
    each. The table, the request buffers and the device are freed; the only blocks of the ledger
    left allocated are the completions still in the completion queue, which nothing detaches. *)
Theorem vga_remove_returns_all {W} `{VgaEnvLaws W} `{RM : !RmApi W} `{RL : !VgaRmLaws W}
  running others stray gone base self d (w : W) (HL : vga_ledger others stray gone base d w)
  (Hself : self ∈ base) (Hbufs : forall a, a ∈ vd_req_bufs d -> a ∈ base) :
  let '(_, (d1, w1)) := cancel_work_sync running (d, snd (virtio_reset_device w)) in
  let sweep := release_results (vd_accepted d1) (snd (del_vqs w1)) in
  let w' := snd (vga_remove running self d w) in
  (exists stray' gone',
     o_held (obs w') ++ gone' ++ gone ≡ₚ refused sweep ++ others ++ stray' ++ stray /\
     (length stray' + length gone' <= timeouts (snd <$> sweep) +
        timeouts (match running with
                  | Some n => work_results n (d, snd (virtio_reset_device w)) | None => [] end))%nat) /\
  (fst <$> sweep) = va_handle <$> vd_accepted d1 /\
  o_heap (obs w') = list_to_set ((fst <$> o_comps (obs w')) ++ o_consumed (obs w')) ∪
                    base ∖ list_to_set (self :: vd_req_bufs d).
Proof.
  unfold vga_remove. pose proof (law_reset w) as E1. destruct (virtio_reset_device w) as [u1 w0]. cbn [snd] in *.
  pose proof (ledger_same others stray gone base d w w0 (obs_same_ledger _ _ E1) HL) as HL0.
  pose proof (ledger_cancel running others stray gone base d w0 HL0) as Hc.
  pose proof (cancel_work_bufs running d w0) as Hb.
  destruct (cancel_work_sync running (d, w0)) as [u2 [d1 w1]]. cbn [fst snd] in Hb. destruct Hc as (st & go & HL1 & Hn).
  pose proof (law_del w1) as E2. destruct (del_vqs w1) as [u3 w2]. cbn [snd] in *.
  destruct HL1 as [L1 L2 L3 L4]. cbv zeta.
  pose proof (release_all_obs (vd_accepted d1) others (st ++ stray) (go ++ gone) w2) as E3. rewrite E2 in E3.
  specialize (E3 L1). cbn [o_heap o_comps o_consumed] in E3. cbv zeta in E3.
  destruct (vga_release_all (vd_accepted d1) w2) as [u4 w3]. cbn [snd] in E3.
  destruct E3 as ((go' & R1 & R2) & R3 & R4 & R5).
  pose proof (kfree_all_obs (vd_req_bufs d1) w3) as E4.
  destruct (kfree_all (vd_req_bufs d1) w3) as [u5 w4]. cbn [snd] in E4.
  rewrite law_kfree, E4. cbn [o_held o_heap o_comps o_consumed]. rewrite R3, R4, R5, L2, Hb. split_and!.
  - exists st, (go' ++ go). rewrite <- !app_assoc. split; [by rewrite R1 | rewrite length_app; lia].
  - apply release_results_handles.
  - unfold vga_owned in *. apply NoDup_app in L3 as (_ & N2 & _). cbn.
    apply set_eq. intros b. specialize (N2 b). specialize (L4 b). specialize (Hbufs b).
    assert (b = self -> b ∈ base) by congruence.
    rewrite !elem_of_difference, !elem_of_union, !elem_of_difference, !elem_of_list_to_set.
    rewrite elem_of_union, elem_of_singleton, elem_of_list_to_set.
    rewrite !elem_of_app in *. tauto.
Qed.

Definition loaded_dev : vga_dev :=
  VgaDev [Accepted 20 4096 8192 7; Accepted 21 8192 4096 8] [10; 11] true 1.
Definition loaded_world : vga_obs :=
  VgaObs ({[1; 10; 11; 20; 21; 30; 99]} : gset Z) [(10, toy_request 9 VGA_OP_ACCEPT 5 4096 4096, 32)] [11]
         [(30, accept_comp_bytes 2 0)] [] [3; 7; 8].

Lemma loaded_ledger lose :
  vga_ledger [3] [] [] ({[1; 10; 11; 99]} : gset Z) loaded_dev (mail_world lose loaded_world).
Proof.
  split; cbn.
  - solve_Permutation.
  - apply set_eq. intros x. set_solver.
  - repeat constructor; set_solver.
  - intros a Ha. unfold vga_owned in Ha. cbn in Ha. set_solver.
Qed.

Lemma vga_remove_returns_all_witness :
  let '(_, (d1, w1)) := cancel_work_sync (Some 2%nat) (loaded_dev, snd (virtio_reset_device (mail_world [false; true] loaded_world))) in
  let sweep := release_results (vd_accepted d1) (snd (del_vqs w1)) in
  let w' := snd (vga_remove (Some 2%nat) 1 loaded_dev (mail_world [false; true] loaded_world)) in
  (exists stray' gone',
     o_held (obs w') ++ gone' ++ [] ≡ₚ refused sweep ++ [3] ++ stray' ++ [] /\
     (length stray' + length gone' <= timeouts (snd <$> sweep) +
        timeouts (match (Some 2%nat) with
                  | Some n => work_results n (loaded_dev, snd (virtio_reset_device (mail_world [false; true] loaded_world))) | None => [] end))%nat) /\
  (fst <$> sweep) = va_handle <$> vd_accepted d1 /\
  o_heap (obs w') = list_to_set ((fst <$> o_comps (obs w')) ++ o_consumed (obs w')) ∪
                    ({[1; 10; 11; 99]} : gset Z) ∖ list_to_set (1 :: vd_req_bufs loaded_dev).
Proof.
  apply (vga_remove_returns_all (Some 2%nat) [3] [] [] _ 1 loaded_dev);
    [apply loaded_ledger | by apply (bool_decide_unpack _)|].
  intros a Ha. cbn in Ha. set_solver.
Defined.

(** a removal while the work function still has one request to serve: its parcel is returned too *)
Example remove_while_running :
  o_held (mb_obs (snd (snd (vga_remove (Some 2%nat) 1 loaded_dev (mail_world [] loaded_world))))) = [3].
Proof. vm_compute. reflexivity. Qed.

(** A failed probe leaves the heap as it found it; a successful one owns a fresh device with
    an empty table and [VGA_NUM_REQ_BUFS] distinct fresh request buffers, all of them posted. *)
Theorem vga_probe_outcome {W} `{VgaEnvLaws W} `{RM : !RmApi W} `{RL : !VgaRmLaws W} (w : W) :
  let '((ret, dev), w') := vga_probe w in
  o_held (obs w') = o_held (obs w) /\
  match dev with
  | None => ret <> 0 /\ o_heap (obs w') = o_heap (obs w)
  | Some (self, d) => ret = 0 /\ vd_accepted d = [] /\ vd_pool_next_id d = 1 /\
      length (vd_req_bufs d) = VGA_NUM_REQ_BUFS /\ NoDup (self :: vd_req_bufs d) /\
      (forall a, a ∈ self :: vd_req_bufs d -> a ∉ o_heap (obs w)) /\
      o_heap (obs w') = list_to_set (self :: vd_req_bufs d) ∪ o_heap (obs w) /\
      o_posted (obs w') = o_posted (obs w) ++ vd_req_bufs d
  end.
Proof.
  unfold vga_probe. pose proof (law_kzalloc w) as Hk.
  destruct (kzalloc w) as [[self|] w1]; [|by rewrite Hk].
  destruct Hk as [Hf Hk]. pose proof (law_find w1) as Hv.
  destruct (virtio_find_vqs w1) as [r w2]. cbn [snd] in Hv. rewrite Hk in Hv.
  unfold c_true. destruct (Z.eqb_spec r 0) as [->|Hne]; cbn [negb].
  2:{ rewrite law_kfree, Hv. cbn. split; [done|]. split; [done|]. set_solver. }
  pose proof (post_bufs_obs VGA_NUM_REQ_BUFS [] w2) as Hp.
  pose proof (post_bufs_held VGA_NUM_REQ_BUFS [] w2) as Hq.
  destruct (vga_post_bufs VGA_NUM_REQ_BUFS [] w2) as [[err bufs] w3].
  destruct Hp as (new & -> & Hnd & Hfr & Hh & Herr). cbn [fst snd] in Hq. rewrite Hv in *. cbn in *.
  destruct (Z.eqb_spec err 0) as [->|Hne]; cbn [negb].
  - destruct (Herr eq_refl) as [Hl Hpo]. rewrite law_req_kick, law_ready, Hh, Hq, Hpo. cbn.
    repeat split; try done; [| |set_solver].
    + constructor; [|done]. intros Hin. apply (Hfr _ Hin). set_solver.
    + intros a Ha. apply elem_of_cons in Ha as [->|Ha]; [done|]. specialize (Hfr a Ha). set_solver.
  - pose proof (kfree_all_obs new w3) as Hfa.
    destruct (kfree_all new w3) as [u w4]. cbn [snd] in Hfa.
    rewrite law_kfree, law_del, Hfa. cbn. rewrite Hh, Hq.
    split; [done|]. split; [done|]. set_solver.
Qed.
