(* ===== verification/PoolCtl.v ===== *)
(** * The pool control queue (gunyah_guest/gunyah_guest.c, part 2: queue 2)

    [vga_pool_request] and its exported wrappers as one thread runs them, the interface
    [PoolApi] the guest-pool allocator uses, and the requests of many threads with the device's
    answers and the driver's removal as a step relation. *)

From stdpp Require Import gmap.
From S2P Require Import Prelude RmClient AcceptDev.

Definition VGP_OP_SHARE : Z := 1.
Definition VGP_OP_UNSHARE : Z := 2.
Definition VGP_OP_QUERY : Z := 3.
Definition VGP_OP_TEST_REF : Z := 100.
Definition VGP_OP_TEST_UNREF : Z := 101.
Definition POOL_TIMEOUT_MS : Z := 30000.

(** [struct virtio_gunyah_pool_req] as the driver fills it; [flags] stays 0 *)
Definition pool_req_bytes (req_id op pool_id offset len : Z) : list Z :=
  le_put 4 req_id ++ le_put 4 op ++ le_put 4 pool_id ++ le_put 4 0 ++ le_put 8 offset ++ le_put 8 len.

Record virtio_gunyah_pool_resp := PoolResp { pr_req_id : Z; pr_ret : Z; pr_extra : Z }.
Definition pool_resp_of_bytes (b : list Z) : virtio_gunyah_pool_resp :=
  PoolResp (le_get (take 4 b)) (le_get (take 4 (drop 4 b))) (le_get (take 8 (drop 8 b))).

(** ** One request

    The context's memory and the pool queue; [pool_wait ms a] is the wait for the completion of
    the context at [a], with the response the device wrote, or [None] on timeout. *)
Class PoolEnv (W : Type) := {
  ctx_alloc : ST W (option Z);
  ctx_free : Z -> ST W unit;
  pool_add_sgs : Z -> list Z -> ST W Z;
  pool_kick : ST W unit;
  pool_wait : Z -> Z -> ST W (option (list Z))
}.

Section Request.
Context {W : Type} `{PE : PoolEnv W}.

(** the singleton with its device, and the world *)
Definition pool_st : Type := option vga_dev * W.

Definition set_pool_id (d : vga_dev) (i : Z) : vga_dev :=
  VgaDev (vd_accepted d) (vd_req_bufs d) (vd_pool_vq d) i.

(** the result, and what [*extra] was set to *)
Definition vga_pool_request (op pool_id offset len : Z) (extra : bool)
  : ST pool_st (Z * option Z) := fun '(vga_singleton, w) =>
  match vga_singleton with
  | None => ((- ENODEV, None), (vga_singleton, w))
  | Some vga =>
      if negb (vd_pool_vq vga) then ((- ENODEV, None), (vga_singleton, w))
      else
        let '(ctx, w1) := ctx_alloc w in
        match ctx with
        | None => ((- ENOMEM, None), (vga_singleton, w1))
        | Some a =>
            let req := pool_req_bytes (vd_pool_next_id vga) op pool_id offset len in
            let vga' := Some (set_pool_id vga (u32 (vd_pool_next_id vga + 1))) in
            let '(ret, w2) := pool_add_sgs a req w1 in
            if c_true ret then ((ret, None), (vga', snd (ctx_free a w2)))
            else
              let '(_, w3) := pool_kick w2 in
              let '(resp, w4) := pool_wait POOL_TIMEOUT_MS a w3 in
              match resp with
              | None => ((- ETIMEDOUT, None), (vga', w4))      (* the context is leaked *)
              | Some b =>
                  let r := pool_resp_of_bytes b in
                  ((s32 (pr_ret r), if extra then Some (pr_extra r) else None),
                   (vga', snd (ctx_free a w4)))
              end
        end
  end.

Definition gunyah_pool_grow (pool_id offset len : Z) : ST pool_st Z := fun s =>
  let '((ret, _), s') := vga_pool_request VGP_OP_SHARE pool_id offset len false s in (ret, s').

Definition gunyah_pool_shrink (pool_id offset len : Z) : ST pool_st Z := fun s =>
  let '((ret, _), s') := vga_pool_request VGP_OP_UNSHARE pool_id offset len false s in (ret, s').

(** the result, and what [*live_grants] was set to *)
Definition gunyah_pool_query (pool_id : Z) : ST pool_st (Z * option Z) :=
  vga_pool_request VGP_OP_QUERY pool_id 0 0 true.

(** [have_ptr] is [backed != NULL]; the result, and what [*backed] was set to. The local
    [extra] starts at 0. *)
Definition gunyah_pool_query_range (pool_id offset len : Z) (have_ptr : bool)
  : ST pool_st (Z * option bool) := fun s =>
  if negb have_ptr then ((- EINVAL, None), s)
  else
    let '((ret, ex), s') := vga_pool_request VGP_OP_QUERY pool_id offset len true s in
    let extra := default 0 ex in
    ((ret, if ret =? 0 then Some (c_true extra) else None), s').

Definition gunyah_pool_test_ref (pool_id offset len : Z) (take : bool) : ST pool_st Z := fun s =>
  let '((ret, _), s') :=
    vga_pool_request (if take then VGP_OP_TEST_REF else VGP_OP_TEST_UNREF) pool_id offset len false s in
  (ret, s').

(** publishing at the end of [vga_probe], clearing at the start of [vga_remove] *)
Definition vga_set_singleton (d : vga_dev) : ST pool_st unit := fun '(_, w) => (tt, (Some d, w)).
Definition vga_clear_singleton (is_mine : bool) : ST pool_st unit := fun '(v, w) =>
  (tt, (if is_mine then None else v, w)).

End Request.

Arguments pool_st : clear implicits.

(** ** The interface of the growable pool: what its consumers call *)
Class PoolApi (S : Type) := {
  pool_grow : Z -> Z -> Z -> ST S Z;
  pool_shrink : Z -> Z -> Z -> ST S Z;
  pool_query_range : Z -> Z -> Z -> ST S (Z * option bool)
}.

#[export] Instance pool_ctl_api {W} `{PoolEnv W} : PoolApi (pool_st W) := {
  pool_grow := gunyah_pool_grow;
  pool_shrink := gunyah_pool_shrink;
  pool_query_range id off len := gunyah_pool_query_range id off len true
}.

(** Each call answers with an [int], and a range query reports a state exactly when it succeeds. *)
Class PoolApiLaws (S : Type) `{PoolApi S} : Prop := {
  query_range_reports id off len s :
    let '((ret, b), _) := pool_query_range id off len s in ret = 0 <-> is_Some b
}.

(** ** Requests of several threads

    A thread has found the singleton, waits on its context, or has returned. The device owns a
    context from the moment it is queued to its answer. *)
Inductive pthread := PtFound | PtWaiting (ctx : Z) | PtReturned (ret : Z).

Record pool_conc := PoolConc {
  pc_alive : bool;               (* the [vga_dev] block is allocated *)
  pc_singleton : bool;           (* [vga_singleton] points at it *)
  pc_next : Z;                   (* pool_next_id, u32 *)
  pc_issued : Z;                 (* ghost: how many ids have been issued *)
  pc_live : gset Z;              (* contexts allocated *)
  pc_owned : gmap Z Z;           (* contexts the device owns, with their req_id *)
  pc_done : gmap Z (Z * Z);      (* contexts completed: (ret, extra) *)
  pc_threads : gmap Z pthread;
  pc_bad : bool                  (* a freed [vga_dev] has been dereferenced *)
}.

Definition pool_conc_init : pool_conc := PoolConc true true 1 0 ∅ ∅ ∅ ∅ false.

(** a step of thread [t] that dereferences the device *)
Definition touch (s : pool_conc) : bool := pc_bad s || negb (pc_alive s).

Inductive pool_step : pool_conc -> pool_conc -> Prop :=
| ps_find s t : pc_threads s !! t = None -> pc_singleton s = true ->
    pool_step s (PoolConc (pc_alive s) (pc_singleton s) (pc_next s) (pc_issued s) (pc_live s)
      (pc_owned s) (pc_done s) (<[t := PtFound]> (pc_threads s)) (pc_bad s))
| ps_no_device s t : pc_threads s !! t = None -> pc_singleton s = false ->
    pool_step s (PoolConc (pc_alive s) (pc_singleton s) (pc_next s) (pc_issued s) (pc_live s)
      (pc_owned s) (pc_done s) (<[t := PtReturned (- ENODEV)]> (pc_threads s)) (pc_bad s))
| ps_no_memory s t : pc_threads s !! t = Some PtFound ->
    pool_step s (PoolConc (pc_alive s) (pc_singleton s) (pc_next s) (pc_issued s) (pc_live s)
      (pc_owned s) (pc_done s) (<[t := PtReturned (- ENOMEM)]> (pc_threads s)) (touch s))
| ps_submit s t a : pc_threads s !! t = Some PtFound -> a ∉ pc_live s ->
    pool_step s (PoolConc (pc_alive s) (pc_singleton s) (u32 (pc_next s + 1)) (pc_issued s + 1)
      (({[a]} : gset Z) ∪ pc_live s) (<[a := pc_next s]> (pc_owned s)) (pc_done s)
      (<[t := PtWaiting a]> (pc_threads s)) (touch s))
| ps_add_fails s t e : pc_threads s !! t = Some PtFound -> e <> 0 ->
    pool_step s (PoolConc (pc_alive s) (pc_singleton s) (u32 (pc_next s + 1)) (pc_issued s + 1)
      (pc_live s) (pc_owned s) (pc_done s) (<[t := PtReturned e]> (pc_threads s)) (touch s))
| ps_respond s a id ret extra : pc_owned s !! a = Some id ->
    pool_step s (PoolConc (pc_alive s) (pc_singleton s) (pc_next s) (pc_issued s) (pc_live s)
      (delete a (pc_owned s)) (<[a := (ret, extra)]> (pc_done s)) (pc_threads s) (touch s))
| ps_wake s t a ret extra : pc_threads s !! t = Some (PtWaiting a) ->
    pc_done s !! a = Some (ret, extra) ->
    pool_step s (PoolConc (pc_alive s) (pc_singleton s) (pc_next s) (pc_issued s)
      (pc_live s ∖ ({[a]} : gset Z)) (pc_owned s) (delete a (pc_done s))
      (<[t := PtReturned (s32 ret)]> (pc_threads s)) (pc_bad s))
| ps_timeout s t a : pc_threads s !! t = Some (PtWaiting a) -> pc_done s !! a = None ->
    pool_step s (PoolConc (pc_alive s) (pc_singleton s) (pc_next s) (pc_issued s) (pc_live s)
      (pc_owned s) (pc_done s) (<[t := PtReturned (- ETIMEDOUT)]> (pc_threads s)) (touch s))
| ps_unregister s :                                  (* vga_remove, first part *)
    pool_step s (PoolConc (pc_alive s) false (pc_next s) (pc_issued s) (pc_live s)
      (pc_owned s) (pc_done s) (pc_threads s) (pc_bad s))
| ps_reset_free s : pc_singleton s = false ->        (* reset, del_vqs, kfree(vga) *)
    pool_step s (PoolConc false false (pc_next s) (pc_issued s) (pc_live s)
      ∅ (pc_done s) (pc_threads s) (pc_bad s)).

(** a response as the host lays it out *)
Definition pool_resp_bytes (req_id ret extra : Z) : list Z :=
  le_put 4 req_id ++ le_put 4 ret ++ le_put 8 extra.

(** ** What one request relies on: the contexts allocated, and those queued to the device *)
Record pool_obs := PoolObs { po_live : gset Z; po_queued : list (Z * list Z) }.

Class PoolEnvLaws (W : Type) `{PoolEnv W} := {
  pobs : W -> pool_obs;
  law_ctx_alloc w :
    match ctx_alloc w with
    | (None, w') => pobs w' = pobs w
    | (Some a, w') => (a ∉ po_live (pobs w)) /\
        pobs w' = PoolObs (({[a]} : gset Z) ∪ po_live (pobs w)) (po_queued (pobs w))
    end;
  law_ctx_free a w : pobs (snd (ctx_free a w)) =
    PoolObs (po_live (pobs w) ∖ ({[a]} : gset Z)) (po_queued (pobs w));
  law_pool_add a b w : pobs (snd (pool_add_sgs a b w)) =
    if fst (pool_add_sgs a b w) =? 0
    then PoolObs (po_live (pobs w)) (po_queued (pobs w) ++ [(a, b)]) else pobs w;
  law_pool_kick w : pobs (snd (pool_kick w)) = pobs w;
  law_pool_wait ms a w : pobs (snd (pool_wait ms a w)) =
    match fst (pool_wait ms a w) with
    | Some _ => PoolObs (po_live (pobs w)) (filter (fun e => e.1 <> a) (po_queued (pobs w)))
    | None => pobs w
    end
}.

(** every context the device owns is still allocated *)
Definition owned_live (o : pool_obs) : Prop := forall a b, (a, b) ∈ po_queued o -> a ∈ po_live o.

(** A world that is its own observation, next to the answers the host still has to give *)
Record pool_toy := PoolToy { pt_obs : pool_obs; pt_answers : list (option (list Z)) }.

#[export] Instance toy_pool_env : PoolEnv pool_toy := {
  ctx_alloc w := let a := fresh (po_live (pt_obs w)) in
    (Some a, PoolToy (PoolObs (({[a]} : gset Z) ∪ po_live (pt_obs w)) (po_queued (pt_obs w))) (pt_answers w));
  ctx_free a w := (tt, PoolToy (PoolObs (po_live (pt_obs w) ∖ ({[a]} : gset Z)) (po_queued (pt_obs w))) (pt_answers w));
  pool_add_sgs a b w := (0, PoolToy (PoolObs (po_live (pt_obs w)) (po_queued (pt_obs w) ++ [(a, b)])) (pt_answers w));
  pool_kick w := (tt, w);
  pool_wait ms a w := match pt_answers w with
    | [] => (None, w)
    | None :: l => (None, PoolToy (pt_obs w) l)
    | Some r :: l => (Some r, PoolToy (PoolObs (po_live (pt_obs w))
                                        (filter (fun e => e.1 <> a) (po_queued (pt_obs w)))) l)
    end
}.

(** ** Facts *)

#[export] Instance pool_ctl_laws {W} `{PoolEnv W} : PoolApiLaws (pool_st W).
Proof.
  split. intros id off len s. cbn [pool_query_range pool_ctl_api].
  unfold gunyah_pool_query_range. cbn [negb].
  destruct (vga_pool_request _ _ _ _ _ s) as [[ret ex] s'].
  destruct (Z.eqb_spec ret 0); split; intros Hx; try done; by destruct Hx.
Qed.

#[export] Instance toy_pool_laws : PoolEnvLaws pool_toy.
Proof.
  refine {| pobs := pt_obs |}; intros; cbn; try done.
  - split; [apply fresh_spec | done].
  - destruct (pt_answers w) as [|[r|] l]; done.
Defined.

Lemma filter_not_queued (a : Z) (l : list (Z * list Z)) : (forall b, (a, b) ∉ l) ->
  filter (fun e : Z * list Z => e.1 <> a) l = l.
Proof.
  induction l as [|[x b] l IH]; intros Hn; [done|].
  rewrite filter_cons, IH by set_solver. rewrite decide_True; [done|].
  cbn. intros ->. apply (Hn b). set_solver.
Qed.

(** ** Properties of one request *)

(** A pool request never frees a context the device still owns. It ends in one of two ways:
    the contexts allocated and queued are as before; or it timed out, and then exactly one fresh
    context, holding the request as the host reads it, stays allocated and queued (the leak the
    code accepts). [*extra] is written only when the host answered and the caller asked. *)
Theorem pool_request_outcome {W} `{PoolEnvLaws W} op pool_id offset len extra v (w : W)
  (Hinv : owned_live (pobs w)) :
  let '((ret, ex), (v', w')) := vga_pool_request op pool_id offset len extra (v, w) in
  owned_live (pobs w') /\
  (vd_accepted <$> v') = (vd_accepted <$> v) /\
  (is_Some ex -> extra = true) /\
  (pobs w' = pobs w \/
   ret = - ETIMEDOUT /\ ex = None /\
   exists a vga, v = Some vga /\ (a ∉ po_live (pobs w)) /\
     po_live (pobs w') = ({[a]} : gset Z) ∪ po_live (pobs w) /\
     po_queued (pobs w') = po_queued (pobs w) ++
       [(a, pool_req_bytes (vd_pool_next_id vga) op pool_id offset len)]).
Proof.
  unfold vga_pool_request. destruct v as [vga|].
  2:{ split_and!; [done | done | by intros [] | by left]. }
  case_if; [split_and!; [done | done | by intros [] | by left]|].
  pose proof (law_ctx_alloc w) as Ha. destruct (ctx_alloc w) as [[a|] w1].
  2:{ rewrite Ha. split_and!; [done | done | by intros [] | by left]. }
  destruct Ha as [Hf Ha]. set (req := pool_req_bytes _ _ _ _ _).
  pose proof (law_pool_add a req w1) as Hq. destruct (pool_add_sgs a req w1) as [ret w2].
  cbn [fst snd] in Hq. rewrite Ha in Hq. unfold c_true.
  assert (Hnq : forall b, (a, b) ∉ po_queued (pobs w)) by (intros b Hb; by apply Hf, (Hinv _ b)).
  destruct (Z.eqb_spec ret 0) as [->|Hne]; cbn [negb].
  2:{ rewrite law_ctx_free, Hq. cbn.
      replace (_ ∖ _) with (po_live (pobs w)) by set_solver.
      split_and!; [by destruct (pobs w) | done | by intros [] | left; by destruct (pobs w)]. }
  cbn in Hq. pose proof (law_pool_kick w2) as Hk. destruct (pool_kick w2) as [u w3]. cbn [snd] in Hk.
  rewrite Hq in Hk. pose proof (law_pool_wait POOL_TIMEOUT_MS a w3) as Hw.
  destruct (pool_wait _ a w3) as [[b|] w4]; cbn [fst snd] in Hw; rewrite Hk in Hw; cbn in Hw.
  - rewrite law_ctx_free, Hw. cbn. rewrite filter_app, (filter_not_queued a) by done.
    rewrite filter_cons, decide_False by (cbn; congruence). rewrite filter_nil, app_nil_r.
    replace (_ ∖ _) with (po_live (pobs w)) by set_solver.
    split_and!; [by destruct (pobs w) | done | by destruct extra; [|intros []] | left; by destruct (pobs w)].
  - rewrite Hw. split_and!; [| done | by intros [] |].
    + intros x b Hx. cbn in *. apply elem_of_app in Hx as [Hx|Hx]; [specialize (Hinv _ _ Hx)|]; set_solver.
    + right. split_and!; [done | done | by exists a, vga].
Qed.

Definition pool_dev0 : vga_dev := VgaDev [] [] true 7.
Definition pool_toy0 (ans : list (option (list Z))) : pool_toy :=
  PoolToy (PoolObs ({[5]} : gset Z) [(5, [])]) ans.

Lemma pool_request_outcome_witness :
  let '((ret, ex), (v', w')) :=
    vga_pool_request VGP_OP_SHARE 0 4096 8192 true (Some pool_dev0, pool_toy0 [None]) in
  owned_live (pobs w') /\
  (vd_accepted <$> v') = (vd_accepted <$> Some pool_dev0) /\
  (is_Some ex -> true = true) /\
  (pobs w' = pobs (pool_toy0 [None]) \/
   ret = - ETIMEDOUT /\ ex = None /\
   exists a vga, Some pool_dev0 = Some vga /\ (a ∉ po_live (pobs (pool_toy0 [None]))) /\
     po_live (pobs w') = ({[a]} : gset Z) ∪ po_live (pobs (pool_toy0 [None])) /\
     po_queued (pobs w') = po_queued (pobs (pool_toy0 [None])) ++
       [(a, pool_req_bytes (vd_pool_next_id vga) VGP_OP_SHARE 0 4096 8192)]).
Proof.
  apply pool_request_outcome. intros a b Hb. cbn in *.
  assert (a = 5) as -> by set_solver. by apply elem_of_singleton.
Defined.

(** the answers a caller sees: a completed query, a refusal, a timeout *)
Example query_answers :
  (fst (gunyah_pool_query_range 0 0 4096 true (Some pool_dev0, pool_toy0 [Some (pool_resp_bytes 7 0 1)])),
   fst (gunyah_pool_query_range 0 0 4096 true (Some pool_dev0, pool_toy0 [Some (pool_resp_bytes 7 (u32 (- EBUSY)) 1)])),
   fst (gunyah_pool_query_range 0 0 4096 true (Some pool_dev0, pool_toy0 [None]))) =
  ((0, Some true), (- EBUSY, None), (- ETIMEDOUT, None)).
Proof. vm_compute. reflexivity. Qed.

(** ** Properties of concurrent requests *)

(** the invariant of the interleaving: contexts owned or done are allocated, a waiting thread's
    context is allocated and nobody else's, ids come from the counter, the singleton never
    points at a freed device *)
Record pool_conc_inv (s : pool_conc) : Prop := {
  ci_owned : forall a id, pc_owned s !! a = Some id -> (a ∈ pc_live s) /\ pc_done s !! a = None;
  ci_done : forall a r, pc_done s !! a = Some r -> a ∈ pc_live s;
  ci_wait : forall t a, pc_threads s !! t = Some (PtWaiting a) -> a ∈ pc_live s;
  ci_own : forall t1 t2 a, pc_threads s !! t1 = Some (PtWaiting a) ->
             pc_threads s !! t2 = Some (PtWaiting a) -> t1 = t2;
  ci_next : 0 <= pc_issued s /\ pc_next s = u32 (pc_issued s + 1);
  ci_ids : forall a id, pc_owned s !! a = Some id ->
             exists k, 1 <= k <= pc_issued s /\ id = u32 k;
  ci_distinct : pc_issued s < 2 ^ 32 -> forall a b id,
             pc_owned s !! a = Some id -> pc_owned s !! b = Some id -> a = b;
  ci_singleton : pc_singleton s = true -> pc_alive s = true;
  ci_bad : pc_alive s = true -> pc_bad s = false
}.

Lemma pool_conc_inv_init : pool_conc_inv pool_conc_init.
Proof. split; cbn; try done; intros; try (by rewrite lookup_empty in *). Qed.

Lemma u32_window k n : 1 <= k <= n -> n + 1 < 2 ^ 32 -> u32 k <> u32 (n + 1).
Proof. intros. rewrite !u32_small by lia. lia. Qed.

Ltac pool_lookup :=
  repeat match goal with
  | H : <[_ := _]> _ !! _ = Some _ |- _ => apply lookup_insert_Some in H as [[<- ?]|[? H]]
  | H : delete _ _ !! _ = Some _ |- _ => apply lookup_delete_Some in H as [? H]
  | H : PtWaiting _ = PtWaiting _ |- _ => injection H as ->
  | H : ∅ !! _ = Some _ |- _ => by rewrite lookup_empty in H
  end; simplify_eq.

Lemma touch_alive s : pool_conc_inv s -> pc_alive s = true -> touch s = false.
Proof. intros I Ha. unfold touch. by rewrite (ci_bad s I Ha), Ha. Qed.

(** steps that only move one thread to a state where it does not wait *)
Lemma inv_move_thread s t st bad :
  pool_conc_inv s -> (forall a, st <> PtWaiting a) -> (pc_alive s = true -> bad = false) ->
  pool_conc_inv (PoolConc (pc_alive s) (pc_singleton s) (pc_next s) (pc_issued s) (pc_live s)
                          (pc_owned s) (pc_done s) (<[t := st]> (pc_threads s)) bad).
Proof.
  intros [] Hst Hbad. split; cbn; try done; intros; pool_lookup; eauto; by exfalso; eapply Hst.
Qed.

Lemma pool_step_inv s s' : pool_conc_inv s -> pool_step s s' -> pool_conc_inv s'.
Proof.
  intros I Hs. pose proof (touch_alive s I) as Ht. destruct Hs;
    try (apply inv_move_thread; [done | done | first [done | apply I]]).
  all: destruct I as [I1 I2 I3 I4 I5 I6 I7 I8 I9]; split; cbn; try done.
  (* submit *)
  - intros x id Hx. pool_lookup; [|destruct (I1 _ _ Hx); split; [set_solver | done]].
    split; [set_solver|]. destruct (pc_done s !! a) eqn:Hd; [|done]. by apply I2 in Hd.
  - intros x r Hx. apply I2 in Hx. set_solver.
  - intros t' x Hx. pool_lookup; [set_solver|]. apply I3 in Hx. set_solver.
  - intros t1 t2 x W1 W2. pool_lookup; eauto; exfalso.
    all: match goal with H : _ !! _ = Some (PtWaiting _) |- _ => apply I3 in H; done end.
  - destruct I5 as [? ->]. split; [lia|]. unfold u32. rewrite Z.add_mod_idemp_l by lia. done.
  - intros x id Hx. destruct I5 as [? Hn]. pool_lookup; [exists (pc_issued s + 1); split; [lia | done]|].
    destruct (I6 _ _ Hx) as (k & ? & ?). exists k. split; [lia | done].
  - intros Hb x y id Hx Hy. destruct I5 as [? Hn]. rewrite Hn in Hx, Hy.
    assert (Hnew : forall z, pc_owned s !! z <> Some (u32 (pc_issued s + 1))).
    { intros z Hz. destruct (I6 _ _ Hz) as (k & ? & E). by apply eq_sym, u32_window in E; [|lia|lia]. }
    apply lookup_insert_Some in Hx as [[<- <-]|[? Hx]], Hy as [[<- ?]|[? Hy]]; try done.
    + by apply Hnew in Hy.
    + subst id. by apply Hnew in Hx.
    + apply (I7 ltac:(lia) x y id); done.
  (* add fails *)
  - intros; pool_lookup; eauto.
  - intros; pool_lookup; eauto.
  - destruct I5 as [? ->]. split; [lia|]. unfold u32. rewrite Z.add_mod_idemp_l by lia. done.
  - intros x id Hx. destruct (I6 _ _ Hx) as (k & ? & ?). exists k. split; [lia | done].
  - intros Hb. apply I7. lia.
  (* respond *)
  - intros x id' Hx. pool_lookup. rewrite lookup_insert_ne by done. eauto.
  - intros x r Hx. pool_lookup; [by eapply I1 | eauto].
  - intros x id' Hx. pool_lookup. eauto.
  - intros Hb x y id' Hx Hy. pool_lookup. eauto.
  (* wake *)
  - intros x id Hx. destruct (I1 _ _ Hx) as [Hl Hn]. assert (x <> a) by congruence.
    split; [set_solver|]. by rewrite lookup_delete_ne.
  - intros x r Hx. pool_lookup. apply I2 in Hx. set_solver.
  - intros t' x Hx. pool_lookup. assert (x <> a) by (intros ->; eauto). apply I3 in Hx. set_solver.
  - intros; pool_lookup; eauto.
Qed.

(** C3: however the threads, the device's answers, the timeouts and the driver's removal
    interleave: a context the device owns, or a thread waits on, is never freed; no two threads
    wait on one context; the request ids in flight are distinct (below 2^32 requests in all);
    and no thread touches a freed device while the device is bound. *)
Theorem pool_requests_safe s (Hrun : steps pool_step pool_conc_init s) :
  (forall a id, pc_owned s !! a = Some id -> a ∈ pc_live s) /\
  (forall t a, pc_threads s !! t = Some (PtWaiting a) -> a ∈ pc_live s) /\
  (forall t1 t2 a, pc_threads s !! t1 = Some (PtWaiting a) ->
     pc_threads s !! t2 = Some (PtWaiting a) -> t1 = t2) /\
  (pc_issued s < 2 ^ 32 -> forall a b id,
     pc_owned s !! a = Some id -> pc_owned s !! b = Some id -> a = b) /\
  (pc_alive s = true -> pc_bad s = false).
Proof.
  assert (I : pool_conc_inv s).
  { eapply steps_invariant; [| exact Hrun | apply pool_conc_inv_init]. eauto using pool_step_inv. }
  destruct I as [I1 I2 I3 I4 I5 I6 I7 I8 I9]. split_and!; eauto.
  intros a id Ha. by eapply I1.
Qed.

(** thread 1 submits, the driver is unbound, the wait times out *)
Definition unbound_wait : pool_conc :=
  PoolConc false false 2 1 ({[9]} : gset Z) ∅ ∅ (<[1 := PtWaiting 9]> ∅) false.

Lemma unbound_wait_run : steps pool_step pool_conc_init unbound_wait.
Proof.
  eapply steps_cons; [apply (ps_find _ 1); reflexivity|].
  eapply steps_cons; [apply (ps_submit _ 1 9); [reflexivity | cbn; set_solver]|].
  eapply steps_cons; [apply ps_unregister|].
  eapply steps_cons; [apply ps_reset_free; reflexivity|].
  match goal with |- steps _ ?s _ => replace s with unbound_wait; [constructor|] end.
  unfold unbound_wait. cbn. by rewrite (right_id_L ∅ (∪)).
Qed.

Lemma pool_requests_safe_witness :
  steps pool_step pool_conc_init unbound_wait /\
  (forall a id, pc_owned unbound_wait !! a = Some id -> a ∈ pc_live unbound_wait) /\
  (forall t a, pc_threads unbound_wait !! t = Some (PtWaiting a) -> a ∈ pc_live unbound_wait) /\
  (forall t1 t2 a, pc_threads unbound_wait !! t1 = Some (PtWaiting a) ->
     pc_threads unbound_wait !! t2 = Some (PtWaiting a) -> t1 = t2) /\
  (pc_issued unbound_wait < 2 ^ 32 -> forall a b id,
     pc_owned unbound_wait !! a = Some id -> pc_owned unbound_wait !! b = Some id -> a = b) /\
  (pc_alive unbound_wait = true -> pc_bad unbound_wait = false).
Proof. split; [apply unbound_wait_run | apply pool_requests_safe, unbound_wait_run]. Defined.

(** the state after [vga_remove] has reset the device, dropped its queues and freed it *)
Definition removed (s : pool_conc) : pool_conc :=
  PoolConc false false (pc_next s) (pc_issued s) (pc_live s) ∅ (pc_done s) (pc_threads s) (pc_bad s).

(** thread [t] waits on a context nobody will complete, on a device that is gone; or it has
    timed out, and the freed device has been dereferenced *)
Definition stranded (t a : Z) (s : pool_conc) : Prop :=
  pc_alive s = false /\ (a ∈ pc_live s) /\ pc_owned s !! a = None /\ pc_done s !! a = None /\
  (forall t', pc_threads s !! t' = Some (PtWaiting a) -> t' = t) /\
  pc_threads s !! t = Some (PtWaiting a).
Definition timed_out_bad (t : Z) (s : pool_conc) : Prop :=
  pc_alive s = false /\ pc_threads s !! t = Some (PtReturned (- ETIMEDOUT)) /\ pc_bad s = true.

Lemma stranded_step t a s s' : stranded t a s \/ timed_out_bad t s -> pool_step s s' ->
  stranded t a s' \/ timed_out_bad t s'.
Proof.
  intros [(Ha & Hl & Ho & Hd & Hu & Ht)|(Ha & Ht & Hb)] Hs.
  2:{ right. assert (Htouch : touch s = true) by (unfold touch; by rewrite Hb).
      destruct Hs; split_and!; cbn; try done; rewrite ?lookup_insert_ne by congruence; done. }
  assert (Htouch : touch s = true) by (unfold touch; rewrite Ha; by rewrite orb_true_r).
  destruct Hs as [s t' H1 H2|s t' H1 H2|s t' H1|s t' a' H1 H2|s t' e H1 H2|s a' id ret ex H1
                 |s t' a' ret ex H1 H2|s t' a' H1 H2|s|s H1].
  8:{ destruct (decide (t' = t)) as [->|Hne].
      - right. split_and!; cbn; [done | by rewrite lookup_insert_eq | done].
      - left. split_and!; cbn; try done; [|by rewrite lookup_insert_ne].
        intros t2 Hw. apply lookup_insert_Some in Hw as [[<- ?]|[_ Hw]]; [done | by apply Hu]. }
  all: left; split_and!; cbn; try done.
  all: try (rewrite lookup_insert_ne by (intros ->; congruence); done).
  all: try (intros t2 Hw; apply lookup_insert_Some in Hw as [[<- Hw]|[_ Hw]]; [congruence | by apply Hu]).
  - set_solver.
  - by rewrite lookup_delete_ne by (intros ->; congruence).
  - assert (a <> a') by congruence. set_solver.
  - by rewrite lookup_delete_ne by (intros ->; congruence).
Qed.

(** C40: the removal of the driver does not wait for requests in flight, and a request it strands
    always ends in freed memory. From any reachable state in which the device has been unregistered
    while a thread waits for an answer, [vga_remove] can go on to free the device; whatever happens
    then, the thread either still waits or has timed out, the error message of the timeout having
    dereferenced the freed device, and the timeout remains possible all along. *)
Theorem pool_timeout_after_remove_touches_freed s t a s'
  (Hrun : steps pool_step pool_conc_init s) (Hgone : pc_singleton s = false)
  (Hwait : pc_threads s !! t = Some (PtWaiting a)) (Hopen : pc_done s !! a = None)
  (Hlater : steps pool_step (removed s) s') :
  pool_step s (removed s) /\
  (pc_threads s' !! t = Some (PtWaiting a) /\
     (exists s2, pool_step s' s2 /\ pc_threads s2 !! t = Some (PtReturned (- ETIMEDOUT)) /\ pc_bad s2 = true) \/
   pc_threads s' !! t = Some (PtReturned (- ETIMEDOUT)) /\ pc_bad s' = true).
Proof.
  split; [by apply ps_reset_free|].
  assert (I : pool_conc_inv s).
  { eapply steps_invariant; [| exact Hrun | apply pool_conc_inv_init]. eauto using pool_step_inv. }
  assert (Hst : stranded t a s' \/ timed_out_bad t s').
  { apply (steps_invariant pool_step (fun s => stranded t a s \/ timed_out_bad t s) (removed s)); [| exact Hlater |].
    - intros x y Hx Hy. by apply (stranded_step t a x y).
    - left. split_and!; cbn; try done; [by eapply ci_wait|]. intros t' Ht'. by eapply ci_own. }
  destruct Hst as [(Ha & Hl & Ho & Hd & Hu & Ht)|(Ha & Ht & Hb)]; [left | by right].
  split; [done|]. eexists. split; [by apply (ps_timeout s' t a)|]. cbn. split; [by rewrite lookup_insert_eq|].
  unfold touch. rewrite Ha. by rewrite orb_true_r.
Qed.

(** one thread waiting, the driver unregistered *)
Definition unregistered_wait : pool_conc :=
  PoolConc true false 2 1 ({[9]} : gset Z) (<[9 := 1]> ∅) ∅ (<[1 := PtWaiting 9]> ∅) false.

Lemma unregistered_wait_run : steps pool_step pool_conc_init unregistered_wait.
Proof.
  eapply steps_cons; [apply (ps_find _ 1); reflexivity|].
  eapply steps_cons; [apply (ps_submit _ 1 9); [reflexivity | cbn; set_solver]|].
  eapply steps_cons; [apply ps_unregister|].
  match goal with |- steps _ ?s _ => replace s with unregistered_wait; [constructor|] end.
  unfold unregistered_wait. cbn. by rewrite (right_id_L ∅ (∪)).
Qed.

Lemma pool_timeout_after_remove_touches_freed_witness :
  pool_step unregistered_wait (removed unregistered_wait) /\
  (pc_threads (removed unregistered_wait) !! 1 = Some (PtWaiting 9) /\
     (exists s2, pool_step (removed unregistered_wait) s2 /\
        pc_threads s2 !! 1 = Some (PtReturned (- ETIMEDOUT)) /\ pc_bad s2 = true) \/
   pc_threads (removed unregistered_wait) !! 1 = Some (PtReturned (- ETIMEDOUT)) /\
     pc_bad (removed unregistered_wait) = true).
Proof.
  apply (pool_timeout_after_remove_touches_freed unregistered_wait 1 9 (removed unregistered_wait)).
  - apply unregistered_wait_run.
  - reflexivity.
  - reflexivity.
  - reflexivity.
  - constructor.
Defined.
