(* ===== verification/GuestPool.v ===== *)
(** * The guest-side GPU memory pool (virtio_gpu/virtgpu_vram.c, second half)

    The pool's metadata, the growth and reclaim of its backed prefix over the pool control queue
    ([PoolApi]), the allocation of blocks from the kernel's buddy allocator ([BuddyOps], not
    under src/), and the creation of blob objects backed by it. Every operation takes the pool's
    mutex: [lock] is what other threads did to the state before the mutex was obtained. *)

From S2P Require Import Prelude PoolCtl.

(** ** The buddy allocator: [drm_buddy_alloc_blocks] with the range flag *)

Record block := Block { bk_offset : Z; bk_size : Z }.

Class BuddyOps (B : Type) := {
  drm_buddy_init : Z -> Z -> Z * option B;                          (* size, chunk *)
  drm_buddy_alloc_blocks : Z -> Z -> Z -> Z -> B -> (Z * list block) * B;  (* start end size min_bs *)
  drm_buddy_free_list : list block -> B -> B;
  mm_size : B -> Z;
  mm_avail : B -> Z
}.

(** ** State: the [gpu_guest_pool_*] fields of [struct virtio_gpu_device] *)

Record guest_pool (B : Type) := GuestPool {
  gp_ready : bool;
  gp_base : Z; gp_size : Z; gp_id : Z;
  gp_prealloc : Z; gp_backed : Z; gp_step : Z;
  gp_mm : B;
  gp_reclaim_armed : bool;        (* guest_pool_reclaim_work is scheduled *)
  gp_multiblock_seen : bool
}.
Arguments GuestPool {B}.
Arguments gp_ready {B}. Arguments gp_base {B}. Arguments gp_size {B}. Arguments gp_id {B}.
Arguments gp_prealloc {B}. Arguments gp_backed {B}. Arguments gp_step {B}. Arguments gp_mm {B}.
Arguments gp_reclaim_armed {B}. Arguments gp_multiblock_seen {B}.

Section Setters.
Context {B : Type}.
Implicit Types p : guest_pool B.
Definition set_backed p x := GuestPool (gp_ready p) (gp_base p) (gp_size p) (gp_id p) (gp_prealloc p)
  x (gp_step p) (gp_mm p) (gp_reclaim_armed p) (gp_multiblock_seen p).
Definition set_step p x := GuestPool (gp_ready p) (gp_base p) (gp_size p) (gp_id p) (gp_prealloc p)
  (gp_backed p) x (gp_mm p) (gp_reclaim_armed p) (gp_multiblock_seen p).
Definition set_mm (p : guest_pool B) (x : B) : guest_pool B := GuestPool (gp_ready p) (gp_base p) (gp_size p) (gp_id p) (gp_prealloc p)
  (gp_backed p) (gp_step p) x (gp_reclaim_armed p) (gp_multiblock_seen p).
Definition set_armed p x := GuestPool (gp_ready p) (gp_base p) (gp_size p) (gp_id p) (gp_prealloc p)
  (gp_backed p) (gp_step p) (gp_mm p) x (gp_multiblock_seen p).
Definition set_ready p x := GuestPool x (gp_base p) (gp_size p) (gp_id p) (gp_prealloc p)
  (gp_backed p) (gp_step p) (gp_mm p) (gp_reclaim_armed p) (gp_multiblock_seen p).
Definition set_multiblock p := GuestPool (gp_ready p) (gp_base p) (gp_size p) (gp_id p) (gp_prealloc p)
  (gp_backed p) (gp_step p) (gp_mm p) (gp_reclaim_armed p) true.
End Setters.

(** ** Initialisation from the device tree *)

(** a child of /reserved-memory: its name matches, its [reg] resource (start, size), and the
    properties it carries *)
Record dt_child := DtChild {
  dc_gpu_guest : bool; dc_reg : option (Z * Z);
  dc_pool_size : option Z; dc_pre_alloc_size : option Z;
  dc_step_size : option Z; dc_pool_id : option Z
}.

(** [for_each_child_of_node] up to its [break]: (base, size, prealloc, step, pool_id) *)
Fixpoint guest_pool_dt (children : list dt_child) : Z * Z * Z * Z * Z :=
  match children with
  | [] => (0, 0, 0, 0, 0)
  | c :: rest =>
      if negb (dc_gpu_guest c) then guest_pool_dt rest
      else match dc_reg c with
           | None => guest_pool_dt rest
           | Some (start, rsize) =>
               (start, default rsize (dc_pool_size c), default rsize (dc_pre_alloc_size c),
                default 0 (dc_step_size c), default 0 (dc_pool_id c))
           end
  end.

Section Ops.
Context {B W : Type} `{BO : BuddyOps B} `{PA : PoolApi W}.

Definition gp_st : Type := guest_pool B * W.

(** [virtio_gpu_guest_pool_init]; [dt] is /reserved-memory, if there is one *)
Definition virtio_gpu_guest_pool_init (dt : option (list dt_child)) : ST (guest_pool B) Z := fun p =>
  let p := set_armed p false in
  match dt with
  | None => (0, p)
  | Some children =>
      let '(base, size, prealloc, step, pool_id) := guest_pool_dt children in
      if (base =? 0) || (size =? 0) then (0, p)
      else
        let size := ALIGN_DOWN size PAGE_SIZE in
        if size =? 0 then (0, p)
        else if (prealloc >? size) || negb (IS_ALIGNED prealloc PAGE_SIZE) then (- EINVAL, p)
        else if c_true step && (c_true (step mod SZ_2M) || negb (IS_ALIGNED size step) ||
                                negb (IS_ALIGNED prealloc step)) then (- EINVAL, p)
        else if negb (c_true step) && negb (prealloc =? size) then (- EINVAL, p)
        else
          match drm_buddy_init size PAGE_SIZE with
          | (0, Some mm) =>
              (0, GuestPool true base size pool_id prealloc prealloc step mm false (gp_multiblock_seen p))
          | (ret, _) => (ret, p)
          end
  end.

(** ** The boundary: one step up, one step down *)

Definition virtio_gpu_guest_pool_grow_one_locked : ST gp_st Z := fun '(p, w) =>
  if (gp_step p =? 0) || (gp_backed p >=? gp_size p) then (- ENOSPC, (p, w))
  else if gp_step p >? gp_size p - gp_backed p then (- EINVAL, (p, w))
  else
    let offset := gp_backed p in
    let '(ret, w1) := pool_grow (gp_id p) offset (gp_step p) w in
    let '(ret, w2) :=
      if (ret =? - ETIMEDOUT) || (ret =? - EEXIST) then
        let '((query_ret, b), w2) := pool_query_range (gp_id p) offset (gp_step p) w1 in
        let range_backed := default false b in
        (if (query_ret =? 0) && range_backed then 0 else ret, w2)
      else (ret, w1) in
    if ret =? 0 then (ret, (set_backed p (u64 (gp_backed p + gp_step p)), w2)) else (ret, (p, w2)).

Definition virtio_gpu_guest_pool_shrink_one_locked : ST gp_st Z := fun '(p, w) =>
  if (gp_step p =? 0) || (gp_backed p <=? gp_prealloc p) then (- ENOSPC, (p, w))
  else
    let offset := u64 (gp_backed p - gp_step p) in
    let '(ret, w1) := pool_shrink (gp_id p) offset (gp_step p) w in
    let '(ret, w2) :=
      if c_true ret then
        let '((query_ret, b), w2) := pool_query_range (gp_id p) offset (gp_step p) w1 in
        let range_backed := default true b in
        (if (query_ret =? 0) && negb range_backed then 0 else ret, w2)
      else (ret, w1) in
    if ret =? - EUCLEAN then (0, (set_step (set_backed p offset) 0, w2))
    else if ret =? 0 then (ret, (set_backed p offset, w2)) else (ret, (p, w2)).

(** probe the last step by allocating and freeing the exact range *)
Definition virtio_gpu_guest_pool_step_free_locked (p : guest_pool B) : bool * guest_pool B :=
  if (gp_step p =? 0) || (gp_backed p <=? gp_prealloc p) then (false, p)
  else
    let offset := u64 (gp_backed p - gp_step p) in
    let '((ret, probe), mm1) :=
      drm_buddy_alloc_blocks offset (u64 (offset + gp_step p)) (gp_step p) (gp_step p) (gp_mm p) in
    if c_true ret then (false, set_mm p mm1)
    else (true, set_mm p (drm_buddy_free_list probe mm1)).

(** the retry flag, or [None] when [fuel] ran out *)
Fixpoint virtio_gpu_guest_pool_reclaim_locked (fuel : nat) : ST gp_st (option bool) := fun '(p, w) =>
  match fuel with
  | O => (None, (p, w))
  | S fuel' =>
      let '(free, p1) := virtio_gpu_guest_pool_step_free_locked p in
      if negb free then (Some false, (p1, w))
      else
        let '(ret, st2) := virtio_gpu_guest_pool_shrink_one_locked (p1, w) in
        if ret =? 0 then virtio_gpu_guest_pool_reclaim_locked fuel' st2
        else if (ret =? - EBUSY) || (ret =? - ETIMEDOUT) || (ret =? - EIO) then (Some true, st2)
        else (Some false, st2)
  end.

(** how often the reclaim can shrink: once per step above the floor *)
Definition reclaim_fuel (p : guest_pool B) : nat :=
  S (Z.to_nat ((gp_backed p - gp_prealloc p) / gp_step p)).

(** reclaim and arm the delayed work if it asks for a retry *)
Definition reclaim_and_arm : ST gp_st unit := fun st =>
  let '(retry, (p, w)) := virtio_gpu_guest_pool_reclaim_locked (reclaim_fuel (fst st)) st in
  (tt, (if default false retry then set_armed p true else p, w)).

(** ** The operations that take the mutex *)

Definition virtio_gpu_guest_pool_reclaim_work (lock : gp_st -> gp_st) : ST gp_st unit := fun '(p, w) =>
  let '(p1, w1) := lock (set_armed p false, w) in
  if gp_ready p1 then reclaim_and_arm (p1, w1) else (tt, (p1, w1)).

Definition virtio_gpu_guest_pool_fini (lock : gp_st -> gp_st) : ST gp_st unit := fun '(p, w) =>
  let p := set_armed p false in
  if negb (gp_ready p) then (tt, (p, w))
  else
    let '(p1, w1) := lock (p, w) in
    (tt, (if gp_ready p1 then set_ready p1 false else p1, w1)).

(** the size and minimum block size asked of the buddy allocator *)
Definition guest_pool_request (max_nents size : Z) : Z * Z :=
  let size := ALIGN size PAGE_SIZE in
  if max_nents >? 0 then
    let min_bs := Z.max PAGE_SIZE (roundup_pow_of_two (DIV_ROUND_UP_ULL size max_nents)) in
    let min_bs := if min_bs >? size then rounddown_pow_of_two size else min_bs in
    (ALIGN size min_bs, min_bs)
  else (size, PAGE_SIZE).

(** [while (backed < request_size)]: the result, [None] when [fuel] ran out *)
Fixpoint guest_pool_grow_until (fuel : nat) (request_size : Z) : ST gp_st (option Z) := fun '(p, w) =>
  match fuel with
  | O => (None, (p, w))
  | S fuel' =>
      if gp_backed p <? request_size then
        if gp_step p =? 0 then (Some (- ENOMEM), (p, w))
        else
          let '(ret, st1) := virtio_gpu_guest_pool_grow_one_locked (p, w) in
          if c_true ret then (Some ret, st1) else guest_pool_grow_until fuel' request_size st1
      else (Some 0, (p, w))
  end.

(** the [for (;;)] loop: (result, blocks), [None] when [fuel] ran out *)
Fixpoint guest_pool_alloc_loop (fuel gfuel : nat) (size min_bs : Z)
  : ST gp_st (option (Z * list block)) := fun st =>
  match fuel with
  | O => (None, st)
  | S fuel' =>
      match guest_pool_grow_until gfuel size st with
      | (None, st1) => (None, st1)
      | (Some ret, (p1, w1)) =>
          if c_true ret then (Some (ret, []), (p1, w1))
          else
            let '((ret, blocks), mm) := drm_buddy_alloc_blocks 0 (gp_backed p1) size min_bs (gp_mm p1) in
            let p2 := set_mm p1 mm in
            if (ret =? 0) || negb (ret =? - ENOSPC) || (gp_step p2 =? 0) ||
               (gp_backed p2 >=? gp_size p2)
            then (Some (ret, blocks), (p2, w1))
            else
              let '(ret, st3) := virtio_gpu_guest_pool_grow_one_locked (p2, w1) in
              if c_true ret then (Some (ret, []), st3)
              else guest_pool_alloc_loop fuel' gfuel size min_bs st3
      end
  end.

(** the boundary can move up at most this often *)
Definition grow_fuel (p : guest_pool B) : nat :=
  S (Z.to_nat ((gp_size p - gp_backed p) / gp_step p)).

(** [max_nents] is the module parameter [guest_pool_max_nents] *)
Definition virtio_gpu_guest_pool_alloc (lock : gp_st -> gp_st) (max_nents size : Z)
  : ST gp_st (option (Z * list block)) := fun '(p, w) =>
  if negb (gp_ready p) || (size =? 0) then (Some (- ENOMEM, []), (p, w))
  else
    let '(request_size, min_bs) := guest_pool_request max_nents size in
    if request_size >? gp_size p then (Some (- ENOMEM, []), (p, w))
    else
      let '(p, w) := lock (p, w) in
      if negb (gp_ready p) then (Some (- ENODEV, []), (p, w))
      else
        let '(r, st1) := guest_pool_alloc_loop (grow_fuel p) (grow_fuel p) request_size min_bs (p, w) in
        match r with
        | None => (None, st1)
        | Some (ret, blocks) =>
            if c_true ret then let '(_, st2) := reclaim_and_arm st1 in (Some (ret, blocks), st2)
            else (Some (ret, blocks), st1)
        end.

Definition virtio_gpu_guest_pool_free (lock : gp_st -> gp_st) (blocks : list block)
  : ST gp_st unit := fun '(p, w) =>
  if negb (gp_ready p) || bool_decide (blocks = []) then (tt, (p, w))
  else
    let '(p, w) := lock (p, w) in
    if negb (gp_ready p) then (tt, (p, w))
    else reclaim_and_arm (set_mm p (drm_buddy_free_list blocks (gp_mm p)), w).

(** (total, used, largest free) *)
Definition virtio_gpu_guest_pool_stats (lock : gp_st -> gp_st) : ST gp_st (Z * Z * Z) := fun '(p, w) =>
  if negb (gp_ready p) then ((0, 0, 0), (p, w))
  else
    let '(p, w) := lock (p, w) in
    if gp_ready p
    then ((mm_size (gp_mm p), u64 (mm_size (gp_mm p) - mm_avail (gp_mm p)), mm_avail (gp_mm p)), (p, w))
    else ((0, 0, 0), (p, w)).

End Ops.

Arguments gp_st : clear implicits.
