(* ===== verification/GuestPoolSpec.v ===== *)
(** * What the guest pool relies on, and its invariant

    The contract of the buddy allocator ([BuddyLaws]) and of the host's grants ([HostLaws]), a
    concrete instance of each, and the two invariants of the pool: the shape of its metadata
    ([pool_wf]) and the backing of its prefix by the host ([pool_backed]). *)

From stdpp Require Import sets.
From S2P Require Import Prelude PoolCtl GuestPool.

(** ** Blocks *)

Definition block_end (k : block) : Z := bk_offset k + bk_size k.
Definition overlaps (x y : block) : bool :=
  (bk_offset x <? block_end y) && (bk_offset y <? block_end x).
Definition blocks_total (l : list block) : Z := foldr Z.add 0 (bk_size <$> l).
Definition block_in (lo hi : Z) (k : block) : Prop :=
  lo <= bk_offset k /\ 0 < bk_size k /\ block_end k <= hi.

#[export] Instance block_eq_dec : EqDecision block.
Proof. solve_decision. Defined.

(** no two blocks of a list share a byte *)
Definition apart (l : list block) : Prop := ForallOrdPairs (fun x y => overlaps x y = false) l.

Lemma overlaps_sym x y : overlaps x y = overlaps y x.
Proof. unfold overlaps. apply andb_comm. Qed.

Lemma apart_app l1 l2 : apart l1 -> apart l2 -> Forall (fun k => Forall (fun x => overlaps k x = false) l2) l1 ->
  apart (l1 ++ l2).
Proof.
  intros A1 A2 A3. induction A1 as [|k l1 Hk _ IH]; [done|].
  apply Forall_cons in A3 as [A3 A4]. constructor; [|by apply IH]. by apply Forall_app.
Qed.

Lemma apart_app_inv l1 l2 : apart (l1 ++ l2) -> apart l1 /\ apart l2.
Proof.
  unfold apart. induction l1 as [|k l1 IH]; [by split; [constructor|]|].
  cbn. inversion 1 as [|? ? A1 A2]; subst. destruct (IH A2). split; [|done]. constructor; [|done].
  by apply Forall_app in A1 as [? _].
Qed.

#[export] Instance apart_proper : Proper (Permutation ==> iff) apart.
Proof.
  assert (Hone : forall l l', l ≡ₚ l' -> apart l -> apart l').
  { unfold apart. induction 1 as [|k l l' Hp IH|k k' l|l l' l'' _ IH _ IH']; intros A; [done | | | by auto].
    - inversion A as [|? ? A1 A2]; subst. constructor; [by rewrite <- Hp | by apply IH].
    - inversion A as [|? ? A1 A2]; subst. inversion A2 as [|? ? A3 A4]; subst. apply Forall_cons in A1 as [A1 A5].
      constructor; [|by constructor]. constructor; [by rewrite overlaps_sym | done]. }
  intros l l' Hp. split; apply Hone; [done | by symmetry].
Qed.

(** ** The buddy allocator, as <drm/drm_buddy.h> documents it *)

Class BuddyLaws (B : Type) `{BuddyOps B} := {
  mm_live : B -> list block;
  buddy_init_law size chunk :
    let '(ret, mm) := drm_buddy_init size chunk in
    (ret = 0 <-> is_Some mm) /\ forall b, mm = Some b -> mm_live b = [] /\ mm_size b = size;
  buddy_alloc_law lo hi size min_bs b :
    let '((ret, new), b') := drm_buddy_alloc_blocks lo hi size min_bs b in
    mm_size b' = mm_size b /\
    (ret <> 0 -> new = [] /\ mm_live b' ≡ₚ mm_live b) /\
    (ret = 0 -> mm_live b' ≡ₚ new ++ mm_live b /\ blocks_total new = size /\
       Forall (fun k => block_in lo hi k /\ min_bs <= bk_size k) new /\
       Forall (fun k => Forall (fun x => overlaps k x = false) (mm_live b)) new /\ apart new /\
       (lo + size = hi -> forall a, lo <= a < hi -> Exists (fun k => bk_offset k <= a < block_end k) new));
  buddy_min_bs_law lo hi size min_bs b :
    is_power_of_2 min_bs = false -> fst (fst (drm_buddy_alloc_blocks lo hi size min_bs b)) = - EINVAL;
  buddy_exact_law lo hi min_bs b :
    0 < min_bs -> is_power_of_2 min_bs = true -> 0 <= lo -> hi <= mm_size b -> (min_bs | lo) -> lo + min_bs = hi ->
    Forall (fun x => block_end x <= lo) (mm_live b) ->
    fst (fst (drm_buddy_alloc_blocks lo hi min_bs min_bs b)) = 0;
  buddy_free_law l rest b : mm_live b ≡ₚ l ++ rest ->
    mm_live (drm_buddy_free_list l b) ≡ₚ rest /\ mm_size (drm_buddy_free_list l b) = mm_size b;
  buddy_avail_law b : mm_avail b = mm_size b - blocks_total (mm_live b)
}.

(** ** The host's grants, per byte of each pool's window *)

Class HostLaws (W : Type) `{PoolApi W} := {
  granted : W -> Z -> Z -> Prop;
  host_grow_law id off len w :
    (forall i a, granted w i a -> granted (snd (pool_grow id off len w)) i a) /\
    (fst (pool_grow id off len w) = 0 ->
     forall a, off <= a < off + len -> granted (snd (pool_grow id off len w)) id a);
  host_shrink_law id off len w :
    (forall i a, ~ (i = id /\ off <= a < off + len) -> granted w i a ->
                 granted (snd (pool_shrink id off len w)) i a) /\
    (fst (pool_shrink id off len w) <> 0 -> fst (pool_shrink id off len w) <> - ETIMEDOUT ->
     fst (pool_shrink id off len w) <> - EUCLEAN ->
     forall a, granted w id a -> granted (snd (pool_shrink id off len w)) id a);
  host_query_law id off len w :
    (forall i a, granted (snd (pool_query_range id off len w)) i a <-> granted w i a) /\
    (fst (pool_query_range id off len w) = (0, Some true) ->
     forall a, off <= a < off + len -> granted w id a)
}.

(** ** The invariants *)

Section Invariants.
Context {B W : Type} `{BL : BuddyLaws B} `{PA : PoolApi W} `{HL : !HostLaws W}.

Record pool_wf (p : guest_pool B) : Prop := {
  wf_range : 0 <= gp_prealloc p <= gp_backed p /\ gp_backed p <= gp_size p < 2 ^ 64;
  wf_step : 0 <= gp_step p /\ (gp_step p | gp_backed p - gp_prealloc p) \/ gp_step p = 0;
  wf_mm : mm_size (gp_mm p) = gp_size p;
  wf_live : Forall (block_in 0 (gp_backed p)) (mm_live (gp_mm p))
}.

(** the prefix the allocator may hand out is granted by the host *)
Definition pool_backed (p : guest_pool B) (w : W) : Prop :=
  forall a, 0 <= a < gp_backed p -> granted w (gp_id p) a.

(** the host was last asked to take back the top step; the answer to that request was lost, and the
    query whether the host still grants the step was not answered either *)
Definition lost_shrink (p : guest_pool B) (w : W) : Prop := exists w0,
  let off := gp_backed p - gp_step p in
  let '(ret, w1) := pool_shrink (gp_id p) off (gp_step p) w0 in
  let '(query, w2) := pool_query_range (gp_id p) off (gp_step p) w1 in
  ret = - ETIMEDOUT /\ (forall b, query <> (0, Some b)) /\ w = w2.

(** the backing, or all of it below a top step whose shrink was lost *)
Definition backed_or_lost (p : guest_pool B) (w : W) : Prop :=
  pool_backed p w \/ lost_shrink p w /\ pool_backed (set_backed p (gp_backed p - gp_step p)) w.

(** an open pool has well-formed metadata *)
Definition pool_inv (st : gp_st B W) : Prop := gp_ready (fst st) = true -> pool_wf (fst st).

(** what other threads may do before the mutex is obtained *)
Definition lock_keeps (P : gp_st B W -> Prop) (lock : gp_st B W -> gp_st B W) : Prop :=
  forall st, P st -> P (lock st).
End Invariants.

(** ** A concrete allocator: the live blocks, first fit above them or an exact range *)

Record toy_mm := ToyMm { tm_size : Z; tm_live : list block }.

Definition top_of (l : list block) : Z := foldr Z.max 0 (block_end <$> l).

Fixpoint remove_block (k : block) (l : list block) : list block :=
  match l with
  | [] => []
  | x :: l' => if decide (x = k) then l' else x :: remove_block k l'
  end.

#[export] Instance toy_buddy : BuddyOps toy_mm := {
  drm_buddy_init size chunk := (0, Some (ToyMm size []));
  drm_buddy_alloc_blocks lo hi size min_bs b :=
    let k := Block (if lo + size =? hi then lo else Z.max lo (top_of (tm_live b))) size in
    if negb (is_power_of_2 min_bs) || (size <=? 0) || (size <? min_bs) then ((- EINVAL, []), b)
    else if (block_end k <=? hi) && forallb (fun x => negb (overlaps k x)) (tm_live b)
    then ((0, [k]), ToyMm (tm_size b) (k :: tm_live b))
    else ((- ENOSPC, []), b);
  drm_buddy_free_list l b := ToyMm (tm_size b) (foldr remove_block (tm_live b) l);
  mm_size := tm_size;
  mm_avail b := tm_size b - blocks_total (tm_live b)
}.

(** ** A concrete host: its grants, and how it treats the next requests. [HLost] does the work but
    its answer never arrives; [host q] answers queries when [q]. *)

Inductive hmode := HOk | HLost | HBusy.
Record host (q : bool) := Host { h_grants : list (Z * Z * Z); h_script : list hmode }.
Arguments Host {q}. Arguments h_grants {q}. Arguments h_script {q}.

#[export] Instance host_api q : PoolApi (host q) := {
  pool_grow id off len w :=
    match h_script w with
    | HBusy :: s => (- EBUSY, Host (h_grants w) s)
    | HLost :: s => (- ETIMEDOUT, Host ((id, off, len) :: h_grants w) s)
    | s => (0, Host ((id, off, len) :: h_grants w) (tl s))
    end;
  pool_shrink id off len w :=
    let g := filter (fun e => e <> (id, off, len)) (h_grants w) in
    match h_script w with
    | HBusy :: s => (- EBUSY, Host (h_grants w) s)
    | HLost :: s => (- ETIMEDOUT, Host g s)
    | s => (0, Host g (tl s))
    end;
  pool_query_range id off len w :=
    if q then ((0, Some (bool_decide ((id, off, len) ∈ h_grants w))), w) else ((- ETIMEDOUT, None), w)
}.

Lemma remove_block_perm k l : k ∈ l -> k :: remove_block k l ≡ₚ l.
Proof.
  induction l as [|x l IH]; intros Hin; [by apply elem_of_nil in Hin|].
  cbn. case_decide as E; [by subst|]. apply elem_of_cons in Hin as [->|Hin]; [done|].
  rewrite Permutation_swap. by rewrite (IH Hin).
Qed.

Lemma remove_blocks_perm l rest live : live ≡ₚ l ++ rest -> foldr remove_block live l ≡ₚ rest.
Proof.
  revert rest; induction l as [|k l IH]; intros rest Hp; [done|]. cbn.
  specialize (IH (k :: rest)). apply (Permutation_cons_inv (a := k)).
  assert (Hf : foldr remove_block live l ≡ₚ k :: rest).
  { apply IH. rewrite Hp. cbn. by rewrite Permutation_middle. }
  rewrite remove_block_perm; [done|]. rewrite Hf. apply elem_of_cons. by left.
Qed.

Lemma blocks_total_perm l l' : l ≡ₚ l' -> blocks_total l = blocks_total l'.
Proof. unfold blocks_total. induction 1; cbn in *; lia. Qed.

Lemma top_of_above l x : x ∈ l -> block_end x <= top_of l.
Proof.
  unfold top_of. induction l as [|y l IH]; intros Hx; [by apply elem_of_nil in Hx|].
  apply elem_of_cons in Hx as [->|Hx]; cbn; [lia|]. specialize (IH Hx). lia.
Qed.

Lemma not_overlapping_below k l : Forall (fun x => block_end x <= bk_offset k) l ->
  forallb (fun x => negb (overlaps k x)) l = true.
Proof.
  induction 1 as [|x l Hx _ IH]; [done|]. cbn. rewrite IH, andb_true_r. unfold overlaps.
  rewrite (proj2 (Z.ltb_ge _ _)); [done | lia].
Qed.

Lemma forallb_not_overlaps k l :
  forallb (fun x => negb (overlaps k x)) l = true -> Forall (fun x => overlaps k x = false) l.
Proof.
  intros Hf. apply Forall_forall. intros x Hx. rewrite forallb_forall in Hf.
  apply negb_true_iff, Hf. by apply list_elem_of_In.
Qed.

#[export] Instance toy_buddy_laws : BuddyLaws toy_mm.
Proof.
  refine {| mm_live := tm_live |}.
  - intros size chunk. cbn. split; [done|]. by intros b [= <-].
  - intros lo hi size min_bs b. cbn. destruct (is_power_of_2 min_bs); cbn [negb orb];
      [|split_and!; done].
    destruct (Z.leb_spec size 0); cbn [orb]; [split_and!; done|].
    destruct (Z.ltb_spec size min_bs); [split_and!; done|].
    set (k := Block _ _). destruct (_ && _) eqn:E; [|split_and!; done]. bool_prop.
    split_and!; [done | done|]. intros _.
    assert (Hlo : lo <= bk_offset k) by (cbn; case_if; lia).
    split_and!; [done | cbn; lia | | | by repeat constructor |].
    + constructor; [|constructor]. unfold block_in, block_end in *. cbn in *. lia.
    + constructor; [|constructor]. by apply forallb_not_overlaps.
    + intros Heq a Ha. constructor. unfold block_end. subst k. cbn.
      rewrite (proj2 (Z.eqb_eq _ _)) by done. lia.
  - intros lo hi size min_bs b Hp. cbn. by rewrite Hp.
  - intros lo hi min_bs b Hpos Hp H0 Hs Hd Heq Hl. cbn. rewrite Hp. cbn [negb orb].
    destruct (Z.leb_spec min_bs 0); [lia|]. rewrite Z.ltb_irrefl. cbn [orb].
    rewrite (proj2 (Z.eqb_eq (lo + min_bs) hi)) by done.
    rewrite not_overlapping_below by done. unfold block_end. cbn.
    rewrite (proj2 (Z.leb_le _ _)) by lia. done.
  - intros l rest b Hp. cbn. split; [by apply remove_blocks_perm | done].
  - done.
Defined.

(** byte [a] of pool [i] lies in one of the grants *)
Definition covered (g : list (Z * Z * Z)) (i a : Z) : Prop :=
  exists off len, (i, off, len) ∈ g /\ off <= a < off + len.

Lemma covered_cons e g i a : covered g i a -> covered (e :: g) i a.
Proof. intros (o & l & Hin & Ha). exists o, l. split; [set_solver | done]. Qed.

Lemma covered_head g i off len a : off <= a < off + len -> covered ((i, off, len) :: g) i a.
Proof. intros Ha. exists off, len. split; [set_solver | done]. Qed.

Lemma covered_filter g id off len i a : ~ (i = id /\ off <= a < off + len) -> covered g i a ->
  covered (filter (fun e => e <> (id, off, len)) g) i a.
Proof.
  intros Hn (o & l & Hin & Ha). exists o, l. split; [|done].
  apply list_elem_of_filter. split; [|done]. intros [= -> -> ->]. by apply Hn.
Qed.

#[export] Instance host_laws q : HostLaws (host q).
Proof.
  refine {| granted := fun w i a => covered (h_grants w) i a |}.
  - intros id off len w. cbn.
    destruct (h_script w) as [|[] s]; cbn; split; try done; intros;
      eauto using covered_cons, covered_head.
  - intros id off len w. cbn.
    destruct (h_script w) as [|[] s]; cbn; split; try done; intros; eauto using covered_filter.
  - intros id off len w. cbn. destruct q; cbn; split; try done.
    intros [= Hb] a Ha. apply bool_decide_eq_true in Hb. by exists off, len.
Defined.
