(* ===== verification/GuestPoolFacts.v ===== *)
(** * Facts about the guest pool: what each locked step does to the invariants of
    [GuestPoolSpec], and how often the loops turn *)

From stdpp Require Import sets.
From S2P Require Import Prelude PoolCtl GuestPool GuestPoolSpec.

(** the fields no operation after the initialisation changes *)
Definition same_pool {B} (p p' : guest_pool B) : Prop :=
  gp_ready p' = gp_ready p /\ gp_base p' = gp_base p /\ gp_size p' = gp_size p /\
  gp_id p' = gp_id p /\ gp_prealloc p' = gp_prealloc p.

#[export] Instance same_pool_refl {B} : Reflexive (@same_pool B).
Proof. by repeat split. Qed.
#[export] Instance same_pool_trans {B} : Transitive (@same_pool B).
Proof. intros x y z (A1 & A2 & A3 & A4 & A5) (B1 & B2 & B3 & B4 & B5). repeat split; congruence. Qed.

Section Facts.
Context {B W : Type} `{BL : BuddyLaws B} `{PA : PoolApi W} `{HL : !HostLaws W}.
Implicit Types (p : guest_pool B) (w : W).

Lemma set_mm_id p : set_mm p (gp_mm p) = p.
Proof. by destruct p. Qed.

(** ** One step *)

Lemma pool_backed_mono p w w' :
  (forall i a, granted w i a -> granted w' i a) -> pool_backed p w -> pool_backed p w'.
Proof. intros Hm Hb a Ha. apply Hm, Hb, Ha. Qed.

Lemma grow_one_spec p w : pool_wf p ->
  let '(ret, (p', w')) := virtio_gpu_guest_pool_grow_one_locked (p, w) in
  (ret = 0 /\ gp_step p <> 0 /\ gp_backed p + gp_step p <= gp_size p /\
   p' = set_backed p (gp_backed p + gp_step p) /\ (pool_backed p w -> pool_backed p' w')) \/
  (ret <> 0 /\ p' = p /\ (pool_backed p w -> pool_backed p w')).
Proof.
  intros [Hr Hs Hm Hl]. unfold virtio_gpu_guest_pool_grow_one_locked.
  case_if; [by right|]. case_if; [by right|]. bool_prop.
  set (off := gp_backed p). set (len := gp_step p) in *.
  pose proof (host_grow_law (gp_id p) off len w) as [G1 G2].
  destruct (pool_grow (gp_id p) off len w) as [r w1]. cbn [fst snd] in G1, G2.
  assert (Hu : u64 (off + len) = off + len) by (apply u64_small; subst off len; lia).
  assert (Hok : forall w2, (forall i a, granted w1 i a -> granted w2 i a) ->
    (forall a, off <= a < off + len -> granted w2 (gp_id p) a) ->
    pool_backed p w -> pool_backed (set_backed p (off + len)) w2).
  { intros w2 M R Hb a Ha. cbn in Ha. destruct (Z.lt_ge_cases a off) as [Hlt|Hge].
    - apply M, G1, Hb. subst off. lia.
    - apply R. lia. }
  destruct ((r =? - ETIMEDOUT) || (r =? - EEXIST)) eqn:Er.
  - pose proof (host_query_law (gp_id p) off len w1) as [Q1 Q2].
    destruct (pool_query_range (gp_id p) off len w1) as [[q b] w2]. cbn [fst snd] in Q1, Q2.
    assert (M : forall i a, granted w1 i a -> granted w2 i a) by (intros; by apply Q1).
    destruct ((q =? 0) && default false b) eqn:Eq.
    + bool_prop. subst q. destruct b as [[]|]; try done. rewrite Hu. left. split_and!; try done; try lia.
      apply Hok; [done|]. intros a Ha. apply M, Q2; done.
    + destruct (Z.eqb_spec r 0) as [->|Hne]; [by vm_compute in Er|].
      right. split_and!; try done. apply pool_backed_mono. auto.
  - destruct (Z.eqb_spec r 0) as [->|Hne].
    + rewrite Hu. left. split_and!; try done; try lia. apply Hok; [done|]. by apply G2.
    + right. split_and!; try done. by apply pool_backed_mono.
Qed.

(** above the floor there is room for a whole step *)
Lemma floor_step p : pool_wf p -> gp_step p <> 0 -> gp_prealloc p < gp_backed p ->
  0 < gp_step p /\ gp_prealloc p <= gp_backed p - gp_step p.
Proof.
  intros [Hr Hs Hm Hl] Hn Hlt. destruct Hs as [[Hs [k Hk]]|]; [|done].
  assert (1 <= k) by nia. nia.
Qed.

Lemma shrink_one_spec p w : pool_wf p ->
  let '(ret, (p', w')) := virtio_gpu_guest_pool_shrink_one_locked (p, w) in
  (ret = 0 /\ gp_step p <> 0 /\ gp_prealloc p < gp_backed p /\
   (p' = set_backed p (gp_backed p - gp_step p) \/
    p' = set_step (set_backed p (gp_backed p - gp_step p)) 0) /\
   (pool_backed p w -> pool_backed p' w')) \/
  (ret <> 0 /\ p' = p /\
   (pool_backed p w -> pool_backed p w' \/
      ret = - ETIMEDOUT /\ lost_shrink p w' /\ pool_backed (set_backed p (gp_backed p - gp_step p)) w')).
Proof.
  intros Hwf. unfold virtio_gpu_guest_pool_shrink_one_locked. case_if; [by right; split_and!; auto|].
  bool_prop.
  destruct (floor_step p Hwf) as [Hpos Hfl]; [done | lia|].
  destruct Hwf as [Hr Hs Hm Hl]. rewrite u64_small by lia.
  set (off := gp_backed p - gp_step p) in *. set (len := gp_step p) in *.
  pose proof (host_shrink_law (gp_id p) off len w) as [S1 S2].
  destruct (pool_shrink (gp_id p) off len w) as [r w1] eqn:Esh. cbn [fst snd] in S1, S2.
  assert (Hlow : forall w2, (forall i a, granted w1 i a -> granted w2 i a) -> pool_backed p w ->
            forall a, 0 <= a < off -> granted w2 (gp_id p) a).
  { intros w2 M Hb a Ha. apply M, S1; [lia|]. apply Hb. subst off. lia. }
  unfold c_true. destruct (Z.eqb_spec r 0) as [->|Hne]; cbn [negb].
  { left. split_and!; try done; [by left|]. intros Hb a Ha. by apply (Hlow w1). }
  pose proof (host_query_law (gp_id p) off len w1) as [Q1 Q2].
  destruct (pool_query_range (gp_id p) off len w1) as [[q b] w2] eqn:Eqr. cbn [fst snd] in Q1, Q2.
  assert (M : forall i a, granted w1 i a -> granted w2 i a) by (intros; by apply Q1).
  destruct ((q =? 0) && negb (default true b)) eqn:Eq.
  { left. split_and!; try done; [by left|]. intros Hb a Ha. by apply (Hlow w2). }
  destruct (Z.eqb_spec r (- EUCLEAN)) as [->|Hne2].
  { left. split_and!; try done; [by right|]. intros Hb a Ha. by apply (Hlow w2). }
  rewrite (proj2 (Z.eqb_neq r 0)) by done. right. split_and!; try done. intros Hb.
  destruct (Z.eq_dec r (- ETIMEDOUT)) as [->|Hne3].
  2:{ left. intros a Ha. apply M, S2; auto. }
  destruct (decide ((q, b) = (0, Some true))) as [[= -> ->]|Hq].
  - left. intros a Ha. destruct (Z.lt_ge_cases a off); [apply (Hlow w2); auto; lia|].
    apply M, Q2; [done | subst off len; lia].
  - right. split_and!; [done | | intros a Ha; by apply (Hlow w2)]. exists w. fold len off. cbv zeta. rewrite Esh, Eqr.
    split_and!; [done | | done]. intros b' [= -> ->]. by destruct b'.
Qed.

Lemma no_overlap_below k x lo : overlaps k x = false -> 0 < bk_size x ->
  bk_offset k <= block_end x - 1 < block_end k -> lo <= bk_offset k -> block_end x <= bk_offset k.
Proof. unfold overlaps, block_end. intros Ho Hx Hk Hlo. apply andb_false_iff in Ho as [Ho|Ho]; bool_prop; lia. Qed.

Lemma step_free_spec p : pool_wf p ->
  let '(b, p') := virtio_gpu_guest_pool_step_free_locked p in
  exists mm', p' = set_mm p mm' /\ mm_live mm' ≡ₚ mm_live (gp_mm p) /\ mm_size mm' = mm_size (gp_mm p) /\
  (b = true -> gp_step p <> 0 /\ gp_prealloc p < gp_backed p /\
               Forall (block_in 0 (gp_backed p - gp_step p)) (mm_live (gp_mm p))).
Proof.
  intros Hwf. unfold virtio_gpu_guest_pool_step_free_locked.
  case_if; [by exists (gp_mm p); rewrite set_mm_id|]. bool_prop.
  destruct (floor_step p Hwf) as [Hpos Hfl]; [done | lia|].
  destruct Hwf as [Hr Hs Hm Hl]. rewrite !u64_small by lia.
  replace (gp_backed p - gp_step p + gp_step p) with (gp_backed p) by lia.
  set (off := gp_backed p - gp_step p) in *.
  pose proof (buddy_alloc_law off (gp_backed p) (gp_step p) (gp_step p) (gp_mm p)) as Ha.
  destruct (drm_buddy_alloc_blocks _ _ _ _ _) as [[ret probe] mm1]. destruct Ha as (A1 & A2 & A3).
  unfold c_true. destruct (Z.eqb_spec ret 0) as [->|Hne]; cbn [negb].
  2:{ destruct (A2 Hne). by exists mm1. }
  destruct (A3 eq_refl) as (P1 & P2 & P3 & P4 & _ & P5).
  destruct (buddy_free_law probe (mm_live (gp_mm p)) mm1 P1) as [F1 F2].
  exists (drm_buddy_free_list probe mm1). split_and!; [done | done | congruence|].
  intros _. split_and!; [done | lia|]. apply Forall_forall. intros x Hx.
  rewrite Forall_forall in Hl. destruct (Hl x Hx) as (X1 & X2 & X3). split_and!; try done.
  destruct (Z.le_gt_cases (block_end x) off) as [|Hgt]; [done|]. exfalso.
  assert (Hc : off <= block_end x - 1 < gp_backed p) by lia.
  apply (P5 ltac:(subst off; lia)), Exists_exists in Hc as (k & Hk & Hak).
  rewrite Forall_forall in P3, P4. destruct (P3 k Hk) as [(K1 & K2 & K3) _].
  specialize (P4 k Hk). rewrite Forall_forall in P4. specialize (P4 x Hx).
  pose proof (no_overlap_below k x off P4 X2 Hak K1). unfold block_end in *. lia.
Qed.

(** ** The metadata along those steps *)

Lemma wf_set_mm p mm' : pool_wf p -> mm_live mm' ≡ₚ mm_live (gp_mm p) ->
  mm_size mm' = mm_size (gp_mm p) -> pool_wf (set_mm p mm').
Proof. intros [Hr Hs Hm Hl] Hp Hz. split; cbn; [done | done | congruence | by rewrite Hp]. Qed.

Lemma wf_grow p : pool_wf p -> gp_step p <> 0 -> gp_backed p + gp_step p <= gp_size p ->
  pool_wf (set_backed p (gp_backed p + gp_step p)).
Proof.
  intros [Hr Hs Hm Hl] Hn Hle. destruct Hs as [[Hs [k Hk]]|]; [|done].
  split; cbn; [lia | | done|].
  - left. split; [done|]. exists (k + 1). lia.
  - eapply Forall_impl; [exact Hl|]. intros x (X1 & X2 & X3). split_and!; try done. lia.
Qed.

Lemma wf_shrink p : pool_wf p -> gp_step p <> 0 -> gp_prealloc p < gp_backed p ->
  Forall (block_in 0 (gp_backed p - gp_step p)) (mm_live (gp_mm p)) ->
  pool_wf (set_backed p (gp_backed p - gp_step p)).
Proof.
  intros Hwf Hn Hlt HL'. destruct (floor_step p Hwf Hn Hlt). destruct Hwf as [Hr Hs Hm Hl].
  destruct Hs as [[Hs [k Hk]]|]; [|done].
  split; cbn; [lia | | done | done]. left. split; [done|]. exists (k - 1). lia.
Qed.

Lemma wf_stop p : pool_wf p -> pool_wf (set_step p 0).
Proof. intros [Hr Hs Hm Hl]. split; cbn; [done | by right | done | done]. Qed.

(** ** The reclaim loop *)

(** the steps above the floor *)
Definition steps_above (p : guest_pool B) : nat := Z.to_nat ((gp_backed p - gp_prealloc p) / gp_step p).

Lemma steps_above_shrink p p' : pool_wf p -> gp_step p <> 0 -> gp_prealloc p < gp_backed p ->
  (p' = set_backed p (gp_backed p - gp_step p) \/
   p' = set_step (set_backed p (gp_backed p - gp_step p)) 0) ->
  (steps_above p' < steps_above p)%nat.
Proof.
  intros Hwf Hn Hlt Hp'. destruct (floor_step p Hwf Hn Hlt) as [Hpos Hfl].
  unfold steps_above.
  assert (H1 : (gp_backed p - gp_prealloc p) / gp_step p =
               (gp_backed p - gp_step p - gp_prealloc p) / gp_step p + 1).
  { rewrite <- Z.div_add by lia. f_equal. lia. }
  pose proof (Z.div_pos (gp_backed p - gp_step p - gp_prealloc p) (gp_step p) ltac:(lia) ltac:(lia)).
  destruct Hp' as [->| ->]; cbn; [lia|]. rewrite Z.div_0_r. lia.
Qed.

Definition reclaimed p p' : Prop :=
  pool_wf p' /\ same_pool p p' /\ mm_live (gp_mm p') ≡ₚ mm_live (gp_mm p) /\
  gp_backed p' <= gp_backed p /\ (gp_step p' = gp_step p \/ gp_step p' = 0) /\
  gp_reclaim_armed p' = gp_reclaim_armed p.

Lemma reclaim_spec fuel p w : pool_wf p -> (steps_above p < fuel)%nat ->
  let '(r, (p', w')) := virtio_gpu_guest_pool_reclaim_locked fuel (p, w) in
  is_Some r /\ reclaimed p p' /\
  (pool_backed p w -> pool_backed p' w' \/ r = Some true /\ backed_or_lost p' w').
Proof.
  revert p w; induction fuel as [|fuel IH]; intros p w Hwf Hf; [lia|].
  cbn [virtio_gpu_guest_pool_reclaim_locked].
  pose proof (step_free_spec p Hwf) as Hs.
  destruct (virtio_gpu_guest_pool_step_free_locked p) as [free p1].
  destruct Hs as (mm' & -> & S1 & S2 & S3).
  pose proof (wf_set_mm p mm' Hwf S1 S2) as Hwf1.
  destruct free; cbn [negb]; [|by split_and!; eauto; repeat split_and!; cbn; auto].
  change (pool_backed p w) with (pool_backed (set_mm p mm') w).
  destruct (S3 eq_refl) as (N1 & N2 & N3).
  pose proof (shrink_one_spec (set_mm p mm') w Hwf1) as Hk.
  destruct (virtio_gpu_guest_pool_shrink_one_locked (set_mm p mm', w)) as [ret [p2 w2]].
  destruct Hk as [(-> & _ & _ & Hp2 & Hb)|(Hne & -> & Hb)].
  - cbn [Z.eqb].
    assert (Hwf2 : pool_wf p2 /\ same_pool p p2 /\ mm_live (gp_mm p2) ≡ₚ mm_live (gp_mm p) /\
      gp_backed p2 <= gp_backed p /\ (gp_step p2 = gp_step p \/ gp_step p2 = 0) /\
      gp_reclaim_armed p2 = gp_reclaim_armed p).
    { assert (Hw : pool_wf (set_backed (set_mm p mm') (gp_backed p - gp_step p))).
      { apply (wf_shrink (set_mm p mm')); cbn; try done. by rewrite S1. }
      destruct (floor_step p Hwf N1 N2).
      destruct Hp2 as [->| ->]; cbn; split_and!; auto using wf_stop; try done; lia. }
    destruct Hwf2 as (V1 & V2 & V3 & V4 & V5 & V6).
    assert (Hf2 : (steps_above p2 < fuel)%nat).
    { pose proof (steps_above_shrink (set_mm p mm') p2 Hwf1 N1 N2 Hp2) as Hlt.
      unfold steps_above in *. cbn in Hlt. lia. }
    specialize (IH p2 w2 V1 Hf2).
    destruct (virtio_gpu_guest_pool_reclaim_locked fuel (p2, w2)) as [r [p' w']].
    destruct IH as (Hr & (I1 & I2 & I3 & I4 & I5 & I6) & I7). split; [done|]. split; [split_and!|]; auto.
    + by transitivity p2.
    + by rewrite I3.
    + lia.
    + destruct I5 as [->|]; auto.
    + congruence.
  - rewrite (proj2 (Z.eqb_neq ret 0)) by done. destruct (_ || (ret =? - EIO)) eqn:Eret; (split; [eauto|]; split; [unfold reclaimed; split_and!; cbn; auto; done|]).
    + intros Hw. destruct (Hb Hw) as [|(_ & Hl)]; [by left | right; split; [done | by right]].
    + intros Hw. destruct (Hb Hw) as [|(-> & _)]; [by left|]. by vm_compute in Eret.
Qed.

(** [reclaim_and_arm] never lacks fuel *)
Lemma reclaim_and_arm_spec p w : pool_wf p ->
  let '(_, (p', w')) := reclaim_and_arm (p, w) in
  pool_wf p' /\ same_pool p p' /\ mm_live (gp_mm p') ≡ₚ mm_live (gp_mm p) /\
  gp_backed p' <= gp_backed p /\
  (pool_backed p w -> pool_backed p' w' \/ gp_reclaim_armed p' = true /\ backed_or_lost p' w').
Proof.
  intros Hwf. unfold reclaim_and_arm. cbn [fst].
  pose proof (reclaim_spec (reclaim_fuel p) p w Hwf) as Hs.
  destruct (virtio_gpu_guest_pool_reclaim_locked _ _) as [r [p' w']].
  destruct Hs as (_ & ([V1 V2 V3 V4] & V5 & V6 & V7 & _) & V8).
  { unfold reclaim_fuel, steps_above. lia. }
  destruct (default false r) eqn:Er; split_and!; auto; try done.
  - intros Hb. destruct (V8 Hb) as [|[_ ?]]; [by left | by right].
  - intros Hb. destruct (V8 Hb) as [|[-> _]]; [by left | done].
Qed.

(** ** The allocation loops *)

Definition steps_below (p : guest_pool B) : nat := Z.to_nat ((gp_size p - gp_backed p) / gp_step p).

Lemma steps_below_grow p : pool_wf p -> gp_step p <> 0 -> gp_backed p + gp_step p <= gp_size p ->
  (steps_below (set_backed p (gp_backed p + gp_step p)) < steps_below p)%nat.
Proof.
  intros [Hr Hs Hm Hl] Hn Hle. destruct Hs as [[Hs _]|]; [|done]. unfold steps_below. cbn.
  assert (H1 : (gp_size p - gp_backed p) / gp_step p =
               (gp_size p - (gp_backed p + gp_step p)) / gp_step p + 1).
  { rewrite <- Z.div_add by lia. f_equal. lia. }
  pose proof (Z.div_pos (gp_size p - (gp_backed p + gp_step p)) (gp_step p) ltac:(lia) ltac:(lia)). lia.
Qed.

(** growing only raises the boundary *)
Definition grown p w p' w' : Prop :=
  pool_wf p' /\ same_pool p p' /\ gp_mm p' = gp_mm p /\ gp_step p' = gp_step p /\
  gp_backed p <= gp_backed p' /\ (steps_below p' <= steps_below p)%nat /\
  (pool_backed p w -> pool_backed p' w').

Lemma grown_refl p w : pool_wf p -> grown p w p w.
Proof. intros. unfold grown. by split_and!. Qed.

Lemma grown_one p w : pool_wf p ->
  let '(ret, (p', w')) := virtio_gpu_guest_pool_grow_one_locked (p, w) in
  grown p w p' w' /\ (ret = 0 -> (steps_below p' < steps_below p)%nat).
Proof.
  intros Hwf. pose proof (grow_one_spec p w Hwf) as Hg.
  destruct (virtio_gpu_guest_pool_grow_one_locked (p, w)) as [ret [p' w']].
  destruct Hg as [(-> & Hn & Hle & -> & Hb)|(Hne & -> & Hb)].
  - pose proof (steps_below_grow p Hwf Hn Hle). split; [|done].
    destruct (wf_step p Hwf) as [[? _]|]; [|done].
    split_and!; auto using wf_grow; cbn; try done; lia.
  - split; [|done]. by split_and!.
Qed.

Lemma grown_trans p w p1 w1 p2 w2 : grown p w p1 w1 -> grown p1 w1 p2 w2 -> grown p w p2 w2.
Proof.
  intros (A1 & A2 & A3 & A4 & A5 & A6 & A7) (C1 & C2 & C3 & C4 & C5 & C6 & C7).
  split_and!; [done | by transitivity p1 | congruence | congruence | lia | lia | auto].
Qed.

Lemma grow_until_spec fuel req p w : pool_wf p -> (steps_below p < fuel)%nat ->
  let '(r, (p', w')) := guest_pool_grow_until fuel req (p, w) in
  grown p w p' w' /\ exists ret, r = Some ret /\ (ret = 0 -> req <= gp_backed p').
Proof.
  revert p w; induction fuel as [|fuel IH]; intros p w Hwf Hf; [lia|]. cbn [guest_pool_grow_until].
  destruct (Z.ltb_spec (gp_backed p) req).
  2:{ split; [by apply grown_refl | by exists 0]. }
  case_if; [split; [by apply grown_refl | by exists (- ENOMEM)]|].
  pose proof (grown_one p w Hwf) as Hg.
  destruct (virtio_gpu_guest_pool_grow_one_locked (p, w)) as [ret [p1 w1]]. destruct Hg as [Hg Hd].
  unfold c_true. destruct (Z.eqb_spec ret 0) as [->|Hne]; cbn [negb]; [|split; [done | by exists ret]].
  specialize (IH p1 w1 (proj1 Hg) ltac:(specialize (Hd eq_refl); lia)).
  destruct (guest_pool_grow_until fuel req (p1, w1)) as [r [p' w']].
  destruct IH as [Hg2 Hr]. split; [by eapply grown_trans | done].
Qed.

End Facts.
