(* ===== verification/GuestPoolProps.v ===== *)
(** * Properties of the guest pool: allocation, release, reclaim and initialisation *)

From stdpp Require Import sets.
From S2P Require Import Prelude PoolCtl GuestPool GuestPoolSpec GuestPoolFacts.

Section Alloc.
Context {B W : Type} `{BL : BuddyLaws B} `{PA : PoolApi W} `{HL : !HostLaws W}.
Implicit Types (p : guest_pool B) (w : W).

(** what a caller gets: the blocks of a successful allocation *)
Definition carved (size min_bs : Z) (before : list block) p (blocks : list block) : Prop :=
  mm_live (gp_mm p) ≡ₚ blocks ++ before /\ blocks_total blocks = size /\
  Forall (fun k => block_in 0 (gp_backed p) k /\ min_bs <= bk_size k) blocks /\
  Forall (fun k => Forall (fun x => overlaps k x = false) before) blocks /\ apart blocks.

Lemma alloc_loop_spec fuel gfuel size min_bs p w :
  pool_wf p -> (steps_below p < fuel)%nat -> (steps_below p < gfuel)%nat ->
  let '(r, (p', w')) := guest_pool_alloc_loop fuel gfuel size min_bs (p, w) in
  exists ret blocks, r = Some (ret, blocks) /\ pool_wf p' /\ same_pool p p' /\
  (pool_backed p w -> pool_backed p' w') /\
  (ret <> 0 -> blocks = [] /\ mm_live (gp_mm p') ≡ₚ mm_live (gp_mm p)) /\
  (ret = 0 -> carved size min_bs (mm_live (gp_mm p)) p' blocks).
Proof.
  revert p w; induction fuel as [|fuel IH]; intros p w Hwf Hf Hgf; [lia|].
  cbn [guest_pool_alloc_loop]. pose proof (grow_until_spec gfuel size p w Hwf Hgf) as Hg.
  destruct (guest_pool_grow_until gfuel size (p, w)) as [r [p1 w1]].
  destruct Hg as [Hg (ret & -> & Hreq)]. destruct Hg as (V1 & V2 & V3 & V4 & V5 & V6 & V7).
  unfold c_true at 1. destruct (Z.eqb_spec ret 0) as [->|Hne]; cbn [negb].
  2:{ exists ret, []. split_and!; auto; try done. intros _. by rewrite V3. }
  specialize (Hreq eq_refl).
  pose proof (buddy_alloc_law 0 (gp_backed p1) size min_bs (gp_mm p1)) as Ha.
  destruct (drm_buddy_alloc_blocks 0 _ size min_bs _) as [[ret blocks] mm]. destruct Ha as (A1 & A2 & A3).
  destruct (Z.eqb_spec ret 0) as [->|Hne]; cbn [orb].
  { destruct (A3 eq_refl) as (P1 & P2 & P3 & P4 & P5 & _). exists 0, blocks. rewrite V3 in P1, P4.
    split_and!; auto; try done.
    destruct V1 as [R1 R2 R3 R4]. split; cbn; auto; [congruence|]. rewrite P1.
    apply Forall_app. split; [by eapply Forall_impl; [exact P3|]; intros k [? _] | by rewrite <- V3]. }
  destruct (A2 Hne) as [-> A4].
  assert (Hwf2 : pool_wf (set_mm p1 mm)) by (by apply wf_set_mm).
  case_if.
  { exists ret, []. split_and!; auto; try done. intros _. cbn. by rewrite A4, V3. }
  pose proof (grown_one (set_mm p1 mm) w1 Hwf2) as Hg.
  destruct (virtio_gpu_guest_pool_grow_one_locked _) as [ret2 [p3 w3]].
  destruct Hg as [(G1 & G2 & G3 & G4 & G5 & G6 & G7) Hd].
  assert (Hlive : mm_live (gp_mm p3) ≡ₚ mm_live (gp_mm p)) by (rewrite G3; cbn; by rewrite A4, V3).
  assert (Hsame : same_pool p p3) by (transitivity p1; [done | exact G2]).
  unfold c_true. destruct (Z.eqb_spec ret2 0) as [->|Hne2]; cbn [negb].
  2:{ exists ret2, []. split_and!; auto; done. }
  specialize (Hd eq_refl). unfold steps_below in *. cbn in G6, Hd.
  specialize (IH p3 w3 G1 ltac:(lia) ltac:(lia)).
  destruct (guest_pool_alloc_loop fuel gfuel size min_bs (p3, w3)) as [r [p' w']].
  destruct IH as (ret3 & blocks & -> & I1 & I2 & I3 & I4 & I5). exists ret3, blocks.
  split_and!; auto.
  - by transitivity p3.
  - intros Hn. destruct (I4 Hn) as [-> I6]. split; [done|]. by rewrite I6.
  - intros Hz. destruct (I5 Hz) as (C1 & C2 & C3 & C4 & C5). split_and!; auto; [by rewrite C1, Hlive|].
    eapply Forall_impl; [exact C4|]. intros k Hk. by rewrite <- Hlive.
Qed.

(** what an operation that may reclaim leaves of the backing *)
Definition backing_kept p1 w1 p' w' : Prop :=
  pool_backed p1 w1 -> pool_backed p' w' \/ gp_reclaim_armed p' = true /\ backed_or_lost p' w'.

(** the allocation from the locked state on *)
Lemma alloc_spec lock max_nents size p w :
  lock_keeps pool_inv lock -> pool_inv (p, w) ->
  let '(p1, w1) := lock (p, w) in
  let '(r, (p', w')) := virtio_gpu_guest_pool_alloc lock max_nents size (p, w) in
  pool_inv (p', w') /\ exists ret blocks, r = Some (ret, blocks) /\
  (ret <> 0 -> blocks = [] /\ (p' = p /\ w' = w \/
     mm_live (gp_mm p') ≡ₚ mm_live (gp_mm p1) /\ same_pool p1 p' /\ backing_kept p1 w1 p' w')) /\
  (ret = 0 -> gp_ready p1 = true /\ same_pool p1 p' /\ (pool_backed p1 w1 -> pool_backed p' w') /\
     carved (fst (guest_pool_request max_nents size)) (snd (guest_pool_request max_nents size))
            (mm_live (gp_mm p1)) p' blocks).
Proof.
  intros Hlock Hinv. unfold virtio_gpu_guest_pool_alloc.
  pose proof (Hlock (p, w) Hinv) as Hinv1. destruct (lock (p, w)) as [p1 w1].
  case_if; [by split; [|eexists _, _; split_and!; eauto]|].
  destruct (guest_pool_request max_nents size) as [req min_bs].
  case_if; [by split; [|eexists _, _; split_and!; eauto]|]. cbn [fst snd].
  destruct (gp_ready p1) eqn:Hr1; cbn [negb].
  2:{ split; [done|]. exists (- ENODEV), []. split_and!; [done | | done]. intros _. split; [done|].
      right. split_and!; [done | done | by left]. }
  pose proof (Hinv1 Hr1) as Hwf. cbn [fst] in Hwf.
  pose proof (alloc_loop_spec (grow_fuel p1) (grow_fuel p1) req min_bs p1 w1 Hwf) as Hl.
  destruct (guest_pool_alloc_loop _ _ _ _ _) as [r [p2 w2]].
  destruct Hl as (ret & blocks & -> & L1 & L2 & L3 & L4 & L5);
    [unfold grow_fuel, steps_below; lia | unfold grow_fuel, steps_below; lia |].
  unfold c_true. destruct (Z.eqb_spec ret 0) as [->|Hne]; cbn [negb].
  - split; [by intros _|]. exists 0, blocks. split_and!; auto; done.
  - destruct (L4 Hne) as [-> L6]. pose proof (reclaim_and_arm_spec p2 w2 L1) as Hra.
    destruct (reclaim_and_arm (p2, w2)) as [u [p' w']]. destruct Hra as (A1 & A2 & A3 & A4 & A5).
    split; [by intros _|]. exists ret, []. split_and!; [done | | done].
    intros _. split; [done|]. right. split_and!; [by rewrite A3 | by transitivity p2 |].
    intros Hb. apply A5, L3, Hb.
Qed.

Lemma free_spec lock blocks rest p w :
  lock_keeps pool_inv lock -> pool_inv (p, w) ->
  mm_live (gp_mm (fst (lock (p, w)))) ≡ₚ blocks ++ rest ->
  let '(p1, w1) := lock (p, w) in
  let '(_, (p', w')) := virtio_gpu_guest_pool_free lock blocks (p, w) in
  pool_inv (p', w') /\
  (gp_ready p = false \/ blocks = [] -> p' = p /\ w' = w) /\
  (gp_ready p = true -> blocks <> [] ->
     (gp_ready p1 = false -> p' = p1 /\ w' = w1) /\
     (gp_ready p1 = true -> mm_live (gp_mm p') ≡ₚ rest /\ same_pool p1 p' /\ backing_kept p1 w1 p' w')).
Proof.
  intros Hlock Hinv Hlive. unfold virtio_gpu_guest_pool_free.
  pose proof (Hlock (p, w) Hinv) as Hinv1. destruct (lock (p, w)) as [p1 w1]. cbn [fst] in *.
  destruct (gp_ready p) eqn:Hr; cbn [negb orb]; [|by split_and!].
  case_bool_decide as Hbl; [by split_and!|].
  destruct (gp_ready p1) eqn:Hr1; cbn [negb]; [|split_and!; [done | by intros [|] | done]].
  pose proof (Hinv1 Hr1) as Hwf. cbn [fst] in Hwf.
  destruct (buddy_free_law blocks rest (gp_mm p1) Hlive) as [F1 F2].
  assert (Hwf2 : pool_wf (set_mm p1 (drm_buddy_free_list blocks (gp_mm p1)))).
  { destruct Hwf as [R1 R2 R3 R4]. split; cbn; auto; [congruence|]. rewrite F1.
    rewrite Hlive in R4. by apply Forall_app in R4 as [_ R4]. }
  pose proof (reclaim_and_arm_spec _ w1 Hwf2) as Hra.
  destruct (reclaim_and_arm _) as [u [p' w']]. destruct Hra as (A1 & A2 & A3 & A4 & A5).
  split_and!; [by intros _ | by intros [|] | ]. intros _ _. split; [done|]. intros _.
  split_and!; [by rewrite A3 | exact A2 | exact A5].
Qed.

End Alloc.

(** ** The request: page rounding, minimum block size and the entry bound *)

(** a page-rounded size, without wrap-around below 2^62 *)
Lemma page_round size : 0 < size <= 2 ^ 62 ->
  size <= ALIGN size PAGE_SIZE <= size + 4095 /\ (4096 | ALIGN size PAGE_SIZE).
Proof.
  intros Hs. change PAGE_SIZE with (2 ^ 12). destruct (ALIGN_no_wrap size 12) as [A1 A2]; [lia | lia | lia|].
  change (2 ^ 12) with 4096 in *. split; [lia | done].
Qed.

Lemma guest_pool_request_spec max_nents size : 0 < size <= 2 ^ 62 -> 0 < max_nents < 2 ^ 31 ->
  let '(req, min_bs) := guest_pool_request max_nents size in
  exists k, 12 <= k <= 62 /\ min_bs = 2 ^ k /\ (min_bs | req) /\ size <= req /\
  req <= Z.max 2 max_nents * min_bs.
Proof.
  intros Hs Hm. unfold guest_pool_request. destruct (page_round size Hs) as [Hp Hd].
  set (sz := ALIGN size PAGE_SIZE) in *.
  assert (Hsz : 4096 <= sz < 2 ^ 63) by (destruct Hd as [q ->]; lia).
  destruct (Z.gtb_spec max_nents 0); [|lia].
  unfold DIV_ROUND_UP_ULL. rewrite u64_small by lia.
  set (d := (sz + max_nents - 1) / max_nents).
  assert (Hd1 : sz <= max_nents * d /\ 1 <= d <= sz).
  { subst d. pose proof (Z.div_mod (sz + max_nents - 1) max_nents ltac:(lia)).
    pose proof (Z.mod_pos_bound (sz + max_nents - 1) max_nents ltac:(lia)). nia. }
  destruct (roundup_pow_of_two_spec d) as (kr & Hkr & -> & Hr); [lia|].
  destruct (rounddown_pow_of_two_spec sz) as (kd & Hkd & Hdn & Hdr); [lia|].
  (* the minimum block size is a power of two of at least a page *)
  set (mb := Z.max PAGE_SIZE (2 ^ kr)).
  assert (Hmb : exists k, 12 <= k <= 63 /\ mb = 2 ^ k /\ sz <= max_nents * mb).
  { exists (Z.max 12 kr). assert (E : mb = 2 ^ Z.max 12 kr).
    { subst mb. change PAGE_SIZE with (2 ^ 12). destruct (Z.le_gt_cases 12 kr).
      - pose proof (Z.pow_le_mono_r 2 12 kr). rewrite !Z.max_r by lia. done.
      - pose proof (Z.pow_le_mono_r 2 kr 12). rewrite !Z.max_l by lia. done. }
    split; [lia|]. split; [done|]. subst mb. nia. }
  destruct Hmb as (k0 & Hk0 & E0 & Hcover).
  assert (Hfin : forall k, 12 <= k <= 62 -> sz <= Z.max 2 max_nents * 2 ^ k ->
    (2 ^ k | ALIGN sz (2 ^ k)) /\ size <= ALIGN sz (2 ^ k) /\ ALIGN sz (2 ^ k) <= Z.max 2 max_nents * 2 ^ k).
  { intros k Hk Hc. pose proof (Z.pow_le_mono_r 2 k 62 ltac:(lia) ltac:(lia)).
    destruct (ALIGN_no_wrap sz k) as [A1 A2]; [lia | lia | lia|].
    split; [done|]. split; [lia|]. destruct A2 as [q A2]. rewrite A2 in A1 |- *.
    apply Z.mul_le_mono_nonneg_r; [lia|]. nia. }
  destruct (Z.gtb_spec mb sz).
  - assert (Hk : 12 <= kd <= 62).
    { split; [apply Z.lt_succ_r; apply (Z.pow_lt_mono_r_iff 2); [lia | lia|]; rewrite Z.pow_succ_r; lia|].
      apply Z.lt_succ_r, (Z.pow_lt_mono_r_iff 2); lia. }
    rewrite Hdn. exists kd. split; [done|]. split; [done|]. apply Hfin; [done|]. nia.
  - rewrite E0 in *. assert (k0 < 63) by (apply (Z.pow_lt_mono_r_iff 2); lia).
    exists k0. split; [lia|]. split; [done|]. apply Hfin; [lia | nia].
Qed.

Lemma blocks_count min_bs blocks : 0 < min_bs -> Forall (fun k => min_bs <= bk_size k) blocks ->
  Z.of_nat (length blocks) * min_bs <= blocks_total blocks.
Proof.
  intros Hm. unfold blocks_total. induction 1 as [|k l Hk _ IH]; [done|].
  cbn [length fmap list_fmap foldr]. lia.
Qed.

(** ** A sample pool: 16 MiB, 4 MiB of it pre-allocated, steps of 2 MiB *)

Definition MiB : Z := 1048576.
Definition pool0 (live : list block) : guest_pool toy_mm :=
  GuestPool true (2048 * MiB) (16 * MiB) 0 (4 * MiB) (4 * MiB) (2 * MiB) (ToyMm (16 * MiB) live) false false.
Definition host0 (q : bool) (script : list hmode) : host q := Host [(0, 0, 4 * MiB)] script.
Definition no_lock (st : gp_st toy_mm (host true)) : gp_st toy_mm (host true) := st.

Lemma pool0_inv q script live : Forall (block_in 0 (4 * MiB)) live ->
  pool_inv (pool0 live, host0 q script).
Proof.
  intros Hl _. split.
  - cbn. unfold MiB. lia.
  - left. cbn. unfold MiB. split; [lia|]. exists 0. lia.
  - done.
  - done.
Qed.

Lemma no_lock_keeps : lock_keeps pool_inv no_lock.
Proof. by intros st. Qed.

(** C1: allocation is safe and total. Whatever other threads did before the mutex was obtained,
    so long as the pool's metadata stayed well formed, the loops end with an answer and it is well
    formed again. A success hands out blocks that add up to the request, respect the minimum block
    size, overlap neither each other nor a live block and lie below the boundary; when the host
    granted everything below the boundary at the time of the lock it still does, so it grants every
    byte handed out. A failure hands out nothing, and either happened before the lock and changed
    nothing, or leaves the live blocks as they were at the lock; the backing is then kept too, but
    for one case: a shrink of the top step timed out and its range query was not answered, which
    leaves the delayed reclaim armed and everything below that step granted. *)
Theorem guest_pool_alloc_safe {B W} `{BL : BuddyLaws B} `{PA : PoolApi W} `{HL : !HostLaws W}
  lock max_nents size (p : guest_pool B) (w : W)
  (Hlock : lock_keeps pool_inv lock) (Hinv : pool_inv (p, w)) :
  let '(p1, w1) := lock (p, w) in
  let '(r, (p', w')) := virtio_gpu_guest_pool_alloc lock max_nents size (p, w) in
  let '(request, min_bs) := guest_pool_request max_nents size in
  pool_inv (p', w') /\ exists ret blocks, r = Some (ret, blocks) /\
  (ret = 0 -> mm_live (gp_mm p') ≡ₚ blocks ++ mm_live (gp_mm p1) /\ blocks_total blocks = request /\
     Forall (fun k => block_in 0 (gp_backed p') k /\ min_bs <= bk_size k /\
               Forall (fun x => overlaps k x = false) (mm_live (gp_mm p1))) blocks /\ apart blocks /\
     (pool_backed p1 w1 -> pool_backed p' w' /\
        Forall (fun k => forall a, bk_offset k <= a < block_end k -> granted w' (gp_id p') a) blocks)) /\
  (ret <> 0 -> blocks = [] /\
     (p' = p /\ w' = w \/ mm_live (gp_mm p') ≡ₚ mm_live (gp_mm p1) /\ backing_kept p1 w1 p' w')).
Proof.
  pose proof (alloc_spec lock max_nents size p w Hlock Hinv) as Ha.
  destruct (lock (p, w)) as [p1 w1].
  destruct (virtio_gpu_guest_pool_alloc lock max_nents size (p, w)) as [r [p' w']].
  destruct Ha as (Hinv' & ret & blocks & -> & Hf & Hok).
  destruct (guest_pool_request max_nents size) as [req mb]. cbn [fst snd] in Hok.
  split; [done|]. exists ret, blocks. split; [done|]. split.
  2:{ intros Hn. destruct (Hf Hn) as [-> [?|(? & _ & ?)]]; auto. }
  intros Hz. destruct (Hok Hz) as (Hr & Hs & Hb & C1 & C2 & C3 & C4 & C5).
  split_and!; [done | done | | done |].
  - apply Forall_forall. intros k Hk. rewrite Forall_forall in C3, C4.
    destruct (C3 k Hk) as [K1 K4]. split_and!; [done | done | by apply C4].
  - intros Hb1. split; [by apply Hb|]. eapply Forall_impl; [exact C3|]. intros k [(K1 & K2 & K3) _] a Ha.
    apply (Hb Hb1). lia.
Qed.

Lemma guest_pool_alloc_safe_witness :
  let st := (pool0 [Block 0 MiB], host0 true [HLost; HBusy]) in
  let '(p1, w1) := no_lock st in
  let '(r, (p', w')) := virtio_gpu_guest_pool_alloc no_lock 65536 (5 * MiB) st in
  let '(request, min_bs) := guest_pool_request 65536 (5 * MiB) in
  pool_inv (p', w') /\ exists ret blocks, r = Some (ret, blocks) /\
  (ret = 0 -> mm_live (gp_mm p') ≡ₚ blocks ++ mm_live (gp_mm p1) /\ blocks_total blocks = request /\
     Forall (fun k => block_in 0 (gp_backed p') k /\ min_bs <= bk_size k /\
               Forall (fun x => overlaps k x = false) (mm_live (gp_mm p1))) blocks /\ apart blocks /\
     (pool_backed p1 w1 -> pool_backed p' w' /\
        Forall (fun k => forall a, bk_offset k <= a < block_end k -> granted w' (gp_id p') a) blocks)) /\
  (ret <> 0 -> blocks = [] /\
     (p' = fst st /\ w' = snd st \/ mm_live (gp_mm p') ≡ₚ mm_live (gp_mm p1) /\ backing_kept p1 w1 p' w')).
Proof.
  apply (guest_pool_alloc_safe no_lock 65536 (5 * MiB)).
  - apply no_lock_keeps.
  - apply pool0_inv. repeat constructor; unfold block_end, MiB; cbn; lia.
Defined.

(** a 5 MiB request over a 4 MiB prefix with one block live grows one step, its reply lost, and
    succeeds above the live block; a second step that the host refuses fails the request *)
Example pool0_alloc_grows :
  let '(r, (p', w')) := virtio_gpu_guest_pool_alloc no_lock 65536 (5 * MiB)
                          (pool0 [Block 0 MiB], host0 true [HLost]) in
  (r, gp_backed p', h_grants w') =
  (Some (0, [Block MiB (5 * MiB)]), 6 * MiB, [(0, 4 * MiB, 2 * MiB); (0, 0, 4 * MiB)]).
Proof. vm_compute. reflexivity. Qed.

Example pool0_alloc_refused :
  let '(r, (p', w')) := virtio_gpu_guest_pool_alloc no_lock 65536 (7 * MiB)
                          (pool0 [Block 0 MiB], host0 true [HOk; HBusy]) in
  (r, gp_backed p', h_grants w') = (Some (- EBUSY, []), 4 * MiB, [(0, 0, 4 * MiB)]).
Proof. vm_compute. reflexivity. Qed.

(** C28: termination and the bound on scattering. The allocation always ends with an answer, the
    loops' fuel never running out; a failure comes with no block, and for any limit of at least two
    entries a success covers the size asked for, with exactly the rounded request, in no more
    blocks than the limit. *)
Theorem guest_pool_alloc_bounded {B W} `{BL : BuddyLaws B} `{PA : PoolApi W} `{HL : !HostLaws W}
  lock max_nents size (p : guest_pool B) (w : W)
  (Hlock : lock_keeps pool_inv lock) (Hinv : pool_inv (p, w))
  (Hsize : 0 < size <= 2 ^ 62) (Hmax : 2 <= max_nents < 2 ^ 31) :
  exists ret blocks, fst (virtio_gpu_guest_pool_alloc lock max_nents size (p, w)) = Some (ret, blocks) /\
  (ret <> 0 -> blocks = []) /\
  (ret = 0 -> size <= blocks_total blocks /\
              blocks_total blocks = fst (guest_pool_request max_nents size) /\
              Z.of_nat (length blocks) <= max_nents).
Proof.
  pose proof (alloc_spec lock max_nents size p w Hlock Hinv) as Ha.
  destruct (lock (p, w)) as [p1 w1].
  destruct (virtio_gpu_guest_pool_alloc lock max_nents size (p, w)) as [r [p' w']].
  destruct Ha as (_ & ret & bl & -> & Hf & Hc). exists ret, bl.
  split_and!; [done | by intros Hn; destruct (Hf Hn)|]. intros Hz.
  destruct (Hc Hz) as (_ & _ & _ & _ & C2 & C3 & _).
  pose proof (guest_pool_request_spec max_nents size Hsize ltac:(lia)) as Hr.
  destruct (guest_pool_request max_nents size) as [req mb]. cbn [fst snd] in *.
  destruct Hr as (k & Hk & -> & _ & Hle & Hub). pose proof (pow2_pos k ltac:(lia)).
  pose proof (blocks_count (2 ^ k) bl ltac:(lia)) as Hn.
  rewrite C2 in *. split_and!; [done | done|]. rewrite Z.max_r in Hub by lia.
  apply (Z.mul_le_mono_pos_r _ _ (2 ^ k)); [lia|]. etransitivity; [apply Hn|done].
  eapply Forall_impl; [exact C3|]. by intros ? [_ ?].
Qed.

Lemma guest_pool_alloc_bounded_witness :
  exists ret blocks,
  fst (virtio_gpu_guest_pool_alloc no_lock 65536 (3 * MiB) (pool0 [], host0 true [])) = Some (ret, blocks) /\
  (ret <> 0 -> blocks = []) /\
  (ret = 0 -> 3 * MiB <= blocks_total blocks /\
              blocks_total blocks = fst (guest_pool_request 65536 (3 * MiB)) /\
              Z.of_nat (length blocks) <= 65536).
Proof.
  apply (guest_pool_alloc_bounded no_lock 65536 (3 * MiB) (pool0 []) (host0 true [])).
  - apply no_lock_keeps.
  - by apply pool0_inv.
  - unfold MiB. lia.
  - lia.
Defined.

(** the limit of one entry is not kept: for three pages the smallest block is two pages and the
    request four, which the allocator may serve with two blocks *)
Example max_nents_1_may_scatter :
  guest_pool_request 1 12288 = (16384, 8192) /\
  blocks_total [Block 0 8192; Block 16384 8192] = 16384.
Proof. split; vm_compute; reflexivity. Qed.

(** C25: freeing gives back exactly the blocks passed: the remaining live blocks are untouched,
    and the metadata is well formed after the reclaim it triggers. An empty list, or a pool
    already closed, changes nothing at all, and a pool closed while the caller waited for the
    mutex is left as it is then. The backing is kept, but for a shrink of the top step that timed
    out with its query unanswered: the reclaim is then armed and all below that step granted. *)
Theorem guest_pool_free_exact {B W} `{BL : BuddyLaws B} `{PA : PoolApi W} `{HL : !HostLaws W}
  lock blocks rest (p : guest_pool B) (w : W)
  (Hlock : lock_keeps pool_inv lock) (Hinv : pool_inv (p, w))
  (Hlive : mm_live (gp_mm (fst (lock (p, w)))) ≡ₚ blocks ++ rest) :
  let '(p1, w1) := lock (p, w) in
  let '(_, (p', w')) := virtio_gpu_guest_pool_free lock blocks (p, w) in
  pool_inv (p', w') /\
  (gp_ready p = false \/ blocks = [] -> p' = p /\ w' = w) /\
  (gp_ready p = true -> blocks <> [] ->
     (gp_ready p1 = false -> p' = p1 /\ w' = w1) /\
     (gp_ready p1 = true -> mm_live (gp_mm p') ≡ₚ rest /\ same_pool p1 p' /\ backing_kept p1 w1 p' w')).
Proof. by apply free_spec. Qed.

Lemma guest_pool_free_exact_witness :
  let st := (pool0 [Block 0 MiB; Block MiB MiB], host0 true []) in
  let '(p1, w1) := no_lock st in
  let '(_, (p', w')) := virtio_gpu_guest_pool_free no_lock [Block MiB MiB] st in
  pool_inv (p', w') /\
  (gp_ready (fst st) = false \/ [Block MiB MiB] = [] -> p' = fst st /\ w' = snd st) /\
  (gp_ready (fst st) = true -> [Block MiB MiB] <> [] ->
     (gp_ready p1 = false -> p' = p1 /\ w' = w1) /\
     (gp_ready p1 = true -> mm_live (gp_mm p') ≡ₚ [Block 0 MiB] /\ same_pool p1 p' /\ backing_kept p1 w1 p' w')).
Proof.
  apply (guest_pool_free_exact no_lock [Block MiB MiB] [Block 0 MiB]).
  - apply no_lock_keeps.
  - apply pool0_inv. repeat constructor; unfold block_end, MiB; cbn; lia.
  - cbn. apply Permutation_swap.
Defined.

(** ** Initialisation *)

(** the raw 64-bit properties of a device-tree node *)
Definition dt_ok (c : dt_child) : Prop :=
  (forall s z, dc_reg c = Some (s, z) -> 0 <= s < 2 ^ 64 /\ 0 <= z < 2 ^ 64) /\
  (forall z, dc_pool_size c = Some z -> 0 <= z < 2 ^ 64) /\
  (forall z, dc_pre_alloc_size c = Some z -> 0 <= z < 2 ^ 64) /\
  (forall z, dc_step_size c = Some z -> 0 <= z < 2 ^ 64).

Lemma guest_pool_dt_range children : Forall dt_ok children ->
  let '(base, size, prealloc, step, _) := guest_pool_dt children in
  0 <= size < 2 ^ 64 /\ 0 <= prealloc < 2 ^ 64 /\ 0 <= step < 2 ^ 64.
Proof.
  induction 1 as [|c l (H1 & H2 & H3 & H4) _ IH]; [cbn; lia|]. cbn [guest_pool_dt].
  destruct (dc_gpu_guest c); cbn [negb]; [|done].
  destruct (dc_reg c) as [[s z]|]; [|done]. destruct (H1 s z eq_refl).
  destruct (dc_pool_size c) as [z1|], (dc_pre_alloc_size c) as [z2|], (dc_step_size c) as [z3|]; cbn;
    repeat match goal with H : forall z, Some ?x = Some z -> _ |- _ => specialize (H x eq_refl) end; lia.
Qed.

Lemma ALIGN_DOWN_page size : 0 <= size < 2 ^ 64 ->
  0 <= ALIGN_DOWN size PAGE_SIZE <= size /\ size < ALIGN_DOWN size PAGE_SIZE + 4096.
Proof.
  intros Hs. unfold ALIGN_DOWN. change PAGE_SIZE with (2 ^ 12). rewrite ALIGN_pow2 by lia.
  replace (size - (2 ^ 12 - 1) + (2 ^ 12 - 1)) with size by lia. rewrite u64_small by lia.
  change (2 ^ 12) with 4096. pose proof (Z.div_mod size 4096 ltac:(lia)).
  pose proof (Z.mod_pos_bound size 4096 ltac:(lia)). lia.
Qed.

(** /reserved-memory describes a pool at all *)
Definition dt_describes (base size : Z) : Prop := base <> 0 /\ size <> 0.

(** and one the driver can use: a page-aligned floor inside the window, and a step of whole 2 MiB
    units that passes the alignment test for the window and the floor, or none and no tail *)
Definition dt_valid (size prealloc step : Z) : Prop :=
  prealloc <= size /\ prealloc mod PAGE_SIZE = 0 /\
  (step <> 0 -> step mod SZ_2M = 0 /\ IS_ALIGNED size step = true /\ IS_ALIGNED prealloc step = true) /\
  (step = 0 -> prealloc = size).

#[export] Instance dt_describes_dec base size : Decision (dt_describes base size).
Proof. unfold dt_describes. apply _. Defined.
#[export] Instance dt_valid_dec size prealloc step : Decision (dt_valid size prealloc step).
Proof. unfold dt_valid. apply _. Defined.

(** the tests of the code are that condition *)
Lemma dt_valid_tests size prealloc step :
  negb ((prealloc >? size) || negb (IS_ALIGNED prealloc PAGE_SIZE)) &&
  negb (c_true step && (c_true (step mod SZ_2M) || negb (IS_ALIGNED size step) ||
                        negb (IS_ALIGNED prealloc step))) &&
  negb (negb (c_true step) && negb (prealloc =? size)) = true <-> dt_valid size prealloc step.
Proof.
  unfold dt_valid, c_true. pose proof (IS_ALIGNED_pow2 prealloc 12 ltac:(lia)) as Hp.
  rewrite <- Z.mod_divide in Hp by done. change (2 ^ 12) with PAGE_SIZE in Hp. rewrite <- Hp, Z.gtb_ltb. clear Hp.
  destruct (Z.ltb_spec size prealloc), (IS_ALIGNED prealloc PAGE_SIZE), (Z.eqb_spec step 0),
    (Z.eqb_spec (step mod SZ_2M) 0), (IS_ALIGNED size step), (IS_ALIGNED prealloc step),
    (Z.eqb_spec prealloc size); cbn [negb andb orb];
    (split; [intros [=]; split_and!; intros; try tauto; try lia
            | intros (V1 & V2 & V3 & V4); try done; try lia; exfalso; naive_solver lia]).
Qed.

(** what set-up does, in those terms *)
Lemma init_cases {B} `{BL : BuddyLaws B} children (p : guest_pool B) : Forall dt_ok children ->
  let '(base, size, prealloc, step, pool_id) := guest_pool_dt children in
  let size' := ALIGN_DOWN size PAGE_SIZE in
  virtio_gpu_guest_pool_init (Some children) p =
  if decide (dt_describes base size') then
    if decide (dt_valid size' prealloc step) then
      match drm_buddy_init size' PAGE_SIZE with
      | (0, Some mm) => (0, GuestPool true base size' pool_id prealloc prealloc step mm false (gp_multiblock_seen p))
      | (ret, _) => (ret, set_armed p false)
      end
    else (- EINVAL, set_armed p false)
  else (0, set_armed p false).
Proof.
  intros Hdt. unfold virtio_gpu_guest_pool_init. pose proof (guest_pool_dt_range children Hdt) as Hd.
  destruct (guest_pool_dt children) as [[[[base size] prealloc] step] id]. destruct Hd as (D1 & _).
  cbv zeta. destruct (ALIGN_DOWN_page size D1) as [A1 A2]. set (sz := ALIGN_DOWN size PAGE_SIZE) in *.
  pose proof (dt_valid_tests sz prealloc step) as Hv.
  destruct (Z.eqb_spec base 0) as [->|Hb]; cbn [orb]; [by rewrite decide_False by (by intros [])|].
  destruct (Z.eqb_spec size 0) as [->|Hs]; [by rewrite decide_False by (intros []; lia)|].
  destruct (Z.eqb_spec sz 0); [by rewrite decide_False by (by intros [])|]. rewrite decide_True by done.
  destruct (_ || negb (IS_ALIGNED prealloc PAGE_SIZE)); cbn [negb andb] in Hv;
    [by rewrite decide_False by (by intros ?%Hv)|].
  destruct (c_true step && _); cbn [negb andb] in Hv; [by rewrite decide_False by (by intros ?%Hv)|].
  destruct (negb (c_true step) && _); cbn [negb andb] in Hv; [by rewrite decide_False by (by intros ?%Hv)|].
  by rewrite decide_True by (by apply Hv).
Qed.

(** C36: initialisation opens the pool exactly when the device tree describes one (a base address
    and at least a page of window), its figures pass the tests (floor inside the window and
    page-aligned; a step of whole 2 MiB units to which window and floor are aligned, or no step
    and a floor that is the whole window) and the buddy allocator can be set up. Otherwise the
    pool stays closed and unchanged but for the delayed work, with 0 when none is described,
    -EINVAL for bad figures and the allocator's error else. An open pool satisfies the metadata
    invariant, has nothing live, its boundary at the floor and the figures of the device tree. *)
Theorem guest_pool_init_validates {B} `{BL : BuddyLaws B} children (p : guest_pool B)
  (Hdt : Forall dt_ok children) (Hclosed : gp_ready p = false) :
  let '(ret, p') := virtio_gpu_guest_pool_init (Some children) p in
  let '(base, size, prealloc, step, pool_id) := guest_pool_dt children in
  let size' := ALIGN_DOWN size PAGE_SIZE in
  (gp_ready p' = true <-> dt_describes base size' /\ dt_valid size' prealloc step /\
                         fst (drm_buddy_init (B := B) size' PAGE_SIZE) = 0) /\
  (gp_ready p' = false -> p' = set_armed p false /\
     ((base = 0 \/ size' = 0) /\ ret = 0 \/
      dt_describes base size' /\ ~ dt_valid size' prealloc step /\ ret = - EINVAL \/
      dt_describes base size' /\ dt_valid size' prealloc step /\
        ret = fst (drm_buddy_init (B := B) size' PAGE_SIZE) /\ ret <> 0)) /\
  (gp_ready p' = true -> ret = 0 /\ pool_wf p' /\ mm_live (gp_mm p') = [] /\
     gp_base p' = base /\ gp_id p' = pool_id /\ gp_step p' = step /\ gp_size p' = size' /\
     size - 4096 < size' <= size /\ gp_prealloc p' = prealloc /\ gp_backed p' = prealloc).
Proof.
  pose proof (init_cases children p Hdt) as Hi. pose proof (guest_pool_dt_range children Hdt) as Hd.
  destruct (guest_pool_dt children) as [[[[base size] prealloc] step] id]. destruct Hd as (D1 & D2 & D3).
  cbv zeta in *. destruct (ALIGN_DOWN_page size D1) as [A1 A2].
  set (sz := ALIGN_DOWN size PAGE_SIZE) in *. rewrite Hi. clear Hi.
  assert (Hcl : forall P : Prop, gp_ready (set_armed p false) = true -> P) by (cbn; congruence).
  destruct (decide _) as [Hds|Hds].
  2:{ assert (base = 0 \/ sz = 0) by (unfold dt_describes in Hds; destruct (decide (base = 0)), (decide (sz = 0)); tauto).
      split_and!; [split; [apply Hcl | tauto] | intros _; split; [done | naive_solver] | apply Hcl]. }
  destruct (decide _) as [Hv|Hv].
  2:{ split_and!; [split; [apply Hcl | tauto] | intros _; split; [done | naive_solver] | apply Hcl]. }
  pose proof (buddy_init_law (B := B) sz PAGE_SIZE) as Hb.
  destruct (drm_buddy_init sz PAGE_SIZE) as [r [mm|]]; cbn [fst] in *; destruct Hb as [Hb1 Hb2].
  - assert (r = 0) as -> by (by apply Hb1). destruct (Hb2 mm eq_refl) as [Hl Hz].
    split_and!; [done | done |]. intros _. destruct Hv as (V1 & _). cbn. split_and!; try done; try lia.
    split; cbn; [lia | | done | by rewrite Hl]. left. split; [lia|]. exists 0. lia.
  - assert (Hr : r <> 0) by (intros ->; by destruct (proj1 Hb1 eq_refl)).
    replace (match r with 0 => _ | _ => (r, set_armed p false) end) with (r, set_armed p false) by (by destruct r).
    split_and!; [split; [apply Hcl | tauto] | intros _; split; [done | naive_solver] | apply Hcl].
Qed.

Definition dt0 : list dt_child :=
  [DtChild false (Some (64, 64)) None None None None;
   DtChild true (Some (2048 * MiB, 4 * MiB)) (Some (16 * MiB)) None (Some (2 * MiB)) (Some 3)].
Definition closed_pool : guest_pool toy_mm := GuestPool false 0 0 0 0 0 0 (ToyMm 0 []) true false.

Lemma dt0_ok : Forall dt_ok dt0.
Proof.
  unfold dt0, MiB. apply Forall_cons_2; [|apply Forall_cons_2; [|apply Forall_nil_2]].
  all: unfold dt_ok; split_and!; cbn; intros.
  all: simplify_eq.
  all: try lia.
Qed.

Lemma guest_pool_init_validates_witness :
  let '(ret, p') := virtio_gpu_guest_pool_init (Some dt0) closed_pool in
  let '(base, size, prealloc, step, pool_id) := guest_pool_dt dt0 in
  let size' := ALIGN_DOWN size PAGE_SIZE in
  (gp_ready p' = true <-> dt_describes base size' /\ dt_valid size' prealloc step /\
                         fst (drm_buddy_init (B := toy_mm) size' PAGE_SIZE) = 0) /\
  (gp_ready p' = false -> p' = set_armed closed_pool false /\
     ((base = 0 \/ size' = 0) /\ ret = 0 \/
      dt_describes base size' /\ ~ dt_valid size' prealloc step /\ ret = - EINVAL \/
      dt_describes base size' /\ dt_valid size' prealloc step /\
        ret = fst (drm_buddy_init (B := toy_mm) size' PAGE_SIZE) /\ ret <> 0)) /\
  (gp_ready p' = true -> ret = 0 /\ pool_wf p' /\ mm_live (gp_mm p') = [] /\
     gp_base p' = base /\ gp_id p' = pool_id /\ gp_step p' = step /\ gp_size p' = size' /\
     size - 4096 < size' <= size /\ gp_prealloc p' = prealloc /\ gp_backed p' = prealloc).
Proof. apply (guest_pool_init_validates dt0 closed_pool); [apply dt0_ok | reflexivity]. Defined.

Example dt0_opens : virtio_gpu_guest_pool_init (Some dt0) closed_pool =
  (0, GuestPool true (2048 * MiB) (16 * MiB) 3 (4 * MiB) (4 * MiB) (2 * MiB) (ToyMm (16 * MiB) []) false false).
Proof. vm_compute. reflexivity. Qed.

(** ** The step check masks bits, so it is not the divisibility the comment above it describes *)

(** a pool at [base] of [size] bytes, no floor, granted in steps of [step] *)
Definition dt_stepped (base size step : Z) : list dt_child :=
  [DtChild true (Some (base, 0)) (Some size) (Some 0) (Some step) None].

Lemma dt_stepped_ok base size step : 0 <= base < 2 ^ 64 -> 0 <= size < 2 ^ 64 -> 0 <= step < 2 ^ 64 ->
  Forall dt_ok (dt_stepped base size step).
Proof. intros. constructor; [|constructor]. unfold dt_ok. split_and!; cbn; intros; simplify_eq; lia. Qed.

Lemma divides_pow2 (n : nat) s : 0 < s -> (s | 2 ^ Z.of_nat n) -> exists m, 0 <= m /\ s = 2 ^ m.
Proof.
  revert s; induction n as [|n IH]; intros s Hs Hd.
  - exists 0. split; [done|]. cbn in Hd. apply Z.divide_1_r_nonneg in Hd; [done | lia].
  - rewrite Nat2Z.inj_succ, Z.pow_succ_r in Hd by lia. destruct (Zeven.Zeven_odd_dec s) as [He|Ho].
    + apply Zeven.Zeven_ex in He as [t ->]. apply Z.mul_divide_cancel_l in Hd; [|done].
      destruct (IH t ltac:(lia) Hd) as (m & Hm & ->). exists (Z.succ m). split; [lia|]. by rewrite Z.pow_succ_r.
    + apply IH; [done|]. apply (Z.gauss s 2); [done|].
      apply Zeven.Zodd_ex in Ho as [t ->]. by rewrite Z.gcd_comm, Z.add_comm, Z.mul_comm, Z.gcd_add_mult_diag_r.
Qed.

(** a power of two above the step passes the mask and is no multiple of a step that is none *)
Lemma mask_accepts step : 0 < step -> is_power_of_2 step = false ->
  let size := 2 ^ (Z.log2 step + 1) in step < size <= 2 * step /\ IS_ALIGNED size step = true /\ ~ (step | size).
Proof.
  intros Hs Hp. cbv zeta. destruct (Z.log2_spec step Hs) as [L1 L2]. pose proof (Z.log2_nonneg step).
  rewrite <- Z.add_1_r in L2. split_and!; [done | rewrite Z.pow_add_r by lia; lia | |].
  - unfold IS_ALIGNED. apply Z.eqb_eq, Z.bits_inj_0. intros i. rewrite Z.land_spec.
    destruct (decide (i = Z.log2 step + 1)) as [->|Hi]; [|by rewrite Z.pow2_bits_false].
    rewrite Z.pow2_bits_true by lia. destruct (decide (step = 1)) as [->|]; [done|].
    apply (Z.bits_above_log2 (step - 1)); [lia|]. apply Z.lt_succ_r, Z.lt_succ_r. 
    pose proof (Z.log2_le_mono (step - 1) step). lia.
  - intros Hd. rewrite <- (Z2Nat.id (Z.log2 step + 1)) in Hd by lia.
    apply divides_pow2 in Hd as (m & Hm & ->); [|done]. by rewrite is_power_of_2_pow in Hp.
Qed.

(** the set-up of such a pool is the mask's answer *)
Lemma init_stepped {B} `{BL : BuddyLaws B} base size step (p : guest_pool B) :
  0 < base < 2 ^ 64 -> 0 < size < 2 ^ 64 -> 0 < step < 2 ^ 64 -> (4096 | size) -> (SZ_2M | step) ->
  virtio_gpu_guest_pool_init (Some (dt_stepped base size step)) p =
  if IS_ALIGNED size step then
    match drm_buddy_init size PAGE_SIZE with
    | (0, Some mm) => (0, GuestPool true base size 0 0 0 step mm false (gp_multiblock_seen p))
    | (ret, _) => (ret, set_armed p false)
    end
  else (- EINVAL, set_armed p false).
Proof.
  intros Hb Hz Hs Hpg Hd.
  assert (Ha : ALIGN_DOWN size PAGE_SIZE = size).
  { unfold ALIGN_DOWN. change PAGE_SIZE with (2 ^ 12). rewrite ALIGN_pow2 by lia.
    replace (size - (2 ^ 12 - 1) + (2 ^ 12 - 1)) with size by lia. rewrite u64_small by lia.
    change (2 ^ 12) with 4096. destruct Hpg as [q ->]. by rewrite Z.div_mul. }
  pose proof (init_cases (dt_stepped base size step) p) as Hi. cbn [guest_pool_dt dt_stepped] in Hi.
  cbn -[decide virtio_gpu_guest_pool_init ALIGN_DOWN SZ_2M PAGE_SIZE] in Hi. rewrite Ha in Hi.
  rewrite Hi by (apply dt_stepped_ok; lia). rewrite decide_True by (split; lia). 
  apply Z.mod_divide in Hd; [|done]. destruct (IS_ALIGNED size step) eqn:Ea.
  - rewrite decide_True; [done|]. split_and!; [lia | done | done | lia].
  - rewrite decide_False; [done|]. intros (_ & _ & Hv & _). destruct Hv as (_ & Hv & _); [lia | congruence].
Qed.

(** C37: for every step that is a multiple of 2 MiB but not a power of two the alignment test is
    wrong both ways. A window of exactly one step, the smallest whole number of steps, is refused
    with -EINVAL. A larger window that is no whole number of steps is accepted, and its tail can
    never be granted: in any later state of the pool the boundary is short of the end of the
    window, and once less than a step is left growing refuses with -EINVAL and asks the host
    for nothing. *)
Theorem step_check_not_divisibility {B W} `{BL : BuddyLaws B} `{PA : PoolApi W}
  base step (p : guest_pool B) (Hb : 0 < base < 2 ^ 64) (Hs : 0 < step < 2 ^ 62)
  (H2M : (SZ_2M | step)) (Hp2 : is_power_of_2 step = false) :
  let p1 := virtio_gpu_guest_pool_init (Some (dt_stepped base step step)) p in
  fst p1 = - EINVAL /\ snd p1 = set_armed p false /\
  exists size, step < size < 2 ^ 64 /\ ~ (step | size) /\
  let '(ret, p') := virtio_gpu_guest_pool_init (Some (dt_stepped base size step)) p in
  ret = fst (drm_buddy_init (B := B) size PAGE_SIZE) /\ (ret = 0 -> gp_ready p' = true) /\
  (ret = 0 -> forall p'' (w : W), pool_wf p'' -> same_pool p' p'' -> gp_step p'' = step ->
     gp_backed p'' < gp_size p'' /\
     (gp_size p'' < gp_backed p'' + step ->
      virtio_gpu_guest_pool_grow_one_locked (p'', w) = (- EINVAL, (p'', w)))).
Proof.
  assert (H4k : (4096 | step)) by (destruct H2M as [k ->]; exists (k * 512); unfold SZ_2M; lia).
  cbv zeta. rewrite init_stepped by (try done; lia).
  assert (Hna : IS_ALIGNED step step = false).
  { unfold is_power_of_2 in Hp2. rewrite (proj2 (Z.eqb_neq step 0)) in Hp2 by lia. exact Hp2. }
  rewrite Hna. split_and!; [done | done|].
  destruct (mask_accepts step ltac:(lia) Hp2) as (M1 & M2 & M3). set (size := 2 ^ (Z.log2 step + 1)) in *.
  exists size. split_and!; [lia | lia | done |].
  assert (Hsz : (4096 | size)).
  { change 4096 with (2 ^ 12). assert (12 <= Z.log2 step + 1).
    { assert (12 <= Z.log2 step); [|lia]. change 12 with (Z.log2 4096). apply Z.log2_le_mono.
      apply Z.divide_pos_le in H4k; lia. }
    exists (2 ^ (Z.log2 step + 1 - 12)). rewrite <- Z.pow_add_r by lia. f_equal. lia. }
  rewrite init_stepped by (try done; lia). rewrite M2.
  pose proof (buddy_init_law (B := B) size PAGE_SIZE) as Hi.
  destruct (drm_buddy_init size PAGE_SIZE) as [r [mm|]]; destruct Hi as [Hi _]; cbn [fst].
  - assert (r = 0) as -> by (by apply Hi). split_and!; [done | done|]. intros _ p'' w Hwf Hsame Hst.
    destruct Hsame as (_ & _ & Es & _ & Ep). cbn in Es, Ep. destruct Hwf as [Hr Hd _ _]. rewrite Hst, Ep, Es in *.
    assert (Hlt : gp_backed p'' < size).
    { destruct (decide (gp_backed p'' = size)) as [E|]; [|lia]. destruct Hd as [[_ Hd]|]; [|lia].
      rewrite E, Z.sub_0_r in Hd. done. }
    split; [done|]. intros Hle. unfold virtio_gpu_guest_pool_grow_one_locked. rewrite Hst, Es.
    rewrite (proj2 (Z.eqb_neq step 0)) by lia. rewrite Z.geb_leb, (proj2 (Z.leb_gt _ _)) by lia. cbn [orb].
    by rewrite Z.gtb_ltb, (proj2 (Z.ltb_lt _ _)) by lia.
  - assert (Hr : r <> 0) by (intros ->; by destruct (proj1 Hi eq_refl)). by destruct r.
Qed.

Lemma step_check_not_divisibility_witness :
  let p1 := virtio_gpu_guest_pool_init (Some (dt_stepped MiB (6 * MiB) (6 * MiB))) closed_pool in
  fst p1 = - EINVAL /\ snd p1 = set_armed closed_pool false /\
  exists size, (6 * MiB) < size < 2 ^ 64 /\ ~ ((6 * MiB) | size) /\
  let '(ret, p') := virtio_gpu_guest_pool_init (Some (dt_stepped MiB size (6 * MiB))) closed_pool in
  ret = fst (drm_buddy_init (B := toy_mm) size PAGE_SIZE) /\ (ret = 0 -> gp_ready p' = true) /\
  (ret = 0 -> forall p'' (w : host true), pool_wf p'' -> same_pool p' p'' -> gp_step p'' = (6 * MiB) ->
     gp_backed p'' < gp_size p'' /\
     (gp_size p'' < gp_backed p'' + (6 * MiB) ->
      virtio_gpu_guest_pool_grow_one_locked (p'', w) = (- EINVAL, (p'', w)))).
Proof.
  apply (step_check_not_divisibility MiB (6 * MiB) closed_pool).
  - unfold MiB. lia.
  - unfold MiB. lia.
  - by exists 3.
  - reflexivity.
Defined.

(** a window of two 6 MiB steps is refused, and one of 8 MiB with a 2 MiB floor is accepted *)
Definition dt_step6 (size prealloc : Z) : list dt_child :=
  [DtChild true (Some (2048 * MiB, prealloc)) (Some size) (Some prealloc) (Some (6 * MiB)) None].
Example step6_refused_and_accepted :
  (fst (virtio_gpu_guest_pool_init (Some (dt_step6 (12 * MiB) (6 * MiB))) closed_pool),
   fst (virtio_gpu_guest_pool_init (Some (dt_step6 (8 * MiB) (2 * MiB))) closed_pool)) = (- EINVAL, 0).
Proof. vm_compute. reflexivity. Qed.

(** ** Reclaim *)

Section Reclaim.
Context {B W : Type} `{BL : BuddyLaws B} `{PA : PoolApi W} `{HL : !HostLaws W}.
Implicit Types (p : guest_pool B) (w : W).

(** an unused power-of-two step above the floor is seen to be free *)
Lemma step_free_complete p : pool_wf p -> is_power_of_2 (gp_step p) = true ->
  (gp_step p | gp_prealloc p) -> gp_prealloc p < gp_backed p ->
  Forall (fun x => block_end x <= gp_backed p - gp_step p) (mm_live (gp_mm p)) ->
  fst (virtio_gpu_guest_pool_step_free_locked p) = true.
Proof.
  intros Hwf Hp2 Hd Hlt Hlow. unfold virtio_gpu_guest_pool_step_free_locked.
  assert (Hn : gp_step p <> 0) by (intros E; by rewrite E in Hp2).
  destruct (floor_step p Hwf Hn Hlt) as [Hpos Hfl]. destruct Hwf as [Hr Hs Hm Hl].
  rewrite (proj2 (Z.eqb_neq _ _)), (proj2 (Z.leb_gt _ _)) by lia. cbn [orb].
  rewrite !u64_small by lia.
  replace (gp_backed p - gp_step p + gp_step p) with (gp_backed p) by lia.
  pose proof (buddy_exact_law (gp_backed p - gp_step p) (gp_backed p) (gp_step p) (gp_mm p)) as He.
  destruct (drm_buddy_alloc_blocks _ _ _ _ _) as [[ret probe] mm1]. cbn [fst snd] in *.
  rewrite He; try done; try lia.
  destruct Hs as [[_ [k Hk]]|]; [|done]. destruct Hd as [j Hj]. exists (j + k - 1). lia.
Qed.

(** the boundary is the floor, or a live block needs the step below it *)
Definition at_last_live p : Prop := gp_backed p = gp_prealloc p \/
  Exists (fun x => gp_backed p - gp_step p < block_end x) (mm_live (gp_mm p)).

Lemma shrink_one_cooperative p w : pool_wf p -> gp_step p <> 0 -> gp_prealloc p < gp_backed p ->
  (forall id off len w, fst (pool_shrink (S := W) id off len w) = 0) ->
  exists w', virtio_gpu_guest_pool_shrink_one_locked (p, w) =
             (0, (set_backed p (gp_backed p - gp_step p), w')).
Proof.
  intros Hwf Hn Hlt Hc. destruct (floor_step p Hwf Hn Hlt) as [Hpos Hfl].
  destruct Hwf as [Hr Hs Hm Hl]. unfold virtio_gpu_guest_pool_shrink_one_locked.
  rewrite (proj2 (Z.eqb_neq _ _)), (proj2 (Z.leb_gt _ _)) by lia. cbn [orb].
  rewrite u64_small by lia. pose proof (Hc (gp_id p) (gp_backed p - gp_step p) (gp_step p) w) as H0'.
  destruct (pool_shrink _ _ _ w) as [r w1]. cbn in H0'. subst r. by exists w1.
Qed.

Lemma reclaim_last_live fuel p w : pool_wf p -> (steps_above p < fuel)%nat ->
  is_power_of_2 (gp_step p) = true -> (gp_step p | gp_prealloc p) ->
  (forall id off len w, fst (pool_shrink (S := W) id off len w) = 0) ->
  let '(r, (p', w')) := virtio_gpu_guest_pool_reclaim_locked fuel (p, w) in
  r = Some false /\ at_last_live p'.
Proof.
  revert p w; induction fuel as [|fuel IH]; intros p w Hwf Hf Hp2 Hd Hc; [lia|].
  cbn [virtio_gpu_guest_pool_reclaim_locked]. pose proof (step_free_spec p Hwf) as Hs.
  pose proof (step_free_complete p Hwf Hp2 Hd) as Hfree.
  destruct (virtio_gpu_guest_pool_step_free_locked p) as [free p1]. cbn [fst] in Hfree.
  destruct Hs as (mm' & -> & S1 & S2 & S3). destruct free; cbn [negb].
  2:{ split; [done|]. destruct (wf_range p Hwf). unfold at_last_live. cbn. rewrite S1.
      destruct (Z.lt_ge_cases (gp_prealloc p) (gp_backed p)) as [Hlt|]; [right|left; lia].
      destruct (decide (Exists (fun x => gp_backed p - gp_step p < block_end x) (mm_live (gp_mm p))))
        as [|Hno]; [done|]. apply not_Exists_Forall in Hno; [|apply _].
      exfalso. by assert (false = true) by (apply (Hfree Hlt); eapply Forall_impl; [exact Hno|]; cbn; lia). }
  destruct (S3 eq_refl) as (N1 & N2 & N3). pose proof (wf_set_mm p mm' Hwf S1 S2) as Hwf1.
  destruct (shrink_one_cooperative (set_mm p mm') w Hwf1 N1 N2 Hc) as [w2 ->]. cbn [Z.eqb].
  assert (Hwf2 : pool_wf (set_backed (set_mm p mm') (gp_backed p - gp_step p))).
  { apply (wf_shrink (set_mm p mm')); cbn; try done. by rewrite S1. }
  pose proof (steps_above_shrink (set_mm p mm') _ Hwf1 N1 N2 (or_introl eq_refl)) as Hlt.
  unfold steps_above in *. cbn in Hlt.
  exact (IH _ w2 Hwf2 ltac:(unfold steps_above; cbn; lia) Hp2 Hd Hc).
Qed.

Lemma step_free_backed p : gp_backed (snd (virtio_gpu_guest_pool_step_free_locked p)) = gp_backed p.
Proof.
  unfold virtio_gpu_guest_pool_step_free_locked. case_if; [done|].
  destruct (drm_buddy_alloc_blocks _ _ _ _ _) as [[ret probe] mm1]. by destruct (c_true ret).
Qed.

(** a step that is not a power of two is never seen to be free *)
Lemma step_free_not_pow2 p : is_power_of_2 (gp_step p) = false ->
  fst (virtio_gpu_guest_pool_step_free_locked p) = false.
Proof.
  intros Hp. unfold virtio_gpu_guest_pool_step_free_locked. case_if; [done|].
  pose proof (buddy_min_bs_law (u64 (gp_backed p - gp_step p))
    (u64 (u64 (gp_backed p - gp_step p) + gp_step p)) (gp_step p) (gp_step p) (gp_mm p) Hp) as He.
  destruct (drm_buddy_alloc_blocks _ _ _ _ _) as [[ret probe] mm1]. cbn [fst] in He. by subst ret.
Qed.

End Reclaim.

(** C26: the reclaim goes as low as it can. With a power-of-two step that divides the floor and a
    host that takes back every step it is asked to, the reclaim ends by itself, keeps the live
    blocks and stops at the floor or at the last step a live block reaches into, no earlier and no
    later: every live block ends below the new boundary, and one ends above the step below it. *)
Theorem reclaim_ends_at_last_live {B W} `{BL : BuddyLaws B} `{PA : PoolApi W} `{HL : !HostLaws W}
  (p : guest_pool B) (w : W) (Hwf : pool_wf p)
  (Hp2 : is_power_of_2 (gp_step p) = true) (Hd : (gp_step p | gp_prealloc p))
  (Hc : forall id off len (w : W), fst (pool_shrink id off len w) = 0) :
  let '(r, (p', w')) := virtio_gpu_guest_pool_reclaim_locked (reclaim_fuel p) (p, w) in
  r = Some false /\ mm_live (gp_mm p') ≡ₚ mm_live (gp_mm p) /\
  gp_prealloc p <= gp_backed p' <= gp_backed p /\
  Forall (fun x => block_end x <= gp_backed p') (mm_live (gp_mm p')) /\
  (gp_backed p' = gp_prealloc p \/
   Exists (fun x => gp_backed p' - gp_step p' < block_end x) (mm_live (gp_mm p'))).
Proof.
  assert (Hf : (steps_above p < reclaim_fuel p)%nat) by (unfold reclaim_fuel, steps_above; lia).
  pose proof (reclaim_last_live (reclaim_fuel p) p w Hwf Hf Hp2 Hd Hc) as Hl.
  pose proof (reclaim_spec (reclaim_fuel p) p w Hwf Hf) as Hs.
  destruct (virtio_gpu_guest_pool_reclaim_locked _ _) as [r [p' w']]. destruct Hl as [-> Hl].
  destruct Hs as (_ & ([R1 R2 R3 R4] & (_ & _ & _ & _ & E) & V3 & V4 & _) & _).
  rewrite <- E. split_and!; [done | done | lia | lia | | exact Hl].
  eapply Forall_impl; [exact R4|]. by intros x (_ & _ & ?).
Qed.

(** a host without bookkeeping that grants and takes back everything *)
#[export] Instance open_host : PoolApi unit := {
  pool_grow id off len w := (0, w);
  pool_shrink id off len w := (0, w);
  pool_query_range id off len w := ((0, Some true), w)
}.
#[export] Instance open_host_laws : HostLaws unit.
Proof. by refine {| granted := fun _ _ _ => True |}. Defined.

Definition grown_pool (step : Z) (live : list block) : guest_pool toy_mm :=
  GuestPool true (2048 * MiB) (24 * MiB) 0 (4 * MiB) (4 * MiB + 3 * step) step (ToyMm (24 * MiB) live) false false.

Lemma grown_pool_wf : pool_wf (grown_pool (2 * MiB) [Block 0 MiB]).
Proof.
  split; cbn.
  - unfold MiB. lia.
  - left. split; [unfold MiB; lia|]. by exists 3.
  - done.
  - repeat constructor; unfold block_end, MiB; cbn; lia.
Qed.

Lemma reclaim_ends_at_last_live_witness :
  let p := grown_pool (2 * MiB) [Block 0 MiB] in
  let '(r, (p', w')) := virtio_gpu_guest_pool_reclaim_locked (reclaim_fuel p) (p, tt) in
  r = Some false /\ mm_live (gp_mm p') ≡ₚ mm_live (gp_mm p) /\
  gp_prealloc p <= gp_backed p' <= gp_backed p /\
  Forall (fun x => block_end x <= gp_backed p') (mm_live (gp_mm p')) /\
  (gp_backed p' = gp_prealloc p \/
   Exists (fun x => gp_backed p' - gp_step p' < block_end x) (mm_live (gp_mm p'))).
Proof.
  apply (reclaim_ends_at_last_live (grown_pool (2 * MiB) [Block 0 MiB]) tt).
  - apply grown_pool_wf.
  - reflexivity.
  - by exists 2.
  - done.
Defined.

(** a block in the second of three steps above a 4 MiB floor keeps two of them *)
Example reclaim_keeps_needed_steps :
  let p := grown_pool (2 * MiB) [Block (7 * MiB) MiB; Block 0 MiB] in
  let '(r, (p', _)) := virtio_gpu_guest_pool_reclaim_locked (reclaim_fuel p) (p, tt) in
  (r, gp_backed p') = (Some false, 8 * MiB).
Proof. vm_compute. reflexivity. Qed.

(** The step is passed to the buddy allocator as a minimum block size, so a pool whose step
    is not a power of two (6 MiB, say) never gives anything back: the reclaim ends at once, asks
    the host for nothing and leaves the boundary where it is, whatever is free. *)
Theorem reclaim_stuck_unless_pow2 {B W} `{BL : BuddyLaws B} `{PA : PoolApi W}
  (p : guest_pool B) (w : W) (Hp2 : is_power_of_2 (gp_step p) = false) :
  let '(r, (p', w')) := virtio_gpu_guest_pool_reclaim_locked (reclaim_fuel p) (p, w) in
  r = Some false /\ gp_backed p' = gp_backed p /\ w' = w.
Proof.
  unfold reclaim_fuel. cbn [virtio_gpu_guest_pool_reclaim_locked].
  pose proof (step_free_not_pow2 p Hp2) as Hf. pose proof (step_free_backed p) as Hb.
  destruct (virtio_gpu_guest_pool_step_free_locked p) as [free p1]. cbn in Hf, Hb. by subst free.
Qed.

Lemma reclaim_stuck_unless_pow2_witness :
  let p := grown_pool (6 * MiB) [] in
  let '(r, (p', w')) := virtio_gpu_guest_pool_reclaim_locked (reclaim_fuel p) (p, tt) in
  r = Some false /\ gp_backed p' = gp_backed p /\ w' = tt.
Proof. apply (reclaim_stuck_unless_pow2 (grown_pool (6 * MiB) []) tt). reflexivity. Defined.

(** C39: a lost shrink leaves the boundary too high. Whenever the delayed reclaim finds the top
    step free, the host takes a byte of it back, the reply is lost (-ETIMEDOUT) and the range query
    that should settle it is not answered either, the work keeps the boundary and only arms itself
    again: until that retry the pool goes on offering a byte the host no longer grants. *)
Theorem lost_shrink_breaks_backing {B W} `{BL : BuddyLaws B} `{PA : PoolApi W} `{HL : !HostLaws W}
  lock (p p1 : guest_pool B) (w w1 : W) a
  (Hlock : lock (set_armed p false, w) = (p1, w1)) (Hwf : pool_wf p1) (Hr : gp_ready p1 = true)
  (Hfree : fst (virtio_gpu_guest_pool_step_free_locked p1) = true)
  (Ha : gp_backed p1 - gp_step p1 <= a < gp_backed p1)
  (Hlost : fst (pool_shrink (gp_id p1) (gp_backed p1 - gp_step p1) (gp_step p1) w1) = - ETIMEDOUT)
  (Hgone : ~ granted (snd (pool_shrink (gp_id p1) (gp_backed p1 - gp_step p1) (gp_step p1) w1)) (gp_id p1) a)
  (Hquery : forall b, fst (pool_query_range (gp_id p1) (gp_backed p1 - gp_step p1) (gp_step p1)
     (snd (pool_shrink (gp_id p1) (gp_backed p1 - gp_step p1) (gp_step p1) w1))) <> (0, Some b)) :
  let '(_, (p', w')) := virtio_gpu_guest_pool_reclaim_work lock (p, w) in
  gp_ready p' = true /\ gp_reclaim_armed p' = true /\ gp_backed p' = gp_backed p1 /\
  0 <= a < gp_backed p' /\ ~ granted w' (gp_id p') a.
Proof.
  unfold virtio_gpu_guest_pool_reclaim_work. rewrite Hlock, Hr. unfold reclaim_and_arm. cbn [fst].
  unfold reclaim_fuel. cbn [virtio_gpu_guest_pool_reclaim_locked].
  pose proof (step_free_spec p1 Hwf) as Hs.
  destruct (virtio_gpu_guest_pool_step_free_locked p1) as [free p2]. cbn [fst] in Hfree. subst free.
  destruct Hs as (mm' & -> & _ & _ & S3). destruct (S3 eq_refl) as (N1 & N2 & _). cbn [negb].
  destruct (floor_step p1 Hwf N1 N2) as [Hpos Hfl]. destruct (wf_range p1 Hwf) as [W1 W2].
  assert (Ha0 : 0 <= a) by lia. unfold virtio_gpu_guest_pool_shrink_one_locked. cbn [gp_step gp_backed gp_prealloc gp_id set_mm].
  rewrite (proj2 (Z.eqb_neq _ _)), (proj2 (Z.leb_gt _ _)) by lia. cbn [orb]. rewrite u64_small by lia.
  destruct (pool_shrink _ _ _ w1) as [r w2]. cbn [fst snd] in *. subst r. cbn [c_true Z.eqb negb].
  match goal with |- context [pool_query_range ?i ?o ?l ?v] => 
    pose proof (host_query_law i o l v) as [Q1 _]; destruct (pool_query_range i o l v) as [[q b] w3] end.
  cbn [fst snd] in *. change (c_true (- ETIMEDOUT)) with true. cbv iota.
  destruct ((q =? 0) && negb (default true b)) eqn:Eq.
  { bool_prop. subst q. destruct b as [[]|]; try done. by destruct (Hquery false). }
  change (- ETIMEDOUT =? - EUCLEAN) with false. change (- ETIMEDOUT =? 0) with false. cbv iota.
  cbn. split_and!; [done | done | done | done | apply Ha |]. by rewrite Q1.
Qed.

(** a pool one step above its floor whose host's answers get lost: the step is reclaimed, the
    caller cannot learn it, and the boundary stays above memory the host has taken back *)
Definition raised_pool : guest_pool toy_mm := set_backed (pool0 []) (6 * MiB).
Definition lossy_host : host false := Host [(0, 4 * MiB, 2 * MiB); (0, 0, 4 * MiB)] [HLost].

Lemma lost_shrink_breaks_backing_witness :
  let '(_, (p', w')) := virtio_gpu_guest_pool_reclaim_work (fun st => st) (raised_pool, lossy_host) in
  gp_ready p' = true /\ gp_reclaim_armed p' = true /\ gp_backed p' = gp_backed (set_armed raised_pool false) /\
  0 <= (5 * MiB) < gp_backed p' /\ ~ granted w' (gp_id p') (5 * MiB).
Proof.
  apply (lost_shrink_breaks_backing (fun st => st) raised_pool (set_armed raised_pool false)
           lossy_host lossy_host (5 * MiB)).
  - reflexivity.
  - split; cbn; [unfold MiB; lia | | done | done]. left. split; [unfold MiB; lia|]. by exists 1.
  - reflexivity.
  - vm_compute. reflexivity.
  - cbn. unfold MiB. lia.
  - vm_compute. reflexivity.
  - assert (E : snd (pool_shrink 0 (4 * MiB) (2 * MiB) lossy_host) = Host [(0, 0, 4 * MiB)] [])
      by (vm_compute; reflexivity).
    change (~ granted (snd (pool_shrink 0 (4 * MiB) (2 * MiB) lossy_host)) 0 (5 * MiB)). rewrite E.
    intros (o & l & Hin & Ha). cbn in Hin.
    apply elem_of_cons in Hin as [[= -> ->]|Hin]; [unfold MiB in Ha; lia | by apply elem_of_nil in Hin].
  - intros b. cbn. done.
Defined.

(** the bytes it had before were all granted, so this is where the backing breaks *)
Example lossy_host_backed : pool_backed raised_pool lossy_host.
Proof.
  intros a Ha. cbn in Ha. destruct (Z.lt_ge_cases a (4 * MiB)).
  - exists 0, (4 * MiB). split; [cbn; set_solver | unfold MiB in *; lia].
  - exists (4 * MiB), (2 * MiB). split; [cbn; set_solver | unfold MiB in *; lia].
Qed.
