(* ===== verification/Wire.v ===== *)
(** * The virtio-gpu wire format (virtio_gpu/uapi/linux/virtio_gpu.h)

    The command header, one constructor of [gpu_cmd] per command struct the driver sends on its
    two queues, their little-endian layouts with the padding of the header file, a parser as
    the device reads them, and the decoders of the responses. *)

From S2P Require Import Prelude.

(** ** The header: [struct virtio_gpu_ctrl_hdr] *)

Record ctrl_hdr := CtrlHdr {
  h_type : Z; h_flags : Z; h_fence_id : Z; h_ctx_id : Z; h_ring_idx : Z
}.
Definition sizeof_ctrl_hdr : Z := 24.

Definition VIRTIO_GPU_FLAG_FENCE : Z := 1.
Definition VIRTIO_GPU_FLAG_INFO_RING_IDX : Z := 2.

Definition hdr_bytes (h : ctrl_hdr) : list Z :=
  le_put 4 (h_type h) ++ le_put 4 (h_flags h) ++ le_put 8 (h_fence_id h) ++
  le_put 4 (h_ctx_id h) ++ le_put 1 (h_ring_idx h) ++ [0; 0; 0].

(** ** Command and response types: [enum virtio_gpu_ctrl_type] *)

Definition VIRTIO_GPU_CMD_GET_DISPLAY_INFO : Z := 0x0100.
Definition VIRTIO_GPU_CMD_RESOURCE_CREATE_2D : Z := 0x0101.
Definition VIRTIO_GPU_CMD_RESOURCE_UNREF : Z := 0x0102.
Definition VIRTIO_GPU_CMD_SET_SCANOUT : Z := 0x0103.
Definition VIRTIO_GPU_CMD_RESOURCE_FLUSH : Z := 0x0104.
Definition VIRTIO_GPU_CMD_TRANSFER_TO_HOST_2D : Z := 0x0105.
Definition VIRTIO_GPU_CMD_RESOURCE_ATTACH_BACKING : Z := 0x0106.
Definition VIRTIO_GPU_CMD_RESOURCE_DETACH_BACKING : Z := 0x0107.
Definition VIRTIO_GPU_CMD_GET_CAPSET_INFO : Z := 0x0108.
Definition VIRTIO_GPU_CMD_GET_CAPSET : Z := 0x0109.
Definition VIRTIO_GPU_CMD_GET_EDID : Z := 0x010a.
Definition VIRTIO_GPU_CMD_RESOURCE_ASSIGN_UUID : Z := 0x010b.
Definition VIRTIO_GPU_CMD_RESOURCE_CREATE_BLOB : Z := 0x010c.
Definition VIRTIO_GPU_CMD_SET_SCANOUT_BLOB : Z := 0x010d.
Definition VIRTIO_GPU_CMD_CTX_CREATE : Z := 0x0200.
Definition VIRTIO_GPU_CMD_CTX_DESTROY : Z := 0x0201.
Definition VIRTIO_GPU_CMD_CTX_ATTACH_RESOURCE : Z := 0x0202.
Definition VIRTIO_GPU_CMD_CTX_DETACH_RESOURCE : Z := 0x0203.
Definition VIRTIO_GPU_CMD_RESOURCE_CREATE_3D : Z := 0x0204.
Definition VIRTIO_GPU_CMD_TRANSFER_TO_HOST_3D : Z := 0x0205.
Definition VIRTIO_GPU_CMD_TRANSFER_FROM_HOST_3D : Z := 0x0206.
Definition VIRTIO_GPU_CMD_SUBMIT_3D : Z := 0x0207.
Definition VIRTIO_GPU_CMD_RESOURCE_MAP_BLOB : Z := 0x0208.
Definition VIRTIO_GPU_CMD_RESOURCE_UNMAP_BLOB : Z := 0x0209.
Definition VIRTIO_GPU_CMD_UPDATE_CURSOR : Z := 0x0300.
Definition VIRTIO_GPU_CMD_MOVE_CURSOR : Z := 0x0301.

Definition VIRTIO_GPU_RESP_OK_NODATA : Z := 0x1100.
Definition VIRTIO_GPU_RESP_OK_DISPLAY_INFO : Z := 0x1101.
Definition VIRTIO_GPU_RESP_OK_CAPSET_INFO : Z := 0x1102.
Definition VIRTIO_GPU_RESP_OK_CAPSET : Z := 0x1103.
Definition VIRTIO_GPU_RESP_OK_EDID : Z := 0x1104.
Definition VIRTIO_GPU_RESP_OK_RESOURCE_UUID : Z := 0x1105.
Definition VIRTIO_GPU_RESP_OK_MAP_INFO : Z := 0x1106.
Definition VIRTIO_GPU_RESP_ERR_UNSPEC : Z := 0x1200.
Definition VIRTIO_GPU_RESP_ERR_INVALID_RESOURCE_ID : Z := 0x1203.

Definition VIRTIO_GPU_BLOB_MEM_GUEST : Z := 1.
Definition VIRTIO_GPU_BLOB_MEM_HOST3D : Z := 2.
Definition VIRTIO_GPU_BLOB_MEM_HOST3D_GUEST : Z := 3.
Definition VIRTIO_GPU_BLOB_FLAG_USE_MAPPABLE : Z := 1.
Definition VIRTIO_GPU_BLOB_FLAG_USE_SHAREABLE : Z := 2.
Definition VIRTIO_GPU_BLOB_FLAG_USE_CROSS_DEVICE : Z := 4.

Definition VIRTIO_GPU_MAP_CACHE_MASK : Z := 15.
Definition VIRTIO_GPU_MAP_CACHE_CACHED : Z := 1.
Definition VIRTIO_GPU_MAP_CACHE_UNCACHED : Z := 2.
Definition VIRTIO_GPU_MAP_CACHE_WC : Z := 3.
Definition VIRTIO_GPU_MAP_INFO_POOL : Z := 0x80000000.

Definition VIRTIO_GPU_CONTEXT_INIT_CAPSET_ID_MASK : Z := 255.
Definition VIRTIO_GPU_MAX_SCANOUTS : nat := 16.

(** ** Commands *)

Record gpu_rect := GpuRect { rc_x : Z; rc_y : Z; rc_width : Z; rc_height : Z }.
Record gpu_box := GpuBox { bx_x : Z; bx_y : Z; bx_z : Z; bx_w : Z; bx_h : Z; bx_d : Z }.
Record gpu_mem_entry := MemEntry { me_addr : Z; me_length : Z }.

Inductive gpu_cmd :=
| GetDisplayInfo
| ResourceCreate2d (resource_id format width height : Z)
| ResourceUnref (resource_id : Z)
| SetScanout (r : gpu_rect) (scanout_id resource_id : Z)
| ResourceFlush (r : gpu_rect) (resource_id : Z)
| TransferToHost2d (r : gpu_rect) (offset resource_id : Z)
| ResourceAttachBacking (resource_id nr_entries : Z)
| ResourceDetachBacking (resource_id : Z)
| GetCapsetInfo (capset_index : Z)
| GetCapset (capset_id capset_version : Z)
| GetEdid (scanout : Z)
| ResourceAssignUuid (resource_id : Z)
| ResourceCreateBlob (resource_id blob_mem blob_flags nr_entries blob_id size : Z)
| SetScanoutBlob (r : gpu_rect) (scanout_id resource_id width height format : Z)
    (s0 s1 s2 s3 o0 o1 o2 o3 : Z)
| CtxCreate (nlen context_init : Z) (debug_name : list Z)
| CtxDestroy
| CtxAttachResource (resource_id : Z)
| CtxDetachResource (resource_id : Z)
| ResourceCreate3d (resource_id target format bind width height depth array_size last_level
    nr_samples flags : Z)
| TransferToHost3d (box : gpu_box) (offset resource_id level stride layer_stride : Z)
| TransferFromHost3d (box : gpu_box) (offset resource_id level stride layer_stride : Z)
| Submit3d (size : Z)
| ResourceMapBlob (resource_id offset : Z)
| ResourceUnmapBlob (resource_id : Z)
| UpdateCursor (scanout_id x y resource_id hot_x hot_y : Z)
| MoveCursor (scanout_id x y resource_id hot_x hot_y : Z).

Definition cmd_type (c : gpu_cmd) : Z :=
  match c with
  | GetDisplayInfo => VIRTIO_GPU_CMD_GET_DISPLAY_INFO
  | ResourceCreate2d _ _ _ _ => VIRTIO_GPU_CMD_RESOURCE_CREATE_2D
  | ResourceUnref _ => VIRTIO_GPU_CMD_RESOURCE_UNREF
  | SetScanout _ _ _ => VIRTIO_GPU_CMD_SET_SCANOUT
  | ResourceFlush _ _ => VIRTIO_GPU_CMD_RESOURCE_FLUSH
  | TransferToHost2d _ _ _ => VIRTIO_GPU_CMD_TRANSFER_TO_HOST_2D
  | ResourceAttachBacking _ _ => VIRTIO_GPU_CMD_RESOURCE_ATTACH_BACKING
  | ResourceDetachBacking _ => VIRTIO_GPU_CMD_RESOURCE_DETACH_BACKING
  | GetCapsetInfo _ => VIRTIO_GPU_CMD_GET_CAPSET_INFO
  | GetCapset _ _ => VIRTIO_GPU_CMD_GET_CAPSET
  | GetEdid _ => VIRTIO_GPU_CMD_GET_EDID
  | ResourceAssignUuid _ => VIRTIO_GPU_CMD_RESOURCE_ASSIGN_UUID
  | ResourceCreateBlob _ _ _ _ _ _ => VIRTIO_GPU_CMD_RESOURCE_CREATE_BLOB
  | SetScanoutBlob _ _ _ _ _ _ _ _ _ _ _ _ _ _ => VIRTIO_GPU_CMD_SET_SCANOUT_BLOB
  | CtxCreate _ _ _ => VIRTIO_GPU_CMD_CTX_CREATE
  | CtxDestroy => VIRTIO_GPU_CMD_CTX_DESTROY
  | CtxAttachResource _ => VIRTIO_GPU_CMD_CTX_ATTACH_RESOURCE
  | CtxDetachResource _ => VIRTIO_GPU_CMD_CTX_DETACH_RESOURCE
  | ResourceCreate3d _ _ _ _ _ _ _ _ _ _ _ => VIRTIO_GPU_CMD_RESOURCE_CREATE_3D
  | TransferToHost3d _ _ _ _ _ _ => VIRTIO_GPU_CMD_TRANSFER_TO_HOST_3D
  | TransferFromHost3d _ _ _ _ _ _ => VIRTIO_GPU_CMD_TRANSFER_FROM_HOST_3D
  | Submit3d _ => VIRTIO_GPU_CMD_SUBMIT_3D
  | ResourceMapBlob _ _ => VIRTIO_GPU_CMD_RESOURCE_MAP_BLOB
  | ResourceUnmapBlob _ => VIRTIO_GPU_CMD_RESOURCE_UNMAP_BLOB
  | UpdateCursor _ _ _ _ _ _ => VIRTIO_GPU_CMD_UPDATE_CURSOR
  | MoveCursor _ _ _ _ _ _ => VIRTIO_GPU_CMD_MOVE_CURSOR
  end.

(** fields one after the other: [F32] and [F64] little-endian integers, [FBytes] raw bytes *)
Inductive field := F32 (z : Z) | F64 (z : Z) | FBytes (b : list Z).
Definition field_bytes (f : field) : list Z :=
  match f with F32 z => le_put 4 z | F64 z => le_put 8 z | FBytes b => b end.

Definition rect_fields (r : gpu_rect) : list field :=
  [F32 (rc_x r); F32 (rc_y r); F32 (rc_width r); F32 (rc_height r)].
Definition box_fields (b : gpu_box) : list field :=
  [F32 (bx_x b); F32 (bx_y b); F32 (bx_z b); F32 (bx_w b); F32 (bx_h b); F32 (bx_d b)].

(** the fields after the header, padding included *)
Definition cmd_fields (c : gpu_cmd) : list field :=
  match c with
  | GetDisplayInfo => []
  | ResourceCreate2d i f w h => [F32 i; F32 f; F32 w; F32 h]
  | ResourceUnref i => [F32 i; F32 0]
  | SetScanout r s i => rect_fields r ++ [F32 s; F32 i]
  | ResourceFlush r i => rect_fields r ++ [F32 i; F32 0]
  | TransferToHost2d r o i => rect_fields r ++ [F64 o; F32 i; F32 0]
  | ResourceAttachBacking i n => [F32 i; F32 n]
  | ResourceDetachBacking i => [F32 i; F32 0]
  | GetCapsetInfo i => [F32 i; F32 0]
  | GetCapset i v => [F32 i; F32 v]
  | GetEdid s => [F32 s; F32 0]
  | ResourceAssignUuid i => [F32 i; F32 0]
  | ResourceCreateBlob i m f n b s => [F32 i; F32 m; F32 f; F32 n; F64 b; F64 s]
  | SetScanoutBlob r s i w h f s0 s1 s2 s3 o0 o1 o2 o3 =>
      rect_fields r ++ [F32 s; F32 i; F32 w; F32 h; F32 f; F32 0;
                        F32 s0; F32 s1; F32 s2; F32 s3; F32 o0; F32 o1; F32 o2; F32 o3]
  | CtxCreate n ci name => [F32 n; F32 ci; FBytes name]
  | CtxDestroy => []
  | CtxAttachResource i => [F32 i; F32 0]
  | CtxDetachResource i => [F32 i; F32 0]
  | ResourceCreate3d i t f b w h d a l n fl =>
      [F32 i; F32 t; F32 f; F32 b; F32 w; F32 h; F32 d; F32 a; F32 l; F32 n; F32 fl; F32 0]
  | TransferToHost3d b o i l s ls => box_fields b ++ [F64 o; F32 i; F32 l; F32 s; F32 ls]
  | TransferFromHost3d b o i l s ls => box_fields b ++ [F64 o; F32 i; F32 l; F32 s; F32 ls]
  | Submit3d s => [F32 s; F32 0]
  | ResourceMapBlob i o => [F32 i; F32 0; F64 o]
  | ResourceUnmapBlob i => [F32 i; F32 0]
  | UpdateCursor s x y i hx hy => [F32 s; F32 x; F32 y; F32 0; F32 i; F32 hx; F32 hy; F32 0]
  | MoveCursor s x y i hx hy => [F32 s; F32 x; F32 y; F32 0; F32 i; F32 hx; F32 hy; F32 0]
  end.

Definition fields_bytes (l : list field) : list Z := mjoin (field_bytes <$> l).
Definition cmd_body (c : gpu_cmd) : list Z := fields_bytes (cmd_fields c).
Definition mem_entry_bytes (e : gpu_mem_entry) : list Z :=
  le_put 8 (me_addr e) ++ le_put 4 (me_length e) ++ le_put 4 0.
Definition sizeof_mem_entry : Z := 16.

(** ** The parser: what a device reads *)

(** the shape of a command's body *)
Inductive fkind := K32 | K64 | KBytes (n : nat).
Definition kind_size (k : fkind) : nat := match k with K32 => 4 | K64 => 8 | KBytes n => n end.

Fixpoint parse_fields (ks : list fkind) (b : list Z) : option (list field) :=
  match ks with
  | [] => if decide (b = []) then Some [] else None
  | k :: ks' =>
      if (length b <? kind_size k)%nat then None
      else
        let here := take (kind_size k) b in
        let f := match k with K32 => F32 (le_get here) | K64 => F64 (le_get here) | KBytes _ => FBytes here end in
        option_map (cons f) (parse_fields ks' (drop (kind_size k) b))
  end.

Definition k32s (n : nat) : list fkind := replicate n K32.

(** the body layout of each command type the device knows *)
Definition cmd_kinds (ty : Z) : option (list fkind) :=
  if ty =? VIRTIO_GPU_CMD_GET_DISPLAY_INFO then Some []
  else if ty =? VIRTIO_GPU_CMD_RESOURCE_CREATE_2D then Some (k32s 4)
  else if ty =? VIRTIO_GPU_CMD_SET_SCANOUT then Some (k32s 6)
  else if ty =? VIRTIO_GPU_CMD_RESOURCE_FLUSH then Some (k32s 6)
  else if ty =? VIRTIO_GPU_CMD_TRANSFER_TO_HOST_2D then Some (k32s 4 ++ [K64] ++ k32s 2)
  else if ty =? VIRTIO_GPU_CMD_RESOURCE_CREATE_BLOB then Some (k32s 4 ++ [K64; K64])
  else if ty =? VIRTIO_GPU_CMD_SET_SCANOUT_BLOB then Some (k32s 18)
  else if ty =? VIRTIO_GPU_CMD_CTX_CREATE then Some [K32; K32; KBytes 64]
  else if ty =? VIRTIO_GPU_CMD_CTX_DESTROY then Some []
  else if ty =? VIRTIO_GPU_CMD_RESOURCE_CREATE_3D then Some (k32s 12)
  else if (ty =? VIRTIO_GPU_CMD_TRANSFER_TO_HOST_3D) || (ty =? VIRTIO_GPU_CMD_TRANSFER_FROM_HOST_3D)
  then Some (k32s 6 ++ [K64] ++ k32s 4)
  else if ty =? VIRTIO_GPU_CMD_RESOURCE_MAP_BLOB then Some [K32; K32; K64]
  else if (ty =? VIRTIO_GPU_CMD_UPDATE_CURSOR) || (ty =? VIRTIO_GPU_CMD_MOVE_CURSOR) then Some (k32s 8)
  else if existsb (Z.eqb ty)
    [VIRTIO_GPU_CMD_RESOURCE_UNREF; VIRTIO_GPU_CMD_RESOURCE_ATTACH_BACKING;
     VIRTIO_GPU_CMD_RESOURCE_DETACH_BACKING; VIRTIO_GPU_CMD_GET_CAPSET_INFO;
     VIRTIO_GPU_CMD_GET_CAPSET; VIRTIO_GPU_CMD_GET_EDID; VIRTIO_GPU_CMD_RESOURCE_ASSIGN_UUID;
     VIRTIO_GPU_CMD_CTX_ATTACH_RESOURCE; VIRTIO_GPU_CMD_CTX_DETACH_RESOURCE;
     VIRTIO_GPU_CMD_SUBMIT_3D; VIRTIO_GPU_CMD_RESOURCE_UNMAP_BLOB] then Some (k32s 2)
  else None.

(** rebuild the command from its type and fields *)
Definition cmd_of_fields (ty : Z) (l : list field) : option gpu_cmd :=
  match l with
  | [] => if ty =? VIRTIO_GPU_CMD_GET_DISPLAY_INFO then Some GetDisplayInfo
          else if ty =? VIRTIO_GPU_CMD_CTX_DESTROY then Some CtxDestroy else None
  | [F32 a; F32 b] =>
      if ty =? VIRTIO_GPU_CMD_RESOURCE_UNREF then Some (ResourceUnref a)
      else if ty =? VIRTIO_GPU_CMD_RESOURCE_ATTACH_BACKING then Some (ResourceAttachBacking a b)
      else if ty =? VIRTIO_GPU_CMD_RESOURCE_DETACH_BACKING then Some (ResourceDetachBacking a)
      else if ty =? VIRTIO_GPU_CMD_GET_CAPSET_INFO then Some (GetCapsetInfo a)
      else if ty =? VIRTIO_GPU_CMD_GET_CAPSET then Some (GetCapset a b)
      else if ty =? VIRTIO_GPU_CMD_GET_EDID then Some (GetEdid a)
      else if ty =? VIRTIO_GPU_CMD_RESOURCE_ASSIGN_UUID then Some (ResourceAssignUuid a)
      else if ty =? VIRTIO_GPU_CMD_CTX_ATTACH_RESOURCE then Some (CtxAttachResource a)
      else if ty =? VIRTIO_GPU_CMD_CTX_DETACH_RESOURCE then Some (CtxDetachResource a)
      else if ty =? VIRTIO_GPU_CMD_SUBMIT_3D then Some (Submit3d a)
      else if ty =? VIRTIO_GPU_CMD_RESOURCE_UNMAP_BLOB then Some (ResourceUnmapBlob a)
      else None
  | [F32 a; F32 b; F32 c; F32 d] => Some (ResourceCreate2d a b c d)
  | [F32 a; F32 b; F32 c; F32 d; F32 e; F32 f] =>
      if ty =? VIRTIO_GPU_CMD_SET_SCANOUT then Some (SetScanout (GpuRect a b c d) e f)
      else Some (ResourceFlush (GpuRect a b c d) e)
  | [F32 a; F32 b; F32 c; F32 d; F64 o; F32 i; F32 _] => Some (TransferToHost2d (GpuRect a b c d) o i)
  | [F32 a; F32 b; F32 c; F32 d; F64 e; F64 f] => Some (ResourceCreateBlob a b c d e f)
  | [F32 a; F32 b; F32 c; F32 d; F32 s; F32 i; F32 w; F32 h; F32 f; F32 _;
     F32 s0; F32 s1; F32 s2; F32 s3; F32 o0; F32 o1; F32 o2; F32 o3] =>
      Some (SetScanoutBlob (GpuRect a b c d) s i w h f s0 s1 s2 s3 o0 o1 o2 o3)
  | [F32 n; F32 c; FBytes name] => Some (CtxCreate n c name)
  | [F32 i; F32 t; F32 f; F32 b; F32 w; F32 h; F32 d; F32 a; F32 l; F32 n; F32 fl; F32 _] =>
      Some (ResourceCreate3d i t f b w h d a l n fl)
  | [F32 x; F32 y; F32 z; F32 w; F32 h; F32 d; F64 o; F32 i; F32 l; F32 s; F32 ls] =>
      if ty =? VIRTIO_GPU_CMD_TRANSFER_TO_HOST_3D
      then Some (TransferToHost3d (GpuBox x y z w h d) o i l s ls)
      else Some (TransferFromHost3d (GpuBox x y z w h d) o i l s ls)
  | [F32 i; F32 _; F64 o] => Some (ResourceMapBlob i o)
  | [F32 s; F32 x; F32 y; F32 _; F32 i; F32 hx; F32 hy; F32 _] =>
      if ty =? VIRTIO_GPU_CMD_UPDATE_CURSOR then Some (UpdateCursor s x y i hx hy)
      else Some (MoveCursor s x y i hx hy)
  | _ => None
  end.

Definition parse_cmd (ty : Z) (body : list Z) : option gpu_cmd :=
  ks ← cmd_kinds ty; l ← parse_fields ks body; cmd_of_fields ty l.

Definition hdr_of_bytes (b : list Z) : ctrl_hdr :=
  CtrlHdr (le_get (take 4 b)) (le_get (take 4 (drop 4 b))) (le_get (take 8 (drop 8 b)))
          (le_get (take 4 (drop 16 b))) (le_get (take 1 (drop 20 b))).

(** ** Responses: the part after the header *)

Definition resp_u32 (off : nat) (b : list Z) : Z := le_get (take 4 (drop off b)).

(** [struct virtio_gpu_display_one] *)
Record display_one := DisplayOne { do_r : gpu_rect; do_enabled : Z; do_flags : Z }.
Definition display_one_of (b : list Z) : display_one :=
  DisplayOne (GpuRect (resp_u32 0 b) (resp_u32 4 b) (resp_u32 8 b) (resp_u32 12 b))
             (resp_u32 16 b) (resp_u32 20 b).
Definition sizeof_display_one : nat := 24.
(** [resp->pmodes[i]] of the body *)
Definition pmode (i : nat) (body : list Z) : display_one :=
  display_one_of (drop (sizeof_display_one * i)%nat body).

(** ** Well-formed fields *)

Definition field_ok (f : field) : Prop :=
  match f with
  | F32 z => 0 <= z < 2 ^ 32
  | F64 z => 0 <= z < 2 ^ 64
  | FBytes b => length b = 64%nat
  end.
(** every field fits its width, the debug name its array *)
Definition cmd_ok (c : gpu_cmd) : Prop := Forall field_ok (cmd_fields c).

Definition kind_of (f : field) : fkind :=
  match f with F32 _ => K32 | F64 _ => K64 | FBytes b => KBytes (length b) end.

(** ** Facts *)

Lemma parse_fields_bytes l : Forall field_ok l ->
  parse_fields (kind_of <$> l) (fields_bytes l) = Some l.
Proof.
  induction 1 as [|f l Hf _ IH]; [done|].
  change (fields_bytes (f :: l)) with (field_bytes f ++ fields_bytes l). rewrite fmap_cons. cbn [parse_fields].
  assert (Hlen : length (field_bytes f) = kind_size (kind_of f)) by by destruct f; cbn; rewrite ?length_le_put.
  destruct (Nat.ltb_spec (length (field_bytes f ++ fields_bytes l)) (kind_size (kind_of f))) as [Hc|_].
  { rewrite length_app in Hc. lia. }
  rewrite <- Hlen, take_app_length, drop_app_length, IH. cbn [option_map]. do 2 f_equal.
  destruct f as [z|z|b]; cbn [field_ok kind_of field_bytes] in *.
  - by rewrite le_get_put_4, u32_small.
  - by rewrite le_get_put_8, u64_small.
  - done.
Qed.

Lemma cmd_kinds_ok c : cmd_ok c -> cmd_kinds (cmd_type c) = Some (kind_of <$> cmd_fields c).
Proof.
  intros Hok. destruct c; try reflexivity.
  unfold cmd_ok in Hok. cbn [cmd_fields] in Hok. rewrite !Forall_cons in Hok. destruct Hok as (_ & _ & Hn & _).
  cbn in Hn |- *. by rewrite Hn.
Qed.

Lemma cmd_of_fields_ok c : cmd_of_fields (cmd_type c) (cmd_fields c) = Some c.
Proof. by destruct c as [| | |[]|[]|[]| | | | | | | |[]| | | | | |[]|[]| | | | |]. Qed.

Lemma fields_length l : Forall field_ok l ->
  length (fields_bytes l) = sum_list (kind_size ∘ kind_of <$> l).
Proof.
  induction 1 as [|f l Hf _ IH]; [done|].
  change (fields_bytes (f :: l)) with (field_bytes f ++ fields_bytes l).
  rewrite length_app, IH, fmap_cons. cbn [sum_list]. f_equal. by destruct f; cbn; rewrite ?length_le_put.
Qed.

Lemma parse_cmd_ok c : cmd_ok c -> parse_cmd (cmd_type c) (cmd_body c) = Some c.
Proof.
  intros Hok. unfold parse_cmd. apply bind_Some. eexists. split; [by apply cmd_kinds_ok|].
  apply bind_Some. eexists. split; [by apply parse_fields_bytes | apply cmd_of_fields_ok].
Qed.

Lemma cmd_body_inline c : cmd_ok c -> Z.of_nat (length (cmd_body c)) <= 72.
Proof.
  intros Hok. unfold cmd_body. rewrite fields_length by done.
  destruct c; try (cbn; lia).
  unfold cmd_ok in Hok. cbn [cmd_fields] in Hok. rewrite !Forall_cons in Hok. destruct Hok as (_ & _ & Hn & _).
  cbn in Hn |- *. rewrite Hn. lia.
Qed.

(** ** Properties *)

(** C9: every command the driver sends is read back as sent: the device's parser, given the type
    and the encoded body, returns the command, for all 26 commands. *)
Theorem cmd_roundtrip c (Hok : cmd_ok c) : parse_cmd (cmd_type c) (cmd_body c) = Some c.
Proof. by apply parse_cmd_ok. Qed.

Definition sample_blob_cmd : gpu_cmd := ResourceCreateBlob 5 1 1 2 7 8192.
Lemma sample_blob_ok : cmd_ok sample_blob_cmd.
Proof. unfold cmd_ok, sample_blob_cmd. cbn [cmd_fields].
  repeat (apply Forall_cons_2; [unfold field_ok; lia|]). apply Forall_nil_2.
Qed.

Lemma cmd_roundtrip_witness : parse_cmd 0x010c (cmd_body sample_blob_cmd) = Some sample_blob_cmd.
Proof. apply (cmd_roundtrip sample_blob_cmd). apply sample_blob_ok. Defined.

(** Header and body of every command fit the inline buffer of a [vbuf], 24 to 96 bytes, so
    the [BUG_ON] of [virtio_gpu_get_vbuf] never fires. *)
Theorem cmd_fits_inline c (Hok : cmd_ok c) :
  sizeof_ctrl_hdr <= sizeof_ctrl_hdr + Z.of_nat (length (cmd_body c)) <= 96.
Proof. pose proof (cmd_body_inline c Hok). unfold sizeof_ctrl_hdr. lia. Qed.

Lemma cmd_fits_inline_witness :
  sizeof_ctrl_hdr <= sizeof_ctrl_hdr + Z.of_nat (length (cmd_body sample_blob_cmd)) <= 96.
Proof. apply cmd_fits_inline. apply sample_blob_ok. Defined.

(** the header round trip, with the ring index in its byte *)
Lemma hdr_roundtrip h rest :
  hdr_of_bytes (hdr_bytes h ++ rest) =
  CtrlHdr (u32 (h_type h)) (u32 (h_flags h)) (u64 (h_fence_id h)) (u32 (h_ctx_id h)) (u8 (h_ring_idx h)).
Proof.
  destruct h as [t f i c r]. unfold hdr_of_bytes, hdr_bytes. cbn [h_type h_flags h_fence_id h_ctx_id h_ring_idx].
  rewrite <- (le_get_put_4 t), <- (le_get_put_4 f), <- (le_get_put_8 i), <- (le_get_put_4 c).
  replace (u8 r) with (le_get (le_put 1 r)) by (rewrite le_get_put; done). reflexivity.
Qed.
