(* ===== verification/Fence.v ===== *)
(** * Fences of the control queue (virtio_gpu/virtgpu_fence.c)

    Every fenced command gets the next 64-bit fence id when its place in the queue is known; a
    response carrying an id signals that fence and the earlier ones of the same timeline. The
    sequence comparison of the DMA-fence core, [dma_fence_is_later], is a parameter. *)

From stdpp Require Import sets.
From S2P Require Import Prelude Wire.

Record virtio_gpu_fence := Fence {
  fn_context : Z;            (* f.context, u64 *)
  fn_ring_idx : Z;           (* u32 *)
  fn_emit_fence_info : bool;
  fn_fence_id : Z;           (* fence_id and f.seqno; 0 before emission *)
  fn_event : bool            (* a DRM event is attached *)
}.

Record fence_driver := FenceDriver {
  fd_last : Z; fd_current : Z; fd_context : Z;
  fd_fences : list virtio_gpu_fence
}.

(** [None] when the allocation fails *)
Definition virtio_gpu_fence_alloc (have_mem : bool) (drv : fence_driver) (base_fence_ctx ring_idx : Z)
  : option virtio_gpu_fence :=
  if have_mem
  then Some (Fence (u64 (base_fence_ctx + ring_idx)) ring_idx (negb (base_fence_ctx =? fd_context drv)) 0 false)
  else None.

(** the driver with the fence on its list, the header to send, and the fence as emitted *)
Definition virtio_gpu_fence_emit (drv : fence_driver) (hdr : ctrl_hdr) (fence : virtio_gpu_fence)
  : fence_driver * ctrl_hdr * virtio_gpu_fence :=
  let id := u64 (fd_current drv + 1) in
  let f := Fence (fn_context fence) (fn_ring_idx fence) (fn_emit_fence_info fence) id (fn_event fence) in
  let flags := Z.lor (h_flags hdr) VIRTIO_GPU_FLAG_FENCE in
  let hdr1 :=
    if fn_emit_fence_info fence
    then CtrlHdr (h_type hdr) (Z.lor flags VIRTIO_GPU_FLAG_INFO_RING_IDX) id (h_ctx_id hdr) (u8 (fn_ring_idx fence))
    else CtrlHdr (h_type hdr) flags id (h_ctx_id hdr) (h_ring_idx hdr) in
  (FenceDriver (fd_last drv) id (fd_context drv) (fd_fences drv ++ [f]), hdr1, f).

Definition find_fence (fence_id : Z) (l : list virtio_gpu_fence) : option virtio_gpu_fence :=
  List.find (fun c => fence_id =? fn_fence_id c) l.

(** [list_del] of the found fence *)
Fixpoint del_fence (fence_id : Z) (l : list virtio_gpu_fence) : list virtio_gpu_fence :=
  match l with
  | [] => []
  | c :: l' => if fence_id =? fn_fence_id c then l' else c :: del_fence fence_id l'
  end.

Section Process.
Variable dma_fence_is_later : Z -> Z -> bool.

(** the inner loop's test: an older fence of the same context *)
Definition swept (signaled c : virtio_gpu_fence) : bool :=
  (fn_context signaled =? fn_context c) && dma_fence_is_later (fn_fence_id signaled) (fn_fence_id c).

(** the driver after the event, and the fences signalled, in order *)
Definition virtio_gpu_fence_event_process (drv : fence_driver) (fence_id : Z)
  : fence_driver * list virtio_gpu_fence :=
  match find_fence fence_id (fd_fences drv) with
  | None => (FenceDriver fence_id (fd_current drv) (fd_context drv) (fd_fences drv), [])
  | Some s =>
      let older := List.filter (swept s) (fd_fences drv) in
      let rest := List.filter (fun c => negb (swept s c)) (fd_fences drv) in
      (FenceDriver fence_id (fd_current drv) (fd_context drv) (del_fence fence_id rest), older ++ [s])
  end.

(** ** Runs of the fence driver: emissions, and events for whatever id the host sends *)
Inductive fence_op := FEmit (context ring_idx : Z) (info : bool) | FEvent (fence_id : Z).

Definition fence_run_op (op : fence_op) (st : fence_driver * list virtio_gpu_fence)
  : fence_driver * list virtio_gpu_fence :=
  let '(drv, done_) := st in
  match op with
  | FEmit c r i =>
      let '(drv', _, _) := virtio_gpu_fence_emit drv (CtrlHdr 0 0 0 0 0) (Fence c r i 0 false) in
      (drv', done_)
  | FEvent id => let '(drv', s) := virtio_gpu_fence_event_process drv id in (drv', done_ ++ s)
  end.

Definition fence_run (ops : list fence_op) (st : fence_driver * list virtio_gpu_fence) :=
  foldl (fun st op => fence_run_op op st) st ops.

Definition emits (ops : list fence_op) : nat :=
  length (List.filter (fun op => match op with FEmit _ _ _ => true | _ => false end) ops).

End Process.

Definition fence_driver_init (context : Z) : fence_driver := FenceDriver 0 0 context [].

(** the comparison the DMA-fence core makes for drivers with 32-bit sequence numbers *)
Definition is_later_32 (a b : Z) : bool := 0 <? s32 (u32 a - u32 b).

Definition ids (l : list virtio_gpu_fence) : list Z := fn_fence_id <$> l.

(** ** Facts *)

Lemma is_later_32_window a b : 0 <= a -> 0 <= b -> Z.abs (a - b) < 2 ^ 31 -> is_later_32 a b = (b <? a).
Proof.
  intros Ha Hb Hw. unfold is_later_32, s32, u32.
  rewrite Zplus_mod, Zminus_mod_idemp_l, Zminus_mod_idemp_r, <- Zplus_mod.
  rewrite Z.mod_small by lia. destruct (Z.ltb_spec b a); [apply Z.ltb_lt | apply Z.ltb_ge]; lia.
Qed.

Lemma find_fence_Some id l f : find_fence id l = Some f -> f ∈ l /\ fn_fence_id f = id.
Proof.
  intros Hf. apply List.find_some in Hf as [Hin He]. apply Z.eqb_eq in He.
  split; [by apply list_elem_of_In | done].
Qed.

Lemma find_fence_None id l : find_fence id l = None -> id ∉ ids l.
Proof.
  intros Hf Hin. apply list_elem_of_fmap in Hin as (c & -> & Hc).
  pose proof (List.find_none _ _ Hf c) as Hn. cbn in Hn. rewrite Z.eqb_refl in Hn.
  by specialize (Hn (proj1 (list_elem_of_In _ _) Hc)).
Qed.

Lemma del_fence_perm id l f : f ∈ l -> fn_fence_id f = id -> NoDup (ids l) ->
  f :: del_fence id l ≡ₚ l.
Proof.
  intros Hin He. induction l as [|c l IH]; intros Hnd; [by apply elem_of_nil in Hin|].
  cbn in *. apply NoDup_cons in Hnd as [Hc Hnd].
  destruct (Z.eqb_spec id (fn_fence_id c)) as [E|E].
  - apply elem_of_cons in Hin as [->|Hin]; [done|]. exfalso. apply Hc.
    rewrite <- E, <- He. by apply list_elem_of_fmap_2.
  - apply elem_of_cons in Hin as [->|Hin]; [congruence|]. rewrite Permutation_swap. by rewrite IH.
Qed.

Lemma filter_split_perm {A} (f : A -> bool) l :
  List.filter f l ++ List.filter (fun c => negb (f c)) l ≡ₚ l.
Proof.
  induction l as [|c l IH]; [done|]. cbn. destruct (f c); cbn; [by rewrite IH|].
  rewrite <- Permutation_middle. by rewrite IH.
Qed.

Section Facts.
Context (is_later : Z -> Z -> bool).
Hypothesis later_irrefl : forall a, is_later a a = false.

(** an event moves fences from pending to signalled, and invents or loses none *)
Lemma event_process_perm drv id : NoDup (ids (fd_fences drv)) ->
  let '(drv', s) := virtio_gpu_fence_event_process is_later drv id in
  s ++ fd_fences drv' ≡ₚ fd_fences drv /\ fd_current drv' = fd_current drv.
Proof.
  intros Hnd. unfold virtio_gpu_fence_event_process.
  destruct (find_fence id (fd_fences drv)) as [f|] eqn:Hf; [|done].
  apply find_fence_Some in Hf as [Hin He]. cbn. split; [|done].
  pose proof (filter_split_perm (swept is_later f) (fd_fences drv)) as Hp.
  assert (Hin' : f ∈ List.filter (fun c => negb (swept is_later f c)) (fd_fences drv)).
  { apply list_elem_of_In, List.filter_In. split; [by apply list_elem_of_In|].
    unfold swept. by rewrite later_irrefl, andb_false_r. }
  assert (Hnd' : NoDup (ids (List.filter (fun c => negb (swept is_later f c)) (fd_fences drv)))).
  { unfold ids in *. rewrite <- Hp, fmap_app in Hnd. by apply NoDup_app in Hnd as (_ & _ & ?). }
  rewrite <- app_assoc. cbn. by rewrite (del_fence_perm id _ f Hin' He Hnd').
Qed.

End Facts.

(** ** Properties *)

(** the pending list in emission order *)
Definition pending_sorted (l : list virtio_gpu_fence) : Prop :=
  StronglySorted (fun a b => fn_fence_id a < fn_fence_id b) l.

Lemma sorted_nodup l : pending_sorted l -> NoDup (ids l).
Proof.
  induction 1 as [|c l Hs IH Hc]; [constructor|]. cbn. constructor; [|done].
  intros Hin. apply list_elem_of_fmap in Hin as (x & E & Hx).
  rewrite Forall_forall in Hc. specialize (Hc x Hx). lia.
Qed.

Lemma sorted_filter f l : pending_sorted l -> pending_sorted (List.filter f l).
Proof.
  induction 1 as [|c l Hs IH Hc]; [constructor|]. cbn. destruct (f c); [|done].
  constructor; [done|]. apply Forall_forall. intros x Hx. rewrite Forall_forall in Hc.
  apply Hc. apply list_elem_of_In in Hx. apply List.filter_In in Hx as [Hx _]. by apply list_elem_of_In.
Qed.

Lemma filter_false {A} (g : A -> bool) l : (forall x, x ∈ l -> g x = false) -> List.filter g l = [].
Proof. induction l as [|x l IH]; intros H; [done|]. cbn. rewrite H by set_solver. apply IH. set_solver. Qed.

Lemma filter_ext_elem {A} (g h : A -> bool) l : (forall x, x ∈ l -> g x = h x) -> List.filter g l = List.filter h l.
Proof. induction l as [|x l IH]; intros H; [done|]. cbn. rewrite H by set_solver. rewrite IH; [done|set_solver]. Qed.

(** in a sorted list, the fence itself ends the sweep of the older ones, and deleting it leaves
    the others *)
Lemma sweep_sorted (p : virtio_gpu_fence -> bool) l f : pending_sorted l -> f ∈ l -> p f = true ->
  List.filter (fun c => p c && (fn_fence_id c <? fn_fence_id f)) l ++ [f] =
    List.filter (fun c => p c && (fn_fence_id c <=? fn_fence_id f)) l /\
  del_fence (fn_fence_id f) (List.filter (fun c => negb (p c && (fn_fence_id c <? fn_fence_id f))) l) =
    List.filter (fun c => negb (p c && (fn_fence_id c <=? fn_fence_id f))) l.
Proof.
  induction 1 as [|c l Hs IH Hc]; intros Hin Hp; [by apply elem_of_nil in Hin|].
  rewrite Forall_forall in Hc. apply elem_of_cons in Hin as [->|Hin]; cbn.
  - rewrite Hp, Z.ltb_irrefl, Z.leb_refl. cbn. rewrite Z.eqb_refl.
    split.
    + rewrite !filter_false; [done|..]; intros x Hx; specialize (Hc x Hx); apply andb_false_iff; right;
        first [apply Z.ltb_ge | apply Z.leb_gt]; lia.
    + apply filter_ext_elem. intros x Hx. specialize (Hc x Hx). f_equal. f_equal.
      transitivity false; [apply Z.ltb_ge | symmetry; apply Z.leb_gt]; lia.
  - specialize (Hc f Hin). destruct (IH Hin Hp) as [I1 I2].
    rewrite (proj2 (Z.ltb_lt (fn_fence_id c) _)), (proj2 (Z.leb_le (fn_fence_id c) _)) by lia.
    destruct (p c); cbn; [by rewrite I1, I2|].
    rewrite (proj2 (Z.eqb_neq _ _)) by lia. by rewrite I1, I2.
Qed.

(** C8: a response's fence id signals exactly the pending fences of that fence's own context with
    an id up to it, each once and in order, and removes exactly those; an id that is not pending
    signals nothing. (The ids in flight lie within the window in which the 32-bit comparison of
    the DMA-fence core is an order.) *)
Theorem fence_event_signals_prefix is_later drv id
  (Hlater : forall a b, 0 <= a -> 0 <= b -> Z.abs (a - b) < 2 ^ 31 -> is_later a b = (b <? a))
  (Hsorted : pending_sorted (fd_fences drv)) (Hid : 0 <= id)
  (Hwin : forall c, c ∈ fd_fences drv -> 0 <= fn_fence_id c /\ Z.abs (id - fn_fence_id c) < 2 ^ 31) :
  let '(drv', signalled) := virtio_gpu_fence_event_process is_later drv id in
  fd_last drv' = id /\
  match find_fence id (fd_fences drv) with
  | Some f =>
      let hit c := (fn_context f =? fn_context c) && (fn_fence_id c <=? id) in
      signalled = List.filter hit (fd_fences drv) /\
      fd_fences drv' = List.filter (fun c => negb (hit c)) (fd_fences drv)
  | None => signalled = [] /\ fd_fences drv' = fd_fences drv
  end.
Proof.
  unfold virtio_gpu_fence_event_process.
  destruct (find_fence id (fd_fences drv)) as [f|] eqn:Hf; [|done].
  apply find_fence_Some in Hf as [Hin He]. cbn. split; [done|].
  assert (Hsw : forall c, c ∈ fd_fences drv ->
    swept is_later f c = (fn_context f =? fn_context c) && (fn_fence_id c <? fn_fence_id f)).
  { intros c Hc. unfold swept. rewrite He. destruct (Hwin c Hc). by rewrite Hlater. }
  destruct (sweep_sorted (fun c => fn_context f =? fn_context c) (fd_fences drv) f Hsorted Hin
              (Z.eqb_refl _)) as [S1 S2].
  rewrite (filter_ext_elem _ _ _ Hsw), <- He, S1. split; [done|]. rewrite <- S2. f_equal.
  apply filter_ext_elem. intros c Hc. by rewrite Hsw.
Qed.

Definition sample_drv : fence_driver :=
  FenceDriver 0 4 7 [Fence 7 0 false 1 false; Fence 8 1 true 2 true; Fence 7 0 false 3 false; Fence 7 0 false 4 false].

Lemma fence_event_signals_prefix_witness :
  let '(drv', signalled) := virtio_gpu_fence_event_process is_later_32 sample_drv 3 in
  fd_last drv' = 3 /\
  match find_fence 3 (fd_fences sample_drv) with
  | Some f =>
      let hit c := (fn_context f =? fn_context c) && (fn_fence_id c <=? 3) in
      signalled = List.filter hit (fd_fences sample_drv) /\
      fd_fences drv' = List.filter (fun c => negb (hit c)) (fd_fences sample_drv)
  | None => signalled = [] /\ fd_fences drv' = fd_fences sample_drv
  end.
Proof.
  apply fence_event_signals_prefix.
  - apply is_later_32_window.
  - repeat constructor.
  - lia.
  - intros c Hc. cbn in Hc. rewrite !elem_of_cons in Hc.
    destruct Hc as [->|[->|[->|[->|Hc]]]]; cbn; [lia.. | by apply elem_of_nil in Hc].
Defined.

Example sample_event : ids (snd (virtio_gpu_fence_event_process is_later_32 sample_drv 3)) = [1; 3] /\
  ids (fd_fences (fst (virtio_gpu_fence_event_process is_later_32 sample_drv 3))) = [2; 4].
Proof. split; reflexivity. Qed.

(** the accounting invariant of a run *)
Definition accounted (st : fence_driver * list virtio_gpu_fence) (n : nat) : Prop :=
  fd_current (fst st) = Z.of_nat n /\ pending_sorted (fd_fences (fst st)) /\
  ids (snd st) ++ ids (fd_fences (fst st)) ≡ₚ seqZ 1 (Z.of_nat n).

Lemma sorted_del id l : pending_sorted l -> pending_sorted (del_fence id l).
Proof.
  induction 1 as [|c l Hs IH Hc]; [constructor|]. cbn. destruct (id =? fn_fence_id c); [done|].
  constructor; [done|]. apply Forall_forall. intros x Hx. rewrite Forall_forall in Hc. apply Hc.
  clear -Hx. induction l as [|y l IH]; cbn in Hx; [done|].
  destruct (id =? fn_fence_id y); set_solver.
Qed.

Lemma emits_cons op ops : emits (op :: ops) = (emits [op] + emits ops)%nat.
Proof. unfold emits. by destruct op. Qed.

Lemma fence_run_event_accounted is_later id st n :
  (forall a, is_later a a = false) -> accounted st n ->
  accounted (fence_run_op is_later (FEvent id) st) (n + emits [FEvent id]).
Proof.
  destruct st as [drv dn]. intros Hirr (A1 & A2 & A3). cbn [fst snd fence_run_op] in *.
  replace (n + emits [FEvent id])%nat with n by (unfold emits; cbn; lia).
  pose proof (event_process_perm is_later Hirr drv id (sorted_nodup _ A2)) as Hp.
  assert (Hs : pending_sorted (fd_fences (fst (virtio_gpu_fence_event_process is_later drv id)))).
  { unfold virtio_gpu_fence_event_process. destruct (find_fence id (fd_fences drv)); [|done].
    cbn. apply sorted_del, sorted_filter, A2. }
  destruct (virtio_gpu_fence_event_process is_later drv id) as [drv' s]. cbn [fst] in Hs.
  destruct Hp as [Hp Hcur]. split_and!; cbn; [congruence | done|].
  rewrite <- A3. unfold ids. rewrite <- Hp, !fmap_app. by rewrite app_assoc.
Qed.

Lemma fence_run_op_accounted is_later op st n :
  (forall a, is_later a a = false) -> Z.of_nat (S n) < 2 ^ 64 -> accounted st n ->
  accounted (fence_run_op is_later op st) (n + emits [op]).
Proof.
  destruct st as [drv dn]. intros Hirr Hn (A1 & A2 & A3). cbn [fst snd] in *.
  destruct op as [c r i|id]; cbn [emits List.filter length fence_run_op].
  - unfold virtio_gpu_fence_emit. cbn. rewrite A1, u64_small by lia.
    unfold emits. cbn. replace (n + 1)%nat with (S n) by lia.
    assert (Hall : forall x, x ∈ fd_fences drv -> fn_fence_id x <= Z.of_nat n).
    { intros x Hx. apply (list_elem_of_fmap_2 fn_fence_id) in Hx.
      assert (Hx' : fn_fence_id x ∈ seqZ 1 (Z.of_nat n)) by (rewrite <- A3; set_solver).
      apply elem_of_seqZ in Hx'. lia. }
    split_and!; cbn; [lia | |].
    + clear A3. induction A2 as [|x l Hs IH Hx]; cbn; [repeat constructor|].
      constructor; [apply IH; set_solver|]. apply Forall_app. split; [done|].
      apply Forall_singleton. cbn. specialize (Hall x ltac:(set_solver)). lia.
    + unfold ids in *. rewrite fmap_app, app_assoc, A3. cbn.
      change (Z.pos (Pos.of_succ_nat n)) with (Z.of_nat (S n)). rewrite seqZ_S.
      by rewrite (Z.add_comm 1).
  - by apply (fence_run_event_accounted is_later id (drv, dn)).
Qed.

Lemma fence_run_accounted is_later ops st n : (forall a, is_later a a = false) ->
  Z.of_nat (n + emits ops) < 2 ^ 64 -> accounted st n ->
  accounted (fence_run is_later ops st) (n + emits ops).
Proof.
  intros Hirr. unfold fence_run. revert st n; induction ops as [|op ops IH]; intros st n Hn Ha.
  - unfold emits in *. cbn in *. by rewrite Nat.add_0_r.
  - cbn [foldl]. rewrite emits_cons in *. rewrite Nat.add_assoc in *.
    apply IH; [done|]. destruct op as [c r i|id].
    + apply fence_run_op_accounted; [done | unfold emits in *; cbn in *; lia | done].
    + by apply fence_run_event_accounted.
Qed.

(** C35: over any run of emissions and host events, whatever ids the host sends: the ids emitted
    are 1, 2, 3, ... in order, and every fence emitted is either still pending or has been
    signalled, never both and never twice. *)
Theorem fence_run_accounts is_later ops context (Hirr : forall a, is_later a a = false)
  (Hn : Z.of_nat (emits ops) < 2 ^ 64) :
  let '(drv, signalled) := fence_run is_later ops (fence_driver_init context, []) in
  fd_current drv = Z.of_nat (emits ops) /\
  ids signalled ++ ids (fd_fences drv) ≡ₚ seqZ 1 (Z.of_nat (emits ops)) /\
  pending_sorted (fd_fences drv).
Proof.
  assert (H0 : accounted (fence_driver_init context, []) 0) by (split_and!; [done | constructor | done]).
  pose proof (fence_run_accounted is_later ops _ 0 Hirr Hn H0) as Ha.
  destruct (fence_run is_later ops _) as [drv s]. destruct Ha as (A1 & A2 & A3). by split_and!.
Qed.

Lemma fence_run_accounts_witness :
  let '(drv, signalled) :=
    fence_run is_later_32 [FEmit 7 0 false; FEmit 8 1 true; FEvent 2; FEvent 9; FEmit 7 0 false; FEvent 3]
              (fence_driver_init 7, []) in
  fd_current drv = 3 /\ ids signalled ++ ids (fd_fences drv) ≡ₚ seqZ 1 3 /\ pending_sorted (fd_fences drv).
Proof.
  apply (fence_run_accounts is_later_32
    [FEmit 7 0 false; FEmit 8 1 true; FEvent 2; FEvent 9; FEmit 7 0 false; FEvent 3] 7).
  - intros a. unfold is_later_32. by rewrite Z.sub_diag.
  - reflexivity.
Defined.
