(* ===== verification/ObjArray.v ===== *)
(** * Object arrays (virtio_gpu/virtgpu_gem.c, second half)

    The arrays of GEM objects a command refers to: building them from handles, locking their
    reservations, and dropping them, at once or from the delayed worker. GEM references and
    reservation locks are the class [GemEnv]; [ObjArrays] is what the control queue uses. *)

From stdpp Require Import sets.
From S2P Require Import Prelude.

(** an array: the objects in it, and its capacity *)
Record obj_array := ObjArr { oa_objs : list Z; oa_total : Z }.

Class GemEnv (W : Type) := {
  arr_alloc : Z -> ST W bool;                   (* kmalloc of so many slots *)
  arr_free : ST W unit;
  drm_gem_object_lookup : Z -> ST W (option Z); (* takes a reference *)
  drm_gem_object_get : Z -> ST W unit;
  drm_gem_object_put : Z -> ST W unit;
  dma_resv_lock_interruptible : Z -> ST W Z;
  drm_gem_lock_reservations : list Z -> ST W Z;
  dma_resv_reserve_fences : Z -> ST W Z;
  dma_resv_unlock : Z -> ST W unit;
  drm_gem_unlock_reservations : list Z -> ST W unit;
  dma_resv_add_fence : Z -> Z -> ST W unit
}.

Section Arrays.
Context {W : Type} `{GE : GemEnv W}.

Definition virtio_gpu_array_alloc (nents : Z) : ST W (option obj_array) := fun w =>
  let '(ok, w1) := arr_alloc nents w in
  (if ok then Some (ObjArr [] nents) else None, w1).

(** refused, with a warning, when the array is full *)
Definition virtio_gpu_array_add_obj (a : obj_array) (obj : Z) : ST W obj_array := fun w =>
  if Z.of_nat (length (oa_objs a)) =? oa_total a then (a, w)
  else (ObjArr (oa_objs a ++ [obj]) (oa_total a), snd (drm_gem_object_get obj w)).

Fixpoint put_all (l : list Z) : ST W unit := fun w =>
  match l with [] => (tt, w) | o :: l' => put_all l' (snd (drm_gem_object_put o w)) end.

Definition virtio_gpu_array_put_free (objs : option (list Z)) : ST W unit := fun w =>
  match objs with None => (tt, w) | Some l => arr_free (snd (put_all l w)) end.

(** the lookup loop of [virtio_gpu_array_from_handles]: the objects found so far, and whether a
    handle was missing *)
Fixpoint lookup_all (handles acc : list Z) : ST W (bool * list Z) := fun w =>
  match handles with
  | [] => ((true, acc), w)
  | h :: hs =>
      let '(o, w1) := drm_gem_object_lookup h w in
      match o with None => ((false, acc), w1) | Some o => lookup_all hs (acc ++ [o]) w1 end
  end.

Definition virtio_gpu_array_from_handles (handles : list Z) : ST W (option (list Z)) := fun w =>
  let '(a, w1) := virtio_gpu_array_alloc (Z.of_nat (length handles)) w in
  match a with
  | None => (None, w1)
  | Some _ =>
      let '((ok, l), w2) := lookup_all handles [] w1 in
      if ok then (Some l, w2) else (None, snd (virtio_gpu_array_put_free (Some l) w2))
  end.

Definition virtio_gpu_array_unlock_resv (l : list Z) : ST W unit :=
  match l with
  | [o] => dma_resv_unlock o
  | _ => drm_gem_unlock_reservations l
  end.

(** reserve a fence slot in each; the first error *)
Fixpoint reserve_all (l : list Z) : ST W Z := fun w =>
  match l with
  | [] => (0, w)
  | o :: l' =>
      let '(ret, w1) := dma_resv_reserve_fences o w in
      if c_true ret then (ret, w1) else reserve_all l' w1
  end.

Definition virtio_gpu_array_lock_resv (l : list Z) : ST W Z := fun w =>
  let '(ret, w1) := match l with
                    | [o] => dma_resv_lock_interruptible o w
                    | _ => drm_gem_lock_reservations l w
                    end in
  if c_true ret then (ret, w1)
  else
    let '(ret, w2) := reserve_all l w1 in
    if c_true ret then (ret, snd (virtio_gpu_array_unlock_resv l w2)) else (ret, w2).

Fixpoint virtio_gpu_array_add_fence (l : list Z) (fence : Z) : ST W unit := fun w =>
  match l with
  | [] => (tt, w)
  | o :: l' => virtio_gpu_array_add_fence l' fence (snd (dma_resv_add_fence o fence w))
  end.

(** ** The delayed drop: [vgdev->obj_free_list] and its worker *)

Definition virtio_gpu_array_put_free_delayed (l : list Z) : ST (list (list Z) * W) unit :=
  fun '(free_list, w) => (tt, (free_list ++ [l], w)).

Fixpoint put_free_list (free_list : list (list Z)) : ST W unit := fun w =>
  match free_list with
  | [] => (tt, w)
  | l :: rest => put_free_list rest (snd (virtio_gpu_array_put_free (Some l) w))
  end.

Definition virtio_gpu_array_put_free_work : ST (list (list Z) * W) unit := fun '(free_list, w) =>
  (tt, ([], snd (put_free_list free_list w))).
End Arrays.

(** ** The interface of the control queue *)
Class ObjArrays (S : Type) := {
  objs_unlock : list Z -> ST S unit;
  objs_add_fence : list Z -> Z -> ST S unit;
  objs_put_delayed : list Z -> ST S unit
}.

#[export] Instance gem_obj_arrays {W} `{GemEnv W} : ObjArrays (list (list Z) * W) := {
  objs_unlock l s := (tt, (fst s, snd (virtio_gpu_array_unlock_resv l (snd s))));
  objs_add_fence l f s := (tt, (fst s, snd (virtio_gpu_array_add_fence l f (snd s))));
  objs_put_delayed := virtio_gpu_array_put_free_delayed
}.

(** ** What the arrays rely on: the references the driver holds, the reservations it has locked,
    as multisets *)
Record gem_obs := GemObs { go_refs : list Z; go_locked : list Z }.

Class GemLaws (W : Type) `{GemEnv W} := {
  gobs : W -> gem_obs;
  law_arr_alloc n w : gobs (snd (arr_alloc n w)) = gobs w;
  law_arr_free w : gobs (snd (arr_free w)) = gobs w;
  law_gem_lookup h w :
    let '(o, w') := drm_gem_object_lookup h w in
    go_locked (gobs w') = go_locked (gobs w) /\
    go_refs (gobs w') ≡ₚ match o with Some o => [o] | None => [] end ++ go_refs (gobs w);
  law_gem_get o w : go_locked (gobs (snd (drm_gem_object_get o w))) = go_locked (gobs w) /\
    go_refs (gobs (snd (drm_gem_object_get o w))) ≡ₚ o :: go_refs (gobs w);
  law_gem_put o w rest : go_refs (gobs w) ≡ₚ o :: rest ->
    go_locked (gobs (snd (drm_gem_object_put o w))) = go_locked (gobs w) /\
    go_refs (gobs (snd (drm_gem_object_put o w))) ≡ₚ rest;
  law_resv_lock o w : let '(ret, w') := dma_resv_lock_interruptible o w in
    go_refs (gobs w') = go_refs (gobs w) /\
    go_locked (gobs w') ≡ₚ (if ret =? 0 then [o] else []) ++ go_locked (gobs w);
  law_resv_lock_many l w : let '(ret, w') := drm_gem_lock_reservations l w in
    go_refs (gobs w') = go_refs (gobs w) /\
    go_locked (gobs w') ≡ₚ (if ret =? 0 then l else []) ++ go_locked (gobs w);
  law_resv_reserve o w : gobs (snd (dma_resv_reserve_fences o w)) = gobs w;
  law_resv_unlock o w rest : go_locked (gobs w) ≡ₚ o :: rest ->
    go_refs (gobs (snd (dma_resv_unlock o w))) = go_refs (gobs w) /\
    go_locked (gobs (snd (dma_resv_unlock o w))) ≡ₚ rest;
  law_resv_unlock_many l w rest : go_locked (gobs w) ≡ₚ l ++ rest ->
    go_refs (gobs (snd (drm_gem_unlock_reservations l w))) = go_refs (gobs w) /\
    go_locked (gobs (snd (drm_gem_unlock_reservations l w))) ≡ₚ rest
}.

(** ** A concrete GEM: a handle table; reservations whose fence slots may run out *)
Record toy_gem := ToyGem { tg_obs : gem_obs; tg_handles : list (Z * Z); tg_no_slot : list Z }.

Fixpoint remove_one (k : Z) (l : list Z) : list Z :=
  match l with [] => [] | x :: l' => if decide (x = k) then l' else x :: remove_one k l' end.

Definition tg_with (w : toy_gem) (o : gem_obs) : toy_gem := ToyGem o (tg_handles w) (tg_no_slot w).

#[export] Instance toy_gem_env : GemEnv toy_gem := {
  arr_alloc n w := (true, w);
  arr_free w := (tt, w);
  drm_gem_object_lookup h w :=
    match List.find (fun e => fst e =? h) (tg_handles w) with
    | Some (_, o) => (Some o, tg_with w (GemObs (o :: go_refs (tg_obs w)) (go_locked (tg_obs w))))
    | None => (None, w)
    end;
  drm_gem_object_get o w := (tt, tg_with w (GemObs (o :: go_refs (tg_obs w)) (go_locked (tg_obs w))));
  drm_gem_object_put o w :=
    (tt, tg_with w (GemObs (remove_one o (go_refs (tg_obs w))) (go_locked (tg_obs w))));
  dma_resv_lock_interruptible o w := (0, tg_with w (GemObs (go_refs (tg_obs w)) (o :: go_locked (tg_obs w))));
  drm_gem_lock_reservations l w := (0, tg_with w (GemObs (go_refs (tg_obs w)) (l ++ go_locked (tg_obs w))));
  dma_resv_reserve_fences o w := (if bool_decide (o ∈ tg_no_slot w) then - ENOMEM else 0, w);
  dma_resv_unlock o w :=
    (tt, tg_with w (GemObs (go_refs (tg_obs w)) (remove_one o (go_locked (tg_obs w)))));
  drm_gem_unlock_reservations l w :=
    (tt, tg_with w (GemObs (go_refs (tg_obs w)) (foldr remove_one (go_locked (tg_obs w)) l)));
  dma_resv_add_fence o f w := (tt, w)
}.

Lemma remove_one_perm k l rest : l ≡ₚ k :: rest -> remove_one k l ≡ₚ rest.
Proof.
  intros Hp. assert (Hk : k :: remove_one k l ≡ₚ l).
  { assert (Hin : k ∈ l) by (rewrite Hp; set_solver). clear Hp.
    induction l as [|x l IH]; [by apply elem_of_nil in Hin|]. cbn. case_decide as E; [by subst|].
    apply elem_of_cons in Hin as [->|Hin]; [done|]. rewrite Permutation_swap. by rewrite IH. }
  apply (Permutation_cons_inv (a := k)). by rewrite Hk.
Qed.

Lemma remove_many_perm ks l rest : l ≡ₚ ks ++ rest -> foldr remove_one l ks ≡ₚ rest.
Proof.
  revert rest; induction ks as [|k ks IH]; intros rest Hp; [done|]. cbn.
  apply remove_one_perm, IH. rewrite Hp. cbn. by rewrite Permutation_middle.
Qed.

#[export] Instance toy_gem_laws : GemLaws toy_gem.
Proof.
  refine {| gobs := tg_obs |}; intros; cbn; try done.
  - by destruct (List.find _ _) as [[? ?]|].
  - split; [done | by apply remove_one_perm].
  - split; [done | by apply remove_one_perm].
  - split; [done | by apply remove_many_perm].
Defined.

(** ** Facts *)

Section Facts.
Context {W : Type} `{GL : GemLaws W}.

Lemma put_all_obs l w rest : go_refs (gobs w) ≡ₚ l ++ rest ->
  go_locked (gobs (snd (put_all l w))) = go_locked (gobs w) /\ go_refs (gobs (snd (put_all l w))) ≡ₚ rest.
Proof.
  revert w; induction l as [|o l IH]; intros w Hp; [done|]. cbn [put_all].
  destruct (law_gem_put o w (l ++ rest) Hp) as [P1 P2]. destruct (IH _ P2) as [I1 I2].
  split; [congruence | done].
Qed.

Lemma array_put_free_obs l w rest : go_refs (gobs w) ≡ₚ l ++ rest ->
  go_locked (gobs (snd (virtio_gpu_array_put_free (Some l) w))) = go_locked (gobs w) /\
  go_refs (gobs (snd (virtio_gpu_array_put_free (Some l) w))) ≡ₚ rest.
Proof. intros Hp. cbn. rewrite law_arr_free. by apply put_all_obs. Qed.

Lemma lookup_all_obs hs acc w :
  let '((ok, l), w') := lookup_all hs acc w in
  exists new, l = acc ++ new /\ go_locked (gobs w') = go_locked (gobs w) /\
  go_refs (gobs w') ≡ₚ new ++ go_refs (gobs w) /\ (ok = true -> length new = length hs).
Proof.
  revert acc w; induction hs as [|h hs IH]; intros acc w; cbn [lookup_all].
  - exists []. by rewrite app_nil_r.
  - pose proof (law_gem_lookup h w) as Hl. destruct (drm_gem_object_lookup h w) as [[o|] w1].
    + specialize (IH (acc ++ [o]) w1). destruct (lookup_all hs (acc ++ [o]) w1) as [[ok l] w'].
      destruct IH as (new & -> & L1 & L2 & L3), Hl as [E1 E2]. exists (o :: new).
      split_and!; [by rewrite <- app_assoc | congruence | | cbn; intros; f_equal; auto].
      rewrite L2, E2. cbn. by rewrite Permutation_middle.
    + exists []. rewrite app_nil_r. destruct Hl as [E1 E2]. by split_and!.
Qed.

Lemma reserve_all_obs l w : gobs (snd (reserve_all l w)) = gobs w.
Proof.
  revert w; induction l as [|o l IH]; intros w; cbn [reserve_all]; [done|].
  pose proof (law_resv_reserve o w) as Hr. destruct (dma_resv_reserve_fences o w) as [ret w1].
  destruct (c_true ret); cbn in *; [done|]. by rewrite IH.
Qed.

Lemma unlock_obs l w rest : go_locked (gobs w) ≡ₚ l ++ rest ->
  go_refs (gobs (snd (virtio_gpu_array_unlock_resv l w))) = go_refs (gobs w) /\
  go_locked (gobs (snd (virtio_gpu_array_unlock_resv l w))) ≡ₚ rest.
Proof.
  intros Hp. unfold virtio_gpu_array_unlock_resv.
  destruct l as [|o [|o' l]]; [by apply law_resv_unlock_many | by apply law_resv_unlock|].
  by apply law_resv_unlock_many.
Qed.

End Facts.

(** ** Properties *)

Lemma array_from_handles_obs {W} `{GemLaws W} handles (w : W) :
  let '(r, w') := virtio_gpu_array_from_handles handles w in
  go_locked (gobs w') = go_locked (gobs w) /\
  match r with
  | None => go_refs (gobs w') ≡ₚ go_refs (gobs w)
  | Some l => length l = length handles /\ go_refs (gobs w') ≡ₚ l ++ go_refs (gobs w)
  end.
Proof.
  unfold virtio_gpu_array_from_handles, virtio_gpu_array_alloc.
  pose proof (law_arr_alloc (Z.of_nat (length handles)) w) as Ha.
  destruct (arr_alloc _ w) as [[] w1]; cbn [snd] in Ha; [|by rewrite Ha].
  pose proof (lookup_all_obs handles [] w1) as Hl.
  destruct (lookup_all handles [] w1) as [[ok l] w2]. destruct Hl as (new & -> & L1 & L2 & L3).
  rewrite Ha in L1, L2. destruct ok; [by auto|]. cbn [app].
  destruct (array_put_free_obs new w2 _ L2) as [P1 P2]. split; [congruence | done].
Qed.

(** Building an array from user handles takes one reference per handle, in order, or none:
    when a handle does not exist the references already taken are dropped again. *)
Theorem array_from_handles_balanced {W} `{GemLaws W} handles (w : W) :
  let '(r, w') := virtio_gpu_array_from_handles handles w in
  go_locked (gobs w') = go_locked (gobs w) /\
  match r with
  | None => go_refs (gobs w') ≡ₚ go_refs (gobs w)
  | Some l => length l = length handles /\ go_refs (gobs w') ≡ₚ l ++ go_refs (gobs w)
  end.
Proof. apply array_from_handles_obs. Qed.

Lemma array_lock_resv_obs {W} `{GemLaws W} l (w : W) :
  let '(ret, w') := virtio_gpu_array_lock_resv l w in
  go_refs (gobs w') = go_refs (gobs w) /\
  go_locked (gobs w') ≡ₚ (if ret =? 0 then l else []) ++ go_locked (gobs w).
Proof.
  unfold virtio_gpu_array_lock_resv.
  set (locked := match l with [o] => _ | _ => _ end).
  assert (Hl : let '(ret, w') := locked in go_refs (gobs w') = go_refs (gobs w) /\
            go_locked (gobs w') ≡ₚ (if ret =? 0 then l else []) ++ go_locked (gobs w)).
  { subst locked. destruct l as [|o [|o' l]]; [apply law_resv_lock_many | apply law_resv_lock |
      apply law_resv_lock_many]. }
  destruct locked as [ret w1]. destruct Hl as [L1 L2]. unfold c_true.
  destruct (Z.eqb_spec ret 0) as [->|Hne]; cbn [negb].
  2:{ by rewrite (proj2 (Z.eqb_neq ret 0)). }
  pose proof (reserve_all_obs l w1) as Hr. destruct (reserve_all l w1) as [ret w2]. cbn [snd] in Hr.
  destruct (Z.eqb_spec ret 0) as [->|Hne]; cbn [negb]; [by rewrite Hr|].
  rewrite (proj2 (Z.eqb_neq ret 0)) by done.
  destruct (unlock_obs l w2 (go_locked (gobs w))) as [U1 U2]; [by rewrite Hr|].
  split; [congruence | done].
Qed.

(** Locking the reservations of an array is all or nothing: on success exactly its objects are
    locked, on any error nothing more than before; references are not touched either way. *)
Theorem array_lock_resv_all_or_nothing {W} `{GemLaws W} l (w : W) :
  let '(ret, w') := virtio_gpu_array_lock_resv l w in
  go_refs (gobs w') = go_refs (gobs w) /\
  go_locked (gobs w') ≡ₚ (if ret =? 0 then l else []) ++ go_locked (gobs w).
Proof. apply array_lock_resv_obs. Qed.

Example lock_resv_no_slot :
  let w := ToyGem (GemObs [4; 5] [9]) [(1, 4); (2, 5)] [5] in
  let '(ret, w') := virtio_gpu_array_lock_resv [4; 5] w in (ret, go_locked (tg_obs w')) = (- ENOMEM, [9]).
Proof. reflexivity. Qed.

(** The delayed worker empties its list and drops each reference of each array once. *)
Theorem put_free_work_drops_all {W} `{GemLaws W} free_list (w : W) rest
  (Hrefs : go_refs (gobs w) ≡ₚ mjoin free_list ++ rest) :
  let '(_, (l', w')) := virtio_gpu_array_put_free_work (free_list, w) in
  l' = [] /\ go_locked (gobs w') = go_locked (gobs w) /\ go_refs (gobs w') ≡ₚ rest.
Proof.
  unfold virtio_gpu_array_put_free_work. split; [done|].
  revert w Hrefs; induction free_list as [|l fl IH]; intros w Hp; [done|]. cbn [put_free_list].
  cbn in Hp. rewrite <- app_assoc in Hp.
  destruct (array_put_free_obs l w _ Hp) as [P1 P2]. destruct (IH _ P2) as [I1 I2].
  split; [congruence | done].
Qed.

Lemma put_free_work_drops_all_witness :
  let w := ToyGem (GemObs [4; 5; 4; 7] []) [] [] in
  let '(_, (l', w')) := virtio_gpu_array_put_free_work ([[4]; [5; 4]], w) in
  l' = [] /\ go_locked (gobs w') = go_locked (gobs w) /\ go_refs (gobs w') ≡ₚ [7].
Proof. apply (put_free_work_drops_all [[4]; [5; 4]] (ToyGem (GemObs [4; 5; 4; 7] []) [] []) [7]). reflexivity. Defined.
