(* ===== verification/CtrlQueue.v ===== *)
(** * The control and cursor queues (virtio_gpu/virtgpu_vq.c, first part)

    Command buffers, their submission with or without a fence, the notification, and the work
    functions that take the responses. The virtqueue and the slab cache are the class
    [CtrlEnv], the object arrays the interface [ObjArrays]; a command's response callback is a parameter of the dequeue. *)

From stdpp Require Import gmap.
From S2P Require Import Prelude Wire Fence ObjArray.

Definition MAX_INLINE_CMD_SIZE : Z := 96.
Definition MAX_INLINE_RESP_SIZE : Z := 24.

(** the callbacks a command can carry ([resp_cb], with [resp_cb_data] of the unref) *)
Inductive resp_cb :=
| CbNone | CbDisplayInfo | CbCapsetInfo | CbCapset | CbEdid | CbUuid | CbMap
| CbUnref (bo : Z).

Record vbuf := Vbuf {
  vb_addr : Z;
  vb_hdr : ctrl_hdr;                 (* the header in [buf] *)
  vb_cmd : gpu_cmd;                  (* what follows it *)
  vb_data_size : Z;                  (* bytes of [data_buf] *)
  vb_data : list gpu_mem_entry;      (* its entries, when it holds entries *)
  vb_data_addr : Z;                  (* the address of [data_buf] *)
  vb_resp_size : Z;
  vb_cb : resp_cb;
  vb_objs : option (list Z);         (* the object array *)
  vb_seqno : Z
}.

Definition set_hdr (v : vbuf) (h : ctrl_hdr) : vbuf :=
  Vbuf (vb_addr v) h (vb_cmd v) (vb_data_size v) (vb_data v) (vb_data_addr v) (vb_resp_size v)
       (vb_cb v) (vb_objs v) (vb_seqno v).
Definition set_seqno (v : vbuf) (n : Z) : vbuf :=
  Vbuf (vb_addr v) (vb_hdr v) (vb_cmd v) (vb_data_size v) (vb_data v) (vb_data_addr v) (vb_resp_size v)
       (vb_cb v) (vb_objs v) n.
Definition with_objs (v : vbuf) (o : option (list Z)) : vbuf :=
  Vbuf (vb_addr v) (vb_hdr v) (vb_cmd v) (vb_data_size v) (vb_data v) (vb_data_addr v) (vb_resp_size v)
       (vb_cb v) o (vb_seqno v).
Definition with_data (v : vbuf) (size : Z) (ents : list gpu_mem_entry) (addr : Z) : vbuf :=
  Vbuf (vb_addr v) (vb_hdr v) (vb_cmd v) size ents addr (vb_resp_size v)
       (vb_cb v) (vb_objs v) (vb_seqno v).

(** [struct virtio_gpu_device], the queue's part *)
Record gpu := Gpu {
  g_has_indirect : bool;
  g_seqno : Z;                       (* ctrlq.seqno, u32 *)
  g_pending : Z;                     (* pending_commands *)
  g_fence : fence_driver;
  g_signalled : list virtio_gpu_fence   (* the fences signalled so far, in order *)
}.

(** a response: type, flags, fence id and the bytes after the header *)
Definition response : Type := Z * Z * Z * list Z.

Class CtrlEnv (W : Type) := {
  drm_dev_enter : W -> bool;
  vbuf_zalloc : ST W Z;
  vbuf_free : Z -> ST W unit;                    (* resp_buf, data_buf and the vbuf *)
  vq_num_free : W -> Z;
  vq_add_sgs : vbuf -> ST W Z;
  vq_get_buf : ST W (option (vbuf * response));
  vq_enable_cb : ST W bool;
  vq_kick_prepare : ST W bool;
  vq_notify : ST W unit;
  wake_ack : ST W unit;
  is_vmalloc_addr : Z -> bool;
  sgt_alloc : Z -> ST W bool;                    (* the table and so many entries *)
  vmalloc_to_page : Z -> ST W bool;              (* the page behind an address *)
  sgt_free : ST W unit;
  cursor_add : vbuf -> ST W Z;
  cursor_kick_prepare : ST W bool;
  cursor_notify : ST W unit;
  cursor_wait : ST W unit
}.

Definition resp_type (r : response) : Z := fst (fst (fst r)).
Definition resp_flags (r : response) : Z := snd (fst (fst r)).
Definition resp_fence (r : response) : Z := snd (fst r).
Definition resp_body (r : response) : list Z := snd r.

Section Queue.
Context {W : Type} `{CE : CtrlEnv W} `{OA : ObjArrays W}.

Definition gpu_st : Type := gpu * W.

(** sleeping on [ack_queue] until the queue has room: what the rest of the system did meanwhile *)
Context (sleep : gpu_st -> gpu_st).

(** ** Buffers *)

(** [virtio_gpu_get_vbuf]: [None] is the [BUG_ON]; [have_buf] is [resp_buf != NULL] *)
Definition virtio_gpu_get_vbuf (cmd : gpu_cmd) (ctx_id resp_size : Z) (have_buf : bool) (cb : resp_cb)
  : ST W (option vbuf) := fun w =>
  let '(a, w1) := vbuf_zalloc w in
  let size := sizeof_ctrl_hdr + Z.of_nat (length (cmd_body cmd)) in
  if (size >? MAX_INLINE_CMD_SIZE) || (size <? sizeof_ctrl_hdr) then (None, w1)
  else if (resp_size >? MAX_INLINE_RESP_SIZE) && negb have_buf then (None, w1)
  else (Some (Vbuf a (CtrlHdr (cmd_type cmd) 0 0 ctx_id 0) cmd 0 [] 0 resp_size cb None 0), w1).

Definition free_vbuf (v : vbuf) : ST W unit := vbuf_free (vb_addr v).

(** ** Scatter tables of a vmalloc'd buffer *)

(** the lengths of the entries: [s = min_t(int, PAGE_SIZE, size)] *)
Fixpoint sg_chunks (n : nat) (size : Z) : list Z :=
  match n with
  | O => []
  | S n' => let s := Z.min PAGE_SIZE (s32 size) in s :: sg_chunks n' (u32 (size - s))
  end.

(** the pages behind [data], one per entry; false when one is missing *)
Fixpoint sg_pages (lens : list Z) (data : Z) : ST W bool := fun w =>
  match lens with
  | [] => (true, w)
  | s :: lens' =>
      let '(pg, w1) := vmalloc_to_page data w in
      if pg then sg_pages lens' (u64 (data + s)) w1 else (false, w1)
  end.

(** the entry lengths, or [None] *)
Definition vmalloc_to_sgt (data size : Z) : ST W (option (list Z)) := fun w =>
  if negb (IS_ALIGNED data PAGE_SIZE) then (None, w)
  else
    let sg_ents := (size + PAGE_SIZE - 1) / PAGE_SIZE in
    let '(ok, w1) := sgt_alloc sg_ents w in
    if negb ok then (None, w1)
    else
      let lens := sg_chunks (Z.to_nat sg_ents) size in
      let '(ok, w2) := sg_pages lens data w1 in
      if ok then (Some lens, w2) else (None, snd (sgt_free w2)).

(** ** Notification *)

Definition virtio_gpu_notify : ST gpu_st unit := fun '(g, w) =>
  if g_pending g =? 0 then (tt, (g, w))
  else
    let g1 := Gpu (g_has_indirect g) (g_seqno g) 0 (g_fence g) (g_signalled g) in
    let '(notify, w1) := vq_kick_prepare w in
    if notify then (tt, (g1, snd (vq_notify w1))) else (tt, (g1, w1)).

(** ** Submission *)

(** set the fence of a command whose place in the queue is known *)
Definition queue_emit_fence (v : vbuf) (fence : option virtio_gpu_fence) : ST gpu_st vbuf :=
  fun '(g, w) =>
  match fence with
  | None => (v, (g, w))
  | Some f =>
      let '(drv, hdr, f') := virtio_gpu_fence_emit (g_fence g) (vb_hdr v) f in
      let g1 := Gpu (g_has_indirect g) (g_seqno g) (g_pending g) drv (g_signalled g) in
      let w1 := match vb_objs v with
                | Some o => snd (objs_unlock o (snd (objs_add_fence o (fn_fence_id f') w)))
                | None => w
                end in
      (set_hdr v hdr, (g1, w1))
  end.

(** [again:] waits for room; [None] when [fuel] ran out *)
Fixpoint queue_wait_room (fuel : nat) (elemcnt : Z) : ST gpu_st bool := fun st =>
  match fuel with
  | O => (false, st)
  | S fuel' =>
      if vq_num_free (snd st) <? elemcnt then
        let '(_, (g1, w1)) := virtio_gpu_notify st in
        queue_wait_room fuel' elemcnt (sleep (g1, w1))
      else (true, st)
  end.

Definition virtio_gpu_queue_ctrl_sgs (fuel : nat) (v : vbuf) (fence : option virtio_gpu_fence)
  (elemcnt : Z) : ST gpu_st (option Z) := fun '(g, w) =>
  if negb (drm_dev_enter w) then
    let w1 := match fence, vb_objs v with Some _, Some o => snd (objs_unlock o w) | _, _ => w end in
    (Some (- ENODEV), (g, snd (free_vbuf v w1)))
  else
    let elemcnt := if g_has_indirect g then 1 else elemcnt in
    let '(room, st1) := queue_wait_room fuel elemcnt (g, w) in
    if negb room then (None, st1)
    else
      let '(v1, (g2, w2)) := queue_emit_fence v fence st1 in
      let seqno := u32 (g_seqno g2 + 1) in
      let '(_, w3) := vq_add_sgs (set_seqno v1 seqno) w2 in    (* WARN_ON(ret) *)
      (Some 0, (Gpu (g_has_indirect g2) seqno (g_pending g2 + 1) (g_fence g2) (g_signalled g2), w3)).

Definition virtio_gpu_queue_fenced_ctrl_buffer (fuel : nat) (v : vbuf)
  (fence : option virtio_gpu_fence) : ST gpu_st (option Z) := fun '(g, w) =>
  let resp_elem := if vb_resp_size v =? 0 then 0 else 1 in
  if vb_data_size v =? 0 then virtio_gpu_queue_ctrl_sgs fuel v fence (1 + resp_elem) (g, w)
  else if is_vmalloc_addr (vb_data_addr v) then
    let '(sgt, w1) := vmalloc_to_sgt (vb_data_addr v) (vb_data_size v) w in
    match sgt with
    | None =>
        (Some (- ENOMEM),
         (g, match fence, vb_objs v with Some _, Some o => snd (objs_unlock o w1) | _, _ => w1 end))
    | Some lens =>
        let '(ret, (g2, w2)) :=
          virtio_gpu_queue_ctrl_sgs fuel v fence (1 + Z.of_nat (length lens) + resp_elem) (g, w1) in
        (ret, (g2, snd (sgt_free w2)))
    end
  else virtio_gpu_queue_ctrl_sgs fuel v fence (2 + resp_elem) (g, w).

Definition virtio_gpu_queue_ctrl_buffer (fuel : nat) (v : vbuf) : ST gpu_st (option Z) :=
  virtio_gpu_queue_fenced_ctrl_buffer fuel v None.

(** the cursor queue: [None] when [fuel] ran out waiting for room *)
Fixpoint cursor_retry (fuel : nat) (v : vbuf) : ST W bool := fun w =>
  match fuel with
  | O => (false, w)
  | S fuel' =>
      let '(ret, w1) := cursor_add v w in
      if ret =? - ENOSPC then cursor_retry fuel' v (snd (cursor_wait w1)) else (true, w1)
  end.

Definition virtio_gpu_queue_cursor (fuel : nat) (v : vbuf) : ST W bool := fun w =>
  if negb (drm_dev_enter w) then (true, snd (free_vbuf v w))
  else
    let '(queued, w1) := cursor_retry fuel v w in
    if negb queued then (false, w1)
    else
      let '(notify, w2) := cursor_kick_prepare w1 in
      (true, if notify then snd (cursor_notify w2) else w2).

(** ** Responses *)

(** [while ((vbuf = virtqueue_get_buf(vq, &len)))], appending to the reclaim list *)
Fixpoint reclaim_vbufs (fuel : nat) (acc : list (vbuf * response)) : ST W (list (vbuf * response)) :=
  fun w =>
  match fuel with
  | O => (acc, w)
  | S fuel' =>
      let '(r, w1) := vq_get_buf w in
      match r with None => (acc, w1) | Some e => reclaim_vbufs fuel' (acc ++ [e]) w1 end
  end.

(** [do { reclaim } while (!virtqueue_enable_cb(vq))] *)
Fixpoint dequeue_collect (fuel rfuel : nat) (acc : list (vbuf * response))
  : ST W (option (list (vbuf * response))) := fun w =>
  match fuel with
  | O => (None, w)
  | S fuel' =>
      let '(acc1, w1) := reclaim_vbufs rfuel acc w in
      let '(enabled, w2) := vq_enable_cb w1 in
      if enabled then (Some acc1, w2) else dequeue_collect fuel' rfuel acc1 w2
  end.

Section Dequeue.
(** the device [D] the queue is part of, and the callbacks on it *)
Context {D : Type} (gpu_of : D -> gpu) (set_gpu : D -> gpu -> D).
Context (is_later : Z -> Z -> bool) (run_cb : vbuf -> response -> ST (D * W) unit).

(** the first loop's body: signal the fence, run the callback *)
Definition dequeue_one (e : vbuf * response) : ST (D * W) unit := fun '(d, w) =>
  let '(v, r) := e in
  let d1 :=
    if c_true (Z.land (resp_flags r) VIRTIO_GPU_FLAG_FENCE) then
      let g := gpu_of d in
      let '(drv, s) := virtio_gpu_fence_event_process is_later (g_fence g) (resp_fence r) in
      set_gpu d (Gpu (g_has_indirect g) (g_seqno g) (g_pending g) drv (g_signalled g ++ s))
    else d in
  run_cb v r (d1, w).

Fixpoint dequeue_responses (l : list (vbuf * response)) : ST (D * W) unit := fun st =>
  match l with [] => (tt, st) | e :: l' => dequeue_responses l' (snd (dequeue_one e st)) end.

(** the second loop: put the objects, free the buffer *)
Fixpoint dequeue_free (l : list (vbuf * response)) : ST W unit := fun w =>
  match l with
  | [] => (tt, w)
  | (v, _) :: l' =>
      let w1 := match vb_objs v with Some o => snd (objs_put_delayed o w) | None => w end in
      dequeue_free l' (snd (free_vbuf v w1))
  end.

Definition virtio_gpu_dequeue_ctrl_func (fuel rfuel : nat) : ST (D * W) bool := fun '(g, w) =>
  let '(l, w1) := dequeue_collect fuel rfuel [] w in
  match l with
  | None => (false, (g, w1))
  | Some l =>
      let '(_, (g2, w2)) := dequeue_responses l (g, w1) in
      let '(_, w3) := wake_ack w2 in
      (true, (g2, snd (dequeue_free l w3)))
  end.
End Dequeue.

End Queue.

Arguments gpu_st : clear implicits.

(** ** What the queue relies on

    The buffers allocated, the commands ever added to the ring in their order, the responses not
    yet taken, and the object arrays put. *)
Record cq_obs := CqObs {
  cq_live : gset Z; cq_ring : list vbuf; cq_done : list (vbuf * response); cq_put : list (list Z)
}.

Class CtrlLaws (W : Type) `{CtrlEnv W} `{ObjArrays W} := {
  qobs : W -> cq_obs;
  law_vbuf_zalloc w : let '(a, w') := vbuf_zalloc w in (a ∉ cq_live (qobs w)) /\
    qobs w' = CqObs (({[a]} : gset Z) ∪ cq_live (qobs w)) (cq_ring (qobs w)) (cq_done (qobs w)) (cq_put (qobs w));
  law_vbuf_free a w : qobs (snd (vbuf_free a w)) =
    CqObs (cq_live (qobs w) ∖ ({[a]} : gset Z)) (cq_ring (qobs w)) (cq_done (qobs w)) (cq_put (qobs w));
  law_vq_add v w : qobs (snd (vq_add_sgs v w)) =
    if fst (vq_add_sgs v w) =? 0
    then CqObs (cq_live (qobs w)) (cq_ring (qobs w) ++ [v]) (cq_done (qobs w)) (cq_put (qobs w))
    else qobs w;
  law_vq_get w :
    match cq_done (qobs w) with
    | [] => fst (vq_get_buf w) = None /\ qobs (snd (vq_get_buf w)) = qobs w
    | e :: l => fst (vq_get_buf w) = Some e /\
        qobs (snd (vq_get_buf w)) = CqObs (cq_live (qobs w)) (cq_ring (qobs w)) l (cq_put (qobs w))
    end;
  law_vq_enable w : fst (vq_enable_cb w) = bool_decide (length (cq_done (qobs w)) = 0%nat) /\
    qobs (snd (vq_enable_cb w)) = qobs w;
  law_kick w : qobs (snd (vq_kick_prepare w)) = qobs w;
  law_notify w : qobs (snd (vq_notify w)) = qobs w;
  law_wake w : qobs (snd (wake_ack w)) = qobs w;
  law_unlock o w : qobs (snd (objs_unlock o w)) = qobs w;
  law_add_fence o f w : qobs (snd (objs_add_fence o f w)) = qobs w;
  law_put o w : qobs (snd (objs_put_delayed o w)) =
    CqObs (cq_live (qobs w)) (cq_ring (qobs w)) (cq_done (qobs w)) (cq_put (qobs w) ++ [o])
}.

Definition is_fenced (v : vbuf) : bool := Z.testbit (h_flags (vb_hdr v)) 0.
(** the fence ids of the ring, in queue order *)
Definition ring_ids (l : list vbuf) : list Z :=
  (fun v => h_fence_id (vb_hdr v)) <$> List.filter is_fenced l.

(** The ids on the ring increase in queue order, come from the counter, and every pending fence
    has its command on the ring. *)
Record queue_inv {W} `{CtrlLaws W} (st : gpu * W) : Prop := {
  qi_current : 0 <= fd_current (g_fence (fst st));
  qi_sorted : StronglySorted Z.lt (ring_ids (cq_ring (qobs (snd st))));
  qi_bound : Forall (fun i => 1 <= i <= fd_current (g_fence (fst st))) (ring_ids (cq_ring (qobs (snd st))));
  qi_pending : Forall (fun f => fn_fence_id f ∈ ring_ids (cq_ring (qobs (snd st)))) (fd_fences (g_fence (fst st)))
}.

(** ** A concrete queue: a ring with so many free entries, which the host answers one by one *)
Record toy_queue := ToyQueue { tq_obs : cq_obs; tq_plugged : bool; tq_free : Z }.

Definition tq_with (w : toy_queue) (o : cq_obs) : toy_queue := ToyQueue o (tq_plugged w) (tq_free w).

Definition fresh_vbuf (X : gset Z) : Z := above (elements X).

#[export] Instance toy_ctrl_env : CtrlEnv toy_queue := {
  drm_dev_enter := tq_plugged;
  vbuf_zalloc w := let o := tq_obs w in let a := fresh_vbuf (cq_live o) in
    (a, tq_with w (CqObs (({[a]} : gset Z) ∪ cq_live o) (cq_ring o) (cq_done o) (cq_put o)));
  vbuf_free a w := let o := tq_obs w in
    (tt, tq_with w (CqObs (cq_live o ∖ ({[a]} : gset Z)) (cq_ring o) (cq_done o) (cq_put o)));
  vq_num_free := tq_free;
  vq_add_sgs v w := let o := tq_obs w in
    (0, ToyQueue (CqObs (cq_live o) (cq_ring o ++ [v]) (cq_done o) (cq_put o)) (tq_plugged w) (tq_free w - 1));
  vq_get_buf w := let o := tq_obs w in match cq_done o with
    | [] => (None, w)
    | e :: l => (Some e, ToyQueue (CqObs (cq_live o) (cq_ring o) l (cq_put o)) (tq_plugged w) (tq_free w + 1))
    end;
  vq_enable_cb w := (bool_decide (length (cq_done (tq_obs w)) = 0%nat), w);
  vq_kick_prepare w := (true, w);
  vq_notify w := (tt, w);
  wake_ack w := (tt, w);
  is_vmalloc_addr a := 2 ^ 63 <=? a;
  sgt_alloc n w := (true, w);
  vmalloc_to_page a w := (true, w);
  sgt_free w := (tt, w);
  cursor_add v w := (0, w);
  cursor_kick_prepare w := (true, w);
  cursor_notify w := (tt, w);
  cursor_wait w := (tt, w)
}.

#[export] Instance toy_queue_arrays : ObjArrays toy_queue := {
  objs_unlock o w := (tt, w);
  objs_add_fence o f w := (tt, w);
  objs_put_delayed o w := let q := tq_obs w in
    (tt, tq_with w (CqObs (cq_live q) (cq_ring q) (cq_done q) (cq_put q ++ [o])))
}.

#[export] Instance toy_ctrl_laws : CtrlLaws toy_queue.
Proof.
  refine {| qobs := tq_obs |}; intros; try done.
  - cbn. split; [|done]. unfold fresh_vbuf. rewrite <- elem_of_elements.
    apply above_fresh.
  - cbn. by destruct (cq_done (tq_obs w)).
Defined.

(** ** Facts *)

Lemma ring_ids_app l1 l2 : ring_ids (l1 ++ l2) = ring_ids l1 ++ ring_ids l2.
Proof. unfold ring_ids. by rewrite List.filter_app, fmap_app. Qed.

Lemma sorted_snoc l x : StronglySorted Z.lt l -> Forall (fun i => i < x) l -> StronglySorted Z.lt (l ++ [x]).
Proof.
  induction 1 as [|y l Hs IH Hy]; intros Hx; cbn; [repeat constructor|].
  apply Forall_cons in Hx as [Hy' Hx]. constructor; [by apply IH|].
  apply Forall_app. split; [done|]. by apply Forall_singleton.
Qed.

Lemma emit_flag_fence drv h f : Z.testbit (h_flags (virtio_gpu_fence_emit drv h f).1.2) 0 = true.
Proof.
  unfold virtio_gpu_fence_emit.
  destruct (fn_emit_fence_info f); cbn [fst snd h_flags]; rewrite !Z.lor_spec;
    change (Z.testbit VIRTIO_GPU_FLAG_FENCE 0) with true; by rewrite !orb_true_r.
Qed.

Lemma emit_hdr_id drv h f :
  h_fence_id (virtio_gpu_fence_emit drv h f).1.2 = u64 (fd_current drv + 1).
Proof. unfold virtio_gpu_fence_emit. cbn. by destruct (fn_emit_fence_info f). Qed.

Section Facts.
Context {W : Type} `{CL : CtrlLaws W}.

Lemma notify_obs (st : gpu_st W) :
  qobs (snd (snd (virtio_gpu_notify st))) = qobs (snd st) /\
  g_fence (fst (snd (virtio_gpu_notify st))) = g_fence (fst st).
Proof.
  destruct st as [g w]. unfold virtio_gpu_notify. destruct (g_pending g =? 0); [done|].
  pose proof (law_kick w) as Hk. destruct (vq_kick_prepare w) as [[] w1]; cbn in *; by rewrite ?law_notify.
Qed.

Lemma queue_inv_same (st st' : gpu_st W) : qobs (snd st') = qobs (snd st) ->
  g_fence (fst st') = g_fence (fst st) -> queue_inv st -> queue_inv st'.
Proof. intros Ho Hf [I1 I2 I3 I4]. split; rewrite ?Ho, ?Hf; done. Qed.

Definition sleep_keeps (sleep : gpu_st W -> gpu_st W) : Prop := forall st, queue_inv st -> queue_inv (sleep st).

Lemma wait_room_inv sleep fuel elemcnt st : sleep_keeps sleep -> queue_inv st ->
  queue_inv (snd (queue_wait_room sleep fuel elemcnt st)).
Proof.
  intros Hs. revert st; induction fuel as [|fuel IH]; intros st HI; [done|]. cbn [queue_wait_room].
  case_if; [|done]. destruct (notify_obs st) as [Ho Hf].
  destruct (virtio_gpu_notify st) as [u [g1 w1]]. apply IH, Hs. by apply queue_inv_same with st.
Qed.

(** a fence's command goes to the end of the ring with the next id *)
Lemma queue_inv_push drv' hdr' f' (g : gpu) (w w' : W) v n seqno pending :
  queue_inv (g, w) -> fd_current (g_fence g) + 1 < 2 ^ 64 ->
  forall f, virtio_gpu_fence_emit (g_fence g) (vb_hdr v) f = (drv', hdr', f') ->
  qobs w' = CqObs (cq_live (qobs w)) (cq_ring (qobs w) ++ [set_seqno (set_hdr v hdr') n])
                  (cq_done (qobs w)) (cq_put (qobs w)) ->
  queue_inv (Gpu (g_has_indirect g) seqno pending drv' (g_signalled g), w').
Proof.
  intros [I1 I2 I3 I4] Hb f Hf Ho. cbn [fst snd] in *.
  pose proof (emit_flag_fence (g_fence g) (vb_hdr v) f) as Hfl.
  pose proof (emit_hdr_id (g_fence g) (vb_hdr v) f) as Hid. rewrite Hf in Hfl, Hid. cbn in Hfl, Hid.
  rewrite u64_small in Hid by lia.
  assert (Hr : ring_ids (cq_ring (qobs w')) = ring_ids (cq_ring (qobs w)) ++ [fd_current (g_fence g) + 1]).
  { rewrite Ho. cbn [cq_ring]. rewrite ring_ids_app. f_equal. unfold ring_ids, is_fenced. cbn. rewrite Hfl. cbn.
    by rewrite Hid. }
  unfold virtio_gpu_fence_emit in Hf. rewrite u64_small in Hf by lia. injection Hf as <- _ <-.
  split; cbn; rewrite ?Hr.
  - lia.
  - apply sorted_snoc; [done|]. eapply Forall_impl; [exact I3|]. cbn. lia.
  - apply Forall_app. split; [|apply Forall_singleton; lia].
    eapply Forall_impl; [exact I3|]. cbn. lia.
  - apply Forall_app. split; [|apply Forall_singleton; cbn; set_solver].
    eapply Forall_impl; [exact I4|]. cbn. set_solver.
Qed.

Lemma queue_inv_push_plain (g : gpu) (w w' : W) v seqno pending :
  queue_inv (g, w) -> is_fenced v = false ->
  qobs w' = CqObs (cq_live (qobs w)) (cq_ring (qobs w) ++ [v]) (cq_done (qobs w)) (cq_put (qobs w)) ->
  queue_inv (Gpu (g_has_indirect g) seqno pending (g_fence g) (g_signalled g), w').
Proof.
  intros [I1 I2 I3 I4] Hv Ho. cbn [fst snd] in *.
  assert (Hr : ring_ids (cq_ring (qobs w')) = ring_ids (cq_ring (qobs w))).
  { rewrite Ho. cbn [cq_ring]. rewrite ring_ids_app. unfold ring_ids at 2. cbn [List.filter]. by rewrite Hv, app_nil_r. }
  split; cbn; by rewrite ?Hr.
Qed.

Lemma emit_fence_obs v fence st :
  qobs (snd (snd (queue_emit_fence v fence st))) = qobs (snd st).
Proof.
  destruct st as [g w]. unfold queue_emit_fence. destruct fence as [f|]; [|done].
  destruct (virtio_gpu_fence_emit _ _ f) as [[drv hdr] f']. cbn.
  destruct (vb_objs v); [|done]. by rewrite law_unlock, law_add_fence.
Qed.

(** taking the responses *)
Lemma reclaim_vbufs_obs l acc w : cq_done (qobs w) = l ->
  fst (reclaim_vbufs (S (length l)) acc w) = acc ++ l /\
  qobs (snd (reclaim_vbufs (S (length l)) acc w)) =
    CqObs (cq_live (qobs w)) (cq_ring (qobs w)) [] (cq_put (qobs w)).
Proof.
  revert acc w; induction l as [|e l IH]; intros acc w Hd.
  - cbn. pose proof (law_vq_get w) as Hg. rewrite Hd in Hg. destruct Hg as [G1 G2].
    destruct (vq_get_buf w) as [r w1]. cbn in *. subst r. cbn. rewrite app_nil_r, G2.
    split; [done|]. destruct (qobs w); cbn in *; by subst.
  - cbn [length]. generalize dependent (S (length l)). intros fuel IH. cbn [reclaim_vbufs].
    pose proof (law_vq_get w) as Hg. rewrite Hd in Hg. destruct Hg as [G1 G2].
    destruct (vq_get_buf w) as [r w1]. cbn [fst snd] in *. subst r. cbv iota beta.
    destruct (IH (acc ++ [e]) w1) as [I1 I2]; [by rewrite G2|].
    rewrite I1, I2, G2. cbn. by rewrite <- app_assoc.
Qed.

Lemma dequeue_free_obs l w :
  qobs (snd (dequeue_free l w)) =
  CqObs (cq_live (qobs w) ∖ list_to_set ((fun e => vb_addr (fst e)) <$> l)) (cq_ring (qobs w))
        (cq_done (qobs w)) (cq_put (qobs w) ++ omap (fun e => vb_objs (fst e)) l).
Proof.
  revert w; induction l as [|[v r] l IH]; intros w; cbn [dequeue_free].
  - cbn. rewrite app_nil_r, difference_empty_L. by destruct (qobs w).
  - rewrite IH. unfold free_vbuf. rewrite law_vbuf_free. cbn.
    destruct (vb_objs v) as [o|]; cbn; rewrite ?law_put; cbn; rewrite <- ?app_assoc; f_equal; set_solver.
Qed.

End Facts.

(** ** Properties *)


Definition toy_vbuf (a : Z) (c : gpu_cmd) (o : option (list Z)) : vbuf :=
  Vbuf a (CtrlHdr (cmd_type c) 0 0 3 0) c 0 [] 0 24 CbNone o 0.
Definition gpu0 : gpu := Gpu true 7 0 (fence_driver_init 40) [].
Definition empty_queue (free : Z) : toy_queue :=
  ToyQueue (CqObs ({[1; 2]} : gset Z) [] [] []) true free.

(** the host frees one entry while we sleep *)
Definition host_frees (st : gpu_st toy_queue) : gpu_st toy_queue :=
  (fst st, ToyQueue (tq_obs (snd st)) (tq_plugged (snd st)) (tq_free (snd st) + 1)).

Lemma host_frees_keeps : sleep_keeps host_frees.
Proof. intros [g w] HI. by apply (queue_inv_same (g, w)). Qed.

Lemma empty_queue_inv free : queue_inv (gpu0, empty_queue free).
Proof. split; cbn; [lia | constructor | constructor | constructor]. Qed.


(** a response callback that leaves the queue alone *)
Definition cb_keeps {W} `{CtrlLaws W} {D} (run_cb : vbuf -> response -> ST (D * W) unit) : Prop :=
  forall v r st, qobs (snd (snd (run_cb v r st))) = qobs (snd st).

Lemma dequeue_responses_obs {W} `{CL : CtrlLaws W} {D} (gpu_of : D -> gpu) set_gpu is_later run_cb l (st : D * W) :
  cb_keeps run_cb ->
  qobs (snd (snd (dequeue_responses gpu_of set_gpu is_later run_cb l st))) = qobs (snd st).
Proof.
  intros Hcb. revert st; induction l as [|[v r] l IH]; intros [d w]; cbn [dequeue_responses]; [done|].
  rewrite IH. unfold dequeue_one. by rewrite Hcb.
Qed.

Lemma dequeue_ctrl_func_obs {W} `{CL : CtrlLaws W} {D} (gpu_of : D -> gpu) set_gpu is_later run_cb done_ d (w : W) :
  cb_keeps run_cb -> cq_done (qobs w) = done_ ->
  let '(finished, (d', w')) :=
    virtio_gpu_dequeue_ctrl_func gpu_of set_gpu is_later run_cb 1 (S (length done_)) (d, w) in
  finished = true /\
  (exists w0, qobs w0 = CqObs (cq_live (qobs w)) (cq_ring (qobs w)) [] (cq_put (qobs w)) /\
     d' = fst (snd (dequeue_responses gpu_of set_gpu is_later run_cb done_ (d, w0)))) /\
  qobs w' = CqObs (cq_live (qobs w) ∖ list_to_set ((fun e => vb_addr (fst e)) <$> done_))
                  (cq_ring (qobs w)) [] (cq_put (qobs w) ++ omap (fun e => vb_objs (fst e)) done_).
Proof.
  intros Hcb Hdone. unfold virtio_gpu_dequeue_ctrl_func. cbn [dequeue_collect].
  destruct (reclaim_vbufs_obs done_ [] w Hdone) as [R1 R2].
  destruct (reclaim_vbufs (S (length done_)) [] w) as [l w1]. cbn [fst snd app] in R1, R2. subst l.
  destruct (law_vq_enable w1) as [E1 E2]. destruct (vq_enable_cb w1) as [en w2]. cbn [fst snd] in E1, E2.
  rewrite R2 in E1, E2. cbn in E1. subst en. rewrite bool_decide_eq_true_2 by done.
  pose proof (dequeue_responses_obs gpu_of set_gpu is_later run_cb done_ (d, w2) Hcb) as Hr.
  destruct (dequeue_responses gpu_of set_gpu is_later run_cb done_ (d, w2)) as [u [d3 w3]] eqn:Ed. cbn [snd] in Hr.
  pose proof (law_wake w3) as Hw. destruct (wake_ack w3) as [u' w4]. cbn [snd] in Hw.
  split; [done|]. split; [exists w2; split; [done | by rewrite Ed]|].
  rewrite dequeue_free_obs, Hw, Hr, E2. done.
Qed.

(** two commands answered by the host, the second with a fence *)
Definition answered_queue : toy_queue :=
  ToyQueue (CqObs ({[1; 2; 3]} : gset Z) [] [(toy_vbuf 1 (ResourceUnref 5) None, (0x1100, 0, 0, []));
                                             (toy_vbuf 2 (Submit3d 16) (Some [5; 6]), (0x1100, 1, 9, []))] [])
           true 4.

(** The entries of a vmalloc'd buffer's table cover it: one per page, none longer than a page,
    together exactly the buffer's size (for sizes an [int] holds). *)
Theorem sg_chunks_cover size (Hs : 0 <= size < 2 ^ 31) :
  let lens := sg_chunks (Z.to_nat ((size + PAGE_SIZE - 1) / PAGE_SIZE)) size in
  foldr Z.add 0 lens = size /\ Forall (fun l => 0 < l <= PAGE_SIZE) lens.
Proof.
  cbv zeta. unfold PAGE_SIZE.
  remember (Z.to_nat ((size + 4096 - 1) / 4096)) as n eqn:En. revert size Hs En.
  induction n as [|n IH]; intros size Hs En.
  - cbn. split; [|constructor].
    pose proof (Z.div_mod (size + 4096 - 1) 4096 ltac:(lia)).
    pose proof (Z.mod_pos_bound (size + 4096 - 1) 4096 ltac:(lia)).
    pose proof (Z.div_pos (size + 4096 - 1) 4096 ltac:(lia) ltac:(lia)). lia.
  - cbn [sg_chunks]. unfold PAGE_SIZE.
    assert (Hp : 0 < size).
    { destruct (Z.eq_dec size 0) as [->|]; [by vm_compute in En | lia]. }
    assert (Hs32 : s32 size = size). { unfold s32. rewrite Z.mod_small by lia. lia. }
    rewrite Hs32. rewrite u32_small by lia.
    destruct (IH (size - Z.min 4096 size)) as [I1 I2]; [lia | |].
    { destruct (Z.le_gt_cases size 4096).
      - rewrite Z.min_r by lia. rewrite Z.sub_diag.
        assert (size + 4096 - 1 < 2 * 4096) by lia.
        assert ((size + 4096 - 1) / 4096 = 1) as E1 by (symmetry; apply Z.div_unique with (size - 1); lia).
        rewrite E1 in En. change ((0 + 4096 - 1) / 4096) with 0. lia.
      - rewrite Z.min_l by lia. replace (size + 4096 - 1) with (size - 4096 + 4096 - 1 + 1 * 4096) in En by lia.
        rewrite Z.div_add in En by lia.
        pose proof (Z.div_pos (size - 4096 + 4096 - 1) 4096 ltac:(lia) ltac:(lia)). lia. }
    cbn [foldr]. rewrite I1. split; [lia|]. constructor; [lia | done].
Qed.

Lemma sg_chunks_cover_witness :
  let lens := sg_chunks (Z.to_nat ((10000 + PAGE_SIZE - 1) / PAGE_SIZE)) 10000 in
  foldr Z.add 0 lens = 10000 /\ Forall (fun l => 0 < l <= PAGE_SIZE) lens.
Proof. apply (sg_chunks_cover 10000). lia. Defined.
