(* ===== verification/CtrlTrace.v ===== *)
(** * The control queue, observed event by event

    A world that keeps a log of what the queue's functions do to it. The functions of [CtrlQueue]
    are written against the interfaces [CtrlEnv] and [ObjArrays], so they run on the logged world
    as they are; [erase] lemmas say that logging changes nothing else. With it: the order and the
    number of the dequeue's effects, and the end of a wait for room. *)

From stdpp Require Import gmap.
From S2P Require Import Prelude Wire Fence ObjArray CtrlQueue.

Inductive qevent :=
| EvAdd (v : vbuf)                        (* a command put on the ring *)
| EvNotify                                (* the host notified *)
| EvCall (v : vbuf) (r : response)        (* a command's callback run *)
| EvWake                                  (* [wake_up(&ack_queue)] *)
| EvPut (o : list Z)                      (* an object array handed to the delayed put *)
| EvFree (a : Z).                         (* a buffer freed *)

Record logged (W : Type) := Logged { lg_world : W; lg_log : list qevent }.
Arguments Logged {W}. Arguments lg_world {W}. Arguments lg_log {W}.

(** an operation on the logged world, and what it logs *)
Definition log_op {W A} (m : ST W A) (e : A -> list qevent) : ST (logged W) A := fun w =>
  let '(a, w1) := m (lg_world w) in (a, Logged w1 (lg_log w ++ e a)).
Definition quiet {W A} (m : ST W A) : ST (logged W) A := fun w =>
  let '(a, w1) := m (lg_world w) in (a, Logged w1 (lg_log w)).

#[export] Instance logged_ctrl {W} `{CtrlEnv W} : CtrlEnv (logged W) := {
  drm_dev_enter w := drm_dev_enter (lg_world w);
  vbuf_zalloc := quiet vbuf_zalloc;
  vbuf_free a := log_op (vbuf_free a) (fun _ => [EvFree a]);
  vq_num_free w := vq_num_free (lg_world w);
  vq_add_sgs v := log_op (vq_add_sgs v) (fun ret => if ret =? 0 then [EvAdd v] else []);
  vq_get_buf := quiet vq_get_buf;
  vq_enable_cb := quiet vq_enable_cb;
  vq_kick_prepare := quiet vq_kick_prepare;
  vq_notify := log_op vq_notify (fun _ => [EvNotify]);
  wake_ack := log_op wake_ack (fun _ => [EvWake]);
  is_vmalloc_addr := is_vmalloc_addr;
  sgt_alloc n := quiet (sgt_alloc n);
  vmalloc_to_page a := quiet (vmalloc_to_page a);
  sgt_free := quiet sgt_free;
  cursor_add v := quiet (cursor_add v);
  cursor_kick_prepare := quiet cursor_kick_prepare;
  cursor_notify := quiet cursor_notify;
  cursor_wait := quiet cursor_wait
}.

#[export] Instance logged_arrays {W} `{ObjArrays W} : ObjArrays (logged W) := {
  objs_unlock o := quiet (objs_unlock o);
  objs_add_fence o f := quiet (objs_add_fence o f);
  objs_put_delayed o := log_op (objs_put_delayed o) (fun _ => [EvPut o])
}.

(** the laws of the world are those of the logged one *)
#[export] Instance logged_laws {W} `{CL : CtrlLaws W} : CtrlLaws (logged W).
Proof.
  refine {| qobs w := qobs (lg_world w) |}; intros.
  - pose proof (law_vbuf_zalloc (lg_world w)) as Hl. cbn. unfold quiet. by destruct (vbuf_zalloc (lg_world w)).
  - pose proof (law_vbuf_free a (lg_world w)) as Hl. cbn. unfold log_op. by destruct (vbuf_free a (lg_world w)).
  - pose proof (law_vq_add v (lg_world w)) as Hl. cbn. unfold log_op. by destruct (vq_add_sgs v (lg_world w)).
  - pose proof (law_vq_get (lg_world w)) as Hl. cbn. unfold quiet. by destruct (vq_get_buf (lg_world w)).
  - pose proof (law_vq_enable (lg_world w)) as Hl. cbn. unfold quiet. by destruct (vq_enable_cb (lg_world w)).
  - pose proof (law_kick (lg_world w)) as Hl. cbn. unfold quiet. by destruct (vq_kick_prepare (lg_world w)).
  - pose proof (law_notify (lg_world w)) as Hl. cbn. unfold log_op. by destruct (vq_notify (lg_world w)).
  - pose proof (law_wake (lg_world w)) as Hl. cbn. unfold log_op. by destruct (wake_ack (lg_world w)).
  - pose proof (law_unlock o (lg_world w)) as Hl. cbn. unfold quiet. by destruct (objs_unlock o (lg_world w)).
  - pose proof (law_add_fence o f (lg_world w)) as Hl. cbn. unfold quiet. by destruct (objs_add_fence o f (lg_world w)).
  - pose proof (law_put o (lg_world w)) as Hl. cbn. unfold log_op. by destruct (objs_put_delayed o (lg_world w)).
Defined.

(** ** The dequeue work *)

Section Dequeue.
Context {W : Type} `{CE : CtrlEnv W} `{OA : !ObjArrays W} {D : Type}.
Context (gpu_of : D -> gpu) (set_gpu : D -> gpu -> D) (is_later : Z -> Z -> bool).
Context (run_cb : vbuf -> response -> ST (D * W) unit).

(** a callback, its call logged *)
Definition logged_cb (v : vbuf) (r : response) : ST (D * logged W) unit := fun '(d, w) =>
  let '(_, (d1, w1)) := run_cb v r (d, lg_world w) in (tt, (d1, Logged w1 (lg_log w ++ [EvCall v r]))).

(** what freeing an answered command logs: its array is put, then its buffer freed *)
Definition free_events (e : vbuf * response) : list qevent :=
  match vb_objs (fst e) with Some o => [EvPut o] | None => [] end ++ [EvFree (vb_addr (fst e))].

(** what one run logs for the responses [l] *)
Definition dequeue_events (l : list (vbuf * response)) : list qevent :=
  ((fun e => EvCall (fst e) (snd e)) <$> l) ++ [EvWake] ++ concat (free_events <$> l).

Lemma reclaim_erase fuel acc (w : logged W) :
  reclaim_vbufs fuel acc w =
  let '(l, w1) := reclaim_vbufs fuel acc (lg_world w) in (l, Logged w1 (lg_log w)).
Proof.
  revert acc w; induction fuel as [|fuel IH]; intros acc [w log]; [done|]. cbn [reclaim_vbufs lg_world lg_log].
  cbn [vq_get_buf logged_ctrl]. unfold quiet. cbn [lg_world lg_log].
  destruct (vq_get_buf w) as [[e|] w1]; [|done]. apply IH.
Qed.

Lemma collect_erase fuel rfuel acc (w : logged W) :
  dequeue_collect fuel rfuel acc w =
  let '(l, w1) := dequeue_collect fuel rfuel acc (lg_world w) in (l, Logged w1 (lg_log w)).
Proof.
  revert acc w; induction fuel as [|fuel IH]; intros acc w; [by destruct w|]. cbn [dequeue_collect].
  rewrite reclaim_erase. destruct (reclaim_vbufs rfuel acc (lg_world w)) as [acc1 w1].
  cbn [vq_enable_cb logged_ctrl]. unfold quiet. cbn [lg_world lg_log].
  destruct (vq_enable_cb w1) as [[] w2]; [done|]. by rewrite IH.
Qed.

Lemma responses_logged l d (w : logged W) :
  dequeue_responses gpu_of set_gpu is_later logged_cb l (d, w) =
  let '(_, (d1, w1)) := dequeue_responses gpu_of set_gpu is_later run_cb l (d, lg_world w) in
  (tt, (d1, Logged w1 (lg_log w ++ ((fun e => EvCall (fst e) (snd e)) <$> l)))).
Proof.
  revert d w; induction l as [|[v r] l IH]; intros d [w log]; cbn [dequeue_responses lg_world lg_log].
  - by rewrite app_nil_r.
  - unfold dequeue_one, logged_cb. cbn [lg_world lg_log].
    destruct (run_cb v r _) as [u [d1 w1]]. cbn [snd]. rewrite IH. cbn [lg_world lg_log].
    destruct (dequeue_responses _ _ _ _ l (d1, w1)) as [u' [d2 w2]]. by rewrite <- app_assoc.
Qed.

Lemma free_logged l (w : logged W) :
  dequeue_free l w =
  (tt, Logged (snd (dequeue_free l (lg_world w))) (lg_log w ++ concat (free_events <$> l))).
Proof.
  revert w; induction l as [|[v r] l IH]; intros [w log]; cbn [dequeue_free lg_world lg_log].
  - cbn. by rewrite app_nil_r.
  - rewrite IH. rewrite fmap_cons. cbn [concat]. set (l1 := concat (free_events <$> l)).
    unfold free_vbuf, free_events. cbn [fst]. clearbody l1.
    destruct (vb_objs v) as [o|]; cbn [objs_put_delayed logged_arrays vbuf_free logged_ctrl fst snd];
      unfold log_op; cbn [lg_world lg_log].
    + destruct (objs_put_delayed o w) as [u w1]. cbn [lg_world lg_log snd].
      destruct (vbuf_free _ w1) as [u' w2]. cbn. by rewrite <- !app_assoc.
    + destruct (vbuf_free _ w) as [u' w2]. cbn. by rewrite <- !app_assoc.
Qed.

(** the whole work on the logged world: the plain run, and its effects in order *)
Lemma dequeue_logged fuel rfuel d (w : logged W) :
  let '(l, _) := dequeue_collect fuel rfuel [] (lg_world w) in
  let '(finished, (d1, w1)) := virtio_gpu_dequeue_ctrl_func gpu_of set_gpu is_later run_cb fuel rfuel (d, lg_world w) in
  virtio_gpu_dequeue_ctrl_func gpu_of set_gpu is_later logged_cb fuel rfuel (d, w) =
  (finished, (d1, Logged w1 (lg_log w ++ match l with Some l => dequeue_events l | None => [] end))).
Proof.
  unfold virtio_gpu_dequeue_ctrl_func. rewrite collect_erase.
  destruct (dequeue_collect fuel rfuel [] (lg_world w)) as [[l|] w1]; [|by rewrite app_nil_r].
  rewrite responses_logged. cbn [lg_world lg_log].
  destruct (dequeue_responses _ _ _ _ l (d, w1)) as [u [d2 w2]].
  cbn [wake_ack logged_ctrl]. unfold log_op. cbn [lg_world lg_log].
  destruct (wake_ack w2) as [u' w3]. rewrite free_logged. cbn [snd lg_world lg_log].
  unfold dequeue_events. by rewrite <- !app_assoc.
Qed.

(** the fence ids of the responses that carry one *)
Definition answered_fences (l : list (vbuf * response)) : list Z :=
  omap (fun e => if Z.testbit (resp_flags (snd e)) 0 then Some (resp_fence (snd e)) else None) l.

(** the timeline after several events: its state, and the fences signalled in order *)
Fixpoint fence_events (drv : fence_driver) (ids : list Z) : fence_driver * list virtio_gpu_fence :=
  match ids with
  | [] => (drv, [])
  | i :: ids' =>
      let '(drv1, s) := virtio_gpu_fence_event_process is_later drv i in
      let '(drv2, s') := fence_events drv1 ids' in (drv2, s ++ s')
  end.

Lemma fence_flag_test f : c_true (Z.land f VIRTIO_GPU_FLAG_FENCE) = Z.testbit f 0.
Proof.
  unfold c_true, VIRTIO_GPU_FLAG_FENCE. change 1 with (Z.ones 1) at 1. rewrite Z.land_ones by lia.
  change (2 ^ 1) with 2. rewrite Zmod_odd, Z.bit0_odd. by destruct (Z.odd f).
Qed.

(** when the callbacks leave the queue's fields alone, these change by the fences of the responses *)
Lemma responses_fences l d (w : W) : (forall d g, gpu_of (set_gpu d g) = g) ->
  (forall v r st, gpu_of (fst (snd (run_cb v r st))) = gpu_of (fst st)) ->
  let g := gpu_of d in
  let '(drv, s) := fence_events (g_fence g) (answered_fences l) in
  gpu_of (fst (snd (dequeue_responses gpu_of set_gpu is_later run_cb l (d, w)))) =
  Gpu (g_has_indirect g) (g_seqno g) (g_pending g) drv (g_signalled g ++ s).
Proof.
  intros Hset Hcb. revert d w; induction l as [|[v r] l IH]; intros d w; cbn [dequeue_responses].
  - cbn. rewrite app_nil_r. by destruct (gpu_of d).
  - unfold dequeue_one. rewrite fence_flag_test. unfold answered_fences. cbn [omap list_omap snd].
    fold (answered_fences l). destruct (Z.testbit (resp_flags r) 0).
    + cbn [fence_events]. destruct (virtio_gpu_fence_event_process is_later _ (resp_fence r)) as [drv s].
      set (d1 := set_gpu d _). pose proof (Hcb v r (d1, w)) as Hg.
      destruct (run_cb v r (d1, w)) as [u [d2 w2]]. cbn [fst snd] in *. specialize (IH d2 w2). cbv zeta in IH.
      rewrite Hg in IH. subst d1. rewrite Hset in IH. cbn in IH. fold (answered_fences l).
      destruct (fence_events drv (answered_fences l)) as [drv2 s2]. by rewrite IH, <- app_assoc.
    + pose proof (Hcb v r (d, w)) as Hg. destruct (run_cb v r (d, w)) as [u [d2 w2]]. cbn [fst snd] in *.
      specialize (IH d2 w2). cbv zeta in IH. by rewrite Hg in IH.
Qed.
End Dequeue.

(** ** A command does not wait for ever

    The host frees entries only while it works on the ring, and it works on the ring only when it
    has been told of the commands there: [told]. A command added counts as pending until the next
    notification, so a queue without pending commands is one the host knows of. *)

Section Serve.
Context {W : Type} `{CL : CtrlLaws W} (sleep : gpu_st W -> gpu_st W) (told : W -> Prop).

Definition pending_told (st : gpu_st W) : Prop := g_pending (fst st) = 0 -> told (snd st).

Record host_serves (elemcnt : Z) : Prop := {
  hs_kick w : vq_num_free (snd (vq_kick_prepare w)) = vq_num_free w;
  hs_quiet w : fst (vq_kick_prepare w) = false -> told (snd (vq_kick_prepare w));
  hs_notify w : vq_num_free (snd (vq_notify w)) = vq_num_free w;
  hs_told w : told (snd (vq_notify w));
  hs_unlock o w : vq_num_free (snd (objs_unlock o w)) = vq_num_free w;
  hs_fence o f w : vq_num_free (snd (objs_add_fence o f w)) = vq_num_free w;
  hs_sleep st : pending_told st -> pending_told (sleep st);
  hs_serve st : told (snd st) -> vq_num_free (snd st) < elemcnt ->
    vq_num_free (snd st) < vq_num_free (snd (sleep st))
}.

Lemma queue_wait_room_S k elemcnt (st : gpu_st W) :
  queue_wait_room sleep (S k) elemcnt st =
  if vq_num_free (snd st) <? elemcnt
  then queue_wait_room sleep k elemcnt (sleep (snd (virtio_gpu_notify st))) else (true, st).
Proof. cbn [queue_wait_room]. case_if; [|done]. by destruct (virtio_gpu_notify st) as [u [g w]]. Qed.

(** a notification leaves no command the host does not know of *)
Lemma notify_tells elemcnt st : host_serves elemcnt -> pending_told st ->
  let st' := snd (virtio_gpu_notify st) in
  vq_num_free (snd st') = vq_num_free (snd st) /\ pending_told st' /\ told (snd st').
Proof.
  intros Hs Hp. destruct st as [g w]. unfold virtio_gpu_notify. destruct (Z.eqb_spec (g_pending g) 0) as [E|E].
  - cbn. split_and!; auto.
  - pose proof (hs_kick _ Hs w) as K. pose proof (hs_quiet _ Hs w) as Q.
    destruct (vq_kick_prepare w) as [[] w1]; cbn in *.
    + rewrite (hs_notify _ Hs). split_and!; [done | intros _; apply (hs_told _ Hs) | apply (hs_told _ Hs)].
    + split_and!; [done | by intros _; apply Q | by apply Q].
Qed.

Lemma wait_room_serves elemcnt ec k (st : gpu_st W) : host_serves elemcnt -> ec <= elemcnt -> pending_told st ->
  ec - Z.of_nat k <= vq_num_free (snd st) ->
  exists st1, queue_wait_room sleep (S k) ec st = (true, st1) /\ ec <= vq_num_free (snd st1).
Proof.
  intros Hs Hec. revert st; induction k as [|k IH]; intros st Hp Hk; rewrite queue_wait_room_S.
  - destruct (Z.ltb_spec (vq_num_free (snd st)) ec); [lia | by exists st].
  - destruct (Z.ltb_spec (vq_num_free (snd st)) ec) as [Hlt|]; [|by exists st].
    destruct (notify_tells elemcnt st Hs Hp) as (N1 & N2 & N3). apply IH; [by apply (hs_sleep _ Hs)|].
    pose proof (hs_serve _ Hs _ N3). lia.
Qed.

Lemma emit_fence_free elemcnt v fence (st : gpu_st W) : host_serves elemcnt ->
  vq_num_free (snd (snd (queue_emit_fence v fence st))) = vq_num_free (snd st).
Proof.
  intros Hs. destruct st as [g w]. unfold queue_emit_fence. destruct fence as [f|]; [|done].
  destruct (virtio_gpu_fence_emit _ _ f) as [[drv hdr] f']. cbn. destruct (vb_objs v); [|done].
  by rewrite (hs_unlock _ Hs), (hs_fence _ Hs).
Qed.

Lemma emit_fence_same v fence (st : gpu_st W) :
  let v1 := fst (queue_emit_fence v fence st) in
  vb_addr v1 = vb_addr v /\ vb_cmd v1 = vb_cmd v /\ vb_cb v1 = vb_cb v /\ vb_objs v1 = vb_objs v.
Proof.
  destruct st as [g w]. unfold queue_emit_fence. destruct fence as [f|]; [|done].
  by destruct (virtio_gpu_fence_emit _ _ f) as [[drv hdr] f'].
Qed.
End Serve.

(** C18: a command waits for room no longer than the host leaves the queue full. If the host,
    once it has been notified of the commands on the ring, frees at least one entry in each wait
    (and an entry added when there is room for it is taken), then within as many waits as the
    command needs entries it is on the ring, last and with room for all its entries: the driver
    never sleeps without having told the host of what it added before. Only after the device is
    unplugged is the command refused. *)
Theorem queued_if_host_serves {W} `{CL : CtrlLaws W} (sleep : gpu_st W -> gpu_st W) (told : W -> Prop)
  v fence elemcnt fuel (g : gpu) (w : W)
  (Hserves : host_serves sleep told elemcnt) (Htold : g_pending g = 0 -> told w)
  (Hadd : forall v w, (if g_has_indirect g then 1 else elemcnt) <= vq_num_free w -> fst (vq_add_sgs v w) = 0)
  (Hfree : 0 <= vq_num_free w) (Hone : 1 <= elemcnt) (Hfuel : elemcnt < Z.of_nat fuel) :
  let '(r, (g', w')) := virtio_gpu_queue_ctrl_sgs sleep fuel v fence elemcnt (g, w) in
  if drm_dev_enter w then
    r = Some 0 /\ exists g1 w1 v',
    queue_wait_room sleep fuel (if g_has_indirect g then 1 else elemcnt) (g, w) = (true, (g1, w1)) /\
    (if g_has_indirect g then 1 else elemcnt) <= vq_num_free w1 /\
    cq_ring (qobs w') = cq_ring (qobs w1) ++ [v'] /\
    vb_addr v' = vb_addr v /\ vb_cmd v' = vb_cmd v /\ vb_cb v' = vb_cb v /\ vb_objs v' = vb_objs v
  else r = Some (- ENODEV) /\ g' = g /\ cq_ring (qobs w') = cq_ring (qobs w).
Proof.
  unfold virtio_gpu_queue_ctrl_sgs. destruct (drm_dev_enter w); cbn [negb].
  2:{ unfold free_vbuf. split_and!; [done | done |]. rewrite law_vbuf_free. cbn.
      destruct fence, (vb_objs v); try done. by rewrite law_unlock. }
  set (ec := if g_has_indirect g then 1 else elemcnt) in *.
  assert (Hec : ec <= elemcnt) by (subst ec; case_if; lia). destruct fuel as [|k]; [lia|].
  destruct (wait_room_serves sleep told elemcnt ec k (g, w) Hserves Hec Htold) as ([g1 w1] & E & R);
    [cbn [snd]; lia|].
  rewrite E. cbn [negb snd] in *. pose proof (emit_fence_free sleep told elemcnt v fence (g1, w1) Hserves) as Hn.
  pose proof (emit_fence_obs v fence (g1, w1)) as Ho. pose proof (emit_fence_same v fence (g1, w1)) as Hv.
  destruct (queue_emit_fence v fence (g1, w1)) as [v1 [g2 w2]]. cbn [fst snd] in *.
  pose proof (law_vq_add (set_seqno v1 (u32 (g_seqno g2 + 1))) w2) as Ha.
  specialize (Hadd (set_seqno v1 (u32 (g_seqno g2 + 1))) w2 ltac:(lia)).
  destruct (vq_add_sgs _ w2) as [ret w3]. cbn [fst snd] in *. subst ret. cbn in Ha. rewrite Ho in Ha.
  split; [done|]. exists g1, w1, (set_seqno v1 (u32 (g_seqno g2 + 1))). rewrite Ha. cbn.
  split_and!; [done | done | done | apply Hv..].
Qed.

(** a host that works only when notified after the last command was added, one entry per wait *)
Definition told_log (log : list qevent) : bool :=
  foldl (fun b e => match e with EvAdd _ => false | EvNotify => true | _ => b end) true log.
Definition lazy_host (st : gpu_st (logged toy_queue)) : gpu_st (logged toy_queue) :=
  let '(g, w) := st in
  if told_log (lg_log w)
  then (g, Logged (ToyQueue (tq_obs (lg_world w)) (tq_plugged (lg_world w)) (tq_free (lg_world w) + 1)) (lg_log w))
  else st.

Lemma told_log_app log l : told_log (log ++ l) =
  foldl (fun b e => match e with EvAdd _ => false | EvNotify => true | _ => b end) (told_log log) l.
Proof. unfold told_log. by rewrite foldl_app. Qed.

Lemma lazy_host_serves n : host_serves lazy_host (fun w => told_log (lg_log w) = true) n.
Proof.
  split; try done.
  - intros w. cbn. by rewrite told_log_app.
  - intros [g w] Hp. unfold pending_told, lazy_host in *. cbn in *. by destruct (told_log (lg_log w)) eqn:E; cbn; rewrite ?E.
  - intros [g w] Ht _. cbn in Ht. unfold lazy_host. rewrite Ht. cbn. lia.
Qed.

(** a full queue with one command on it the host has not been told of *)
Definition untold_queue : logged toy_queue := Logged (empty_queue 0) [EvAdd (toy_vbuf 2 (Submit3d 8) None)].

Lemma queued_if_host_serves_witness :
  let g := Gpu false 7 1 (fence_driver_init 40) [] in
  let v := toy_vbuf 1 (Submit3d 16) None in
  let '(r, (g', w')) := virtio_gpu_queue_ctrl_sgs lazy_host 3 v None 2 (g, untold_queue) in
  if drm_dev_enter untold_queue then
    r = Some 0 /\ exists g1 w1 v',
    queue_wait_room lazy_host 3 (if g_has_indirect g then 1 else 2) (g, untold_queue) = (true, (g1, w1)) /\
    (if g_has_indirect g then 1 else 2) <= vq_num_free w1 /\
    cq_ring (qobs w') = cq_ring (qobs w1) ++ [v'] /\
    vb_addr v' = vb_addr v /\ vb_cmd v' = vb_cmd v /\ vb_cb v' = vb_cb v /\ vb_objs v' = vb_objs v
  else r = Some (- ENODEV) /\ g' = g /\ cq_ring (qobs w') = cq_ring (qobs untold_queue).
Proof.
  apply (queued_if_host_serves lazy_host (fun w => told_log (lg_log w) = true) (toy_vbuf 1 (Submit3d 16) None)
    None 2 3 (Gpu false 7 1 (fence_driver_init 40) []) untold_queue).
  - apply lazy_host_serves.
  - done.
  - done.
  - done.
  - lia.
  - lia.
Defined.

(** on such a host a wait without the notification would last for ever *)
Example untold_never_served : lazy_host (gpu0, untold_queue) = (gpu0, untold_queue).
Proof. reflexivity. Qed.
