(* ===== verification/GpuDev.v ===== *)
(** * The virtio-gpu device: objects and commands (virtio_gpu/virtgpu_vq.c, second part)

    The device state shared by the driver's files, the buffer objects by address, the 2D command
    functions of virtgpu_vq.c, and the end of an object's life in virtgpu_object.c and
    virtgpu_vram.c. The 3D commands and the response callbacks are in [GpuCmds]. *)

From stdpp Require Import gmap.
From S2P Require Import Prelude PoolCtl GuestPool Wire Fence ObjArray CtrlQueue.

Definition STATE_INITIALIZING : Z := 0.
Definition STATE_OK : Z := 1.
Definition STATE_ERR : Z := 2.

(** ** Buffer objects *)

(** [struct virtio_gpu_object_vram] beyond its base; the DRM node's allocation, start and size *)
Record vram := Vram {
  vr_map_state : Z; vr_map_info : Z;
  vr_pool_resident : bool; vr_pool_offset : Z;
  vr_guest_pool_owned : bool; vr_blocks : list block;
  vr_node_allocated : bool; vr_node_start : Z; vr_node_size : Z
}.

(** [struct virtio_gpu_object]; [bo_vram] is set for a VRAM object, [bo_import] for an imported buffer,
    else it is a shmem one *)
Record gpu_bo := Bo {
  bo_hw_res_handle : Z; bo_size : Z;
  bo_dumb : bool; bo_created : bool; bo_attached : bool;
  bo_guest_blob : bool; bo_host3d_blob : bool; bo_blob_mem : Z; bo_blob_flags : Z;
  bo_uuid_state : Z; bo_uuid : list Z;
  bo_vram : option vram;
  bo_sgt : option Z;                     (* the table of an imported buffer's mapping *)
  bo_import : option (Z * Z)             (* [import_attach] and its buffer; set by the PRIME import only *)
}.

Definition bo_set_created (b : gpu_bo) : gpu_bo :=
  Bo (bo_hw_res_handle b) (bo_size b) (bo_dumb b) true (bo_attached b) (bo_guest_blob b) (bo_host3d_blob b) (bo_blob_mem b)
     (bo_blob_flags b) (bo_uuid_state b) (bo_uuid b) (bo_vram b) (bo_sgt b) (bo_import b).
Definition bo_set_attached (x : bool) (b : gpu_bo) : gpu_bo :=
  Bo (bo_hw_res_handle b) (bo_size b) (bo_dumb b) (bo_created b) x (bo_guest_blob b) (bo_host3d_blob b) (bo_blob_mem b)
     (bo_blob_flags b) (bo_uuid_state b) (bo_uuid b) (bo_vram b) (bo_sgt b) (bo_import b).
Definition bo_set_uuid (st : Z) (u : list Z) (b : gpu_bo) : gpu_bo :=
  Bo (bo_hw_res_handle b) (bo_size b) (bo_dumb b) (bo_created b) (bo_attached b) (bo_guest_blob b) (bo_host3d_blob b)
     (bo_blob_mem b) (bo_blob_flags b) st u (bo_vram b) (bo_sgt b) (bo_import b).
Definition bo_set_vram (v : vram) (b : gpu_bo) : gpu_bo :=
  Bo (bo_hw_res_handle b) (bo_size b) (bo_dumb b) (bo_created b) (bo_attached b) (bo_guest_blob b) (bo_host3d_blob b)
     (bo_blob_mem b) (bo_blob_flags b) (bo_uuid_state b) (bo_uuid b) (Some v) (bo_sgt b) (bo_import b).
Definition bo_set_sgt (s : option Z) (b : gpu_bo) : gpu_bo :=
  Bo (bo_hw_res_handle b) (bo_size b) (bo_dumb b) (bo_created b) (bo_attached b) (bo_guest_blob b) (bo_host3d_blob b)
     (bo_blob_mem b) (bo_blob_flags b) (bo_uuid_state b) (bo_uuid b) (bo_vram b) s (bo_import b).

(** [struct virtio_gpu_object_params] *)
Record object_params := ObjParams {
  op_size : Z; op_dumb : bool; op_virgl : bool; op_blob : bool;
  op_format : Z; op_width : Z; op_height : Z; op_target : Z; op_bind : Z; op_depth : Z;
  op_array_size : Z; op_last_level : Z; op_nr_samples : Z; op_flags : Z;
  op_ctx_id : Z; op_blob_mem : Z; op_blob_flags : Z; op_blob_id : Z
}.

(** ** Capability sets *)

Record capset := Capset { cs_id : Z; cs_max_version : Z; cs_max_size : Z }.
Record cap_cache := CapCache {
  cc_id : Z; cc_version : Z; cc_size : Z; cc_caps : list Z; cc_valid : bool
}.

(** ** The device *)

Record vgdev (B : Type) := VgDev {
  dv_gpu : gpu;
  dv_pool : guest_pool B;
  dv_bos : gmap Z gpu_bo;                 (* the objects, by address *)
  dv_virglhack : bool; dv_res_seqno : Z;  (* the resource-id workaround and its counter (int) *)
  dv_has_edid : bool;
  dv_use_dma_api : bool;
  dv_display_pending : bool;
  dv_num_scanouts : nat;
  dv_outputs : list display_one;
  dv_edids : list Z;                      (* per output: the EDID read last, 0 for none *)
  dv_capsets : option (list capset); dv_num_capsets : Z;
  dv_cap_cache : list cap_cache
}.
Arguments VgDev {B}. Arguments dv_gpu {B}. Arguments dv_pool {B}. Arguments dv_bos {B}.
Arguments dv_virglhack {B}. Arguments dv_res_seqno {B}. Arguments dv_has_edid {B}.
Arguments dv_use_dma_api {B}. Arguments dv_display_pending {B}. Arguments dv_num_scanouts {B}.
Arguments dv_outputs {B}. Arguments dv_edids {B}. Arguments dv_capsets {B}.
Arguments dv_num_capsets {B}. Arguments dv_cap_cache {B}.

Section Set_.
Context {B : Type}.
Implicit Types d : vgdev B.
Definition dv_set_gpu d x := VgDev x (dv_pool d) (dv_bos d) (dv_virglhack d) (dv_res_seqno d) (dv_has_edid d)
  (dv_use_dma_api d) (dv_display_pending d) (dv_num_scanouts d) (dv_outputs d) (dv_edids d)
  (dv_capsets d) (dv_num_capsets d) (dv_cap_cache d).
Definition dv_set_pool (d : vgdev B) (x : guest_pool B) : vgdev B :=
  VgDev (dv_gpu d) x (dv_bos d) (dv_virglhack d) (dv_res_seqno d) (dv_has_edid d)
  (dv_use_dma_api d) (dv_display_pending d) (dv_num_scanouts d) (dv_outputs d) (dv_edids d)
  (dv_capsets d) (dv_num_capsets d) (dv_cap_cache d).
Definition dv_set_bos d x := VgDev (dv_gpu d) (dv_pool d) x (dv_virglhack d) (dv_res_seqno d) (dv_has_edid d)
  (dv_use_dma_api d) (dv_display_pending d) (dv_num_scanouts d) (dv_outputs d) (dv_edids d)
  (dv_capsets d) (dv_num_capsets d) (dv_cap_cache d).
Definition dv_set_res_seqno d x := VgDev (dv_gpu d) (dv_pool d) (dv_bos d) (dv_virglhack d) x (dv_has_edid d)
  (dv_use_dma_api d) (dv_display_pending d) (dv_num_scanouts d) (dv_outputs d) (dv_edids d)
  (dv_capsets d) (dv_num_capsets d) (dv_cap_cache d).
Definition dv_set_display d pending outputs := VgDev (dv_gpu d) (dv_pool d) (dv_bos d) (dv_virglhack d)
  (dv_res_seqno d) (dv_has_edid d) (dv_use_dma_api d) pending (dv_num_scanouts d) outputs (dv_edids d)
  (dv_capsets d) (dv_num_capsets d) (dv_cap_cache d).
Definition dv_set_edids d x := VgDev (dv_gpu d) (dv_pool d) (dv_bos d) (dv_virglhack d)
  (dv_res_seqno d) (dv_has_edid d) (dv_use_dma_api d) (dv_display_pending d) (dv_num_scanouts d) (dv_outputs d) x
  (dv_capsets d) (dv_num_capsets d) (dv_cap_cache d).
Definition dv_set_capsets d x := VgDev (dv_gpu d) (dv_pool d) (dv_bos d) (dv_virglhack d)
  (dv_res_seqno d) (dv_has_edid d) (dv_use_dma_api d) (dv_display_pending d) (dv_num_scanouts d) (dv_outputs d)
  (dv_edids d) x (dv_num_capsets d) (dv_cap_cache d).
Definition dv_set_cache d x := VgDev (dv_gpu d) (dv_pool d) (dv_bos d) (dv_virglhack d)
  (dv_res_seqno d) (dv_has_edid d) (dv_use_dma_api d) (dv_display_pending d) (dv_num_scanouts d) (dv_outputs d)
  (dv_edids d) (dv_capsets d) (dv_num_capsets d) x.
Definition dv_upd_bo d a (f : gpu_bo -> gpu_bo) := dv_set_bos d (alter f a (dv_bos d)).
End Set_.

(** ** What else the device calls *)

Class BoEnv (W : Type) := {
  kzalloc_buf : Z -> ST W bool;              (* a response buffer or a cache entry of some size *)
  kfree_buf : ST W unit;
  dma_sync_for_device : Z -> ST W unit;
  wake_resp_wq : ST W unit;
  hotplug_event : ST W unit;
  ida_alloc : ST W Z;
  ida_free : Z -> ST W unit;
  drm_gem_shmem_free : Z -> ST W unit;
  drm_mm_remove_node : Z -> Z -> ST W unit;
  vram_release : Z -> ST W unit;             (* free_mmap_offset, object_release, kfree *)
  import_release : Z -> ST W unit;           (* object_release, kfree *)
  drm_edid_read_custom : Z -> Z -> list Z -> ST W Z;   (* scanout, response size and data *)
  drm_edid_free : Z -> ST W unit
}.

Section Dev.
Context {B W : Type} `{BO : BuddyOps B} `{PA : PoolApi W} `{CE : CtrlEnv W} `{OA : ObjArrays W} `{BE : BoEnv W}.
(** what other threads do while the queue has no room, or before the pool's mutex is ours *)
Context (sleep : gpu_st W -> gpu_st W) (lock : gp_st B W -> gp_st B W) (fuel : nat).

Definition dev_st : Type := vgdev B * W.

(** run an operation of the queue, or of the pool, on its part of the device *)
Definition on_queue {A} (m : ST (gpu_st W) A) : ST dev_st A := fun '(d, w) =>
  let '(a, (g, w1)) := m (dv_gpu d, w) in (a, (dv_set_gpu d g, w1)).
Definition on_pool {A} (m : ST (gp_st B W) A) : ST dev_st A := fun '(d, w) =>
  let '(a, (p, w1)) := m (dv_pool d, w) in (a, (dv_set_pool d p, w1)).
Definition on_world {A} (m : ST W A) : ST dev_st A := fun '(d, w) =>
  let '(a, w1) := m w in (a, (d, w1)).
Definition on_bo (a : Z) (f : gpu_bo -> gpu_bo) : ST dev_st unit := fun '(d, w) => (tt, (dv_upd_bo d a f, w)).
Definition notify : ST dev_st unit := on_queue virtio_gpu_notify.

(** [virtio_gpu_alloc_cmd_resp] and the queueing of the filled buffer. [None]: the [BUG_ON], or
    still waiting for room *)
Definition issue (cmd : gpu_cmd) (ctx_id resp_size : Z) (have_buf : bool) (cb : resp_cb)
  (fill : vbuf -> vbuf) (fence : option virtio_gpu_fence) : ST dev_st (option Z) := fun '(d, w) =>
  let '(v, w1) := virtio_gpu_get_vbuf cmd ctx_id resp_size have_buf cb w in
  match v with
  | None => (None, (d, w1))
  | Some v => on_queue (virtio_gpu_queue_fenced_ctrl_buffer sleep fuel (fill v) fence) (d, w1)
  end.

(** [virtio_gpu_alloc_cmd]: a bare header for the response, no callback *)
Definition issue_plain (cmd : gpu_cmd) (ctx_id : Z) : ST dev_st (option Z) :=
  issue cmd ctx_id sizeof_ctrl_hdr false CbNone id None.

Definition handle_of (d : vgdev B) (a : Z) : Z :=
  match dv_bos d !! a with Some b => bo_hw_res_handle b | None => 0 end.
Definition is_vram_bo (d : vgdev B) (a : Z) : bool :=
  match dv_bos d !! a with Some b => bool_decide (is_Some (bo_vram b)) | None => false end.
Definition is_import_bo (d : vgdev B) (a : Z) : bool :=
  match dv_bos d !! a with Some b => bool_decide (is_Some (bo_import b)) | None => false end.
(** [virtio_gpu_is_shmem] *)
Definition is_shmem_bo (d : vgdev B) (a : Z) : bool := negb (is_vram_bo d a) && negb (is_import_bo d a).
(** [gem_to_virtio_gpu_obj(objs->objs[0])] *)
Definition obj0 (objs : list Z) : Z := nth 0 objs 0.

(** ** The end of an object's life *)

Definition virtio_gpu_resource_id_put (id : Z) : ST dev_st unit := fun '(d, w) =>
  if dv_virglhack d then (tt, (d, w)) else (tt, (d, snd (ida_free (id - 1) w))).

(** the result, and the id *)
Definition virtio_gpu_resource_id_get : ST dev_st (Z * Z) := fun '(d, w) =>
  if dv_virglhack d then
    let handle := s32 (dv_res_seqno d + 1) in
    ((0, u32 (handle + 1)), (dv_set_res_seqno d handle, w))
  else
    let '(handle, w1) := ida_alloc w in
    if handle <? 0 then ((handle, 0), (d, w1)) else ((0, u32 (handle + 1)), (d, w1)).

Definition virtio_gpu_cleanup_object (a : Z) : ST dev_st unit := fun st =>
  match dv_bos (fst st) !! a with
  | None => (tt, st)
  | Some b =>
      let '(_, (d1, w1)) := virtio_gpu_resource_id_put (bo_hw_res_handle b) st in
      let d2 := dv_set_bos d1 (delete a (dv_bos d1)) in
      match bo_vram b with
      | None => if bool_decide (is_Some (bo_import b)) then (tt, (d2, snd (import_release a w1)))
                else (tt, (d2, snd (drm_gem_shmem_free a w1)))
      | Some v =>
          let w2 := if vr_node_allocated v
                    then snd (drm_mm_remove_node (vr_node_start v) (vr_node_size v) w1) else w1 in
          (tt, (d2, snd (vram_release a w2)))
      end
  end.

Definition virtio_gpu_guest_pool_release_object (a : Z) : ST dev_st unit := fun st =>
  match dv_bos (fst st) !! a with
  | Some b =>
      match bo_vram b with
      | Some v =>
          if negb (vr_guest_pool_owned v) then (tt, st)
          else
            let v1 := Vram (vr_map_state v) (vr_map_info v) (vr_pool_resident v) (vr_pool_offset v)
                           false (vr_blocks v) (vr_node_allocated v) (vr_node_start v) (vr_node_size v) in
            let '(_, st1) := on_bo a (bo_set_vram v1) st in
            on_pool (virtio_gpu_guest_pool_free lock (vr_blocks v)) st1
      | None => (tt, st)
      end
  | None => (tt, st)
  end.

(** ** Commands *)

Definition virtio_gpu_cmd_create_resource (a : Z) (p : object_params) (objs : option (list Z))
  (fence : option virtio_gpu_fence) : ST dev_st unit := fun st =>
  let '(_, st1) := issue (ResourceCreate2d (handle_of (fst st) a) (op_format p) (op_width p) (op_height p))
                         0 sizeof_ctrl_hdr false CbNone (fun v => with_objs v objs) fence st in
  on_bo a bo_set_created st1.

(** the unref's response: the blocks go back only when the host says it let go *)
Definition virtio_gpu_cmd_unref_cb (a : Z) (r : response) : ST dev_st unit := fun st =>
  let st1 :=
    if (resp_type r =? VIRTIO_GPU_RESP_OK_NODATA) || (resp_type r =? VIRTIO_GPU_RESP_ERR_INVALID_RESOURCE_ID)
    then snd (virtio_gpu_guest_pool_release_object a st) else st in
  virtio_gpu_cleanup_object a st1.

Definition virtio_gpu_cmd_unref_resource (a : Z) : ST dev_st unit := fun st =>
  let '(ret, st1) := issue (ResourceUnref (handle_of (fst st) a)) 0 sizeof_ctrl_hdr false (CbUnref a) id None st in
  match ret with
  | Some ret =>
      if ret <? 0 then
        let '(_, st2) := virtio_gpu_guest_pool_release_object a st1 in virtio_gpu_cleanup_object a st2
      else (tt, st1)
  | None => (tt, st1)
  end.

Definition virtio_gpu_cmd_set_scanout (scanout_id resource_id width height x y : Z) : ST dev_st unit := fun st =>
  (tt, snd (issue_plain (SetScanout (GpuRect x y width height) scanout_id resource_id) 0 st)).

Definition virtio_gpu_cmd_resource_flush (resource_id x y width height : Z) (objs : option (list Z))
  (fence : option virtio_gpu_fence) : ST dev_st unit := fun st =>
  (tt, snd (issue (ResourceFlush (GpuRect x y width height) resource_id) 0 sizeof_ctrl_hdr false CbNone
                  (fun v => with_objs v objs) fence st)).

(** [dma_sync_sgtable_for_device] of a shmem object under the DMA API *)
Definition sync_shmem (a : Z) : ST dev_st unit := fun '(d, w) =>
  if is_shmem_bo d a && dv_use_dma_api d then (tt, (d, snd (dma_sync_for_device a w))) else (tt, (d, w)).

Definition virtio_gpu_cmd_transfer_to_host_2d (offset width height x y : Z) (objs : list Z)
  (fence : option virtio_gpu_fence) : ST dev_st unit := fun st =>
  let a := obj0 objs in
  let '(_, st1) := sync_shmem a st in
  (tt, snd (issue (TransferToHost2d (GpuRect x y width height) offset (handle_of (fst st) a)) 0 sizeof_ctrl_hdr
                  false CbNone (fun v => with_objs v (Some objs)) fence st1)).

Definition virtio_gpu_cmd_resource_attach_backing (resource_id : Z) (ents : list gpu_mem_entry) (data_addr : Z)
  (fence : option virtio_gpu_fence) : ST dev_st unit := fun st =>
  let nents := Z.of_nat (length ents) in
  (tt, snd (issue (ResourceAttachBacking resource_id nents) 0 sizeof_ctrl_hdr false CbNone
                  (fun v => with_data v (u32 (sizeof_mem_entry * nents)) ents data_addr) fence st)).

Definition virtio_gpu_cmd_resource_detach_backing (resource_id : Z) (fence : option virtio_gpu_fence)
  : ST dev_st unit := fun st =>
  (tt, snd (issue (ResourceDetachBacking resource_id) 0 sizeof_ctrl_hdr false CbNone id fence st)).

Definition virtio_gpu_object_attach (a : Z) (ents : list gpu_mem_entry) (data_addr : Z) : ST dev_st unit := fun st =>
  match dv_bos (fst st) !! a with
  | Some b =>
      if bo_attached b then (tt, st)
      else
        let '(_, st1) := virtio_gpu_cmd_resource_attach_backing (bo_hw_res_handle b) ents data_addr None st in
        on_bo a (bo_set_attached true) st1
  | None => (tt, st)
  end.

Definition virtio_gpu_object_detach (a : Z) (fence : option virtio_gpu_fence) : ST dev_st unit := fun st =>
  match dv_bos (fst st) !! a with
  | Some b =>
      if negb (bo_attached b) then (tt, st)
      else
        let '(_, st1) := virtio_gpu_cmd_resource_detach_backing (bo_hw_res_handle b) fence st in
        on_bo a (bo_set_attached false) st1
  | None => (tt, st)
  end.

End Dev.
Arguments dev_st : clear implicits.
