(* ===== verification/GpuCmds.v ===== *)
(** * 3D and blob commands, and the response callbacks (virtio_gpu/virtgpu_vq.c, third part) *)

From stdpp Require Import gmap.
From S2P Require Import Prelude PoolCtl GuestPool Wire Fence ObjArray CtrlQueue GpuDev.

(** ** Formats: [virtio_gpu_translate_format] of virtgpu_plane.c, on DRM fourcc codes *)

Definition fourcc (a b c d : Z) : Z := a + 256 * (b + 256 * (c + 256 * d)).
Definition DRM_FORMAT_XRGB8888 : Z := fourcc 88 82 50 52.   (* XR24 *)
Definition DRM_FORMAT_ARGB8888 : Z := fourcc 65 82 50 52.   (* AR24 *)
Definition DRM_FORMAT_BGRX8888 : Z := fourcc 66 88 50 52.   (* BX24 *)
Definition DRM_FORMAT_BGRA8888 : Z := fourcc 66 65 50 52.   (* BA24 *)
Definition DRM_FORMAT_ABGR8888 : Z := fourcc 65 66 50 52.   (* AB24 *)
Definition VIRTIO_GPU_PRIMARY_FORMAT : Z := DRM_FORMAT_ABGR8888.

Definition virtio_gpu_translate_format (drm_fourcc : Z) : Z :=
  if drm_fourcc =? DRM_FORMAT_XRGB8888 then 2        (* B8G8R8X8 *)
  else if drm_fourcc =? DRM_FORMAT_ARGB8888 then 1   (* B8G8R8A8 *)
  else if drm_fourcc =? DRM_FORMAT_BGRX8888 then 4   (* X8R8G8B8 *)
  else if drm_fourcc =? DRM_FORMAT_BGRA8888 then 3   (* A8R8G8B8 *)
  else if drm_fourcc =? DRM_FORMAT_ABGR8888 then 67  (* R8G8B8A8 *)
  else 0.

Definition EDID_LENGTH : Z := 128.
(** the sizes of [struct virtio_gpu_resp_edid]'s array and of the response structs *)
Definition RESP_EDID_BYTES : Z := 1024.
Definition sizeof_resp_display_info : Z := 24 + 24 * 16.
Definition sizeof_resp_capset_info : Z := 24 + 16.
Definition sizeof_resp_edid : Z := 24 + 8 + 1024.
Definition sizeof_resp_uuid : Z := 24 + 16.
Definition sizeof_resp_map_info : Z := 24 + 8.

(** a framebuffer, as [virtio_gpu_cmd_set_scanout_blob] reads it *)
Record framebuffer := Framebuffer {
  fb_format : Z; fb_width : Z; fb_height : Z; fb_pitches : list Z; fb_offsets : list Z
}.

(** [strscpy] into a zeroed buffer of [n] bytes *)
Definition strscpy (n : nat) (name : list Z) : list Z :=
  let s := take (n - 1) name in s ++ replicate (n - length s) 0.

(** [virtio_get_edid_block]: the bytes, of what follows the response's header *)
Definition virtio_get_edid_block (resp : list Z) (blk len : Z) : option (list Z) :=
  let start := u32 (blk * EDID_LENGTH) in
  if start + len >? resp_u32 0 resp then None
  else Some (take (Z.to_nat len) (drop (8 + Z.to_nat start)%nat resp)).

Section Cmds.
Context {B W : Type} `{BO : BuddyOps B} `{PA : PoolApi W} `{CE : CtrlEnv W} `{OA : ObjArrays W} `{BE : BoEnv W}.
Context (sleep : gpu_st W -> gpu_st W) (lock : gp_st B W -> gp_st B W) (fuel : nat).
Abbreviation dev_st := (dev_st B W).
Abbreviation issue := (issue sleep fuel).
Abbreviation issue_plain := (issue_plain sleep fuel).

(** ** Queries *)

(** a command whose response buffer is allocated first *)
Definition virtio_gpu_cmd_get_display_info : ST dev_st Z := fun '(d, w) =>
  let '(ok, w1) := kzalloc_buf sizeof_resp_display_info w in
  if negb ok then (- ENOMEM, (d, w1))
  else
    let d1 := dv_set_display d true (dv_outputs d) in
    (0, snd (issue GetDisplayInfo 0 sizeof_resp_display_info true CbDisplayInfo id None (d1, w1))).

Definition virtio_gpu_cmd_get_capset_info (idx : Z) : ST dev_st Z := fun '(d, w) =>
  let '(ok, w1) := kzalloc_buf sizeof_resp_capset_info w in
  if negb ok then (- ENOMEM, (d, w1))
  else (0, snd (issue (GetCapsetInfo idx) 0 sizeof_resp_capset_info true CbCapsetInfo id None (d, w1))).

(** the position of a cached (id, version) *)
Fixpoint cache_find (l : list cap_cache) (cid ver : Z) : option nat :=
  match l with
  | [] => None
  | c :: l' => if (cc_id c =? cid) && (cc_version c =? ver) then Some O
               else option_map S (cache_find l' cid ver)
  end.

(** the result, and the index of [*cache_p] in the cache. [idx] and [version] are C [int]s
    compared with unsigned fields. *)
Definition virtio_gpu_cmd_get_capset (idx version : Z) : ST dev_st (Z * option nat) := fun '(d, w) =>
  if u32 idx >=? dv_num_capsets d then ((- EINVAL, None), (d, w))
  else
    let cs := nth (Z.to_nat (u32 idx)) (default [] (dv_capsets d)) (Capset 0 0 0) in
    if u32 version >? cs_max_version cs then ((- EINVAL, None), (d, w))
    else
      let '(ok1, w1) := kzalloc_buf 0 w in
      if negb ok1 then ((- ENOMEM, None), (d, w1))
      else
        let max_size := cs_max_size cs in
        let '(ok2, w2) := kzalloc_buf max_size w1 in
        if negb ok2 then ((- ENOMEM, None), (d, snd (kfree_buf w2)))
        else
          let '(ok3, w3) := kzalloc_buf (sizeof_ctrl_hdr + max_size) w2 in
          if negb ok3 then ((- ENOMEM, None), (d, snd (kfree_buf (snd (kfree_buf w3)))))
          else
            match cache_find (dv_cap_cache d) (cs_id cs) (u32 version) with
            | Some i => ((0, Some i), (d, snd (kfree_buf (snd (kfree_buf (snd (kfree_buf w3)))))))
            | None =>
                let d1 := dv_set_cache d
                  (dv_cap_cache d ++ [CapCache (cs_id cs) (u32 version) max_size (replicate (Z.to_nat max_size) 0) false]) in
                let '(_, st1) := issue (GetCapset (cs_id cs) (u32 version)) 0 (sizeof_ctrl_hdr + max_size)
                                       true CbCapset id None (d1, w3) in
                ((0, Some (length (dv_cap_cache d))), st1)
            end.

(** one query per scanout, from [scanout] on *)
Fixpoint get_edids_from (n : nat) (scanout : Z) : ST dev_st Z := fun '(d, w) =>
  match n with
  | O => (0, (d, w))
  | S n' =>
      let '(ok, w1) := kzalloc_buf sizeof_resp_edid w in
      if negb ok then (- ENOMEM, (d, w1))
      else
        let '(_, st1) := issue (GetEdid scanout) 0 sizeof_resp_edid true CbEdid id None (d, w1) in
        get_edids_from n' (scanout + 1) st1
  end.

Definition virtio_gpu_cmd_get_edids : ST dev_st Z := fun st =>
  if negb (dv_has_edid (fst st)) then (- EINVAL, st)
  else get_edids_from (dv_num_scanouts (fst st)) 0 st.

(** ** Contexts *)

Definition virtio_gpu_cmd_context_create (cid context_init nlen : Z) (name : list Z) : ST dev_st unit := fun st =>
  (tt, snd (issue_plain (CtxCreate nlen context_init (strscpy 64 name)) cid st)).

Definition virtio_gpu_cmd_context_destroy (cid : Z) : ST dev_st unit := fun st =>
  (tt, snd (issue_plain CtxDestroy cid st)).

Definition virtio_gpu_cmd_context_attach_resource (ctx_id : Z) (objs : list Z) : ST dev_st unit := fun st =>
  (tt, snd (issue (CtxAttachResource (handle_of (fst st) (obj0 objs))) ctx_id sizeof_ctrl_hdr false CbNone
                  (fun v => with_objs v (Some objs)) None st)).

Definition virtio_gpu_cmd_context_detach_resource (ctx_id : Z) (objs : list Z) : ST dev_st unit := fun st =>
  (tt, snd (issue (CtxDetachResource (handle_of (fst st) (obj0 objs))) ctx_id sizeof_ctrl_hdr false CbNone
                  (fun v => with_objs v (Some objs)) None st)).

(** ** 3D *)

Definition virtio_gpu_cmd_resource_create_3d (a : Z) (p : object_params) (objs : option (list Z))
  (fence : option virtio_gpu_fence) : ST dev_st unit := fun st =>
  let cmd := ResourceCreate3d (handle_of (fst st) a) (op_target p) (op_format p) (op_bind p) (op_width p)
    (op_height p) (op_depth p) (op_array_size p) (op_last_level p) (op_nr_samples p) (op_flags p) in
  let '(_, st1) := issue cmd 0 sizeof_ctrl_hdr false CbNone (fun v => with_objs v objs) fence st in
  on_bo a bo_set_created st1.

Definition virtio_gpu_cmd_transfer_to_host_3d (ctx_id offset level stride layer_stride : Z) (box : gpu_box)
  (objs : list Z) (fence : option virtio_gpu_fence) : ST dev_st unit := fun st =>
  let a := obj0 objs in
  let '(_, st1) := sync_shmem a st in
  (tt, snd (issue (TransferToHost3d box offset (handle_of (fst st) a) level stride layer_stride) ctx_id
                  sizeof_ctrl_hdr false CbNone (fun v => with_objs v (Some objs)) fence st1)).

Definition virtio_gpu_cmd_transfer_from_host_3d (ctx_id offset level stride layer_stride : Z) (box : gpu_box)
  (objs : list Z) (fence : option virtio_gpu_fence) : ST dev_st unit := fun st =>
  (tt, snd (issue (TransferFromHost3d box offset (handle_of (fst st) (obj0 objs)) level stride layer_stride) ctx_id
                  sizeof_ctrl_hdr false CbNone (fun v => with_objs v (Some objs)) fence st)).

(** [data] is the address of the caller's buffer, which the command then owns *)
Definition virtio_gpu_cmd_submit (data data_size ctx_id : Z) (objs : option (list Z))
  (fence : option virtio_gpu_fence) : ST dev_st unit := fun st =>
  (tt, snd (issue (Submit3d data_size) ctx_id sizeof_ctrl_hdr false CbNone
                  (fun v => with_objs (with_data v data_size [] data) objs) fence st)).

(** ** Blobs *)

Definition virtio_gpu_cmd_resource_assign_uuid (objs : list Z) : ST dev_st Z := fun '(d, w) =>
  let a := obj0 objs in
  let '(ok, w1) := kzalloc_buf sizeof_resp_uuid w in
  if negb ok then
    (- ENOMEM, (dv_upd_bo d a (fun b => bo_set_uuid STATE_ERR (bo_uuid b) b), snd (objs_put_delayed objs w1)))
  else
    (0, snd (issue (ResourceAssignUuid (handle_of d a)) 0 sizeof_resp_uuid true CbUuid
                   (fun v => with_objs v (Some objs)) None (d, w1))).

Definition virtio_gpu_cmd_map (objs : list Z) (offset : Z) : ST dev_st Z := fun '(d, w) =>
  let '(ok, w1) := kzalloc_buf sizeof_resp_map_info w in
  if negb ok then (- ENOMEM, (d, w1))
  else
    (0, snd (issue (ResourceMapBlob (handle_of d (obj0 objs)) offset) 0 sizeof_resp_map_info true CbMap
                   (fun v => with_objs v (Some objs)) None (d, w1))).

Definition virtio_gpu_cmd_unmap (a : Z) : ST dev_st unit := fun st =>
  (tt, snd (issue_plain (ResourceUnmapBlob (handle_of (fst st) a)) 0 st)).

Definition virtio_gpu_cmd_resource_create_blob (a : Z) (p : object_params) (ents : list gpu_mem_entry)
  (data_addr : Z) : ST dev_st unit := fun st =>
  let nents := Z.of_nat (length ents) in
  let cmd := ResourceCreateBlob (handle_of (fst st) a) (op_blob_mem p) (op_blob_flags p) nents (op_blob_id p)
                                (op_size p) in
  let '(_, st1) := issue cmd (op_ctx_id p) sizeof_ctrl_hdr false CbNone
                         (fun v => with_data v (u32 (sizeof_mem_entry * nents)) ents data_addr) None st in
  let '(_, st2) := on_bo a bo_set_created st1 in
  if c_true nents then on_bo a (bo_set_attached true) st2 else (tt, st2).

Definition virtio_gpu_cmd_set_scanout_blob (scanout_id a : Z) (fb : framebuffer) (width height x y : Z)
  : ST dev_st unit := fun st =>
  let s i := nth i (fb_pitches fb) 0 in
  let o i := nth i (fb_offsets fb) 0 in
  (tt, snd (issue_plain
    (SetScanoutBlob (GpuRect x y width height) scanout_id (handle_of (fst st) a) (fb_width fb) (fb_height fb)
       (virtio_gpu_translate_format (fb_format fb))
       (s 0%nat) (s 1%nat) (s 2%nat) (s 3%nat) (o 0%nat) (o 1%nat) (o 2%nat) (o 3%nat)) 0 st)).

(** the cursor: [cursor] is the output's cursor command, whose scanout id becomes the output's *)
Definition cursor_of_output (index : Z) (cursor : gpu_cmd) : gpu_cmd :=
  match cursor with
  | UpdateCursor _ x y i hx hy => UpdateCursor index x y i hx hy
  | MoveCursor _ x y i hx hy => MoveCursor index x y i hx hy
  | c => c
  end.

Definition virtio_gpu_cursor_ping (index : Z) (cursor : gpu_cmd) : ST dev_st bool := fun '(d, w) =>
  let '(v, w1) := virtio_gpu_get_vbuf (cursor_of_output index cursor) 0 0 false CbNone w in
  match v with
  | None => (false, (d, w1))
  | Some v => on_world (virtio_gpu_queue_cursor fuel v) (d, w1)
  end.

(** ** Response callbacks *)

(** [outputs[i].info = resp->pmodes[i]] for the scanouts the device has *)
Definition display_infos (n : nat) (body : list Z) (outputs : list display_one) : list display_one :=
  imap (fun i o => if (i <? n)%nat then pmode i body else o) outputs.

Definition virtio_gpu_cmd_get_display_info_cb (r : response) : ST dev_st unit := fun '(d, w) =>
  let d1 := dv_set_display d false (display_infos (dv_num_scanouts d) (resp_body r) (dv_outputs d)) in
  (tt, (d1, snd (hotplug_event (snd (wake_resp_wq w))))).

Definition virtio_gpu_cmd_get_capset_info_cb (capset_index : Z) (r : response) : ST dev_st unit := fun '(d, w) =>
  let b := resp_body r in
  let d1 := match dv_capsets d with
            | Some l => dv_set_capsets d
                (Some (<[Z.to_nat capset_index := Capset (resp_u32 0 b) (resp_u32 4 b) (resp_u32 8 b)]> l))
            | None => d
            end in
  (tt, (d1, snd (wake_resp_wq w))).

Definition virtio_gpu_cmd_capset_cb (capset_id capset_version : Z) (r : response) : ST dev_st unit := fun '(d, w) =>
  let fill c := CapCache (cc_id c) (cc_version c) (cc_size c) (take (Z.to_nat (cc_size c)) (resp_body r)) true in
  let d1 := match cache_find (dv_cap_cache d) capset_id capset_version with
            | Some i => dv_set_cache d (alter fill i (dv_cap_cache d))
            | None => d
            end in
  (tt, (d1, snd (wake_resp_wq w))).

Definition virtio_gpu_cmd_get_edid_cb (scanout : Z) (r : response) : ST dev_st unit := fun '(d, w) =>
  if scanout >=? Z.of_nat (dv_num_scanouts d) then (tt, (d, w))
  else
    let '(new_edid, w1) := drm_edid_read_custom scanout (resp_u32 0 (resp_body r)) (resp_body r) w in
    let old_edid := nth (Z.to_nat scanout) (dv_edids d) 0 in
    let d1 := dv_set_edids d (<[Z.to_nat scanout := new_edid]> (dv_edids d)) in
    (tt, (d1, snd (wake_resp_wq (snd (drm_edid_free old_edid w1))))).

Definition virtio_gpu_cmd_resource_uuid_cb (objs : list Z) (r : response) : ST dev_st unit := fun '(d, w) =>
  let upd b :=
    if (resp_type r =? VIRTIO_GPU_RESP_OK_RESOURCE_UUID) && (bo_uuid_state b =? STATE_INITIALIZING)
    then bo_set_uuid STATE_OK (take 16 (resp_body r)) b
    else bo_set_uuid STATE_ERR (bo_uuid b) b in
  (tt, (dv_upd_bo d (obj0 objs) upd, snd (wake_resp_wq w))).

(** the mapping of a blob: what the host answered, or an error *)
Definition map_info_of (r : response) (v : vram) : vram :=
  if resp_type r =? VIRTIO_GPU_RESP_OK_MAP_INFO then
    let mi := resp_u32 0 (resp_body r) in
    if c_true (Z.land mi VIRTIO_GPU_MAP_INFO_POOL)
    then Vram STATE_OK (Z.land mi VIRTIO_GPU_MAP_CACHE_MASK) true (resp_u32 4 (resp_body r))
              (vr_guest_pool_owned v) (vr_blocks v) (vr_node_allocated v) (vr_node_start v) (vr_node_size v)
    else Vram STATE_OK mi (vr_pool_resident v) (vr_pool_offset v)
              (vr_guest_pool_owned v) (vr_blocks v) (vr_node_allocated v) (vr_node_start v) (vr_node_size v)
  else Vram STATE_ERR (vr_map_info v) (vr_pool_resident v) (vr_pool_offset v)
            (vr_guest_pool_owned v) (vr_blocks v) (vr_node_allocated v) (vr_node_start v) (vr_node_size v).

Definition virtio_gpu_cmd_resource_map_cb (objs : list Z) (r : response) : ST dev_st unit := fun '(d, w) =>
  let upd b := match bo_vram b with Some v => bo_set_vram (map_info_of r v) b | None => b end in
  (tt, (dv_upd_bo d (obj0 objs) upd, snd (wake_resp_wq w))).

(** [entry->resp_cb(vgdev, entry)] *)
Definition run_resp_cb (v : vbuf) (r : response) : ST dev_st unit := fun st =>
  match vb_cb v, vb_cmd v with
  | CbNone, _ => (tt, st)
  | CbDisplayInfo, _ => virtio_gpu_cmd_get_display_info_cb r st
  | CbCapsetInfo, GetCapsetInfo i => virtio_gpu_cmd_get_capset_info_cb i r st
  | CbCapset, GetCapset i ver => virtio_gpu_cmd_capset_cb i ver r st
  | CbEdid, GetEdid s => virtio_gpu_cmd_get_edid_cb s r st
  | CbUuid, _ => virtio_gpu_cmd_resource_uuid_cb (default [] (vb_objs v)) r st
  | CbMap, _ => virtio_gpu_cmd_resource_map_cb (default [] (vb_objs v)) r st
  | CbUnref a, _ => virtio_gpu_cmd_unref_cb lock a r st
  | _, _ => (tt, st)
  end.

End Cmds.
