(* ===== verification/GpuProps.v ===== *)
(** * Properties of the device's commands and callbacks *)

From stdpp Require Import gmap.
From S2P Require Import Prelude PoolCtl GuestPool GuestPoolSpec GuestPoolFacts GuestPoolProps Wire Fence ObjArray CtrlQueue CtrlTrace GpuDev GpuCmds.

(** the other services of the device leave the control queue alone *)
Class BoLaws (W : Type) `{CtrlLaws W} `{BoEnv W} `{PoolApi W} : Prop := {
  keep_kzalloc n w : qobs (snd (kzalloc_buf n w)) = qobs w;
  keep_kfree w : qobs (snd (kfree_buf w)) = qobs w;
  keep_sync a w : qobs (snd (dma_sync_for_device a w)) = qobs w;
  keep_wake w : qobs (snd (wake_resp_wq w)) = qobs w;
  keep_hotplug w : qobs (snd (hotplug_event w)) = qobs w;
  keep_ida_alloc w : qobs (snd (ida_alloc w)) = qobs w;
  keep_ida_free i w : qobs (snd (ida_free i w)) = qobs w;
  keep_shmem_free a w : qobs (snd (drm_gem_shmem_free a w)) = qobs w;
  keep_mm_remove s z w : qobs (snd (drm_mm_remove_node s z w)) = qobs w;
  keep_vram_release a w : qobs (snd (vram_release a w)) = qobs w;
  keep_import_release a w : qobs (snd (import_release a w)) = qobs w;
  keep_edid_read s n b w : qobs (snd (drm_edid_read_custom s n b w)) = qobs w;
  keep_edid_free e w : qobs (snd (drm_edid_free e w)) = qobs w;
  keep_grow i o l w : qobs (snd (pool_grow i o l w)) = qobs w;
  keep_shrink i o l w : qobs (snd (pool_shrink i o l w)) = qobs w;
  keep_query i o l w : qobs (snd (pool_query_range i o l w)) = qobs w
}.

#[export] Instance toy_bo_env : BoEnv toy_queue := {
  kzalloc_buf n w := (true, w);
  kfree_buf w := (tt, w);
  dma_sync_for_device a w := (tt, w);
  wake_resp_wq w := (tt, w);
  hotplug_event w := (tt, w);
  ida_alloc w := (0, w);
  ida_free i w := (tt, w);
  drm_gem_shmem_free a w := (tt, w);
  drm_mm_remove_node s z w := (tt, w);
  vram_release a w := (tt, w); import_release a w := (tt, w);
  drm_edid_read_custom s n b w := (1, w);
  drm_edid_free e w := (tt, w)
}.
#[export] Instance toy_queue_pool : PoolApi toy_queue := {
  pool_grow id off len w := (0, w);
  pool_shrink id off len w := (0, w);
  pool_query_range id off len w := ((0, Some true), w)
}.
#[export] Instance toy_bo_laws : BoLaws toy_queue.
Proof. by split. Qed.

(** ** The callbacks and the queue *)

Section Keeps.
Context {B W : Type} `{BO : BuddyOps B} `{CL : CtrlLaws W} `{BE : !BoEnv W} `{PA : !PoolApi W} `{BK : !BoLaws W}.
Context (lock : gp_st B W -> gp_st B W) (Hlock : forall st, qobs (snd (lock st)) = qobs (snd st)).
Implicit Types st : dev_st B W.

Lemma shrink_one_keeps (st : gp_st B W) :
  qobs (snd (snd (virtio_gpu_guest_pool_shrink_one_locked st))) = qobs (snd st).
Proof.
  destruct st as [p w]. unfold virtio_gpu_guest_pool_shrink_one_locked. case_if; [done|].
  pose proof (keep_shrink (gp_id p) (u64 (gp_backed p - gp_step p)) (gp_step p) w) as Hs.
  destruct (pool_shrink _ _ _ w) as [r w1]. cbn [snd] in Hs. destruct (c_true r).
  - pose proof (keep_query (gp_id p) (u64 (gp_backed p - gp_step p)) (gp_step p) w1) as Hq.
    destruct (pool_query_range _ _ _ w1) as [[q b] w2]. cbn [snd] in Hq.
    repeat case_if; cbn; congruence.
  - repeat case_if; cbn; congruence.
Qed.

Lemma reclaim_keeps n (st : gp_st B W) :
  qobs (snd (snd (virtio_gpu_guest_pool_reclaim_locked n st))) = qobs (snd st).
Proof.
  revert st; induction n as [|n IH]; intros [p w]; [done|]. cbn [virtio_gpu_guest_pool_reclaim_locked].
  destruct (virtio_gpu_guest_pool_step_free_locked p) as [free p1]. case_if; [done|].
  pose proof (shrink_one_keeps (p1, w)) as Hs. destruct (virtio_gpu_guest_pool_shrink_one_locked (p1, w)) as [r st2].
  cbn [snd] in Hs. repeat case_if; rewrite ?IH; done.
Qed.

Lemma pool_free_keeps blocks (st : gp_st B W) :
  qobs (snd (snd (virtio_gpu_guest_pool_free lock blocks st))) = qobs (snd st).
Proof.
  destruct st as [p w]. unfold virtio_gpu_guest_pool_free. case_if; [done|].
  pose proof (Hlock (p, w)) as Hl. destruct (lock (p, w)) as [p1 w1]. cbn [snd] in Hl. case_if; [done|].
  unfold reclaim_and_arm.
  match goal with |- context [virtio_gpu_guest_pool_reclaim_locked ?n ?s] => pose proof (reclaim_keeps n s) as Hr end.
  destruct (virtio_gpu_guest_pool_reclaim_locked _ _) as [r [p2 w2]]. cbn in *. congruence.
Qed.

Lemma release_object_keeps a st :
  qobs (snd (snd (virtio_gpu_guest_pool_release_object lock a st))) = qobs (snd st).
Proof.
  unfold virtio_gpu_guest_pool_release_object. destruct (dv_bos (fst st) !! a) as [b|]; [|done].
  destruct (bo_vram b) as [v|]; [|done]. case_if; [done|]. destruct st as [d w]. unfold on_bo, on_pool.
  match goal with |- context [virtio_gpu_guest_pool_free lock ?l ?s] => pose proof (pool_free_keeps l s) as Hf end.
  destruct (virtio_gpu_guest_pool_free _ _ _) as [u [p1 w1]]. cbn in *. done.
Qed.

Lemma cleanup_object_keeps a st : qobs (snd (snd (virtio_gpu_cleanup_object a st))) = qobs (snd st).
Proof.
  unfold virtio_gpu_cleanup_object. destruct (dv_bos (fst st) !! a) as [b|]; [|done].
  destruct st as [d w]. unfold virtio_gpu_resource_id_put.
  destruct (dv_virglhack d), (bo_vram b) as [v|]; cbn;
    try destruct (vr_node_allocated v); try case_bool_decide; cbn;
    rewrite ?keep_vram_release, ?keep_import_release, ?keep_mm_remove, ?keep_shmem_free, ?keep_ida_free; done.
Qed.

Lemma run_resp_cb_keeps : cb_keeps (run_resp_cb lock).
Proof.
  intros v r st. unfold run_resp_cb. destruct (vb_cb v); try done.
  - destruct st as [d w]. cbn. by rewrite keep_hotplug, keep_wake.
  - destruct (vb_cmd v); try done. destruct st as [d w]. cbn. by rewrite keep_wake.
  - destruct (vb_cmd v); try done. destruct st as [d w]. cbn. by rewrite keep_wake.
  - destruct (vb_cmd v) as [| | | | | | | | | |s| | | | | | | | | | | | | | |]; try done.
    destruct st as [d w]. unfold virtio_gpu_cmd_get_edid_cb.
    case_if; [done|]. pose proof (keep_edid_read s (resp_u32 0 (resp_body r)) (resp_body r) w) as He.
    destruct (drm_edid_read_custom _ _ _ w) as [e w1]. cbn in *. by rewrite keep_wake, keep_edid_free.
  - destruct st as [d w]. cbn. by rewrite keep_wake.
  - destruct st as [d w]. cbn. by rewrite keep_wake.
  - unfold virtio_gpu_cmd_unref_cb. rewrite cleanup_object_keeps. case_if; [apply release_object_keeps | done].
Qed.

End Keeps.

(** ** A sample device *)

Definition sample_pool (live : list block) : guest_pool toy_mm :=
  GuestPool true 2147483648 16777216 0 4194304 4194304 2097152 (ToyMm 16777216 live) false false.
Definition sample_bo (owned : bool) (blocks : list block) : gpu_bo :=
  Bo 77 8192 false true true true false 1 1 0 [] (Some (Vram STATE_OK 1 true 0 owned blocks false 0 8192)) None None.
Definition sample_dev : vgdev toy_mm :=
  VgDev gpu0 (sample_pool [Block 0 8192; Block 8192 4096]) (<[100 := sample_bo true [Block 0 8192]]> ∅)
    true 5 true true false 1 [DisplayOne (GpuRect 0 0 0 0) 0 0] [0]
    (Some [Capset 4 1 32]) 1 [].
Definition no_lock_q (st : gp_st toy_mm toy_queue) : gp_st toy_mm toy_queue := st.

(** ** Properties *)

(** the callbacks leave the queue's own fields alone *)
Lemma release_object_gpu {B W} `{BO : BuddyOps B} `{PA : PoolApi W} lock a (st : dev_st B W) :
  dv_gpu (fst (snd (virtio_gpu_guest_pool_release_object lock a st))) = dv_gpu (fst st).
Proof.
  unfold virtio_gpu_guest_pool_release_object. destruct st as [d w]. cbn [fst].
  destruct (dv_bos d !! a) as [b|]; [|done]. destruct (bo_vram b) as [v|]; [|done]. case_if; [done|].
  unfold on_bo, on_pool. by destruct (virtio_gpu_guest_pool_free _ _ _) as [u [p1 w1]].
Qed.

Lemma cleanup_object_gpu {B W} `{BE : BoEnv W} a (st : dev_st B W) :
  dv_gpu (fst (snd (virtio_gpu_cleanup_object a st))) = dv_gpu (fst st).
Proof.
  unfold virtio_gpu_cleanup_object. destruct st as [d w]. cbn [fst]. destruct (dv_bos d !! a) as [b|]; [|done].
  unfold virtio_gpu_resource_id_put. destruct (dv_virglhack d), (bo_vram b) as [v|]; try case_bool_decide; done.
Qed.

Lemma run_resp_cb_gpu {B W} `{BO : BuddyOps B} `{PA : PoolApi W} `{BE : !BoEnv W} lock v r (st : dev_st B W) :
  dv_gpu (fst (snd (run_resp_cb lock v r st))) = dv_gpu (fst st).
Proof.
  unfold run_resp_cb. destruct (vb_cb v), (vb_cmd v), st as [d w]; try done.
  all: try (cbn; destruct (dv_capsets d); done).
  all: try (cbn; destruct (cache_find _ _ _); done).
  all: try (unfold virtio_gpu_cmd_get_edid_cb; case_if; [done|]; by destruct (drm_edid_read_custom _ _ _ w)).
  all: unfold virtio_gpu_cmd_unref_cb; rewrite cleanup_object_gpu; case_if; [apply release_object_gpu | done].
Qed.

(** C6: the dequeue work, with the driver's own callbacks, takes every response the host has left.
    On a world that logs each call, one run is: the callback of each answered command once, in
    completion order; one wake-up of those waiting for room; then for each command its object
    array, if it has one, put once and its buffer freed once, in the same order. Logging changes
    nothing else. The fences of exactly the responses that carry the fence flag are signalled, in
    that order; no response is left, and no other buffer or array is touched. *)
Theorem dequeue_ctrl_each_once {B W} `{BO : BuddyOps B} `{CL : CtrlLaws W} `{BE : !BoEnv W}
  `{PA : !PoolApi W} `{BK : !BoLaws W} lock is_later done_ (d : vgdev B) (w : W)
  (Hlock : forall st : gp_st B W, qobs (snd (lock st)) = qobs (snd st)) (Hdone : cq_done (qobs w) = done_) :
  let '(finished, (d', w')) := virtio_gpu_dequeue_ctrl_func dv_gpu dv_set_gpu is_later
    (logged_cb (run_resp_cb lock)) 1 (S (length done_)) (d, Logged w []) in
  finished = true /\
  virtio_gpu_dequeue_ctrl_func dv_gpu dv_set_gpu is_later (run_resp_cb lock) 1 (S (length done_)) (d, w)
    = (true, (d', lg_world w')) /\
  lg_log w' = ((fun e => EvCall (fst e) (snd e)) <$> done_) ++ [EvWake] ++
    concat ((fun e => match vb_objs (fst e) with Some o => [EvPut o] | None => [] end ++ [EvFree (vb_addr (fst e))])
            <$> done_) /\
  dv_gpu d' = (let g := dv_gpu d in
    let '(drv, s) := fence_events is_later (g_fence g) (answered_fences done_) in
    Gpu (g_has_indirect g) (g_seqno g) (g_pending g) drv (g_signalled g ++ s)) /\
  qobs (lg_world w') = CqObs (cq_live (qobs w) ∖ list_to_set ((fun e => vb_addr (fst e)) <$> done_))
    (cq_ring (qobs w)) [] (cq_put (qobs w) ++ omap (fun e => vb_objs (fst e)) done_).
Proof.
  pose proof (run_resp_cb_keeps lock Hlock) as Hcb.
  pose proof (dequeue_ctrl_func_obs dv_gpu dv_set_gpu is_later (run_resp_cb lock) done_ d w Hcb Hdone) as Ho.
  pose proof (dequeue_logged dv_gpu dv_set_gpu is_later (run_resp_cb lock) 1 (S (length done_)) d (Logged w [])) as Hl.
  cbn [lg_world lg_log] in Hl. pose proof (reclaim_vbufs_obs done_ [] w Hdone) as [R _].
  assert (Hc : fst (dequeue_collect 1 (S (length done_)) [] w) = Some done_).
  { cbn [dequeue_collect]. pose proof (reclaim_vbufs_obs done_ [] w Hdone) as [R1 R2].
    destruct (reclaim_vbufs (S (length done_)) [] w) as [l w1]. cbn [fst snd app] in R1, R2. subst l.
    destruct (law_vq_enable w1) as [E1 _]. destruct (vq_enable_cb w1) as [en w2]. cbn [fst] in E1.
    rewrite R2 in E1. by subst en. }
  destruct (dequeue_collect 1 _ [] w) as [l wc]. cbn [fst] in Hc. subst l.
  destruct (virtio_gpu_dequeue_ctrl_func dv_gpu dv_set_gpu is_later (run_resp_cb lock) 1 (S (length done_)) (d, w))
    as [fin [d' w']] eqn:Erun.
  rewrite Hl. destruct Ho as (-> & (w0 & _ & Hd) & Hq). cbn [lg_world lg_log app].
  split_and!; [done | done | done | | done].
  pose proof (responses_fences dv_gpu dv_set_gpu is_later (run_resp_cb lock) done_ d w0
    ltac:(done) (run_resp_cb_gpu lock)) as Hf.
  cbv zeta in *. destruct (fence_events _ _ _) as [drv s]. by rewrite Hd.
Qed.

Definition unref_answered : toy_queue :=
  let v1 := Vbuf 1 (CtrlHdr 0x102 0 0 0 0) (ResourceUnref 77) 0 [] 0 24 (CbUnref 100) None 8 in
  let v2 := toy_vbuf 2 (Submit3d 16) (Some [5; 6]) in
  ToyQueue (CqObs ({[1; 2; 3]} : gset Z) [v1; v2] [(v1, (0x1100, 0, 0, [])); (v2, (0x1100, 1, 9, []))] []) true 4.

Lemma dequeue_ctrl_each_once_witness :
  let '(finished, (d', w')) := virtio_gpu_dequeue_ctrl_func dv_gpu dv_set_gpu is_later_32
    (logged_cb (run_resp_cb no_lock_q)) 1 (S (length (cq_done (qobs unref_answered)))) (sample_dev, Logged unref_answered []) in
  finished = true /\
  virtio_gpu_dequeue_ctrl_func dv_gpu dv_set_gpu is_later_32 (run_resp_cb no_lock_q) 1 (S (length (cq_done (qobs unref_answered)))) (sample_dev, unref_answered)
    = (true, (d', lg_world w')) /\
  lg_log w' = ((fun e => EvCall (fst e) (snd e)) <$> (cq_done (qobs unref_answered))) ++ [EvWake] ++
    concat ((fun e => match vb_objs (fst e) with Some o => [EvPut o] | None => [] end ++ [EvFree (vb_addr (fst e))])
            <$> (cq_done (qobs unref_answered))) /\
  dv_gpu d' = (let g := dv_gpu sample_dev in
    let '(drv, s) := fence_events is_later_32 (g_fence g) (answered_fences (cq_done (qobs unref_answered))) in
    Gpu (g_has_indirect g) (g_seqno g) (g_pending g) drv (g_signalled g ++ s)) /\
  qobs (lg_world w') = CqObs (cq_live (qobs unref_answered) ∖ list_to_set ((fun e => vb_addr (fst e)) <$> (cq_done (qobs unref_answered))))
    (cq_ring (qobs unref_answered)) [] (cq_put (qobs unref_answered) ++ omap (fun e => vb_objs (fst e)) (cq_done (qobs unref_answered))).
Proof.
  apply (dequeue_ctrl_each_once no_lock_q is_later_32 (cq_done (qobs unref_answered)) sample_dev unref_answered);
    [by intros st | reflexivity].
Defined.

(** [virtio_get_edid_block] trusts the size the host reports: it checks a block against it, not
    against the 1024 bytes the response has room for, so for a larger reported size it copies
    from beyond the response. *)
Theorem edid_block_past_response :
  exists resp blk len data,
    Z.of_nat (length resp) = 8 + RESP_EDID_BYTES /\ 0 <= blk < 256 /\ len = EDID_LENGTH /\
    virtio_get_edid_block resp blk len = Some data /\
    8 + RESP_EDID_BYTES < 8 + (blk * EDID_LENGTH + len).
Proof.
  exists (le_put 4 32768 ++ replicate 1028 0), 8, 128. eexists. split_and!; try done.
Qed.

(** A block wholly inside the reported size and the response is copied exactly. *)
Theorem edid_block_exact resp blk len data
  (Hsz : resp_u32 0 resp <= RESP_EDID_BYTES) (Hlen : Z.of_nat (length resp) = 8 + RESP_EDID_BYTES)
  (Hb : 0 <= blk < 2 ^ 25) (Hl : 0 <= len)
  (Hok : virtio_get_edid_block resp blk len = Some data) :
  Z.of_nat (length data) = len /\
  forall i, 0 <= i < len -> data !! Z.to_nat i = resp !! Z.to_nat (8 + blk * EDID_LENGTH + i).
Proof.
  unfold virtio_get_edid_block, EDID_LENGTH, RESP_EDID_BYTES in *. rewrite u32_small in Hok by lia.
  destruct (Z.gtb_spec (blk * 128 + len) (resp_u32 0 resp)); [done|]. injection Hok as <-.
  split.
  - rewrite length_take, length_drop. lia.
  - intros i Hi. rewrite lookup_take_lt by lia. rewrite lookup_drop. f_equal. lia.
Qed.

Lemma edid_block_exact_witness :
  let resp := le_put 4 256 ++ le_put 4 0 ++ replicate 1024 7 in
  let data := replicate 128 7 in
  Z.of_nat (length data) = 128 /\
  forall i, 0 <= i < 128 -> data !! Z.to_nat i = resp !! Z.to_nat (8 + 1 * EDID_LENGTH + i).
Proof.
  apply (edid_block_exact (le_put 4 256 ++ le_put 4 0 ++ replicate 1024 7) 1 128);
    [vm_compute; discriminate | reflexivity | lia | lia | vm_compute; reflexivity].
Defined.

(** ** Commands on the ring *)

(** what filling a buffer may not change *)
Definition fill_ok (fill : vbuf -> vbuf) : Prop := forall v,
  vb_hdr (fill v) = vb_hdr v /\ vb_cmd (fill v) = vb_cmd v /\ vb_cb (fill v) = vb_cb v.

Lemma emit_keeps_type drv h f :
  h_type (virtio_gpu_fence_emit drv h f).1.2 = h_type h /\ h_ctx_id (virtio_gpu_fence_emit drv h f).1.2 = h_ctx_id h.
Proof. unfold virtio_gpu_fence_emit. by destruct (fn_emit_fence_info f). Qed.

Definition no_sleep (st : gpu_st toy_queue) : gpu_st toy_queue := st.
(** ** The capability cache *)

Definition cache_keys (l : list cap_cache) : list (Z * Z) := (fun c => (cc_id c, cc_version c)) <$> l.

Lemma cache_find_Some l cid ver i : cache_find l cid ver = Some i ->
  exists c, l !! i = Some c /\ cc_id c = cid /\ cc_version c = ver.
Proof.
  revert i; induction l as [|c l IH]; intros i; [done|]. cbn [cache_find].
  destruct ((cc_id c =? cid) && (cc_version c =? ver)) eqn:E.
  - bool_prop. intros [= <-]. by exists c.
  - destruct (cache_find l cid ver) as [j|]; [|done]. intros [= <-].
    destruct (IH j eq_refl) as (c' & Hc & ? & ?). by exists c'.
Qed.

Lemma cache_find_None l cid ver : cache_find l cid ver = None -> (cid, ver) ∉ cache_keys l.
Proof.
  unfold cache_keys. induction l as [|c l IH]; [intros _ Hin; by apply elem_of_nil in Hin|]. cbn [cache_find].
  destruct ((cc_id c =? cid) && (cc_version c =? ver)) eqn:E; [done|].
  destruct (cache_find l cid ver); [done|]. intros _ Hin. cbn in Hin.
  apply elem_of_cons in Hin as [[= -> ->]|Hin]; [|by apply IH]. by rewrite !Z.eqb_refl in E.
Qed.

Lemma issue_keeps_dev {B W} `{CE : CtrlEnv W} `{OA : !ObjArrays W} sleep n cmd cx rs hb cb fill fence
  (d : vgdev B) (w : W) :
  exists g, fst (snd (issue (B := B) sleep n cmd cx rs hb cb fill fence (d, w))) = dv_set_gpu d g.
Proof.
  unfold issue. destruct (virtio_gpu_get_vbuf cmd cx rs hb cb w) as [[v|] w1].
  - unfold on_queue. destruct (virtio_gpu_queue_fenced_ctrl_buffer _ _ _ _ _) as [r [g w2]]. by exists g.
  - exists (dv_gpu d). by destruct d.
Qed.

(** The capability cache holds each (id, version) once. A request for a set the device offers
    is answered with the index of the entry of that key: the one already there, and then nothing
    is asked of the host and the cache is untouched, or a new invalid one at the end; a request
    out of range, and an allocation failure, change nothing. *)
Theorem get_capset_cache {B W} `{CE : CtrlEnv W} `{OA : !ObjArrays W} `{BE : !BoEnv W}
  sleep n idx version (d : vgdev B) (w : W) (Hnd : NoDup (cache_keys (dv_cap_cache d))) :
  let '((ret, entry), (d', w')) := virtio_gpu_cmd_get_capset sleep n idx version (d, w) in
  let cs := nth (Z.to_nat (u32 idx)) (default [] (dv_capsets d)) (Capset 0 0 0) in
  NoDup (cache_keys (dv_cap_cache d')) /\
  match entry with
  | None => ret <> 0 /\ d' = d
  | Some i => ret = 0 /\ u32 idx < dv_num_capsets d /\ u32 version <= cs_max_version cs /\
      (exists c, dv_cap_cache d' !! i = Some c /\ cc_id c = cs_id cs /\ cc_version c = u32 version) /\
      ((i < length (dv_cap_cache d))%nat /\ d' = d \/
       i = length (dv_cap_cache d) /\ exists c, dv_cap_cache d' = dv_cap_cache d ++ [c] /\ cc_valid c = false)
  end.
Proof.
  unfold virtio_gpu_cmd_get_capset. set (cs := nth _ _ _).
  case_if; [done|]. case_if; [done|]. bool_prop.
  destruct (kzalloc_buf 0 w) as [[] w1]; cbn [negb]; [|done].
  destruct (kzalloc_buf (cs_max_size cs) w1) as [[] w2]; cbn [negb]; [|done].
  destruct (kzalloc_buf _ w2) as [[] w3]; cbn [negb]; [|done].
  destruct (cache_find (dv_cap_cache d) (cs_id cs) (u32 version)) as [i|] eqn:Hf.
  - apply cache_find_Some in Hf as (c & Hc & ? & ?). split; [done|]. split_and!; try done; [by exists c|].
    left. split; [by eapply lookup_lt_Some | done].
  - apply cache_find_None in Hf. set (c := CapCache _ _ _ _ _).
    set (d1 := dv_set_cache d (dv_cap_cache d ++ [c])).
    match goal with |- context [issue sleep n ?c0 ?x ?r ?h ?cb ?f ?fe ?s] =>
      destruct (issue_keeps_dev sleep n c0 x r h cb f fe d1 w3) as [g Hg];
      destruct (issue sleep n c0 x r h cb f fe s) as [ret [d' w']] end.
    cbn in Hg. subst d'. cbn. split.
    { unfold cache_keys in *. rewrite fmap_app. apply NoDup_app. split_and!; [done | | by apply NoDup_singleton].
      intros k Hk Hk'. apply elem_of_cons in Hk' as [->|Hk']; [done | by apply elem_of_nil in Hk']. }
    split_and!; try done.
    + exists c. split; [|done]. by rewrite lookup_app_r, Nat.sub_diag.
    + right. split; [done|]. by exists c.
Qed.

Lemma get_capset_cache_witness :
  let '((ret, entry), (d', w')) := virtio_gpu_cmd_get_capset no_sleep 1 0 1 (sample_dev, empty_queue 5) in
  let cs := nth (Z.to_nat (u32 0)) (default [] (dv_capsets sample_dev)) (Capset 0 0 0) in
  NoDup (cache_keys (dv_cap_cache d')) /\
  match entry with
  | None => ret <> 0 /\ d' = sample_dev
  | Some i => ret = 0 /\ u32 0 < dv_num_capsets sample_dev /\ u32 1 <= cs_max_version cs /\
      (exists c, dv_cap_cache d' !! i = Some c /\ cc_id c = cs_id cs /\ cc_version c = u32 1) /\
      ((i < length (dv_cap_cache sample_dev))%nat /\ d' = sample_dev \/
       i = length (dv_cap_cache sample_dev) /\
       exists c, dv_cap_cache d' = dv_cap_cache sample_dev ++ [c] /\ cc_valid c = false)
  end.
Proof. apply get_capset_cache. constructor. Defined.

(** A capability-set response fills exactly the entry of its key with the bytes the host sent,
    cut to the entry's size, and marks it valid; every other entry is untouched. *)
Theorem capset_cb_fills_entry {B W} `{BE : BoEnv W} cid ver r (d : vgdev B) (w : W) :
  let '(_, (d', w')) := virtio_gpu_cmd_capset_cb cid ver r (d, w) in
  cache_keys (dv_cap_cache d') = cache_keys (dv_cap_cache d) /\
  match cache_find (dv_cap_cache d) cid ver with
  | None => d' = d
  | Some i =>
      (forall c, dv_cap_cache d !! i = Some c -> exists c', dv_cap_cache d' !! i = Some c' /\
         cc_valid c' = true /\ cc_caps c' = take (Z.to_nat (cc_size c)) (resp_body r) /\ cc_size c' = cc_size c) /\
      (forall j, j <> i -> dv_cap_cache d' !! j = dv_cap_cache d !! j)
  end.
Proof.
  unfold virtio_gpu_cmd_capset_cb. destruct (cache_find (dv_cap_cache d) cid ver) as [i|]; [|done]. cbn.
  split_and!.
  - unfold cache_keys. apply list_eq. intros j. rewrite !list_lookup_fmap.
    destruct (decide (i = j)) as [->|Hne]; [|by rewrite list_lookup_alter_ne].
    rewrite list_lookup_alter_eq. by destruct (dv_cap_cache d !! j).
  - intros c Hc. rewrite list_lookup_alter_eq, Hc. cbn. by eexists.
  - intros j Hj. by rewrite list_lookup_alter_ne.
Qed.

(** ** The blocks of an object and the host's answer *)

Lemma alter_delete_same (m : gmap Z gpu_bo) a f : delete a (alter f a m) = delete a m.
Proof.
  apply map_eq. intros i. destruct (decide (i = a)) as [->|Hne].
  - by rewrite !lookup_delete_eq.
  - by rewrite !lookup_delete_ne, lookup_alter_ne by done.
Qed.

Lemma cleanup_object_state {B W} `{BE : BoEnv W} a (st : dev_st B W) :
  dv_pool (fst (snd (virtio_gpu_cleanup_object a st))) = dv_pool (fst st) /\
  dv_bos (fst (snd (virtio_gpu_cleanup_object a st))) = delete a (dv_bos (fst st)).
Proof.
  unfold virtio_gpu_cleanup_object. destruct st as [d w]. cbn [fst]. destruct (dv_bos d !! a) as [b|] eqn:Hb.
  - unfold virtio_gpu_resource_id_put. destruct (dv_virglhack d), (bo_vram b) as [v|]; try case_bool_decide; done.
  - cbn. by rewrite delete_id.
Qed.

Lemma release_object_bos {B W} `{BO : BuddyOps B} `{PA : PoolApi W} lock a (st : dev_st B W) :
  delete a (dv_bos (fst (snd (virtio_gpu_guest_pool_release_object lock a st)))) = delete a (dv_bos (fst st)).
Proof.
  unfold virtio_gpu_guest_pool_release_object. destruct st as [d w]. cbn [fst].
  destruct (dv_bos d !! a) as [b|]; [|done]. destruct (bo_vram b) as [v|]; [|done]. case_if; [done|].
  unfold on_bo, on_pool. destruct (virtio_gpu_guest_pool_free _ _ _) as [u [p1 w1]]. cbn. apply alter_delete_same.
Qed.

(** the pool after [blocks] went back to it, the mutex having been obtained at [w] *)
Definition returned {B W} `{BuddyLaws B} (lock : gp_st B W -> gp_st B W) (p : guest_pool B) (w : W)
  (blocks : list block) (p' : guest_pool B) : Prop :=
  mm_live (gp_mm (fst (lock (p, w)))) ≡ₚ blocks ++ mm_live (gp_mm p').

Section Unref.
Context {B W : Type} `{BL : BuddyLaws B} `{PA : PoolApi W} `{HL : !HostLaws W} `{CE : !CtrlEnv W}
  `{OA : !ObjArrays W} `{BE : !BoEnv W}.
Context (lock : gp_st B W -> gp_st B W) (a : Z) (b : gpu_bo) (v : vram).

(** an object whose blocks are live, in an open pool, whenever the mutex is obtained *)
Record owns_blocks (d : vgdev B) : Prop := {
  ob_bo : dv_bos d !! a = Some b;
  ob_vram : bo_vram b = Some v;
  ob_owned : vr_guest_pool_owned v = true;
  ob_some : vr_blocks v <> [];
  ob_ready : gp_ready (dv_pool d) = true;
  ob_lock w : gp_ready (fst (lock (dv_pool d, w))) = true /\
    exists rest, mm_live (gp_mm (fst (lock (dv_pool d, w)))) ≡ₚ vr_blocks v ++ rest
}.

Lemma release_object_returns (d : vgdev B) (w : W) : lock_keeps pool_inv lock ->
  pool_inv (dv_pool d, w) -> owns_blocks d ->
  returned lock (dv_pool d) w (vr_blocks v)
    (dv_pool (fst (snd (virtio_gpu_guest_pool_release_object lock a (d, w))))).
Proof.
  intros Hlock Hinv [Hb Hv Hown Hne R1 HL']. destruct (HL' w) as [R2 [rest Hlive]].
  unfold virtio_gpu_guest_pool_release_object, returned. cbn [fst]. rewrite Hb, Hv, Hown. cbn [negb].
  unfold on_bo, on_pool. cbn [dv_pool dv_upd_bo dv_set_bos].
  pose proof (free_spec lock (vr_blocks v) rest (dv_pool d) w Hlock Hinv Hlive) as Hf.
  destruct (lock (dv_pool d, w)) as [p1 w1] eqn:El.
  destruct (virtio_gpu_guest_pool_free lock (vr_blocks v) (dv_pool d, w)) as [u [p2 w2]].
  destruct Hf as (_ & _ & Hf). destruct (Hf R1 Hne) as [_ Hf']. destruct (Hf' R2) as [Hf'' _].
  cbn in *. by rewrite Hf'', Hlive.
Qed.

(** the unref command is sent unless the device is gone *)
Lemma unref_issue sleep n handle (d : vgdev B) (w : W) :
  let '(ret, (d', w')) := issue sleep n (ResourceUnref handle) 0 sizeof_ctrl_hdr false (CbUnref a) id None (d, w) in
  dv_bos d' = dv_bos d /\ dv_pool d' = dv_pool d /\
  if drm_dev_enter (snd (vbuf_zalloc w)) then ret = Some 0 \/ ret = None else ret = Some (- ENODEV).
Proof.
  unfold issue, virtio_gpu_get_vbuf. destruct (vbuf_zalloc w) as [x w1]. cbn [cmd_body length snd].
  match goal with |- context [if ?c then _ else _] => change c with false end. cbv iota.
  change ((sizeof_ctrl_hdr >? MAX_INLINE_RESP_SIZE) && negb false) with false. cbv iota.
  unfold on_queue. unfold virtio_gpu_queue_fenced_ctrl_buffer. cbn [vb_data_size id Z.eqb].
  unfold virtio_gpu_queue_ctrl_sgs. destruct (drm_dev_enter w1); cbn [negb]; [|done].
  destruct (queue_wait_room sleep n _ _) as [room [g1 w2]]. destruct room; cbn [negb]; [|by split_and!; auto].
  cbn [queue_emit_fence]. destruct (vq_add_sgs _ w2) as [r w3]. by split_and!; auto.
Qed.
End Unref.

(** C4: the blocks of a guest-pool object go back to the pool only when the host cannot use them
    any more. Sending the unref leaves object and pool as they are, whether it is queued or still
    waits for room; its answer cleans the object up and returns the blocks only for success or an
    unknown resource, and for any other answer they are never handed out again. Only when the
    device is gone, so that the command is refused and there is no host to answer, are object and
    blocks given up at once. *)
Theorem unref_returns_blocks_on_ack {B W} `{BL : BuddyLaws B} `{PA : PoolApi W} `{HL : !HostLaws W}
  `{CE : !CtrlEnv W} `{OA : !ObjArrays W} `{BE : !BoEnv W} sleep lock n a (d : vgdev B) (w : W) b v
  (Hlock : lock_keeps pool_inv lock) (Hinv : pool_inv (dv_pool d, w)) (Hown : owns_blocks lock a b v d) :
  (let gone := negb (drm_dev_enter (snd (vbuf_zalloc w))) in
   let '(_, (d', w')) := virtio_gpu_cmd_unref_resource sleep lock n a (d, w) in
   if gone then dv_bos d' = delete a (dv_bos d) /\ exists w1, returned lock (dv_pool d) w1 (vr_blocks v) (dv_pool d')
   else dv_bos d' = dv_bos d /\ dv_pool d' = dv_pool d) /\
  (forall r w1,
   let '(_, (d', w')) := virtio_gpu_cmd_unref_cb lock a r (d, w1) in
   dv_bos d' = delete a (dv_bos d) /\
   if (resp_type r =? VIRTIO_GPU_RESP_OK_NODATA) || (resp_type r =? VIRTIO_GPU_RESP_ERR_INVALID_RESOURCE_ID)
   then returned lock (dv_pool d) w1 (vr_blocks v) (dv_pool d')
   else dv_pool d' = dv_pool d).
Proof.
  split.
  - pose proof (unref_issue a sleep n (handle_of d a) d w) as Hi.
    cbv zeta. unfold virtio_gpu_cmd_unref_resource. cbn [fst].
    destruct (issue _ _ _ _ _ _ _ _ _ _) as [ret [d1 w1]]. destruct Hi as (I1 & I2 & I3).
    destruct (drm_dev_enter _); cbn [negb]; [by destruct I3 as [-> | ->]|]. subst ret.
    change (- ENODEV <? 0) with true. cbv iota.
    assert (Hown1 : owns_blocks lock a b v d1) by (destruct Hown; by split; rewrite ?I1, ?I2).
    pose proof (release_object_returns lock a b v d1 w1 Hlock) as Hr.
    pose proof (release_object_bos lock a (d1, w1)) as Hd. rewrite I2 in Hr. specialize (Hr Hinv Hown1).
    destruct (virtio_gpu_guest_pool_release_object lock a (d1, w1)) as [u st2]. cbn [fst snd] in Hr, Hd.
    pose proof (cleanup_object_state a st2) as [C1 C2].
    destruct (virtio_gpu_cleanup_object a st2) as [u' [d' w']]. cbn [fst snd] in C1, C2.
    cbv iota beta. split; [by rewrite C2, Hd, I1|]. rewrite C1. by exists w1.
  - intros r w1. unfold virtio_gpu_cmd_unref_cb. case_if.
    + pose proof (release_object_returns lock a b v d w1 Hlock Hinv Hown) as Hr.
      pose proof (release_object_bos lock a (d, w1)) as Hd.
      destruct (virtio_gpu_guest_pool_release_object lock a (d, w1)) as [u st2]. cbn [fst snd] in *.
      pose proof (cleanup_object_state a st2) as [C1 C2].
      destruct (virtio_gpu_cleanup_object a st2) as [u' [d' w']]. cbn [fst snd] in C1, C2. cbv iota beta. by rewrite C1, C2.
    + pose proof (cleanup_object_state a (d, w1)) as [C1 C2].
      by destruct (virtio_gpu_cleanup_object a (d, w1)) as [u' [d' w']].
Qed.

(** The resource ids of the default configuration are the numbers 2, 3, 4, ... in turn: no id
    is given twice, and none is zero, before 2^32 - 2 of them. *)
Theorem resource_ids_fresh {B W} `{BE : BoEnv W} (d : vgdev B) (w : W) n
  (Hhack : dv_virglhack d = true) (Hn : dv_res_seqno d = s32 n) (Hr : 0 <= n < 2 ^ 32 - 2) :
  let '((ret, id), (d', w')) := virtio_gpu_resource_id_get (d, w) in
  ret = 0 /\ id = n + 2 /\ id <> 0 /\ w' = w /\ dv_res_seqno d' = s32 (n + 1) /\ dv_virglhack d' = true.
Proof.
  unfold virtio_gpu_resource_id_get. rewrite Hhack, Hn. cbn.
  assert (E1 : s32 (s32 n + 1) = s32 (n + 1)).
  { unfold s32. f_equal. replace ((n + 2 ^ 31) mod 2 ^ 32 - 2 ^ 31 + 1 + 2 ^ 31) with ((n + 2 ^ 31) mod 2 ^ 32 + 1) by lia.
    rewrite Z.add_mod_idemp_l by lia. f_equal. lia. }
  rewrite E1. assert (E2 : u32 (s32 (n + 1) + 1) = n + 2).
  { unfold u32, s32. replace ((n + 1 + 2 ^ 31) mod 2 ^ 32 - 2 ^ 31 + 1) with ((n + 1 + 2 ^ 31) mod 2 ^ 32 + (1 - 2 ^ 31)) by lia.
    rewrite Z.add_mod_idemp_l by lia. replace (n + 1 + 2 ^ 31 + (1 - 2 ^ 31)) with (n + 2) by lia.
    apply Z.mod_small. lia. }
  rewrite E2. split_and!; try done. lia.
Qed.

Lemma resource_ids_fresh_witness :
  let '((ret, id), (d', w')) := virtio_gpu_resource_id_get (sample_dev, empty_queue 1) in
  ret = 0 /\ id = 5 + 2 /\ id <> 0 /\ w' = empty_queue 1 /\ dv_res_seqno d' = s32 (5 + 1) /\ dv_virglhack d' = true.
Proof. apply (resource_ids_fresh sample_dev (empty_queue 1) 5); [reflexivity | reflexivity | lia]. Defined.

(** a host without bookkeeping behind the sample device *)
#[export] Instance toy_queue_host : HostLaws toy_queue.
Proof. by refine {| granted := fun _ _ _ => True |}. Defined.

Lemma sample_pool_inv live w : Forall (block_in 0 4194304) live ->
  pool_inv (W := toy_queue) (sample_pool live, w).
Proof.
  intros Hl _. split; cbn; [lia | left; split; [lia | by exists 0] | done | done].
Qed.

Lemma unref_returns_blocks_on_ack_witness :
  (let gone := negb (drm_dev_enter (snd (vbuf_zalloc (empty_queue 5)))) in
   let '(_, (d', w')) := virtio_gpu_cmd_unref_resource no_sleep no_lock_q 1 100 (sample_dev, (empty_queue 5)) in
   if gone then dv_bos d' = delete 100 (dv_bos sample_dev) /\ exists w1, returned no_lock_q (dv_pool sample_dev) w1 [Block 0 8192] (dv_pool d')
   else dv_bos d' = dv_bos sample_dev /\ dv_pool d' = dv_pool sample_dev) /\
  (forall r w1,
   let '(_, (d', w')) := virtio_gpu_cmd_unref_cb no_lock_q 100 r (sample_dev, w1) in
   dv_bos d' = delete 100 (dv_bos sample_dev) /\
   if (resp_type r =? VIRTIO_GPU_RESP_OK_NODATA) || (resp_type r =? VIRTIO_GPU_RESP_ERR_INVALID_RESOURCE_ID)
   then returned no_lock_q (dv_pool sample_dev) w1 [Block 0 8192] (dv_pool d')
   else dv_pool d' = dv_pool sample_dev).
Proof.
  apply (unref_returns_blocks_on_ack no_sleep no_lock_q 1 100 sample_dev (empty_queue 5)
           (sample_bo true [Block 0 8192]) (Vram STATE_OK 1 true 0 true [Block 0 8192] false 0 8192)).
  - by intros st.
  - apply sample_pool_inv. repeat constructor; unfold block_end; cbn; lia.
  - split; try done. intros w. split; [done|]. by exists [Block 8192 4096].
Defined.
