(* ===== verification/CmdWire.v ===== *)
(** * What the command functions put on the wire

    One line per command function of virtgpu_vq.c: the type, context, body size and the fields of
    its command at their byte offsets, as the virtio-gpu specification lays them out. The theorem
    reads the bytes of the command that a function really puts on the ring. *)

From stdpp Require Import gmap.
From S2P Require Import Prelude PoolCtl GuestPool GuestPoolSpec Wire Fence ObjArray CtrlQueue GpuDev GpuCmds GpuProps.

(** a call of a command function, with its arguments *)
Inductive gpu_call :=
| CallCreateResource (a : Z) (p : object_params) (objs : option (list Z)) (fence : option virtio_gpu_fence)
| CallSetScanout (scanout_id resource_id width height x y : Z)
| CallResourceFlush (resource_id x y width height : Z) (objs : option (list Z)) (fence : option virtio_gpu_fence)
| CallTransfer2d (offset width height x y : Z) (objs : list Z) (fence : option virtio_gpu_fence)
| CallAttachBacking (resource_id : Z) (ents : list gpu_mem_entry) (data_addr : Z) (fence : option virtio_gpu_fence)
| CallDetachBacking (resource_id : Z) (fence : option virtio_gpu_fence)
| CallContextCreate (cid context_init nlen : Z) (name : list Z)
| CallContextDestroy (cid : Z)
| CallContextAttach (ctx_id : Z) (objs : list Z)
| CallContextDetach (ctx_id : Z) (objs : list Z)
| CallCreate3d (a : Z) (p : object_params) (objs : option (list Z)) (fence : option virtio_gpu_fence)
| CallToHost3d (ctx_id offset level stride layer_stride : Z) (box : gpu_box) (objs : list Z) (fence : option virtio_gpu_fence)
| CallFromHost3d (ctx_id offset level stride layer_stride : Z) (box : gpu_box) (objs : list Z) (fence : option virtio_gpu_fence)
| CallSubmit (data data_size ctx_id : Z) (objs : option (list Z)) (fence : option virtio_gpu_fence)
| CallCreateBlob (a : Z) (p : object_params) (ents : list gpu_mem_entry) (data_addr : Z)
| CallSetScanoutBlob (scanout_id a : Z) (fb : framebuffer) (width height x y : Z)
| CallUnmap (a : Z).

(** the bytes at [off]: a 32-bit or a 64-bit little-endian number, or a string *)
Inductive wire_field := W32 (off : nat) (value : Z) | W64 (off : nat) (value : Z) | WStr (off : nat) (bytes : list Z).
Definition field_at (b : list Z) (f : wire_field) : Prop :=
  match f with
  | W32 off value => le_get (take 4 (drop off b)) = u32 value
  | W64 off value => le_get (take 8 (drop off b)) = u64 value
  | WStr off bytes => take (length bytes) (drop off b) = bytes
  end.

Record wire_cmd := WireCmd { wc_type : Z; wc_ctx : Z; wc_size : nat; wc_fields : list wire_field }.

(** the specification's layouts; offsets count from the end of the 24-byte header *)
Definition wire_spec {B} (d : vgdev B) (c : gpu_call) : wire_cmd :=
  match c with
  | CallCreateResource a p _ _ => WireCmd 0x0101 0 16
      [W32 0 (handle_of d a); W32 4 (op_format p); W32 8 (op_width p); W32 12 (op_height p)]
  | CallSetScanout scanout res width height x y => WireCmd 0x0103 0 24
      [W32 0 x; W32 4 y; W32 8 width; W32 12 height; W32 16 scanout; W32 20 res]
  | CallResourceFlush res x y width height _ _ => WireCmd 0x0104 0 24
      [W32 0 x; W32 4 y; W32 8 width; W32 12 height; W32 16 res; W32 20 0]
  | CallTransfer2d offset width height x y objs _ => WireCmd 0x0105 0 32
      [W32 0 x; W32 4 y; W32 8 width; W32 12 height; W64 16 offset; W32 24 (handle_of d (obj0 objs)); W32 28 0]
  | CallAttachBacking res ents _ _ => WireCmd 0x0106 0 8 [W32 0 res; W32 4 (Z.of_nat (length ents))]
  | CallDetachBacking res _ => WireCmd 0x0107 0 8 [W32 0 res; W32 4 0]
  | CallContextCreate cid init nlen name => WireCmd 0x0200 cid 72 [W32 0 nlen; W32 4 init; WStr 8 (take 63 name)]
  | CallContextDestroy cid => WireCmd 0x0201 cid 0 []
  | CallContextAttach cid objs => WireCmd 0x0202 cid 8 [W32 0 (handle_of d (obj0 objs)); W32 4 0]
  | CallContextDetach cid objs => WireCmd 0x0203 cid 8 [W32 0 (handle_of d (obj0 objs)); W32 4 0]
  | CallCreate3d a p _ _ => WireCmd 0x0204 0 48
      [W32 0 (handle_of d a); W32 4 (op_target p); W32 8 (op_format p); W32 12 (op_bind p); W32 16 (op_width p);
       W32 20 (op_height p); W32 24 (op_depth p); W32 28 (op_array_size p); W32 32 (op_last_level p);
       W32 36 (op_nr_samples p); W32 40 (op_flags p); W32 44 0]
  | CallToHost3d cid offset level stride layer b objs _ => WireCmd 0x0205 cid 48
      [W32 0 (bx_x b); W32 4 (bx_y b); W32 8 (bx_z b); W32 12 (bx_w b); W32 16 (bx_h b); W32 20 (bx_d b);
       W64 24 offset; W32 32 (handle_of d (obj0 objs)); W32 36 level; W32 40 stride; W32 44 layer]
  | CallFromHost3d cid offset level stride layer b objs _ => WireCmd 0x0206 cid 48
      [W32 0 (bx_x b); W32 4 (bx_y b); W32 8 (bx_z b); W32 12 (bx_w b); W32 16 (bx_h b); W32 20 (bx_d b);
       W64 24 offset; W32 32 (handle_of d (obj0 objs)); W32 36 level; W32 40 stride; W32 44 layer]
  | CallSubmit _ size cid _ _ => WireCmd 0x0207 cid 8 [W32 0 size; W32 4 0]
  | CallCreateBlob a p ents _ => WireCmd 0x010c (op_ctx_id p) 32
      [W32 0 (handle_of d a); W32 4 (op_blob_mem p); W32 8 (op_blob_flags p); W32 12 (Z.of_nat (length ents));
       W64 16 (op_blob_id p); W64 24 (op_size p)]
  | CallSetScanoutBlob scanout a fb width height x y => WireCmd 0x010d 0 72
      [W32 0 x; W32 4 y; W32 8 width; W32 12 height; W32 16 scanout; W32 20 (handle_of d a);
       W32 24 (fb_width fb); W32 28 (fb_height fb); W32 32 (virtio_gpu_translate_format (fb_format fb)); W32 36 0;
       W32 40 (nth 0 (fb_pitches fb) 0); W32 44 (nth 1 (fb_pitches fb) 0);
       W32 48 (nth 2 (fb_pitches fb) 0); W32 52 (nth 3 (fb_pitches fb) 0);
       W32 56 (nth 0 (fb_offsets fb) 0); W32 60 (nth 1 (fb_offsets fb) 0);
       W32 64 (nth 2 (fb_offsets fb) 0); W32 68 (nth 3 (fb_offsets fb) 0)]
  | CallUnmap a => WireCmd 0x0209 0 8 [W32 0 (handle_of d a); W32 4 0]
  end.

(** the data buffer a command carries: its address, its size and, for a table of memory entries,
    these *)
Definition call_data (c : gpu_call) : Z * Z * list gpu_mem_entry :=
  match c with
  | CallAttachBacking _ ents data _ | CallCreateBlob _ _ ents data =>
      (data, u32 (16 * Z.of_nat (length ents)), ents)
  | CallSubmit data size _ _ _ => (data, size, [])
  | _ => (0, 0, [])
  end.

(** the objects whose reservation or reference the command keeps until it is answered *)
Definition call_objs (c : gpu_call) : option (list Z) :=
  match c with
  | CallCreateResource _ _ objs _ | CallResourceFlush _ _ _ _ _ objs _ | CallCreate3d _ _ objs _
  | CallSubmit _ _ _ objs _ => objs
  | CallTransfer2d _ _ _ _ _ objs _ | CallContextAttach _ objs | CallContextDetach _ objs
  | CallToHost3d _ _ _ _ _ _ objs _ | CallFromHost3d _ _ _ _ _ _ objs _ => Some objs
  | _ => None
  end.

Section Run.
Context {B W : Type} `{CL : CtrlLaws W} `{BE : !BoEnv W}.
Context (sleep : gpu_st W -> gpu_st W) (fuel : nat).

Definition run_call (c : gpu_call) : ST (dev_st B W) unit :=
  match c with
  | CallCreateResource a p objs fence => virtio_gpu_cmd_create_resource sleep fuel a p objs fence
  | CallSetScanout s r w h x y => virtio_gpu_cmd_set_scanout sleep fuel s r w h x y
  | CallResourceFlush r x y w h objs fence => virtio_gpu_cmd_resource_flush sleep fuel r x y w h objs fence
  | CallTransfer2d o w h x y objs fence => virtio_gpu_cmd_transfer_to_host_2d sleep fuel o w h x y objs fence
  | CallAttachBacking r ents data fence => virtio_gpu_cmd_resource_attach_backing sleep fuel r ents data fence
  | CallDetachBacking r fence => virtio_gpu_cmd_resource_detach_backing sleep fuel r fence
  | CallContextCreate cid init nlen name => virtio_gpu_cmd_context_create sleep fuel cid init nlen name
  | CallContextDestroy cid => virtio_gpu_cmd_context_destroy sleep fuel cid
  | CallContextAttach cid objs => virtio_gpu_cmd_context_attach_resource sleep fuel cid objs
  | CallContextDetach cid objs => virtio_gpu_cmd_context_detach_resource sleep fuel cid objs
  | CallCreate3d a p objs fence => virtio_gpu_cmd_resource_create_3d sleep fuel a p objs fence
  | CallToHost3d cid o l s ls b objs fence => virtio_gpu_cmd_transfer_to_host_3d sleep fuel cid o l s ls b objs fence
  | CallFromHost3d cid o l s ls b objs fence => virtio_gpu_cmd_transfer_from_host_3d sleep fuel cid o l s ls b objs fence
  | CallSubmit data size cid objs fence => virtio_gpu_cmd_submit sleep fuel data size cid objs fence
  | CallCreateBlob a p ents data => virtio_gpu_cmd_resource_create_blob sleep fuel a p ents data
  | CallSetScanoutBlob s a fb w h x y => virtio_gpu_cmd_set_scanout_blob sleep fuel s a fb w h x y
  | CallUnmap a => virtio_gpu_cmd_unmap sleep fuel a
  end.

(** a plugged device with room for the three entries a command can need *)
Definition roomy (w : W) : Prop := drm_dev_enter w = true /\ 3 <= vq_num_free w.

(** none of the calls on the way takes room, and an entry added where there is room is taken *)
Class RoomLaws : Prop := {
  room_zalloc w : roomy w -> roomy (snd (vbuf_zalloc w));
  room_sync a w : roomy w -> roomy (snd (dma_sync_for_device a w)) /\ qobs (snd (dma_sync_for_device a w)) = qobs w;
  room_unlock o w : roomy w -> roomy (snd (objs_unlock o w));
  room_fence o f w : roomy w -> roomy (snd (objs_add_fence o f w));
  room_add v w : roomy w -> fst (vq_add_sgs v w) = 0
}.
Context `{RL : !RoomLaws}.

(** the last command on the ring, with its data buffer and objects *)
Definition sent (w w' : W) (cmd : gpu_cmd) (ctx : Z) (data : Z * Z * list gpu_mem_entry) (objs : option (list Z)) : Prop :=
  exists v', cq_ring (qobs w') = cq_ring (qobs w) ++ [v'] /\ vb_cmd v' = cmd /\
    h_type (vb_hdr v') = cmd_type cmd /\ h_ctx_id (vb_hdr v') = ctx /\
    (vb_data_addr v', vb_data_size v', vb_data v') = data /\ vb_objs v' = objs.
Definition vbuf_data (v : vbuf) : Z * Z * list gpu_mem_entry := (vb_data_addr v, vb_data_size v, vb_data v).

Lemma emit_room v fence (g : gpu) (w : W) : roomy w -> roomy (snd (snd (queue_emit_fence v fence (g, w)))).
Proof.
  intros Hr. unfold queue_emit_fence. destruct fence as [f|]; [|done].
  destruct (virtio_gpu_fence_emit _ _ f) as [[drv hdr] f']. cbn.
  destruct (vb_objs v); [|done]. by apply room_unlock, room_fence.
Qed.

Lemma emit_only_header v fence (g : gpu) (w : W) :
  let v1 := fst (queue_emit_fence v fence (g, w)) in
  vb_cmd v1 = vb_cmd v /\ h_type (vb_hdr v1) = h_type (vb_hdr v) /\
  h_ctx_id (vb_hdr v1) = h_ctx_id (vb_hdr v) /\ vbuf_data v1 = vbuf_data v /\ vb_objs v1 = vb_objs v.
Proof.
  unfold queue_emit_fence. destruct fence as [f|]; [|done].
  pose proof (emit_keeps_type (g_fence g) (vb_hdr v) f) as [T1 T2].
  by destruct (virtio_gpu_fence_emit _ _ f) as [[drv hdr] f'].
Qed.

Lemma sgs_sent k v fence elemcnt (g : gpu) (w : W) : roomy w -> elemcnt <= 3 ->
  h_type (vb_hdr v) = cmd_type (vb_cmd v) ->
  sent w (snd (snd (virtio_gpu_queue_ctrl_sgs sleep (S k) v fence elemcnt (g, w))))
       (vb_cmd v) (h_ctx_id (vb_hdr v)) (vbuf_data v) (vb_objs v).
Proof.
  intros [Hp Hf] He Ht. unfold virtio_gpu_queue_ctrl_sgs. rewrite Hp. cbn [negb].
  set (ec := if g_has_indirect g then 1 else elemcnt). assert (ec <= 3) by (subst ec; case_if; lia).
  cbn [queue_wait_room snd]. rewrite (proj2 (Z.ltb_ge _ _)) by lia. cbn [negb].
  pose proof (emit_room v fence g w (conj Hp Hf)) as Hr. pose proof (emit_fence_obs v fence (g, w)) as Ho.
  pose proof (emit_only_header v fence g w) as Hv.
  destruct (queue_emit_fence v fence (g, w)) as [v1 [g2 w2]]. cbn [fst snd] in *. destruct Hv as (V1 & V2 & V3 & V4 & V5).
  pose proof (law_vq_add (set_seqno v1 (u32 (g_seqno g2 + 1))) w2) as Ha.
  pose proof (room_add (set_seqno v1 (u32 (g_seqno g2 + 1))) w2 Hr) as Hz.
  destruct (vq_add_sgs _ w2) as [ret w3]. cbn [fst snd] in *. subst ret. cbn in Ha. rewrite Ho in Ha.
  exists (set_seqno v1 (u32 (g_seqno g2 + 1))). rewrite Ha. cbn. split_and!; try congruence; exact V4.
Qed.

(** how a command function fills its buffer: data that is not vmalloc'd, and the objects *)
Definition fills (fill : vbuf -> vbuf) (data : Z * Z * list gpu_mem_entry) (objs : option (list Z)) : Prop :=
  fill_ok fill /\ (snd (fst data) = 0 \/ is_vmalloc_addr (fst (fst data)) = false) /\
  forall a h c rs cb, let v := fill (Vbuf a h c 0 [] 0 rs cb None 0) in
    vb_resp_size v = rs /\ vbuf_data v = data /\ vb_objs v = objs.

(** a command of an inline size goes on the ring *)
Lemma issue_sent k cmd ctx fill fence data objs (d : vgdev B) (w : W) : roomy w -> fills fill data objs ->
  (length (cmd_body cmd) <= 72)%nat ->
  sent w (snd (snd (issue sleep (S k) cmd ctx sizeof_ctrl_hdr false CbNone fill fence (d, w)))) cmd ctx data objs.
Proof.
  intros Hr (Hfill & Hdata & Hv) Hlen. unfold issue, virtio_gpu_get_vbuf.
  pose proof (law_vbuf_zalloc w) as Hz. pose proof (room_zalloc w Hr) as Hr1.
  destruct (vbuf_zalloc w) as [a w1]. cbn [snd] in Hr1. destruct Hz as [_ Hz].
  unfold sizeof_ctrl_hdr, MAX_INLINE_CMD_SIZE, MAX_INLINE_RESP_SIZE. rewrite !Z.gtb_ltb.
  rewrite (proj2 (Z.ltb_ge 96 _)), (proj2 (Z.ltb_ge _ 24)), (proj2 (Z.ltb_ge 24 24)) by lia. cbn [orb andb].
  set (v := Vbuf _ _ _ _ _ _ _ _ _ _). destruct (Hfill v) as (F1 & F2 & _).
  destruct (Hv a (CtrlHdr (cmd_type cmd) 0 0 ctx 0) cmd 24 CbNone) as (D1 & D2 & D3). fold v in D1, D2, D3.
  unfold on_queue. cbn [dv_gpu].
  assert (Hs : forall ec, ec <= 3 ->
    sent w (snd (snd (virtio_gpu_queue_ctrl_sgs sleep (S k) (fill v) fence ec (dv_gpu d, w1)))) cmd ctx data objs).
  { intros ec Hec. pose proof (sgs_sent k (fill v) fence ec (dv_gpu d) w1 Hr1 Hec) as Hs.
    rewrite F1, F2, D2, D3 in Hs. unfold sent in *. rewrite Hz in Hs. by apply Hs. }
  unfold virtio_gpu_queue_fenced_ctrl_buffer. rewrite D1. cbn [Z.eqb]. rewrite <- D2 in Hdata. cbn [fst snd vbuf_data] in Hdata.
  destruct (Z.eqb_spec (vb_data_size (fill v)) 0) as [E|E]; [|destruct Hdata as [|Hdata]; [done | rewrite Hdata]].
  all: match goal with |- context [virtio_gpu_queue_ctrl_sgs _ _ _ _ ?ec _] => specialize (Hs ec ltac:(done)) end.
  all: by destruct (virtio_gpu_queue_ctrl_sgs _ _ _ _ _ _) as [r [g2 w2]].
Qed.

Lemma fills_id : fills id (0, 0, []) None.
Proof. split; [by intros v | split; [by left | done]]. Qed.
Lemma fills_objs objs : fills (fun v => with_objs v objs) (0, 0, []) objs.
Proof. split; [by intros v | split; [by left | done]]. Qed.
Lemma fills_data a n ents : is_vmalloc_addr a = false -> fills (fun v => with_data v n ents a) (a, n, ents) None.
Proof. intros Ha. split; [by intros v | split; [by right | done]]. Qed.
Lemma fills_both a n ents objs : is_vmalloc_addr a = false ->
  fills (fun v => with_objs (with_data v n ents a) objs) (a, n, ents) objs.
Proof. intros Ha. split; [by intros v | split; [by right | done]]. Qed.
End Run.
Arguments RoomLaws W {_ _ _ _}.

(** the command each call means *)
Definition call_cmd {B} (d : vgdev B) (c : gpu_call) : gpu_cmd :=
  match c with
  | CallCreateResource a p _ _ => ResourceCreate2d (handle_of d a) (op_format p) (op_width p) (op_height p)
  | CallSetScanout s r w h x y => SetScanout (GpuRect x y w h) s r
  | CallResourceFlush r x y w h _ _ => ResourceFlush (GpuRect x y w h) r
  | CallTransfer2d o w h x y objs _ => TransferToHost2d (GpuRect x y w h) o (handle_of d (obj0 objs))
  | CallAttachBacking r ents _ _ => ResourceAttachBacking r (Z.of_nat (length ents))
  | CallDetachBacking r _ => ResourceDetachBacking r
  | CallContextCreate _ i n name => CtxCreate n i (strscpy 64 name)
  | CallContextDestroy _ => CtxDestroy
  | CallContextAttach _ objs => CtxAttachResource (handle_of d (obj0 objs))
  | CallContextDetach _ objs => CtxDetachResource (handle_of d (obj0 objs))
  | CallCreate3d a p _ _ => ResourceCreate3d (handle_of d a) (op_target p) (op_format p) (op_bind p) (op_width p)
      (op_height p) (op_depth p) (op_array_size p) (op_last_level p) (op_nr_samples p) (op_flags p)
  | CallToHost3d _ o l s ls b objs _ => TransferToHost3d b o (handle_of d (obj0 objs)) l s ls
  | CallFromHost3d _ o l s ls b objs _ => TransferFromHost3d b o (handle_of d (obj0 objs)) l s ls
  | CallSubmit _ size _ _ _ => Submit3d size
  | CallCreateBlob a p ents _ => ResourceCreateBlob (handle_of d a) (op_blob_mem p) (op_blob_flags p)
      (Z.of_nat (length ents)) (op_blob_id p) (op_size p)
  | CallSetScanoutBlob s a fb w h x y => SetScanoutBlob (GpuRect x y w h) s (handle_of d a) (fb_width fb) (fb_height fb)
      (virtio_gpu_translate_format (fb_format fb))
      (nth 0 (fb_pitches fb) 0) (nth 1 (fb_pitches fb) 0) (nth 2 (fb_pitches fb) 0) (nth 3 (fb_pitches fb) 0)
      (nth 0 (fb_offsets fb) 0) (nth 1 (fb_offsets fb) 0) (nth 2 (fb_offsets fb) 0) (nth 3 (fb_offsets fb) 0)
  | CallUnmap a => ResourceUnmapBlob (handle_of d a)
  end.

Ltac read_field :=
  lazymatch goal with
  | |- _ = u32 ?z => exact (le_get_put_4 z)
  | |- _ = u64 ?z => exact (le_get_put_8 z)
  end.

Lemma strscpy_prefix name : take (length (take 63 name)) (strscpy 64 name) = take 63 name.
Proof. unfold strscpy. cbn [Nat.sub]. by rewrite take_app_length. Qed.
Lemma strscpy_length n name : (0 < n)%nat -> length (strscpy n name) = n.
Proof. intros Hn. unfold strscpy. rewrite length_app, length_replicate, length_take. lia. Qed.

(** the bytes of that command are the specification's *)
Lemma call_cmd_wire {B} (d : vgdev B) c :
  cmd_type (call_cmd d c) = wc_type (wire_spec d c) /\
  length (cmd_body (call_cmd d c)) = wc_size (wire_spec d c) /\
  Forall (field_at (cmd_body (call_cmd d c))) (wc_fields (wire_spec d c)).
Proof.
  destruct c; (split; [reflexivity|]).
  7:{ cbn [call_cmd wire_spec wc_size wc_fields]. unfold cmd_body, fields_bytes. cbn [cmd_fields fmap list_fmap mjoin list_join field_bytes].
      rewrite app_nil_r. split; [by rewrite !length_app, !length_le_put, strscpy_length by lia|].
      repeat apply Forall_cons_2; [cbn [field_at]; read_field | cbn [field_at]; read_field | | by apply Forall_nil_2]. apply strscpy_prefix. }
  all: split; [reflexivity|]; cbn [wire_spec wc_fields]; repeat apply Forall_cons_2; try apply Forall_nil_2; cbn [field_at]; read_field.
Qed.

(** a call issues that command, filled with its data and objects *)
Lemma run_call_issues {B W} `{CL : CtrlLaws W} `{BE : !BoEnv W} `{RL : !RoomLaws W} sleep k c (d : vgdev B) (w : W) :
  roomy w -> is_vmalloc_addr (fst (fst (call_data c))) = false \/ snd (fst (call_data c)) = 0 ->
  sent w (snd (snd (run_call sleep (S k) c (d, w)))) (call_cmd d c) (wc_ctx (wire_spec d c)) (call_data c) (call_objs c).
Proof.
  intros Hr Hd. destruct (call_cmd_wire d c) as (_ & Hlen & _).
  assert (Hs : (length (cmd_body (call_cmd d c)) <= 72)%nat) by (rewrite Hlen; destruct c; cbn; lia).
  assert (Hd' : snd (fst (call_data c)) = 0 \/ is_vmalloc_addr (fst (fst (call_data c))) = false) by tauto.
  assert (Hcall : forall fill fence (d1 : vgdev B) w1, roomy w1 -> qobs w1 = qobs w -> fill_ok fill ->
    (forall a h c0 rs cb, let v := fill (Vbuf a h c0 0 [] 0 rs cb None 0) in
      vb_resp_size v = rs /\ vbuf_data v = call_data c /\ vb_objs v = call_objs c) ->
    sent w (snd (snd (issue sleep (S k) (call_cmd d c) (wc_ctx (wire_spec d c)) sizeof_ctrl_hdr false CbNone
      fill fence (d1, w1)))) (call_cmd d c) (wc_ctx (wire_spec d c)) (call_data c) (call_objs c)).
  { intros fill fence d1 w1 Hr1 Hq F1 F2. unfold sent. rewrite <- Hq. by apply issue_sent. }
  clear Hd Hd' Hlen. destruct c; cbn [run_call].
  all: try (apply Hcall; [done | done | by intros v | done]).
  - pose proof (Hcall (fun v => with_objs v objs) fence d w Hr eq_refl ltac:(by intros v) ltac:(done)) as Hi.
    unfold virtio_gpu_cmd_create_resource. cbn [fst]. cbn [call_cmd wire_spec wc_ctx] in Hi.
    destruct (issue _ _ _ _ _ _ _ _ _ _) as [r [d1 w1]]. exact Hi.
  - unfold virtio_gpu_cmd_transfer_to_host_2d, sync_shmem. cbn [fst].
    destruct (_ && _); [|apply Hcall; [done | done | by intros v | done]].
    destruct (room_sync (obj0 objs) w Hr) as [R1 R2]. apply Hcall; [done | done | by intros v | done].
  - pose proof (Hcall (fun v => with_objs v objs) fence d w Hr eq_refl ltac:(by intros v) ltac:(done)) as Hi.
    unfold virtio_gpu_cmd_resource_create_3d. cbn [fst]. cbn [call_cmd wire_spec wc_ctx] in Hi.
    destruct (issue _ _ _ _ _ _ _ _ _ _) as [r [d1 w1]]. exact Hi.
  - unfold virtio_gpu_cmd_transfer_to_host_3d, sync_shmem. cbn [fst].
    destruct (_ && _); [|apply Hcall; [done | done | by intros v | done]].
    destruct (room_sync (obj0 objs) w Hr) as [R1 R2]. apply Hcall; [done | done | by intros v | done].
  - pose proof (Hcall (fun v => with_data v (u32 (sizeof_mem_entry * Z.of_nat (length ents))) ents data_addr) None d w Hr
      eq_refl ltac:(by intros v) ltac:(done)) as Hi.
    unfold virtio_gpu_cmd_resource_create_blob. cbn [fst]. cbn [call_cmd wire_spec wc_ctx] in Hi.
    destruct (issue _ _ _ _ _ _ _ _ _ _) as [r [d1 w1]]. cbn [on_bo]. by destruct (c_true _).
Qed.

(** C33: what a command function means is what it puts on the wire. For each of these seventeen
    command functions, on a plugged device whose queue has room for three entries, and with a
    data buffer that is not vmalloc'd: exactly one command is added to the ring, at its end; its
    header has the type and the context, its body the size, and every field the value and the byte
    offset the virtio-gpu specification gives it, the resource handle being that of the object
    passed; its data buffer and its object array are the ones passed. *)
Theorem command_on_wire {B W} `{CL : CtrlLaws W} `{BE : !BoEnv W} `{RL : !RoomLaws W} sleep k c (d : vgdev B) (w : W)
  (Hroom : roomy w) (Hdata : is_vmalloc_addr (fst (fst (call_data c))) = false \/ snd (fst (call_data c)) = 0) :
  let '(_, (d', w')) := run_call sleep (S k) c (d, w) in
  let spec := wire_spec d c in
  exists v', cq_ring (qobs w') = cq_ring (qobs w) ++ [v'] /\
    h_type (vb_hdr v') = wc_type spec /\ h_ctx_id (vb_hdr v') = wc_ctx spec /\
    length (cmd_body (vb_cmd v')) = wc_size spec /\
    Forall (field_at (cmd_body (vb_cmd v'))) (wc_fields spec) /\
    (vb_data_addr v', vb_data_size v', vb_data v') = call_data c /\ vb_objs v' = call_objs c.
Proof.
  pose proof (run_call_issues sleep k c d w Hroom Hdata) as Hs. destruct (call_cmd_wire d c) as (C1 & C2 & C3).
  destruct (run_call sleep (S k) c (d, w)) as [u [d' w']]. destruct Hs as (v' & R1 & R2 & R3 & R4 & R5 & R6).
  exists v'. rewrite R2, R3, C1. by split_and!.
Qed.

#[export] Instance toy_room : RoomLaws toy_queue.
Proof. by split; intros; repeat split; destruct H. Qed.

Lemma command_on_wire_witness :
  let c := CallTransfer2d 4096 640 480 8 16 [100] None in
  let '(_, (d', w')) := run_call no_sleep 1 c (sample_dev, empty_queue 5) in
  let spec := wire_spec sample_dev c in
  exists v', cq_ring (qobs w') = cq_ring (qobs (empty_queue 5)) ++ [v'] /\
    h_type (vb_hdr v') = wc_type spec /\ h_ctx_id (vb_hdr v') = wc_ctx spec /\
    length (cmd_body (vb_cmd v')) = wc_size spec /\
    Forall (field_at (cmd_body (vb_cmd v'))) (wc_fields spec) /\
    (vb_data_addr v', vb_data_size v', vb_data v') = call_data c /\ vb_objs v' = call_objs c.
Proof.
  apply (command_on_wire no_sleep 0 (CallTransfer2d 4096 640 480 8 16 [100] None) sample_dev (empty_queue 5)).
  - split; [done | by vm_compute].
  - by right.
Defined.

(** the bytes of that transfer, read back *)
Example transfer_bytes :
  let w' := snd (snd (run_call no_sleep 1 (CallTransfer2d 4096 640 480 8 16 [100] None) (sample_dev, empty_queue 5))) in
  (fun v => cmd_body (vb_cmd v)) <$> cq_ring (qobs w') =
  [[8; 0; 0; 0; 16; 0; 0; 0; 128; 2; 0; 0; 224; 1; 0; 0; 0; 16; 0; 0; 0; 0; 0; 0; 77; 0; 0; 0; 0; 0; 0; 0]].
Proof. vm_compute. reflexivity. Qed.
