(* ===== verification/VramObj.v ===== *)
(** * VRAM objects (virtio_gpu/virtgpu_vram.c, first half and the end) and shmem objects
    (virtio_gpu/virtgpu_object.c)

    Creation with backing from the guest pool or from a host blob, the user mapping that stitches
    the pool blocks together, the DMA mapping for importers, and the release of an object. *)

From stdpp Require Import gmap.
From S2P Require Import Prelude PoolCtl GuestPool Wire Fence ObjArray CtrlQueue GpuDev GpuCmds.

(** page protection of a mapping *)
Inductive pgprot := PgCached | PgWritecombine | PgNoncached.

Record vm_area := VmArea { vm_start : Z; vm_end : Z; vm_pgoff : Z }.

Class VramEnv (W : Type) := {
  kzalloc_vram : ST W (option Z);
  kfree_vram : Z -> ST W unit;
  drm_gem_create_mmap_offset : ST W Z;
  drm_gem_object_release : Z -> ST W unit;
  kvmalloc_ents : Z -> ST W (option Z);
  kvfree_ents : Z -> ST W unit;
  drm_mm_insert_node : Z -> Z -> ST W (Z * Z);         (* size, alignment: result, start *)
  io_remap_pfn_range : Z -> Z -> Z -> pgprot -> ST W Z;  (* address, pfn, length *)
  sgt_kzalloc : ST W bool;
  sg_alloc_table : Z -> ST W Z;
  sgt_release : ST W unit;                             (* sg_free_table, kfree *)
  dma_map_resource : Z -> Z -> ST W (option Z);        (* physical address, length *)
  dma_unmap_resource : Z -> Z -> ST W unit;
  drm_gem_shmem_create : Z -> ST W (Z + Z);            (* errno, or the object's address *)
  shmem_pages : bool -> Z -> ST W (Z + list (Z * Z))   (* DMA or physical: errno, or (address, length) segments *)
}.

(** ** The user mapping *)

Section Mmap.
Context {W : Type} `{VE : VramEnv W}.

(** the loop over the blocks: (result, address reached) *)
Fixpoint mmap_blocks (base vend : Z) (prot : pgprot) (blocks : list block) (uaddr skip : Z)
  : ST W (Z * Z) := fun w =>
  match blocks with
  | [] => ((0, uaddr), w)
  | k :: rest =>
      let off := bk_offset k in
      let len := bk_size k in
      if skip >=? len then mmap_blocks base vend prot rest uaddr (skip - len) w
      else
        let off := off + skip in
        let len := len - skip in
        let len := if len >? vend - uaddr then vend - uaddr else len in
        if len =? 0 then ((0, uaddr), w)
        else
          let pa := base + off in
          let '(ret, w1) := io_remap_pfn_range uaddr (Z.shiftr pa PAGE_SHIFT) len prot w in
          if c_true ret then ((ret, uaddr), w1)
          else
            let uaddr := uaddr + len in
            if uaddr >=? vend then ((0, uaddr), w1) else mmap_blocks base vend prot rest uaddr 0 w1
  end.

Definition map_prot (v : vram) : pgprot :=
  if vr_map_info v =? VIRTIO_GPU_MAP_CACHE_WC then PgWritecombine
  else if vr_map_info v =? VIRTIO_GPU_MAP_CACHE_UNCACHED then PgNoncached else PgCached.

(** [virtio_gpu_vram_mmap]; [None]: waiting for the host's map response. [node_start] is the
    object's fake offset; the pool bases come from the device tree. *)
Definition virtio_gpu_vram_mmap (guest_base pool_base node_start : Z) (bo : gpu_bo) (v : vram) (vma : vm_area)
  : ST W (option Z) := fun w =>
  let vm_size := vm_end vma - vm_start vma in
  if negb (c_true (Z.land (bo_blob_flags bo) VIRTIO_GPU_BLOB_FLAG_USE_MAPPABLE)) && negb (vr_guest_pool_owned v)
  then (Some (- EINVAL), w)
  else if negb (vr_guest_pool_owned v) && (vr_map_state v =? STATE_INITIALIZING) then (None, w)
  else if negb (vr_guest_pool_owned v) && negb (vr_map_state v =? STATE_OK) then (Some (- EINVAL), w)
  else
    let pgoff := u64 (vm_pgoff vma - node_start) in
    let prot := map_prot v in
    let start_off := u64 (Z.shiftl pgoff PAGE_SHIFT) in
    if start_off + vm_size >=? 2 ^ 64 then (Some (- EINVAL), w)
    else if start_off + vm_size >? vr_node_size v then (Some (- EINVAL), w)
    else if vr_guest_pool_owned v then
      if guest_base =? 0 then (Some (- EINVAL), w)
      else
        let '((ret, uaddr), w1) :=
          mmap_blocks guest_base (vm_end vma) prot (vr_blocks v) (vm_start vma) start_off w in
        if c_true ret then (Some ret, w1)
        else if uaddr <? vm_end vma then (Some (- EINVAL), w1) else (Some 0, w1)
    else if vr_pool_resident v then
      if pool_base =? 0 then (Some (- EINVAL), w)
      else
        let pa := u64 (pool_base + vr_pool_offset v) in
        let '(ret, w1) := io_remap_pfn_range (vm_start vma) (u64 (Z.shiftr pa PAGE_SHIFT + pgoff)) vm_size prot w in
        (Some ret, w1)
    else
      let '(ret, w1) := io_remap_pfn_range (vm_start vma)
                          (u64 (Z.shiftr (vr_node_start v) PAGE_SHIFT + pgoff)) vm_size prot w in
      (Some ret, w1).

(** ** The DMA mapping *)

(** one segment per block; the segments mapped so far, and whether one failed *)
Fixpoint dma_map_blocks (base : Z) (blocks : list block) (acc : list (Z * Z))
  : ST W (bool * list (Z * Z)) := fun w =>
  match blocks with
  | [] => ((true, acc), w)
  | k :: rest =>
      let '(addr, w1) := dma_map_resource (u64 (base + bk_offset k)) (bk_size k) w in
      match addr with
      | None => ((false, acc), w1)
      | Some a => dma_map_blocks base rest (acc ++ [(a, u32 (bk_size k))]) w1
      end
  end.

Fixpoint dma_unmap_all (segs : list (Z * Z)) : ST W unit := fun w =>
  match segs with
  | [] => (tt, w)
  | (a, len) :: rest =>
      dma_unmap_all rest (if len =? 0 then w else snd (dma_unmap_resource a len w))
  end.

(** [virtio_gpu_vram_map_dma_buf]: an errno, or the table's (address, length) segments; the stub
    table of an unmappable blob is the empty list. [dev_ok] is
    [is_virtio_device(dev) && has_resource_assign_uuid]. *)
Definition virtio_gpu_vram_map_dma_buf (base : Z) (bo : gpu_bo) (v : vram) (dev_ok : bool)
  : ST W (Z + list (Z * Z)) := fun w =>
  let '(ok, w0) := sgt_kzalloc w in
  if negb ok then (inl (- ENOMEM), w0)
  else if vr_guest_pool_owned v then
    let nents := u32 (Z.of_nat (length (vr_blocks v))) in
    if nents =? 0 then (inl (- EINVAL), snd (sgt_release w0))
    else
      let '(ret, w1) := sg_alloc_table nents w0 in
      if c_true ret then (inl ret, snd (sgt_release w1))
      else
        let '((ok, segs), w2) := dma_map_blocks base (vr_blocks v) [] w1 in
        if ok then (inr segs, w2)
        else (inl (- EIO), snd (sgt_release (snd (dma_unmap_all segs w2))))
  else if negb (c_true (Z.land (bo_blob_flags bo) VIRTIO_GPU_BLOB_FLAG_USE_MAPPABLE)) then
    if dev_ok then (inr [], w0) else (inl (- EIO), snd (sgt_release w0))
  else
    let '(ret, w1) := sg_alloc_table 1 w0 in
    if c_true ret then (inl ret, snd (sgt_release w1))
    else
      let '(addr, w2) := dma_map_resource (vr_node_start v) (vr_node_size v) w1 in
      match addr with
      | None => (inl (- ENOMEM), snd (sgt_release w2))     (* dma_mapping_error() *)
      | Some a => (inr [(a, u32 (vr_node_size v))], w2)
      end.

Definition virtio_gpu_vram_unmap_dma_buf (segs : list (Z * Z)) : ST W unit := fun w =>
  sgt_release (snd (dma_unmap_all segs w)).

End Mmap.

(** ** Objects *)

Section Objects.
Context {B W : Type} `{BO : BuddyOps B} `{PA : PoolApi W} `{CE : CtrlEnv W} `{OA : ObjArrays W} `{BE : BoEnv W}
  `{GE : GemEnv W} `{VE : VramEnv W}.
Context (sleep : gpu_st W -> gpu_st W) (lock : gp_st B W -> gp_st B W) (fuel : nat).
Abbreviation dev_st := (dev_st B W).

Definition vram0 : vram := Vram STATE_INITIALIZING 0 false 0 false [] false 0 0.
Definition new_bo (size : Z) (v : option vram) : gpu_bo := Bo 0 size false false false false false 0 0 0 [] v None None.
Definition bo_set_handle (h : Z) (b : gpu_bo) : gpu_bo :=
  Bo h (bo_size b) (bo_dumb b) (bo_created b) (bo_attached b) (bo_guest_blob b) (bo_host3d_blob b) (bo_blob_mem b)
     (bo_blob_flags b) (bo_uuid_state b) (bo_uuid b) (bo_vram b) (bo_sgt b) (bo_import b).
Definition bo_set_flags (dumb guest : bool) (b : gpu_bo) : gpu_bo :=
  Bo (bo_hw_res_handle b) (bo_size b) dumb (bo_created b) (bo_attached b) guest (bo_host3d_blob b) (bo_blob_mem b)
     (bo_blob_flags b) (bo_uuid_state b) (bo_uuid b) (bo_vram b) (bo_sgt b) (bo_import b).
Definition add_bo (a : Z) (b : gpu_bo) : ST dev_st unit := fun '(d, w) =>
  (tt, (dv_set_bos d (<[a := b]> (dv_bos d)), w)).
Definition drop_bo (a : Z) : ST dev_st unit := fun '(d, w) => (tt, (dv_set_bos d (delete a (dv_bos d)), w)).

Definition with_size (p : object_params) (size : Z) : object_params :=
  ObjParams size (op_dumb p) (op_virgl p) (op_blob p) (op_format p) (op_width p) (op_height p) (op_target p)
    (op_bind p) (op_depth p) (op_array_size p) (op_last_level p) (op_nr_samples p) (op_flags p) (op_ctx_id p)
    (op_blob_mem p) (op_blob_flags p) (op_blob_id p).

Definition virtio_gpu_vram_free (a : Z) : ST dev_st unit := fun st =>
  match dv_bos (fst st) !! a with
  | Some b =>
      if negb (bo_created b) then (tt, st)
      else
        let st1 := match bo_vram b with
                   | Some v => if vr_node_allocated v then snd (virtio_gpu_cmd_unmap sleep fuel a st) else st
                   | None => st
                   end in
        notify (snd (virtio_gpu_cmd_unref_resource sleep lock fuel a st1))
  | None => (tt, st)
  end.

(** the vram fields set by a successful node insertion *)
Definition vram_set_node (start size : Z) (v : vram) : vram :=
  Vram (vr_map_state v) (vr_map_info v) (vr_pool_resident v) (vr_pool_offset v) (vr_guest_pool_owned v)
       (vr_blocks v) true start size.
Definition vram_clear_node (v : vram) : vram :=
  Vram (vr_map_state v) (vr_map_info v) (vr_pool_resident v) (vr_pool_offset v) (vr_guest_pool_owned v)
       (vr_blocks v) false (vr_node_start v) (vr_node_size v).
Definition on_vram (a : Z) (f : vram -> vram) : ST dev_st unit :=
  on_bo a (fun b => match bo_vram b with Some v => bo_set_vram (f v) b | None => b end).

(** [virtio_gpu_vram_map]: reserve a 2 MiB-granular node and ask the host to map the blob there.
    [region_addr] is the start of the host-visible window, if the device has one. *)
Definition virtio_gpu_vram_map (region : option Z) (a : Z) : ST dev_st Z := fun st =>
  match region, dv_bos (fst st) !! a with
  | Some region_addr, Some b =>
      let size := ALIGN (bo_size b) SZ_2M in
      let '((ret, start), st1) := on_world (drm_mm_insert_node size SZ_2M) st in
      if c_true ret then (ret, st1)
      else
        let '(_, st2) := on_vram a (vram_set_node start size) st1 in
        let remove st := snd (on_vram a vram_clear_node (snd (on_world (drm_mm_remove_node start size) st))) in
        let '(objs, st3) := on_world (virtio_gpu_array_alloc 1) st2 in
        match objs with
        | None => (- ENOMEM, remove st3)
        | Some arr =>
            let '(arr, st4) := on_world (virtio_gpu_array_add_obj arr a) st3 in
            let '(ret, st5) := virtio_gpu_cmd_map sleep fuel (oa_objs arr) (u64 (start - region_addr)) st4 in
            if c_true ret
            then (ret, remove (snd (on_world (virtio_gpu_array_put_free (Some (oa_objs arr))) st5)))
            else (0, st5)
        end
  | _, _ => (- EINVAL, st)
  end.

(** the result, and the object *)
Definition virtio_gpu_vram_create (region : option Z) (p : object_params) : ST dev_st (Z * option Z) := fun st =>
  let '(addr, st0) := on_world kzalloc_vram st in
  match addr with
  | None => ((- ENOMEM, None), st0)
  | Some a =>
      let p := with_size p (ALIGN (op_size p) PAGE_SIZE) in
      let '(_, st1) := add_bo a (new_bo (op_size p) (Some vram0)) st0 in
      let '(ret, st2) := on_world drm_gem_create_mmap_offset st1 in
      let bail ret st := ((ret, None), snd (drop_bo a (snd (on_world (kfree_vram a) st)))) in
      if c_true ret then bail ret st2
      else
        let '((ret, id), st3) := virtio_gpu_resource_id_get st2 in
        if c_true ret then bail ret st3
        else
          let '(_, st4) := on_bo a (bo_set_handle id) st3 in
          let '(_, st5) := virtio_gpu_cmd_resource_create_blob sleep fuel a p [] 0 st4 in
          if c_true (Z.land (op_blob_flags p) VIRTIO_GPU_BLOB_FLAG_USE_MAPPABLE) then
            let '(ret, st6) := virtio_gpu_vram_map region a st5 in
            if c_true ret then ((ret, None), snd (virtio_gpu_vram_free a st6)) else ((0, Some a), st6)
          else ((0, Some a), st5)
  end.

(** ** Guest-pool objects *)

(** the memory entries: one per block, in order *)
Definition pool_ents (base : Z) (blocks : list block) : list gpu_mem_entry :=
  (fun k => MemEntry (u64 (base + bk_offset k)) (u32 (bk_size k))) <$> blocks.

(** the vram part of a guest-pool object *)
Definition pool_vram (size : Z) (blocks : list block) : vram :=
  Vram STATE_INITIALIZING VIRTIO_GPU_MAP_CACHE_CACHED true 0 true blocks false 0 size.

(** the labels [err_obj] and [err_pool]: the blocks, the object and its memory go back *)
Definition guest_pool_create_err_obj (a : Z) (blocks : list block) (ret : Z) : ST dev_st (Z * option Z) := fun st =>
  let '(_, st) := on_pool (virtio_gpu_guest_pool_free lock blocks) st in
  let '(_, st) := on_world (drm_gem_object_release a) st in
  ((ret, None), snd (drop_bo a (snd (on_world (kfree_vram a) st)))).

(** the creation from the object's allocation on *)
Definition guest_pool_create_object (max_nents' : Z) (p : object_params) (a : Z) (blocks : list block)
  : ST dev_st (Z * option Z) := fun st3 =>
  let err_obj := guest_pool_create_err_obj a blocks in
  let '(ret, st4) := on_world drm_gem_create_mmap_offset st3 in
  if c_true ret then err_obj ret st4
  else
    let '((ret, id), st5) := virtio_gpu_resource_id_get st4 in
    if c_true ret then err_obj ret st5
    else
      let '(_, st5) := on_bo a (bo_set_handle id) st5 in
      let nents := u32 (Z.of_nat (length blocks)) in
      let d5 := fst st5 in
      let st6 := if (nents >? 1) && negb (gp_multiblock_seen (dv_pool d5))
                 then (dv_set_pool d5 (set_multiblock (dv_pool d5)), snd st5) else st5 in
      if (max_nents' >? 0) && (nents >? max_nents') then err_obj (- ENOSPC) st6
      else
        let '(ents, st7) := on_world (kvmalloc_ents nents) st6 in
        match ents with
        | None => err_obj (- ENOMEM) st7
        | Some data =>
            let '(_, st8) := on_bo a (bo_set_vram (pool_vram (op_size p) blocks)) st7 in
            let '(_, st9) := virtio_gpu_cmd_resource_create_blob sleep fuel a p
                               (pool_ents (gp_base (dv_pool (fst st8))) blocks) data st8 in
            ((0, Some a), snd (notify st9))
        end.

(** [virtio_gpu_guest_pool_create]; [max_nents] is the module parameter as the allocation reads it,
    [max_nents'] as the check below does. *)
Definition virtio_gpu_guest_pool_create (max_nents max_nents' : Z) (p : object_params)
  : ST dev_st (Z * option Z) := fun st =>
  let p := with_size p (ALIGN (op_size p) PAGE_SIZE) in
  let '(r, st1) := on_pool (virtio_gpu_guest_pool_alloc lock max_nents (op_size p)) st in
  match r with
  | None => ((- ENOMEM, None), st1)
  | Some (ret, blocks) =>
      if c_true ret then ((- ENOMEM, None), snd (on_pool (virtio_gpu_guest_pool_stats lock) st1))
      else
        let '(addr, st2) := on_world kzalloc_vram st1 in
        match addr with
        | None => ((- ENOMEM, None), snd (on_pool (virtio_gpu_guest_pool_free lock blocks) st2))
        | Some a =>
            let '(_, st3) := add_bo a (new_bo (op_size p) (Some vram0)) st2 in
            guest_pool_create_object max_nents' p a blocks st3
        end
  end.

(** ** Shmem objects *)

(** the entries of the object's pages, or an errno *)
Definition virtio_gpu_object_shmem_init (a : Z) : ST dev_st (Z + (list gpu_mem_entry * Z)) := fun st =>
  let '(pages, st1) := on_world (shmem_pages (dv_use_dma_api (fst st)) a) st in
  match pages with
  | inl e => (inl e, st1)
  | inr segs =>
      let '(ents, st2) := on_world (kvmalloc_ents (Z.of_nat (length segs))) st1 in
      match ents with
      | None => (inl (- ENOMEM), st2)
      | Some data => (inr ((fun s => MemEntry (u64 (fst s)) (u32 (snd s))) <$> segs, data), st2)
      end
  end.

(** the error labels of [virtio_gpu_object_create], each falling into the next *)
Definition object_create_err_free_gem (a ret : Z) : ST dev_st (Z * option Z) := fun st =>
  ((ret, None), snd (drop_bo a (snd (on_world (drm_gem_shmem_free a) st)))).
Definition object_create_err_put_id (a id ret : Z) : ST dev_st (Z * option Z) := fun st =>
  object_create_err_free_gem a ret (snd (virtio_gpu_resource_id_put id st)).
Definition object_create_err_free_entry (a id data ret : Z) : ST dev_st (Z * option Z) := fun st =>
  object_create_err_put_id a id ret (snd (on_world (kvfree_ents data) st)).

(** with a fence: the array of the one object, its reservation locked; [err_put_objs] included *)
Definition object_create_lock (fence : option virtio_gpu_fence) (a : Z) : ST W (Z * option (list Z)) := fun w =>
  match fence with
  | None => ((0, None), w)
  | Some _ =>
      let '(arr, w1) := virtio_gpu_array_alloc 1 w in
      match arr with
      | None => ((- ENOMEM, None), w1)
      | Some arr =>
          let '(arr, w2) := virtio_gpu_array_add_obj arr a w1 in
          let '(ret, w3) := virtio_gpu_array_lock_resv (oa_objs arr) w2 in
          if c_true ret then ((ret, None), snd (virtio_gpu_array_put_free (Some (oa_objs arr)) w3))
          else ((0, Some (oa_objs arr)), w3)
      end
  end.

(** the commands that tell the host of the object *)
Definition object_create_send (p : object_params) (fence : option virtio_gpu_fence) (a : Z)
  (ents : list gpu_mem_entry) (data : Z) (objs : option (list Z)) : ST dev_st (Z * option Z) := fun st5 =>
  if op_blob p then
    let '(_, st6) := if op_blob_mem p =? VIRTIO_GPU_BLOB_MEM_GUEST
                     then on_bo a (bo_set_flags (op_dumb p) true) st5 else (tt, st5) in
    ((0, Some a), snd (virtio_gpu_cmd_resource_create_blob sleep fuel a p ents data st6))
  else if op_virgl p then
    let '(_, st6) := virtio_gpu_cmd_resource_create_3d sleep fuel a p objs fence st5 in
    ((0, Some a), snd (virtio_gpu_object_attach sleep fuel a ents data st6))
  else
    let '(_, st6) := virtio_gpu_cmd_create_resource sleep fuel a p objs fence st5 in
    ((0, Some a), snd (virtio_gpu_object_attach sleep fuel a ents data st6)).

(** [roundup(params->size, PAGE_SIZE)] *)
Definition shmem_size (p : object_params) : Z := u64 (op_size p + (PAGE_SIZE - 1)) / PAGE_SIZE * PAGE_SIZE.

(** the result, and the object *)
Definition virtio_gpu_object_create (p : object_params) (fence : option virtio_gpu_fence)
  : ST dev_st (Z * option Z) := fun st =>
  let p := with_size p (shmem_size p) in
  let '(obj, st1) := on_world (drm_gem_shmem_create (op_size p)) st in
  match obj with
  | inl e => ((e, None), st1)
  | inr a =>
      let '(_, st1) := add_bo a (new_bo (op_size p) None) st1 in
      let '((ret, id), st2) := virtio_gpu_resource_id_get st1 in
      if ret <? 0 then object_create_err_free_gem a ret st2
      else
        let '(_, st3) := on_bo a (fun b => bo_set_flags (op_dumb p) false (bo_set_handle id b)) st2 in
        let '(ents, st4) := virtio_gpu_object_shmem_init a st3 in
        match ents with
        | inl e => object_create_err_put_id a id e st4
        | inr (ents, data) =>
            let '((ret, objs), st5) := on_world (object_create_lock fence a) st4 in
            if c_true ret then object_create_err_free_entry a id data ret st5
            else object_create_send p fence a ents data objs st5
        end
  end.

Definition virtio_gpu_free_object (a : Z) : ST dev_st unit := fun st =>
  match dv_bos (fst st) !! a with
  | Some b =>
      if bo_created b then notify (snd (virtio_gpu_cmd_unref_resource sleep lock fuel a st))
      else virtio_gpu_cleanup_object a st
  | None => (tt, st)
  end.

End Objects.
