(* ===== verification/VramProps.v ===== *)
(** * Properties of the VRAM objects

    The user mapping of a guest-pool blob is the blob byte for byte, the DMA mapping is all or
    nothing, and the creation of an object keeps its resources or gives every one of them back. *)

From stdpp Require Import gmap.
From S2P Require Import Prelude PoolCtl GuestPool GuestPoolSpec GuestPoolFacts GuestPoolProps Wire Fence ObjArray CtrlQueue GpuDev GpuCmds GpuProps VramObj.

(** ** What the kernel's mapping services do, as far as the driver can tell

    The page-table entries made, as (address, first frame, length, protection); the live DMA
    mappings, as (DMA address, physical address, length); the scatter tables held. *)
Record map_obs := MapObs {
  mo_user : list (Z * Z * Z * pgprot); mo_dma : list (Z * Z * Z); mo_tables : Z
}.

(** the addresses of the live DMA mappings *)
Definition dma_addrs (l : list (Z * Z * Z)) : list Z := (fun m => fst (fst m)) <$> l.

#[export] Instance dma_addrs_proper : Proper ((≡ₚ) ==> (≡ₚ)) dma_addrs.
Proof. intros l l' Hl. unfold dma_addrs. by rewrite Hl. Qed.

Class MapLaws (W : Type) `{VramEnv W} := {
  mobs : W -> map_obs;
  law_remap ua pfn len prot w : fst (io_remap_pfn_range ua pfn len prot w) = 0 ->
    mobs (snd (io_remap_pfn_range ua pfn len prot w)) =
    MapObs (mo_user (mobs w) ++ [(ua, pfn, len, prot)]) (mo_dma (mobs w)) (mo_tables (mobs w));
  law_sgt_kzalloc w : mobs (snd (sgt_kzalloc w)) =
    MapObs (mo_user (mobs w)) (mo_dma (mobs w)) (mo_tables (mobs w) + (if fst (sgt_kzalloc w) then 1 else 0));
  law_sg_alloc n w : mobs (snd (sg_alloc_table n w)) = mobs w;
  law_sgt_release w : mobs (snd (sgt_release w)) =
    MapObs (mo_user (mobs w)) (mo_dma (mobs w)) (mo_tables (mobs w) - 1);
  law_dma_map pa len w : mobs (snd (dma_map_resource pa len w)) =
    MapObs (mo_user (mobs w))
           (match fst (dma_map_resource pa len w) with
            | Some a => (a, pa, len) :: mo_dma (mobs w) | None => mo_dma (mobs w) end)
           (mo_tables (mobs w));
  law_dma_fresh pa len w a : fst (dma_map_resource pa len w) = Some a -> a ∉ dma_addrs (mo_dma (mobs w));
  law_dma_unmap a len w :
    mo_user (mobs (snd (dma_unmap_resource a len w))) = mo_user (mobs w) /\
    mo_tables (mobs (snd (dma_unmap_resource a len w))) = mo_tables (mobs w) /\
    forall pa l, mo_dma (mobs w) ≡ₚ (a, pa, len) :: l -> a ∉ dma_addrs l ->
      mo_dma (mobs (snd (dma_unmap_resource a len w))) ≡ₚ l
}.

(** ** The user mapping *)

(** the pool byte behind byte [i] of a blob with these blocks *)
Fixpoint pool_byte (blocks : list block) (i : Z) : Z :=
  match blocks with
  | [] => 0
  | k :: rest => if i <? bk_size k then bk_offset k + i else pool_byte rest (i - bk_size k)
  end.

(** the physical byte behind user address [u], through the first entry that covers it *)
Fixpoint user_pa (l : list (Z * Z * Z * pgprot)) (u : Z) : option Z :=
  match l with
  | [] => None
  | (ua, pfn, len, _) :: rest =>
      if (ua <=? u) && (u <? ua + len) then Some (pfn * PAGE_SIZE + (u - ua)) else user_pa rest u
  end.

Definition page_mult (z : Z) : Prop := (PAGE_SIZE | z).
Definition page_block (k : block) : Prop := 0 < bk_size k /\ page_mult (bk_offset k) /\ page_mult (bk_size k).

Lemma pfn_round z : page_mult z -> Z.shiftr z PAGE_SHIFT * PAGE_SIZE = z.
Proof.
  intros [q ->]. rewrite Z.shiftr_div_pow2 by (unfold PAGE_SHIFT; lia).
  change (2 ^ PAGE_SHIFT) with PAGE_SIZE. rewrite Z.div_mul; [done | by unfold PAGE_SIZE].
Qed.

Section Mmap.
Context {W : Type} `{ML : MapLaws W}.

Lemma mmap_blocks_spec base vend prot blocks uaddr skip w :
  page_mult base -> Forall page_block blocks -> page_mult skip -> 0 <= skip -> uaddr <= vend ->
  let '((ret, u'), w') := mmap_blocks base vend prot blocks uaddr skip w in
  (ret <> 0 /\ exists ua pfn len w0, fst (io_remap_pfn_range ua pfn len prot w0) = ret) \/
  ret = 0 /\ u' = Z.min vend (Z.max uaddr (uaddr + blocks_total blocks - skip)) /\
  exists segs, mo_user (mobs w') = mo_user (mobs w) ++ segs /\ mo_dma (mobs w') = mo_dma (mobs w) /\
    Forall (fun s => snd s = prot) segs /\
    forall u, uaddr <= u < u' -> user_pa segs u = Some (base + pool_byte blocks (skip + (u - uaddr))).
Proof.
  intros Hbase Hbl. revert uaddr skip w; induction Hbl as [|k rest (Hk1 & Hk2 & Hk3) Hrest IH];
    intros uaddr skip w Hskip Hs0 Hv.
  { cbn. right. split_and!; [done | lia|]. exists []. rewrite app_nil_r. split_and!; [done..|constructor|lia]. }
  cbn [mmap_blocks]. unfold blocks_total in *. cbn [fmap list_fmap foldr].
  assert (Htot : 0 <= foldr Z.add 0 (bk_size <$> rest)).
  { clear -Hrest. induction Hrest as [|x l [? _] _ IH]; cbn; lia. }
  case_if; bool_prop.
  - (* the block lies before the offset *)
    assert (page_mult (skip - bk_size k)) by (by apply Z.divide_sub_r).
    specialize (IH uaddr (skip - bk_size k) w ltac:(done) ltac:(lia) Hv).
    destruct (mmap_blocks base vend prot rest uaddr (skip - bk_size k) w) as [[ret u'] w'].
    destruct IH as [IH|(-> & -> & segs & S1 & S2 & S3 & S4)]; [by left|]. right.
    split_and!; [done | lia|]. exists segs. split_and!; [done..|].
    intros u Hu. rewrite S4 by lia. do 2 f_equal. cbn [pool_byte].
    destruct (Z.ltb_spec (skip + (u - uaddr)) (bk_size k)); [lia|]. f_equal. lia.
  - match goal with |- context [if (if ?b then ?x else ?y) =? 0 then _ else _] => set (len := if b then x else y) end.
    assert (Hlen : len = Z.min (bk_size k - skip) (vend - uaddr)) by (subst len; case_if; bool_prop; lia).
    clearbody len. case_if; bool_prop.
    { right. split_and!; [done | lia|]. exists []. rewrite app_nil_r. split_and!; [done..|constructor|lia]. }
    pose proof (law_remap uaddr (Z.shiftr (base + (bk_offset k + skip)) PAGE_SHIFT) len prot w) as Hl.
    destruct (io_remap_pfn_range _ _ len prot w) as [ret w1] eqn:Er. cbn [fst snd] in Hl.
    unfold c_true. destruct (Z.eqb_spec ret 0) as [->|Hne]; cbn [negb].
    2:{ left. split; [done|]. eexists _, _, _, w. by rewrite Er. }
    specialize (Hl eq_refl).
    assert (Hpa : page_mult (base + (bk_offset k + skip))) by (by repeat apply Z.divide_add_r).
    assert (Hseg : forall u, uaddr <= u < uaddr + len ->
      user_pa [(uaddr, Z.shiftr (base + (bk_offset k + skip)) PAGE_SHIFT, len, prot)] u =
      Some (base + pool_byte (k :: rest) (skip + (u - uaddr)))).
    { intros u Hu. cbn [user_pa pool_byte]. rewrite pfn_round by done.
      destruct (Z.leb_spec uaddr u), (Z.ltb_spec u (uaddr + len)); try lia. cbn [andb].
      destruct (Z.ltb_spec (skip + (u - uaddr)) (bk_size k)); [|lia]. f_equal. lia. }
    case_if; bool_prop.
    + right. split_and!; [done | lia|]. eexists. rewrite Hl. cbn. split_and!; [done..| |].
      * by constructor.
      * intros u Hu. apply Hseg. lia.
    + specialize (IH (uaddr + len) 0 w1 (Z.divide_0_r _) ltac:(lia) ltac:(lia)).
      destruct (mmap_blocks base vend prot rest (uaddr + len) 0 w1) as [[ret u'] w'].
      destruct IH as [IH|(-> & -> & segs & S1 & S2 & S3 & S4)]; [by left|]. right.
      split_and!; [done | lia|]. exists ((uaddr, Z.shiftr (base + (bk_offset k + skip)) PAGE_SHIFT, len, prot) :: segs).
      rewrite S1, S2, Hl. cbn [mo_user mo_dma]. split_and!; [by rewrite <- app_assoc | done | |].
      * by constructor.
      * intros u Hu. destruct (Z.ltb_spec u (uaddr + len)) as [Hlt|Hge].
        -- specialize (Hseg u ltac:(lia)). cbn [user_pa app] in *.
           destruct ((uaddr <=? u) && (u <? uaddr + len)); [done|discriminate].
        -- cbn [user_pa]. destruct (Z.ltb_spec u (uaddr + len)); [lia|]. rewrite andb_false_r.
           rewrite S4 by lia. do 2 f_equal. cbn [pool_byte].
           destruct (Z.ltb_spec (skip + (u - uaddr)) (bk_size k)); [lia|]. f_equal. lia.
Qed.

(** ** The DMA mapping *)

(** the live mappings of some segments: their addresses, with the blocks they map *)
Definition dma_of (base : Z) (addrs : list Z) (blocks : list block) : list (Z * Z * Z) :=
  zip_with (fun a k => (a, u64 (base + bk_offset k), bk_size k)) addrs blocks.
Definition segs_of (addrs : list Z) (blocks : list block) : list (Z * Z) :=
  zip_with (fun a k => (a, bk_size k)) addrs blocks.
(** the addresses of a table under construction are new and distinct *)
Definition fresh_addrs (addrs : list Z) (l : list (Z * Z * Z)) : Prop :=
  NoDup addrs /\ Forall (fun a => a ∉ dma_addrs l) addrs.
Lemma dma_addrs_of base addrs blocks l : length addrs = length blocks ->
  dma_addrs (dma_of base addrs blocks ++ l) = addrs ++ dma_addrs l.
Proof.
  intros Hl. unfold dma_addrs, dma_of. rewrite fmap_app. f_equal.
  revert blocks Hl; induction addrs as [|a addrs IH]; intros [|k blocks] Hl; try done.
  cbn. f_equal. apply IH. by injection Hl.
Qed.
Definition dma_sized (k : block) : Prop := 0 < bk_size k < 2 ^ 32.

Lemma dma_unmap_spec base addrs blocks l w :
  length addrs = length blocks -> Forall dma_sized blocks -> fresh_addrs addrs l ->
  mo_dma (mobs w) ≡ₚ dma_of base addrs blocks ++ l ->
  let w' := snd (dma_unmap_all (segs_of addrs blocks) w) in
  mo_dma (mobs w') ≡ₚ l /\ mo_user (mobs w') = mo_user (mobs w) /\ mo_tables (mobs w') = mo_tables (mobs w).
Proof.
  revert blocks w; induction addrs as [|a addrs IH]; intros [|k blocks] w Hlen Hbl [Hf1 Hf2] Hw; try done.
  injection Hlen as Hlen. apply NoDup_cons in Hf1 as [Hf1 Hf3]. apply Forall_cons in Hf2 as [Hf2 Hf4]. apply Forall_cons in Hbl as [Hk Hbl]. unfold dma_sized in Hk.
  unfold segs_of, dma_of in *. cbn [zip_with dma_unmap_all] in *.
  destruct (Z.eqb_spec (bk_size k) 0); [lia|].
  destruct (law_dma_unmap a (bk_size k) w) as (U1 & U2 & U3). rewrite <- U1, <- U2.
  apply IH; [done..|]. eapply U3; [exact Hw|]. fold (dma_of base addrs blocks).
  rewrite (dma_addrs_of base addrs blocks l Hlen), elem_of_app. tauto.
Qed.

Lemma dma_map_spec base done blocks addrs w l :
  Forall dma_sized blocks -> Forall dma_sized done -> length addrs = length done -> fresh_addrs addrs l ->
  mo_dma (mobs w) ≡ₚ dma_of base addrs done ++ l ->
  let '((ok, segs), w') := dma_map_blocks base blocks (segs_of addrs done) w in
  mo_user (mobs w') = mo_user (mobs w) /\ mo_tables (mobs w') = mo_tables (mobs w) /\
  exists addrs' done', segs = segs_of addrs' done' /\ length addrs' = length done' /\ Forall dma_sized done' /\
    fresh_addrs addrs' l /\ mo_dma (mobs w') ≡ₚ dma_of base addrs' done' ++ l /\ (ok = true -> done' = done ++ blocks).
Proof.
  revert done addrs w; induction blocks as [|k blocks IH]; intros done addrs w Hbl Hdn Hlen Hf Hw; cbn [dma_map_blocks].
  { split_and!; [done..|]. exists addrs, done. rewrite app_nil_r. by split_and!. }
  apply Forall_cons in Hbl as [Hk Hbl].
  pose proof (law_dma_map (u64 (base + bk_offset k)) (bk_size k) w) as Hl.
  pose proof (law_dma_fresh (u64 (base + bk_offset k)) (bk_size k) w) as Hfr.
  destruct (dma_map_resource _ _ w) as [[a|] w1]; cbn [fst snd] in Hl, Hfr.
  2:{ rewrite Hl. split_and!; [done..|]. exists addrs, done. by split_and!. }
  rewrite u32_small by (unfold dma_sized in Hk; lia).
  assert (Hseg : segs_of addrs done ++ [(a, bk_size k)] = segs_of (addrs ++ [a]) (done ++ [k])).
  { unfold segs_of. by rewrite zip_with_app by done. }
  rewrite Hseg. specialize (IH (done ++ [k]) (addrs ++ [a]) w1 Hbl).
  destruct (dma_map_blocks _ _ _ _) as [[ok segs] w'].
  destruct IH as (I1 & I2 & addrs' & done' & I3 & I4 & I5 & I8 & I6 & I7).
  - apply Forall_app. split; [done|]. by apply Forall_singleton.
  - rewrite !length_app. cbn. lia.
  - specialize (Hfr a eq_refl). rewrite Hw, (dma_addrs_of base addrs done l Hlen), elem_of_app in Hfr.
    destruct Hf as [Hf1 Hf2]. split.
    + apply NoDup_app. split_and!; [done| |apply NoDup_singleton].
      intros x Hx Hx'. apply list_elem_of_singleton in Hx' as ->. tauto.
    + apply Forall_app. split; [done|]. apply Forall_singleton. tauto.
  - rewrite Hl. cbn [mo_dma]. rewrite Hw. unfold dma_of. rewrite zip_with_app by done. cbn [zip_with].
    rewrite <- (assoc_L (++)). cbn [app]. apply Permutation_middle.
  - rewrite I1, I2, Hl. split_and!; [done..|]. exists addrs', done'. split_and!; try done.
    intros Hok. rewrite (I7 Hok), <- app_assoc. done.
Qed.

End Mmap.

(** C10: the user mapping of a guest-pool blob is the blob, byte for byte: a successful mmap makes
    every user address of the area lead to the pool byte at the same offset of the blob, across
    block boundaries and for a part of the blob that starts inside a block, with the protection
    of the blob; a request past the end of the blob is refused before anything is mapped, and the
    mapping can fail otherwise only when the kernel refuses a page range. *)
Theorem mmap_stitches_blocks {W} `{ML : MapLaws W} guest_base pool_base node_start bo v vma (w : W)
  (Hown : vr_guest_pool_owned v = true) (Hbase : guest_base <> 0 /\ page_mult guest_base)
  (Hbl : Forall page_block (vr_blocks v)) (Hsize : vr_node_size v <= blocks_total (vr_blocks v))
  (Hvma : vm_start vma <= vm_end vma) :
  let start := u64 (Z.shiftl (u64 (vm_pgoff vma - node_start)) PAGE_SHIFT) in
  let size := vm_end vma - vm_start vma in
  let '(r, w') := virtio_gpu_vram_mmap guest_base pool_base node_start bo v vma w in
  (r = Some (- EINVAL) /\ w' = w /\ (2 ^ 64 <= start + size \/ vr_node_size v < start + size)) \/
  (exists e ua pfn len w0, r = Some e /\ e <> 0 /\ fst (io_remap_pfn_range ua pfn len (map_prot v) w0) = e) \/
  (r = Some 0 /\ start + size <= vr_node_size v /\
   exists segs, mo_user (mobs w') = mo_user (mobs w) ++ segs /\ Forall (fun s => snd s = map_prot v) segs /\
     forall u, vm_start vma <= u < vm_end vma ->
       user_pa segs u = Some (guest_base + pool_byte (vr_blocks v) (start + (u - vm_start vma)))).
Proof.
  destruct Hbase as [Hb0 Hbm]. intros start size. unfold virtio_gpu_vram_mmap. rewrite Hown. cbn [negb andb].
  rewrite andb_false_r. fold start size. case_if; bool_prop; [left; split_and!; [done..|by left]|].
  case_if; bool_prop; [left; split_and!; [done..|by right]|]. case_if; bool_prop; [done|].
  assert (Hst : page_mult start /\ 0 <= start).
  { split; [|apply u64_range]. subst start. unfold u64 at 1. rewrite Z.shiftl_mul_pow2 by (unfold PAGE_SHIFT; lia).
    change (2 ^ PAGE_SHIFT) with PAGE_SIZE. change (2 ^ 64) with (2 ^ 52 * PAGE_SIZE).
    rewrite Z.mul_mod_distr_r by (unfold PAGE_SIZE; lia). apply Z.divide_factor_r. }
  pose proof (mmap_blocks_spec guest_base (vm_end vma) (map_prot v) (vr_blocks v) (vm_start vma) start w
                Hbm Hbl (proj1 Hst) (proj2 Hst) Hvma) as Hm.
  destruct (mmap_blocks _ _ _ _ _ _ w) as [[ret u'] w1]. unfold c_true.
  destruct Hm as [(Hne & ua & pfn & len & w0 & Hr)|(-> & Hu & segs & S1 & S2 & S3 & S4)].
  - destruct (Z.eqb_spec ret 0); [done|]. cbn [negb]. right; left. by exists ret, ua, pfn, len, w0.
  - cbn [negb Z.eqb]. destruct (Z.ltb_spec u' (vm_end vma)); [subst size; lia|].
    right; right. split_and!; [done | done|]. exists segs. split_and!; [done..|]. intros u Hur. apply S4. lia.
Qed.

(** C29: mapping a blob for DMA is all or nothing, and unmapping undoes it, for a blob of fewer than
    2^32 blocks of less than 4 GiB each (or a window of less than 4 GiB): lengths are cut to 32 bits
    beyond. On success a guest-pool blob has one segment per block, in the order of the blob, each
    with the length of its block and the address the kernel gave for the block's physical range; a
    failure leaves no mapping and no table behind; and unmapping the table leaves everything as
    before the mapping. *)
Theorem dma_map_all_or_nothing {W} `{ML : MapLaws W} base bo v dev_ok (w : W)
  (Hbl : Forall dma_sized (vr_blocks v)) (Hnode : vr_guest_pool_owned v = false -> 0 < vr_node_size v < 2 ^ 32)
  (Hn : Z.of_nat (length (vr_blocks v)) < 2 ^ 32) :
  let '(r, w') := virtio_gpu_vram_map_dma_buf base bo v dev_ok w in
  match r with
  | inl e => mo_dma (mobs w') ≡ₚ mo_dma (mobs w) /\ mo_tables (mobs w') = mo_tables (mobs w)
  | inr segs =>
      mo_tables (mobs w') = mo_tables (mobs w) + 1 /\
      (vr_guest_pool_owned v = true -> exists addrs, length addrs = length (vr_blocks v) /\
         segs = segs_of addrs (vr_blocks v) /\
         mo_dma (mobs w') ≡ₚ dma_of base addrs (vr_blocks v) ++ mo_dma (mobs w)) /\
      let '(_, w2) := virtio_gpu_vram_unmap_dma_buf segs w' in
      mo_dma (mobs w2) ≡ₚ mo_dma (mobs w) /\ mo_tables (mobs w2) = mo_tables (mobs w)
  end.
Proof.
  unfold virtio_gpu_vram_map_dma_buf, virtio_gpu_vram_unmap_dma_buf.
  pose proof (law_sgt_kzalloc w) as Hz. destruct (sgt_kzalloc w) as [[] w0]; cbn [fst snd negb] in *.
  2:{ by rewrite Hz, Z.add_0_r. }
  assert (Hz1 : mo_dma (mobs w0) = mo_dma (mobs w)) by (by rewrite Hz).
  assert (Hz2 : mo_tables (mobs w0) = mo_tables (mobs w) + 1) by (by rewrite Hz).
  clear Hz. assert (Hfail : forall w1, mobs w1 = mobs w0 ->
    mo_dma (mobs (snd (sgt_release w1))) ≡ₚ mo_dma (mobs w) /\
    mo_tables (mobs (snd (sgt_release w1))) = mo_tables (mobs w)).
  { intros w1 Hw1. rewrite law_sgt_release, Hw1. cbn. rewrite Hz1, Hz2. split; [done|lia]. }
  destruct (vr_guest_pool_owned v).
  - rewrite u32_small by lia. case_if; [by apply Hfail|].
    pose proof (law_sg_alloc (Z.of_nat (length (vr_blocks v))) w0) as Ha.
    destruct (sg_alloc_table _ w0) as [ret w1]. cbn [snd] in Ha. case_if; [by apply Hfail|].
    pose proof (dma_map_spec base [] (vr_blocks v) [] w1 (mo_dma (mobs w)) Hbl ltac:(constructor) eq_refl
                  ltac:(split; constructor)) as Hm.
    cbn [dma_of segs_of zip_with app] in Hm. specialize (Hm ltac:(by rewrite Ha, Hz1)).
    destruct (dma_map_blocks base (vr_blocks v) [] w1) as [[ok segs] w2].
    destruct Hm as (M1 & M2 & addrs & dn & -> & M3 & M4 & M7 & M5 & M6).
    destruct (dma_unmap_spec base addrs dn (mo_dma (mobs w)) w2 M3 M4 M7 M5) as (U1 & U2 & U3).
    rewrite M2, Ha, Hz2 in U3. destruct ok.
    + specialize (M6 eq_refl). cbn [app] in M6. subst dn. split_and!; [by rewrite M2, Ha| by exists addrs|].
      rewrite (surjective_pairing (sgt_release _)), law_sgt_release. cbn. split; [done|lia].
    + rewrite law_sgt_release. cbn. split; [done|lia].
  - specialize (Hnode eq_refl). case_if.
    { destruct dev_ok; [|by apply Hfail]. split_and!; [done | done|]. cbn [dma_unmap_all snd].
      rewrite (surjective_pairing (sgt_release _)). by apply Hfail. }
    pose proof (law_sg_alloc 1 w0) as Ha. destruct (sg_alloc_table 1 w0) as [ret w1]. cbn [snd] in Ha.
    case_if; [by apply Hfail|].
    pose proof (law_dma_map (vr_node_start v) (vr_node_size v) w1) as Hm.
    pose proof (law_dma_fresh (vr_node_start v) (vr_node_size v) w1) as Hfr.
    destruct (dma_map_resource _ _ w1) as [[a|] w2]; cbn [fst snd] in Hm, Hfr.
    2:{ apply Hfail. rewrite Hm, Ha. by destruct (mobs w0). }
    rewrite u32_small by lia. split_and!; [by rewrite Hm, Ha | done|].
    cbn [dma_unmap_all snd]. destruct (Z.eqb_spec (vr_node_size v) 0); [lia|].
    destruct (law_dma_unmap a (vr_node_size v) w2) as (U1 & U2 & U3).
    rewrite (surjective_pairing (sgt_release _)), law_sgt_release. cbn. rewrite U2, Hm, Ha, Hz2. cbn.
    split; [|lia]. eapply (U3 (vr_node_start v)). { rewrite Hm, Ha, Hz1. done. }
    rewrite <- Hz1, <- Ha. by apply Hfr.
Qed.

(** ** A concrete mapper, whose DMA mappings run out *)

Record toy_map := ToyMap { ty_obs : map_obs; ty_left : nat }.

(** the first live mapping of an address and a length is taken out *)
Fixpoint dma_take (a len : Z) (l : list (Z * Z * Z)) : list (Z * Z * Z) :=
  match l with
  | [] => []
  | m :: l => if (fst (fst m) =? a) && (snd m =? len) then l else m :: dma_take a len l
  end.

Lemma dma_take_perm a len pa l rest : l ≡ₚ (a, pa, len) :: rest -> a ∉ dma_addrs rest ->
  dma_take a len l ≡ₚ rest.
Proof.
  revert rest; induction l as [|m l IH]; intros rest Hp Hn; [by apply Permutation_nil_cons in Hp|].
  cbn [dma_take]. destruct ((fst (fst m) =? a) && (snd m =? len)) eqn:E.
  - assert (Hm : m = (a, pa, len)).
    { assert (Hin : m ∈ (a, pa, len) :: rest) by (rewrite <- Hp; by left).
      apply elem_of_cons in Hin as [->|Hin]; [done|]. bool_prop. exfalso. apply Hn.
      apply list_elem_of_fmap. by exists m. }
    subst m. by apply Permutation_cons_inv in Hp.
  - assert (Hin : (a, pa, len) ∈ m :: l) by (rewrite Hp; by left).
    apply elem_of_cons in Hin as [<-|Hin]; [cbn in E; by rewrite !Z.eqb_refl in E|].
    apply list_elem_of_split in Hin as (l1 & l2 & ->).
    assert (Hr : rest ≡ₚ m :: l1 ++ l2).
    { apply (Permutation_cons_inv (a := (a, pa, len))). rewrite <- Hp. cbn.
      rewrite <- Permutation_middle. apply Permutation_swap. }
    rewrite Hr. constructor. apply IH.
    + by rewrite <- Permutation_middle.
    + rewrite Hr in Hn. cbn in Hn. intros Hx. apply Hn. by right.
Qed.

#[export] Instance toy_map_env : VramEnv toy_map := {
  kzalloc_vram w := (Some 1, w);
  kfree_vram a w := (tt, w);
  drm_gem_create_mmap_offset w := (0, w);
  drm_gem_object_release a w := (tt, w);
  kvmalloc_ents n w := (Some 1, w);
  kvfree_ents a w := (tt, w);
  drm_mm_insert_node s a w := ((0, 0), w);
  io_remap_pfn_range ua pfn len prot w := let o := ty_obs w in
    (0, ToyMap (MapObs (mo_user o ++ [(ua, pfn, len, prot)]) (mo_dma o) (mo_tables o)) (ty_left w));
  sgt_kzalloc w := let o := ty_obs w in
    (true, ToyMap (MapObs (mo_user o) (mo_dma o) (mo_tables o + 1)) (ty_left w));
  sg_alloc_table n w := (0, w);
  sgt_release w := let o := ty_obs w in
    (tt, ToyMap (MapObs (mo_user o) (mo_dma o) (mo_tables o - 1)) (ty_left w));
  dma_map_resource pa len w := let o := ty_obs w in
    match ty_left w with
    | O => (None, w)
    | S n => let a := above (dma_addrs (mo_dma o)) in
        (Some a, ToyMap (MapObs (mo_user o) ((a, pa, len) :: mo_dma o) (mo_tables o)) n)
    end;
  dma_unmap_resource a len w := let o := ty_obs w in
    (tt, ToyMap (MapObs (mo_user o) (dma_take a len (mo_dma o)) (mo_tables o)) (ty_left w));
  drm_gem_shmem_create n w := (inr 1, w);
  shmem_pages d a w := (inr [], w)
}.

#[export] Instance toy_map_laws : MapLaws toy_map.
Proof.
  refine {| mobs := ty_obs |}; [done | done | intros n w; by destruct w | done | | |].
  - intros pa len w. cbn. destruct (ty_left w); cbn; [by destruct (ty_obs w) | done].
  - intros pa len w a. cbn. destruct (ty_left w); [done|]. cbn. intros [= <-]. apply above_fresh.
  - intros a len w. split_and!; [done | done|]. intros pa l Hp Hn. by eapply dma_take_perm.
Defined.

Definition map_empty (n : nat) : toy_map := ToyMap (MapObs [] [] 0) n.
(** three pages at 16 KiB, then one page at 4 KiB *)
Definition two_blocks : list block := [Block 16384 12288; Block 4096 4096].
Definition pool_bo (blocks : list block) : gpu_bo := new_bo (blocks_total blocks) (Some (pool_vram (blocks_total blocks) blocks)).

Lemma mmap_stitches_blocks_witness :
  let v := pool_vram 16384 two_blocks in
  let vma := VmArea 0x10000 0x12000 (512 + 2) in
  let start := u64 (Z.shiftl (u64 (vm_pgoff vma - 512)) PAGE_SHIFT) in
  let size := vm_end vma - vm_start vma in
  let '(r, w') := virtio_gpu_vram_mmap 0x80000000 0 512 (pool_bo two_blocks) v vma (map_empty 0) in
  (r = Some (- EINVAL) /\ w' = map_empty 0 /\ (2 ^ 64 <= start + size \/ vr_node_size v < start + size)) \/
  (exists e ua pfn len w0, r = Some e /\ e <> 0 /\ fst (io_remap_pfn_range ua pfn len (map_prot v) (w0 : toy_map)) = e) \/
  (r = Some 0 /\ start + size <= vr_node_size v /\
   exists segs, mo_user (mobs w') = mo_user (mobs (map_empty 0)) ++ segs /\ Forall (fun s => snd s = map_prot v) segs /\
     forall u, vm_start vma <= u < vm_end vma ->
       user_pa segs u = Some (0x80000000 + pool_byte (vr_blocks v) (start + (u - vm_start vma)))).
Proof.
  apply (mmap_stitches_blocks 0x80000000 0 512 (pool_bo two_blocks) (pool_vram 16384 two_blocks)
           (VmArea 0x10000 0x12000 (512 + 2)) (map_empty 0)).
  - reflexivity.
  - split; [done | by exists 524288].
  - repeat constructor; cbn; (lia || (by exists 4) || (by exists 3) || (by exists 1)).
  - cbn. lia.
  - cbn. lia.
Defined.

(** the third page of the first block, then the only page of the second *)
Example mmap_two_blocks :
  let '(r, w') := virtio_gpu_vram_mmap 0x80000000 0 512 (pool_bo two_blocks) (pool_vram 16384 two_blocks)
                    (VmArea 0x10000 0x12000 (512 + 2)) (map_empty 0) in
  (r, mo_user (ty_obs w')) =
  (Some 0, [(0x10000, 0x80006, 4096, PgCached); (0x11000, 0x80001, 4096, PgCached)]).
Proof. vm_compute. reflexivity. Qed.

Lemma dma_map_all_or_nothing_witness :
  let '(r, w') := virtio_gpu_vram_map_dma_buf 0x80000000 (pool_bo two_blocks) (pool_vram 16384 two_blocks) false (map_empty 1) in
  match r with
  | inl e => mo_dma (mobs w') ≡ₚ mo_dma (mobs (map_empty 1)) /\ mo_tables (mobs w') = mo_tables (mobs (map_empty 1))
  | inr segs =>
      mo_tables (mobs w') = mo_tables (mobs (map_empty 1)) + 1 /\
      (vr_guest_pool_owned (pool_vram 16384 two_blocks) = true -> exists addrs, length addrs = length two_blocks /\
         segs = segs_of addrs two_blocks /\
         mo_dma (mobs w') ≡ₚ dma_of 0x80000000 addrs two_blocks ++ mo_dma (mobs (map_empty 1))) /\
      let '(_, w2) := virtio_gpu_vram_unmap_dma_buf segs w' in
      mo_dma (mobs w2) ≡ₚ mo_dma (mobs (map_empty 1)) /\ mo_tables (mobs w2) = mo_tables (mobs (map_empty 1))
  end.
Proof.
  apply (dma_map_all_or_nothing 0x80000000 (pool_bo two_blocks) (pool_vram 16384 two_blocks) false (map_empty 1)).
  - repeat constructor; cbn; lia.
  - done.
  - cbn. lia.
Defined.

(** A pool block of 4 GiB or more is cut to its low 32 bits on its way to others: the host is
    told a segment of length zero, and the DMA mapping of such a block, whose table says length
    zero, is never undone. *)
Theorem huge_block_truncated :
  let huge := [Block 0 (2 ^ 32)] in
  pool_ents 0x80000000 huge = [MemEntry 0x80000000 0] /\
  let '(r, w1) := virtio_gpu_vram_map_dma_buf 0x80000000 (pool_bo huge) (pool_vram (2 ^ 32) huge) false (map_empty 1) in
  r = inr [(1, 0)] /\
  mo_dma (mobs (snd (virtio_gpu_vram_unmap_dma_buf [(1, 0)] w1))) = [(1, 0x80000000, 2 ^ 32)].
Proof. vm_compute. done. Qed.
