(* ===== verification/ObjProps.v ===== *)
(** * Properties of the creation of objects

    Creating an object either hands over everything it took or gives all of it back: the pool
    blocks of a guest-pool blob, and the GEM object, id and entries of a shmem object. *)

From stdpp Require Import gmap.
From S2P Require Import Prelude PoolCtl GuestPool GuestPoolSpec GuestPoolFacts GuestPoolProps Wire Fence ObjArray CtrlQueue GpuDev GpuCmds GpuProps VramObj.

(** ** Guest-pool blobs *)

Section Live.
Context {B W : Type} `{BL : BuddyLaws B} `{PA : PoolApi W} `{HL : !HostLaws W}.
Implicit Types (p : guest_pool B) (w : W).

(** waiting for the mutex changes neither the live blocks nor whether the pool is open: nobody
    else allocates or frees meanwhile *)
Definition quiet (lock : gp_st B W -> gp_st B W) : Prop := forall st,
  gp_ready (fst (lock st)) = gp_ready (fst st) /\
  mm_live (gp_mm (fst (lock st))) ≡ₚ mm_live (gp_mm (fst st)) /\
  (pool_wf (fst st) -> pool_wf (fst (lock st))).

Definition ready_wf p : Prop := gp_ready p = true -> pool_wf p.

(** what a caller gets, of the blocks alone *)
Definition handed_out (max_nents size : Z) (before : list block) p (blocks : list block) : Prop :=
  blocks_total blocks = fst (guest_pool_request max_nents size) /\ blocks <> [] /\
  Forall (block_in 0 (gp_backed p)) blocks /\ (apart before -> apart (blocks ++ before)).

Lemma alloc_live lock max_nents size p w : quiet lock -> ready_wf p -> 
  0 < fst (guest_pool_request max_nents size) ->
  let '(r, (p', w')) := virtio_gpu_guest_pool_alloc lock max_nents size (p, w) in
  ready_wf p' /\ gp_ready p' = gp_ready p /\ exists ret blocks, r = Some (ret, blocks) /\
  (ret <> 0 -> mm_live (gp_mm p') ≡ₚ mm_live (gp_mm p)) /\
  (ret = 0 -> gp_ready p = true /\ mm_live (gp_mm p') ≡ₚ blocks ++ mm_live (gp_mm p) /\
     handed_out max_nents size (mm_live (gp_mm p)) p' blocks).
Proof.
  intros Hq Hwf Hpos. unfold virtio_gpu_guest_pool_alloc, handed_out.
  assert (Hno : forall e (p1 : guest_pool B), e <> 0 -> ready_wf p1 -> gp_ready p1 = gp_ready p ->
    mm_live (gp_mm p1) ≡ₚ mm_live (gp_mm p) ->
    ready_wf p1 /\ gp_ready p1 = gp_ready p /\ exists ret blocks, Some (e, []) = Some (ret, blocks) /\
    (ret <> 0 -> mm_live (gp_mm p1) ≡ₚ mm_live (gp_mm p)) /\
    (ret = 0 -> gp_ready p = true /\ mm_live (gp_mm p1) ≡ₚ blocks ++ mm_live (gp_mm p) /\
       blocks_total blocks = fst (guest_pool_request max_nents size) /\ blocks <> [] /\
       Forall (block_in 0 (gp_backed p1)) blocks /\
       (apart (mm_live (gp_mm p)) -> apart (blocks ++ mm_live (gp_mm p))))).
  { intros e p1 He H1 H2 H3. split_and!; [done..|]. exists e, []. by split_and!. }
  destruct (gp_ready p) eqn:Hr; cbn [negb orb]; [|by apply Hno].
  case_if; [by apply Hno|]. destruct (guest_pool_request max_nents size) as [req min_bs]. cbn [fst] in *.
  case_if; [by apply Hno|]. destruct (Hq (p, w)) as (Q1 & Q2 & Q3). destruct (lock (p, w)) as [p1 w1].
  cbn [fst] in *. rewrite Q1, Hr. cbn [negb]. specialize (Q3 (Hwf Hr)).
  pose proof (alloc_loop_spec (grow_fuel p1) (grow_fuel p1) req min_bs p1 w1 Q3) as Hl.
  destruct (guest_pool_alloc_loop _ _ _ _ _) as [r [p2 w2]].
  destruct Hl as (ret & blocks & -> & L1 & L2 & L3 & L4 & L5);
    [unfold grow_fuel, steps_below; lia | unfold grow_fuel, steps_below; lia |].
  assert (Hr2 : gp_ready p2 = true) by (destruct L2; congruence).
  unfold c_true. destruct (Z.eqb_spec ret 0) as [->|Hne]; cbn [negb].
  - split_and!; [by intros _ | done|]. exists 0, blocks. destruct (L5 eq_refl) as (C1 & C2 & C3 & C4 & C5).
    split_and!; try done. intros _. split_and!; [done | by rewrite C1, Q2 | done | | |].
    + intros ->. cbn in C2. lia.
    + eapply Forall_impl; [exact C3|]. by intros k [? _].
    + intros Ha. rewrite <- Q2 in Ha |- *. by apply apart_app.
  - destruct (L4 Hne) as [-> L6]. pose proof (reclaim_and_arm_spec p2 w2 L1) as Hra.
    destruct (reclaim_and_arm (p2, w2)) as [u [p' w']]. destruct Hra as (A1 & A2 & A3 & A4 & A5).
    apply Hno; [done | by intros _ | destruct A2; congruence | by rewrite A3, L6, Q2].
Qed.

Lemma free_live lock blocks rest p w : quiet lock -> ready_wf p -> gp_ready p = true -> blocks <> [] ->
  mm_live (gp_mm p) ≡ₚ blocks ++ rest ->
  let '(_, (p', w')) := virtio_gpu_guest_pool_free lock blocks (p, w) in
  ready_wf p' /\ gp_ready p' = true /\ mm_live (gp_mm p') ≡ₚ rest.
Proof.
  intros Hq Hwf Hr Hne Hl. unfold virtio_gpu_guest_pool_free. rewrite Hr. cbn [negb orb].
  case_bool_decide; [done|]. destruct (Hq (p, w)) as (Q1 & Q2 & Q3). destruct (lock (p, w)) as [p1 w1].
  cbn [fst] in *. rewrite Q1, Hr. cbn [negb]. rewrite Hl in Q2.
  destruct (buddy_free_law blocks rest (gp_mm p1) Q2) as [F1 F2].
  assert (Hwf2 : pool_wf (set_mm p1 (drm_buddy_free_list blocks (gp_mm p1)))).
  { destruct (Q3 (Hwf Hr)) as [R1 R2 R3 R4]. split; cbn; auto; [congruence|]. rewrite F1.
    rewrite Q2 in R4. by apply Forall_app in R4 as [_ R4]. }
  pose proof (reclaim_and_arm_spec _ w1 Hwf2) as Hra.
  destruct (reclaim_and_arm _) as [u [p' w']]. destruct Hra as (A1 & A2 & A3 & A4 & A5).
  split_and!; [by intros _ | destruct A2; cbn in *; congruence | by rewrite A3].
Qed.

End Live.

Lemma request_positive max_nents size : 0 < size <= 2 ^ 62 -> max_nents < 2 ^ 31 ->
  0 < fst (guest_pool_request max_nents size).
Proof.
  intros Hs Hm. destruct (Z.ltb_spec 0 max_nents) as [Hp|Hp].
  - pose proof (guest_pool_request_spec max_nents size Hs ltac:(lia)) as Hr.
    destruct (guest_pool_request max_nents size) as [req mb]. destruct Hr as (k & ? & ? & ? & ? & ?). cbn. lia.
  - unfold guest_pool_request. rewrite Z.gtb_ltb. destruct (Z.ltb_spec 0 max_nents); [lia|]. cbn [fst].
    change PAGE_SIZE with (2 ^ 12). pose proof (ALIGN_no_wrap size 12 ltac:(lia) ltac:(lia) ltac:(lia)). lia.
Qed.

Section Create.
Context {B W : Type} `{BL : BuddyLaws B} `{PA : PoolApi W} `{HL : !HostLaws W} `{CE : CtrlEnv W} `{OA : !ObjArrays W}
  `{BE : !BoEnv W} `{GE : GemEnv W} `{VE : !VramEnv W}.
Implicit Types (d : vgdev B) (w : W).

(** the effect of queueing a blob's creation on the device: only the object's flags *)
Lemma create_blob_dev sleep n a p ents data d w :
  let d' := fst (snd (virtio_gpu_cmd_resource_create_blob (B := B) sleep n a p ents data (d, w))) in
  dv_pool d' = dv_pool d /\
  exists f, dv_bos d' = alter f a (dv_bos d) /\ forall b, bo_vram (f b) = bo_vram b /\
    bo_hw_res_handle (f b) = bo_hw_res_handle b /\ bo_size (f b) = bo_size b /\ bo_created (f b) = true.
Proof.
  unfold virtio_gpu_cmd_resource_create_blob.
  match goal with |- context [issue sleep n ?c0 ?x ?r ?h ?cb ?f ?fe (d, w)] =>
    destruct (issue_keeps_dev sleep n c0 x r h cb f fe d w) as [g Hg];
    destruct (issue sleep n c0 x r h cb f fe (d, w)) as [ret [d1 w1]] end.
  cbn [fst snd] in Hg. subst d1. unfold on_bo. destruct (c_true _); cbn.
  - split; [done|]. exists (bo_set_attached true ∘ bo_set_created). split; [|done].
    by rewrite alter_alter_eq.
  - split; [done|]. by exists bo_set_created.
Qed.

Lemma resource_id_dev d w :
  let '((ret, id), (d', w')) := virtio_gpu_resource_id_get (d, w) in
  dv_pool d' = dv_pool d /\ dv_bos d' = dv_bos d.
Proof. unfold virtio_gpu_resource_id_get. destruct (dv_virglhack d); [done|]. destruct (ida_alloc w). by case_if. Qed.

(** the state while a guest-pool object is under construction: its blocks are out, and it is the
    only object added *)
Definition building (p0 : guest_pool B) (bos : gmap Z gpu_bo) a (blocks : list block) (d : vgdev B) : Prop :=
  ready_wf (dv_pool d) /\ gp_ready (dv_pool d) = true /\ blocks <> [] /\
  mm_live (gp_mm (dv_pool d)) ≡ₚ blocks ++ mm_live (gp_mm p0) /\
  bos !! a = None /\ exists b, dv_bos d = <[a := b]> bos.

Lemma building_on_bo p0 bos a blocks f d : building p0 bos a blocks d -> building p0 bos a blocks (dv_upd_bo d a f).
Proof.
  intros (B1 & B2 & B3 & B4 & B5 & b & B6). split_and!; try done. exists (f b).
  unfold dv_upd_bo, dv_set_bos. cbn. by rewrite B6, alter_insert_eq.
Qed.

Lemma building_multiblock p0 bos a blocks d : building p0 bos a blocks d ->
  building p0 bos a blocks (dv_set_pool d (set_multiblock (dv_pool d))).
Proof.
  intros (B1 & B2 & B3 & B4 & B5 & B6). split_and!; try done.
  intros Hr. by destruct (B1 Hr) as [R1 R2 R3 R4].
Qed.

Lemma err_obj_undoes lock p0 bos a blocks ret d w : quiet lock -> ret <> 0 -> building p0 bos a blocks d ->
  let '((r, obj), (d', w')) := guest_pool_create_err_obj lock a blocks ret (d, w) in
  (ready_wf (dv_pool d') /\ gp_ready (dv_pool d') = true) /\
  r <> 0 /\ obj = None /\ mm_live (gp_mm (dv_pool d')) ≡ₚ mm_live (gp_mm p0) /\ dv_bos d' = bos.
Proof.
  intros Hq Hret (B1 & B2 & B3 & B4 & B5 & b & B6). unfold guest_pool_create_err_obj, on_pool.
  pose proof (free_live lock blocks _ (dv_pool d) w Hq B1 B2 B3 B4) as Hf.
  destruct (virtio_gpu_guest_pool_free _ _ _) as [u [p1 w1]]. destruct Hf as (F1 & F2 & F3). unfold on_world.
  destruct (drm_gem_object_release a w1) as [u1 w2]. destruct (kfree_vram a w2) as [u2 w3]. cbn.
  split_and!; [done..|]. by rewrite B6, delete_insert_id.
Qed.

Lemma create_tail sleep lock n max_nents' p p0 bos a blocks d w : quiet lock ->
  building p0 bos a blocks d ->
  let '((ret, obj), (d', w')) := guest_pool_create_object sleep lock n max_nents' p a blocks (d, w) in
  (ready_wf (dv_pool d') /\ gp_ready (dv_pool d') = true) /\
  match obj with
  | None => ret <> 0 /\ mm_live (gp_mm (dv_pool d')) ≡ₚ mm_live (gp_mm p0) /\ dv_bos d' = bos
  | Some a' => ret = 0 /\ a' = a /\
      exists b, dv_bos d' = <[a := b]> bos /\ bo_vram b = Some (pool_vram (op_size p) blocks) /\
        bo_created b = true /\ gp_backed (dv_pool d') = gp_backed (dv_pool d) /\
        mm_live (gp_mm (dv_pool d')) ≡ₚ blocks ++ mm_live (gp_mm p0)
  end.
Proof.
  intros Hq Hb.
  assert (Herr : forall ret d3 w3, ret <> 0 -> building p0 bos a blocks d3 ->
    let '((r, obj), (d', w')) := guest_pool_create_err_obj lock a blocks ret (d3, w3) in
    (ready_wf (dv_pool d') /\ gp_ready (dv_pool d') = true) /\
    match obj with
    | None => r <> 0 /\ mm_live (gp_mm (dv_pool d')) ≡ₚ mm_live (gp_mm p0) /\ dv_bos d' = bos
    | Some a' => r = 0 /\ a' = a /\
        exists b, dv_bos d' = <[a := b]> bos /\ bo_vram b = Some (pool_vram (op_size p) blocks) /\
          bo_created b = true /\ gp_backed (dv_pool d') = gp_backed (dv_pool d) /\
          mm_live (gp_mm (dv_pool d')) ≡ₚ blocks ++ mm_live (gp_mm p0)
    end).
  { intros ret d3 w3 Hne Hb3. pose proof (err_obj_undoes lock p0 bos a blocks ret d3 w3 Hq Hne Hb3) as He.
    destruct (guest_pool_create_err_obj _ _ _ _ _) as [[r obj] [d' w']]. by destruct He as (? & ? & -> & ? & ?). }
  unfold guest_pool_create_object, on_world at 1. destruct (drm_gem_create_mmap_offset w) as [ret w1].
  unfold c_true at 1. destruct (Z.eqb_spec ret 0) as [_|Hne]; cbn [negb]; [|by apply Herr].
  pose proof (resource_id_dev d w1) as Hid. destruct (virtio_gpu_resource_id_get _) as [[ret' id] [d1 w2]].
  destruct Hid as [I1 I2].
  assert (Hb1 : building p0 bos a blocks d1) by (unfold building in *; by rewrite I1, I2).
  unfold c_true at 1. destruct (Z.eqb_spec ret' 0) as [_|Hne]; cbn [negb]; [|by apply Herr].
  unfold on_bo at 1. cbn [fst snd]. pose proof (building_on_bo _ _ _ _ (bo_set_handle id) d1 Hb1) as Hb2.
  set (d2 := dv_upd_bo d1 a _) in *.
  match goal with |- context [if ?b then (dv_set_pool d2 ?x, w2) else _] =>
    set (st6 := if b then (dv_set_pool d2 x, w2) else (d2, w2));
    assert (H6 : snd st6 = w2 /\ building p0 bos a blocks (fst st6) /\ gp_backed (dv_pool (fst st6)) = gp_backed (dv_pool d))
      by (subst st6; destruct b; (split; [done|]; split; [first [done | by apply building_multiblock] | cbn; congruence])) end.
  destruct st6 as [d6 w6]. cbn [fst snd] in H6. destruct H6 as (-> & Hb6 & Hk6). cbn [fst].
  case_if; [by apply Herr|]. unfold on_world. destruct (kvmalloc_ents _ w2) as [[data|] w7]; [|by apply Herr].
  unfold on_bo. pose proof (building_on_bo _ _ _ _ (bo_set_vram (pool_vram (op_size p) blocks)) d6 Hb6) as Hb7.
  set (d8 := dv_upd_bo d6 a _) in *.
  pose proof (create_blob_dev sleep n a p (pool_ents (gp_base (dv_pool d8)) blocks) data d8 w7) as Hc.
  cbn [fst snd]. destruct (virtio_gpu_cmd_resource_create_blob _ _ _ _ _ _ (d8, w7)) as [u [d9 w9]].
  cbn [fst snd] in Hc. destruct Hc as (C1 & f & C2 & C3).
  unfold notify, on_queue. cbn [snd]. destruct (virtio_gpu_notify (dv_gpu d9, w9)) as [u' [g w10]].
  cbn [fst snd dv_set_gpu dv_bos dv_pool].
  destruct Hb6 as (R1 & R2 & _ & L & _ & b6 & E6). rewrite C1. split; [done|]. split; [done|]. split; [done|].
  exists (f (bo_set_vram (pool_vram (op_size p) blocks) b6)). destruct (C3 (bo_set_vram (pool_vram (op_size p) blocks) b6)) as (F1 & _ & _ & F4).
  rewrite C2. split_and!; [| by rewrite F1 | done | done | done].
  subst d8. unfold dv_upd_bo. cbn [dv_bos dv_set_bos]. by rewrite E6, !alter_insert_eq.
Qed.

End Create.

(** the address the kernel gives for the new object, in the world the pool's allocation leaves *)
Definition new_addr {B W} `{BO : BuddyOps B} `{PA : PoolApi W} `{VE : VramEnv W} (lock : gp_st B W -> gp_st B W)
  (max_nents : Z) (p : object_params) (st : dev_st B W) : option Z :=
  fst (kzalloc_vram (snd (snd (virtio_gpu_guest_pool_alloc lock max_nents (ALIGN (op_size p) PAGE_SIZE)
                                 (dv_pool (fst st), snd st))))).

Lemma guest_pool_create_spec {B W} `{BL : BuddyLaws B} `{PA : PoolApi W} `{HL : !HostLaws W}
  `{CE : CtrlEnv W} `{OA : !ObjArrays W} `{BE : !BoEnv W} `{GE : GemEnv W} `{VE : !VramEnv W}
  sleep lock n max_nents max_nents' p (d : vgdev B) (w : W)
  (Hq : quiet lock) (Hwf : ready_wf (dv_pool d)) (Hsize : 0 < op_size p <= 2 ^ 61) (Hmax : max_nents < 2 ^ 31)
  (Hnew : forall a, new_addr lock max_nents p (d, w) = Some a -> dv_bos d !! a = None) :
  let '((ret, obj), (d', w')) := virtio_gpu_guest_pool_create sleep lock n max_nents max_nents' p (d, w) in
  ready_wf (dv_pool d') /\ gp_ready (dv_pool d') = gp_ready (dv_pool d) /\
  let size := ALIGN (op_size p) PAGE_SIZE in
  match obj with
  | None => ret <> 0 /\ mm_live (gp_mm (dv_pool d')) ≡ₚ mm_live (gp_mm (dv_pool d)) /\ dv_bos d' = dv_bos d
  | Some a => ret = 0 /\ dv_bos d !! a = None /\
      exists b blocks, dv_bos d' = <[a := b]> (dv_bos d) /\ bo_vram b = Some (pool_vram size blocks) /\
        bo_created b = true /\ handed_out max_nents size (mm_live (gp_mm (dv_pool d))) (dv_pool d') blocks /\
        mm_live (gp_mm (dv_pool d')) ≡ₚ blocks ++ mm_live (gp_mm (dv_pool d))
  end.
Proof.
  cbv zeta. unfold virtio_gpu_guest_pool_create. set (size := ALIGN _ _). cbn [with_size op_size].
  destruct (page_round (op_size p) ltac:(lia)) as [Hp _]. fold size in Hp.
  unfold on_pool at 1. pose proof (alloc_live lock max_nents size (dv_pool d) w Hq Hwf
    (request_positive max_nents size ltac:(lia) Hmax)) as Ha.
  unfold new_addr in Hnew. cbn [fst snd] in Hnew. fold size in Hnew.
  destruct (virtio_gpu_guest_pool_alloc _ _ _ _) as [r [p1 w1]]. cbn [snd] in Hnew.
  destruct Ha as (Hwf1 & Hr1 & ret & blocks & -> & Hf & Hok).
  unfold c_true at 1. destruct (Z.eqb_spec ret 0) as [->|Hne]; cbn [negb].
  2:{ specialize (Hf Hne). unfold virtio_gpu_guest_pool_stats, on_pool. cbn [dv_pool dv_set_pool fst snd]. case_if; [done|].
      destruct (Hq (p1, w1)) as (Q1 & Q2 & Q3). destruct (lock (p1, w1)) as [p2 w2]. cbn [fst] in *. rewrite Hf in Q2.
      assert (Hwf2 : ready_wf p2) by (intros R; apply Q3, Hwf1; congruence).
      destruct (gp_ready p2) eqn:Er; split_and!; try done; cbn; congruence. }
  destruct (Hok eq_refl) as (Hr & Hlive & Hout). unfold on_world at 1.
  set (d1 := dv_set_pool d p1).
  destruct (kzalloc_vram w1) as [[a|] w2]; cbn [fst] in Hnew.
  2:{ unfold on_pool. pose proof (free_live lock blocks _ p1 w2 Hq Hwf1 ltac:(congruence) (proj1 (proj2 Hout)) Hlive) as Hfr.
      cbn [dv_pool dv_set_pool d1]. destruct (virtio_gpu_guest_pool_free _ _ _) as [u [p2 w3]].
      destruct Hfr as (F1 & F2 & F3). cbn. split_and!; done || congruence. }
  pose proof (Hnew a eq_refl) as Hfresh. unfold add_bo.
  set (d2 := dv_set_bos d1 _).
  assert (Hb2 : building (dv_pool d) (dv_bos d) a blocks d2).
  { destruct Hout as (_ & Hne & _). split_and!; try done; [cbn; congruence|]. by eexists. }
  pose proof (create_tail sleep lock n max_nents' (with_size p size) (dv_pool d) (dv_bos d) a blocks d2 w2 Hq Hb2) as Ht.
  match goal with |- match ?t with _ => _ end =>
    change t with (guest_pool_create_object sleep lock n max_nents' (with_size p size) a blocks (d2, w2)) end.
  destruct (guest_pool_create_object _ _ _ _ _ _ _ _) as [[ret obj] [d' w']]. destruct Ht as ((W1 & W2) & Ht).
  split; [done|]. split; [congruence|]. destruct obj as [a'|]; [|done].
  destruct Ht as (-> & -> & b & T1 & T2 & T3 & T4 & T5). split_and!; [done..|]. exists b, blocks.
  destruct Hout as (O1 & O2 & O3 & O4). split_and!; try done. unfold handed_out. split_and!; try done. by rewrite T4.
Qed.

(** C11: creating a guest-pool blob keeps its blocks or gives every one of them back. On success
    the new object owns blocks that were free before, share no byte with each other or a live one,
    lie in the pool's backed part and add up to the request; on any failure, of the object, of its
    mmap offset, of its id, of the entry list, or of the limit on blocks, the live blocks and the
    objects are those of before. *)
Theorem guest_pool_create_outcome {B W} `{BL : BuddyLaws B} `{PA : PoolApi W} `{HL : !HostLaws W}
  `{CE : CtrlEnv W} `{OA : !ObjArrays W} `{BE : !BoEnv W} `{GE : GemEnv W} `{VE : !VramEnv W}
  sleep lock n max_nents max_nents' p (d : vgdev B) (w : W)
  (Hq : quiet lock) (Hwf : ready_wf (dv_pool d)) (Hsize : 0 < op_size p <= 2 ^ 61) (Hmax : max_nents < 2 ^ 31)
  (Hnew : forall a, new_addr lock max_nents p (d, w) = Some a -> dv_bos d !! a = None) :
  let '((ret, obj), (d', w')) := virtio_gpu_guest_pool_create sleep lock n max_nents max_nents' p (d, w) in
  let size := ALIGN (op_size p) PAGE_SIZE in
  match obj with
  | None => ret <> 0 /\ mm_live (gp_mm (dv_pool d')) ≡ₚ mm_live (gp_mm (dv_pool d)) /\ dv_bos d' = dv_bos d
  | Some a => ret = 0 /\ dv_bos d !! a = None /\
      exists b blocks, dv_bos d' = <[a := b]> (dv_bos d) /\ bo_vram b = Some (pool_vram size blocks) /\
        bo_created b = true /\ handed_out max_nents size (mm_live (gp_mm (dv_pool d))) (dv_pool d') blocks /\
        mm_live (gp_mm (dv_pool d')) ≡ₚ blocks ++ mm_live (gp_mm (dv_pool d))
  end.
Proof.
  pose proof (guest_pool_create_spec sleep lock n max_nents max_nents' p d w Hq Hwf Hsize Hmax Hnew) as Hc.
  destruct (virtio_gpu_guest_pool_create _ _ _ _ _ _ _) as [[ret obj] [d' w']]. apply Hc.
Qed.

(** ** Shmem objects *)

(** what the driver holds while it builds a shmem object: GEM objects, resource ids, entry lists *)
Record shm_obs := ShmObs { so_gem : list Z; so_ids : list Z; so_ents : list Z }.
Definition shm_same (o o' : shm_obs) : Prop :=
  so_gem o ≡ₚ so_gem o' /\ so_ids o ≡ₚ so_ids o' /\ so_ents o ≡ₚ so_ents o'.
#[export] Instance shm_same_equiv : Equivalence shm_same.
Proof.
  unfold shm_same. split.
  - by intros o.
  - intros o o' (? & ? & ?). by split_and!.
  - intros o o' o2 (H1 & H2 & H3) (H4 & H5 & H6). by rewrite H1, H2, H3.
Qed.

Class ShmLaws (W : Type) `{BoEnv W} `{GemLaws W} `{VramEnv W} := {
  sobs : W -> shm_obs;
  law_shmem_create n w : match fst (drm_gem_shmem_create n w) with
    | inl e => e <> 0 /\ shm_same (sobs (snd (drm_gem_shmem_create n w))) (sobs w)
    | inr a => shm_same (sobs (snd (drm_gem_shmem_create n w))) (ShmObs (a :: so_gem (sobs w)) (so_ids (sobs w)) (so_ents (sobs w)))
    end;
  law_shmem_free a w l : so_gem (sobs w) ≡ₚ a :: l ->
    shm_same (sobs (snd (drm_gem_shmem_free a w))) (ShmObs l (so_ids (sobs w)) (so_ents (sobs w)));
  law_ida_alloc w : - 2 ^ 31 <= fst (ida_alloc w) < 2 ^ 31 /\
    shm_same (sobs (snd (ida_alloc w)))
      (ShmObs (so_gem (sobs w)) (if fst (ida_alloc w) <? 0 then so_ids (sobs w) else fst (ida_alloc w) :: so_ids (sobs w)) (so_ents (sobs w)));
  law_ida_free i w l : so_ids (sobs w) ≡ₚ i :: l ->
    shm_same (sobs (snd (ida_free i w))) (ShmObs (so_gem (sobs w)) l (so_ents (sobs w)));
  law_kvmalloc n w : shm_same (sobs (snd (kvmalloc_ents n w)))
    (ShmObs (so_gem (sobs w)) (so_ids (sobs w))
       (match fst (kvmalloc_ents n w) with Some a => a :: so_ents (sobs w) | None => so_ents (sobs w) end));
  law_kvfree a w l : so_ents (sobs w) ≡ₚ a :: l ->
    shm_same (sobs (snd (kvfree_ents a w))) (ShmObs (so_gem (sobs w)) (so_ids (sobs w)) l);
  law_shmem_pages b a w : shm_same (sobs (snd (shmem_pages b a w))) (sobs w) /\
    (forall e, fst (shmem_pages b a w) = inl e -> e <> 0);
  shm_arr_alloc n w : sobs (snd (arr_alloc n w)) = sobs w;
  shm_arr_free w : sobs (snd (arr_free w)) = sobs w;
  shm_get o w : sobs (snd (drm_gem_object_get o w)) = sobs w;
  shm_put o w : sobs (snd (drm_gem_object_put o w)) = sobs w;
  shm_lock o w : sobs (snd (dma_resv_lock_interruptible o w)) = sobs w;
  shm_reserve o w : sobs (snd (dma_resv_reserve_fences o w)) = sobs w;
  shm_unlock o w : sobs (snd (dma_resv_unlock o w)) = sobs w;
  gem_shmem_create n w : gobs (snd (drm_gem_shmem_create n w)) = gobs w;
  gem_shmem_free a w : gobs (snd (drm_gem_shmem_free a w)) = gobs w;
  gem_ida_alloc w : gobs (snd (ida_alloc w)) = gobs w;
  gem_ida_free i w : gobs (snd (ida_free i w)) = gobs w;
  gem_kvmalloc n w : gobs (snd (kvmalloc_ents n w)) = gobs w;
  gem_kvfree a w : gobs (snd (kvfree_ents a w)) = gobs w;
  gem_shmem_pages b a w : gobs (snd (shmem_pages b a w)) = gobs w
}.

Section Shmem.
Context {B W : Type} `{BO : BuddyOps B} `{PA : PoolApi W} `{CE : CtrlEnv W} `{OA : !ObjArrays W}
  `{SL : ShmLaws W}.
Implicit Types (d : vgdev B) (w : W).

(** Inside the creation of object [a] with id [id]: the object, perhaps its id and its entries, are
    held beyond [o]; [virgl] is whether ids come from the counter, which never takes one back. *)
Definition holding (o : shm_obs) (virgl : bool) (gem ids ents : list Z) w : Prop :=
  shm_same (sobs w) (ShmObs (gem ++ so_gem o) ((if virgl then [] else ids) ++ so_ids o) (ents ++ so_ents o)).

Lemma err_free_gem_undoes o virgl bos a ret d w b : holding o virgl [a] [] [] w ->
  dv_bos d = <[a := b]> bos -> bos !! a = None ->
  let '((r, obj), (d', w')) := object_create_err_free_gem (B := B) a ret (d, w) in
  r = ret /\ obj = None /\ dv_bos d' = bos /\ dv_pool d' = dv_pool d /\ holding o virgl [] [] [] w' /\ gobs w' = gobs w.
Proof.
  intros (Hs1 & Hs2 & Hs3) Hb Hn. unfold object_create_err_free_gem, on_world.
  pose proof (law_shmem_free a w _ Hs1) as Hf. pose proof (gem_shmem_free a w) as Hg.
  destruct (drm_gem_shmem_free a w) as [u w1]. cbn in *.
  split_and!; [done | done | by rewrite Hb, delete_insert_id | done| |done].
  unfold holding. rewrite Hf. by split_and!.
Qed.

Lemma err_put_id_undoes o bos a id ret d w b : holding o (dv_virglhack d) [a] [id - 1] [] w ->
  dv_bos d = <[a := b]> bos -> bos !! a = None ->
  let '((r, obj), (d', w')) := object_create_err_put_id (B := B) a id ret (d, w) in
  r = ret /\ obj = None /\ dv_bos d' = bos /\ dv_pool d' = dv_pool d /\ holding o (dv_virglhack d) [] [] [] w' /\ gobs w' = gobs w.
Proof.
  intros Hh Hb Hn. unfold object_create_err_put_id, virtio_gpu_resource_id_put.
  destruct (dv_virglhack d) eqn:E; cbn [snd].
  - by eapply (err_free_gem_undoes o true).
  - destruct Hh as (Hs1 & Hs2 & Hs3). pose proof (law_ida_free (id - 1) w _ Hs2) as Hf.
    pose proof (err_free_gem_undoes o false bos a ret d (snd (ida_free (id - 1) w)) b) as He.
    rewrite gem_ida_free in He. apply He; [|done|done]. unfold holding. rewrite Hf. by split_and!.
Qed.

Lemma err_free_entry_undoes o bos a id data ret d w b : holding o (dv_virglhack d) [a] [id - 1] [data] w ->
  dv_bos d = <[a := b]> bos -> bos !! a = None ->
  let '((r, obj), (d', w')) := object_create_err_free_entry (B := B) a id data ret (d, w) in
  r = ret /\ obj = None /\ dv_bos d' = bos /\ dv_pool d' = dv_pool d /\ holding o (dv_virglhack d) [] [] [] w' /\ gobs w' = gobs w.
Proof.
  intros (Hs1 & Hs2 & Hs3) Hb Hn. unfold object_create_err_free_entry, on_world.
  pose proof (law_kvfree data w _ Hs3) as Hf. pose proof (gem_kvfree data w) as Hg.
  destruct (kvfree_ents data w) as [u w1]. cbn [snd] in *. rewrite <- Hg.
  eapply err_put_id_undoes; [|done|done]. unfold holding. rewrite Hf. by split_and!.
Qed.

(** the lock step: an error leaves neither reference nor lock behind *)
Lemma object_create_lock_spec fence a w :
  let '((ret, objs), w') := object_create_lock fence a w in
  sobs w' = sobs w /\
  (ret <> 0 -> go_refs (gobs w') ≡ₚ go_refs (gobs w) /\ go_locked (gobs w') ≡ₚ go_locked (gobs w)).
Proof.
  unfold object_create_lock. destruct fence as [f|]; [|done].
  unfold virtio_gpu_array_alloc. pose proof (law_arr_alloc 1 w) as Ga. pose proof (shm_arr_alloc 1 w) as Sa.
  destruct (arr_alloc 1 w) as [[] w1]; cbn [snd] in *; [|by rewrite Ga].
  unfold virtio_gpu_array_add_obj. cbn [oa_objs oa_total length app]. change (Z.of_nat 0 =? 1) with false. cbv iota.
  destruct (law_gem_get a w1) as [G1 G2]. pose proof (shm_get a w1) as Sg.
  destruct (drm_gem_object_get a w1) as [u w2]. cbn [snd] in *.
  pose proof (array_lock_resv_obs [a] w2) as Hl.
  assert (Hs : sobs (snd (virtio_gpu_array_lock_resv [a] w2)) = sobs w2).
  { unfold virtio_gpu_array_lock_resv. pose proof (shm_lock a w2) as S1.
    destruct (dma_resv_lock_interruptible a w2) as [r w3]. cbn [snd] in S1. case_if; [done|]. cbn [reserve_all].
    pose proof (shm_reserve a w3) as S2. destruct (dma_resv_reserve_fences a w3) as [r2 w4]. cbn [snd] in S2.
    case_if; rewrite ?E0; cbn [virtio_gpu_array_unlock_resv snd].
    - rewrite shm_unlock. congruence.
    - cbn. congruence. }
  cbn [oa_objs]. destruct (virtio_gpu_array_lock_resv [a] w2) as [ret w3]. cbn [snd] in Hs.
  destruct Hl as [L1 L2]. unfold c_true. destruct (Z.eqb_spec ret 0) as [->|Hne]; cbn [negb].
  { split; [congruence | done]. }
  cbn [app] in L2. destruct (array_put_free_obs [a] w3 (go_refs (gobs w))) as [P1 P2].
  { rewrite L1, G2, Ga. done. }
  split.
  - cbn. rewrite shm_arr_free, shm_put. congruence.
  - intros _. split; [done|]. rewrite P1, L2, G1, Ga. done.
Qed.

(** an id is taken, or nothing *)
Lemma resource_id_holds o a d w : holding o (dv_virglhack d) [a] [] [] w ->
  let '((ret, id), (d', w')) := virtio_gpu_resource_id_get (d, w) in
  dv_pool d' = dv_pool d /\ dv_bos d' = dv_bos d /\ gobs w' = gobs w /\
  dv_virglhack d' = dv_virglhack d /\
  (ret < 0 -> holding o (dv_virglhack d) [a] [] [] w') /\
  (0 <= ret -> ret = 0 /\ holding o (dv_virglhack d) [a] [id - 1] [] w').
Proof.
  intros Hh. unfold virtio_gpu_resource_id_get. destruct (dv_virglhack d) eqn:E; [by split_and!|].
  destruct (law_ida_alloc w) as [Hr Hs]. pose proof (gem_ida_alloc w) as Hg.
  destruct (ida_alloc w) as [h w1]. cbn [fst snd] in *. unfold holding in *.
  destruct Hh as (Hh1 & Hh2 & Hh3). cbn [so_gem so_ids so_ents app] in *.
  destruct (Z.ltb_spec h 0).
  - split_and!; try done; [|lia]. intros _. rewrite Hs. by split_and!.
  - split_and!; try done. intros _. split; [done|].
    rewrite Hs, u32_small by lia. replace (h + 1 - 1) with h by lia. split_and!; cbn; [done | by rewrite Hh2 | done].
Qed.

Lemma shmem_init_holds o virgl a ids d w : holding o virgl [a] ids [] w ->
  let '(r, (d', w')) := virtio_gpu_object_shmem_init (B := B) a (d, w) in
  d' = d /\ gobs w' = gobs w /\
  match r with
  | inl e => e <> 0 /\ holding o virgl [a] ids [] w'
  | inr (ents, data) => holding o virgl [a] ids [data] w'
  end.
Proof.
  intros Hh. unfold virtio_gpu_object_shmem_init, on_world. cbn [fst].
  destruct (law_shmem_pages (dv_use_dma_api d) a w) as [P1 P2]. pose proof (gem_shmem_pages (dv_use_dma_api d) a w) as P3.
  destruct (shmem_pages _ a w) as [[e|segs] w1]; cbn [fst snd] in *.
  { split_and!; [done | done | by apply P2|]. unfold holding in *. by rewrite P1. }
  set (k := Z.of_nat _). pose proof (law_kvmalloc k w1) as K1. pose proof (gem_kvmalloc k w1) as K2.
  unfold holding in *. rewrite <- P1 in Hh. destruct Hh as (Hh1 & Hh2 & Hh3). cbn [so_gem so_ids so_ents app] in *.
  destruct (kvmalloc_ents k w1) as [[data|] w2]; cbn [fst snd] in *.
  - split_and!; [done | congruence|]. rewrite K1. split_and!; cbn; [done | done | by rewrite Hh3].
  - split_and!; [done | congruence | done|]. rewrite K1. by split_and!.
Qed.

(** the send step creates the object, whatever becomes of its commands *)
Lemma object_create_send_some sleep n p fence a ents data objs (st : dev_st B W) :
  fst (object_create_send (B := B) sleep n p fence a ents data objs st) = (0, Some a).
Proof.
  unfold object_create_send. case_if; [|case_if].
  - by destruct (if _ =? _ then _ else _) as [u st6].
  - by destruct (virtio_gpu_cmd_resource_create_3d _ _ _ _ _ _ _) as [u st6].
  - by destruct (virtio_gpu_cmd_create_resource _ _ _ _ _ _ _) as [u st6].
Qed.

End Shmem.

(** C30: creating a shmem object succeeds with the object or undoes itself: on every error, of the
    pages, the id, the entry list, the array or the lock, the GEM object, the resource id and the
    entry list taken are given back, no reference and no reservation lock is left behind, and
    the device's objects are those of before. *)
Theorem object_create_undoes {B W} `{BO : BuddyOps B} `{PA : PoolApi W} `{CE : CtrlEnv W} `{OA : !ObjArrays W}
  `{SL : ShmLaws W} sleep n p fence (d : vgdev B) (w : W)
  (Hnew : forall k w0 a, fst (drm_gem_shmem_create k w0) = inr a -> dv_bos d !! a = None) :
  let '((ret, obj), (d', w')) := virtio_gpu_object_create sleep n p fence (d, w) in
  match obj with
  | Some a => ret = 0 /\ dv_bos d !! a = None
  | None => ret <> 0 /\ dv_bos d' = dv_bos d /\ dv_pool d' = dv_pool d /\ shm_same (sobs w') (sobs w) /\
      go_refs (gobs w') ≡ₚ go_refs (gobs w) /\ go_locked (gobs w') ≡ₚ go_locked (gobs w)
  end.
Proof.
  unfold virtio_gpu_object_create. cbn [with_size op_size].
  set (size := shmem_size p). unfold on_world at 1. pose proof (law_shmem_create size w) as Lc.
  pose proof (gem_shmem_create size w) as Gc. pose proof (Hnew size w) as Hn.
  destruct (drm_gem_shmem_create size w) as [[e|a] w1]; cbn [fst snd] in *.
  { destruct Lc. by split_and!; try done; rewrite Gc. }
  specialize (Hn a eq_refl). unfold add_bo. set (d1 := dv_set_bos d _).
  set (o := sobs w) in *.
  assert (Lh : holding o (dv_virglhack d) [a] [] [] w1) by (unfold holding; by destruct (dv_virglhack d)).
  (* an undone state is what the property asks for *)
  assert (Hfin : forall (x : Z * option Z) d' w', fst x <> 0 -> snd x = None -> dv_bos d' = dv_bos d ->
    dv_pool d' = dv_pool d -> holding o (dv_virglhack d) [] [] [] w' ->
    go_refs (gobs w') ≡ₚ go_refs (gobs w) -> go_locked (gobs w') ≡ₚ go_locked (gobs w) ->
    let '((ret, obj), (d', w')) := (x, (d', w')) in
    match obj with
    | Some a => ret = 0 /\ dv_bos d !! a = None
    | None => ret <> 0 /\ dv_bos d' = dv_bos d /\ dv_pool d' = dv_pool d /\ shm_same (sobs w') o /\
        go_refs (gobs w') ≡ₚ go_refs (gobs w) /\ go_locked (gobs w') ≡ₚ go_locked (gobs w)
    end).
  { intros [ret obj] d' w' X1 X2 X3 X4 X5 X6 X7. cbn in X1, X2. subst obj. split_and!; try done.
    unfold holding in X5. by destruct (dv_virglhack d). }
  pose proof (resource_id_holds o a d1 w1 Lh) as Hid.
  destruct (virtio_gpu_resource_id_get (d1, w1)) as [[ret id] [d2 w2]].
  destruct Hid as (I1 & I2 & I3 & I6 & I4 & I5). destruct (Z.ltb_spec ret 0) as [Hlt|Hge].
  { pose proof (err_free_gem_undoes o (dv_virglhack d) (dv_bos d) a ret d2 w2 _ (I4 Hlt) I2 Hn) as He.
    destruct (object_create_err_free_gem _ _ _) as [[r obj] [d' w']]. destruct He as (-> & -> & E3 & E4 & E5 & E6).
    apply (Hfin (ret, None)); try done; [cbn; lia | by rewrite E4, I1 | by rewrite E6, I3, Gc..]. }
  destruct (I5 Hge) as [-> I7]. unfold on_bo. set (d3 := dv_upd_bo d2 a _).
  assert (B3 : exists b, dv_bos d3 = <[a := b]> (dv_bos d)).
  { eexists. cbn. rewrite I2. apply alter_insert_eq. }
  destruct B3 as [b3 B3]. pose proof (shmem_init_holds o (dv_virglhack d) a [id - 1] d3 w2 I7) as Hs.
  destruct (virtio_gpu_object_shmem_init a (d3, w2)) as [ents [d4 w4]]. destruct Hs as (-> & S2 & S3).
  change (dv_virglhack d) with (dv_virglhack d1) in *. rewrite <- I6 in *. change (dv_virglhack d2) with (dv_virglhack d3) in *.
  destruct ents as [e|[ents data]].
  { destruct S3 as [S3 S4]. pose proof (err_put_id_undoes o (dv_bos d) a id e d3 w4 b3 S4 B3 Hn) as He.
    destruct (object_create_err_put_id _ _ _ _) as [[r obj] [d' w']]. destruct He as (-> & -> & E3 & E4 & E5 & E6).
    apply (Hfin (e, None)); try done; [rewrite E4; exact I1 | by rewrite E6, S2, I3, Gc..]. }
  unfold on_world. pose proof (object_create_lock_spec fence a w4) as Hl.
  destruct (object_create_lock fence a w4) as [[ret objs] w5]. destruct Hl as [L1 L2].
  unfold c_true. destruct (Z.eqb_spec ret 0) as [->|Hne]; cbn [negb].
  { pose proof (object_create_send_some sleep n (with_size p size) fence a ents data objs (d3, w5)) as Hs.
    destruct (object_create_send _ _ _ _ _ _ _ _ _) as [[r obj] [d' w']]. cbn in Hs. by injection Hs as -> ->. }
  assert (S5 : holding o (dv_virglhack d3) [a] [id - 1] [data] w5) by (unfold holding in *; by rewrite L1).
  pose proof (err_free_entry_undoes o (dv_bos d) a id data ret d3 w5 b3 S5 B3 Hn) as He.
  destruct (object_create_err_free_entry _ _ _ _ _) as [[r obj] [d' w']]. destruct He as (-> & -> & E3 & E4 & E5 & E6).
  destruct (L2 Hne) as [L3 L4]. rewrite S2, I3, Gc in L3, L4.
  apply (Hfin (ret, None)); try done; [rewrite E4; exact I1 | by rewrite E6..].
Qed.

(** ** A pool device on which every service works *)

#[export] Instance toy_queue_gem : GemEnv toy_queue := {
  arr_alloc n w := (true, w);
  arr_free w := (tt, w);
  drm_gem_object_lookup h w := (None, w);
  drm_gem_object_get o w := (tt, w);
  drm_gem_object_put o w := (tt, w);
  dma_resv_lock_interruptible o w := (0, w);
  drm_gem_lock_reservations l w := (0, w);
  dma_resv_reserve_fences o w := (0, w);
  dma_resv_unlock o w := (tt, w);
  drm_gem_unlock_reservations l w := (tt, w);
  dma_resv_add_fence o f w := (tt, w)
}.
#[export] Instance toy_queue_vram : VramEnv toy_queue := {
  kzalloc_vram w := (Some 200, w);
  kfree_vram a w := (tt, w);
  drm_gem_create_mmap_offset w := (0, w);
  drm_gem_object_release a w := (tt, w);
  kvmalloc_ents n w := (Some 4096, w);
  kvfree_ents a w := (tt, w);
  drm_mm_insert_node s a w := ((0, SZ_2M), w);
  io_remap_pfn_range ua pfn len prot w := (0, w);
  sgt_kzalloc w := (true, w);
  sg_alloc_table n w := (0, w);
  sgt_release w := (tt, w);
  dma_map_resource pa len w := (Some pa, w);
  dma_unmap_resource a len w := (tt, w);
  drm_gem_shmem_create n w := (inr 300, w);
  shmem_pages d a w := (inr [(65536, 8192)], w)
}.

Lemma no_lock_q_quiet : quiet no_lock_q.
Proof. by intros st. Qed.
Definition blob_params (size : Z) : object_params := ObjParams size false true true 0 0 0 0 0 0 0 0 0 0 1 1 1 0.

Lemma sample_ready_wf : ready_wf (dv_pool sample_dev).
Proof.
  intros Hr. assert (Hi := sample_pool_inv [Block 0 8192; Block 8192 4096] (empty_queue 5)).
  apply Hi; [|done]. repeat constructor; unfold block_end; cbn; lia.
Qed.

Lemma guest_pool_create_outcome_witness :
  let '((ret, obj), (d', w')) :=
    virtio_gpu_guest_pool_create no_sleep no_lock_q 1 64 64 (blob_params 10000) (sample_dev, empty_queue 5) in
  let size := ALIGN (op_size (blob_params 10000)) PAGE_SIZE in
  match obj with
  | None => ret <> 0 /\ mm_live (gp_mm (dv_pool d')) ≡ₚ mm_live (gp_mm (dv_pool sample_dev)) /\ dv_bos d' = dv_bos sample_dev
  | Some a => ret = 0 /\ dv_bos sample_dev !! a = None /\
      exists b blocks, dv_bos d' = <[a := b]> (dv_bos sample_dev) /\ bo_vram b = Some (pool_vram size blocks) /\
        bo_created b = true /\ handed_out 64 size (mm_live (gp_mm (dv_pool sample_dev))) (dv_pool d') blocks /\
        mm_live (gp_mm (dv_pool d')) ≡ₚ blocks ++ mm_live (gp_mm (dv_pool sample_dev))
  end.
Proof.
  apply (guest_pool_create_outcome no_sleep no_lock_q 1 64 64 (blob_params 10000) sample_dev (empty_queue 5)).
  - apply no_lock_q_quiet.
  - apply sample_ready_wf.
  - cbn. lia.
  - lia.
  - intros a. vm_compute. by intros [= <-].
Defined.

(** the request of 10000 bytes takes three pages above the two live blocks, and the host is told of
    them in one entry *)
Example guest_pool_create_sample :
  let '((ret, obj), (d', w')) :=
    virtio_gpu_guest_pool_create no_sleep no_lock_q 1 64 64 (blob_params 10000) (sample_dev, empty_queue 5) in
  (ret, obj, (fun v => (vb_cmd v, vb_data v)) <$> cq_ring (tq_obs w')) =
  (0, Some 200, [(ResourceCreateBlob 7 1 1 1 0 12288, [MemEntry (2147483648 + 12288) 12288])]).
Proof. vm_compute. reflexivity. Qed.

(** ** A world that keeps account of shmem objects, with a number of allocations that succeed *)
Record toy_shm := ToyShm { ts_shm : shm_obs; ts_gem : gem_obs; ts_left : nat; ts_lock : Z }.
Definition ts_set_shm (w : toy_shm) (o : shm_obs) : toy_shm := ToyShm o (ts_gem w) (ts_left w) (ts_lock w).
Definition ts_set_gem (w : toy_shm) (o : gem_obs) : toy_shm := ToyShm (ts_shm w) o (ts_left w) (ts_lock w).
Definition ts_locked (w : toy_shm) (l : list Z) : ST toy_shm Z := fun _ =>
  (ts_lock w, if ts_lock w =? 0 then ts_set_gem w (GemObs (go_refs (ts_gem w)) (l ++ go_locked (ts_gem w))) else w).

#[export] Instance toy_shm_gem : GemEnv toy_shm := {
  arr_alloc n w := (true, w);
  arr_free w := (tt, w);
  drm_gem_object_lookup h w := (None, w);
  drm_gem_object_get o w := (tt, ts_set_gem w (GemObs (o :: go_refs (ts_gem w)) (go_locked (ts_gem w))));
  drm_gem_object_put o w := (tt, ts_set_gem w (GemObs (remove_one o (go_refs (ts_gem w))) (go_locked (ts_gem w))));
  dma_resv_lock_interruptible o w := ts_locked w [o] w;
  drm_gem_lock_reservations l w := ts_locked w l w;
  dma_resv_reserve_fences o w := (0, w);
  dma_resv_unlock o w := (tt, ts_set_gem w (GemObs (go_refs (ts_gem w)) (remove_one o (go_locked (ts_gem w)))));
  drm_gem_unlock_reservations l w := (tt, ts_set_gem w (GemObs (go_refs (ts_gem w)) (foldr remove_one (go_locked (ts_gem w)) l)));
  dma_resv_add_fence o f w := (tt, w)
}.
Lemma ts_locked_law w l : let '(ret, w') := ts_locked w l w in
  go_refs (ts_gem w') = go_refs (ts_gem w) /\
  go_locked (ts_gem w') ≡ₚ (if ret =? 0 then l else []) ++ go_locked (ts_gem w).
Proof. unfold ts_locked. by destruct (ts_lock w =? 0). Qed.
#[export] Instance toy_shm_gem_laws : GemLaws toy_shm.
Proof.
  refine {| gobs := ts_gem; law_resv_lock o w := ts_locked_law w [o]; law_resv_lock_many l w := ts_locked_law w l |};
    try (intros; done).
  - intros o w rest Hp. split; [done | by apply remove_one_perm].
  - intros o w rest Hp. split; [done | by apply remove_one_perm].
  - intros l w rest Hp. split; [done | by apply remove_many_perm].
Defined.

#[export] Instance toy_shm_bo : BoEnv toy_shm := {
  kzalloc_buf n w := (true, w);
  kfree_buf w := (tt, w);
  dma_sync_for_device a w := (tt, w);
  wake_resp_wq w := (tt, w);
  hotplug_event w := (tt, w);
  ida_alloc w := let o := ts_shm w in let i := 1000 + Z.of_nat (length (so_ids o)) mod 1000 in
    (i, ts_set_shm w (ShmObs (so_gem o) (i :: so_ids o) (so_ents o)));
  ida_free i w := let o := ts_shm w in
    (tt, ts_set_shm w (ShmObs (so_gem o) (remove_one i (so_ids o)) (so_ents o)));
  drm_gem_shmem_free a w := let o := ts_shm w in
    (tt, ts_set_shm w (ShmObs (remove_one a (so_gem o)) (so_ids o) (so_ents o)));
  drm_mm_remove_node s z w := (tt, w);
  vram_release a w := (tt, w); import_release a w := (tt, w);
  drm_edid_read_custom s n b w := (1, w);
  drm_edid_free e w := (tt, w)
}.
#[export] Instance toy_shm_vram : VramEnv toy_shm := {
  kzalloc_vram w := (Some 200, w);
  kfree_vram a w := (tt, w);
  drm_gem_create_mmap_offset w := (0, w);
  drm_gem_object_release a w := (tt, w);
  kvmalloc_ents n w := let o := ts_shm w in
    match ts_left w with
    | O => (None, w)
    | S k => (Some 4096, ToyShm (ShmObs (so_gem o) (so_ids o) (4096 :: so_ents o)) (ts_gem w) k (ts_lock w))
    end;
  kvfree_ents a w := let o := ts_shm w in
    (tt, ts_set_shm w (ShmObs (so_gem o) (so_ids o) (remove_one a (so_ents o))));
  drm_mm_insert_node s a w := ((0, SZ_2M), w);
  io_remap_pfn_range ua pfn len prot w := (0, w);
  sgt_kzalloc w := (true, w);
  sg_alloc_table n w := (0, w);
  sgt_release w := (tt, w);
  dma_map_resource pa len w := (Some pa, w);
  dma_unmap_resource a len w := (tt, w);
  drm_gem_shmem_create n w := let o := ts_shm w in
    (inr 300, ts_set_shm w (ShmObs (300 :: so_gem o) (so_ids o) (so_ents o)));
  shmem_pages d a w := (inr [(65536, 8192)], w)
}.
#[export] Instance toy_shm_laws : ShmLaws toy_shm.
Proof.
  refine {| sobs := ts_shm |}; try (intros; done).
  - intros a w l Hp. split_and!; [by apply remove_one_perm | done | done].
  - intros w. cbn [ida_alloc toy_shm_bo fst snd]. set (i := 1000 + _).
    assert (Hi : 1000 <= i < 2000) by (subst i; pose proof (Z.mod_pos_bound (Z.of_nat (length (so_ids (ts_shm w)))) 1000); lia).
    split; [lia|]. destruct (Z.ltb_spec i 0); [lia | done].
  - intros i w l Hp. split_and!; [done | by apply remove_one_perm | done].
  - intros n w. cbn. by destruct (ts_left w).
  - intros a w l Hp. split_and!; [done | done | by apply remove_one_perm].
  - intros o w. cbn. unfold ts_locked. by destruct (ts_lock w =? 0).
  - intros n w. cbn. by destruct (ts_left w).
Defined.

#[export] Instance toy_shm_ctrl : CtrlEnv toy_shm := {
  drm_dev_enter w := true;
  vbuf_zalloc w := (1, w); vbuf_free a w := (tt, w);
  vq_num_free w := 5; vq_add_sgs v w := (0, w); vq_get_buf w := (None, w);
  vq_enable_cb w := (true, w); vq_kick_prepare w := (true, w); vq_notify w := (tt, w); wake_ack w := (tt, w);
  is_vmalloc_addr a := false; sgt_alloc n w := (true, w); vmalloc_to_page a w := (true, w); sgt_free w := (tt, w);
  cursor_add v w := (0, w); cursor_kick_prepare w := (true, w); cursor_notify w := (tt, w); cursor_wait w := (tt, w)
}.
#[export] Instance toy_shm_arrays : ObjArrays toy_shm := {
  objs_unlock o w := (tt, w); objs_add_fence o f w := (tt, w); objs_put_delayed o w := (tt, w)
}.
#[export] Instance toy_shm_pool : PoolApi toy_shm := {
  pool_grow id off len w := (0, w); pool_shrink id off len w := (0, w);
  pool_query_range id off len w := ((0, Some true), w)
}.

(** the lock of the reservation is interrupted *)
Definition shm_world : toy_shm := ToyShm (ShmObs [7] [1003] []) (GemObs [] []) 1 (- 4).
Definition shm_fence : option virtio_gpu_fence := Some (Fence 40 0 false 0 false).
Definition ida_dev : vgdev toy_mm :=
  VgDev gpu0 (sample_pool []) ∅ false 0 true true false 1 [DisplayOne (GpuRect 0 0 0 0) 0 0] [0] None 0 [].

Lemma object_create_undoes_witness :
  let '((ret, obj), (d', w')) := virtio_gpu_object_create (fun st => st) 1 (blob_params 8192) shm_fence (ida_dev, shm_world) in
  match obj with
  | Some a => ret = 0 /\ dv_bos ida_dev !! a = None
  | None => ret <> 0 /\ dv_bos d' = dv_bos ida_dev /\ dv_pool d' = dv_pool ida_dev /\ shm_same (sobs w') (sobs shm_world) /\
      go_refs (gobs w') ≡ₚ go_refs (gobs shm_world) /\ go_locked (gobs w') ≡ₚ go_locked (gobs shm_world)
  end.
Proof.
  apply (object_create_undoes (fun st => st) 1 (blob_params 8192) shm_fence ida_dev shm_world).
  intros k w0 a [= <-]. vm_compute. reflexivity.
Defined.

(** what the interrupted lock leaves *)
Example object_create_interrupted :
  let '((ret, obj), (d', w')) := virtio_gpu_object_create (fun st => st) 1 (blob_params 8192) shm_fence (ida_dev, shm_world) in
  (ret, obj, ts_shm w', ts_gem w') = (- 4, None, ShmObs [7] [1003] [], GemObs [] []).
Proof. vm_compute. reflexivity. Qed.
