(* ===== verification/Submit.v ===== *)
(** * Command submission (virtio_gpu/virtgpu_submit.c)

    The execbuffer ioctl: its fence, its buffer objects, its command buffer, its sync objects to
    wait for and to signal, the submission, and the clean-up all paths go through. *)

From stdpp Require Import gmap.
From S2P Require Import Prelude PoolCtl GuestPool Wire Fence ObjArray CtrlQueue GpuDev GpuCmds.

(** the flags of the user interface, <drm/virtgpu_drm.h> *)
Definition VIRTGPU_EXECBUF_FENCE_FD_IN : Z := 1.
Definition VIRTGPU_EXECBUF_FENCE_FD_OUT : Z := 2.
Definition VIRTGPU_EXECBUF_RING_IDX : Z := 4.
Definition VIRTGPU_EXECBUF_FLAGS : Z := 7.
Definition VIRTGPU_EXECBUF_SYNCOBJ_RESET : Z := 1.
Definition VIRTGPU_EXECBUF_SYNCOBJ_FLAGS : Z := 1.
(** [sizeof(struct drm_virtgpu_execbuffer_syncobj)] *)
Definition sizeof_syncobj_desc : Z := 16.

(** [struct virtio_gpu_fpriv], what the driver keeps per open file *)
Record fpriv := Fpriv {
  fp_ctx_id : Z; fp_context_init : Z; fp_context_created : bool; fp_num_rings : Z;
  fp_base_fence_ctx : Z; fp_ring_idx_mask : Z; fp_debug_name : list Z; fp_explicit_debug_name : bool
}.
Definition fp_set_created (f : fpriv) : fpriv :=
  Fpriv (fp_ctx_id f) (fp_context_init f) true (fp_num_rings f) (fp_base_fence_ctx f) (fp_ring_idx_mask f)
        (fp_debug_name f) (fp_explicit_debug_name f).

(** [struct drm_virtgpu_execbuffer] *)
Record execbuffer := ExecBuffer {
  ex_flags : Z; ex_size : Z; ex_command : Z; ex_bo_handles : Z; ex_num_bo_handles : Z;
  ex_fence_fd : Z; ex_ring_idx : Z; ex_syncobj_stride : Z;
  ex_num_in_syncobjs : Z; ex_num_out_syncobjs : Z; ex_in_syncobjs : Z; ex_out_syncobjs : Z
}.
Definition ex_set_fence_fd (x : execbuffer) (fd : Z) : execbuffer :=
  ExecBuffer (ex_flags x) (ex_size x) (ex_command x) (ex_bo_handles x) (ex_num_bo_handles x) fd (ex_ring_idx x)
    (ex_syncobj_stride x) (ex_num_in_syncobjs x) (ex_num_out_syncobjs x) (ex_in_syncobjs x) (ex_out_syncobjs x).

(** [struct drm_virtgpu_execbuffer_syncobj], as copied from the user *)
Record syncobj_desc := SyncobjDesc { sd_handle : Z; sd_flags : Z; sd_point : Z }.

(** [struct virtio_gpu_submit_post_dep] *)
Record post_dep := PostDep { pd_syncobj : Z; pd_chain : option Z; pd_point : Z }.

Class SubmitEnv (W : Type) := {
  kvzalloc_array : Z -> ST W (option Z);
  kvfree : Z -> ST W unit;
  copy_syncobj_desc : Z -> Z -> ST W (option syncobj_desc);   (* address, bytes *)
  copy_bo_handles : Z -> Z -> ST W (option (list Z));         (* address, number *)
  vmemdup_user : Z -> Z -> ST W (Z + Z);                      (* errno, or the copy *)
  drm_syncobj_find_fence : Z -> Z -> ST W (Z * Z);            (* handle, point: result, fence *)
  dma_fence_leaves : W -> Z -> list Z;
  dma_fence_match_context : W -> Z -> Z -> bool;
  dma_fence_wait : Z -> ST W Z;
  dma_fence_put : Z -> ST W unit;
  drm_syncobj_find : Z -> ST W (option Z);
  drm_syncobj_put : Z -> ST W unit;
  drm_syncobj_replace_fence : Z -> option Z -> ST W unit;
  drm_syncobj_add_point : Z -> Z -> option Z -> Z -> ST W unit;
  dma_fence_chain_alloc : ST W (option Z);
  kfree_chain : Z -> ST W unit;
  fence_kzalloc : ST W (option Z);                            (* in virtio_gpu_fence_alloc *)
  event_kzalloc : ST W (option Z);
  event_kfree : Z -> ST W unit;
  drm_event_reserve_init : Z -> ST W Z;
  get_unused_fd : ST W Z;
  put_unused_fd : Z -> ST W unit;
  fd_install : Z -> Z -> ST W unit;
  sync_file_create : option Z -> ST W (option Z);
  sync_file_put : Z -> ST W unit;
  sync_file_get_fence : Z -> ST W (option Z);
  task_comm : W -> list Z
}.

(** [struct virtio_gpu_submit]: the arrays of sync objects with their addresses, the fence's address
    and the fence, the command buffer ([Some (inl e)]: an error pointer) *)
Record submit := Submit {
  sb_post_deps : option (Z * list post_dep);
  sb_in_syncobjs : option (Z * list (option Z));
  sb_buflist : option (list Z);
  sb_exbuf : execbuffer;
  sb_out_fence : option (Z * virtio_gpu_fence);
  sb_ctx_id : Z;
  sb_sync_file : option Z;
  sb_out_fence_fd : Z;
  sb_fence_ctx : Z;
  sb_ring_idx : Z;
  sb_buf : option (Z + Z)
}.

Section Parts.
Context {W : Type} `{GE : GemEnv W} `{SE : SubmitEnv W}.

(** ** Waiting for fences *)

Definition virtio_gpu_do_fence_wait (s : submit) (in_fence : Z) : ST W Z := fun w =>
  let context := u64 (sb_fence_ctx s + sb_ring_idx s) in
  if dma_fence_match_context w in_fence context then (0, w) else dma_fence_wait in_fence w.

Fixpoint fence_wait_all (s : submit) (l : list Z) : ST W Z := fun w =>
  match l with
  | [] => (0, w)
  | f :: l' =>
      let '(err, w1) := virtio_gpu_do_fence_wait s f w in
      if c_true err then (err, w1) else fence_wait_all s l' w1
  end.

Definition virtio_gpu_dma_fence_wait (s : submit) (fence : Z) : ST W Z := fun w =>
  fence_wait_all s (dma_fence_leaves w fence) w.

(** ** Sync objects to wait for *)

Fixpoint syncobjs_put (l : list (option Z)) : ST W unit := fun w =>
  match l with
  | [] => (tt, w)
  | o :: l' => syncobjs_put l' (match o with Some s => snd (drm_syncobj_put s w) | None => w end)
  end.

(** from the last to the first, then the array *)
Definition virtio_gpu_free_syncobjs (syncobjs : Z * list (option Z)) : ST W unit := fun w =>
  kvfree (fst syncobjs) (snd (syncobjs_put (rev (snd syncobjs)) w)).

(** the loop over the user's descriptors: the result, and the entries so far *)
Fixpoint parse_deps_loop (n : nat) (s : submit) (i : Z) (acc : list (option Z)) : ST W (Z * list (option Z)) := fun w =>
  match n with
  | O => ((0, acc), w)
  | S n' =>
      let x := sb_exbuf s in
      let address := u64 (ex_in_syncobjs x + i * ex_syncobj_stride x) in
      let '(desc, w1) := copy_syncobj_desc address (Z.min (ex_syncobj_stride x) sizeof_syncobj_desc) w in
      match desc with
      | None => ((- EFAULT, acc), w1)
      | Some desc =>
          if c_true (Z.land (sd_flags desc) (Z.lnot VIRTGPU_EXECBUF_SYNCOBJ_FLAGS)) then ((- EINVAL, acc), w1)
          else
            let '((ret, fence), w2) := drm_syncobj_find_fence (sd_handle desc) (sd_point desc) w1 in
            if c_true ret then ((ret, acc), w2)
            else
              let '(ret, w3) := virtio_gpu_dma_fence_wait s fence w2 in
              let '(_, w4) := dma_fence_put fence w3 in
              if c_true ret then ((ret, acc), w4)
              else if c_true (Z.land (sd_flags desc) VIRTGPU_EXECBUF_SYNCOBJ_RESET) then
                let '(so, w5) := drm_syncobj_find (sd_handle desc) w4 in
                match so with
                | None => ((- EINVAL, acc), w5)
                | Some so => parse_deps_loop n' s (i + 1) (acc ++ [Some so]) w5
                end
              else parse_deps_loop n' s (i + 1) (acc ++ [None]) w4
      end
  end.

Definition sb_set_in (s : submit) (x : option (Z * list (option Z))) : submit :=
  Submit (sb_post_deps s) x (sb_buflist s) (sb_exbuf s) (sb_out_fence s) (sb_ctx_id s) (sb_sync_file s)
         (sb_out_fence_fd s) (sb_fence_ctx s) (sb_ring_idx s) (sb_buf s).

Definition virtio_gpu_parse_deps (s : submit) : ST W (Z * submit) := fun w =>
  let num := ex_num_in_syncobjs (sb_exbuf s) in
  if num =? 0 then ((0, s), w)
  else
    let '(arr, w1) := kvzalloc_array num w in
    match arr with
    | None => ((- ENOMEM, s), w1)
    | Some arr =>
        let '((ret, l), w2) := parse_deps_loop (Z.to_nat num) s 0 [] w1 in
        if c_true ret then ((ret, s), snd (virtio_gpu_free_syncobjs (arr, l) w2))
        else ((ret, sb_set_in s (Some (arr, l))), w2)
    end.

Fixpoint virtio_gpu_reset_syncobjs (l : list (option Z)) : ST W unit := fun w =>
  match l with
  | [] => (tt, w)
  | o :: l' => virtio_gpu_reset_syncobjs l' (match o with Some s => snd (drm_syncobj_replace_fence s None w) | None => w end)
  end.

(** ** Sync objects to signal *)

Fixpoint post_deps_put (l : list post_dep) : ST W unit := fun w =>
  match l with
  | [] => (tt, w)
  | p :: l' =>
      let w1 := match pd_chain p with Some c => snd (kfree_chain c w) | None => w end in
      post_deps_put l' (snd (drm_syncobj_put (pd_syncobj p) w1))
  end.

Definition virtio_gpu_free_post_deps (post_deps : Z * list post_dep) : ST W unit := fun w =>
  kvfree (fst post_deps) (snd (post_deps_put (rev (snd post_deps)) w)).

Fixpoint parse_post_deps_loop (n : nat) (s : submit) (i : Z) (acc : list post_dep) : ST W (Z * list post_dep) := fun w =>
  match n with
  | O => ((0, acc), w)
  | S n' =>
      let x := sb_exbuf s in
      let address := u64 (ex_out_syncobjs x + i * ex_syncobj_stride x) in
      let '(desc, w1) := copy_syncobj_desc address (Z.min (ex_syncobj_stride x) sizeof_syncobj_desc) w in
      match desc with
      | None => ((- EFAULT, acc), w1)
      | Some desc =>
          if c_true (sd_flags desc) then ((- EINVAL, acc), w1)
          else
            let '((ok, chain), w2) :=
              if c_true (sd_point desc)
              then let '(c, w2) := dma_fence_chain_alloc w1 in ((bool_decide (is_Some c), c), w2)
              else ((true, None), w1) in
            if negb ok then ((- ENOMEM, acc), w2)
            else
              let '(so, w3) := drm_syncobj_find (sd_handle desc) w2 in
              match so with
              | None => ((- EINVAL, acc), match chain with Some c => snd (kfree_chain c w3) | None => w3 end)
              | Some so => parse_post_deps_loop n' s (i + 1) (acc ++ [PostDep so chain (sd_point desc)]) w3
              end
      end
  end.

Definition sb_set_post (s : submit) (x : option (Z * list post_dep)) : submit :=
  Submit x (sb_in_syncobjs s) (sb_buflist s) (sb_exbuf s) (sb_out_fence s) (sb_ctx_id s) (sb_sync_file s)
         (sb_out_fence_fd s) (sb_fence_ctx s) (sb_ring_idx s) (sb_buf s).

Definition virtio_gpu_parse_post_deps (s : submit) : ST W (Z * submit) := fun w =>
  let num := ex_num_out_syncobjs (sb_exbuf s) in
  if num =? 0 then ((0, s), w)
  else
    let '(arr, w1) := kvzalloc_array num w in
    match arr with
    | None => ((- ENOMEM, s), w1)
    | Some arr =>
        let '((ret, l), w2) := parse_post_deps_loop (Z.to_nat num) s 0 [] w1 in
        if c_true ret then ((ret, s), snd (virtio_gpu_free_post_deps (arr, l) w2))
        else ((0, sb_set_post s (Some (arr, l))), w2)
    end.

(** the entries without their chains, which belong to their sync objects now *)
Fixpoint process_post_deps (fence : option Z) (l : list post_dep) : ST W (list post_dep) := fun w =>
  match l with
  | [] => ([], w)
  | p :: l' =>
      let w1 := match pd_chain p with
                | Some c => snd (drm_syncobj_add_point (pd_syncobj p) c fence (pd_point p) w)
                | None => snd (drm_syncobj_replace_fence (pd_syncobj p) fence w)
                end in
      let '(rest, w2) := process_post_deps fence l' w1 in
      (PostDep (pd_syncobj p) None (pd_point p) :: rest, w2)
  end.

Definition virtio_gpu_process_post_deps (s : submit) : ST W submit := fun w =>
  match sb_post_deps s with
  | None => (s, w)
  | Some (arr, l) =>
      let '(l', w1) := process_post_deps (fst <$> sb_out_fence s) l w in
      (sb_set_post s (Some (arr, l')), w1)
  end.

(** ** The submission's own resources *)

(** the fence with its event; [None]: a NULL fence is written to *)
Definition virtio_gpu_fence_event_create (fence : option (Z * virtio_gpu_fence))
  : ST W (option (Z * option (Z * virtio_gpu_fence))) := fun w =>
  let '(e, w1) := event_kzalloc w in
  match e with
  | None => (Some (- ENOMEM, fence), w1)
  | Some e =>
      let '(ret, w2) := drm_event_reserve_init e w1 in
      if c_true ret then (Some (ret, fence), snd (event_kfree e w2))
      else
        match fence with
        | None => (None, w2)
        | Some (a, f) =>
            (Some (0, Some (a, Fence (fn_context f) (fn_ring_idx f) (fn_emit_fence_info f) (fn_fence_id f) true)), w2)
        end
  end.

Definition sb_set_buflist (s : submit) (x : option (list Z)) : submit :=
  Submit (sb_post_deps s) (sb_in_syncobjs s) x (sb_exbuf s) (sb_out_fence s) (sb_ctx_id s) (sb_sync_file s)
         (sb_out_fence_fd s) (sb_fence_ctx s) (sb_ring_idx s) (sb_buf s).
Definition sb_set_buf (s : submit) (x : option (Z + Z)) : submit :=
  Submit (sb_post_deps s) (sb_in_syncobjs s) (sb_buflist s) (sb_exbuf s) (sb_out_fence s) (sb_ctx_id s)
         (sb_sync_file s) (sb_out_fence_fd s) (sb_fence_ctx s) (sb_ring_idx s) x.
Definition sb_set_fd (s : submit) (fd : Z) (file : option Z) : submit :=
  Submit (sb_post_deps s) (sb_in_syncobjs s) (sb_buflist s) (sb_exbuf s) (sb_out_fence s) (sb_ctx_id s)
         file fd (sb_fence_ctx s) (sb_ring_idx s) (sb_buf s).

Definition virtio_gpu_init_submit_buflist (s : submit) : ST W (Z * submit) := fun w =>
  let x := sb_exbuf s in
  if ex_num_bo_handles x =? 0 then ((0, s), w)
  else
    let '(arr, w1) := kvzalloc_array (ex_num_bo_handles x) w in
    match arr with
    | None => ((- ENOMEM, s), w1)
    | Some arr =>
        let '(handles, w2) := copy_bo_handles (ex_bo_handles x) (ex_num_bo_handles x) w1 in
        match handles with
        | None => ((- EFAULT, s), snd (kvfree arr w2))
        | Some handles =>
            let '(buflist, w3) := virtio_gpu_array_from_handles handles w2 in
            match buflist with
            | None => ((- ENOENT, s), snd (kvfree arr w3))
            | Some l => ((0, sb_set_buflist s (Some l)), snd (kvfree arr w3))
            end
        end
    end.

(** [memset(submit, 0, sizeof)] *)
Definition submit_zero (x : execbuffer) : submit := Submit None None None x None 0 None 0 0 0 None.

(** the command buffer, and the file descriptor of the fence if one is wanted *)
Definition init_submit_buffers (s : submit) : ST W (Z * submit) := fun w =>
  let x := sb_exbuf s in
  let '((err, s1), w1) := virtio_gpu_init_submit_buflist s w in
  if c_true err then ((err, s1), w1)
  else
    let '(buf, w2) := vmemdup_user (ex_command x) (ex_size x) w1 in
    let s2 := sb_set_buf s1 (Some buf) in
    match buf with
    | inl e => ((e, s2), w2)
    | inr _ =>
        if c_true (Z.land (ex_flags x) VIRTGPU_EXECBUF_FENCE_FD_OUT) then
          let '(err, w3) := get_unused_fd w2 in
          if err <? 0 then ((err, s2), w3)
          else
            let '(file, w4) := sync_file_create (fst <$> sb_out_fence s2) w3 in
            match file with
            | None => ((- ENOMEM, sb_set_fd s2 err None), w4)
            | Some file => ((0, sb_set_fd s2 err (Some file)), w4)
            end
        else ((0, s2), w2)
    end.

(** [virtio_gpu_init_submit]; [None]: a NULL fence is written to *)
Definition virtio_gpu_init_submit (drv : fence_driver) (vfpriv : fpriv) (x : execbuffer) (fence_ctx ring_idx : Z)
  : ST W (option (Z * submit)) := fun w =>
  let drm_fence_event := c_true (Z.land (ex_flags x) VIRTGPU_EXECBUF_RING_IDX) &&
                         c_true (Z.land (fp_ring_idx_mask vfpriv) (u64 (Z.shiftl 1 ring_idx))) in
  let '(out_fence, w1) :=
    if c_true (Z.land (ex_flags x) VIRTGPU_EXECBUF_FENCE_FD_OUT) || c_true (ex_num_out_syncobjs x) ||
       c_true (ex_num_bo_handles x) || drm_fence_event
    then let '(a, w1) := fence_kzalloc w in
         (match a, virtio_gpu_fence_alloc (bool_decide (is_Some a)) drv fence_ctx ring_idx with
          | Some a, Some f => Some (a, f)
          | _, _ => None
          end, w1)
    else (None, w) in
  let '(ev, w2) := if drm_fence_event then virtio_gpu_fence_event_create out_fence w1
                   else (Some (0, out_fence), w1) in
  match ev with
  | None => (None, w2)
  | Some (err, out_fence) =>
      if c_true err
      then (Some (err, submit_zero x), match out_fence with Some (a, _) => snd (dma_fence_put a w2) | None => w2 end)
      else
        let s := Submit None None None x out_fence (fp_ctx_id vfpriv) None (- 1) fence_ctx ring_idx None in
        let '(r, w3) := init_submit_buffers s w2 in (Some r, w3)
  end.

Definition virtio_gpu_wait_in_fence (s : submit) : ST W Z := fun w =>
  if c_true (Z.land (ex_flags (sb_exbuf s)) VIRTGPU_EXECBUF_FENCE_FD_IN) then
    let '(in_fence, w1) := sync_file_get_fence (ex_fence_fd (sb_exbuf s)) w in
    match in_fence with
    | None => (- EINVAL, w1)
    | Some f =>
        let '(ret, w2) := virtio_gpu_dma_fence_wait s f w1 in
        (ret, snd (dma_fence_put f w2))
    end
  else (0, w).

Definition virtio_gpu_lock_buflist (s : submit) : ST W Z := fun w =>
  match sb_buflist s with Some l => virtio_gpu_array_lock_resv l w | None => (0, w) end.

Definition virtio_gpu_install_out_fence_fd (s : submit) : ST W submit := fun w =>
  match sb_sync_file s with
  | Some file =>
      (Submit (sb_post_deps s) (sb_in_syncobjs s) (sb_buflist s) (ex_set_fence_fd (sb_exbuf s) (sb_out_fence_fd s))
              (sb_out_fence s) (sb_ctx_id s) (sb_sync_file s) (sb_out_fence_fd s) (sb_fence_ctx s) (sb_ring_idx s) (sb_buf s),
       snd (fd_install (sb_out_fence_fd s) file w))
  | None => (s, w)
  end.

Definition virtio_gpu_complete_submit (s : submit) : submit :=
  Submit (sb_post_deps s) (sb_in_syncobjs s) None (sb_exbuf s) (sb_out_fence s) (sb_ctx_id s) None (- 1)
         (sb_fence_ctx s) (sb_ring_idx s) None.

Definition virtio_gpu_cleanup_submit (s : submit) : ST W unit := fun w =>
  let w1 := match sb_in_syncobjs s with
            | Some (a, l) => snd (virtio_gpu_free_syncobjs (a, l) (snd (virtio_gpu_reset_syncobjs l w)))
            | None => w end in
  let w2 := match sb_post_deps s with Some p => snd (virtio_gpu_free_post_deps p w1) | None => w1 end in
  let w3 := match sb_buf s with Some (inr b) => snd (kvfree b w2) | _ => w2 end in
  let w4 := match sb_buflist s with Some l => snd (virtio_gpu_array_put_free (Some l) w3) | None => w3 end in
  let w5 := if sb_out_fence_fd s >=? 0 then snd (put_unused_fd (sb_out_fence_fd s) w4) else w4 in
  let w6 := match sb_out_fence s with Some (a, _) => snd (dma_fence_put a w5) | None => w5 end in
  match sb_sync_file s with Some f => sync_file_put f w6 | None => (tt, w6) end.

End Parts.

(** ** The ioctl *)

Section Ioctl.
Context {B W : Type} `{BO : BuddyOps B} `{PA : PoolApi W} `{CE : CtrlEnv W} `{OA : !ObjArrays W} `{BE : !BoEnv W}
  `{GE : GemEnv W} `{SE : !SubmitEnv W}.
Context (sleep : gpu_st W -> gpu_st W) (fuel : nat).
Abbreviation dev_st := (dev_st B W).
(** the device with the open file *)
Definition file_st : Type := fpriv * dev_st.

Definition virtio_gpu_create_context_locked : ST file_st unit := fun '(f, st) =>
  let name := if fp_explicit_debug_name f then fp_debug_name f else task_comm (snd st) in
  let '(_, st1) := virtio_gpu_cmd_context_create sleep fuel (fp_ctx_id f) (fp_context_init f)
                     (Z.of_nat (length name)) name st in
  (tt, (fp_set_created f, st1)).

Definition virtio_gpu_create_context : ST file_st unit := fun st =>
  if fp_context_created (fst st) then (tt, st) else virtio_gpu_create_context_locked st.

Definition virtio_gpu_submit (s : submit) : ST dev_st unit := fun st =>
  let data := match sb_buf s with Some (inr b) => b | _ => 0 end in
  let '(_, st1) := virtio_gpu_cmd_submit sleep fuel data (ex_size (sb_exbuf s)) (sb_ctx_id s)
                     (sb_buflist s) (snd <$> sb_out_fence s) st in
  notify st1.

(** the steps after [init_submit] up to the submission: the first error, and the submission as it
    stands then *)
Definition execbuffer_prepare (s : submit) : ST W (Z * submit) := fun w =>
  let '((ret, s1), w1) := virtio_gpu_parse_post_deps s w in
  if c_true ret then ((ret, s1), w1)
  else
    let '((ret, s2), w2) := virtio_gpu_parse_deps s1 w1 in
    if c_true ret then ((ret, s2), w2)
    else
      let '(ret, w3) := virtio_gpu_wait_in_fence s2 w2 in
      if c_true ret then ((ret, s2), w3)
      else
        let '(ret, w4) := virtio_gpu_lock_buflist s2 w3 in ((ret, s2), w4).

(** the user's outputs after the submission *)
Definition execbuffer_finish (s : submit) : ST W submit := fun w =>
  let '(s1, w1) := virtio_gpu_install_out_fence_fd s w in
  let '(s2, w2) := virtio_gpu_process_post_deps s1 w1 in
  (virtio_gpu_complete_submit s2, w2).

(** the result and the user's structure; [None]: a NULL fence is written to *)
Definition virtio_gpu_execbuffer_ioctl (has_virgl_3d : bool) (x : execbuffer)
  : ST file_st (option (Z * execbuffer)) := fun st =>
  let vfpriv := fst st in
  if negb has_virgl_3d then (Some (- ENOSYS, x), st)
  else if c_true (Z.land (ex_flags x) (Z.lnot VIRTGPU_EXECBUF_FLAGS)) then (Some (- EINVAL, x), st)
  else
    let ring := c_true (Z.land (ex_flags x) VIRTGPU_EXECBUF_RING_IDX) in
    if ring && ((ex_ring_idx x >=? fp_num_rings vfpriv) || (fp_base_fence_ctx vfpriv =? 0)) then (Some (- EINVAL, x), st)
    else
      let drv := g_fence (dv_gpu (fst (snd st))) in
      let fence_ctx := if ring then fp_base_fence_ctx vfpriv else fd_context drv in
      let ring_idx := if ring then ex_ring_idx x else 0 in
      let '(_, (f1, (d1, w1))) := virtio_gpu_create_context st in
      let '(r, w2) := virtio_gpu_init_submit (g_fence (dv_gpu d1)) f1 x fence_ctx ring_idx w1 in
      match r with
      | None => (None, (f1, (d1, w2)))
      | Some (ret, s) =>
          let '((ret, s1), w3) := if c_true ret then ((ret, s), w2) else execbuffer_prepare s w2 in
          if c_true ret
          then (Some (ret, x), (f1, (d1, snd (virtio_gpu_cleanup_submit s1 w3))))
          else
            let '(_, (d2, w4)) := virtio_gpu_submit s1 (d1, w3) in
            let '(s2, w5) := execbuffer_finish s1 w4 in
            (Some (ret, sb_exbuf s2), (f1, (d2, snd (virtio_gpu_cleanup_submit s2 w5))))
      end.

End Ioctl.
