(* ===== verification/SubmitProps.v ===== *)
(** * Properties of command submission

    Every way through the execbuffer ioctl gives back what it took: memory, sync objects, fence
    chains, file descriptors, files, fence references, object references and reservation locks. *)

From stdpp Require Import gmap gmultiset.
From S2P Require Import Prelude PoolCtl GuestPool Wire Fence ObjArray CtrlQueue GpuDev GpuCmds Submit.

(** ** What a submission can hold *)

Inductive held :=
  HMem (a : Z) | HFence (f : Z) | HSyncobj (s : Z) | HChain (c : Z) | HFd (n : Z) | HFile (f : Z) | HEvent (e : Z).

Definition held_code (h : held) : Z * Z :=
  match h with
  | HMem a => (0, a) | HFence f => (1, f) | HSyncobj s => (2, s) | HChain c => (3, c)
  | HFd n => (4, n) | HFile f => (5, f) | HEvent e => (6, e)
  end.
Definition held_decode (c : Z * Z) : held :=
  let '(k, a) := c in
  if k =? 0 then HMem a else if k =? 1 then HFence a else if k =? 2 then HSyncobj a else if k =? 3 then HChain a
  else if k =? 4 then HFd a else if k =? 5 then HFile a else HEvent a.
#[export] Instance held_eq_dec : EqDecision held.
Proof. solve_decision. Defined.
#[export] Instance held_countable : Countable held.
Proof. refine (inj_countable' held_code held_decode _). by intros []. Defined.

(** the part of the world the submission's own services move: [takes] adds, [gives] removes *)
Section Moves.
Context {W : Type} (hobs : W -> gmultiset held) (others : W -> gem_obs).
Definition takes (w w' : W) (X : gmultiset held) : Prop := hobs w' = X ⊎ hobs w /\ others w' = others w.
Definition gives (w w' : W) (X : gmultiset held) : Prop :=
  (forall R, hobs w = X ⊎ R -> hobs w' = R) /\ others w' = others w.
Definition opt_held (c : Z -> held) (o : option Z) : gmultiset held :=
  match o with Some a => {[+ c a +]} | None => ∅ end.
End Moves.

Class SubmitLaws (W : Type) `{GemLaws W} `{SubmitEnv W} := {
  hobs : W -> gmultiset held;
  sl_kvzalloc n w : let '(a, w') := kvzalloc_array n w in takes hobs gobs w w' (opt_held HMem a);
  sl_kvfree a w : gives hobs gobs w (snd (kvfree a w)) {[+ HMem a +]};
  sl_copy_desc a n w : takes hobs gobs w (snd (copy_syncobj_desc a n w)) ∅;
  sl_copy_handles a n w : takes hobs gobs w (snd (copy_bo_handles a n w)) ∅;
  sl_vmemdup a n w : let '(r, w') := vmemdup_user a n w in
    takes hobs gobs w w' (match r with inr b => {[+ HMem b +]} | inl _ => ∅ end) /\ (forall e, r = inl e -> e <> 0);
  sl_find_fence h p w : let '((ret, f), w') := drm_syncobj_find_fence h p w in
    takes hobs gobs w w' (if ret =? 0 then {[+ HFence f +]} else ∅);
  sl_wait f w : takes hobs gobs w (snd (dma_fence_wait f w)) ∅;
  sl_fence_put f w : gives hobs gobs w (snd (dma_fence_put f w)) {[+ HFence f +]};
  sl_find h w : let '(s, w') := drm_syncobj_find h w in takes hobs gobs w w' (opt_held HSyncobj s);
  sl_put s w : gives hobs gobs w (snd (drm_syncobj_put s w)) {[+ HSyncobj s +]};
  sl_replace s f w : takes hobs gobs w (snd (drm_syncobj_replace_fence s f w)) ∅;
  sl_add_point s c f p w : gives hobs gobs w (snd (drm_syncobj_add_point s c f p w)) {[+ HChain c +]};
  sl_chain_alloc w : let '(c, w') := dma_fence_chain_alloc w in takes hobs gobs w w' (opt_held HChain c);
  sl_chain_free c w : gives hobs gobs w (snd (kfree_chain c w)) {[+ HChain c +]};
  sl_fence_alloc w : let '(a, w') := fence_kzalloc w in takes hobs gobs w w' (opt_held HFence a);
  sl_event_alloc w : let '(e, w') := event_kzalloc w in takes hobs gobs w w' (opt_held HEvent e);
  sl_event_free e w : gives hobs gobs w (snd (event_kfree e w)) {[+ HEvent e +]};
  sl_event_reserve e w : takes hobs gobs w (snd (drm_event_reserve_init e w)) ∅;
  sl_get_fd w : let '(n, w') := get_unused_fd w in takes hobs gobs w w' (if n <? 0 then ∅ else {[+ HFd n +]});
  sl_put_fd n w : gives hobs gobs w (snd (put_unused_fd n w)) {[+ HFd n +]};
  sl_fd_install n f w : gives hobs gobs w (snd (fd_install n f w)) {[+ HFd n; HFile f +]};
  sl_file_create f w : let '(x, w') := sync_file_create f w in takes hobs gobs w w' (opt_held HFile x);
  sl_file_put f w : gives hobs gobs w (snd (sync_file_put f w)) {[+ HFile f +]};
  sl_file_fence n w : let '(f, w') := sync_file_get_fence n w in takes hobs gobs w w' (opt_held HFence f);
  sl_arr_alloc n w : hobs (snd (arr_alloc n w)) = hobs w;
  sl_arr_free w : hobs (snd (arr_free w)) = hobs w;
  sl_lookup h w : hobs (snd (drm_gem_object_lookup h w)) = hobs w;
  sl_gem_put o w : hobs (snd (drm_gem_object_put o w)) = hobs w;
  sl_lock o w : hobs (snd (dma_resv_lock_interruptible o w)) = hobs w;
  sl_lock_many l w : hobs (snd (drm_gem_lock_reservations l w)) = hobs w;
  sl_reserve o w : hobs (snd (dma_resv_reserve_fences o w)) = hobs w;
  sl_unlock o w : hobs (snd (dma_resv_unlock o w)) = hobs w;
  sl_unlock_many l w : hobs (snd (drm_gem_unlock_reservations l w)) = hobs w
}.

(** ** What a submission owns *)

(** the sum over a list *)
Definition owned_all {A} (f : A -> gmultiset held) (l : list A) : gmultiset held := foldr (fun a X => f a ⊎ X) ∅ l.
Definition owned_ins : list (option Z) -> gmultiset held := owned_all (opt_held HSyncobj).
Definition owned_in (x : option (Z * list (option Z))) : gmultiset held :=
  match x with Some (a, l) => {[+ HMem a +]} ⊎ owned_ins l | None => ∅ end.
Definition owned_dep (p : post_dep) : gmultiset held := {[+ HSyncobj (pd_syncobj p) +]} ⊎ opt_held HChain (pd_chain p).
Definition owned_deps : list post_dep -> gmultiset held := owned_all owned_dep.
Definition owned_post (x : option (Z * list post_dep)) : gmultiset held :=
  match x with Some (a, l) => {[+ HMem a +]} ⊎ owned_deps l | None => ∅ end.
Definition owned_buf (x : option (Z + Z)) : gmultiset held :=
  match x with Some (inr b) => {[+ HMem b +]} | _ => ∅ end.
Definition owned_fd (n : Z) : gmultiset held := if n >=? 0 then {[+ HFd n +]} else ∅.
Definition owned (s : submit) : gmultiset held :=
  owned_in (sb_in_syncobjs s) ⊎ owned_post (sb_post_deps s) ⊎ owned_buf (sb_buf s) ⊎ owned_fd (sb_out_fence_fd s) ⊎
  opt_held HFence (fst <$> sb_out_fence s) ⊎ opt_held HFile (sb_sync_file s).
Definition owned_bos (s : submit) : list Z := default [] (sb_buflist s).

Lemma owned_all_cons {A} (f : A -> gmultiset held) a l : owned_all f (a :: l) = f a ⊎ owned_all f l.
Proof. done. Qed.
Lemma owned_all_nil {A} (f : A -> gmultiset held) : owned_all f [] = ∅.
Proof. done. Qed.
Lemma owned_all_app {A} (f : A -> gmultiset held) l1 l2 : owned_all f (l1 ++ l2) = owned_all f l1 ⊎ owned_all f l2.
Proof.
  induction l1 as [|a l1 IH]; cbn [app]; [by rewrite owned_all_nil, (left_id_L ∅ (⊎))|].
  by rewrite !owned_all_cons, IH, (assoc_L (⊎)).
Qed.
Lemma owned_all_rev {A} (f : A -> gmultiset held) l : owned_all f (rev l) = owned_all f l.
Proof.
  induction l as [|a l IH]; [done|]. cbn [rev]. rewrite owned_all_app, IH, !owned_all_cons, owned_all_nil.
  rewrite (right_id_L ∅ (⊎)). by rewrite (comm_L (⊎)).
Qed.

(** the fields of an updated submission, the multisets left as they are *)
Ltac owned_simpl :=
  unfold owned;
  cbn [sb_set_in sb_set_post sb_set_buflist sb_set_buf sb_set_fd sb_post_deps sb_in_syncobjs sb_buflist sb_exbuf
       sb_out_fence sb_ctx_id sb_sync_file sb_out_fence_fd sb_fence_ctx sb_ring_idx sb_buf
       owned_in owned_post owned_buf opt_held fmap option_fmap option_map fst snd submit_zero].

Section Facts.
Context {W : Type} `{SL : SubmitLaws W}.
Implicit Types (s : submit) (w : W).
Abbreviation takes := (takes hobs gobs).
Abbreviation gives := (gives hobs gobs).

Lemma takes_refl w : takes w w ∅.
Proof. split; [multiset_solver | done]. Qed.
Lemma takes_trans w w1 w2 X Y : takes w w1 X -> takes w1 w2 Y -> takes w w2 (X ⊎ Y).
Proof. intros [E1 E2] [E3 E4]. split; [rewrite E3, E1; multiset_solver | congruence]. Qed.
Lemma gives_trans w w1 w2 X Y : gives w w1 X -> gives w1 w2 Y -> gives w w2 (X ⊎ Y).
Proof.
  intros [E1 E2] [E3 E4]. split; [|congruence]. intros R HR. apply E3, E1. rewrite HR. multiset_solver.
Qed.
Lemma gives_refl w : gives w w ∅.
Proof. split; [intros R ->; multiset_solver | done]. Qed.
Lemma takes_gives w w1 w2 X : takes w w1 X -> gives w1 w2 X -> takes w w2 ∅.
Proof. intros [E1 E2] [E3 E4]. split; [|congruence]. rewrite (E3 (hobs w) E1). multiset_solver. Qed.
Lemma takes_gives_part w w1 w2 X Y : takes w w1 (X ⊎ Y) -> gives w1 w2 Y -> takes w w2 X.
Proof.
  intros [E1 E2] [E3 E4]. split; [|congruence]. apply E3. rewrite E1. multiset_solver.
Qed.
Lemma takes_empty_gives w w1 w2 X : takes w w1 ∅ -> gives w1 w2 X -> gives w w2 X.
Proof. intros [E1 E2] [E3 E4]. split; [|congruence]. intros R HR. apply E3. rewrite E1, HR. multiset_solver. Qed.
Lemma gives_takes_empty w w1 w2 X : gives w w1 X -> takes w1 w2 ∅ -> gives w w2 X.
Proof. intros [E1 E2] [E3 E4]. split; [|congruence]. intros R HR. rewrite E3, (E1 R HR). multiset_solver. Qed.
Lemma takes_eq w w' X Y : takes w w' X -> X = Y -> takes w w' Y.
Proof. by intros ? <-. Qed.
Lemma gives_eq w w' X Y : gives w w' X -> X = Y -> gives w w' Y.
Proof. by intros ? <-. Qed.

(** ** Giving back *)

Lemma syncobjs_put_gives l w : gives w (snd (syncobjs_put l w)) (owned_ins l).
Proof.
  unfold owned_ins. revert w; induction l as [|o l IH]; intros w; cbn [syncobjs_put]; [apply gives_refl|].
  rewrite owned_all_cons. eapply gives_trans; [|apply IH]. destruct o; [apply sl_put | apply gives_refl].
Qed.

Lemma free_syncobjs_gives x w : gives w (snd (virtio_gpu_free_syncobjs x w)) (owned_in (Some x)).
Proof.
  destruct x as [a l]. unfold virtio_gpu_free_syncobjs. cbn [fst snd].
  eapply gives_eq; [eapply gives_trans; [apply syncobjs_put_gives | apply sl_kvfree]|].
  unfold owned_in, owned_ins. rewrite owned_all_rev. multiset_solver.
Qed.

Lemma post_deps_put_gives l w : gives w (snd (post_deps_put l w)) (owned_deps l).
Proof.
  revert w; induction l as [|p l IH]; intros w; cbn [post_deps_put]; [apply gives_refl|].
  unfold owned_deps in *. rewrite owned_all_cons. unfold owned_dep at 1.
  destruct (pd_chain p) as [c|]; cbn [opt_held].
  - eapply gives_eq; [eapply gives_trans; [apply sl_chain_free|eapply gives_trans; [apply sl_put | apply IH]]|]. multiset_solver.
  - eapply gives_eq; [eapply gives_trans; [apply sl_put | apply IH]|]. multiset_solver.
Qed.

Lemma free_post_deps_gives x w : gives w (snd (virtio_gpu_free_post_deps x w)) (owned_post (Some x)).
Proof.
  destruct x as [a l]. unfold virtio_gpu_free_post_deps. cbn [fst snd].
  eapply gives_eq; [eapply gives_trans; [apply post_deps_put_gives | apply sl_kvfree]|].
  unfold owned_post, owned_deps. rewrite owned_all_rev. multiset_solver.
Qed.

Lemma reset_syncobjs_takes l w : takes w (snd (virtio_gpu_reset_syncobjs l w)) ∅.
Proof.
  revert w; induction l as [|[s|] l IH]; intros w; cbn [virtio_gpu_reset_syncobjs]; [apply takes_refl | | apply IH].
  eapply takes_eq; [eapply takes_trans; [apply sl_replace | apply IH]|]. multiset_solver.
Qed.

(** ** Taking *)

Lemma fence_wait_takes s l w : takes w (snd (fence_wait_all s l w)) ∅.
Proof.
  revert w; induction l as [|f l IH]; intros w; cbn [fence_wait_all]; [apply takes_refl|].
  unfold virtio_gpu_do_fence_wait. destruct (dma_fence_match_context w f _); [apply IH|].
  pose proof (sl_wait f w) as Hw. destruct (dma_fence_wait f w) as [err w1]. cbn [snd] in Hw.
  case_if; [done|]. eapply takes_eq; [eapply takes_trans; [exact Hw | apply IH]|]. multiset_solver.
Qed.

Lemma parse_deps_loop_takes n s i acc w :
  let '((ret, l), w') := parse_deps_loop n s i acc w in
  exists new, l = acc ++ new /\ takes w w' (owned_ins new).
Proof.
  revert i acc w; induction n as [|n IH]; intros i acc w; cbn [parse_deps_loop].
  { exists []. rewrite app_nil_r. split; [done | apply takes_refl]. }
  assert (Hstop : forall w', takes w w' ∅ -> exists new, acc = acc ++ new /\
    takes w w' (owned_ins new)).
  { intros w' Hw'. exists []. by rewrite app_nil_r. }
  pose proof (sl_copy_desc (u64 (ex_in_syncobjs (sb_exbuf s) + i * ex_syncobj_stride (sb_exbuf s)))
                (Z.min (ex_syncobj_stride (sb_exbuf s)) sizeof_syncobj_desc) w) as K1.
  destruct (copy_syncobj_desc _ _ w) as [[desc|] w1]; cbn [snd] in K1; [|by apply Hstop].
  case_if; [by apply Hstop|].
  pose proof (sl_find_fence (sd_handle desc) (sd_point desc) w1) as K2.
  destruct (drm_syncobj_find_fence _ _ w1) as [[ret f] w2]. unfold c_true at 1.
  destruct (Z.eqb_spec ret 0) as [->|Hne]; cbn [negb].
  2:{ apply Hstop. eapply takes_eq; [by eapply takes_trans|]. multiset_solver. }
  unfold virtio_gpu_dma_fence_wait. pose proof (fence_wait_takes s (dma_fence_leaves w2 f) w2) as K3.
  destruct (fence_wait_all s _ w2) as [ret w3]. cbn [snd] in K3.
  pose proof (sl_fence_put f w3) as K4. destruct (dma_fence_put f w3) as [u w4]. cbn [snd] in K4.
  assert (K5 : takes w w4 ∅).
  { eapply takes_gives; [|exact K4]. eapply takes_eq; [eapply takes_trans; [exact K1|eapply takes_trans; [exact K2|exact K3]]|].
    change (0 =? 0) with true. cbv iota. multiset_solver. }
  case_if; [by apply Hstop|]. case_if.
  - pose proof (sl_find (sd_handle desc) w4) as K6. destruct (drm_syncobj_find _ w4) as [[so|] w5]; cbn [opt_held] in K6.
    2:{ apply Hstop. eapply takes_eq; [by eapply takes_trans|]. multiset_solver. }
    specialize (IH (i + 1) (acc ++ [Some so]) w5). destruct (parse_deps_loop _ _ _ _ w5) as [[r l] w'].
    destruct IH as (new & -> & IH). exists (Some so :: new). rewrite <- app_assoc. split; [done|].
    eapply takes_eq; [eapply takes_trans; [exact K5|eapply takes_trans; [exact K6|exact IH]]|].
    unfold owned_ins. rewrite owned_all_cons. cbn [opt_held]. multiset_solver.
  - specialize (IH (i + 1) (acc ++ [None]) w4). destruct (parse_deps_loop _ _ _ _ w4) as [[r l] w'].
    destruct IH as (new & -> & IH). exists (None :: new). rewrite <- app_assoc. split; [done|].
    eapply takes_eq; [eapply takes_trans; [exact K5|exact IH]|].
    unfold owned_ins. rewrite owned_all_cons. cbn [opt_held]. multiset_solver.
Qed.

Lemma parse_deps_takes s w : sb_in_syncobjs s = None ->
  let '((ret, s'), w') := virtio_gpu_parse_deps s w in
  exists x, s' = sb_set_in s x /\ takes w w' (owned_in x).
Proof.
  intros Hs. assert (Hnone : s = sb_set_in s None) by (by destruct s; cbn in *; subst).
  unfold virtio_gpu_parse_deps. case_if; [exists None; split; [done | apply takes_refl]|].
  pose proof (sl_kvzalloc (ex_num_in_syncobjs (sb_exbuf s)) w) as K1.
  destruct (kvzalloc_array _ w) as [[arr|] w1]; cbn [opt_held] in K1; [|by exists None].
  pose proof (parse_deps_loop_takes (Z.to_nat (ex_num_in_syncobjs (sb_exbuf s))) s 0 [] w1) as K2.
  destruct (parse_deps_loop _ _ _ _ w1) as [[ret l] w2]. destruct K2 as (new & -> & K2). cbn [app] in *.
  case_if.
  - exists None. split; [done|]. eapply takes_gives; [|apply free_syncobjs_gives].
    eapply takes_eq; [by eapply takes_trans|]. unfold owned_in. multiset_solver.
  - exists (Some (arr, new)). split; [done|]. eapply takes_eq; [by eapply takes_trans|]. unfold owned_in. multiset_solver.
Qed.

Lemma parse_post_deps_loop_takes n s i acc w :
  let '((ret, l), w') := parse_post_deps_loop n s i acc w in
  exists new, l = acc ++ new /\ takes w w' (owned_deps new).
Proof.
  revert i acc w; induction n as [|n IH]; intros i acc w; cbn [parse_post_deps_loop].
  { exists []. rewrite app_nil_r. split; [done | apply takes_refl]. }
  assert (Hstop : forall w', takes w w' ∅ -> exists new, acc = acc ++ new /\ takes w w' (owned_deps new)).
  { intros w' Hw'. exists []. by rewrite app_nil_r. }
  pose proof (sl_copy_desc (u64 (ex_out_syncobjs (sb_exbuf s) + i * ex_syncobj_stride (sb_exbuf s)))
                (Z.min (ex_syncobj_stride (sb_exbuf s)) sizeof_syncobj_desc) w) as K1.
  destruct (copy_syncobj_desc _ _ w) as [[desc|] w1]; cbn [snd] in K1; [|by apply Hstop].
  case_if; [by apply Hstop|].
  set (step := if c_true (sd_point desc) then _ else _).
  assert (K2 : let '((ok, chain), w2) := step in takes w w2 (opt_held HChain chain) /\ (ok = false -> chain = None)).
  { subst step. case_if; [|done]. pose proof (sl_chain_alloc w1) as K2. destruct (dma_fence_chain_alloc w1) as [c w2].
    split; [|by destruct c]. eapply takes_eq; [by eapply takes_trans|]. multiset_solver. }
  destruct step as [[ok chain] w2]. destruct K2 as [K2 K3]. destruct ok; cbn [negb].
  2:{ apply Hstop. by rewrite (K3 eq_refl) in K2. }
  pose proof (sl_find (sd_handle desc) w2) as K4. destruct (drm_syncobj_find _ w2) as [[so|] w3]; cbn [opt_held] in K4.
  - specialize (IH (i + 1) (acc ++ [PostDep so chain (sd_point desc)]) w3).
    destruct (parse_post_deps_loop _ _ _ _ w3) as [[r l] w'].
    destruct IH as (new & -> & IH). eexists (_ :: new). rewrite <- app_assoc. split; [done|].
    eapply takes_eq; [eapply takes_trans; [exact K2|eapply takes_trans; [exact K4|exact IH]]|].
    unfold owned_deps. rewrite owned_all_cons. unfold owned_dep at 1. cbn [pd_syncobj pd_chain]. multiset_solver.
  - apply Hstop. assert (K5 : takes w w3 (opt_held HChain chain)).
    { eapply takes_eq; [by eapply takes_trans|]. multiset_solver. }
    destruct chain as [c|]; cbn [opt_held] in *; [|done]. eapply takes_gives; [exact K5 | apply sl_chain_free].
Qed.

Lemma parse_post_deps_takes s w : sb_post_deps s = None ->
  let '((ret, s'), w') := virtio_gpu_parse_post_deps s w in
  exists x, s' = sb_set_post s x /\ takes w w' (owned_post x).
Proof.
  intros Hs. assert (Hnone : s = sb_set_post s None) by (by destruct s; cbn in *; subst).
  unfold virtio_gpu_parse_post_deps. case_if; [exists None; split; [done | apply takes_refl]|].
  pose proof (sl_kvzalloc (ex_num_out_syncobjs (sb_exbuf s)) w) as K1.
  destruct (kvzalloc_array _ w) as [[arr|] w1]; cbn [opt_held] in K1; [|by exists None].
  pose proof (parse_post_deps_loop_takes (Z.to_nat (ex_num_out_syncobjs (sb_exbuf s))) s 0 [] w1) as K2.
  destruct (parse_post_deps_loop _ _ _ _ w1) as [[ret l] w2]. destruct K2 as (new & -> & K2). cbn [app] in *.
  case_if.
  - exists None. split; [done|]. eapply takes_gives; [|apply free_post_deps_gives].
    eapply takes_eq; [by eapply takes_trans|]. unfold owned_post. multiset_solver.
  - exists (Some (arr, new)). split; [done|]. eapply takes_eq; [by eapply takes_trans|]. unfold owned_post. multiset_solver.
Qed.

(** ** The arrays leave the submission's own resources alone *)

Lemma put_free_hobs l w : hobs (snd (virtio_gpu_array_put_free (Some l) w)) = hobs w.
Proof.
  cbn. rewrite sl_arr_free. revert w; induction l as [|o l IH]; intros w; cbn [put_all]; [done|].
  rewrite IH. apply sl_gem_put.
Qed.

Lemma from_handles_hobs hs w : hobs (snd (virtio_gpu_array_from_handles hs w)) = hobs w.
Proof.
  unfold virtio_gpu_array_from_handles, virtio_gpu_array_alloc.
  pose proof (sl_arr_alloc (Z.of_nat (length hs)) w) as K1. destruct (arr_alloc _ w) as [[] w1]; cbn [snd] in *; [|done].
  assert (K2 : forall acc w, hobs (snd (lookup_all hs acc w)) = hobs w).
  { clear. intros acc w. revert acc w; induction hs as [|h hs IH]; intros acc w; cbn [lookup_all]; [done|].
    pose proof (sl_lookup h w) as K. destruct (drm_gem_object_lookup h w) as [[o|] w1]; cbn [snd] in *; [|done].
    by rewrite IH. }
  specialize (K2 [] w1). destruct (lookup_all hs [] w1) as [[[] l] w2]; cbn [snd] in *; [congruence|].
  pose proof (put_free_hobs l w2). cbn in *. congruence.
Qed.

Lemma lock_resv_hobs l w : hobs (snd (virtio_gpu_array_lock_resv l w)) = hobs w.
Proof.
  unfold virtio_gpu_array_lock_resv.
  set (locked := match l with [o] => _ | _ => _ end).
  assert (K1 : hobs (snd locked) = hobs w).
  { subst locked. destruct l as [|o [|o' l]]; [apply sl_lock_many | apply sl_lock | apply sl_lock_many]. }
  destruct locked as [ret w1]. cbn [snd] in K1. case_if; [done|].
  assert (K2 : hobs (snd (reserve_all l w1)) = hobs w1).
  { clear. revert w1; induction l as [|o l IH]; intros w1; cbn [reserve_all]; [done|].
    pose proof (sl_reserve o w1) as K. destruct (dma_resv_reserve_fences o w1) as [r w2]. cbn [snd] in K.
    case_if; [done|]. by rewrite IH. }
  destruct (reserve_all l w1) as [r2 w2]. cbn [snd] in K2. case_if; [|cbn; congruence]. cbn [snd].
  assert (K3 : hobs (snd (virtio_gpu_array_unlock_resv l w2)) = hobs w2).
  { unfold virtio_gpu_array_unlock_resv. destruct l as [|o [|o' l]]; [apply sl_unlock_many | apply sl_unlock | apply sl_unlock_many]. }
  congruence.
Qed.

(** ** The submission under way *)

(** the world [w0] with what the submission owns on top, and an event; [locked]: the reservations
    are held as well *)
Definition has (locked : bool) s (ev : gmultiset held) w0 w : Prop :=
  hobs w = owned s ⊎ ev ⊎ hobs w0 /\
  go_refs (gobs w) ≡ₚ owned_bos s ++ go_refs (gobs w0) /\
  go_locked (gobs w) ≡ₚ (if locked then owned_bos s else []) ++ go_locked (gobs w0).

Lemma has_takes s s' ev w0 w w' X : has false s ev w0 w -> takes w w' X -> owned s' = X ⊎ owned s ->
  owned_bos s' = owned_bos s -> has false s' ev w0 w'.
Proof.
  intros (K1 & K2 & K3) [T1 T2] Ho Hb. unfold has. rewrite T1, T2, Ho, Hb, K1. split_and!; [multiset_solver | done | done].
Qed.

Lemma takes_has s ev w0 w w' : has false s ev w0 w -> takes w w' ∅ -> has false s ev w0 w'.
Proof. intros K1 K2. eapply has_takes; [exact K1 | exact K2 | multiset_solver | done]. Qed.

(** the clean-up, before and after the objects' turn *)
Lemma cleanup_steps s w : exists w3 X Y,
  let w4 := match sb_buflist s with Some l => snd (virtio_gpu_array_put_free (Some l) w3) | None => w3 end in
  gives w w3 X /\ gives w4 (snd (virtio_gpu_cleanup_submit s w)) Y /\ owned s = X ⊎ Y.
Proof.
  unfold virtio_gpu_cleanup_submit, owned.
  set (w1 := match sb_in_syncobjs s with Some _ => _ | None => w end).
  assert (G1 : gives w w1 (owned_in (sb_in_syncobjs s))).
  { subst w1. destruct (sb_in_syncobjs s) as [[a l]|]; [|apply gives_refl].
    eapply takes_empty_gives; [apply reset_syncobjs_takes | apply free_syncobjs_gives]. }
  clearbody w1. set (w2 := match sb_post_deps s with Some _ => _ | None => w1 end).
  assert (G2 : gives w1 w2 (owned_post (sb_post_deps s))).
  { subst w2. destruct (sb_post_deps s); [apply free_post_deps_gives | apply gives_refl]. }
  clearbody w2. set (w3 := match sb_buf s with Some (inr _) => _ | _ => w2 end).
  assert (G3 : gives w2 w3 (owned_buf (sb_buf s))).
  { subst w3. destruct (sb_buf s) as [[e|b]|]; [apply gives_refl | apply sl_kvfree | apply gives_refl]. }
  clearbody w3. exists w3. set (w4 := match sb_buflist s with Some _ => _ | None => w3 end). clearbody w4.
  set (w5 := if sb_out_fence_fd s >=? 0 then _ else w4).
  assert (G4 : gives w4 w5 (owned_fd (sb_out_fence_fd s))).
  { subst w5. unfold owned_fd. case_if; [apply sl_put_fd | apply gives_refl]. }
  clearbody w5. set (w6 := match sb_out_fence s with Some _ => _ | None => w5 end).
  assert (G5 : gives w5 w6 (opt_held HFence (fst <$> sb_out_fence s))).
  { subst w6. destruct (sb_out_fence s) as [[a f]|]; [apply sl_fence_put | apply gives_refl]. }
  clearbody w6. set (w7 := snd _).
  assert (G6 : gives w6 w7 (opt_held HFile (sb_sync_file s))).
  { subst w7. destruct (sb_sync_file s); [apply sl_file_put | apply gives_refl]. }
  eexists _, _. split; [exact (gives_trans _ _ _ _ _ (gives_trans _ _ _ _ _ G1 G2) G3)|].
  split; [exact (gives_trans _ _ _ _ _ (gives_trans _ _ _ _ _ G4 G5) G6)|]. multiset_solver.
Qed.

Lemma cleanup_undoes s ev w0 w : has false s ev w0 w ->
  let w' := snd (virtio_gpu_cleanup_submit s w) in
  hobs w' = ev ⊎ hobs w0 /\ go_refs (gobs w') ≡ₚ go_refs (gobs w0) /\ go_locked (gobs w') ≡ₚ go_locked (gobs w0).
Proof.
  intros (K1 & K2 & K3). cbv zeta. destruct (cleanup_steps s w) as (w3 & X & Y & [G1 G2] & [G3 G4] & G5).
  unfold owned_bos in K2. rewrite G5 in K1. specialize (G1 (Y ⊎ ev ⊎ hobs w0) ltac:(rewrite K1; multiset_solver)).
  rewrite G4. destruct (sb_buflist s) as [l|]; cbn [default] in *.
  - destruct (array_put_free_obs l w3 (go_refs (gobs w0))) as [P1 P2]; [by rewrite G2|].
    rewrite P1, G2. split_and!; [|done|done]. apply G3. rewrite put_free_hobs, G1. multiset_solver.
  - rewrite G2. split_and!; [|done|done]. apply G3. rewrite G1. multiset_solver.
Qed.

Lemma cleanup_gives s w : sb_buflist s = None -> gives w (snd (virtio_gpu_cleanup_submit s w)) (owned s).
Proof.
  intros Kn. destruct (cleanup_steps s w) as (w3 & X & Y & G1 & G2 & ->). rewrite Kn in G2. by eapply gives_trans.
Qed.

Lemma init_buflist_has s ev w0 w : has false s ev w0 w -> sb_buflist s = None ->
  let '((err, s'), w') := virtio_gpu_init_submit_buflist s w in
  has false s' ev w0 w' /\ exists l, s' = sb_set_buflist s l.
Proof.
  intros Kh Kn. assert (Knone : s = sb_set_buflist s None) by (by destruct s; cbn in *; subst).
  unfold virtio_gpu_init_submit_buflist. case_if; [split; [done | by exists None]|].
  pose proof (sl_kvzalloc (ex_num_bo_handles (sb_exbuf s)) w) as K1.
  destruct (kvzalloc_array _ w) as [[arr|] w1]; cbn [opt_held] in K1.
  2:{ split; [by eapply takes_has | by exists None]. }
  pose proof (sl_copy_handles (ex_bo_handles (sb_exbuf s)) (ex_num_bo_handles (sb_exbuf s)) w1) as K2.
  destruct (copy_bo_handles _ _ w1) as [[hs|] w2]; cbn [snd] in K2.
  2:{ split; [|by exists None]. eapply takes_has; [exact Kh|]. eapply takes_gives; [|apply sl_kvfree].
      eapply takes_eq; [by eapply takes_trans|]. multiset_solver. }
  assert (K3 : takes w w2 {[+ HMem arr +]}).
  { eapply takes_eq; [by eapply takes_trans|]. multiset_solver. }
  clear K1 K2. pose proof (from_handles_hobs hs w2) as K4. pose proof (array_from_handles_obs hs w2) as K5.
  destruct (virtio_gpu_array_from_handles hs w2) as [l w3]. cbn [snd] in K4. destruct K5 as [K5 K6].
  destruct (sl_kvfree arr w3) as [K7 K8]. destruct K3 as [K3 K9], Kh as (Kh1 & Kh2 & Kh3).
  specialize (K7 (hobs w) ltac:(by rewrite K4, K3)). unfold owned_bos in Kh2. rewrite Kn in Kh2. cbn [default app] in Kh2.
  destruct l as [l|]; cbn [fst snd].
  - split; [|by exists (Some l)]. destruct K6 as [_ K6]. unfold has. cbn. rewrite K7, K8, K5, K9, Kh1. split_and!; [done| |done].
    by rewrite K6, K9, Kh2.
  - split; [|by exists None]. unfold has, owned_bos. rewrite Kn. cbn [default app]. rewrite K7, K8, K5, K9, Kh1.
    split_and!; [done| |done]. by rewrite K6, K9.
Qed.

Lemma owned_fd_some n : 0 <= n -> owned_fd n = {[+ HFd n +]}.
Proof. intros Hn. unfold owned_fd. rewrite Z.geb_leb. by destruct (Z.leb_spec 0 n); [|lia]. Qed.

(** a submission ready to go: its command buffer, and a file exactly with a descriptor *)
Definition ready_submit s : Prop := (exists b, sb_buf s = Some (inr b)) /\
  match sb_sync_file s with Some _ => 0 <= sb_out_fence_fd s | None => sb_out_fence_fd s = - 1 end.

Lemma init_buffers_has s ev w0 w : has false s ev w0 w -> sb_buflist s = None -> sb_buf s = None ->
  sb_out_fence_fd s = - 1 -> sb_sync_file s = None ->
  let '((err, s'), w') := init_submit_buffers s w in
  has false s' ev w0 w' /\ sb_post_deps s' = sb_post_deps s /\ sb_in_syncobjs s' = sb_in_syncobjs s /\
  sb_exbuf s' = sb_exbuf s /\ (err = 0 -> ready_submit s').
Proof.
  intros Kh Kl Kb Kf Kx. unfold init_submit_buffers. pose proof (init_buflist_has s ev w0 w Kh Kl) as K1.
  destruct (virtio_gpu_init_submit_buflist s w) as [[err s1] w1]. destruct K1 as [K1 [l ->]].
  unfold c_true at 1. destruct (Z.eqb_spec err 0) as [->|Hne]; cbn [negb]; [|by split_and!].
  pose proof (sl_vmemdup (ex_command (sb_exbuf s)) (ex_size (sb_exbuf s)) w1) as K2.
  destruct (vmemdup_user _ _ w1) as [[e|b] w2]; destruct K2 as [K2 K3].
  { split_and!; [|done|done|done|by specialize (K3 e eq_refl)]. eapply has_takes; [exact K1 | exact K2 | | done].
    owned_simpl. rewrite Kb. owned_simpl. multiset_solver. }
  assert (K4 : has false (sb_set_buf (sb_set_buflist s l) (Some (inr b))) ev w0 w2).
  { eapply has_takes; [exact K1 | exact K2 | | done]. owned_simpl. rewrite Kb. owned_simpl. multiset_solver. }
  case_if.
  2:{ split_and!; [exact K4 | done | done | done|]. intros _. split; [by exists b|]. cbn. by rewrite Kx. }
  pose proof (sl_get_fd w2) as K5. destruct (get_unused_fd w2) as [fd w3].
  destruct (Z.ltb_spec fd 0) as [Hlt|Hge]; [split_and!; [by eapply takes_has | done | done | done | intros ->; lia]|].
  pose proof (sl_file_create (fst <$> sb_out_fence (sb_set_buf (sb_set_buflist s l) (Some (inr b)))) w3) as K6.
  destruct (sync_file_create _ w3) as [[file|] w4]; cbn [opt_held] in K6.
  - split_and!; [|done|done|done|intros _; split; [by exists b | cbn; lia]]. eapply has_takes; [exact K4 | by eapply takes_trans | | done].
    owned_simpl. rewrite Kf, Kx. rewrite owned_fd_some by lia. change (owned_fd (-1)) with (∅ : gmultiset held). owned_simpl. multiset_solver.
  - split_and!; [|done|done|done|done]. eapply has_takes; [exact K4 | by eapply takes_trans | | done].
    owned_simpl. rewrite Kf, Kx. rewrite owned_fd_some by lia. change (owned_fd (-1)) with (∅ : gmultiset held). owned_simpl. multiset_solver.
Qed.

(** the event is wanted: the ring's events were asked for *)
Definition wants_event (x : execbuffer) (f : fpriv) (ring_idx : Z) : bool :=
  c_true (Z.land (ex_flags x) VIRTGPU_EXECBUF_RING_IDX) &&
  c_true (Z.land (fp_ring_idx_mask f) (u64 (Z.shiftl 1 ring_idx))).
(** what is left of it *)
Definition event_left (x : execbuffer) (f : fpriv) (ring_idx : Z) (ev : gmultiset held) : Prop :=
  if wants_event x f ring_idx then exists e, ev = {[+ HEvent e +]} else ev = ∅.

Lemma init_submit_has drv f x fence_ctx ring_idx w :
  let '(r, w') := virtio_gpu_init_submit drv f x fence_ctx ring_idx w in
  match r with
  | None => wants_event x f ring_idx = true /\ fst (fence_kzalloc w) = None
  | Some (err, s) =>
      sb_in_syncobjs s = None /\ sb_post_deps s = None /\ sb_exbuf s = x /\
      ((exists ev, event_left x f ring_idx ev /\ has false s ev w w' /\ (err = 0 -> ready_submit s)) \/
       (err <> 0 /\ s = submit_zero x /\ takes w w' ∅))
  end.
Proof.
  unfold virtio_gpu_init_submit. fold (wants_event x f ring_idx). unfold event_left.
  set (fence_step := if _ || wants_event x f ring_idx then _ else _).
  assert (K1 : let '(out_fence, w1) := fence_step in takes w w1 (opt_held HFence (fst <$> out_fence)) /\
    (out_fence = None -> wants_event x f ring_idx = true -> fst (fence_kzalloc w) = None)).
  { subst fence_step. destruct (_ || wants_event x f ring_idx) eqn:E.
    - pose proof (sl_fence_alloc w) as K. destruct (fence_kzalloc w) as [[a|] w1] eqn:Ea; cbn; [by split|].
      split; [done|]. intros _ _. done.
    - apply orb_false_iff in E as [_ E]. rewrite E. split; [apply takes_refl | done]. }
  destruct fence_step as [out_fence w1]. destruct K1 as [K1 K2]. destruct (wants_event x f ring_idx).
  - unfold virtio_gpu_fence_event_create. pose proof (sl_event_alloc w1) as K3.
    destruct (event_kzalloc w1) as [[e|] w2]; cbn [opt_held] in K3.
    + pose proof (sl_event_reserve e w2) as K4. destruct (drm_event_reserve_init e w2) as [ret w3]. cbn [snd] in K4.
      unfold c_true at 1. destruct (Z.eqb_spec ret 0) as [->|Hne]; cbn [negb].
      * destruct out_fence as [[a fn]|]; [|by split; [|apply K2]]. cbn [c_true Z.eqb negb].
        match goal with |- context [init_submit_buffers ?s0 w3] => set (s := s0);
          pose proof (init_buffers_has s {[+ HEvent e +]} w w3) as K5;
          destruct (init_submit_buffers s w3) as [[err s'] w'] end.
        destruct K5 as (K5 & K6 & K7 & Kx & K8); [|done..|split_and!; [done | done | done|]; left; exists {[+ HEvent e +]}; split_and!; [by exists e | done | done]].
        assert (K9 : takes w w3 ({[+ HFence a +]} ⊎ {[+ HEvent e +]})).
        { eapply takes_eq; [eapply takes_trans; [exact K1 | by eapply takes_trans]|]. owned_simpl. multiset_solver. }
        destruct K9 as [K9 K10]. unfold has. rewrite K9, K10. split_and!; [|done|done].
        owned_simpl. change (owned_fd (-1)) with (∅ : gmultiset held). multiset_solver.
      * unfold c_true. rewrite (proj2 (Z.eqb_neq ret 0) Hne). cbn [negb]. cbn [submit_zero sb_in_syncobjs sb_post_deps].
        split_and!; [done | done | done|]. right. split_and!; [done | done|].
        assert (K5 : takes w (snd (event_kfree e w3)) (opt_held HFence (fst <$> out_fence))).
        { eapply (takes_gives_part _ w3 _ _ {[+ HEvent e +]}); [|apply sl_event_free].
          eapply takes_eq; [eapply takes_trans; [exact K1 | by eapply takes_trans]|]. multiset_solver. }
        destruct out_fence as [[a fn]|]; cbn in K5; [|done]. eapply takes_gives; [exact K5 | apply sl_fence_put].
    + change (c_true (- ENOMEM)) with true. cbv iota. split_and!; [done | done | done|]. right. split_and!; [done | done|].
      assert (K5 : takes w w2 (opt_held HFence (fst <$> out_fence))).
      { eapply takes_eq; [by eapply takes_trans|]. multiset_solver. }
      destruct out_fence as [[a fn]|]; cbn in K5; [|done]. eapply takes_gives; [exact K5 | apply sl_fence_put].
  - cbn [c_true Z.eqb negb].
    match goal with |- context [init_submit_buffers ?s0 w1] => set (s := s0);
      pose proof (init_buffers_has s ∅ w w1) as K5;
      destruct (init_submit_buffers s w1) as [[err s'] w'] end.
    destruct K5 as (K5 & K6 & K7 & Kx & K8); [|done..|split_and!; [done | done | done|]; left; exists ∅; by split_and!].
    destruct K1 as [K1 K10]. unfold has. rewrite K1, K10. split_and!; [|done|done].
    owned_simpl. change (owned_fd (-1)) with (∅ : gmultiset held). multiset_solver.
Qed.

Lemma wait_in_fence_takes s w : takes w (snd (virtio_gpu_wait_in_fence s w)) ∅.
Proof.
  unfold virtio_gpu_wait_in_fence. case_if; [|apply takes_refl].
  pose proof (sl_file_fence (ex_fence_fd (sb_exbuf s)) w) as K1.
  destruct (sync_file_get_fence _ w) as [[f|] w1]; cbn [opt_held] in K1; [|done].
  unfold virtio_gpu_dma_fence_wait. pose proof (fence_wait_takes s (dma_fence_leaves w1 f) w1) as K2.
  destruct (fence_wait_all s _ w1) as [ret w2]. cbn [snd] in *. eapply takes_gives; [|apply sl_fence_put].
  eapply takes_eq; [by eapply takes_trans|]. multiset_solver.
Qed.

Lemma prepare_has s ev w0 w : has false s ev w0 w -> sb_in_syncobjs s = None -> sb_post_deps s = None ->
  let '((ret, s'), w') := execbuffer_prepare s w in
  has (ret =? 0) s' ev w0 w' /\ (ready_submit s -> ready_submit s') /\ sb_exbuf s' = sb_exbuf s.
Proof.
  intros Kh Ki Kp. unfold execbuffer_prepare. pose proof (parse_post_deps_takes s w Kp) as K1.
  destruct (virtio_gpu_parse_post_deps s w) as [[ret s1] w1]. destruct K1 as (x & -> & K1).
  assert (K2 : has false (sb_set_post s x) ev w0 w1).
  { eapply has_takes; [exact Kh | exact K1 | | done]. owned_simpl. rewrite Kp. owned_simpl. multiset_solver. }
  unfold c_true at 1. destruct (Z.eqb_spec ret 0) as [->|Hne]; cbn [negb].
  2:{ rewrite (proj2 (Z.eqb_neq ret 0) Hne). by split_and!. }
  pose proof (parse_deps_takes (sb_set_post s x) w1 Ki) as K3.
  destruct (virtio_gpu_parse_deps (sb_set_post s x) w1) as [[ret s2] w2]. destruct K3 as (y & -> & K3).
  set (s2 := sb_set_in (sb_set_post s x) y). assert (K4 : has false s2 ev w0 w2).
  { eapply has_takes; [exact K2 | exact K3 | | done]. subst s2. owned_simpl. rewrite Ki. owned_simpl. multiset_solver. }
  assert (K5 : (ready_submit s -> ready_submit s2) /\ sb_exbuf s2 = sb_exbuf s) by done.
  unfold c_true at 1. destruct (Z.eqb_spec ret 0) as [->|Hne]; cbn [negb].
  2:{ rewrite (proj2 (Z.eqb_neq ret 0) Hne). by split. }
  pose proof (wait_in_fence_takes s2 w2) as K6. destruct (virtio_gpu_wait_in_fence s2 w2) as [ret w3]. cbn [snd] in K6.
  assert (K7 : has false s2 ev w0 w3) by (by eapply takes_has).
  unfold c_true. destruct (Z.eqb_spec ret 0) as [->|Hne]; cbn [negb].
  2:{ rewrite (proj2 (Z.eqb_neq ret 0) Hne). by split. }
  unfold virtio_gpu_lock_buflist. destruct (sb_buflist s2) as [l|] eqn:El.
  - pose proof (array_lock_resv_obs l w3) as K8. pose proof (lock_resv_hobs l w3) as K9.
    destruct (virtio_gpu_array_lock_resv l w3) as [ret w4]. cbn [snd] in K9. destruct K8 as [K8 K10], K7 as (K11 & K12 & K13).
    split; [|done]. unfold has, owned_bos in *. rewrite El in *. cbn [default] in *. rewrite K9, K8. split_and!; [done | done|].
    rewrite K10, K13. done.
  - split; [|done]. destruct K7 as (K8 & K9 & K10). unfold has, owned_bos in *. rewrite El in *. by split_and!.
Qed.

(** what the submission keeps when its buffer and its objects have gone to the queue *)
Definition owned_after s : gmultiset held :=
  owned_in (sb_in_syncobjs s) ⊎ owned_post (sb_post_deps s) ⊎ owned_fd (sb_out_fence_fd s) ⊎
  opt_held HFence (fst <$> sb_out_fence s) ⊎ opt_held HFile (sb_sync_file s).

Lemma process_post_deps_gives fence l w :
  let '(l', w') := process_post_deps fence l w in
  exists X, gives w w' X /\ owned_deps l = X ⊎ owned_deps l'.
Proof.
  revert w; induction l as [|p l IH]; intros w; cbn [process_post_deps].
  { exists ∅. split; [apply gives_refl | multiset_solver]. }
  set (w1 := match pd_chain p with Some _ => _ | None => _ end).
  assert (K1 : gives w w1 (opt_held HChain (pd_chain p))).
  { subst w1. destruct (pd_chain p); [apply sl_add_point|]. eapply gives_takes_empty; [apply gives_refl | apply sl_replace]. }
  specialize (IH w1). destruct (process_post_deps fence l w1) as [l' w2]. destruct IH as (X & IH1 & IH2).
  exists (opt_held HChain (pd_chain p) ⊎ X). split; [by eapply gives_trans|].
  unfold owned_deps in *. rewrite !owned_all_cons, IH2. unfold owned_dep at 1 3. cbn [pd_syncobj pd_chain opt_held]. multiset_solver.
Qed.

Lemma finish_gives s w : ready_submit s ->
  let '(s', w') := execbuffer_finish s w in
  let w2 := snd (virtio_gpu_cleanup_submit s' w') in
  (forall R, hobs w = owned_after s ⊎ R -> hobs w2 = R) /\ gobs w2 = gobs w /\
  ex_fence_fd (sb_exbuf s') = (if sb_out_fence_fd s >=? 0 then sb_out_fence_fd s else ex_fence_fd (sb_exbuf s)).
Proof.
  intros [_ Hfd]. unfold execbuffer_finish.
  set (install := virtio_gpu_install_out_fence_fd s w).
  assert (K1 : let '(s1, w1) := install in
    gives w w1 (owned_fd (sb_out_fence_fd s) ⊎ opt_held HFile (sb_sync_file s)) /\
    sb_in_syncobjs s1 = sb_in_syncobjs s /\ sb_post_deps s1 = sb_post_deps s /\ sb_out_fence s1 = sb_out_fence s /\
    ex_fence_fd (sb_exbuf s1) = (if sb_out_fence_fd s >=? 0 then sb_out_fence_fd s else ex_fence_fd (sb_exbuf s))).
  { subst install. unfold virtio_gpu_install_out_fence_fd. destruct (sb_sync_file s) as [f|].
    - rewrite owned_fd_some by lia. rewrite Z.geb_leb, (proj2 (Z.leb_le _ _) Hfd). split_and!; try done.
      eapply gives_eq; [apply sl_fd_install|]. cbn [opt_held]. multiset_solver.
    - rewrite Hfd. split_and!; try done. change (owned_fd (-1)) with (∅ : gmultiset held). cbn [opt_held].
      eapply gives_eq; [apply gives_refl|]. multiset_solver. }
  destruct install as [s1 w1]. destruct K1 as (K1 & K2 & K3 & K4 & K5).
  unfold virtio_gpu_process_post_deps.
  assert (K6 : let '(s2, w2) := virtio_gpu_process_post_deps s1 w1 in exists X, gives w1 w2 X /\
    owned_post (sb_post_deps s1) = X ⊎ owned_post (sb_post_deps s2) /\ sb_in_syncobjs s2 = sb_in_syncobjs s1 /\
    sb_out_fence s2 = sb_out_fence s1 /\ sb_exbuf s2 = sb_exbuf s1).
  { unfold virtio_gpu_process_post_deps. destruct (sb_post_deps s1) as [[a l]|] eqn:E.
    - pose proof (process_post_deps_gives (fst <$> sb_out_fence s1) l w1) as K. destruct (process_post_deps _ l w1) as [l' w2].
      destruct K as (X & G1 & G2). exists X. split_and!; try done. cbn [sb_set_post sb_post_deps owned_post]. rewrite G2. multiset_solver.
    - exists ∅. rewrite E. split; [apply gives_refl|]. split_and!; try done; multiset_solver. }
  fold (virtio_gpu_process_post_deps s1 w1). destruct (virtio_gpu_process_post_deps s1 w1) as [s2 w2].
  destruct K6 as (X & K6 & K7 & K8 & K9 & K10).
  pose proof (gives_trans _ _ _ _ _ K1 K6) as [K11 K12]. cbv zeta.
  set (s3 := virtio_gpu_complete_submit s2).
  pose proof (gives_trans _ _ _ _ _ (gives_trans _ _ _ _ _ K1 K6) (cleanup_gives s3 w2 eq_refl)) as [K13 K14].
  split_and!; [|done | by cbn; rewrite K10]. intros R HR. apply K13. rewrite HR. unfold owned_after, owned. subst s3.
  cbn [virtio_gpu_complete_submit sb_in_syncobjs sb_post_deps sb_buf sb_out_fence_fd sb_out_fence sb_sync_file].
  rewrite K8, K2, K9, K4, <- K3, K7. change (owned_fd (-1)) with (∅ : gmultiset held). cbn [owned_buf opt_held]. multiset_solver.
Qed.

End Facts.

(** ** The ioctl *)

(** C12: every way through the execbuffer ioctl gives back what it took. A call refused by its flags
    changes nothing. After that, an error returns the arrays, sync objects, fence chains, command
    buffer, file descriptor, file, fence reference, object references and reservation locks
    taken; only the event of a ring stays allocated, and when that event cannot be made, the
    clean-up gives up descriptor 0, which the call never took. A success hands the command buffer
    and the objects to the queue, installs the file, and returns the rest. The call crashes only
    when a fence with an event is wanted and there is no memory for it. *)
Theorem execbuffer_gives_back {B W} `{BO : BuddyOps B} `{PA : PoolApi W} `{CE : CtrlEnv W} `{OA : !ObjArrays W}
  `{BE : !BoEnv W} `{SL : SubmitLaws W} sleep n has3d x (f : fpriv) (d : vgdev B) (w : W) :
  let '(r, (f', (d', w'))) := virtio_gpu_execbuffer_ioctl sleep n has3d x (f, (d, w)) in
  let '(_, (f1, (d1, w1))) := virtio_gpu_create_context sleep n (f, (d, w)) in
  let ring_idx := if c_true (Z.land (ex_flags x) VIRTGPU_EXECBUF_RING_IDX) then ex_ring_idx x else 0 in
  match r with
  | None => wants_event x f1 ring_idx = true /\ fst (fence_kzalloc w1) = None
  | Some (ret, x') =>
      (ret <> 0 -> x' = x /\
         ((f', d', w') = (f, d, w) \/
          (f', d') = (f1, d1) /\
          ((exists ev, event_left x f1 ring_idx ev /\ hobs w' = ev ⊎ hobs w1 /\
              go_refs (gobs w') ≡ₚ go_refs (gobs w1) /\ go_locked (gobs w') ≡ₚ go_locked (gobs w1)) \/
           (exists w2, takes hobs gobs w1 w2 ∅ /\ w' = snd (put_unused_fd 0 w2))))) /\
      (ret = 0 -> exists s w2 ev, has true s ev w1 w2 /\ ready_submit s /\ event_left x f1 ring_idx ev /\ f' = f1 /\
         let '(_, (d3, w3)) := virtio_gpu_submit sleep n s (d1, w2) in
         d' = d3 /\ gobs w' = gobs w3 /\ (forall R, hobs w3 = owned_after s ⊎ R -> hobs w' = R) /\
         ex_fence_fd x' = (if sb_out_fence_fd s >=? 0 then sb_out_fence_fd s else ex_fence_fd x))
  end.
Proof.
  unfold virtio_gpu_execbuffer_ioctl. cbn [fst snd].
  destruct (virtio_gpu_create_context sleep n (f, (d, w))) as [u [f1 [d1 w1]]].
  set (ring := c_true (Z.land (ex_flags x) VIRTGPU_EXECBUF_RING_IDX)). cbv zeta.
  case_if; [split; [intros _; split; [done|by left] | done]|].
  case_if; [split; [intros _; split; [done|by left] | done]|].
  case_if; [split; [intros _; split; [done|by left] | done]|].
  set (ring_idx := if ring then ex_ring_idx x else 0).
  pose proof (init_submit_has (g_fence (dv_gpu d1)) f1 x
     (if ring then fp_base_fence_ctx f else fd_context (g_fence (dv_gpu d))) ring_idx w1) as Hi.
  destruct (virtio_gpu_init_submit _ _ _ _ _ w1) as [[[ret s]|] w2]; [|exact Hi].
  destruct Hi as (I1 & I2 & Ix & I3).
  unfold c_true at 1. destruct (Z.eqb_spec ret 0) as [->|Hne]; cbn [negb].
  - destruct I3 as [(ev & V1 & V2 & V3)|[? _]]; [|done]. specialize (V3 eq_refl).
    pose proof (prepare_has s ev w1 w2 V2 I1 I2) as P.
    destruct (execbuffer_prepare s w2) as [[ret s1] w3]. destruct P as (P1 & P2 & P3). specialize (P2 V3).
    unfold c_true at 1. destruct (Z.eqb_spec ret 0) as [->|Hne]; cbn [negb].
    + destruct (virtio_gpu_submit sleep n s1 (d1, w3)) as [u2 [d2 w4]] eqn:Es.
      pose proof (finish_gives s1 w4 P2) as F. destruct (execbuffer_finish s1 w4) as [s2 w5]. destruct F as (F1 & F2 & F3).
      split; [done|]. intros _. exists s1, w3, ev. rewrite Es. rewrite F3, P3, Ix. by split_and!.
    + split; [|done]. intros _. split; [done|]. right. split; [done|]. left. exists ev. split; [done|].
      eapply cleanup_undoes. exact P1.
  - unfold c_true. rewrite (proj2 (Z.eqb_neq ret 0) Hne). cbn [negb]. split; [|done]. intros _. split; [done|]. right. split; [done|].
    destruct I3 as [(ev & V1 & V2 & V3)|(_ & -> & V1)].
    + left. exists ev. split; [done|]. by eapply cleanup_undoes.
    + right. by exists w2.
Qed.

(** A ring that wants events and whose event cannot be allocated makes the clean-up run on the
    zeroed submission, whose descriptor field reads 0: the call fails with [-ENOMEM], having given
    back all it took, and then puts descriptor 0, a descriptor it never reserved. *)
Theorem event_failure_puts_fd0 {B W} `{BO : BuddyOps B} `{PA : PoolApi W} `{CE : CtrlEnv W} `{OA : !ObjArrays W}
  `{BE : !BoEnv W} `{SL : SubmitLaws W} sleep n x (f f1 : fpriv) (d d1 : vgdev B) (w w1 : W) :
  Z.land (ex_flags x) (Z.lnot VIRTGPU_EXECBUF_FLAGS) = 0 -> c_true (Z.land (ex_flags x) VIRTGPU_EXECBUF_RING_IDX) = true ->
  ex_ring_idx x < fp_num_rings f -> fp_base_fence_ctx f <> 0 ->
  virtio_gpu_create_context sleep n (f, (d, w)) = (tt, (f1, (d1, w1))) ->
  wants_event x f1 (ex_ring_idx x) = true ->
  fst (event_kzalloc (snd (fence_kzalloc w1))) = None ->
  exists w2, takes hobs gobs w1 w2 ∅ /\
    virtio_gpu_execbuffer_ioctl sleep n true x (f, (d, w)) = (Some (- ENOMEM, x), (f1, (d1, snd (put_unused_fd 0 w2)))).
Proof.
  intros K1 K2 K3 K4 K5 K6 K7. unfold virtio_gpu_execbuffer_ioctl. cbn [fst snd negb]. rewrite K1, K2, K5. cbv zeta.
  change (c_true 0) with false. cbn [andb]. rewrite Z.geb_leb.
  destruct (Z.leb_spec (fp_num_rings f) (ex_ring_idx x)); [lia|]. rewrite (proj2 (Z.eqb_neq _ _) K4). cbn [orb].
  unfold virtio_gpu_init_submit. fold (wants_event x f1 (ex_ring_idx x)). rewrite K6, orb_true_r.
  pose proof (sl_fence_alloc w1) as K8. destruct (fence_kzalloc w1) as [a w2]. cbn [snd] in K7.
  unfold virtio_gpu_fence_event_create. pose proof (sl_event_alloc w2) as K9.
  destruct (event_kzalloc w2) as [e w3]. cbn [fst] in K7. subst e. cbn [opt_held] in K9.
  change (c_true (- ENOMEM)) with true. cbv iota.
  assert (K10 : takes hobs gobs w1 w3 (opt_held HFence a)).
  { eapply takes_eq; [by eapply takes_trans|]. multiset_solver. }
  destruct a as [a|]; cbn [virtio_gpu_fence_alloc bool_decide opt_held] in *.
  - exists (snd (dma_fence_put a w3)). split; [eapply takes_gives; [exact K10 | apply sl_fence_put] | done].
  - by exists w3.
Qed.

(** ** A world with a running count of what is held *)

Record toy_job := ToyJob { tj_held : gmultiset held; tj_gem : gem_obs; tj_events : bool }.
Definition tj_take (w : toy_job) (h : held) : toy_job := ToyJob ({[+ h +]} ⊎ tj_held w) (tj_gem w) (tj_events w).
Definition tj_give (w : toy_job) (X : gmultiset held) : toy_job := ToyJob (tj_held w ∖ X) (tj_gem w) (tj_events w).
Definition tj_set_gem (w : toy_job) (o : gem_obs) : toy_job := ToyJob (tj_held w) o (tj_events w).

#[export] Instance toy_job_gem : GemEnv toy_job := {
  arr_alloc n w := (true, w);
  arr_free w := (tt, w);
  drm_gem_object_lookup h w := (Some (h + 500), tj_set_gem w (GemObs (h + 500 :: go_refs (tj_gem w)) (go_locked (tj_gem w))));
  drm_gem_object_get o w := (tt, tj_set_gem w (GemObs (o :: go_refs (tj_gem w)) (go_locked (tj_gem w))));
  drm_gem_object_put o w := (tt, tj_set_gem w (GemObs (remove_one o (go_refs (tj_gem w))) (go_locked (tj_gem w))));
  dma_resv_lock_interruptible o w := (0, tj_set_gem w (GemObs (go_refs (tj_gem w)) (o :: go_locked (tj_gem w))));
  drm_gem_lock_reservations l w := (0, tj_set_gem w (GemObs (go_refs (tj_gem w)) (l ++ go_locked (tj_gem w))));
  dma_resv_reserve_fences o w := (0, w);
  dma_resv_unlock o w := (tt, tj_set_gem w (GemObs (go_refs (tj_gem w)) (remove_one o (go_locked (tj_gem w)))));
  drm_gem_unlock_reservations l w := (tt, tj_set_gem w (GemObs (go_refs (tj_gem w)) (foldr remove_one (go_locked (tj_gem w)) l)));
  dma_resv_add_fence o f w := (tt, w)
}.
#[export] Instance toy_job_gem_laws : GemLaws toy_job.
Proof.
  refine {| gobs := tj_gem |}; try (intros; done).
  - intros o w rest Hp. split; [done | by apply remove_one_perm].
  - intros o w rest Hp. split; [done | by apply remove_one_perm].
  - intros l w rest Hp. split; [done | by apply remove_many_perm].
Defined.

#[export] Instance toy_job_submit : SubmitEnv toy_job := {
  kvzalloc_array n w := (Some 11, tj_take w (HMem 11));
  kvfree a w := (tt, tj_give w {[+ HMem a +]});
  copy_syncobj_desc a n w := (Some (SyncobjDesc 3 0 0), w);
  copy_bo_handles a n w := (Some [1; 2], w);
  vmemdup_user a n w := (inr 12, tj_take w (HMem 12));
  drm_syncobj_find_fence h p w := ((0, 13), tj_take w (HFence 13));
  dma_fence_leaves w f := [f];
  dma_fence_match_context w f c := false;
  dma_fence_wait f w := (0, w);
  dma_fence_put f w := (tt, tj_give w {[+ HFence f +]});
  drm_syncobj_find h w := (Some h, tj_take w (HSyncobj h));
  drm_syncobj_put s w := (tt, tj_give w {[+ HSyncobj s +]});
  drm_syncobj_replace_fence s f w := (tt, w);
  drm_syncobj_add_point s c f p w := (tt, tj_give w {[+ HChain c +]});
  dma_fence_chain_alloc w := (Some 14, tj_take w (HChain 14));
  kfree_chain c w := (tt, tj_give w {[+ HChain c +]});
  fence_kzalloc w := (Some 15, tj_take w (HFence 15));
  event_kzalloc w := if tj_events w then (Some 16, tj_take w (HEvent 16)) else (None, w);
  event_kfree e w := (tt, tj_give w {[+ HEvent e +]});
  drm_event_reserve_init e w := (0, w);
  get_unused_fd w := (17, tj_take w (HFd 17));
  put_unused_fd n w := (tt, tj_give w {[+ HFd n +]});
  fd_install n f w := (tt, tj_give w {[+ HFd n; HFile f +]});
  sync_file_create f w := (Some 18, tj_take w (HFile 18));
  sync_file_put f w := (tt, tj_give w {[+ HFile f +]});
  sync_file_get_fence n w := (Some 19, tj_take w (HFence 19));
  task_comm w := []
}.

Lemma tj_takes w h : takes tj_held tj_gem w (tj_take w h) {[+ h +]}.
Proof. by split. Qed.
Lemma tj_gives w X : gives tj_held tj_gem w (tj_give w X) X.
Proof. split; [|done]. intros R HR. cbn. rewrite HR. multiset_solver. Qed.
Lemma tj_stays w : takes tj_held tj_gem w w ∅.
Proof. split; [multiset_solver | done]. Qed.

#[export] Instance toy_job_laws : SubmitLaws toy_job.
Proof.
  refine {| hobs := tj_held |}; intros; cbn;
    try first [apply tj_takes | apply tj_gives | apply tj_stays | split; [apply tj_takes | done] | done].
  destruct (tj_events w); [apply tj_takes | apply tj_stays].
Defined.

#[export] Instance toy_job_ctrl : CtrlEnv toy_job := {
  drm_dev_enter w := true;
  vbuf_zalloc w := (1, w); vbuf_free a w := (tt, w);
  vq_num_free w := 5; vq_add_sgs v w := (0, w); vq_get_buf w := (None, w);
  vq_enable_cb w := (true, w); vq_kick_prepare w := (true, w); vq_notify w := (tt, w); wake_ack w := (tt, w);
  is_vmalloc_addr a := false; sgt_alloc n w := (true, w); vmalloc_to_page a w := (true, w); sgt_free w := (tt, w);
  cursor_add v w := (0, w); cursor_kick_prepare w := (true, w); cursor_notify w := (tt, w); cursor_wait w := (tt, w)
}.
#[export] Instance toy_job_arrays : ObjArrays toy_job := {
  objs_unlock l w := (tt, snd (virtio_gpu_array_unlock_resv l w));
  objs_add_fence l f w := (tt, snd (virtio_gpu_array_add_fence l f w));
  objs_put_delayed l w := (tt, w)
}.
#[export] Instance toy_job_bo : BoEnv toy_job := {
  kzalloc_buf n w := (true, w); kfree_buf w := (tt, w); dma_sync_for_device a w := (tt, w);
  wake_resp_wq w := (tt, w); hotplug_event w := (tt, w); ida_alloc w := (1, w); ida_free i w := (tt, w);
  drm_gem_shmem_free a w := (tt, w); drm_mm_remove_node s z w := (tt, w); vram_release a w := (tt, w); import_release a w := (tt, w);
  drm_edid_read_custom s n b w := (1, w); drm_edid_free e w := (tt, w)
}.
#[export] Instance toy_job_pool : PoolApi toy_job := {
  pool_grow id off len w := (0, w); pool_shrink id off len w := (0, w); pool_query_range id off len w := ((0, Some true), w)
}.

Definition job_mm : guest_pool unit := GuestPool false 0 0 0 0 0 0 tt true false.
#[export] Instance unit_buddy : BuddyOps unit := {
  drm_buddy_init size chunk := (0, Some tt); drm_buddy_alloc_blocks s e size m b := ((- ENOSPC, []), b);
  drm_buddy_free_list l b := b; mm_size b := 0; mm_avail b := 0
}.
Definition job_dev : vgdev unit :=
  VgDev gpu0 job_mm ∅ false 0 true true false 1 [DisplayOne (GpuRect 0 0 0 0) 0 0] [0] None 0 [].
Definition job_file : fpriv := Fpriv 2 4 true 1 40 1 [] false.
(** a ring's job with a command of 16 bytes, two objects, one sync object each way, a descriptor out *)
Definition job : execbuffer := ExecBuffer 6 16 4096 8192 2 (- 1) 0 16 1 1 12288 16384.
Definition job_world (events : bool) : toy_job := ToyJob {[+ HFd 0 +]} (GemObs [7] []) events.

(** the descriptor of the fence is in the user's structure, the sync objects and the arrays are back,
    and the queue has let go of the reservations *)
Example job_runs :
  let '(r, (_, (_, w))) := virtio_gpu_execbuffer_ioctl (fun st => st) 1 true job (job_file, (job_dev, job_world true)) in
  (fun r => (fst r, ex_fence_fd (snd r))) <$> r = Some (0, 17) /\
  elements (tj_held w) = [HMem 12; HFd 0; HEvent 16] /\ tj_gem w = GemObs [502; 501; 7] [].
Proof. by vm_compute. Qed.

(** with no memory for the event, descriptor 0 is gone afterwards *)
Lemma event_failure_puts_fd0_witness :
  (exists w2, takes hobs gobs (job_world false) w2 ∅ /\
    virtio_gpu_execbuffer_ioctl (fun st => st) 1 true job (job_file, (job_dev, job_world false)) =
      (Some (- ENOMEM, job), (job_file, (job_dev, snd (put_unused_fd 0 w2))))) /\
  elements (tj_held (job_world false)) = [HFd 0] /\
  elements (tj_held (snd (snd (snd
    (virtio_gpu_execbuffer_ioctl (fun st => st) 1 true job (job_file, (job_dev, job_world false))))))) = [].
Proof.
  split; [|split; by vm_compute].
  apply (event_failure_puts_fd0 (fun st => st) 1 job job_file job_file job_dev job_dev (job_world false) (job_world false)); done.
Defined.
