(* ===== verification/Prime.v ===== *)
(** * PRIME import and export (virtio_gpu/virtgpu_prime.c)

    Buffers of other devices as guest blobs, and the driver's objects as buffers for others; with
    the fenced detach of virtgpu_object.c and the allocation of a fence of the main timeline, which
    the ioctls use as well. *)

From stdpp Require Import gmap.
From S2P Require Import Prelude PoolCtl GuestPool Wire Fence ObjArray CtrlQueue GpuDev GpuCmds VramObj Submit.

(** blob memory types and flags of <drm/virtgpu_drm.h> *)
Definition VIRTGPU_BLOB_MEM_GUEST : Z := 1.
Definition VIRTGPU_BLOB_MEM_HOST3D : Z := 2.
Definition VIRTGPU_BLOB_MEM_HOST3D_GUEST : Z := 3.
Definition VIRTGPU_BLOB_FLAG_USE_MAPPABLE : Z := 1.
Definition VIRTGPU_BLOB_FLAG_USE_SHAREABLE : Z := 2.
Definition VIRTGPU_BLOB_FLAG_USE_CROSS_DEVICE : Z := 4.

(** what the probe found the device to have; constant afterwards *)
Record features := Features {
  ft_virgl_3d : bool; ft_resource_blob : bool; ft_host_visible : bool; ft_assign_uuid : bool;
  ft_context_init : bool; ft_guest_handle : bool; ft_capset_id_mask : Z;
  ft_region : option Z                     (* start of the host-visible window *)
}.

(** buffers and attachments by address; a mapping is a table with its DMA segments *)
Class PrimeEnv (W : Type) := {
  dmabuf_own : W -> Z -> option Z;                  (* exported by this device: the object *)
  dmabuf_size : W -> Z -> Z;
  dmabuf_resv_lock : Z -> ST W unit;
  dmabuf_resv_unlock : Z -> ST W unit;
  dma_buf_pin : Z -> ST W Z;
  dma_buf_unpin : Z -> ST W unit;
  dma_resv_wait_kernel : Z -> ST W Z;               (* [dma_resv_wait_timeout], kernel fences *)
  dma_buf_map_attachment : Z -> ST W (Z + Z * list (Z * Z));
  dma_buf_unmap_attachment : Z -> Z -> ST W unit;
  dma_buf_dynamic_attach : Z -> Z -> ST W (Z + Z);  (* buffer, object *)
  dma_buf_detach : Z -> Z -> ST W unit;
  get_dma_buf : Z -> ST W unit;
  dma_buf_put : Z -> ST W unit;
  kzalloc_bo : ST W (option Z);
  kfree_bo : Z -> ST W unit;
  drm_gem_private_object_init : Z -> Z -> ST W unit;
  drm_gem_prime_import : Z -> ST W (Z + Z);
  virtio_dma_buf_export : Z -> Z -> Z -> ST W (Z + Z);  (* object, size, flags *)
  drm_dev_get : ST W unit;
  drm_gem_map_dma_buf : Z -> ST W (Z + list (Z * Z));
  drm_gem_unmap_dma_buf : list (Z * Z) -> ST W unit
}.

Section Prime.
Context {B W : Type} `{BO : BuddyOps B} `{PA : PoolApi W} `{CE : CtrlEnv W} `{OA : !ObjArrays W} `{BE : !BoEnv W}
  `{GE : GemEnv W} `{VE : !VramEnv W} `{SE : !SubmitEnv W} `{PE : !PrimeEnv W}.
(** [pass]: what happens on the device while a call waits for an answer *)
Context (sleep : gpu_st W -> gpu_st W) (lock : gp_st B W -> gp_st B W) (pass : dev_st B W -> dev_st B W) (fuel : nat).
Abbreviation dev_st := (dev_st B W).

(** ** A fence of the main timeline *)

(** [virtio_gpu_fence_alloc] with its memory: the address and the fence *)
Definition fence_alloc (fence_ctx ring_idx : Z) : ST dev_st (option (Z * virtio_gpu_fence)) := fun st =>
  let '(a, st1) := on_world fence_kzalloc st in
  (match a, virtio_gpu_fence_alloc (bool_decide (is_Some a)) (g_fence (dv_gpu (fst st1))) fence_ctx ring_idx with
   | Some a, Some f => Some (a, f)
   | _, _ => None
   end, st1).
Definition main_fence_ctx (st : dev_st) : Z := fd_context (g_fence (dv_gpu (fst st))).

(** virtgpu_object.c *)
Definition virtio_gpu_detach_object_fenced (a : Z) : ST dev_st Z := fun st =>
  match dv_bos (fst st) !! a with
  | Some b =>
      if negb (bo_attached b) then (0, st)
      else
        let '(fence, st1) := fence_alloc (main_fence_ctx st) 0 st in
        match fence with
        | None => (- ENOMEM, st1)
        | Some (fa, f) =>
            let '(_, st2) := virtio_gpu_object_detach sleep fuel a (Some f) st1 in
            let '(_, st3) := notify st2 in
            let '(_, st4) := on_world (dma_fence_wait fa) st3 in
            (0, snd (on_world (dma_fence_put fa) st4))
        end
  | None => (0, st)
  end.

(** ** Export *)

Definition virtio_gpu_resource_assign_uuid (a : Z) : ST dev_st Z := fun st =>
  let '(objs, st1) := on_world (virtio_gpu_array_alloc 1) st in
  match objs with
  | None => (- ENOMEM, st1)
  | Some arr =>
      let '(arr, st2) := on_world (virtio_gpu_array_add_obj arr a) st1 in
      virtio_gpu_cmd_resource_assign_uuid sleep fuel (oa_objs arr) st2
  end.

(** [None]: still waiting for the host's answer *)
Definition virtgpu_virtio_get_uuid (a : Z) : ST dev_st (option (Z * list Z)) := fun st =>
  let st1 := pass st in
  match dv_bos (fst st1) !! a with
  | Some b =>
      if bo_uuid_state b =? STATE_INITIALIZING then (None, st1)
      else if negb (bo_uuid_state b =? STATE_OK) then (Some (- ENODEV, []), st1)
      else (Some (0, bo_uuid b), st1)
  | None => (None, st1)
  end.

(** the UUID of an object about to be exported; the errno *)
Definition export_uuid (ft : features) (a : Z) (b : gpu_bo) : ST dev_st Z := fun st =>
  let no_uuid st := snd (on_bo a (fun b => bo_set_uuid STATE_ERR (bo_uuid b) b) st) in
  if negb (bo_host3d_blob b || bo_guest_blob b) then
    if ft_assign_uuid ft then
      let '(ret, st1) := virtio_gpu_resource_assign_uuid a st in
      if c_true ret then (ret, st1) else (0, snd (notify st1))
    else (0, no_uuid st)
  else if negb (c_true (Z.land (bo_blob_flags b) VIRTGPU_BLOB_FLAG_USE_CROSS_DEVICE)) then (0, no_uuid st)
  else (0, st).

(** the errno, or the buffer *)
Definition virtgpu_gem_prime_export (ft : features) (a flags : Z) : ST dev_st (Z + Z) := fun st =>
  match dv_bos (fst st) !! a with
  | None => (inl (- EINVAL), st)
  | Some b =>
      let '(ret, st1) := export_uuid ft a b st in
      if c_true ret then (inl ret, st1)
      else
        let '(buf, st2) := on_world (virtio_dma_buf_export a (bo_size b) flags) st1 in
        match buf with
        | inl e => (inl e, st2)
        | inr buf =>
            let '(_, st3) := on_world drm_dev_get st2 in
            (inr buf, snd (on_world (drm_gem_object_get a) st3))
        end
  end.

Definition virtgpu_gem_map_dma_buf (a : Z) (dev_ok : bool) : ST dev_st (Z + list (Z * Z)) := fun st =>
  match dv_bos (fst st) !! a with
  | Some b =>
      match bo_vram b with
      | Some v => on_world (virtio_gpu_vram_map_dma_buf (gp_base (dv_pool (fst st))) b v dev_ok) st
      | None => on_world (drm_gem_map_dma_buf a) st
      end
  | None => (inl (- EINVAL), st)
  end.

Definition virtgpu_gem_unmap_dma_buf (a : Z) (sgt : list (Z * Z)) : ST dev_st unit := fun st =>
  if is_vram_bo (fst st) a then on_world (virtio_gpu_vram_unmap_dma_buf sgt) st
  else on_world (drm_gem_unmap_dma_buf sgt) st.

(** ** Import *)

(** the errno, or the memory entries and their address *)
Definition virtgpu_dma_buf_import_sgt (a attach : Z) : ST dev_st (Z + list gpu_mem_entry * Z) := fun st =>
  let '(ret, st1) := on_world (dma_resv_wait_kernel attach) st in
  if ret <=? 0 then (inl (if ret <? 0 then ret else - ETIMEDOUT), st1)
  else
    let '(sgt, st2) := on_world (dma_buf_map_attachment attach) st1 in
    match sgt with
    | inl e => (inl e, st2)
    | inr (sgt, segs) =>
        let '(data, st3) := on_world (kvmalloc_ents (Z.of_nat (length segs))) st2 in
        match data with
        | None => (inl (- ENOMEM), snd (on_world (dma_buf_unmap_attachment attach sgt) st3))
        | Some data =>
            let ents := map (fun '(addr, len) => MemEntry (u64 addr) (u32 len)) segs in
            (inr (ents, data), snd (on_bo a (bo_set_sgt (Some sgt)) st3))
        end
    end.

Definition virtgpu_dma_buf_unmap (a : Z) : ST dev_st unit := fun st =>
  match dv_bos (fst st) !! a with
  | Some b =>
      if negb (bo_created b) then (tt, st)
      else
        let '(_, st1) := virtio_gpu_detach_object_fenced a st in
        let st2 := match bo_import b, bo_sgt b with
                   | Some (attach, _), Some sgt => snd (on_world (dma_buf_unmap_attachment attach sgt) st1)
                   | _, _ => st1
                   end in
        on_bo a (bo_set_sgt None) st2
  | None => (tt, st)
  end.

Definition virtgpu_dma_buf_move_notify (a : Z) : ST dev_st unit := virtgpu_dma_buf_unmap a.

Definition virtgpu_dma_buf_free_obj (a : Z) : ST dev_st unit := fun st =>
  match dv_bos (fst st) !! a with
  | None => (tt, st)
  | Some b =>
      let st1 := match bo_import b with
                 | Some (attach, dmabuf) =>
                     let '(_, st1) := on_world (dmabuf_resv_lock dmabuf) st in
                     let '(_, st2) := virtgpu_dma_buf_unmap a st1 in
                     let '(_, st3) := on_world (dmabuf_resv_unlock dmabuf) st2 in
                     let '(_, st4) := on_world (dma_buf_detach dmabuf attach) st3 in
                     snd (on_world (dma_buf_put dmabuf) st4)
                 | None => st
                 end in
      if bo_created b then notify (snd (virtio_gpu_cmd_unref_resource sleep lock fuel a st1))
      else virtio_gpu_cleanup_object a st1
  end.

(** the labels [err_pin] and [err_import] *)
Definition init_obj_err_pin (a dmabuf ret : Z) : ST dev_st Z := fun st =>
  let '(_, st1) := on_world (dmabuf_resv_unlock dmabuf) st in
  (ret, snd (virtgpu_dma_buf_free_obj a st1)).
Definition init_obj_err_import (a attach dmabuf ret : Z) : ST dev_st Z := fun st =>
  let '(_, st1) := on_world (dma_buf_unpin attach) st in init_obj_err_pin a dmabuf ret st1.

Definition import_params (size : Z) : object_params :=
  ObjParams size false false true 0 0 0 0 0 0 0 0 0 0 0 VIRTGPU_BLOB_MEM_GUEST VIRTGPU_BLOB_FLAG_USE_SHAREABLE 0.

Definition virtgpu_dma_buf_init_obj (a attach dmabuf : Z) : ST dev_st Z := fun st =>
  let '((ret, id), st1) := virtio_gpu_resource_id_get st in
  if c_true ret then (ret, snd (virtgpu_dma_buf_free_obj a st1))
  else
    let '(_, st2) := on_bo a (bo_set_handle id) st1 in
    let '(_, st3) := on_world (dmabuf_resv_lock dmabuf) st2 in
    let '(ret, st4) := on_world (dma_buf_pin attach) st3 in
    if c_true ret then init_obj_err_pin a dmabuf ret st4
    else
      let '(ents, st5) := virtgpu_dma_buf_import_sgt a attach st4 in
      match ents with
      | inl ret => init_obj_err_import a attach dmabuf ret st5
      | inr (ents, data) =>
          let p := import_params (dmabuf_size (snd st5) dmabuf) in
          let '(_, st6) := virtio_gpu_cmd_resource_create_blob sleep fuel a p ents data st5 in
          let '(_, st7) := on_bo a (fun b => bo_set_flags (bo_dumb b) true b) st6 in
          let '(_, st8) := on_world (dma_buf_unpin attach) st7 in
          (0, snd (on_world (dmabuf_resv_unlock dmabuf) st8))
      end.

Definition import_bo (size attach dmabuf : Z) : gpu_bo :=
  Bo 0 size false false false false false 0 0 0 [] None None (Some (attach, dmabuf)).

(** the errno, or the object *)
Definition virtgpu_gem_prime_import (ft : features) (dmabuf : Z) : ST dev_st (Z + Z) := fun st =>
  match dmabuf_own (snd st) dmabuf with
  | Some a => (inr a, snd (on_world (drm_gem_object_get a) st))
  | None =>
      if negb (ft_resource_blob ft) then on_world (drm_gem_prime_import dmabuf) st
      else
        let '(bo, st1) := on_world kzalloc_bo st in
        match bo with
        | None => (inl (- ENOMEM), st1)
        | Some a =>
            let size := dmabuf_size (snd st1) dmabuf in
            let '(_, st2) := on_world (drm_gem_private_object_init a size) st1 in
            let '(attach, st3) := on_world (dma_buf_dynamic_attach dmabuf a) st2 in
            match attach with
            | inl e => (inl e, snd (on_world (kfree_bo a) st3))
            | inr attach =>
                let '(_, st4) := add_bo a (import_bo size attach dmabuf) st3 in
                let '(_, st5) := on_world (get_dma_buf dmabuf) st4 in
                let '(ret, st6) := virtgpu_dma_buf_init_obj a attach dmabuf st5 in
                (if ret <? 0 then inl ret else inr a, st6)
            end
        end
  end.

Definition virtgpu_gem_prime_import_sg_table : Z + Z := inl (- ENODEV).

End Prime.
