(* ===== verification/PrimeProps.v ===== *)
(** * Properties of PRIME import and export *)

From stdpp Require Import gmap gmultiset.
From S2P Require Import Prelude PoolCtl GuestPool GuestPoolSpec Wire Fence ObjArray CtrlQueue GpuDev GpuCmds GpuProps VramObj VramProps ObjProps Submit SubmitProps Prime.

(** ** What sending a command leaves alone *)

(** an observation of the world that no service of the queue moves *)
Class CtrlQuiet {W A : Type} `{CE : CtrlEnv W} `{OA : !ObjArrays W} (o : W -> A) : Prop := {
  cq_zalloc w : o (snd (vbuf_zalloc w)) = o w;
  cq_vfree a w : o (snd (vbuf_free a w)) = o w;
  cq_add v w : o (snd (vq_add_sgs v w)) = o w;
  cq_kick w : o (snd (vq_kick_prepare w)) = o w;
  cq_notify w : o (snd (vq_notify w)) = o w;
  cq_sgt_alloc n w : o (snd (sgt_alloc n w)) = o w;
  cq_page a w : o (snd (vmalloc_to_page a w)) = o w;
  cq_sgt_free w : o (snd (sgt_free w)) = o w;
  cq_unlock l w : o (snd (objs_unlock l w)) = o w;
  cq_add_fence l f w : o (snd (objs_add_fence l f w)) = o w
}.

Section Quiet.
Context {B W A : Type} `{CE : CtrlEnv W} `{OA : !ObjArrays W} (o : W -> A) `{CQ : !CtrlQuiet o}.
Context (sleep : gpu_st W -> gpu_st W) (Hsleep : forall st, o (snd (sleep st)) = o (snd st)).

Lemma notify_quiet_q (st : gpu_st W) : o (snd (snd (virtio_gpu_notify st))) = o (snd st).
Proof.
  destruct st as [g w]. unfold virtio_gpu_notify. case_if; [done|]. pose proof (cq_kick w) as K.
  destruct (vq_kick_prepare w) as [[] w1]; cbn in *; [by rewrite cq_notify | done].
Qed.

Lemma wait_room_quiet n k (st : gpu_st W) : o (snd (snd (queue_wait_room sleep n k st))) = o (snd st).
Proof.
  revert st; induction n as [|n IH]; intros st; cbn [queue_wait_room]; [done|]. case_if; [|done].
  pose proof (notify_quiet_q st) as Q. destruct (virtio_gpu_notify st) as [u [g1 w1]]. by rewrite IH, Hsleep.
Qed.

Lemma ctrl_sgs_quiet n v fence k (st : gpu_st W) : o (snd (snd (virtio_gpu_queue_ctrl_sgs sleep n v fence k st))) = o (snd st).
Proof.
  destruct st as [g w]. unfold virtio_gpu_queue_ctrl_sgs, free_vbuf. case_if.
  { cbn. rewrite cq_vfree. destruct fence, (vb_objs v); [by rewrite cq_unlock | done..]. }
  pose proof (wait_room_quiet n (if g_has_indirect g then 1 else k) (g, w)) as Q.
  destruct (queue_wait_room _ _ _ _) as [[] [g1 w1]]; cbn [negb snd] in *; [|done].
  assert (Qe : o (snd (snd (queue_emit_fence v fence (g1, w1)))) = o w1).
  { unfold queue_emit_fence. destruct fence as [f|]; [|done]. destruct (virtio_gpu_fence_emit _ _ _) as [[? ?] ?]. cbn.
    destruct (vb_objs v); [by rewrite cq_unlock, cq_add_fence | done]. }
  destruct (queue_emit_fence v fence (g1, w1)) as [v1 [g2 w2]]. cbn [snd] in Qe.
  pose proof (cq_add (set_seqno v1 (u32 (g_seqno g2 + 1))) w2) as Qa. destruct (vq_add_sgs _ w2). cbn in *. congruence.
Qed.

Lemma sg_pages_quiet l data (w : W) : o (snd (sg_pages l data w)) = o w.
Proof.
  revert data w; induction l as [|s l IH]; intros data w; cbn [sg_pages]; [done|].
  pose proof (cq_page data w) as Q. destruct (vmalloc_to_page data w) as [[] w1]; cbn in *; [by rewrite IH | done].
Qed.

Lemma fenced_ctrl_quiet n v fence (st : gpu_st W) : o (snd (snd (virtio_gpu_queue_fenced_ctrl_buffer sleep n v fence st))) = o (snd st).
Proof.
  destruct st as [g w]. unfold virtio_gpu_queue_fenced_ctrl_buffer. case_if; [apply ctrl_sgs_quiet|].
  case_if; [|apply ctrl_sgs_quiet].
  assert (Q : o (snd (vmalloc_to_sgt (vb_data_addr v) (vb_data_size v) w)) = o w).
  { unfold vmalloc_to_sgt. case_if; [done|]. pose proof (cq_sgt_alloc ((vb_data_size v + PAGE_SIZE - 1) / PAGE_SIZE) w) as Q1.
    destruct (sgt_alloc _ w) as [[] w1]; cbn [negb snd] in *; [|done].
    match goal with |- context [sg_pages ?l ?x w1] => pose proof (sg_pages_quiet l x w1) as Q2; destruct (sg_pages l x w1) as [[] w2] end;
      cbn [snd] in *; [congruence | by rewrite cq_sgt_free, Q2]. }
  destruct (vmalloc_to_sgt _ _ w) as [[lens|] w1]; cbn [snd] in Q.
  - pose proof (ctrl_sgs_quiet n v fence (1 + Z.of_nat (length lens) + (if vb_resp_size v =? 0 then 0 else 1)) (g, w1)) as Q1.
    destruct (virtio_gpu_queue_ctrl_sgs _ _ _ _ _ _) as [r [g2 w2]]. cbn [snd] in *. by rewrite cq_sgt_free, Q1.
  - cbn. destruct fence, (vb_objs v); [by rewrite cq_unlock | done..].
Qed.

Lemma issue_quiet n cmd cx rs hb cb fill fence (st : dev_st B W) :
  o (snd (snd (issue sleep n cmd cx rs hb cb fill fence st))) = o (snd st).
Proof.
  destruct st as [d w]. unfold issue. assert (Q : o (snd (virtio_gpu_get_vbuf cmd cx rs hb cb w)) = o w).
  { unfold virtio_gpu_get_vbuf. pose proof (cq_zalloc w) as Q. destruct (vbuf_zalloc w) as [a w1]. by repeat case_if. }
  destruct (virtio_gpu_get_vbuf _ _ _ _ _ w) as [[v|] w1]; cbn [snd] in Q; [|done]. unfold on_queue.
  pose proof (fenced_ctrl_quiet n (fill v) fence (dv_gpu d, w1)) as Q1.
  destruct (virtio_gpu_queue_fenced_ctrl_buffer _ _ _ _ _) as [r [g w2]]. cbn in *. congruence.
Qed.

Lemma notify_quiet (st : dev_st B W) : o (snd (snd (notify st))) = o (snd st).
Proof.
  destruct st as [d w]. unfold notify, on_queue. pose proof (notify_quiet_q (dv_gpu d, w)) as Q.
  by destruct (virtio_gpu_notify _) as [u [g w1]].
Qed.

End Quiet.

(** ** What an import holds *)

Inductive pheld :=
  PBuf (b : Z) | PAttach (b a : Z) | PMap (a s : Z) | PPin (a : Z) | PLock (b : Z) | PObj (a : Z).
Definition pheld_code (h : pheld) : Z * Z * Z :=
  match h with
  | PBuf b => (0, b, 0) | PAttach b a => (1, b, a) | PMap a s => (2, a, s)
  | PPin a => (3, a, 0) | PLock b => (4, b, 0) | PObj a => (5, a, 0)
  end.
Definition pheld_decode (c : Z * Z * Z) : pheld :=
  let '(k, x, y) := c in
  if k =? 0 then PBuf x else if k =? 1 then PAttach x y else if k =? 2 then PMap x y
  else if k =? 3 then PPin x else if k =? 4 then PLock x else PObj x.
#[export] Instance pheld_eq_dec : EqDecision pheld.
Proof. solve_decision. Defined.
#[export] Instance pheld_countable : Countable pheld.
Proof. refine (inj_countable' pheld_code pheld_decode _). by intros []. Defined.

(** references of buffers, attachments, mappings, pins, the reservation lock, the object's memory *)
Class PrimeLaws (W : Type) `{CE : CtrlEnv W} `{OA : !ObjArrays W} `{BE : !BoEnv W} `{VE : !VramEnv W} `{SE : !SubmitEnv W}
  `{PE : !PrimeEnv W} := {
  pobs : W -> gmultiset pheld;
  pl_quiet :: CtrlQuiet pobs;
  pl_lock b w : pobs (snd (dmabuf_resv_lock b w)) = {[+ PLock b +]} ⊎ pobs w;
  pl_unlock b w R : pobs w = {[+ PLock b +]} ⊎ R -> pobs (snd (dmabuf_resv_unlock b w)) = R;
  pl_pin a w : let '(r, w') := dma_buf_pin a w in r <= 0 /\ pobs w' = (if r =? 0 then {[+ PPin a +]} else ∅) ⊎ pobs w;
  pl_unpin a w R : pobs w = {[+ PPin a +]} ⊎ R -> pobs (snd (dma_buf_unpin a w)) = R;
  pl_resv_wait a w : pobs (snd (dma_resv_wait_kernel a w)) = pobs w;
  pl_map a w : let '(r, w') := dma_buf_map_attachment a w in
    match r with inl e => e < 0 /\ pobs w' = pobs w | inr (s, _) => pobs w' = {[+ PMap a s +]} ⊎ pobs w end;
  pl_unmap a s w R : pobs w = {[+ PMap a s +]} ⊎ R -> pobs (snd (dma_buf_unmap_attachment a s w)) = R;
  pl_attach b x w : let '(r, w') := dma_buf_dynamic_attach b x w in
    match r with inl e => pobs w' = pobs w | inr a => pobs w' = {[+ PAttach b a +]} ⊎ pobs w end;
  pl_detach b a w R : pobs w = {[+ PAttach b a +]} ⊎ R -> pobs (snd (dma_buf_detach b a w)) = R;
  pl_get b w : pobs (snd (get_dma_buf b w)) = {[+ PBuf b +]} ⊎ pobs w;
  pl_put b w R : pobs w = {[+ PBuf b +]} ⊎ R -> pobs (snd (dma_buf_put b w)) = R;
  pl_kzalloc w : let '(r, w') := kzalloc_bo w in
    pobs w' = match r with Some a => {[+ PObj a +]} | None => ∅ end ⊎ pobs w;
  pl_kfree a w R : pobs w = {[+ PObj a +]} ⊎ R -> pobs (snd (kfree_bo a w)) = R;
  pl_release a w R : pobs w = {[+ PObj a +]} ⊎ R -> pobs (snd (import_release a w)) = R;
  pl_init a n w : pobs (snd (drm_gem_private_object_init a n w)) = pobs w;
  pl_ida_alloc w : pobs (snd (ida_alloc w)) = pobs w;
  pl_ida_free i w : pobs (snd (ida_free i w)) = pobs w;
  pl_ents n w : pobs (snd (kvmalloc_ents n w)) = pobs w;
  pl_fence w : pobs (snd (fence_kzalloc w)) = pobs w;
  pl_fence_wait f w : pobs (snd (dma_fence_wait f w)) = pobs w;
  pl_fence_put f w : pobs (snd (dma_fence_put f w)) = pobs w
}.

Section Importing.
Context {B W : Type} `{BO : BuddyOps B} `{PA : PoolApi W} `{GE : GemEnv W} `{PL : PrimeLaws W}.
Context (sleep : gpu_st W -> gpu_st W) (lock : gp_st B W -> gp_st B W) (n : nat).
Context (Hsleep : forall st, pobs (snd (sleep st)) = pobs (snd st)).
Implicit Types (d : vgdev B) (w : W) (st : dev_st B W) (m : gmap Z gpu_bo) (R X : gmultiset pheld).

(** the object [a], imported from [buf], is the one new object, and [X] is held beyond [R] *)
Definition importing a attach buf (created : bool) (sgt : option Z) X R m st : Prop :=
  pobs (snd st) = X ⊎ R /\ exists b, dv_bos (fst st) = <[a := b]> m /\ bo_import b = Some (attach, buf) /\
    bo_vram b = None /\ bo_created b = created /\ bo_sgt b = sgt.

Lemma importing_on_bo a attach buf c s c' s' X R m st f :
  (forall b, bo_created b = c -> bo_sgt b = s -> bo_import (f b) = bo_import b /\ bo_vram (f b) = bo_vram b /\
     bo_created (f b) = c' /\ bo_sgt (f b) = s') ->
  importing a attach buf c s X R m st -> importing a attach buf c' s' X R m (snd (on_bo a f st)).
Proof.
  intros Hf (I1 & b & I2 & I3 & I4 & I5 & I6). destruct st as [d w]. split; [done|]. exists (f b).
  destruct (Hf b I5 I6) as (F1 & F2 & F3 & F4). cbn [fst snd on_bo] in *. unfold dv_upd_bo. cbn.
  rewrite I2, alter_insert_eq. split_and!; congruence.
Qed.

Lemma importing_world {A} a attach buf c s X X' R m st (op : ST W A) :
  (forall w, pobs w = X ⊎ R -> pobs (snd (op w)) = X' ⊎ R) ->
  importing a attach buf c s X R m st -> importing a attach buf c s X' R m (snd (on_world op st)).
Proof.
  intros Hop [I1 I2]. destruct st as [d w]. unfold on_world. cbn [fst snd] in *. specialize (Hop w I1).
  destruct (op w). by split.
Qed.

Ltac world_step I := eapply importing_world; [|exact I]; intros w' Ew.

Lemma importing_gpu a attach buf c s X R m st g w' : importing a attach buf c s X R m st ->
  pobs w' = pobs (snd st) -> importing a attach buf c s X R m (dv_set_gpu (fst st) g, w').
Proof. intros [I1 I2] E. split; [by rewrite <- I1 | done]. Qed.

Lemma importing_issue a attach buf c s X R m st cmd cx rs hb cb fill fence :
  importing a attach buf c s X R m st -> importing a attach buf c s X R m (snd (issue sleep n cmd cx rs hb cb fill fence st)).
Proof.
  intros I. pose proof (issue_quiet pobs sleep Hsleep n cmd cx rs hb cb fill fence st) as Q. destruct st as [d w].
  destruct (issue_keeps_dev sleep n cmd cx rs hb cb fill fence d w) as [g Hg].
  destruct (issue _ _ _ _ _ _ _ _ _ _) as [r [d' w']]. cbn [fst snd] in *. subst d'.
  by apply (importing_gpu a attach buf c s X R m (d, w)).
Qed.

Lemma importing_notify a attach buf c s X R m st :
  importing a attach buf c s X R m st -> importing a attach buf c s X R m (snd (notify st)).
Proof.
  intros I. pose proof (notify_quiet pobs st) as Q. destruct st as [d w]. unfold notify, on_queue in *.
  destruct (virtio_gpu_notify _) as [u [g w']]. cbn [fst snd] in *. by apply (importing_gpu a attach buf c s X R m (d, w)).
Qed.

(** the objects are those of before, and nothing is held beyond [R] *)
Definition undone R m st : Prop := pobs (snd st) = R /\ dv_bos (fst st) = m.

Lemma importing_cleanup a attach buf s c R m st : m !! a = None -> importing a attach buf c s {[+ PObj a +]} R m st ->
  undone R m (snd (virtio_gpu_cleanup_object a st)).
Proof.
  intros Hm (I1 & b & I2 & I3 & I4 & _). unfold virtio_gpu_cleanup_object. rewrite I2, lookup_insert_eq, I4, I3.
  assert (K : pobs (snd (snd (virtio_gpu_resource_id_put (B := B) (bo_hw_res_handle b) st))) = {[+ PObj a +]} ⊎ R /\
    dv_bos (fst (snd (virtio_gpu_resource_id_put (B := B) (bo_hw_res_handle b) st))) = <[a := b]> m).
  { destruct st as [d w]. unfold virtio_gpu_resource_id_put. destruct (dv_virglhack d); cbn [fst snd] in *; [done|].
    by rewrite pl_ida_free. }
  destruct (virtio_gpu_resource_id_put _ st) as [u [d1 w1]]. cbn [fst snd] in K. destruct K as [K1 K2].
  change (bool_decide (is_Some (Some (attach, buf)))) with true. cbv iota. split; cbn [fst snd].
  - by apply pl_release.
  - cbn. by rewrite K2, delete_insert_id.
Qed.

(** what a complete import holds; what an attached but unmapped one holds *)
Definition attached_held a attach buf : gmultiset pheld := {[+ PObj a; PAttach buf attach; PBuf buf +]}.
Definition imported_held a attach buf sgt : gmultiset pheld := {[+ PMap attach sgt +]} ⊎ attached_held a attach buf.

Lemma importing_created_unmap a attach buf sgt X R m st :
  importing a attach buf true (Some sgt) ({[+ PMap attach sgt +]} ⊎ X) R m st ->
  importing a attach buf true None X R m (snd (virtgpu_dma_buf_unmap sleep n a st)).
Proof.
  intros I. pose proof I as (I1 & b & I2 & I3 & I4 & I5 & I6). unfold virtgpu_dma_buf_unmap.
  rewrite I2, lookup_insert_eq, I5, I3, I6. cbn [negb].
  assert (I7 : importing a attach buf true (Some sgt) ({[+ PMap attach sgt +]} ⊎ X) R m (snd (virtio_gpu_detach_object_fenced sleep n a st))).
  { unfold virtio_gpu_detach_object_fenced. rewrite I2, lookup_insert_eq. case_if; [done|].
    assert (I7 : importing a attach buf true (Some sgt) ({[+ PMap attach sgt +]} ⊎ X) R m (snd (fence_alloc (B := B) (main_fence_ctx st) 0 st))).
    { unfold fence_alloc. assert (K : importing a attach buf true (Some sgt) ({[+ PMap attach sgt +]} ⊎ X) R m (snd (on_world fence_kzalloc st))) by (world_step I; by rewrite pl_fence).
      by destruct (on_world fence_kzalloc st). }
    destruct (fence_alloc _ _ st) as [[[fa f]|] st1]; cbn [snd] in I7; [|done].
    assert (I8 : importing a attach buf true (Some sgt) ({[+ PMap attach sgt +]} ⊎ X) R m (snd (virtio_gpu_object_detach sleep n a (Some f) st1))).
    { unfold virtio_gpu_object_detach. destruct (dv_bos (fst st1) !! a) as [b1|]; [|done]. case_if; [done|].
      unfold virtio_gpu_cmd_resource_detach_backing.
      match goal with |- context [issue sleep n ?c0 ?x ?r ?h ?cb ?f ?fe st1] =>
        pose proof (importing_issue a attach buf true (Some sgt) _ R m st1 c0 x r h cb f fe I7) as K;
        destruct (issue sleep n c0 x r h cb f fe st1) as [r0 st2] end.
      eapply importing_on_bo; [|exact K]. by intros b' H1 H2. }
    destruct (virtio_gpu_object_detach _ _ _ _ st1) as [u st2]. cbn [snd] in I8.
    pose proof (importing_notify _ _ _ _ _ _ _ _ _ I8) as I9. destruct (notify st2) as [u1 st3]. cbn [snd] in I9.
    assert (I10 : importing a attach buf true (Some sgt) ({[+ PMap attach sgt +]} ⊎ X) R m (snd (on_world (dma_fence_wait fa) st3))) by (world_step I9; by rewrite pl_fence_wait).
    destruct (on_world (dma_fence_wait fa) st3) as [u2 st4]. cbn [snd] in I10.
    assert (I11 : importing a attach buf true (Some sgt) ({[+ PMap attach sgt +]} ⊎ X) R m (snd (on_world (dma_fence_put fa) st4))) by (world_step I10; by rewrite pl_fence_put).
    by destruct (on_world (dma_fence_put fa) st4). }
  destruct (virtio_gpu_detach_object_fenced _ _ _ st) as [r st1]. cbn [snd] in I7.
  eapply importing_on_bo; [|eapply importing_world; [|exact I7]]; [by intros b' Hc1 Hc2|].
  intros w' E. apply pl_unmap. rewrite E. multiset_solver.
Qed.

(** the end of [virtgpu_dma_buf_free_obj]'s work on the attachment *)
Lemma importing_detached a attach buf c s R m st :
  importing a attach buf c s ({[+ PLock buf +]} ⊎ attached_held a attach buf) R m st ->
  importing a attach buf c s {[+ PObj a +]} R m
    (let '(_, st3) := on_world (dmabuf_resv_unlock buf) st in
     let '(_, st4) := on_world (dma_buf_detach buf attach) st3 in
     snd (on_world (dma_buf_put buf) st4)).
Proof.
  intros I. assert (K2 : importing a attach buf c s (attached_held a attach buf) R m (snd (on_world (dmabuf_resv_unlock buf) st)))
    by (world_step I; apply pl_unlock; rewrite Ew; multiset_solver).
  destruct (on_world (dmabuf_resv_unlock buf) st) as [u2 st2]. cbn [snd] in K2.
  assert (K3 : importing a attach buf c s {[+ PObj a; PBuf buf +]} R m (snd (on_world (dma_buf_detach buf attach) st2)))
    by (world_step K2; apply pl_detach; rewrite Ew; unfold attached_held; multiset_solver).
  destruct (on_world (dma_buf_detach buf attach) st2) as [u3 st3]. cbn [snd] in K3.
  world_step K3. apply pl_put. rewrite Ew. multiset_solver.
Qed.

Lemma importing_free_uncreated a attach buf R m st : m !! a = None ->
  importing a attach buf false None (attached_held a attach buf) R m st ->
  undone R m (snd (virtgpu_dma_buf_free_obj sleep lock n a st)).
Proof.
  intros Hm I. pose proof I as (I1 & b & I2 & I3 & I4 & I5 & I6). unfold virtgpu_dma_buf_free_obj.
  rewrite I2, lookup_insert_eq, I3, I5.
  assert (K1 : importing a attach buf false None ({[+ PLock buf +]} ⊎ attached_held a attach buf) R m
    (snd (on_world (dmabuf_resv_lock buf) st))) by (world_step I; rewrite pl_lock, Ew; multiset_solver).
  destruct (on_world (dmabuf_resv_lock buf) st) as [u1 st1]. cbn [snd] in K1.
  assert (E : virtgpu_dma_buf_unmap sleep n a st1 = (tt, st1)).
  { destruct K1 as (_ & b1 & J2 & _ & _ & J5 & _). unfold virtgpu_dma_buf_unmap. by rewrite J2, lookup_insert_eq, J5. }
  rewrite E. eapply importing_cleanup; [done|]. by eapply importing_detached.
Qed.

Lemma import_created a attach buf sgt X R m st p ents data :
  importing a attach buf false (Some sgt) X R m st ->
  let st' := snd (virtio_gpu_cmd_resource_create_blob sleep n a p ents data st) in
  pobs (snd st') = X ⊎ R /\ exists b, dv_bos (fst st') = <[a := b]> m /\ bo_import b = Some (attach, buf) /\
    bo_vram b = None /\ bo_created b = true /\ bo_sgt b = Some sgt /\ (ents <> [] -> bo_attached b = true).
Proof.
  intros I. cbv zeta. unfold virtio_gpu_cmd_resource_create_blob.
  match goal with |- context [issue sleep n ?c0 ?x ?r ?h ?cb ?f ?fe st] =>
    pose proof (importing_issue a attach buf false (Some sgt) X R m st c0 x r h cb f fe I) as K;
    destruct (issue sleep n c0 x r h cb f fe st) as [r0 [d1 w1]] end.
  destruct K as (I1 & b & I2 & I3 & I4 & I5 & I6). cbn [fst snd on_bo] in *.
  unfold c_true. destruct (Z.eqb_spec (Z.of_nat (length ents)) 0) as [Hz|Hz]; cbn [negb fst snd]; (split; [done|]); eexists;
    (split; [cbn; rewrite I2, !alter_insert_eq; reflexivity|]); split_and!; try done.
  intros Hne. by destruct ents.
Qed.

Lemma import_sgt_spec a attach buf c X R m st : importing a attach buf c None X R m st ->
  let '(r, st') := virtgpu_dma_buf_import_sgt a attach st in
  match r with
  | inl e => e < 0 /\ importing a attach buf c None X R m st'
  | inr (ents, data) => exists sgt segs w1, fst (dma_buf_map_attachment attach w1) = inr (sgt, segs) /\
      ents = map (fun '(addr, len) => MemEntry (u64 addr) (u32 len)) segs /\
      importing a attach buf c (Some sgt) ({[+ PMap attach sgt +]} ⊎ X) R m st'
  end.
Proof.
  intros I. unfold virtgpu_dma_buf_import_sgt.
  assert (K1 : importing a attach buf c None X R m (snd (on_world (dma_resv_wait_kernel attach) st)))
    by (world_step I; by rewrite pl_resv_wait).
  destruct (on_world (dma_resv_wait_kernel attach) st) as [ret st1]. cbn [snd] in K1.
  destruct (Z.leb_spec ret 0); [split; [case_if; [lia | done] | done]|]. clear I st.
  destruct st1 as [d1 w1]. unfold on_world at 1. pose proof (pl_map attach w1) as M.
  destruct (dma_buf_map_attachment attach w1) as [[e|[sgt segs]] w2] eqn:Em.
  { destruct M as [M1 M2]. split; [done|]. destruct K1 as [J1 J2]. split; [by rewrite <- J1 | done]. }
  assert (K2 : importing a attach buf c None ({[+ PMap attach sgt +]} ⊎ X) R m (d1, w2)).
  { destruct K1 as [J1 J2]. split; [|done]. cbn [snd] in *. rewrite M, J1. multiset_solver. }
  assert (K3 : importing a attach buf c None ({[+ PMap attach sgt +]} ⊎ X) R m
    (snd (on_world (kvmalloc_ents (Z.of_nat (length segs))) (d1, w2)))) by (world_step K2; by rewrite pl_ents).
  destruct (on_world (kvmalloc_ents (Z.of_nat (length segs))) (d1, w2)) as [[data|] st3]; cbn [snd] in K3.
  - exists sgt, segs, w1. rewrite Em. split_and!; [done..|]. eapply importing_on_bo; [|exact K3]. by intros b Hc _.
  - split; [done|]. world_step K3. apply pl_unmap. rewrite Ew. multiset_solver.
Qed.

(** an import undone, or one object more and what it holds *)
Definition import_done buf R m (r : Z + Z) st : Prop :=
  match r with
  | inl e => undone R m st
  | inr a => exists b attach sgt segs w1, fst (dma_buf_map_attachment attach w1) = inr (sgt, segs) /\
      pobs (snd st) = imported_held a attach buf sgt ⊎ R /\ dv_bos (fst st) = <[a := b]> m /\
      bo_import b = Some (attach, buf) /\ bo_vram b = None /\ bo_sgt b = Some sgt /\ bo_created b = true /\ bo_guest_blob b = true /\
      (segs <> [] -> bo_attached b = true)
  end.

Lemma init_obj_spec a attach buf R m st : m !! a = None ->
  importing a attach buf false None (attached_held a attach buf) R m st ->
  let '(ret, st') := virtgpu_dma_buf_init_obj sleep lock n a attach buf st in
  (ret < 0 /\ undone R m st') \/ (ret = 0 /\ import_done buf R m (inr a) st').
Proof.
  intros Hm I. unfold virtgpu_dma_buf_init_obj.
  assert (K1 : importing a attach buf false None (attached_held a attach buf) R m (snd (virtio_gpu_resource_id_get st)) /\
    (fst (fst (virtio_gpu_resource_id_get st)) < 0 \/ fst (fst (virtio_gpu_resource_id_get st)) = 0)).
  { destruct st as [d w], I as [I1 I2]. unfold virtio_gpu_resource_id_get. cbn [fst snd] in *. destruct (dv_virglhack d).
    - split; [by split | by right].
    - pose proof (pl_ida_alloc w) as A. destruct (ida_alloc w) as [h w1]. cbn [snd] in A. destruct (Z.ltb_spec h 0); cbn [fst snd];
        (split; [split; [cbn [snd]; by rewrite A | exact I2]|]); [by left | by right]. }
  destruct (virtio_gpu_resource_id_get st) as [[ret id] st1]. cbn [fst snd] in K1. destruct K1 as [K1 Hret].
  unfold c_true at 1. destruct (Z.eqb_spec ret 0) as [->|Hne]; cbn [negb].
  2:{ left. split; [lia|]. by eapply importing_free_uncreated. }
  assert (K2 : importing a attach buf false None (attached_held a attach buf) R m (snd (on_bo a (bo_set_handle id) st1)))
    by (eapply importing_on_bo; [|exact K1]; done).
  destruct (on_bo a (bo_set_handle id) st1) as [u2 st2]. cbn [snd] in K2.
  assert (K3 : importing a attach buf false None ({[+ PLock buf +]} ⊎ attached_held a attach buf) R m
    (snd (on_world (dmabuf_resv_lock buf) st2))) by (world_step K2; rewrite pl_lock, Ew; multiset_solver).
  destruct (on_world (dmabuf_resv_lock buf) st2) as [u3 st3]. cbn [snd] in K3.
  assert (Hpin : forall e st, importing a attach buf false None ({[+ PLock buf +]} ⊎ attached_held a attach buf) R m st ->
    e < 0 -> let '(ret, st') := init_obj_err_pin sleep lock n a buf e st in
    (ret < 0 /\ undone R m st') \/ (ret = 0 /\ import_done buf R m (inr a) st')).
  { intros e st' K He. unfold init_obj_err_pin.
    assert (K' : importing a attach buf false None (attached_held a attach buf) R m (snd (on_world (dmabuf_resv_unlock buf) st')))
      by (world_step K; apply pl_unlock; rewrite Ew; multiset_solver).
    destruct (on_world (dmabuf_resv_unlock buf) st') as [u st'']. cbn [snd] in K'. left. split; [done|]. by eapply importing_free_uncreated. }
  destruct st3 as [d3 w3]. unfold on_world at 1. pose proof (pl_pin attach w3) as Pn. destruct (dma_buf_pin attach w3) as [r w4].
  destruct Pn as [P1 P2]. unfold c_true at 1. destruct (Z.eqb_spec r 0) as [->|Hr]; cbn [negb].
  2:{ apply Hpin; [|lia]. destruct K3 as [J1 J2]. split; [|done]. cbn [snd] in *. rewrite P2, J1. multiset_solver. }
  assert (K4 : importing a attach buf false None ({[+ PPin attach; PLock buf +]} ⊎ attached_held a attach buf) R m (d3, w4)).
  { destruct K3 as [J1 J2]. split; [|done]. cbn [snd] in *. rewrite P2, J1. multiset_solver. }
  pose proof (import_sgt_spec a attach buf false _ R m (d3, w4) K4) as S5.
  destruct (virtgpu_dma_buf_import_sgt a attach (d3, w4)) as [[e|[ents data]] st5].
  { destruct S5 as [S1 S2]. unfold init_obj_err_import.
    assert (K5 : importing a attach buf false None ({[+ PLock buf +]} ⊎ attached_held a attach buf) R m
      (snd (on_world (dma_buf_unpin attach) st5))) by (world_step S2; apply pl_unpin; rewrite Ew; multiset_solver).
    destruct (on_world (dma_buf_unpin attach) st5) as [u st6]. cbn [snd] in K5. by apply Hpin. }
  destruct S5 as (sgt & segs & w1 & S1 & S2 & S3).
  pose proof (import_created a attach buf sgt _ R m st5 (import_params (dmabuf_size (snd st5) buf)) ents data S3) as K6.
  destruct (virtio_gpu_cmd_resource_create_blob _ _ _ _ _ _ st5) as [u6 st6]. cbn [snd] in K6.
  destruct K6 as (J1 & b & J2 & J3 & J4 & J5 & J6 & J7). destruct st6 as [d6 w6]. cbn [fst snd] in *.
  unfold on_bo, on_world.
  pose proof (pl_unpin attach w6 ({[+ PLock buf +]} ⊎ (imported_held a attach buf sgt ⊎ R))) as U1.
  destruct (dma_buf_unpin attach w6) as [u7 w7]. cbn [snd] in U1.
  pose proof (pl_unlock buf w7 (imported_held a attach buf sgt ⊎ R)) as U2. destruct (dmabuf_resv_unlock buf w7) as [u8 w8]. cbn [fst snd] in *.
  right. split; [done|]. exists (bo_set_flags (bo_dumb b) true b), attach, sgt, segs, w1. cbn [fst snd].
  split_and!; [done | | cbn; by rewrite J2, alter_insert_eq | done | done | done | done | done |].
  - apply U2, U1. rewrite J1. unfold imported_held. multiset_solver.
  - intros Hs. cbn. apply J7. rewrite S2. by destruct segs.
Qed.

Lemma importing_release a attach buf c s X R m st : importing a attach buf c s X R m st ->
  virtio_gpu_guest_pool_release_object lock a st = (tt, st).
Proof. intros (_ & b & I2 & _ & I4 & _). unfold virtio_gpu_guest_pool_release_object. by rewrite I2, lookup_insert_eq, I4. Qed.

Lemma importing_unref_cb a attach buf c s R m r st : m !! a = None -> importing a attach buf c s {[+ PObj a +]} R m st ->
  undone R m (snd (virtio_gpu_cmd_unref_cb lock a r st)).
Proof.
  intros Hm I. unfold virtio_gpu_cmd_unref_cb. rewrite (importing_release _ _ _ _ _ _ _ _ _ I). case_if; by eapply importing_cleanup.
Qed.

(** the object is gone, or only its memory is left until the host's answer *)
Definition import_released a R m st : Prop :=
  undone R m st \/ (pobs (snd st) = {[+ PObj a +]} ⊎ R /\ forall r, undone R m (snd (virtio_gpu_cmd_unref_cb lock a r st))).

Lemma importing_free_created a attach buf sgt R m st : m !! a = None ->
  importing a attach buf true (Some sgt) (imported_held a attach buf sgt) R m st ->
  import_released a R m (snd (virtgpu_dma_buf_free_obj sleep lock n a st)).
Proof.
  intros Hm I. pose proof I as (I1 & b & I2 & I3 & I4 & I5 & I6). unfold virtgpu_dma_buf_free_obj.
  rewrite I2, lookup_insert_eq, I3, I5.
  assert (K1 : importing a attach buf true (Some sgt) ({[+ PMap attach sgt +]} ⊎ ({[+ PLock buf +]} ⊎ attached_held a attach buf)) R m
    (snd (on_world (dmabuf_resv_lock buf) st))) by (world_step I; rewrite pl_lock, Ew; unfold imported_held; multiset_solver).
  destruct (on_world (dmabuf_resv_lock buf) st) as [u1 st1]. cbn [snd] in K1.
  apply importing_created_unmap in K1. destruct (virtgpu_dma_buf_unmap sleep n a st1) as [u2 st2]. cbn [snd] in K1.
  apply importing_detached in K1. set (st3 := let '(_, st3) := on_world (dmabuf_resv_unlock buf) st2 in _) in *.
  clearbody st3. unfold virtio_gpu_cmd_unref_resource.
  match goal with |- context [issue sleep n ?c0 ?x ?r ?h ?cb ?f ?fe st3] =>
    pose proof (importing_issue a attach buf true None _ R m st3 c0 x r h cb f fe K1) as K;
    destruct (issue sleep n c0 x r h cb f fe st3) as [[ret|] st4] end; cbn [snd] in K.
  - destruct (ret <? 0).
    + rewrite (importing_release _ _ _ _ _ _ _ _ _ K). left. pose proof (importing_cleanup _ _ _ _ _ _ _ _ Hm K) as Hu.
      destruct (virtio_gpu_cleanup_object a st4) as [u [d5 w5]]. cbn [snd] in *. destruct Hu as [U1 U2].
      pose proof (notify_quiet pobs (d5, w5)) as Q. unfold notify, on_queue in *. destruct (virtio_gpu_notify _) as [u' [g w6]].
      split; cbn [fst snd] in *; [congruence | done].
    + apply importing_notify in K. right. split; [apply K|]. intros r. by eapply importing_unref_cb.
  - apply importing_notify in K. right. split; [apply K|]. intros r. by eapply importing_unref_cb.
Qed.

End Importing.

(** C13: Importing another device's buffer, and letting it go. If the import fails, at whatever call,
    the attachment, its pin and mapping, the buffer's reference, its reservation lock and the
    object's memory are all given back and the objects are those of before. If it succeeds, the one
    new object is a guest blob known to the host, which holds the buffer, its attachment and its
    mapping, unpinned and unlocked. Freeing that object later gives all of them back, its memory
    last, when the host has answered the unref, or at once when the unref could not be sent. *)
Theorem prime_import_roundtrip {B W} `{BO : BuddyOps B} `{PA : PoolApi W} `{GE : GemEnv W} `{PL : PrimeLaws W}
  sleep lock n ft buf (d : vgdev B) (w : W)
  (Hsleep : forall st, pobs (snd (sleep st)) = pobs (snd st)) (Hblob : ft_resource_blob ft = true)
  (Hforeign : dmabuf_own w buf = None) (Hnew : forall a, fst (kzalloc_bo w) = Some a -> dv_bos d !! a = None) :
  let '(r, st') := virtgpu_gem_prime_import sleep lock n ft buf (d, w) in
  import_done buf (pobs w) (dv_bos d) r st' /\
  forall a, r = inr a -> import_released lock a (pobs w) (dv_bos d) (snd (virtgpu_dma_buf_free_obj sleep lock n a st')).
Proof.
  unfold virtgpu_gem_prime_import. cbn [snd]. rewrite Hforeign, Hblob. cbn [negb]. unfold on_world at 1.
  pose proof (pl_kzalloc w) as A. destruct (kzalloc_bo w) as [[a|] w1]; cbn [fst] in *.
  2:{ split; [split; [cbn [fst snd]; rewrite A; multiset_solver | done] | done]. }
  specialize (Hnew a eq_refl). unfold on_world at 1. pose proof (pl_init a (dmabuf_size w1 buf) w1) as A2.
  destruct (drm_gem_private_object_init a _ w1) as [u2 w2]. cbn [snd] in *. unfold on_world at 1. pose proof (pl_attach buf a w2) as A3.
  destruct (dma_buf_dynamic_attach buf a w2) as [[e|attach] w3].
  { unfold on_world. pose proof (pl_kfree a w3 (pobs w)) as F. destruct (kfree_bo a w3) as [u4 w4]. cbn [snd] in *.
    split; [split; [apply F; by rewrite A3, A2, A | done] | done]. }
  unfold add_bo, on_world. pose proof (pl_get buf w3) as A4. destruct (get_dma_buf buf w3) as [u5 w5]. cbn [snd] in *.
  set (b := import_bo _ attach buf). set (d1 := dv_set_bos d _).
  assert (I : importing a attach buf false None (attached_held a attach buf) (pobs w) (dv_bos d) (d1, w5)).
  { split; [cbn [snd]; rewrite A4, A3, A2, A; unfold attached_held; multiset_solver|]. by exists b. }
  pose proof (init_obj_spec sleep lock n Hsleep a attach buf _ _ (d1, w5) Hnew I) as S.
  destruct (virtgpu_dma_buf_init_obj _ _ _ _ _ _ _) as [ret st']. destruct S as [[S1 S2]|[-> S]].
  - rewrite (proj2 (Z.ltb_lt ret 0) S1). by split.
  - change (0 <? 0) with false. cbv iota. split; [done|]. intros a' [= <-].
    destruct S as (b' & attach' & sgt & segs & w1' & T1 & T2 & T3 & T4 & T5 & T6 & T7 & T8 & T9).
    eapply (importing_free_created sleep lock n Hsleep a attach' buf sgt); [done|]. split; [done|]. exists b'.
    by split_and!.
Qed.

Lemma alter_insert_of {A} (m : gmap Z A) a b f : m !! a = Some b -> alter f a m = <[a := f b]> m.
Proof. intros Hb. rewrite <- (insert_id m a b Hb) at 1. by rewrite alter_insert_eq. Qed.

(** C38: Before the mapping of an imported buffer goes, because its exporter moves it or the object
    dies, the host is told to let go of the pages and its answer is awaited; after that the object
    has no mapping. But with no memory for the fence of that command nothing is sent, and the
    mapping is released all the same: the host keeps using the pages, the object still counts as
    attached, and a later mapping of the same buffer is never announced to the host. *)
Theorem unmap_detaches_first {B W} `{BO : BuddyOps B} `{PA : PoolApi W} `{CE : CtrlEnv W} `{OA : !ObjArrays W}
  `{BE : !BoEnv W} `{SE : !SubmitEnv W} `{PE : !PrimeEnv W} sleep n a b attach buf s (d : vgdev B) (w : W)
  (Hb : dv_bos d !! a = Some b) (Hc : bo_created b = true) (Ha : bo_attached b = true)
  (Hi : bo_import b = Some (attach, buf)) (Hs : bo_sgt b = Some s) :
  let '(fa, w1) := fence_kzalloc w in
  let '(_, (d', w')) := virtgpu_dma_buf_unmap sleep n a (d, w) in
  match fa with
  | Some fa => exists f d2 w2, (d2, w2) = snd (notify (snd (virtio_gpu_object_detach sleep n a (Some f) (d, w1)))) /\
      w' = snd (dma_buf_unmap_attachment attach s (snd (dma_fence_put fa (snd (dma_fence_wait fa w2))))) /\
      dv_bos d' = <[a := bo_set_sgt None (bo_set_attached false b)]> (dv_bos d)
  | None => dv_gpu d' = dv_gpu d /\ w' = snd (dma_buf_unmap_attachment attach s w1) /\
      dv_bos d' = <[a := bo_set_sgt None b]> (dv_bos d) /\
      forall ents data, virtio_gpu_object_attach sleep n a ents data (d', w') = (tt, (d', w'))
  end.
Proof.
  destruct (fence_kzalloc w) as [fa w1] eqn:Ef. unfold virtgpu_dma_buf_unmap. cbn [fst]. rewrite Hb, Hc, Hi, Hs. cbn [negb].
  unfold virtio_gpu_detach_object_fenced. cbn [fst]. rewrite Hb, Ha. cbn [negb]. unfold fence_alloc, on_world at 1. rewrite Ef.
  destruct fa as [fa|]; cbn [fst bool_decide virtio_gpu_fence_alloc].
  - change (bool_decide (is_Some (Some fa))) with true. cbn [virtio_gpu_fence_alloc]. set (f := Fence _ _ _ _ _).
    destruct (virtio_gpu_object_detach sleep n a (Some f) (d, w1)) as [u [d2 w2]] eqn:Ed.
    assert (Hd2 : dv_bos d2 = <[a := bo_set_attached false b]> (dv_bos d)).
    { unfold virtio_gpu_object_detach in Ed. cbn [fst] in Ed. rewrite Hb, Ha in Ed. cbn [negb] in Ed.
      unfold virtio_gpu_cmd_resource_detach_backing in Ed.
      match type of Ed with context [issue sleep n ?c0 ?x ?r ?h ?cb ?f0 ?fe (d, w1)] =>
        destruct (issue_keeps_dev sleep n c0 x r h cb f0 fe d w1) as [g Hg];
        destruct (issue sleep n c0 x r h cb f0 fe (d, w1)) as [r0 [d3 w3]] end.
      cbn [fst snd] in Hg. subst d3. injection Ed as _ <- <-. cbn. by apply alter_insert_of. }
    destruct (notify (d2, w2)) as [u' [d3 w3]] eqn:En.
    assert (Hd3 : dv_bos d3 = dv_bos d2).
    { unfold notify, on_queue in En. destruct (virtio_gpu_notify _) as [u3 [g w4]]. by injection En as _ <- _. }
    unfold on_world. cbn [fst snd]. destruct (dma_fence_wait fa w3) as [r w4] eqn:E4.
    destruct (dma_fence_put fa w4) as [u5 w5] eqn:E5. cbn [fst snd].
    destruct (dma_buf_unmap_attachment attach s w5) as [u6 w6] eqn:E6. cbn [fst snd on_bo].
    exists f, d3, w3. rewrite Ed. cbn [snd]. rewrite En, E4. cbn [snd]. rewrite E5. cbn [snd]. rewrite E6.
    split_and!; [done | done|]. cbn. by rewrite Hd3, Hd2, alter_insert_eq.
  - unfold on_world. cbn [fst snd]. destruct (dma_buf_unmap_attachment attach s w1) as [u6 w6]. cbn [snd on_bo].
    assert (Hbos : dv_bos (dv_upd_bo d a (bo_set_sgt None)) = <[a := bo_set_sgt None b]> (dv_bos d)).
    { cbn. by apply alter_insert_of. }
    split_and!; [done | done | done|]. intros ents data. unfold virtio_gpu_object_attach. cbn [fst].
    rewrite Hbos, lookup_insert_eq. cbn [bo_set_sgt bo_attached]. by rewrite Ha.
Qed.

(** ** Sample worlds *)

#[export] Instance toy_queue_prime : PrimeEnv toy_queue := {
  dmabuf_own w b := None; dmabuf_size w b := 8192;
  dmabuf_resv_lock b w := (tt, w); dmabuf_resv_unlock b w := (tt, w);
  dma_buf_pin a w := (0, w); dma_buf_unpin a w := (tt, w); dma_resv_wait_kernel a w := (1, w);
  dma_buf_map_attachment a w := (inr (21, [(65536, 4096); (131072, 4096)]), w);
  dma_buf_unmap_attachment a s w := (tt, w); dma_buf_dynamic_attach b o w := (inr 31, w); dma_buf_detach b a w := (tt, w);
  get_dma_buf b w := (tt, w); dma_buf_put b w := (tt, w); kzalloc_bo w := (Some 400, w); kfree_bo a w := (tt, w);
  drm_gem_private_object_init a n w := (tt, w); drm_gem_prime_import b w := (inl (- ENODEV), w);
  virtio_dma_buf_export a n f w := (inr 41, w); drm_dev_get w := (tt, w);
  drm_gem_map_dma_buf a w := (inr [], w); drm_gem_unmap_dma_buf s w := (tt, w)
}.
#[export] Instance toy_queue_submit : SubmitEnv toy_queue := {
  kvzalloc_array n w := (None, w); kvfree a w := (tt, w);
  copy_syncobj_desc a n w := (None, w); copy_bo_handles a n w := (None, w); vmemdup_user a n w := (inl (- EFAULT), w);
  drm_syncobj_find_fence h p w := ((- ENOENT, 0), w); dma_fence_leaves w f := [f]; dma_fence_match_context w f c := false;
  dma_fence_wait f w := (0, w); dma_fence_put f w := (tt, w); drm_syncobj_find h w := (None, w); drm_syncobj_put s w := (tt, w);
  drm_syncobj_replace_fence s f w := (tt, w); drm_syncobj_add_point s c f p w := (tt, w);
  dma_fence_chain_alloc w := (None, w); kfree_chain c w := (tt, w); fence_kzalloc w := (Some 15, w);
  event_kzalloc w := (None, w); event_kfree e w := (tt, w); drm_event_reserve_init e w := (0, w);
  get_unused_fd w := (17, w); put_unused_fd n w := (tt, w); fd_install n f w := (tt, w);
  sync_file_create f w := (None, w); sync_file_put f w := (tt, w); sync_file_get_fence n w := (None, w);
  task_comm w := [115; 104]
}.

(** a world that counts what is held of a shared buffer *)
Record toy_share := ToyShare { th_held : gmultiset pheld }.
Definition th_take (w : toy_share) (h : pheld) : toy_share := ToyShare ({[+ h +]} ⊎ th_held w).
Definition th_give (w : toy_share) (h : pheld) : toy_share := ToyShare (th_held w ∖ {[+ h +]}).

#[export] Instance toy_share_gem : GemEnv toy_share := {
  arr_alloc n w := (true, w); arr_free w := (tt, w); drm_gem_object_lookup h w := (None, w);
  drm_gem_object_get o w := (tt, w); drm_gem_object_put o w := (tt, w);
  dma_resv_lock_interruptible o w := (0, w); drm_gem_lock_reservations l w := (0, w); dma_resv_reserve_fences o w := (0, w);
  dma_resv_unlock o w := (tt, w); drm_gem_unlock_reservations l w := (tt, w); dma_resv_add_fence o f w := (tt, w)
}.
#[export] Instance toy_share_ctrl : CtrlEnv toy_share := {
  drm_dev_enter w := true; vbuf_zalloc w := (1, w); vbuf_free a w := (tt, w);
  vq_num_free w := 5; vq_add_sgs v w := (0, w); vq_get_buf w := (None, w);
  vq_enable_cb w := (true, w); vq_kick_prepare w := (true, w); vq_notify w := (tt, w); wake_ack w := (tt, w);
  is_vmalloc_addr a := false; sgt_alloc n w := (true, w); vmalloc_to_page a w := (true, w); sgt_free w := (tt, w);
  cursor_add v w := (0, w); cursor_kick_prepare w := (true, w); cursor_notify w := (tt, w); cursor_wait w := (tt, w)
}.
#[export] Instance toy_share_arrays : ObjArrays toy_share := {
  objs_unlock l w := (tt, w); objs_add_fence l f w := (tt, w); objs_put_delayed l w := (tt, w)
}.
#[export] Instance toy_share_bo : BoEnv toy_share := {
  kzalloc_buf n w := (true, w); kfree_buf w := (tt, w); dma_sync_for_device a w := (tt, w);
  wake_resp_wq w := (tt, w); hotplug_event w := (tt, w); ida_alloc w := (1, w); ida_free i w := (tt, w);
  drm_gem_shmem_free a w := (tt, w); drm_mm_remove_node s z w := (tt, w); vram_release a w := (tt, w);
  import_release a w := (tt, th_give w (PObj a));
  drm_edid_read_custom s n b w := (1, w); drm_edid_free e w := (tt, w)
}.
#[export] Instance toy_share_pool : PoolApi toy_share := {
  pool_grow id off len w := (0, w); pool_shrink id off len w := (0, w); pool_query_range id off len w := ((0, Some true), w)
}.
#[export] Instance toy_share_vram : VramEnv toy_share := {
  kzalloc_vram w := (None, w); kfree_vram a w := (tt, w); drm_gem_create_mmap_offset w := (0, w);
  drm_gem_object_release a w := (tt, w); kvmalloc_ents n w := (Some 4096, w); kvfree_ents a w := (tt, w);
  drm_mm_insert_node s a w := ((0, 0), w); io_remap_pfn_range ua pfn len prot w := (0, w); sgt_kzalloc w := (true, w);
  sg_alloc_table n w := (0, w); sgt_release w := (tt, w); dma_map_resource pa len w := (None, w);
  dma_unmap_resource a len w := (tt, w); drm_gem_shmem_create n w := (inl (- ENOMEM), w); shmem_pages d a w := (inl (- ENOMEM), w)
}.
#[export] Instance toy_share_submit : SubmitEnv toy_share := {
  kvzalloc_array n w := (None, w); kvfree a w := (tt, w);
  copy_syncobj_desc a n w := (None, w); copy_bo_handles a n w := (None, w); vmemdup_user a n w := (inl (- EFAULT), w);
  drm_syncobj_find_fence h p w := ((- ENOENT, 0), w); dma_fence_leaves w f := [f]; dma_fence_match_context w f c := false;
  dma_fence_wait f w := (0, w); dma_fence_put f w := (tt, w); drm_syncobj_find h w := (None, w); drm_syncobj_put s w := (tt, w);
  drm_syncobj_replace_fence s f w := (tt, w); drm_syncobj_add_point s c f p w := (tt, w);
  dma_fence_chain_alloc w := (None, w); kfree_chain c w := (tt, w); fence_kzalloc w := (Some 15, w);
  event_kzalloc w := (None, w); event_kfree e w := (tt, w); drm_event_reserve_init e w := (0, w);
  get_unused_fd w := (17, w); put_unused_fd n w := (tt, w); fd_install n f w := (tt, w);
  sync_file_create f w := (None, w); sync_file_put f w := (tt, w); sync_file_get_fence n w := (None, w); task_comm w := []
}.
#[export] Instance toy_share_prime : PrimeEnv toy_share := {
  dmabuf_own w b := None; dmabuf_size w b := 8192;
  dmabuf_resv_lock b w := (tt, th_take w (PLock b)); dmabuf_resv_unlock b w := (tt, th_give w (PLock b));
  dma_buf_pin a w := (0, th_take w (PPin a)); dma_buf_unpin a w := (tt, th_give w (PPin a)); dma_resv_wait_kernel a w := (1, w);
  dma_buf_map_attachment a w := (inr (21, [(65536, 4096); (131072, 4096)]), th_take w (PMap a 21));
  dma_buf_unmap_attachment a s w := (tt, th_give w (PMap a s));
  dma_buf_dynamic_attach b o w := (inr 31, th_take w (PAttach b 31)); dma_buf_detach b a w := (tt, th_give w (PAttach b a));
  get_dma_buf b w := (tt, th_take w (PBuf b)); dma_buf_put b w := (tt, th_give w (PBuf b));
  kzalloc_bo w := (Some 400, th_take w (PObj 400)); kfree_bo a w := (tt, th_give w (PObj a));
  drm_gem_private_object_init a n w := (tt, w); drm_gem_prime_import b w := (inl (- ENODEV), w);
  virtio_dma_buf_export a n f w := (inr 41, w); drm_dev_get w := (tt, w);
  drm_gem_map_dma_buf a w := (inr [], w); drm_gem_unmap_dma_buf s w := (tt, w)
}.

Lemma th_gives (w : toy_share) h R : th_held w = {[+ h +]} ⊎ R -> th_held (th_give w h) = R.
Proof. intros E. cbn. rewrite E. multiset_solver. Qed.
#[export] Instance toy_share_quiet : CtrlQuiet th_held.
Proof. by split. Qed.
#[export] Instance toy_share_laws : PrimeLaws toy_share.
Proof.
  refine {| pobs := th_held |}; intros; cbn; first [done | by apply th_gives | multiset_solver].
Defined.

Definition share_dev : vgdev unit := job_dev.
Definition share_features : features := Features false true false false false false 0 None.
Definition share_start : toy_share := ToyShare {[+ PBuf 9 +]}.

Lemma prime_import_roundtrip_witness :
  let '(r, st') := virtgpu_gem_prime_import (fun st => st) (fun st => st) 1 share_features 9 (share_dev, share_start) in
  r = inr 400 /\ import_done 9 {[+ PBuf 9 +]} ∅ (inr 400) st' /\
  import_released (fun st => st) 400 {[+ PBuf 9 +]} ∅ (snd (virtgpu_dma_buf_free_obj (fun st => st) (fun st => st) 1 400 st')).
Proof.
  pose proof (prime_import_roundtrip (fun st => st) (fun st => st) 1 share_features 9 share_dev share_start
    ltac:(done) eq_refl eq_refl ltac:(by intros a [= <-])) as T.
  assert (E : fst (virtgpu_gem_prime_import (fun st => st) (fun st => st) 1 share_features 9 (share_dev, share_start)) = inr 400)
    by (by vm_compute).
  destruct (virtgpu_gem_prime_import _ _ _ _ _ _) as [r st']. cbn [fst] in E. subst r. destruct T as [T1 T2].
  split_and!; [done | exact T1 | by apply (T2 400)].
Defined.

(** what is held after the import, and after the object is freed *)
Example share_run :
  let st1 := snd (virtgpu_gem_prime_import (fun st => st) (fun st => st) 1 share_features 9 (share_dev, share_start)) in
  let st2 := snd (virtgpu_dma_buf_free_obj (fun st => st) (fun st => st) 1 400 st1) in
  let st3 := snd (virtio_gpu_cmd_unref_cb (fun st => st) 400 (0x1100, 0, 0, []) st2) in
  elements (th_held (snd st1)) ≡ₚ [PBuf 9; PBuf 9; PMap 31 21; PAttach 9 31; PObj 400] /\
  elements (th_held (snd st2)) ≡ₚ [PBuf 9; PObj 400] /\ elements (th_held (snd st3)) = [PBuf 9].
Proof. split_and!; vm_compute; solve_Permutation || reflexivity. Qed.

(** an imported object on the sample device *)
Definition shared_bo : gpu_bo := Bo 78 8192 false true true true false 1 2 0 [] None (Some 21) (Some (31, 9)).

Lemma unmap_detaches_first_witness :
  let d := dv_set_bos sample_dev {[ 400 := shared_bo ]} in
  let '(_, (d', w')) := virtgpu_dma_buf_unmap no_sleep 1 400 (d, empty_queue 5) in
  dv_bos d' = <[400 := bo_set_sgt None (bo_set_attached false shared_bo)]> (dv_bos d) /\ length (cq_ring (tq_obs w')) = 1%nat.
Proof.
  intros d. pose proof (unmap_detaches_first no_sleep 1 400 shared_bo 31 9 21 d (empty_queue 5)
    ltac:(done) eq_refl eq_refl eq_refl eq_refl) as T.
  assert (E : length (cq_ring (tq_obs (snd (snd (virtgpu_dma_buf_unmap no_sleep 1 400 (d, empty_queue 5)))))) = 1%nat) by (by vm_compute).
  destruct (fence_kzalloc (empty_queue 5)) as [fa w1] eqn:Ef. cbn in Ef. injection Ef as <- <-.
  destruct (virtgpu_dma_buf_unmap _ _ _ _) as [u [d' w']]. destruct T as (f & d2 & w2 & _ & _ & T). by split.
Defined.
