(* ===== verification/Gem.v ===== *)
(** * GEM handles (virtio_gpu/virtgpu_gem.c, first half)

    Handles for new objects, dumb buffers, and what opening and closing a handle tells the host. *)

From stdpp Require Import gmap.
From S2P Require Import Prelude PoolCtl GuestPool Wire Fence ObjArray CtrlQueue GpuDev GpuCmds VramObj Submit Prime.

Class HandleEnv (W : Type) := {
  drm_gem_handle_create : Z -> ST W (Z * Z);   (* object: result, handle *)
  gem_last_ref : W -> Z -> bool                (* the object's only reference is about to be put *)
}.

(** [struct drm_mode_create_dumb]: what the user asks, and what he gets *)
Record dumb_args := DumbArgs { da_width : Z; da_height : Z; da_bpp : Z }.
Record dumb_result := DumbResult { dr_handle : Z; dr_pitch : Z; dr_size : Z }.

Section Gem.
Context {B W : Type} `{BO : BuddyOps B} `{PA : PoolApi W} `{CE : CtrlEnv W} `{OA : !ObjArrays W} `{BE : !BoEnv W}
  `{GE : GemEnv W} `{VE : !VramEnv W} `{SE : !SubmitEnv W} `{PE : !PrimeEnv W} `{HE : !HandleEnv W}.
Context (sleep : gpu_st W -> gpu_st W) (lock : gp_st B W -> gp_st B W) (fuel : nat).
Abbreviation dev_st := (dev_st B W).
Abbreviation file_st := (file_st (B := B) (W := W)).

(** run an operation of the device on the open file *)
Definition on_dev {A} (m : ST dev_st A) : ST file_st A := fun '(f, st) =>
  let '(a, st1) := m st in (a, (f, st1)).

(** [obj->funcs->free], and [drm_gem_object_put], which calls it with the last reference *)
Definition gem_object_free (a : Z) : ST dev_st unit := fun st =>
  if is_vram_bo (fst st) a then virtio_gpu_vram_free sleep lock fuel a st
  else if is_import_bo (fst st) a then virtgpu_dma_buf_free_obj sleep lock fuel a st
  else virtio_gpu_free_object sleep lock fuel a st.

Definition gem_object_put (a : Z) : ST dev_st unit := fun st =>
  let last := gem_last_ref (snd st) a in
  let '(_, st1) := on_world (drm_gem_object_put a) st in
  if last then gem_object_free a st1 else (tt, st1).

(** the result; the object and its handle *)
Definition virtio_gpu_gem_create (p : object_params) : ST dev_st (Z * option (Z * Z)) := fun st =>
  let '((ret, obj), st1) := virtio_gpu_object_create sleep fuel p None st in
  match obj with
  | None => ((ret, None), st1)
  | Some a =>
      if ret <? 0 then ((ret, None), st1)
      else
        let '((ret, handle), st2) := on_world (drm_gem_handle_create a) st1 in
        if c_true ret then ((ret, None), snd (on_world (drm_gem_object_release a) st2))
        else
          let '(_, st3) := gem_object_put a st2 in ((0, Some (a, handle)), st3)
  end.

(** the object's parameters of a dumb buffer: pitch and size are 32-bit products *)
Definition dumb_pitch (args : dumb_args) : Z := u32 (da_width args * 4).
Definition dumb_size (args : dumb_args) : Z := ALIGN (u32 (dumb_pitch args * da_height args)) PAGE_SIZE.
Definition dumb_params (ft : features) (args : dumb_args) : object_params :=
  let blob := ft_resource_blob ft && negb (ft_virgl_3d ft) in
  ObjParams (dumb_size args) true false blob (virtio_gpu_translate_format VIRTIO_GPU_PRIMARY_FORMAT)
    (da_width args) (da_height args) 0 0 0 0 0 0 0 0
    (if blob then VIRTGPU_BLOB_MEM_GUEST else 0) (if blob then VIRTGPU_BLOB_FLAG_USE_SHAREABLE else 0) 0.

Definition virtio_gpu_mode_dumb_create (ft : features) (args : dumb_args) : ST dev_st (Z * option dumb_result) := fun st =>
  if negb (da_bpp args =? 32) then ((- EINVAL, None), st)
  else
    let '((ret, obj), st1) := virtio_gpu_gem_create (dumb_params ft args) st in
    match obj with
    | Some (_, handle) =>
        if c_true ret then ((ret, None), st1)
        else ((ret, Some (DumbResult handle (dumb_pitch args) (dumb_size args))), st1)
    | None => ((ret, None), st1)
    end.

Definition virtio_gpu_gem_object_open (ft : features) (a : Z) : ST file_st Z := fun st =>
  if negb (ft_virgl_3d ft) then (0, snd (on_dev notify st))
  else
    let st1 := if ft_context_init ft then st else snd (virtio_gpu_create_context sleep fuel st) in
    if fp_context_created (fst st1) then
      let '(objs, st2) := on_dev (on_world (virtio_gpu_array_alloc 1)) st1 in
      match objs with
      | None => (- ENOMEM, st2)
      | Some arr =>
          let '(arr, st3) := on_dev (on_world (virtio_gpu_array_add_obj arr a)) st2 in
          let '(_, st4) := on_dev (virtio_gpu_cmd_context_attach_resource sleep fuel (fp_ctx_id (fst st3)) (oa_objs arr)) st3 in
          (0, snd (on_dev notify st4))
      end
    else (0, snd (on_dev notify st1)).

Definition virtio_gpu_gem_object_close (ft : features) (a : Z) : ST file_st unit := fun st =>
  if negb (ft_virgl_3d ft) || negb (fp_context_created (fst st)) then (tt, st)
  else
    let '(objs, st1) := on_dev (on_world (virtio_gpu_array_alloc 1)) st in
    match objs with
    | None => (tt, st1)
    | Some arr =>
        let '(arr, st2) := on_dev (on_world (virtio_gpu_array_add_obj arr a)) st1 in
        let '(_, st3) := on_dev (virtio_gpu_cmd_context_detach_resource sleep fuel (fp_ctx_id (fst st2)) (oa_objs arr)) st2 in
        on_dev notify st3
    end.

End Gem.
