(* ===== verification/Ioctl.v ===== *)
(** * The ioctls (virtio_gpu/virtgpu_ioctl.c)

    The user interface of the driver except execbuffer: parameters, resources, transfers, waiting,
    capability sets, blobs and the set-up of a context. *)

From stdpp Require Import gmap.
From S2P Require Import Prelude PoolCtl GuestPool Wire Fence ObjArray CtrlQueue GpuDev GpuCmds VramObj Submit Prime Gem.

(** ** The user interface, <drm/virtgpu_drm.h> and virtgpu_drv.h *)

Definition VIRTGPU_PARAM_3D_FEATURES : Z := 1.
Definition VIRTGPU_PARAM_CAPSET_QUERY_FIX : Z := 2.
Definition VIRTGPU_PARAM_RESOURCE_BLOB : Z := 3.
Definition VIRTGPU_PARAM_HOST_VISIBLE : Z := 4.
Definition VIRTGPU_PARAM_CROSS_DEVICE : Z := 5.
Definition VIRTGPU_PARAM_CONTEXT_INIT : Z := 6.
Definition VIRTGPU_PARAM_SUPPORTED_CAPSET_IDs : Z := 7.
Definition VIRTGPU_PARAM_EXPLICIT_DEBUG_NAME : Z := 8.
Definition VIRTGPU_PARAM_CREATE_GUEST_HANDLE : Z := 10.
Definition VIRTGPU_PARAM_GUEST_POOL_TOTAL_KIB : Z := 0x1000.
Definition VIRTGPU_PARAM_GUEST_POOL_USED_KIB : Z := 0x1001.
Definition VIRTGPU_PARAM_GUEST_POOL_LARGEST_FREE_KIB : Z := 0x1002.

Definition VIRTGPU_WAIT_NOWAIT : Z := 1.
Definition VIRTGPU_BLOB_FLAG_USE_MASK : Z :=
  Z.lor VIRTGPU_BLOB_FLAG_USE_MAPPABLE (Z.lor VIRTGPU_BLOB_FLAG_USE_SHAREABLE VIRTGPU_BLOB_FLAG_USE_CROSS_DEVICE).
Definition VIRTGPU_BLOB_FLAG_CREATE_GUEST_HANDLE : Z := 8.

Definition VIRTGPU_CONTEXT_PARAM_CAPSET_ID : Z := 1.
Definition VIRTGPU_CONTEXT_PARAM_NUM_RINGS : Z := 2.
Definition VIRTGPU_CONTEXT_PARAM_POLL_RINGS_MASK : Z := 3.
Definition VIRTGPU_CONTEXT_PARAM_DEBUG_NAME : Z := 4.

Definition MAX_CAPSET_ID : Z := 63.
Definition MAX_RINGS : Z := 64.
Definition DEBUG_NAME_MAX_LEN : Z := 65.
Definition VIRTIO_GPU_CONTEXT_INIT_CAPSET_ID_MASK : Z := 255.
(** [sizeof(struct drm_virtgpu_context_set_param)] *)
Definition sizeof_context_set_param : Z := 16.

(** [struct drm_virtgpu_resource_create] *)
Record resource_create := ResourceCreate {
  rc_target : Z; rc_format : Z; rc_bind : Z; rc_width : Z; rc_height : Z; rc_depth : Z;
  rc_array_size : Z; rc_last_level : Z; rc_nr_samples : Z; rc_flags : Z; rc_size : Z
}.
(** [struct drm_virtgpu_3d_transfer_to_host] and [_from_host] *)
Record transfer := Transfer {
  tr_bo_handle : Z; tr_box : gpu_box; tr_level : Z; tr_offset : Z; tr_stride : Z; tr_layer_stride : Z
}.
(** [struct drm_virtgpu_resource_create_blob] *)
Record create_blob := CreateBlob {
  cb_blob_mem : Z; cb_blob_flags : Z; cb_size : Z; cb_cmd_size : Z; cb_cmd : Z; cb_blob_id : Z
}.
(** [struct drm_virtgpu_get_caps] *)
Record get_caps := GetCaps { gc_set_id : Z; gc_set_ver : Z; gc_addr : Z; gc_size : Z }.
(** [struct drm_virtgpu_resource_info]'s outputs; the memory type only for blobs *)
Record resource_info := ResourceInfo { ri_res_handle : Z; ri_size : Z; ri_blob_mem : option Z }.

Class IoctlEnv (W : Type) := {
  copy_int_to_user : Z -> Z -> ST W bool;           (* address, value; false: a fault *)
  copy_bytes_to_user : Z -> list Z -> ST W bool;
  memdup_user : Z -> Z -> ST W (Z + Z);             (* errno, or the copy's address *)
  memdup_params : Z -> Z -> ST W (Z + Z * list (Z * Z));  (* user address, length in bytes *)
  kfree_params : Z -> ST W unit;
  strncpy_from_user : Z -> Z -> ST W (Z * list Z);  (* address, limit: length or errno, and the bytes *)
  dma_fence_context_alloc : Z -> ST W Z;
  dma_resv_test_signaled : W -> Z -> bool;
  dma_resv_wait_timeout : Z -> ST W Z;
  drm_gem_dumb_map_offset : Z -> ST W (Z * Z)       (* handle: result, offset *)
}.

Definition fp_set_context_init (f : fpriv) (x : Z) : fpriv :=
  Fpriv (fp_ctx_id f) x (fp_context_created f) (fp_num_rings f) (fp_base_fence_ctx f) (fp_ring_idx_mask f)
        (fp_debug_name f) (fp_explicit_debug_name f).
Definition fp_set_rings (f : fpriv) (base n : Z) : fpriv :=
  Fpriv (fp_ctx_id f) (fp_context_init f) (fp_context_created f) n base (fp_ring_idx_mask f)
        (fp_debug_name f) (fp_explicit_debug_name f).
Definition fp_set_ring_idx_mask (f : fpriv) (x : Z) : fpriv :=
  Fpriv (fp_ctx_id f) (fp_context_init f) (fp_context_created f) (fp_num_rings f) (fp_base_fence_ctx f) x
        (fp_debug_name f) (fp_explicit_debug_name f).
Definition fp_set_debug_name (f : fpriv) (name : list Z) : fpriv :=
  Fpriv (fp_ctx_id f) (fp_context_init f) (fp_context_created f) (fp_num_rings f) (fp_base_fence_ctx f)
        (fp_ring_idx_mask f) name true.
Definition bo_set_blob (guest host3d : bool) (mem flags : Z) (b : gpu_bo) : gpu_bo :=
  Bo (bo_hw_res_handle b) (bo_size b) (bo_dumb b) (bo_created b) (bo_attached b) guest host3d mem flags
     (bo_uuid_state b) (bo_uuid b) (bo_vram b) (bo_sgt b) (bo_import b).

(** ** Checks that need no world *)

(** the parameters for the creation, [guest_blob] and [host3d_blob]; [None] is [-EINVAL] *)
Definition verify_blob (ft : features) (vfpriv : fpriv) (rc : create_blob) : option (object_params * bool * bool) :=
  if negb (ft_resource_blob ft) then None
  else if c_true (Z.land (cb_blob_flags rc)
                    (Z.lnot (Z.lor VIRTGPU_BLOB_FLAG_USE_MASK VIRTGPU_BLOB_FLAG_CREATE_GUEST_HANDLE))) then None
  else if c_true (Z.land (cb_blob_flags rc) VIRTGPU_BLOB_FLAG_USE_CROSS_DEVICE) && negb (ft_assign_uuid ft) then None
  else
    let kind := if cb_blob_mem rc =? VIRTGPU_BLOB_MEM_GUEST then Some (true, false)
                else if cb_blob_mem rc =? VIRTGPU_BLOB_MEM_HOST3D_GUEST then Some (true, true)
                else if cb_blob_mem rc =? VIRTGPU_BLOB_MEM_HOST3D then Some (false, true)
                else None in
    match kind with
    | None => None
    | Some (guest_blob, host3d_blob) =>
        let params ctx_id blob_id :=
          ObjParams (cb_size rc) false false true 0 0 0 0 0 0 0 0 0 0 ctx_id (cb_blob_mem rc) (cb_blob_flags rc) blob_id in
        if host3d_blob then
          if negb (ft_virgl_3d ft) then None
          else if negb (cb_cmd_size rc mod 4 =? 0) then None
          else Some (params (fp_ctx_id vfpriv) (cb_blob_id rc), guest_blob, host3d_blob)
        else
          let guest_alloc := c_true (Z.land (cb_blob_flags rc) VIRTGPU_BLOB_FLAG_CREATE_GUEST_HANDLE) in
          if negb (cb_blob_id rc =? 0) && negb guest_alloc then None
          else if negb (cb_cmd_size rc =? 0) then None
          else Some (if guest_alloc then params (fp_ctx_id vfpriv) (cb_blob_id rc) else params 0 0, guest_blob, host3d_blob)
    end.

(** [for (i = 0; i < num_rings; i++) valid_ring_mask |= 1ULL << i] *)
Fixpoint valid_ring_mask (n : nat) : Z :=
  match n with O => 0 | S n' => Z.lor (valid_ring_mask n') (u64 (Z.shiftl 1 (Z.of_nat n'))) end.

(** the first capability set that fits, as its index *)
Fixpoint find_capset (l : list capset) (set_id ver i : Z) : option Z :=
  match l with
  | [] => None
  | c :: l' => if (cs_id c =? set_id) && (cs_max_version c >=? ver) then Some i else find_capset l' set_id ver (i + 1)
  end.

(** ** The ioctls *)

Section Ioctls.
Context {B W : Type} `{BO : BuddyOps B} `{PA : PoolApi W} `{CE : CtrlEnv W} `{OA : !ObjArrays W} `{BE : !BoEnv W}
  `{GE : GemEnv W} `{VE : !VramEnv W} `{SE : !SubmitEnv W} `{PE : !PrimeEnv W} `{HE : !HandleEnv W} `{IE : IoctlEnv W}.
(** [pass]: what happens on the device while an ioctl sleeps for an answer *)
Context (sleep : gpu_st W -> gpu_st W) (lock : gp_st B W -> gp_st B W) (pass : dev_st B W -> dev_st B W) (fuel : nat).
Abbreviation dev_st := (dev_st B W).
Abbreviation file_st := (file_st (B := B) (W := W)).

Definition virtio_gpu_map_ioctl (handle : Z) : ST dev_st (Z * Z) := on_world (drm_gem_dumb_map_offset handle).

(** the value asked for; [None]: no such parameter *)
Definition getparam_value (ft : features) (param : Z) : ST dev_st (option Z) := fun st =>
  let flag (b : bool) := (Some (if b then 1 else 0), st) in
  if param =? VIRTGPU_PARAM_3D_FEATURES then flag (ft_virgl_3d ft)
  else if param =? VIRTGPU_PARAM_CAPSET_QUERY_FIX then (Some 1, st)
  else if param =? VIRTGPU_PARAM_RESOURCE_BLOB then flag (ft_resource_blob ft)
  else if param =? VIRTGPU_PARAM_HOST_VISIBLE then flag (ft_host_visible ft)
  else if param =? VIRTGPU_PARAM_CROSS_DEVICE then flag (ft_assign_uuid ft)
  else if param =? VIRTGPU_PARAM_CONTEXT_INIT then flag (ft_context_init ft)
  else if param =? VIRTGPU_PARAM_SUPPORTED_CAPSET_IDs then (Some (s32 (ft_capset_id_mask ft)), st)
  else if param =? VIRTGPU_PARAM_EXPLICIT_DEBUG_NAME then flag (ft_context_init ft)
  else if param =? VIRTGPU_PARAM_CREATE_GUEST_HANDLE then flag (ft_guest_handle ft)
  else if (param =? VIRTGPU_PARAM_GUEST_POOL_TOTAL_KIB) || (param =? VIRTGPU_PARAM_GUEST_POOL_USED_KIB) ||
          (param =? VIRTGPU_PARAM_GUEST_POOL_LARGEST_FREE_KIB) then
    let '((total, used, largest), st1) := on_pool (virtio_gpu_guest_pool_stats lock) st in
    (Some (s32 (Z.shiftr (if param =? VIRTGPU_PARAM_GUEST_POOL_TOTAL_KIB then total
                          else if param =? VIRTGPU_PARAM_GUEST_POOL_USED_KIB then used else largest) 10)), st1)
  else (None, st).

Definition virtio_gpu_getparam_ioctl (ft : features) (param value_ptr : Z) : ST dev_st Z := fun st =>
  let '(value, st1) := getparam_value ft param st in
  match value with
  | None => (- EINVAL, st1)
  | Some value =>
      let '(ok, st2) := on_world (copy_int_to_user value_ptr value) st1 in
      (if ok then 0 else - EFAULT, st2)
  end.

(** [if (vgdev->has_virgl_3d) virtio_gpu_create_context(dev, file)] *)
Definition file_context (ft : features) (st : file_st) : file_st :=
  if ft_virgl_3d ft then snd (virtio_gpu_create_context sleep fuel st) else st.

(** the parameters of a resource without a 3D renderer; [None] is [-EINVAL] *)
Definition resource_create_params (ft : features) (rc : resource_create) : option object_params :=
  let size := if rc_size rc =? 0 then PAGE_SIZE else rc_size rc in
  if ft_virgl_3d ft then
    Some (ObjParams size false true false (rc_format rc) (rc_width rc) (rc_height rc) (rc_target rc) (rc_bind rc)
            (rc_depth rc) (rc_array_size rc) (rc_last_level rc) (rc_nr_samples rc) (rc_flags rc) 0 0 0 0)
  else if (rc_depth rc >? 1) || (rc_nr_samples rc >? 1) || (rc_last_level rc >? 1) || negb (rc_target rc =? 2) ||
          (rc_array_size rc >? 1) then None
  else Some (ObjParams size false false false (rc_format rc) (rc_width rc) (rc_height rc) 0 0 0 0 0 0 0 0 0 0 0).

(** the result; the resource and the handle *)
Definition virtio_gpu_resource_create_ioctl (ft : features) (rc : resource_create)
  : ST file_st (Z * option (Z * Z)) := fun st =>
  let st1 := file_context ft st in
  match resource_create_params ft rc with
  | None => ((- EINVAL, None), st1)
  | Some params =>
      on_dev (fun st1 =>
        let '(fence, st2) := fence_alloc (main_fence_ctx st1) 0 st1 in
        match fence with
        | None => ((- ENOMEM, None), st2)
        | Some (fa, fence) =>
            let '((ret, obj), st3) := virtio_gpu_object_create sleep fuel params (Some fence) st2 in
            let '(_, st4) := on_world (dma_fence_put fa) st3 in
            match obj with
            | None => ((ret, None), st4)
            | Some a =>
                if ret <? 0 then ((ret, None), st4)
                else
                  let '((ret, handle), st5) := on_world (drm_gem_handle_create a) st4 in
                  if c_true ret then ((ret, None), snd (on_world (drm_gem_object_release a) st5))
                  else
                    let res := handle_of (fst st5) a in
                    ((0, Some (res, handle)), snd (gem_object_put sleep lock fuel a st5))
            end
        end) st1
  end.

Definition virtio_gpu_resource_info_ioctl (bo_handle : Z) : ST dev_st (Z * option resource_info) := fun st =>
  let '(obj, st1) := on_world (drm_gem_object_lookup bo_handle) st in
  match obj with
  | None => ((- ENOENT, None), st1)
  | Some a =>
      let info := match dv_bos (fst st1) !! a with
                  | Some b => Some (ResourceInfo (bo_hw_res_handle b) (bo_size b)
                                      (if bo_host3d_blob b || bo_guest_blob b then Some (bo_blob_mem b) else None))
                  | None => None
                  end in
      ((0, info), snd (gem_object_put sleep lock fuel a st1))
  end.

(** ** Transfers *)

Definition bo_guest_only (d : vgdev B) (a : Z) : bool :=
  from_option (fun b => bo_guest_blob b && negb (bo_host3d_blob b)) false (dv_bos d !! a).
Definition bo_is_host3d (d : vgdev B) (a : Z) : bool := from_option bo_host3d_blob false (dv_bos d !! a).

(** the labels [err_unlock] and [err_put_free] *)
Definition transfer_err_put_free (objs : list Z) (ret : Z) : ST dev_st Z := fun st =>
  (ret, snd (on_world (virtio_gpu_array_put_free (Some objs)) st)).
Definition transfer_err_unlock (objs : list Z) (ret : Z) : ST dev_st Z := fun st =>
  transfer_err_put_free objs ret (snd (on_world (virtio_gpu_array_unlock_resv objs) st)).

(** lock the object, make a fence, and send the command *)
Definition transfer_fenced (objs : list Z) (send : virtio_gpu_fence -> ST dev_st unit) : ST dev_st Z := fun st =>
  let '(ret, st1) := on_world (virtio_gpu_array_lock_resv objs) st in
  if c_true ret then transfer_err_put_free objs ret st1
  else
    let '(fence, st2) := fence_alloc (main_fence_ctx st1) 0 st1 in
    match fence with
    | None => transfer_err_unlock objs (- ENOMEM) st2
    | Some (fa, f) =>
        let '(_, st3) := send f st2 in
        let '(_, st4) := on_world (dma_fence_put fa) st3 in
        (0, snd (notify st4))
    end.

Definition virtio_gpu_transfer_from_host_ioctl (ft : features) (args : transfer) : ST file_st Z := fun st =>
  if negb (ft_virgl_3d ft) then (- ENOSYS, st)
  else
    let '(_, st1) := virtio_gpu_create_context sleep fuel st in
    on_dev (fun st1' =>
      let '(objs, st2) := on_world (virtio_gpu_array_from_handles [tr_bo_handle args]) st1' in
      match objs with
      | None => (- ENOENT, st2)
      | Some objs =>
          let a := obj0 objs in
          if bo_guest_only (fst st2) a then transfer_err_put_free objs (- EINVAL) st2
          else if negb (bo_is_host3d (fst st2) a) && (c_true (tr_stride args) || c_true (tr_layer_stride args))
          then transfer_err_put_free objs (- EINVAL) st2
          else
            transfer_fenced objs (fun f =>
              virtio_gpu_cmd_transfer_from_host_3d sleep fuel (fp_ctx_id (fst st1)) (tr_offset args) (tr_level args)
                (tr_stride args) (tr_layer_stride args) (tr_box args) objs (Some f)) st2
      end) st1.

Definition virtio_gpu_transfer_to_host_ioctl (ft : features) (args : transfer) : ST file_st Z := fun st =>
  let '(objs, st1) := on_dev (on_world (virtio_gpu_array_from_handles [tr_bo_handle args])) st in
  match objs with
  | None => (- ENOENT, st1)
  | Some objs =>
      let a := obj0 objs in
      if bo_guest_only (fst (snd st1)) a then on_dev (transfer_err_put_free objs (- EINVAL)) st1
      else if negb (ft_virgl_3d ft) then
        let box := tr_box args in
        let '(_, st2) := on_dev (virtio_gpu_cmd_transfer_to_host_2d sleep fuel (tr_offset args)
                                   (bx_w box) (bx_h box) (bx_x box) (bx_y box) objs None) st1 in
        (0, snd (on_dev notify st2))
      else
        let '(_, st2) := virtio_gpu_create_context sleep fuel st1 in
        if negb (bo_is_host3d (fst (snd st2)) a) && (c_true (tr_stride args) || c_true (tr_layer_stride args))
        then on_dev (transfer_err_put_free objs (- EINVAL)) st2
        else
          on_dev (transfer_fenced objs (fun f =>
            virtio_gpu_cmd_transfer_to_host_3d sleep fuel (fp_ctx_id (fst st2)) (tr_offset args) (tr_level args)
              (tr_stride args) (tr_layer_stride args) (tr_box args) objs (Some f))) st2
  end.

Definition virtio_gpu_wait_ioctl (handle flags : Z) : ST dev_st Z := fun st =>
  let '(obj, st1) := on_world (drm_gem_object_lookup handle) st in
  match obj with
  | None => (- ENOENT, st1)
  | Some a =>
      let '(ret, st2) := if c_true (Z.land flags VIRTGPU_WAIT_NOWAIT)
                         then (if dma_resv_test_signaled (snd st1) a then 1 else 0, st1)
                         else on_world (dma_resv_wait_timeout a) st1 in
      let ret := if ret =? 0 then - EBUSY else if ret >? 0 then 0 else ret in
      (ret, snd (gem_object_put sleep lock fuel a st2))
  end.

(** ** Capability sets *)

(** wait for the cache entry at [i] to be filled, then copy [size] bytes of it; the entries of the
    cache keep their places *)
Definition get_caps_copy (addr size : Z) (i : nat) : ST dev_st Z := fun st =>
  let st1 := pass st in
  match dv_cap_cache (fst st1) !! i with
  | Some c =>
      if negb (cc_valid c) then (- EBUSY, st1)
      else
        let '(ok, st2) := on_world (copy_bytes_to_user addr (take (Z.to_nat size) (cc_caps c))) st1 in
        (if ok then 0 else - EFAULT, st2)
  | None => (- EBUSY, st1)
  end.

Definition virtio_gpu_get_caps_ioctl (args : get_caps) : ST dev_st Z := fun st =>
  let d := fst st in
  if dv_num_capsets d =? 0 then (- ENOSYS, st)
  else if gc_size args =? 0 then (- EINVAL, st)
  else
    let capsets := take (Z.to_nat (dv_num_capsets d)) (default [] (dv_capsets d)) in
    match find_capset capsets (gc_set_id args) (gc_set_ver args) 0 with
    | None => (- EINVAL, st)
    | Some found_valid =>
        let host_caps_size := cs_max_size (nth (Z.to_nat found_valid) capsets (Capset 0 0 0)) in
        let size := Z.min (gc_size args) host_caps_size in
        match cache_find (dv_cap_cache d) (gc_set_id args) (gc_set_ver args) with
        | Some i => get_caps_copy (gc_addr args) size i st
        | None =>
            let '((ret, entry), st1) := virtio_gpu_cmd_get_capset sleep fuel found_valid (gc_set_ver args) st in
            match entry with
            | None => (ret, st1)
            | Some i =>
                if c_true ret then (ret, st1)
                else get_caps_copy (gc_addr args) size i (snd (notify st1))
            end
        end
    end.

(** ** Blobs *)

(** the object of a verified blob: from the guest pool if there is one, else from memory; or the host's *)
Definition create_blob_object (max_nents max_nents' : Z) (ft : features) (params : object_params)
  (guest_blob host3d_blob : bool) : ST dev_st (Z * option Z) := fun st =>
  if guest_blob then
    if c_true (gp_base (dv_pool (fst st)))
    then virtio_gpu_guest_pool_create sleep lock fuel max_nents max_nents' params st
    else virtio_gpu_object_create sleep fuel params None st
  else if host3d_blob then virtio_gpu_vram_create sleep lock fuel (ft_region ft) params st
  else ((- EINVAL, None), st).

(** the object's end of the ioctl: what kind of blob it is, its UUID, its handle *)
Definition create_blob_publish (rc : create_blob) (guest_blob host3d_blob : bool) (a : Z)
  : ST dev_st (Z * option (Z * Z)) := fun st =>
  let '(_, st1) := on_bo a (bo_set_blob guest_blob host3d_blob (cb_blob_mem rc) (cb_blob_flags rc)) st in
  let '(ret, st2) := if c_true (Z.land (cb_blob_flags rc) VIRTGPU_BLOB_FLAG_USE_CROSS_DEVICE)
                     then virtio_gpu_resource_assign_uuid sleep fuel a st1 else (0, st1) in
  if c_true ret then ((ret, None), snd (gem_object_put sleep lock fuel a st2))
  else
    let '((ret, handle), st3) := on_world (drm_gem_handle_create a) st2 in
    if c_true ret then ((ret, None), snd (gem_object_put sleep lock fuel a st3))
    else
      let res := handle_of (fst st3) a in
      ((0, Some (res, handle)), snd (gem_object_put sleep lock fuel a st3)).

(** the command stream that comes with a blob; the errno of its copy *)
Definition create_blob_cmd (ctx_id : Z) (rc : create_blob) : ST dev_st Z := fun st =>
  if c_true (cb_cmd_size rc) then
    let '(buf, st1) := on_world (memdup_user (cb_cmd rc) (cb_cmd_size rc)) st in
    match buf with
    | inl e => (e, st1)
    | inr b => (0, snd (virtio_gpu_cmd_submit sleep fuel b (cb_cmd_size rc) ctx_id None None st1))
    end
  else (0, st).

(** the result; the resource and the handle *)
Definition virtio_gpu_resource_create_blob_ioctl (max_nents max_nents' : Z) (ft : features) (rc : create_blob)
  : ST file_st (Z * option (Z * Z)) := fun st =>
  match verify_blob ft (fst st) rc with
  | None => ((- EINVAL, None), st)
  | Some (params, guest_blob, host3d_blob) =>
      let st1 := file_context ft st in
      let '(ret, st2) := on_dev (create_blob_cmd (fp_ctx_id (fst st1)) rc) st1 in
      if c_true ret then ((ret, None), st2)
      else
        let '((ret, obj), st3) := on_dev (create_blob_object max_nents max_nents' ft params guest_blob host3d_blob) st2 in
        match obj with
        | None => ((ret, None), st3)
        | Some a => if ret <? 0 then ((ret, None), st3)
                    else on_dev (create_blob_publish rc guest_blob host3d_blob a) st3
        end
  end.

(** ** Contexts *)

(** one (param, value) of the user's list *)
Definition context_param (ft : features) (param value : Z) : ST (fpriv * W) Z := fun '(f, w) =>
  if param =? VIRTGPU_CONTEXT_PARAM_CAPSET_ID then
    if value >? MAX_CAPSET_ID then (- EINVAL, (f, w))
    else if Z.land (ft_capset_id_mask ft) (u64 (Z.shiftl 1 value)) =? 0 then (- EINVAL, (f, w))
    else if c_true (Z.land (fp_context_init f) VIRTIO_GPU_CONTEXT_INIT_CAPSET_ID_MASK) then (- EINVAL, (f, w))
    else (0, (fp_set_context_init f (u32 (Z.lor (fp_context_init f) value)), w))
  else if param =? VIRTGPU_CONTEXT_PARAM_NUM_RINGS then
    if c_true (fp_base_fence_ctx f) then (- EINVAL, (f, w))
    else if value >? MAX_RINGS then (- EINVAL, (f, w))
    else let '(base, w1) := dma_fence_context_alloc value w in (0, (fp_set_rings f base value, w1))
  else if param =? VIRTGPU_CONTEXT_PARAM_POLL_RINGS_MASK then
    if c_true (fp_ring_idx_mask f) then (- EINVAL, (f, w))
    else (0, (fp_set_ring_idx_mask f value, w))
  else if param =? VIRTGPU_CONTEXT_PARAM_DEBUG_NAME then
    if fp_explicit_debug_name f then (- EINVAL, (f, w))
    else
      let '((ret, name), w1) := strncpy_from_user value (DEBUG_NAME_MAX_LEN - 1) w in
      if ret <? 0 then (ret, (f, w1)) else (0, (fp_set_debug_name f name, w1))
  else (- EINVAL, (f, w)).

Fixpoint context_params (ft : features) (l : list (Z * Z)) : ST (fpriv * W) Z := fun st =>
  match l with
  | [] => (0, st)
  | (param, value) :: l' =>
      let '(ret, st1) := context_param ft param value st in
      if c_true ret then (ret, st1) else context_params ft l' st1
  end.

(** the masks fit the rings; else [-EINVAL] *)
Definition ring_mask_ok (f : fpriv) : bool :=
  negb (c_true (fp_ring_idx_mask f)) ||
  negb (c_true (Z.land (Z.lnot (valid_ring_mask (Z.to_nat (fp_num_rings f)))) (fp_ring_idx_mask f))).

(** the part under [context_lock] *)
Definition context_init_locked (ft : features) (l : list (Z * Z)) : ST file_st Z := fun '(f, (d, w)) =>
  if fp_context_created f then (- EEXIST, (f, (d, w)))
  else
    let '(ret, (f1, w1)) := context_params ft l (f, w) in
    if c_true ret then (ret, (f1, (d, w1)))
    else if negb (ring_mask_ok f1) then (- EINVAL, (f1, (d, w1)))
    else
      let '(_, st2) := virtio_gpu_create_context_locked sleep fuel (f1, (d, w1)) in
      (0, snd (on_dev notify st2)).

Definition virtio_gpu_context_init_ioctl (ft : features) (num_params ctx_set_params : Z) : ST file_st Z := fun st =>
  let len := num_params * sizeof_context_set_param in
  if negb (ft_context_init ft) || negb (ft_virgl_3d ft) then (- EINVAL, st)
  else if num_params >? 4 then (- EINVAL, st)
  else
    let '(params, st1) := on_dev (on_world (memdup_params ctx_set_params len)) st in
    match params with
    | inl e => (e, st1)
    | inr (a, l) =>
        let '(ret, st2) := context_init_locked ft l st1 in
        (ret, snd (on_dev (on_world (kfree_params a)) st2))
    end.

End Ioctls.
