(* ===== verification/IoctlProps.v ===== *)
(** * Properties of the ioctls, of GEM handles and of the files' contexts *)

From stdpp Require Import gmap gmultiset.
From S2P Require Import Prelude PoolCtl GuestPool GuestPoolSpec Wire Fence ObjArray CtrlQueue GpuDev GpuCmds GpuProps VramObj VramProps ObjProps Submit SubmitProps Prime PrimeProps Gem Ioctl.

(** ** Contexts *)

Lemma valid_ring_mask_ones n : (n <= 64)%nat -> valid_ring_mask n = Z.ones (Z.of_nat n).
Proof.
  induction n as [|n IH]; intros Hn; [done|]. cbn [valid_ring_mask]. rewrite IH by lia.
  rewrite Z.shiftl_1_l, u64_small by (split; [apply Z.pow_nonneg; lia | apply Z.pow_lt_mono_r; lia]).
  apply Z.bits_inj'. intros i Hi. rewrite Z.lor_spec, Z.pow2_bits_eqb by lia.
  destruct (Z.ltb_spec i (Z.of_nat (S n))).
  - rewrite (Z.ones_spec_low (Z.of_nat (S n))) by lia. destruct (Z.eqb_spec (Z.of_nat n) i); [by rewrite orb_true_r|].
    rewrite Z.ones_spec_low by lia. done.
  - rewrite !Z.ones_spec_high by lia. destruct (Z.eqb_spec (Z.of_nat n) i); [lia | done].
Qed.

(** the rings whose events the file polls all exist *)
Definition rings_polled (f : fpriv) : Prop := forall i, 0 <= i -> Z.testbit (fp_ring_idx_mask f) i = true -> i < fp_num_rings f.
(** there are at most 64 rings, and the capability set chosen is one the device has *)
Definition settings_ok (ft : features) (f : fpriv) : Prop :=
  0 <= fp_num_rings f <= MAX_RINGS /\
  let c := Z.land (fp_context_init f) VIRTIO_GPU_CONTEXT_INIT_CAPSET_ID_MASK in
  fp_context_init f = c /\ (c <> 0 -> c <= MAX_CAPSET_ID /\ Z.testbit (ft_capset_id_mask ft) c = true).

Lemma ring_mask_ok_spec f : 0 <= fp_num_rings f <= MAX_RINGS -> ring_mask_ok f = true <-> rings_polled f.
Proof.
  intros Hn. unfold ring_mask_ok, rings_polled, c_true, MAX_RINGS in *. rewrite !negb_involutive.
  rewrite valid_ring_mask_ones by lia. rewrite Z2Nat.id by lia. split.
  - intros Ho i Hi Ht. apply orb_true_iff in Ho as [Ho|Ho]; apply Z.eqb_eq in Ho; [by rewrite Ho, Z.bits_0 in Ht|].
    destruct (Z.ltb_spec i (fp_num_rings f)); [done|]. exfalso.
    assert (Hf : Z.testbit (Z.land (Z.lnot (Z.ones (fp_num_rings f))) (fp_ring_idx_mask f)) i = false) by (by rewrite Ho, Z.bits_0).
    rewrite Z.land_spec, Z.lnot_spec, Ht, Z.ones_spec_high in Hf by lia. done.
  - intros Hp. apply orb_true_iff. right. apply Z.eqb_eq, Z.bits_inj'. intros i Hi. rewrite Z.bits_0, Z.land_spec.
    destruct (Z.testbit (fp_ring_idx_mask f) i) eqn:Ht; [|apply andb_false_r]. specialize (Hp i Hi Ht).
    by rewrite Z.lnot_spec, Z.ones_spec_low by lia.
Qed.

Section Context_.
Context {W : Type} `{IE : IoctlEnv W}.
Implicit Types (f : fpriv) (w : W).

(** what the user's list may change of a file, apart from its settings *)
Definition same_file f f' : Prop := fp_ctx_id f' = fp_ctx_id f /\ fp_context_created f' = fp_context_created f.

Lemma context_param_keeps ft param value f w : 0 <= value < 2 ^ 64 -> settings_ok ft f ->
  let '(ret, (f', w')) := context_param ft param value (f, w) in settings_ok ft f' /\ same_file f f'.
Proof.
  intros Hv Hs. unfold context_param. assert (Hf : same_file f f) by done.
  case_if.
  - rewrite Z.gtb_ltb. destruct (Z.ltb_spec MAX_CAPSET_ID value) as [?|Hle]; [done|].
    unfold MAX_CAPSET_ID in Hle.
    destruct (Z.eqb_spec (Z.land (ft_capset_id_mask ft) (u64 (Z.shiftl 1 value))) 0) as [|Hm]; [done|].
    destruct (c_true (Z.land (fp_context_init f) VIRTIO_GPU_CONTEXT_INIT_CAPSET_ID_MASK)) eqn:Ec; [done|].
    split; [|done]. destruct Hs as (H1 & H2 & _). cbn. split; [done|]. cbn [fp_context_init fp_set_context_init].
    unfold c_true in Ec. apply negb_false_iff, Z.eqb_eq in Ec. rewrite Ec in H2. rewrite H2, Z.lor_0_l, u32_small by lia.
    change VIRTIO_GPU_CONTEXT_INIT_CAPSET_ID_MASK with (Z.ones 8). rewrite Z.land_ones, Z.mod_small by lia.
    split; [done|]. intros _. split; [done|]. destruct (Z.testbit (ft_capset_id_mask ft) value) eqn:Et; [done|].
    exfalso. apply Hm, Z.bits_inj'. intros i Hi.
    rewrite Z.shiftl_1_l, u64_small by (split; [apply Z.pow_nonneg; lia | apply Z.pow_lt_mono_r; lia]).
    rewrite Z.bits_0, Z.land_spec, Z.pow2_bits_eqb by lia. destruct (Z.eqb_spec value i); [subst; by rewrite Et | apply andb_false_r].
  - case_if.
    + case_if; [done|]. rewrite Z.gtb_ltb. destruct (Z.ltb_spec MAX_RINGS value); [done|].
      destruct (dma_fence_context_alloc value w). split; [|done]. destruct Hs as (H1 & H2). split; [cbn; lia | done].
    + case_if; [by case_if|]. case_if; [|done]. case_if; [done|].
      destruct (strncpy_from_user _ _ w) as [[ret name] w1]. by case_if.
Qed.

Lemma context_params_keeps ft l f w : Forall (fun pv => 0 <= snd pv < 2 ^ 64) l -> settings_ok ft f ->
  let '(ret, (f', w')) := context_params ft l (f, w) in settings_ok ft f' /\ same_file f f'.
Proof.
  intros Hl. revert f w. induction Hl as [|[p v] l Hv _ IH]; intros f w Hs; cbn [context_params]; [done|].
  pose proof (context_param_keeps ft p v f w Hv Hs) as K. destruct (context_param ft p v (f, w)) as [ret [f1 w1]].
  destruct K as [K1 K2]. case_if; [done|]. specialize (IH f1 w1 K1). destruct (context_params ft l (f1, w1)) as [r [f2 w2]].
  destruct IH as [I1 I2]. split; [done|]. destruct K2, I2. split; congruence.
Qed.

End Context_.

(** C19: a context is set up once, and soundly. A call that fails leaves the device alone and creates
    no context; a call that succeeds was supported, had at most four parameters, found no context
    yet, and sends the host one creation, of the capability set and name chosen, in which every
    ring whose events are polled exists. At all times a file has at most 64 rings and a
    capability set the device offers. *)
Theorem context_init_outcome {B W} `{BO : BuddyOps B} `{PA : PoolApi W} `{CE : CtrlEnv W} `{OA : !ObjArrays W}
  `{BE : !BoEnv W} `{SE : !SubmitEnv W} `{IE : IoctlEnv W} sleep n ft num_params ptr f (d : vgdev B) (w : W)
  (Hp : forall a len (w : W), match fst (memdup_params a len w) with
                              | inl e => e <> 0 | inr (_, l) => Forall (fun pv => 0 <= snd pv < 2 ^ 64) l end)
  (Hs : settings_ok ft f) :
  let '(ret, (f', (d', w'))) := virtio_gpu_context_init_ioctl sleep n ft num_params ptr (f, (d, w)) in
  settings_ok ft f' /\ fp_ctx_id f' = fp_ctx_id f /\
  (ret <> 0 -> d' = d /\ fp_context_created f' = fp_context_created f) /\
  (ret = 0 -> ft_context_init ft = true /\ ft_virgl_3d ft = true /\ num_params <= 4 /\
     fp_context_created f = false /\ fp_context_created f' = true /\ rings_polled f' /\
     exists w1, let name := if fp_explicit_debug_name f' then fp_debug_name f' else task_comm w1 in
       d' = fst (snd (notify (snd (virtio_gpu_cmd_context_create sleep n (fp_ctx_id f) (fp_context_init f')
                                     (Z.of_nat (length name)) name (d, w1)))))).
Proof.
  unfold virtio_gpu_context_init_ioctl. destruct (ft_context_init ft) eqn:E1, (ft_virgl_3d ft) eqn:E2; try done.
  cbn [negb orb]. rewrite Z.gtb_ltb. destruct (Z.ltb_spec 4 num_params); [done|].
  unfold on_dev at 1, on_world at 1. specialize (Hp ptr (num_params * sizeof_context_set_param) w).
  destruct (memdup_params _ _ w) as [[e|[a l]] w1]; cbn [fst] in Hp; [done|].
  unfold context_init_locked. destruct (fp_context_created f) eqn:Ec.
  { unfold on_dev, on_world. cbn. destruct (kfree_params a w1). split_and!; [done | done | done | by intros ?]. }
  pose proof (context_params_keeps ft l f w1 Hp Hs) as K. destruct (context_params ft l (f, w1)) as [ret [f1 w2]].
  destruct K as (K1 & K2 & K3). unfold c_true. destruct (Z.eqb_spec ret 0) as [->|Hne]; cbn [negb].
  2:{ unfold on_dev, on_world. cbn. destruct (kfree_params a w2). split_and!; try done. intros _. by rewrite K3. }
  destruct (ring_mask_ok f1) eqn:Em; cbn [negb].
  2:{ unfold on_dev, on_world. cbn. destruct (kfree_params a w2). split_and!; try done. intros _. by rewrite K3. }
  apply ring_mask_ok_spec in Em; [|apply K1]. unfold virtio_gpu_create_context_locked. cbn [snd].
  set (name := if fp_explicit_debug_name f1 then fp_debug_name f1 else task_comm w2).
  unfold on_dev, on_world. cbn [fst snd].
  destruct (virtio_gpu_cmd_context_create sleep n (fp_ctx_id f1) (fp_context_init f1) _ name (d, w2)) as [u st2] eqn:Ex.
  destruct (notify st2) as [u2 [d3 w3]] eqn:En. cbn [snd]. destruct (kfree_params a w3).
  split_and!; [done | done | done|]. intros _. split_and!; [done..|]. exists w2.
  cbn [fp_set_created fp_explicit_debug_name fp_debug_name fp_context_init]. fold name. rewrite <- K2, Ex. cbn [snd]. by rewrite En.
Qed.

(** ** Parameters *)

Definition KiB_of (b : Z) : Z := b / 1024.

Lemma kib_value b : 0 <= b < 2 ^ 41 -> s32 (Z.shiftr b 10) = KiB_of b.
Proof.
  intros Hb. rewrite Z.shiftr_div_pow2 by lia. unfold KiB_of, s32. change (2 ^ 10) with 1024.
  rewrite Z.mod_small; [lia|]. pose proof (Z.div_lt_upper_bound b 1024 (2 ^ 31)). pose proof (Z.div_pos b 1024). lia.
Qed.

(** The three figures of the guest pool are in KiB because the value is an [int], which for bytes
    would overflow at 2 GiB. For a pool smaller than 2 TiB they are exact: the pool's size, the
    sum of its live blocks and the rest, rounded down; without a pool they are zero. From 2 TiB
    on the total does not fit, and 2 TiB itself reads as a negative number. *)
Theorem getparam_pool_figures {B W} `{BL : BuddyLaws B} `{PA : PoolApi W} lock ft param (d : vgdev B) (w : W)
  (Hparam : param = VIRTGPU_PARAM_GUEST_POOL_TOTAL_KIB \/ param = VIRTGPU_PARAM_GUEST_POOL_USED_KIB \/
            param = VIRTGPU_PARAM_GUEST_POOL_LARGEST_FREE_KIB) :
  let '(v, (d', w')) := getparam_value lock ft param (d, w) in
  let p := fst (lock (dv_pool d, w)) in
  let used := blocks_total (mm_live (gp_mm p)) in
  let figure := if param =? VIRTGPU_PARAM_GUEST_POOL_TOTAL_KIB then mm_size (gp_mm p)
                else if param =? VIRTGPU_PARAM_GUEST_POOL_USED_KIB then used else mm_size (gp_mm p) - used in
  (gp_ready (dv_pool d) = false -> v = Some 0 /\ d' = d) /\
  (gp_ready (dv_pool d) = true -> gp_ready p = true -> 0 <= used <= mm_size (gp_mm p) ->
     (mm_size (gp_mm p) < 2 ^ 41 -> v = Some (KiB_of figure)) /\
     (mm_size (gp_mm p) = 2 ^ 41 -> param = VIRTGPU_PARAM_GUEST_POOL_TOTAL_KIB -> v = Some (- 2 ^ 31))).
Proof.
  assert (Hsel : (param =? VIRTGPU_PARAM_3D_FEATURES) = false /\ (param =? VIRTGPU_PARAM_CAPSET_QUERY_FIX) = false /\
    (param =? VIRTGPU_PARAM_RESOURCE_BLOB) = false /\ (param =? VIRTGPU_PARAM_HOST_VISIBLE) = false /\
    (param =? VIRTGPU_PARAM_CROSS_DEVICE) = false /\ (param =? VIRTGPU_PARAM_CONTEXT_INIT) = false /\
    (param =? VIRTGPU_PARAM_SUPPORTED_CAPSET_IDs) = false /\ (param =? VIRTGPU_PARAM_EXPLICIT_DEBUG_NAME) = false /\
    (param =? VIRTGPU_PARAM_CREATE_GUEST_HANDLE) = false /\
    (param =? VIRTGPU_PARAM_GUEST_POOL_TOTAL_KIB) || (param =? VIRTGPU_PARAM_GUEST_POOL_USED_KIB) ||
    (param =? VIRTGPU_PARAM_GUEST_POOL_LARGEST_FREE_KIB) = true) by (destruct Hparam as [->|[->| ->]]; done).
  unfold getparam_value. destruct Hsel as (-> & -> & -> & -> & -> & -> & -> & -> & -> & ->). unfold on_pool, virtio_gpu_guest_pool_stats.
  destruct (gp_ready (dv_pool d)) eqn:Er; cbn [negb].
  2:{ cbv zeta. split; [|done]. intros _. split; [by destruct Hparam as [->|[->| ->]] | by destruct d]. }
  destruct (lock (dv_pool d, w)) as [p w1]. cbn [fst]. cbv zeta. destruct (gp_ready p) eqn:Ep; (split; [done|]); [|done].
  intros _ _ Hused. rewrite buddy_avail_law. set (size := mm_size (gp_mm p)) in *. set (used := blocks_total _) in *.
  replace (size - (size - used)) with used by lia. split.
  - intros Hs. f_equal. rewrite u64_small by lia.
    destruct Hparam as [->|[->| ->]]; cbn [Z.eqb Pos.eqb VIRTGPU_PARAM_GUEST_POOL_TOTAL_KIB VIRTGPU_PARAM_GUEST_POOL_USED_KIB VIRTGPU_PARAM_GUEST_POOL_LARGEST_FREE_KIB];
      apply kib_value; lia.
  - intros -> ->. done.
Qed.

(** ** Capability sets *)

Definition dev_capsets {B} (d : vgdev B) : list capset := take (Z.to_nat (dv_num_capsets d)) (default [] (dv_capsets d)).
Definition capset_at (l : list capset) (i : Z) : capset := nth (Z.to_nat i) l (Capset 0 0 0).

(** each entry of the cache is as large as the set a request of its key would be served from *)
Definition entry_sized {B} (d : vgdev B) (c : cap_cache) : Prop := forall i,
  find_capset (dev_capsets d) (cc_id c) (cc_version c) 0 = Some i -> cc_size c = cs_max_size (capset_at (dev_capsets d) i).
Definition cache_sized {B} (d : vgdev B) : Prop := Forall (entry_sized d) (dv_cap_cache d).

Lemma find_capset_Some l set_id ver k i : find_capset l set_id ver k = Some i ->
  k <= i < k + Z.of_nat (length l) /\ cs_id (capset_at l (i - k)) = set_id /\ ver <= cs_max_version (capset_at l (i - k)).
Proof.
  revert k; induction l as [|c l IH]; intros k; [done|]. cbn [find_capset length].
  destruct ((cs_id c =? set_id) && (cs_max_version c >=? ver)) eqn:E.
  - bool_prop. intros [= <-]. rewrite Z.sub_diag. split; [lia|]. by split.
  - intros Hf. destruct (IH (k + 1) Hf) as (I1 & I2). split; [lia|]. unfold capset_at in *.
    replace (Z.to_nat (i - k)) with (S (Z.to_nat (i - (k + 1)))) by lia. exact I2.
Qed.

(** what happens while an ioctl sleeps: entries are filled and added, nothing else moves *)
Definition pass_keeps {B W} (pass : dev_st B W -> dev_st B W) : Prop := forall st,
  dv_capsets (fst (pass st)) = dv_capsets (fst st) /\ dv_num_capsets (fst (pass st)) = dv_num_capsets (fst st) /\
  (cache_sized (fst st) -> cache_sized (fst (pass st))) /\
  exists more, cache_keys (dv_cap_cache (fst (pass st))) = cache_keys (dv_cap_cache (fst st)) ++ more.

Lemma get_caps_copy_entry {B W} `{IE : IoctlEnv W} (pass : dev_st B W -> dev_st B W) addr size i cid ver (st : dev_st B W) :
  pass_keeps pass -> cache_sized (fst st) -> cache_keys (dv_cap_cache (fst st)) !! i = Some (cid, ver) ->
  let '(ret, (d', w')) := get_caps_copy pass addr size i st in
  cache_sized d' /\ dv_capsets d' = dv_capsets (fst st) /\ dv_num_capsets d' = dv_num_capsets (fst st) /\
  (ret = 0 -> exists c w1, dv_cap_cache d' !! i = Some c /\ cc_valid c = true /\ cc_id c = cid /\ cc_version c = ver /\
     copy_bytes_to_user addr (take (Z.to_nat size) (cc_caps c)) w1 = (true, w')).
Proof.
  intros Hp Hs Hk. destruct (Hp st) as (P1 & P2 & P3 & more & P4). specialize (P3 Hs). unfold get_caps_copy.
  destruct (pass st) as [d1 w1]. cbn [fst snd] in *.
  assert (Hi : cache_keys (dv_cap_cache d1) !! i = Some (cid, ver)) by (rewrite P4; by apply lookup_app_l_Some).
  unfold cache_keys in Hi. rewrite list_lookup_fmap in Hi. destruct (dv_cap_cache d1 !! i) as [c|] eqn:Ec; [|done].
  injection Hi as <- <-. destruct (cc_valid c) eqn:Ev; cbn [negb]; [|by split_and!].
  unfold on_world. destruct (copy_bytes_to_user _ _ w1) as [[] w2] eqn:Ex; (split_and!; [done..|]); [|done].
  intros _. by exists c, w1.
Qed.

(** the bytes a successful query of [args] has copied *)
Definition caps_copied {W} `{IE : IoctlEnv W} (args : get_caps) (cache : list cap_cache) (w' : W) : Prop :=
  exists c w1, c ∈ cache /\ cc_valid c = true /\ cc_id c = gc_set_id args /\ cc_version c = gc_set_ver args /\
    copy_bytes_to_user (gc_addr args) (take (Z.to_nat (Z.min (gc_size args) (cc_size c))) (cc_caps c)) w1 = (true, w').

Lemma get_caps_finish {B W} `{IE : IoctlEnv W} (pass : dev_st B W -> dev_st B W) args i j (d : vgdev B) st :
  pass_keeps pass -> find_capset (dev_capsets d) (gc_set_id args) (gc_set_ver args) 0 = Some i ->
  cache_sized (fst st) -> dev_capsets (fst st) = dev_capsets d ->
  cache_keys (dv_cap_cache (fst st)) !! j = Some (gc_set_id args, gc_set_ver args) ->
  let '(ret, (d', w')) := get_caps_copy pass (gc_addr args) (Z.min (gc_size args) (cs_max_size (capset_at (dev_capsets d) i))) j st in
  cache_sized d' /\ (ret = 0 -> caps_copied args (dv_cap_cache d') w').
Proof.
  intros Hpass Hf S1 S2 S3. set (size := Z.min _ _).
  pose proof (get_caps_copy_entry pass (gc_addr args) size j _ _ st Hpass S1 S3) as G.
  destruct (get_caps_copy _ _ _ _ _) as [ret [d' w']]. destruct G as (G1 & G2 & G3 & G4). split; [done|].
  intros Hr. destruct (G4 Hr) as (c & w1 & C1 & C2 & C3 & C4 & C5). exists c, w1.
  assert (Hc : c ∈ dv_cap_cache d') by (by eapply list_elem_of_lookup_2). split_and!; try done.
  assert (Hd : dev_capsets d' = dev_capsets d) by (rewrite <- S2; unfold dev_capsets; by rewrite G2, G3).
  pose proof (proj1 (Forall_forall _ _) G1 c Hc) as Hz. unfold entry_sized in Hz. rewrite C3, C4, Hd in Hz. by rewrite (Hz i Hf).
Qed.

(** C21: a capability query that succeeds copies to the user the data of the entry with the very
    identifier and version asked for, after the host has filled it, and exactly the smaller of the
    size asked for and the entry's size, so never past the entry. Every entry keeps the size of
    the set it comes from. *)
Theorem get_caps_within_entry {B W} `{CE : CtrlEnv W} `{OA : !ObjArrays W} `{BE : !BoEnv W} `{IE : IoctlEnv W}
  sleep (pass : dev_st B W -> dev_st B W) n args (d : vgdev B) (w : W)
  (Hpass : pass_keeps pass) (Hsized : cache_sized d) (Hver : 0 <= gc_set_ver args < 2 ^ 32)
  (Hn : 0 <= dv_num_capsets d <= Z.of_nat (length (default [] (dv_capsets d)))) (Hlen : dv_num_capsets d < 2 ^ 32) :
  let '(ret, (d', w')) := virtio_gpu_get_caps_ioctl sleep pass n args (d, w) in
  cache_sized d' /\
  (ret = 0 -> caps_copied args (dv_cap_cache d') w').
Proof.
  unfold virtio_gpu_get_caps_ioctl. cbn [fst]. case_if; [done|]. case_if; [done|]. fold (dev_capsets d).
  destruct (find_capset (dev_capsets d) (gc_set_id args) (gc_set_ver args) 0) as [i|] eqn:Hf; [|done].
  pose proof (find_capset_Some _ _ _ _ _ Hf) as (F1 & F2 & F3). rewrite Z.sub_0_r in F2, F3.
  assert (Hlt : 0 <= i < dv_num_capsets d) by (unfold dev_capsets in F1; rewrite length_take in F1; lia).
  fold (capset_at (dev_capsets d) i).
  destruct (cache_find (dv_cap_cache d) (gc_set_id args) (gc_set_ver args)) as [j|] eqn:Hc.
  { apply (get_caps_finish pass args i j d); [done..|]. apply cache_find_Some in Hc as (c & C1 & C2 & C3).
    unfold cache_keys. rewrite list_lookup_fmap. cbn [fst]. rewrite C1. cbn. by rewrite C2, C3. }
  unfold virtio_gpu_cmd_get_capset. rewrite (u32_small i) by lia. rewrite (u32_small (gc_set_ver args)) by lia.
  assert (Hcs : nth (Z.to_nat i) (default [] (dv_capsets d)) (Capset 0 0 0) = capset_at (dev_capsets d) i).
  { unfold capset_at, dev_capsets. rewrite !nth_lookup. f_equal. rewrite lookup_take_lt by lia. done. }
  rewrite Hcs. set (cs := capset_at (dev_capsets d) i) in *. case_if; [done|]. case_if; [done|].
  destruct (kzalloc_buf 0 w) as [[] w1]; cbn [negb]; [|done].
  destruct (kzalloc_buf (cs_max_size cs) w1) as [[] w2]; cbn [negb]; [|done].
  destruct (kzalloc_buf _ w2) as [[] w3]; cbn [negb]; [|done]. rewrite F2, Hc.
  set (c := CapCache _ _ _ _ _). set (d1 := dv_set_cache d (dv_cap_cache d ++ [c])).
  match goal with |- context [issue sleep n ?c0 ?x ?r ?h ?cb ?f ?fe ?s] =>
    destruct (issue_keeps_dev sleep n c0 x r h cb f fe d1 w3) as [g Hg];
    destruct (issue sleep n c0 x r h cb f fe s) as [ret st4] end.
  cbn [fst snd] in Hg. cbn [c_true Z.eqb negb]. destruct st4 as [d4 w4]. cbn [fst] in Hg. subst d4.
  unfold notify, on_queue. destruct (virtio_gpu_notify _) as [u [g' w5]]. cbn [snd].
  apply (get_caps_finish pass args i _ d); [done | done | | done |].
  - unfold cache_sized. cbn [fst dv_set_gpu dv_set_cache dv_cap_cache d1]. apply Forall_app. split; [done|].
    constructor; [|constructor]. intros j. cbn [c cc_id cc_version cc_size]. 
    change (dev_capsets _) with (dev_capsets d). rewrite Hf. by intros [= <-].
  - cbn [fst dv_set_gpu dv_set_cache dv_cap_cache d1]. unfold cache_keys. rewrite fmap_app.
    rewrite lookup_app_r by (rewrite length_fmap; lia). rewrite length_fmap, Nat.sub_diag. done.
Qed.

(** ** Transfers *)

Section Transfers.
Context {B W : Type} `{BO : BuddyOps B} `{PA : PoolApi W} `{CE : CtrlEnv W} `{OA : !ObjArrays W} `{BE : !BoEnv W}
  `{SL : SubmitLaws W}.
Implicit Types (d : vgdev B) (w : W).

(** nothing is held beyond what was *)
Definition all_back w w' : Prop :=
  hobs w' = hobs w /\ go_refs (gobs w') ≡ₚ go_refs (gobs w) /\ go_locked (gobs w') ≡ₚ go_locked (gobs w).
(** the reference of [o] is held on top *)
Definition one_ref o w w' : Prop :=
  hobs w' = hobs w /\ go_refs (gobs w') ≡ₚ o :: go_refs (gobs w) /\ go_locked (gobs w') ≡ₚ go_locked (gobs w).
(** its reservation and a fence as well: what a command takes along *)
Definition one_job o fa w w' : Prop :=
  hobs w' = {[+ HFence fa +]} ⊎ hobs w /\ go_refs (gobs w') ≡ₚ o :: go_refs (gobs w) /\
  go_locked (gobs w') ≡ₚ o :: go_locked (gobs w).

Lemma from_handle_obs h w :
  let '(objs, w') := virtio_gpu_array_from_handles [h] w in
  match objs with None => all_back w w' | Some l => exists o, l = [o] /\ one_ref o w w' end.
Proof.
  pose proof (array_from_handles_obs [h] w) as K. pose proof (from_handles_hobs [h] w) as K1.
  destruct (virtio_gpu_array_from_handles [h] w) as [[l|] w']; cbn [snd] in K1; destruct K as [K2 K3].
  - destruct K3 as [Kl K3]. destruct l as [|o [|]]; try done. exists o. unfold one_ref. by rewrite K2.
  - unfold all_back. by rewrite K2.
Qed.

Lemma put_free_back o w0 w : one_ref o w0 w -> all_back w0 (snd (virtio_gpu_array_put_free (Some [o]) w)).
Proof.
  intros (K1 & K2 & K3). destruct (array_put_free_obs [o] w (go_refs (gobs w0)) K2) as [P1 P2].
  unfold all_back. by rewrite put_free_hobs, P1.
Qed.

Lemma err_put_free_back o ret d w0 w : one_ref o w0 w ->
  let '(r, (d', w')) := transfer_err_put_free [o] ret (d, w) in r = ret /\ d' = d /\ all_back w0 w'.
Proof.
  intros K. unfold transfer_err_put_free, on_world. pose proof (put_free_back o w0 w K) as P.
  destruct (virtio_gpu_array_put_free (Some [o]) w). by split_and!.
Qed.

Lemma transfer_fenced_spec o send d w0 w : one_ref o w0 w ->
  let '(ret, (d', w')) := transfer_fenced [o] send (d, w) in
  (ret <> 0 -> d' = d /\ all_back w0 w') /\
  (ret = 0 -> exists fa f w2, one_job o fa w0 w2 /\
     virtio_gpu_fence_alloc true (g_fence (dv_gpu d)) (fd_context (g_fence (dv_gpu d))) 0 = Some f /\
     (d', w') = snd (notify (snd (on_world (dma_fence_put fa) (snd (send f (d, w2))))))).
Proof.
  intros (K1 & K2 & K3). unfold transfer_fenced, on_world at 1.
  pose proof (array_lock_resv_obs [o] w) as L. pose proof (lock_resv_hobs [o] w) as L1.
  destruct (virtio_gpu_array_lock_resv [o] w) as [ret w1]. cbn [snd] in L1. destruct L as [L2 L3].
  unfold c_true at 1. destruct (Z.eqb_spec ret 0) as [->|Hne]; cbn [negb].
  2:{ pose proof (err_put_free_back o ret d w0 w1) as P. unfold one_ref in P. rewrite L1, L2, L3 in P.
      destruct (transfer_err_put_free [o] ret (d, w1)) as [r [d' w']]. destruct P as (-> & P); [done|]. by split. }
  unfold fence_alloc, main_fence_ctx, on_world at 1. cbn [fst snd].
  pose proof (sl_fence_alloc w1) as A. destruct (fence_kzalloc w1) as [[fa|] w2]; cbn [opt_held] in A; destruct A as [A1 A2].
  - change (bool_decide (is_Some (Some fa))) with true. cbn [virtio_gpu_fence_alloc].
    destruct (send _ (d, w2)) as [u [d3 w3]] eqn:Ex. destruct (on_world (dma_fence_put fa) (d3, w3)) as [u' st4] eqn:Ey.
    destruct (notify st4) as [u'' [d5 w5]] eqn:Ez. cbn [snd]. split; [done|]. intros _. eexists fa, _, w2. split; [unfold one_job; rewrite A1, A2, L1, L2, K1; split_and!; [done | done | rewrite L3; cbn; by rewrite K3]|].
      split; [done|]. cbn [fst] in Ex. rewrite Ex. cbn [snd]. rewrite Ey. cbn [snd]. by rewrite Ez.
  - change (bool_decide (is_Some (@None Z))) with false. cbn [virtio_gpu_fence_alloc]. unfold transfer_err_unlock, on_world. cbn [virtio_gpu_array_unlock_resv].
    assert (Hl : go_locked (gobs w2) ≡ₚ o :: go_locked (gobs w0)) by (rewrite A2, L3; cbn; by rewrite K3).
    destruct (law_resv_unlock o w2 (go_locked (gobs w0)) Hl) as [U1 U2]. pose proof (sl_unlock o w2) as U3.
    destruct (dma_resv_unlock o w2) as [u w3]. cbn [snd] in *.
    pose proof (err_put_free_back o (- ENOMEM) d w0 w3) as P. unfold one_ref in P.
    rewrite U1, A2, L2, U2, U3, A1, L1 in P. cbn [fst snd].
    destruct (transfer_err_put_free [o] _ (d, w3)) as [r [d' w']]. destruct P as (-> & P); [split_and!; [multiset_solver | done..]|].
    by split.
Qed.

(** the two ioctls after the lookup of the object *)
Definition transfer_rest (args : transfer) (o : Z) (send : virtio_gpu_fence -> ST (dev_st B W) unit) : ST (dev_st B W) Z := fun st =>
  if bo_guest_only (fst st) o then transfer_err_put_free [o] (- EINVAL) st
  else if negb (bo_is_host3d (fst st) o) && (c_true (tr_stride args) || c_true (tr_layer_stride args))
  then transfer_err_put_free [o] (- EINVAL) st
  else transfer_fenced [o] send st.

Lemma transfer_rest_spec args o send d w0 w : one_ref o w0 w ->
  let '(ret, (d', w')) := transfer_rest args o send (d, w) in
  (ret <> 0 -> d' = d /\ all_back w0 w') /\
  (ret = 0 -> exists fa fence w2, one_job o fa w0 w2 /\
    virtio_gpu_fence_alloc true (g_fence (dv_gpu d)) (fd_context (g_fence (dv_gpu d))) 0 = Some fence /\
    bo_guest_only d o = false /\ (bo_is_host3d d o = true \/ tr_stride args = 0 /\ tr_layer_stride args = 0) /\
    (d', w') = snd (notify (snd (on_world (dma_fence_put fa) (snd (send fence (d, w2))))))).
Proof.
  intros K. pose proof (err_put_free_back o (- EINVAL) d w0 w K) as P. unfold transfer_rest. cbn [fst].
  destruct (bo_guest_only d o); [by destruct (transfer_err_put_free _ _ _) as [r [d' w']]; destruct P as (-> & P)|].
  destruct (negb _ && _) eqn:Es; [by destruct (transfer_err_put_free _ _ _) as [r [d' w']]; destruct P as (-> & P)|].
  pose proof (transfer_fenced_spec o send d w0 w K) as T. destruct (transfer_fenced [o] send (d, w)) as [ret [d' w']].
  destruct T as [T1 T2]. split; [done|]. intros Hr. destruct (T2 Hr) as (fa & fence & w2 & J1 & J2 & J3).
  exists fa, fence, w2. split_and!; try done. unfold c_true in Es.
  destruct (bo_is_host3d d o), (Z.eqb_spec (tr_stride args) 0), (Z.eqb_spec (tr_layer_stride args) 0); try done; auto.
Qed.

(** a device with 3D, and a file whose context exists *)
Lemma transfer_virgl sleep n (to_host : bool) ft args (f : fpriv) d w :
  ft_virgl_3d ft = true -> fp_context_created f = true ->
  let '(ret, (f', (d', w'))) :=
    (if to_host then virtio_gpu_transfer_to_host_ioctl else virtio_gpu_transfer_from_host_ioctl) sleep n ft args (f, (d, w)) in
  f' = f /\ (ret <> 0 -> d' = d /\ all_back w w') /\
  (ret = 0 -> exists o fa fence w2, one_job o fa w w2 /\
     virtio_gpu_fence_alloc true (g_fence (dv_gpu d)) (fd_context (g_fence (dv_gpu d))) 0 = Some fence /\
     bo_guest_only d o = false /\ (bo_is_host3d d o = true \/ tr_stride args = 0 /\ tr_layer_stride args = 0) /\
     let cmd := if to_host then virtio_gpu_cmd_transfer_to_host_3d (B := B) else virtio_gpu_cmd_transfer_from_host_3d in
     let sent := cmd sleep n (fp_ctx_id f) (tr_offset args) (tr_level args) (tr_stride args)
                   (tr_layer_stride args) (tr_box args) [o] (Some fence) (d, w2) in
     (d', w') = snd (notify (snd (on_world (dma_fence_put fa) (snd sent))))).
Proof.
  intros Hv Hc. pose proof (from_handle_obs (tr_bo_handle args) w) as K.
  assert (Hfin : forall o w1 send r, one_ref o w w1 -> r = (let '(ret, st) := transfer_rest args o send (d, w1) in (ret, (f, st))) ->
    let '(ret, (f', (d', w'))) := r in
    f' = f /\ (ret <> 0 -> d' = d /\ all_back w w') /\
    (ret = 0 -> exists o' fa fence w2, one_job o' fa w w2 /\
      virtio_gpu_fence_alloc true (g_fence (dv_gpu d)) (fd_context (g_fence (dv_gpu d))) 0 = Some fence /\
      bo_guest_only d o' = false /\ (bo_is_host3d d o' = true \/ tr_stride args = 0 /\ tr_layer_stride args = 0) /\
      o' = o /\ (d', w') = snd (notify (snd (on_world (dma_fence_put fa) (snd (send fence (d, w2)))))))).
  { intros o w1 send r K1 ->. pose proof (transfer_rest_spec args o send d w w1 K1) as T.
    destruct (transfer_rest args o send (d, w1)) as [ret [d' w']]. destruct T as [T1 T2]. split_and!; [done..|].
    intros Hr. destruct (T2 Hr) as (fa & fe & w2 & G1 & G2 & G3 & G4 & G5). by exists o, fa, fe, w2. }
  destruct to_host; unfold virtio_gpu_transfer_to_host_ioctl, virtio_gpu_transfer_from_host_ioctl, virtio_gpu_create_context, on_dev, on_world at 1;
    rewrite Hv; cbn [negb fst snd]; try rewrite Hc; unfold on_world at 1;
    (destruct (virtio_gpu_array_from_handles _ w) as [[objs|] w1]; [|by split_and!]);
    destruct K as (o & -> & K); cbn [obj0 nth fst snd]; try rewrite Hc; cbn [fst snd];
    match goal with |- context [transfer_fenced [o] ?s (d, w1)] => specialize (Hfin o w1 s) end;
    match goal with |- match ?r with _ => _ end => specialize (Hfin r K);
      destruct r as [ret [f' [d' w']]] eqn:Er; rewrite <- Er in Hfin end;
    (destruct Hfin as (F1 & F2 & F3);
      [unfold transfer_rest; cbn [fst]; clear; destruct (bo_guest_only d o); [done|]; by destruct (negb (bo_is_host3d d o) && (c_true (tr_stride args) || c_true (tr_layer_stride args)))|]);
    (split_and!; [done..|]); intros Hr; destruct (F3 Hr) as (o' & fa & fe & w2 & G1 & G2 & G3 & G4 & -> & G5);
    exists o, fa, fe, w2; by split_and!.
Qed.

(** a device without 3D *)
Lemma transfer_plain sleep n (to_host : bool) ft args (f : fpriv) d w : ft_virgl_3d ft = false ->
  let '(ret, (f', (d', w'))) :=
    (if to_host then virtio_gpu_transfer_to_host_ioctl else virtio_gpu_transfer_from_host_ioctl) sleep n ft args (f, (d, w)) in
  f' = f /\ (ret <> 0 -> d' = d /\ all_back w w') /\ (to_host = false -> ret = - ENOSYS) /\
  (ret = 0 -> exists o w1, one_ref o w w1 /\ bo_guest_only d o = false /\
     (d', w') = snd (notify (snd (virtio_gpu_cmd_transfer_to_host_2d sleep n (tr_offset args) (bx_w (tr_box args))
       (bx_h (tr_box args)) (bx_x (tr_box args)) (bx_y (tr_box args)) [o] None (d, w1))))).
Proof.
  intros Hv. destruct to_host; [|unfold virtio_gpu_transfer_from_host_ioctl; rewrite Hv; cbn [negb]; by split_and!].
  unfold virtio_gpu_transfer_to_host_ioctl, on_dev, on_world at 1. pose proof (from_handle_obs (tr_bo_handle args) w) as K.
  destruct (virtio_gpu_array_from_handles _ w) as [[objs|] w1]; [|by split_and!]. destruct K as (o & -> & K).
  cbn [obj0 nth fst snd]. rewrite Hv. cbn [negb]. destruct (bo_guest_only d o) eqn:Eg.
  - pose proof (err_put_free_back o (- EINVAL) d w w1 K) as P. destruct (transfer_err_put_free [o] _ (d, w1)) as [r [d' w']].
    by destruct P as (-> & -> & P).
  - destruct (virtio_gpu_cmd_transfer_to_host_2d _ _ _ _ _ _ _ _ _ (d, w1)) as [u st2] eqn:E2. cbn [snd].
    destruct (notify st2) as [u3 [d3 w3]] eqn:E3. cbn [snd]. split_and!; [done | done | done|]. intros _. exists o, w1.
    split_and!; [done | done|]. rewrite E2. cbn [snd]. by rewrite E3.
Qed.

End Transfers.

(** C20: a transfer between guest and host, in either direction, where the device has no 3D or the
    file's context exists already. If it fails, the device is as before and the object's reference,
    its reservation and the fence are all given back; without 3D a transfer from the host always
    fails with ENOSYS. If it succeeds, the object is not a guest-only blob. With 3D, a stride was
    given only for a host blob, and the command was sent with the object, referenced and locked,
    and a fence of the main timeline; without, the 2D command was sent with the object, referenced
    but neither locked nor fenced. *)
Theorem transfer_gives_back {B W} `{BO : BuddyOps B} `{PA : PoolApi W} `{CE : CtrlEnv W} `{OA : !ObjArrays W} `{BE : !BoEnv W}
  `{SL : SubmitLaws W} sleep n (to_host : bool) ft args (f : fpriv) (d : vgdev B) (w : W) :
  (ft_virgl_3d ft = true -> fp_context_created f = true) ->
  let '(ret, (f', (d', w'))) :=
    (if to_host then virtio_gpu_transfer_to_host_ioctl else virtio_gpu_transfer_from_host_ioctl) sleep n ft args (f, (d, w)) in
  f' = f /\ (ret <> 0 -> d' = d /\ all_back w w') /\ (ft_virgl_3d ft || to_host = false -> ret = - ENOSYS) /\
  (ret = 0 -> ft_virgl_3d ft = true -> exists o fa fence w2, one_job o fa w w2 /\
     virtio_gpu_fence_alloc true (g_fence (dv_gpu d)) (fd_context (g_fence (dv_gpu d))) 0 = Some fence /\
     bo_guest_only d o = false /\ (bo_is_host3d d o = true \/ tr_stride args = 0 /\ tr_layer_stride args = 0) /\
     let cmd := if to_host then virtio_gpu_cmd_transfer_to_host_3d (B := B) else virtio_gpu_cmd_transfer_from_host_3d in
     let sent := cmd sleep n (fp_ctx_id f) (tr_offset args) (tr_level args) (tr_stride args)
                   (tr_layer_stride args) (tr_box args) [o] (Some fence) (d, w2) in
     (d', w') = snd (notify (snd (on_world (dma_fence_put fa) (snd sent))))) /\
  (ret = 0 -> ft_virgl_3d ft = false -> exists o w1, one_ref o w w1 /\ bo_guest_only d o = false /\
     (d', w') = snd (notify (snd (virtio_gpu_cmd_transfer_to_host_2d sleep n (tr_offset args) (bx_w (tr_box args))
       (bx_h (tr_box args)) (bx_x (tr_box args)) (bx_y (tr_box args)) [o] None (d, w1))))).
Proof.
  destruct (ft_virgl_3d ft) eqn:Hv; intros Hc.
  2:{ pose proof (transfer_plain sleep n to_host ft args f d w Hv) as P.
      match goal with |- match ?r with _ => _ end => destruct r as [ret [f' [d' w']]] end.
      destruct P as (P1 & P2 & P3 & P4). split_and!; [done | done | done | by intros _ Hf | by intros Hr _; apply P4]. }
  specialize (Hc eq_refl). pose proof (transfer_virgl sleep n to_host ft args f d w Hv Hc) as P.
  match goal with |- match ?r with _ => _ end => destruct r as [ret [f' [d' w']]] end.
  destruct P as (P1 & P2 & P3). split_and!; [done | done | done | by intros Hr _; apply P3 | by intros _ Hf].
Qed.

(** ** Handles *)

(** A dumb buffer, for the sizes the DRM core lets through (a pitch and a product of 32 bits): the
    pitch is four bytes a pixel, the size holds all rows, is a whole number of pages and less than a
    page larger, and the object is asked for with exactly that size. Any other depth than 32 bits is
    refused. *)
Theorem dumb_create_size {B W} `{BO : BuddyOps B} `{PA : PoolApi W} `{CE : CtrlEnv W} `{OA : !ObjArrays W} `{BE : !BoEnv W}
  `{GE : GemEnv W} `{VE : !VramEnv W} `{SE : !SubmitEnv W} `{PE : !PrimeEnv W} `{HE : !HandleEnv W} sleep lock n ft args (d : vgdev B) (w : W)
  (Hw : 0 < da_width args) (Hh : 0 < da_height args) (Hsize : 4 * da_width args * da_height args < 2 ^ 32) :
  let '((ret, r), _) := virtio_gpu_mode_dumb_create sleep lock n ft args (d, w) in
  (da_bpp args <> 32 -> ret = - EINVAL /\ r = None) /\
  forall x, r = Some x -> let bytes := dr_pitch x * da_height args in
    dr_pitch x = 4 * da_width args /\ bytes <= dr_size x < bytes + PAGE_SIZE /\ (PAGE_SIZE | dr_size x) /\
    op_size (dumb_params ft args) = dr_size x /\ shmem_size (dumb_params ft args) = dr_size x.
Proof.
  unfold virtio_gpu_mode_dumb_create. destruct (Z.eqb_spec (da_bpp args) 32) as [Hb|Hb]; cbn [negb]; [|done].
  assert (Hs : let bytes := dumb_pitch args * da_height args in
    dumb_pitch args = 4 * da_width args /\ bytes <= dumb_size args < bytes + PAGE_SIZE /\ (PAGE_SIZE | dumb_size args) /\
    op_size (dumb_params ft args) = dumb_size args /\ shmem_size (dumb_params ft args) = dumb_size args).
  { cbv zeta. unfold dumb_size, dumb_pitch, shmem_size. cbn [dumb_params op_size]. unfold dumb_size, dumb_pitch.
    rewrite (u32_small (da_width args * 4)) by nia. rewrite u32_small by nia.
    change PAGE_SIZE with (2 ^ 12). destruct (ALIGN_no_wrap (da_width args * 4 * da_height args) 12) as [A1 A2]; [lia | nia | nia|].
    split_and!; [lia | lia | lia | done | done|]. rewrite u64_small by (change (2 ^ 12) with 4096 in *; nia).
    destruct A2 as [q ->]. rewrite Z.div_add_l by lia. change ((2 ^ 12 - 1) / 2 ^ 12) with 0. lia. }
  destruct (virtio_gpu_gem_create _ _ _ _ _) as [[ret [[a h]|]] st]; [|done]. case_if; [done|].
  split; [done|]. by intros x [= <-].
Qed.

(** The creation of a handle can fail after the host has been told of the object. The path for
    dumb buffers (and that of the resource ioctl) then drops the GEM core's part of the object
    only: the driver's object stays, with its resource id, and the host is never asked to let the
    resource go. *)
Theorem handle_failure_keeps_object {B W} `{BO : BuddyOps B} `{PA : PoolApi W} `{CE : CtrlEnv W} `{OA : !ObjArrays W} `{BE : !BoEnv W}
  `{GE : GemEnv W} `{VE : !VramEnv W} `{SE : !SubmitEnv W} `{PE : !PrimeEnv W} `{HE : !HandleEnv W} sleep lock n p a (d d1 : vgdev B) (w w1 : W)
  (Hobj : virtio_gpu_object_create sleep n p None (d, w) = ((0, Some a), (d1, w1)))
  (Hfail : fst (fst (drm_gem_handle_create a w1)) <> 0) :
  exists ret, ret <> 0 /\ virtio_gpu_gem_create sleep lock n p (d, w) =
    ((ret, None), (d1, snd (drm_gem_object_release a (snd (drm_gem_handle_create a w1))))).
Proof.
  unfold virtio_gpu_gem_create. rewrite Hobj. change (0 <? 0) with false. cbv iota. unfold on_world at 1.
  destruct (drm_gem_handle_create a w1) as [[ret h] w2]. cbn [fst snd] in *. exists ret. split; [done|].
  unfold c_true. rewrite (proj2 (Z.eqb_neq ret 0) Hfail). cbn [negb]. unfold on_world.
  by destruct (drm_gem_object_release a w2).
Qed.


(** ** Sample worlds *)

#[export] Instance toy_queue_handles : HandleEnv toy_queue := {
  drm_gem_handle_create a w := ((0, 7), w); gem_last_ref w a := negb (a =? 200)
}.
#[export] Instance toy_queue_ioctl : IoctlEnv toy_queue := {
  copy_int_to_user a v w := (true, w); copy_bytes_to_user a l w := (true, w); memdup_user a n w := (inr 4096, w);
  memdup_params a n w := (inr (4096, [(1, 4); (2, 2); (3, 3)]), w); kfree_params a w := (tt, w); strncpy_from_user a n w := ((0, []), w);
  dma_fence_context_alloc n w := (40, w); dma_resv_test_signaled w a := true; dma_resv_wait_timeout a w := (1, w);
  drm_gem_dumb_map_offset h w := ((0, 4096), w)
}.


Definition ctx_features : features := Features true true true true true true 16 None.
Definition ctx_file : fpriv := Fpriv 2 0 false 0 0 0 [] false.

Lemma context_init_outcome_witness :
  let '(ret, (f', (d', w'))) :=
    virtio_gpu_context_init_ioctl no_sleep 1 ctx_features 3 8192 (ctx_file, (sample_dev, empty_queue 5)) in
  ret = 0 /\ fp_context_init f' = 4 /\ fp_num_rings f' = 2 /\ fp_ring_idx_mask f' = 3 /\ settings_ok ctx_features f' /\
  rings_polled f'.
Proof.
  pose proof (context_init_outcome no_sleep 1 ctx_features 3 8192 ctx_file sample_dev (empty_queue 5)) as T.
  assert (E : (fun r => (fst r, fst (snd r))) (virtio_gpu_context_init_ioctl no_sleep 1 ctx_features 3 8192
                (ctx_file, (sample_dev, empty_queue 5))) = (0, Fpriv 2 4 true 2 40 3 [] false)) by (by vm_compute).
  destruct (virtio_gpu_context_init_ioctl _ _ _ _ _ _) as [ret [f' [d' w']]]. cbn [fst snd] in E. injection E as -> ->.
  destruct T as (T1 & T2 & T3 & T4).
  - intros a len w. by repeat constructor.
  - split; [done|]. by split.
  - destruct (T4 eq_refl) as (_ & _ & _ & _ & _ & T5 & _). by split_and!.
Defined.

Lemma getparam_pool_figures_witness :
  let '(v, (d', w')) := getparam_value no_lock_q ctx_features VIRTGPU_PARAM_GUEST_POOL_USED_KIB (sample_dev, empty_queue 5) in
  v = Some (KiB_of (blocks_total (mm_live (gp_mm (dv_pool sample_dev))))) /\
  KiB_of (blocks_total (mm_live (gp_mm (dv_pool sample_dev)))) = 12.
Proof.
  pose proof (getparam_pool_figures no_lock_q ctx_features VIRTGPU_PARAM_GUEST_POOL_USED_KIB sample_dev (empty_queue 5)
                (or_intror (or_introl eq_refl))) as T.
  destruct (getparam_value _ _ _ _) as [v [d' w']]. destruct T as [_ T]. split; [|done].
  destruct (T eq_refl eq_refl) as [T1 _]; [by vm_compute|]. by apply T1.
Defined.

(** the host's answer fills the one entry that is new *)
Definition host_answers (st : dev_st toy_mm toy_queue) : dev_st toy_mm toy_queue :=
  (dv_set_cache (fst st) ((fun c => CapCache (cc_id c) (cc_version c) (cc_size c) (cc_caps c) true) <$> dv_cap_cache (fst st)), snd st).
Lemma host_answers_keeps : pass_keeps host_answers.
Proof.
  intros [d w]. cbn. split_and!; [done | done | |].
  - unfold cache_sized. cbn. intros Hs. apply Forall_fmap. eapply Forall_impl; [exact Hs|]. by intros [].
  - exists []. rewrite app_nil_r. unfold cache_keys. cbn. rewrite <- list_fmap_compose. by apply list_fmap_ext.
Qed.

Lemma get_caps_within_entry_witness :
  let args := GetCaps 4 1 8192 100 in
  let '(ret, (d', w')) := virtio_gpu_get_caps_ioctl no_sleep host_answers 1 args (sample_dev, empty_queue 5) in
  ret = 0 /\ caps_copied args (dv_cap_cache d') w'.
Proof.
  intros args. pose proof (get_caps_within_entry no_sleep host_answers 1 args sample_dev (empty_queue 5) host_answers_keeps) as T.
  assert (E : fst (virtio_gpu_get_caps_ioctl no_sleep host_answers 1 args (sample_dev, empty_queue 5)) = 0) by (by vm_compute).
  destruct (virtio_gpu_get_caps_ioctl _ _ _ _ _) as [ret [d' w']]. cbn [fst] in E. subst ret.
  split; [done|]. apply T; try done; by apply Forall_nil.
Defined.

Lemma transfer_gives_back_witness :
  let args := Transfer 1 (GpuBox 0 0 0 16 16 1) 0 0 0 0 in
  let '(ret, (f', (d', w'))) :=
    virtio_gpu_transfer_to_host_ioctl (fun st => st) 1 ctx_features args (job_file, (job_dev, job_world true)) in
  ret = 0 /\ f' = job_file /\ exists o fa w2, one_job o fa (job_world true) w2.
Proof.
  intros args. pose proof (transfer_gives_back (fun st => st) 1 true ctx_features args job_file job_dev (job_world true) ltac:(done)) as T.
  cbn beta iota in T.
  assert (E : fst (virtio_gpu_transfer_to_host_ioctl (fun st => st) 1 ctx_features args (job_file, (job_dev, job_world true))) = 0)
    by (by vm_compute).
  destruct (virtio_gpu_transfer_to_host_ioctl _ _ _ _ _) as [ret [f' [d' w']]]. cbn [fst] in E. subst ret.
  destruct T as (T1 & _ & _ & T2 & _). split_and!; [done | done|]. destruct (T2 eq_refl eq_refl) as (o & fa & fence & w2 & T3 & _).
  by exists o, fa, w2.
Defined.

Lemma dumb_create_size_witness :
  let args := DumbArgs 1366 768 32 in
  let '((ret, r), _) := virtio_gpu_mode_dumb_create no_sleep no_lock_q 1 ctx_features args (sample_dev, empty_queue 5) in
  ret = 0 /\ exists x, r = Some x /\ dr_pitch x = 5464 /\ (PAGE_SIZE | dr_size x) /\
    shmem_size (dumb_params ctx_features args) = dr_size x.
Proof.
  intros args. pose proof (dumb_create_size no_sleep no_lock_q 1 ctx_features args sample_dev (empty_queue 5)) as T.
  assert (E : fst (virtio_gpu_mode_dumb_create no_sleep no_lock_q 1 ctx_features args (sample_dev, empty_queue 5)) =
    (0, Some (DumbResult 7 5464 4198400))) by (by vm_compute).
  destruct (virtio_gpu_mode_dumb_create _ _ _ _ _ _) as [[ret r] st]. cbn [fst] in E. injection E as -> ->.
  destruct T as [_ T]; [done..|]. destruct (T _ eq_refl) as (T1 & _ & T3 & _ & T5). split; [done|]. eexists.
  split_and!; [done | exact T1 | exact T3 | exact T5].
Defined.

(** a world that has memory for objects, but no more handles *)
Section NoHandles.
#[local] Instance no_handles : HandleEnv toy_queue := {
  drm_gem_handle_create a w := ((- ENOMEM, 0), w); gem_last_ref w a := true
}.

Lemma handle_failure_keeps_object_witness :
  let made := virtio_gpu_object_create no_sleep 1 (dumb_params ctx_features (DumbArgs 64 64 32)) None (sample_dev, empty_queue 5) in
  exists a, fst made = (0, Some a) /\ dv_bos (fst (snd made)) !! a <> None /\
    exists ret w2, ret <> 0 /\ virtio_gpu_gem_create no_sleep no_lock_q 1 (dumb_params ctx_features (DumbArgs 64 64 32))
      (sample_dev, empty_queue 5) = ((ret, None), (fst (snd made), w2)).
Proof.
  intros made. assert (E : fst made = (0, Some 300)) by (by vm_compute).
  assert (Eb : bool_decide (dv_bos (fst (snd made)) !! 300 = None) = false) by (by vm_compute).
  destruct made as [[ret obj] [d1 w1]] eqn:Em. cbn [fst snd] in *. injection E as -> ->. exists 300.
  split; [done|]. split; [by apply bool_decide_eq_false in Eb|].
  destruct (handle_failure_keeps_object no_sleep no_lock_q 1 (dumb_params ctx_features (DumbArgs 64 64 32)) 300
              sample_dev d1 (empty_queue 5) w1 Em) as (r & R1 & R2); [by vm_compute|]. exists r. by eexists.
Defined.
End NoHandles.
