(* ===== verification/PoolLife.v ===== *)
(** * The life of guest-pool blobs

    Creation, release and the host's answers in any order, as steps of the device. Along all of
    them the pool's live blocks are exactly those the objects own and those the host refused to
    let go of, so no block has two owners and none is lost silently. *)

From stdpp Require Import gmap.
From S2P Require Import Prelude PoolCtl GuestPool GuestPoolSpec GuestPoolFacts GuestPoolProps Wire Fence ObjArray CtrlQueue GpuDev GpuCmds GpuProps VramObj ObjProps Submit Prime PrimeProps Gem Ioctl IoctlProps.

(** ** What the objects own *)

Definition bo_blocks (b : gpu_bo) : list block :=
  match bo_vram b with Some v => if vr_guest_pool_owned v then vr_blocks v else [] | None => [] end.
Definition owned_blocks (m : gmap Z gpu_bo) : list block := concat (bo_blocks <$> (map_to_list m).*2).
Definition blocks_at (m : gmap Z gpu_bo) (a : Z) : list block := from_option bo_blocks [] (m !! a).

Lemma concat_perm {A} (l l' : list (list A)) : l ≡ₚ l' -> concat l ≡ₚ concat l'.
Proof.
  induction 1 as [|x l l' _ IH|x y l|l l' l'' _ IH _ IH']; cbn.
  - done.
  - by rewrite IH.
  - by rewrite !app_assoc, (Permutation_app_comm y x).
  - by rewrite IH.
Qed.

Lemma owned_insert m a b : m !! a = None -> owned_blocks (<[a := b]> m) ≡ₚ bo_blocks b ++ owned_blocks m.
Proof.
  intros Ha. unfold owned_blocks. change (bo_blocks b ++ concat (bo_blocks <$> (map_to_list m).*2))
    with (concat (bo_blocks <$> ((a, b) :: map_to_list m).*2)).
  apply concat_perm, fmap_Permutation, fmap_Permutation. by apply map_to_list_insert.
Qed.

Lemma owned_split m a : owned_blocks m ≡ₚ blocks_at m a ++ owned_blocks (delete a m).
Proof.
  unfold blocks_at. destruct (m !! a) as [b|] eqn:E; cbn.
  - rewrite <- (insert_delete_id m a b E) at 1. apply owned_insert, lookup_delete_eq.
  - by rewrite delete_id.
Qed.

Lemma owned_alter m a f : (forall b, bo_blocks (f b) = bo_blocks b) -> owned_blocks (alter f a m) ≡ₚ owned_blocks m.
Proof.
  intros Hf. rewrite (owned_split m a), (owned_split (alter f a m) a), alter_delete_same.
  unfold blocks_at. rewrite lookup_alter_eq. destruct (m !! a); cbn; [by rewrite Hf | done].
Qed.

Section Life.
Context {B W : Type} `{BL : BuddyLaws B} `{PA : PoolApi W} `{HL : !HostLaws W} `{CE : CtrlEnv W} `{OA : !ObjArrays W}
  `{BE : !BoEnv W} `{GE : GemEnv W} `{VE : !VramEnv W}.
Context (sleep : gpu_st W -> gpu_st W) (lock : gp_st B W -> gp_st B W) (n : nat) (max_nents max_nents' : Z).
Implicit Types (d : vgdev B) (w : W) (st : dev_st B W) (lost : list block).

(** the live blocks are those the objects own and the [lost] ones, and no two share a byte *)
Definition pool_ledger lost d : Prop :=
  gp_ready (dv_pool d) = true /\ ready_wf (dv_pool d) /\ apart (mm_live (gp_mm (dv_pool d))) /\
  mm_live (gp_mm (dv_pool d)) ≡ₚ owned_blocks (dv_bos d) ++ lost.

Lemma ledger_eq lost d d' : dv_pool d' = dv_pool d -> owned_blocks (dv_bos d') ≡ₚ owned_blocks (dv_bos d) ->
  pool_ledger lost d -> pool_ledger lost d'.
Proof. unfold pool_ledger. by intros -> ->. Qed.

Lemma ledger_gpu lost d g : pool_ledger lost d -> pool_ledger lost (dv_set_gpu d g).
Proof. by apply ledger_eq. Qed.

Lemma ledger_on_bo lost d a f : (forall b, bo_blocks (f b) = bo_blocks b) -> pool_ledger lost d ->
  pool_ledger lost (dv_upd_bo d a f).
Proof. intros Hf. apply ledger_eq; [done|]. by apply owned_alter. Qed.

Lemma ledger_notify lost st : pool_ledger lost (fst st) -> pool_ledger lost (fst (snd (notify st))).
Proof.
  destruct st as [d w]. unfold notify, on_queue. destruct (virtio_gpu_notify _) as [u [g w1]]. apply ledger_gpu.
Qed.

Lemma ledger_issue lost cmd cx rs hb cb fill fence st : pool_ledger lost (fst st) ->
  pool_ledger lost (fst (snd (issue sleep n cmd cx rs hb cb fill fence st))).
Proof.
  destruct st as [d w]. destruct (issue_keeps_dev sleep n cmd cx rs hb cb fill fence d w) as [g ->]. apply ledger_gpu.
Qed.

(** ** The end of an object *)

Context (Hq : quiet lock).

Lemma release_ledger lost a st : pool_ledger lost (fst st) ->
  let st' := snd (virtio_gpu_guest_pool_release_object lock a st) in
  pool_ledger lost (fst st') /\ blocks_at (dv_bos (fst st')) a = [].
Proof.
  intros HL0. cbv zeta. unfold virtio_gpu_guest_pool_release_object, blocks_at. destruct st as [d w]. cbn [fst] in *.
  destruct (dv_bos d !! a) as [b|] eqn:Eb; [|by cbn; rewrite Eb].
  destruct (bo_vram b) as [v|] eqn:Ev; [|by cbn; rewrite Eb; cbn; unfold bo_blocks; rewrite Ev].
  destruct (vr_guest_pool_owned v) eqn:Eo; cbn [negb].
  2:{ cbn. rewrite Eb. cbn. unfold bo_blocks. by rewrite Ev, Eo. }
  unfold on_bo, on_pool. set (f := bo_set_vram _). set (d1 := dv_upd_bo d a f).
  destruct HL0 as (L1 & L2 & L3 & L4).
  assert (Hb : blocks_at (dv_bos d) a = vr_blocks v) by (unfold blocks_at; rewrite Eb; cbn; unfold bo_blocks; by rewrite Ev, Eo).
  assert (Hd1 : owned_blocks (dv_bos d1) ≡ₚ owned_blocks (delete a (dv_bos d)) /\ from_option bo_blocks [] (dv_bos d1 !! a) = []).
  { cbn. rewrite (owned_split _ a), alter_delete_same. unfold blocks_at. rewrite lookup_alter_eq, Eb. by cbn. }
  destruct Hd1 as [Hd1 Hd2]. rewrite (owned_split _ a), Hb, <- (assoc_L (++)), <- Hd1 in L4.
  destruct (decide (vr_blocks v = [])) as [Hnil|Hne].
  - unfold virtio_gpu_guest_pool_free. rewrite (bool_decide_eq_true_2 _ Hnil), orb_true_r. rewrite Hnil in L4. by split.
  - pose proof (free_live lock (vr_blocks v) _ (dv_pool d1) w Hq L2 L1 Hne L4) as F.
    destruct (virtio_gpu_guest_pool_free _ _ _) as [u [p1 w1]]. destruct F as (F1 & F2 & F3).
    split; [|exact Hd2]. split_and!; [done | done | | exact F3]. cbn [dv_pool dv_set_pool fst snd]. rewrite F3.
    rewrite L4 in L3. by apply apart_app_inv in L3 as [_ L3].
Qed.

Lemma cleanup_ledger lost a st : pool_ledger lost (fst st) ->
  pool_ledger (blocks_at (dv_bos (fst st)) a ++ lost) (fst (snd (virtio_gpu_cleanup_object a st))).
Proof.
  intros (L1 & L2 & L3 & L4). destruct (cleanup_object_state a st) as [C1 C2]. unfold pool_ledger. rewrite C1, C2.
  split_and!; [done..|]. rewrite L4, (owned_split _ a), <- (assoc_L (++)). by rewrite (Permutation_app_swap_app (blocks_at _ _)).
Qed.

Lemma release_cleanup_ledger lost a st : pool_ledger lost (fst st) ->
  pool_ledger lost (fst (snd (virtio_gpu_cleanup_object a (snd (virtio_gpu_guest_pool_release_object lock a st))))).
Proof.
  intros L. destruct (release_ledger lost a st L) as [R1 R2]. pose proof (cleanup_ledger lost a _ R1) as C.
  by rewrite R2 in C.
Qed.

Lemma unref_resource_ledger lost a st : pool_ledger lost (fst st) ->
  pool_ledger lost (fst (snd (virtio_gpu_cmd_unref_resource sleep lock n a st))).
Proof.
  intros L. unfold virtio_gpu_cmd_unref_resource.
  pose proof (ledger_issue lost (ResourceUnref (handle_of (fst st) a)) 0 sizeof_ctrl_hdr false (CbUnref a) id None st L) as Li.
  destruct (issue _ _ _ _ _ _ _ _ _ st) as [[ret|] st1]; cbn [snd] in Li; [|done]. case_if; [|done].
  pose proof (release_cleanup_ledger lost a st1 Li) as R.
  by destruct (virtio_gpu_guest_pool_release_object lock a st1).
Qed.

Lemma vram_free_ledger lost a st : pool_ledger lost (fst st) ->
  pool_ledger lost (fst (snd (virtio_gpu_vram_free sleep lock n a st))).
Proof.
  intros L. unfold virtio_gpu_vram_free. destruct (dv_bos (fst st) !! a) as [b|]; [|done]. case_if; [done|].
  apply ledger_notify, unref_resource_ledger. destruct (bo_vram b) as [v|]; [|done]. case_if; [|done].
  unfold virtio_gpu_cmd_unmap. cbn [snd]. by apply ledger_issue.
Qed.

(** ** The host's answers *)

(** what an answer makes unusable for ever: the blocks of an object whose unref the host refused *)
Definition refused (v : vbuf) (r : response) d : list block :=
  match vb_cb v with
  | CbUnref a =>
      if (resp_type r =? VIRTIO_GPU_RESP_OK_NODATA) || (resp_type r =? VIRTIO_GPU_RESP_ERR_INVALID_RESOURCE_ID)
      then [] else blocks_at (dv_bos d) a
  | _ => []
  end.

Lemma map_info_blocks r v b : bo_vram b = Some v -> bo_blocks (bo_set_vram (map_info_of r v) b) = bo_blocks b.
Proof.
  intros Ev. unfold bo_blocks. rewrite Ev. cbn. unfold map_info_of.
  destruct (resp_type r =? _); cbv zeta; [destruct (c_true _)|]; done.
Qed.

Lemma unref_cb_ledger lost a r st : pool_ledger lost (fst st) ->
  pool_ledger ((if (resp_type r =? VIRTIO_GPU_RESP_OK_NODATA) || (resp_type r =? VIRTIO_GPU_RESP_ERR_INVALID_RESOURCE_ID)
                then [] else blocks_at (dv_bos (fst st)) a) ++ lost) (fst (snd (virtio_gpu_cmd_unref_cb lock a r st))).
Proof. intros L. unfold virtio_gpu_cmd_unref_cb. case_if; [by apply release_cleanup_ledger | by apply cleanup_ledger]. Qed.

Lemma resp_cb_ledger lost v r st : pool_ledger lost (fst st) ->
  pool_ledger (refused v r (fst st) ++ lost) (fst (snd (run_resp_cb lock v r st))).
Proof.
  intros L. unfold refused, run_resp_cb. destruct st as [d w]. cbn [fst] in *.
  destruct (vb_cb v) as [| | | | | | |a]; cycle -1; [apply (unref_cb_ledger lost a r (d, w) L)|..]; cbn [app].
  - done.
  - by apply (ledger_eq lost d).
  - destruct (vb_cmd v); try exact L. unfold virtio_gpu_cmd_get_capset_info_cb. cbn [fst snd].
    destruct (dv_capsets d); [by apply (ledger_eq lost d) | exact L].
  - destruct (vb_cmd v); try exact L. unfold virtio_gpu_cmd_capset_cb. cbn [fst snd].
    destruct (cache_find _ _ _); [by apply (ledger_eq lost d) | exact L].
  - destruct (vb_cmd v); try exact L. unfold virtio_gpu_cmd_get_edid_cb. case_if; [exact L|].
    destruct (drm_edid_read_custom _ _ _ w). by apply (ledger_eq lost d).
  - apply ledger_on_bo; [|done]. intros b. by case_if.
  - apply ledger_on_bo; [|done]. intros b. destruct (bo_vram b) eqn:Ev; [by apply map_info_blocks | done].
Qed.

(** ** Objects that own no blocks *)

(** the ledger, and the object at [a] has no part in it *)
Definition ledger_without lost a d : Prop := pool_ledger lost d /\ blocks_at (dv_bos d) a = [].

Lemma without_on_bo lost a d f : (forall b, bo_blocks (f b) = bo_blocks b) -> ledger_without lost a d ->
  ledger_without lost a (dv_upd_bo d a f).
Proof.
  intros Hf [L1 L2]. split; [by apply ledger_on_bo|]. unfold blocks_at in *. cbn. rewrite lookup_alter_eq.
  destruct (dv_bos d !! a); cbn in *; [by rewrite Hf | done].
Qed.

Lemma without_upd lost a a' d f : (forall b, bo_blocks (f b) = bo_blocks b) -> ledger_without lost a d ->
  ledger_without lost a (dv_upd_bo d a' f).
Proof.
  intros Hf [L1 L2]. split; [by apply ledger_on_bo|]. unfold blocks_at in *. cbn. rewrite lookup_alter.
  case_decide; [|done]. subst. destruct (dv_bos d !! a); cbn in *; [by rewrite Hf | done].
Qed.

Lemma without_add lost a b d w : pool_ledger lost d -> dv_bos d !! a = None -> bo_blocks b = [] ->
  ledger_without lost a (fst (snd (add_bo (W := W) a b (d, w)))).
Proof.
  intros L Ha Hb. split.
  - apply (ledger_eq lost d); [done | | done]. cbn. by rewrite owned_insert, Hb.
  - unfold blocks_at. cbn. by rewrite lookup_insert_eq.
Qed.

Lemma without_drop lost a d w : ledger_without lost a d -> pool_ledger lost (fst (snd (drop_bo (W := W) a (d, w)))).
Proof. intros [L1 L2]. apply (ledger_eq lost d); [done | | done]. cbn. by rewrite (owned_split (dv_bos d) a), L2. Qed.

Lemma without_gpu lost a d g : ledger_without lost a d -> ledger_without lost a (dv_set_gpu d g).
Proof. intros [L1 L2]. by split; [apply ledger_gpu|]. Qed.

Lemma without_issue lost a cmd cx rs hb cb fill fence st : ledger_without lost a (fst st) ->
  ledger_without lost a (fst (snd (issue sleep n cmd cx rs hb cb fill fence st))).
Proof.
  destruct st as [d w]. destruct (issue_keeps_dev sleep n cmd cx rs hb cb fill fence d w) as [g ->]. apply without_gpu.
Qed.

Lemma without_same lost a d d' : dv_pool d' = dv_pool d -> dv_bos d' = dv_bos d -> ledger_without lost a d -> ledger_without lost a d'.
Proof. intros E1 E2 [L1 L2]. split; [by apply (ledger_eq lost d); [|by rewrite E2|] | by rewrite E2]. Qed.

Lemma create_blob_without lost a p ents data st : ledger_without lost a (fst st) ->
  ledger_without lost a (fst (snd (virtio_gpu_cmd_resource_create_blob sleep n a p ents data st))).
Proof.
  intros L. unfold virtio_gpu_cmd_resource_create_blob.
  match goal with |- context [issue sleep n ?c0 ?x ?r ?h ?cb ?f ?fe st] =>
    pose proof (without_issue lost a c0 x r h cb f fe st L) as Li; destruct (issue sleep n c0 x r h cb f fe st) as [ret [d1 w1]] end.
  cbn [fst snd] in Li. unfold on_bo. destruct (c_true _); cbn [fst snd]; repeat (apply without_on_bo; [done|]); done.
Qed.

Lemma resource_id_without lost a st : ledger_without lost a (fst st) ->
  ledger_without lost a (fst (snd (virtio_gpu_resource_id_get st))).
Proof.
  intros L. destruct st as [d w]. pose proof (resource_id_dev d w) as R. destruct (virtio_gpu_resource_id_get _) as [[? ?] [d' w']].
  destruct R. by apply (without_same lost a d).
Qed.

Lemma resource_id_put_same id st : dv_pool (fst (snd (virtio_gpu_resource_id_put (B := B) id st))) = dv_pool (fst st) /\
  dv_bos (fst (snd (virtio_gpu_resource_id_put (B := B) id st))) = dv_bos (fst st).
Proof. destruct st as [d w]. unfold virtio_gpu_resource_id_put. by destruct (dv_virglhack d). Qed.

Lemma attach_without lost a ents data st : ledger_without lost a (fst st) ->
  ledger_without lost a (fst (snd (virtio_gpu_object_attach sleep n a ents data st))).
Proof.
  intros L. unfold virtio_gpu_object_attach. destruct (dv_bos (fst st) !! a) as [b|]; [|done]. case_if; [done|].
  unfold virtio_gpu_cmd_resource_attach_backing.
  match goal with |- context [issue sleep n ?c0 ?x ?r ?h ?cb ?f ?fe st] =>
    pose proof (without_issue lost a c0 x r h cb f fe st L) as Li; destruct (issue sleep n c0 x r h cb f fe st) as [ret [d1 w1]] end.
  by apply without_on_bo.
Qed.

Lemma object_send_without lost p fence a ents data objs st : ledger_without lost a (fst st) ->
  ledger_without lost a (fst (snd (object_create_send sleep n p fence a ents data objs st))).
Proof.
  intros L. unfold object_create_send. case_if.
  - unfold on_bo. destruct st as [d w]. case_if; cbn [snd]; apply create_blob_without; [by apply without_on_bo | done].
  - case_if; unfold virtio_gpu_cmd_resource_create_3d, virtio_gpu_cmd_create_resource;
    match goal with |- context [issue sleep n ?c0 ?x ?r ?h ?cb ?f ?fe st] =>
      pose proof (without_issue lost a c0 x r h cb f fe st L) as Li; destruct (issue sleep n c0 x r h cb f fe st) as [ret [d1 w1]] end;
    cbn [fst snd on_bo] in *; apply attach_without; by apply without_on_bo.
Qed.

Lemma object_create_ledger lost p fence st :
  (forall a, fst (drm_gem_shmem_create (shmem_size p) (snd st)) = inr a -> dv_bos (fst st) !! a = None) ->
  pool_ledger lost (fst st) -> pool_ledger lost (fst (snd (virtio_gpu_object_create sleep n p fence st))).
Proof.
  intros Hnew L. unfold virtio_gpu_object_create. cbn [with_size op_size].
  destruct st as [d w]. unfold on_world at 1. cbn [snd] in Hnew.
  destruct (drm_gem_shmem_create _ w) as [[e|a] w1]; [done|]. cbn [fst] in *.
  pose proof (without_add lost a (new_bo (shmem_size p) None) d w1 L (Hnew a eq_refl) eq_refl) as L1.
  destruct (add_bo a _ (d, w1)) as [u1 st1]. cbn [snd] in L1.
  assert (Hgem : forall ret st, ledger_without lost a (fst st) ->
    pool_ledger lost (fst (snd (object_create_err_free_gem (B := B) a ret st)))).
  { intros ret [d2 w2] L2. unfold object_create_err_free_gem, on_world. destruct (drm_gem_shmem_free a w2). by apply without_drop. }
  assert (Hid : forall id ret st, ledger_without lost a (fst st) ->
    pool_ledger lost (fst (snd (object_create_err_put_id (B := B) a id ret st)))).
  { intros id ret st L2. apply Hgem. destruct (resource_id_put_same id st). by eapply without_same. }
  pose proof (resource_id_without lost a st1 L1) as L2. destruct (virtio_gpu_resource_id_get st1) as [[ret id] [d2 w2]].
  cbn [snd] in L2. case_if; [by apply Hgem|]. unfold on_bo. cbn [fst snd] in L2.
  set (d3 := dv_upd_bo d2 a _). assert (L3 : ledger_without lost a d3) by (by apply without_on_bo). clearbody d3.
  unfold virtio_gpu_object_shmem_init, on_world. destruct (shmem_pages _ a w2) as [[e|segs] w3]; [by apply Hid|].
  destruct (kvmalloc_ents _ w3) as [[data|] w4]; [|by apply Hid].
  destruct (object_create_lock fence a w4) as [[ret2 objs] w5]. case_if.
  - unfold object_create_err_free_entry, on_world. destruct (kvfree_ents data w5). by apply Hid.
  - by apply object_send_without.
Qed.

(** ** Host blobs *)

Lemma on_vram_without lost a f st : (forall v, vr_guest_pool_owned (f v) = vr_guest_pool_owned v /\ vr_blocks (f v) = vr_blocks v) ->
  ledger_without lost a (fst st) -> ledger_without lost a (fst (snd (on_vram (B := B) a f st))).
Proof.
  intros Hf L. destruct st as [d w]. unfold on_vram, on_bo. apply without_on_bo; [|done].
  intros b. unfold bo_blocks. destruct (bo_vram b) as [v|] eqn:Ev; [|by rewrite Ev]. cbn. by destruct (Hf v) as [-> ->].
Qed.

Lemma vram_map_without lost region a st : ledger_without lost a (fst st) ->
  ledger_without lost a (fst (snd (virtio_gpu_vram_map sleep n region a st))).
Proof.
  intros L. unfold virtio_gpu_vram_map. destruct region as [addr|]; [|done]. destruct (dv_bos (fst st) !! a) as [b|]; [|done].
  destruct st as [d w]. unfold on_world at 1. destruct (drm_mm_insert_node _ _ w) as [[ret start] w1]. case_if; [done|].
  pose proof (on_vram_without lost a (vram_set_node start (ALIGN (bo_size b) SZ_2M)) (d, w1) ltac:(done) L) as L1.
  destruct (on_vram a _ (d, w1)) as [u [d1 w2]]. cbn [fst snd] in L1.
  assert (Hrm : forall w', ledger_without lost a (fst (snd (on_vram (B := B) a vram_clear_node (d1, w'))))) by
    (intros w'; by apply on_vram_without).
  unfold on_world. destruct (virtio_gpu_array_alloc 1 w2) as [[arr|] w3].
  2:{ destruct (drm_mm_remove_node _ _ w3). apply Hrm. }
  destruct (virtio_gpu_array_add_obj arr a w3) as [arr' w4]. unfold virtio_gpu_cmd_map. cbn [fst snd].
  destruct (kzalloc_buf _ w4) as [[] w5]; cbn [negb].
  - match goal with |- context [issue sleep n ?c0 ?x ?r ?h ?cb ?f ?fe ?s] =>
      pose proof (without_issue lost a c0 x r h cb f fe s L1) as Li; destruct (issue sleep n c0 x r h cb f fe s) as [ret2 st5] end. done.
  - cbn [c_true]. change (c_true (- ENOMEM)) with true. cbv iota. destruct (virtio_gpu_array_put_free _ w5) as [u2 w6].
    cbn [snd]. destruct (drm_mm_remove_node _ _ w6). apply Hrm.
Qed.

Lemma vram_create_ledger lost region p st :
  (forall a, fst (kzalloc_vram (snd st)) = Some a -> dv_bos (fst st) !! a = None) -> pool_ledger lost (fst st) ->
  pool_ledger lost (fst (snd (virtio_gpu_vram_create sleep lock n region p st))).
Proof.
  intros Hnew L. unfold virtio_gpu_vram_create. destruct st as [d w]. cbn [fst snd] in *. unfold on_world at 1.
  destruct (kzalloc_vram w) as [[a|] w1]; [|done]. cbn [with_size op_size op_blob_flags fst] in *. specialize (Hnew a eq_refl).
  pose proof (without_add lost a (new_bo (ALIGN (op_size p) PAGE_SIZE) (Some vram0)) d w1 L Hnew eq_refl) as L1.
  destruct (add_bo a _ (d, w1)) as [u1 [d1 w2]]. cbn [fst snd] in L1.
  unfold on_world at 1. destruct (drm_gem_create_mmap_offset w2) as [ret w3].
  assert (Hbail : forall st, ledger_without lost a (fst st) ->
    pool_ledger lost (fst (snd (drop_bo (B := B) a (snd (on_world (kfree_vram a) st)))))).
  { intros [d3 w'] L3. unfold on_world. destruct (kfree_vram a w'). by apply without_drop. }
  case_if; [by apply Hbail|].
  pose proof (resource_id_without lost a (d1, w3) L1) as L2. destruct (virtio_gpu_resource_id_get (d1, w3)) as [[ret2 id] [d2 w4]].
  cbn [fst snd] in L2. case_if; [by apply Hbail|]. unfold on_bo at 1.
  set (d3 := dv_upd_bo d2 a _). assert (L3 : ledger_without lost a d3) by (by apply without_on_bo). clearbody d3.
  match goal with |- context [virtio_gpu_cmd_resource_create_blob sleep n a ?p0 [] 0 (d3, w4)] =>
    pose proof (create_blob_without lost a p0 [] 0 (d3, w4) L3) as L4;
    destruct (virtio_gpu_cmd_resource_create_blob sleep n a p0 [] 0 (d3, w4)) as [u5 st5] end. cbn [snd] in L4.
  case_if; [|apply L4]. pose proof (vram_map_without lost region a st5 L4) as L5.
  destruct (virtio_gpu_vram_map _ _ _ a st5) as [ret3 st6]. cbn [snd] in L5. case_if; [apply vram_free_ledger, L5 | apply L5].
Qed.

(** ** The ioctl and the handles *)

Context `{SE : !SubmitEnv W} `{PE : !PrimeEnv W} `{HE : !HandleEnv W} `{IE : IoctlEnv W}.

Lemma free_object_ledger lost a st : blocks_at (dv_bos (fst st)) a = [] -> pool_ledger lost (fst st) ->
  pool_ledger lost (fst (snd (virtio_gpu_free_object sleep lock n a st))).
Proof.
  intros Hb L. unfold virtio_gpu_free_object. destruct (dv_bos (fst st) !! a) as [b|]; [|done].
  case_if; [by apply ledger_notify, unref_resource_ledger|]. pose proof (cleanup_ledger lost a st L) as C. by rewrite Hb in C.
Qed.

(** ** Imported buffers *)

Lemma fence_alloc_without lost a cx ring st : ledger_without lost a (fst st) ->
  ledger_without lost a (fst (snd (fence_alloc (B := B) cx ring st))).
Proof. intros L. unfold fence_alloc, on_world. destruct st as [d w]. by destruct (fence_kzalloc w). Qed.

Lemma notify_without lost a st : ledger_without lost a (fst st) -> ledger_without lost a (fst (snd (notify st))).
Proof. destruct st as [d w]. unfold notify, on_queue. destruct (virtio_gpu_notify _) as [u [g w1]]. apply without_gpu. Qed.

Lemma detach_without lost a a' fence st : ledger_without lost a (fst st) ->
  ledger_without lost a (fst (snd (virtio_gpu_object_detach sleep n a' fence st))).
Proof.
  intros L. unfold virtio_gpu_object_detach. destruct (dv_bos (fst st) !! a') as [b|]; [|done]. case_if; [done|].
  unfold virtio_gpu_cmd_resource_detach_backing.
  match goal with |- context [issue sleep n ?c0 ?x ?r ?h ?cb ?f ?fe st] =>
    pose proof (without_issue lost a c0 x r h cb f fe st L) as Li; destruct (issue sleep n c0 x r h cb f fe st) as [ret [d1 w1]] end.
  by apply without_upd.
Qed.

Lemma unmap_without lost a a' st : ledger_without lost a (fst st) ->
  ledger_without lost a (fst (snd (virtgpu_dma_buf_unmap sleep n a' st))).
Proof.
  intros L. unfold virtgpu_dma_buf_unmap. destruct (dv_bos (fst st) !! a') as [b|]; [|done]. case_if; [done|].
  assert (L1 : ledger_without lost a (fst (snd (virtio_gpu_detach_object_fenced sleep n a' st)))).
  { unfold virtio_gpu_detach_object_fenced. destruct (dv_bos (fst st) !! a'); [|done]. case_if; [done|].
    pose proof (fence_alloc_without lost a (main_fence_ctx st) 0 st L) as L1.
    destruct (fence_alloc _ _ st) as [[[fa f]|] st1]; [|done]. cbn [snd] in L1.
    pose proof (detach_without lost a a' (Some f) st1 L1) as L2. destruct (virtio_gpu_object_detach _ _ _ _ st1) as [u st2].
    pose proof (notify_without lost a st2 L2) as L3. destruct (notify st2) as [u' [d3 w3]]. unfold on_world.
    destruct (dma_fence_wait fa w3) as [r w4]. by destruct (dma_fence_put fa w4). }
  destruct (virtio_gpu_detach_object_fenced _ _ _ st) as [r [d1 w1]]. cbn [fst snd] in L1. unfold on_bo, on_world.
  destruct (bo_import b) as [[attach buf]|], (bo_sgt b) as [s|]; try (by apply without_upd).
  destruct (dma_buf_unmap_attachment attach s w1). by apply without_upd.
Qed.

Lemma dma_free_ledger lost a st : ledger_without lost a (fst st) ->
  pool_ledger lost (fst (snd (virtgpu_dma_buf_free_obj sleep lock n a st))).
Proof.
  intros L. unfold virtgpu_dma_buf_free_obj. destruct (dv_bos (fst st) !! a) as [b|]; [|apply L].
  set (st1 := match bo_import b with Some _ => _ | None => _ end).
  assert (L1 : ledger_without lost a (fst st1)).
  { subst st1. destruct (bo_import b) as [[attach buf]|]; [|done]. destruct st as [d w]. unfold on_world at 1.
    destruct (dmabuf_resv_lock buf w) as [u w1]. pose proof (unmap_without lost a a (d, w1) L) as L1.
    destruct (virtgpu_dma_buf_unmap _ _ _ _) as [u2 [d2 w2]]. unfold on_world. destruct (dmabuf_resv_unlock buf w2) as [u3 w3].
    destruct (dma_buf_detach buf attach w3) as [u4 w4]. by destruct (dma_buf_put buf w4). }
  clearbody st1. destruct L1 as [L1 L2]. case_if; [by apply ledger_notify, unref_resource_ledger|].
  pose proof (cleanup_ledger lost a st1 L1) as C. by rewrite L2 in C.
Qed.

Lemma import_sgt_without lost a attach st : ledger_without lost a (fst st) ->
  ledger_without lost a (fst (snd (virtgpu_dma_buf_import_sgt a attach st))).
Proof.
  intros L. unfold virtgpu_dma_buf_import_sgt, on_world. destruct st as [d w]. destruct (dma_resv_wait_kernel attach w) as [r w1].
  case_if; [done|]. destruct (dma_buf_map_attachment attach w1) as [[e|[s segs]] w2]; [done|].
  destruct (kvmalloc_ents _ w2) as [[data|] w3]; [by apply without_on_bo | by destruct (dma_buf_unmap_attachment _ _ w3)].
Qed.

Lemma init_obj_ledger lost a attach buf st : ledger_without lost a (fst st) ->
  pool_ledger lost (fst (snd (virtgpu_dma_buf_init_obj sleep lock n a attach buf st))).
Proof.
  intros L. unfold virtgpu_dma_buf_init_obj. pose proof (resource_id_without lost a st L) as L1.
  destruct (virtio_gpu_resource_id_get st) as [[ret id] st1]. cbn [snd] in L1. case_if; [by apply dma_free_ledger|].
  assert (Hpin : forall ret st, ledger_without lost a (fst st) -> pool_ledger lost (fst (snd (init_obj_err_pin sleep lock n a buf ret st)))).
  { intros r [d' w'] L'. unfold init_obj_err_pin, on_world. destruct (dmabuf_resv_unlock buf w'). by apply dma_free_ledger. }
  unfold on_bo. destruct st1 as [d1 w1]. set (d2 := dv_upd_bo d1 a _).
  assert (L2 : ledger_without lost a d2) by (by apply without_on_bo). clearbody d2. unfold on_world at 1 2.
  destruct (dmabuf_resv_lock buf w1) as [u w2]. destruct (dma_buf_pin attach w2) as [r w3]. case_if; [by apply Hpin|].
  pose proof (import_sgt_without lost a attach (d2, w3) L2) as L3.
  destruct (virtgpu_dma_buf_import_sgt a attach (d2, w3)) as [[e|[ents data]] st4]; cbn [snd] in L3.
  { unfold init_obj_err_import, on_world. destruct st4 as [d4 w4]. destruct (dma_buf_unpin attach w4). by apply Hpin. }
  pose proof (create_blob_without lost a (import_params (dmabuf_size (snd st4) buf)) ents data st4 L3) as L4.
  destruct (virtio_gpu_cmd_resource_create_blob _ _ _ _ _ _ st4) as [u5 [d5 w5]]. cbn [fst snd] in L4.
  set (d6 := dv_upd_bo d5 a _). assert (L6 : ledger_without lost a d6) by (by apply without_on_bo). clearbody d6.
  unfold on_world. destruct (dma_buf_unpin attach w5) as [u6 w6]. destruct (dmabuf_resv_unlock buf w6). apply L6.
Qed.

Lemma prime_import_ledger lost ft buf st :
  (forall a, fst (kzalloc_bo (snd st)) = Some a -> dv_bos (fst st) !! a = None) -> pool_ledger lost (fst st) ->
  pool_ledger lost (fst (snd (virtgpu_gem_prime_import sleep lock n ft buf st))).
Proof.
  intros Hnew L. unfold virtgpu_gem_prime_import, on_world. destruct st as [d w]. cbn [fst snd] in *.
  destruct (dmabuf_own w buf); [by destruct (drm_gem_object_get z w)|]. case_if; [by destruct (drm_gem_prime_import buf w)|].
  destruct (kzalloc_bo w) as [[a|] w1]; [|done]. specialize (Hnew a eq_refl).
  destruct (drm_gem_private_object_init _ _ w1) as [u2 w2]. destruct (dma_buf_dynamic_attach buf a w2) as [[e|attach] w3].
  { by destruct (kfree_bo a w3). }
  pose proof (without_add lost a (import_bo (dmabuf_size w1 buf) attach buf) d w3 L Hnew eq_refl) as L1.
  destruct (add_bo a _ (d, w3)) as [u4 [d4 w4]]. cbn [fst snd] in L1. destruct (get_dma_buf buf w4) as [u5 w5].
  pose proof (init_obj_ledger lost a attach buf (d4, w5) L1) as L2. by destruct (virtgpu_dma_buf_init_obj _ _ _ _ _ _ _).
Qed.

Lemma move_notify_ledger lost a st : pool_ledger lost (fst st) ->
  pool_ledger lost (fst (snd (virtgpu_dma_buf_move_notify sleep n a st))).
Proof.
  intros L. pose (a0 := fresh (dom (dv_bos (fst st)))). apply (unmap_without lost a0). split; [done|].
  unfold blocks_at. rewrite (proj1 (not_elem_of_dom (dv_bos (fst st)) a0)); [done|]. apply is_fresh.
Qed.

Lemma gem_put_ledger lost a st : pool_ledger lost (fst st) ->
  pool_ledger lost (fst (snd (gem_object_put sleep lock n a st))).
Proof.
  intros L. unfold gem_object_put, on_world. destruct st as [d w]. cbn [fst snd].
  destruct (drm_gem_object_put a w) as [u w1]. case_if; [|done]. unfold gem_object_free. cbn [fst].
  destruct (is_vram_bo d a) eqn:Ev; [by apply vram_free_ledger|].
  assert (Hb : blocks_at (dv_bos d) a = []).
  { unfold is_vram_bo, blocks_at in *. destruct (dv_bos d !! a) as [b|]; [|done]. cbn. unfold bo_blocks.
    destruct (bo_vram b); [|done]. by apply bool_decide_eq_false in Ev as []. }
  case_if; [by apply dma_free_ledger; split | by apply free_object_ledger].
Qed.

Lemma assign_uuid_ledger lost a st : pool_ledger lost (fst st) ->
  pool_ledger lost (fst (snd (virtio_gpu_resource_assign_uuid sleep n a st))).
Proof.
  intros L. unfold virtio_gpu_resource_assign_uuid, on_world. destruct st as [d w]. cbn [fst] in L.
  destruct (virtio_gpu_array_alloc 1 w) as [[arr|] w1]; [|done].
  destruct (virtio_gpu_array_add_obj arr a w1) as [arr' w2]. unfold virtio_gpu_cmd_resource_assign_uuid.
  destruct (kzalloc_buf _ w2) as [[] w3]; cbn [negb]; [by apply ledger_issue | by apply ledger_on_bo].
Qed.

Lemma publish_ledger lost rc guest host3d a st : pool_ledger lost (fst st) ->
  pool_ledger lost (fst (snd (create_blob_publish sleep lock n rc guest host3d a st))).
Proof.
  intros L. unfold create_blob_publish, on_bo at 1. destruct st as [d w]. cbn [fst snd].
  set (d1 := dv_upd_bo d a _). assert (L1 : pool_ledger lost d1) by (by apply ledger_on_bo). clearbody d1.
  assert (Hrest : forall ret st2, pool_ledger lost (fst st2) -> pool_ledger lost (fst (snd
    (if c_true ret then ((ret, None), snd (gem_object_put sleep lock n a st2))
     else
       let '((ret, handle), st3) := on_world (drm_gem_handle_create a) st2 in
       if c_true ret then ((ret, None), snd (gem_object_put sleep lock n a st3))
       else ((0, Some (handle_of (fst st3) a, handle)), snd (gem_object_put sleep lock n a st3)))))).
  { intros ret [d2 w2] L2. case_if; [by apply gem_put_ledger|]. unfold on_world.
    destruct (drm_gem_handle_create a w2) as [[ret2 h] w3]. by case_if; apply gem_put_ledger. }
  destruct (c_true (Z.land _ _)).
  - pose proof (assign_uuid_ledger lost a (d1, w) L1) as L2.
    destruct (virtio_gpu_resource_assign_uuid sleep n a (d1, w)) as [ret st2]. by apply Hrest.
  - by apply (Hrest 0 (d1, w)).
Qed.

(** the addresses the kernel may give for the object of a blob are new *)
Definition fresh_object p st : Prop :=
  (forall a, new_addr lock max_nents p st = Some a -> dv_bos (fst st) !! a = None) /\
  (forall a, fst (drm_gem_shmem_create (shmem_size p) (snd st)) = inr a -> dv_bos (fst st) !! a = None) /\
  (forall a, fst (kzalloc_vram (snd st)) = Some a -> dv_bos (fst st) !! a = None).

Lemma create_context_ledger lost (f : fpriv) st : pool_ledger lost (fst st) ->
  pool_ledger lost (fst (snd (snd (virtio_gpu_create_context sleep n (f, st))))).
Proof.
  intros L. unfold virtio_gpu_create_context, virtio_gpu_create_context_locked, virtio_gpu_cmd_context_create. cbn [fst].
  case_if; [done|]. apply ledger_issue, L.
Qed.

(** the device when the ioctl comes to the object: the context made, the command stream sent *)
Definition before_object ft rc (f : fpriv) st : dev_st B W :=
  snd (create_blob_cmd sleep n (fp_ctx_id (fst (file_context sleep n ft (f, st)))) rc (snd (file_context sleep n ft (f, st)))).

Lemma before_object_ledger lost ft rc f st : pool_ledger lost (fst st) -> pool_ledger lost (fst (before_object ft rc f st)).
Proof.
  intros L. unfold before_object. assert (L1 : pool_ledger lost (fst (snd (file_context sleep n ft (f, st))))).
  { unfold file_context. case_if; [by apply create_context_ledger | done]. }
  destruct (file_context sleep n ft (f, st)) as [f1 [d1 w1]]. cbn [fst snd] in *. unfold create_blob_cmd, on_world. case_if; [|done].
  destruct (memdup_user _ _ w1) as [[e|b] w2]; [done|]. unfold virtio_gpu_cmd_submit. by apply ledger_issue.
Qed.

Context (Hmax : max_nents < 2 ^ 31).

Lemma create_ledger lost p st : 0 < op_size p <= 2 ^ 61 ->
  (forall a, new_addr lock max_nents p st = Some a -> dv_bos (fst st) !! a = None) -> pool_ledger lost (fst st) ->
  pool_ledger lost (fst (snd (virtio_gpu_guest_pool_create sleep lock n max_nents max_nents' p st))).
Proof.
  intros Hs Hnew (L1 & L2 & L3 & L4). destruct st as [d w]. cbn [fst] in *.
  pose proof (guest_pool_create_spec sleep lock n max_nents max_nents' p d w Hq L2 Hs Hmax Hnew) as C.
  destruct (virtio_gpu_guest_pool_create _ _ _ _ _ _ _) as [[ret [a|]] [d' w']]; destruct C as (C1 & C2 & C).
  - destruct C as (_ & C3 & b & blocks & C4 & C5 & _ & (_ & _ & _ & C6) & C7). cbn [fst snd].
    unfold pool_ledger. rewrite C4, C7. split_and!; [congruence | done | by apply C6|].
    rewrite owned_insert by done. unfold bo_blocks. rewrite C5. cbn [pool_vram vr_guest_pool_owned vr_blocks].
    by rewrite L4, (assoc_L (++)).
  - destruct C as (_ & C3 & C4). unfold pool_ledger. cbn [fst snd]. rewrite C3, C4. split_and!; [congruence | done..].
Qed.


Lemma blob_object_ledger lost ft p guest host3d st : 0 < op_size p <= 2 ^ 61 -> fresh_object p st -> pool_ledger lost (fst st) ->
  pool_ledger lost (fst (snd (create_blob_object sleep lock n max_nents max_nents' ft p guest host3d st))).
Proof.
  intros Hs (F1 & F2 & F3) L. unfold create_blob_object.
  repeat case_if; first [by apply create_ledger | by apply object_create_ledger | by apply vram_create_ledger | done].
Qed.

Lemma blob_ioctl_ledger lost ft rc (f : fpriv) st : 0 < cb_size rc <= 2 ^ 61 ->
  (forall p g h, verify_blob ft f rc = Some (p, g, h) -> fresh_object p (before_object ft rc f st)) ->
  pool_ledger lost (fst st) ->
  pool_ledger lost (fst (snd (snd (virtio_gpu_resource_create_blob_ioctl sleep lock n max_nents max_nents' ft rc (f, st))))).
Proof.
  intros Hs Hfresh L. pose proof (before_object_ledger lost ft rc f st L) as L2.
  unfold virtio_gpu_resource_create_blob_ioctl. cbn [fst]. destruct (verify_blob ft f rc) as [[[p guest] host3d]|] eqn:Ev; [|done].
  specialize (Hfresh p guest host3d eq_refl). assert (Hp : op_size p = cb_size rc).
  { unfold verify_blob in Ev. by repeat case_match; simplify_eq. }
  unfold before_object in *.
  destruct (file_context sleep n ft (f, st)) as [f1 st1].
  cbn [fst snd] in *. unfold on_dev. destruct (create_blob_cmd _ _ _ rc st1) as [ret st2]. cbn [snd] in *. case_if; [done|].
  pose proof (blob_object_ledger lost ft p guest host3d st2 ltac:(lia) Hfresh L2) as L3.
  destruct (create_blob_object _ _ _ _ _ _ _ _ _ st2) as [[ret2 [a|]] st3]; [|done]. case_if; [done|].
  pose proof (publish_ledger lost rc guest host3d a st3 L3) as L4. by destruct (create_blob_publish _ _ _ _ _ _ _ st3).
Qed.

(** ** Runs *)

Inductive life_step : list block -> dev_st B W -> dev_st B W -> Prop :=
| LifeBlob ft rc f st : 0 < cb_size rc <= 2 ^ 61 ->
    (forall p g h, verify_blob ft f rc = Some (p, g, h) -> fresh_object p (before_object ft rc f st)) ->
    life_step [] st (snd (snd (virtio_gpu_resource_create_blob_ioctl sleep lock n max_nents max_nents' ft rc (f, st))))
| LifeImport ft buf st : (forall a, fst (kzalloc_bo (snd st)) = Some a -> dv_bos (fst st) !! a = None) ->
    life_step [] st (snd (virtgpu_gem_prime_import sleep lock n ft buf st))
| LifeMoved a st : life_step [] st (snd (virtgpu_dma_buf_move_notify sleep n a st))
| LifePut a st : life_step [] st (snd (gem_object_put sleep lock n a st))
| LifeAnswer v r st : life_step (refused v r (fst st)) st (snd (run_resp_cb lock v r st)).

Inductive life_run : list block -> dev_st B W -> dev_st B W -> Prop :=
| life_nil st : life_run [] st st
| life_cons x y st st1 st2 : life_step x st st1 -> life_run y st1 st2 -> life_run (y ++ x) st st2.

Lemma life_step_ledger lost x st st' : life_step x st st' -> pool_ledger lost (fst st) -> pool_ledger (x ++ lost) (fst st').
Proof. destruct 1; intros L; [by apply blob_ioctl_ledger | by apply prime_import_ledger | by apply move_notify_ledger | by apply gem_put_ledger | by apply resp_cb_ledger]. Qed.

Lemma life_run_ledger lost x st st' : life_run x st st' -> pool_ledger lost (fst st) -> pool_ledger (x ++ lost) (fst st').
Proof.
  intros R. revert lost. induction R as [|x y st st1 st2 Hs _ IH]; intros lost L; [done|].
  rewrite <- (assoc_L (++)). eapply IH, life_step_ledger; done.
Qed.

End Life.

Lemma apart_cross l1 l2 x y : apart (l1 ++ l2) -> x ∈ l1 -> y ∈ l2 -> overlaps x y = false.
Proof.
  unfold apart. induction l1 as [|k l1 IH]; intros A Hx Hy; [by apply elem_of_nil in Hx|].
  cbn in A. inversion A as [|? ? A1 A2]; subst. apply elem_of_cons in Hx as [->|Hx]; [|by apply IH].
  rewrite Forall_forall in A1. apply A1, elem_of_app. by right.
Qed.

Lemma ledger_apart {B W} `{BL : BuddyLaws B} `{PA : PoolApi W} `{HL : !HostLaws W} lost (d : vgdev B) a1 a2 x y :
  pool_ledger lost d -> a1 <> a2 -> x ∈ blocks_at (dv_bos d) a1 -> y ∈ blocks_at (dv_bos d) a2 -> overlaps x y = false.
Proof.
  intros (_ & _ & A & L) Hne Hx Hy. rewrite L, (owned_split _ a1), <- (assoc_L (++)) in A.
  eapply apart_cross; [exact A | exact Hx|]. apply elem_of_app. left.
  rewrite (owned_split _ a2). apply elem_of_app. left. unfold blocks_at. by rewrite lookup_delete_ne.
Qed.

(** C2: take any sequence of blob-creation ioctls, of imports of foreign buffers and their moves, of
    references put, with the release of the object where it was the last, and of answers of the
    host, in any order, repeated or unsolicited. The
    pool's live blocks stay exactly the blocks its objects own and those whose release the host
    refused; they stay inside the backed part; no two share a byte. In particular no block is
    owned by two objects, freed while owned, or lost without a refusal. *)
Theorem pool_blocks_one_owner {B W} `{BL : BuddyLaws B} `{PA : PoolApi W} `{HL : !HostLaws W} `{CE : CtrlEnv W}
  `{OA : !ObjArrays W} `{BE : !BoEnv W} `{GE : GemEnv W} `{VE : !VramEnv W} `{SE : !SubmitEnv W} `{PE : !PrimeEnv W} `{HE : !HandleEnv W}
  `{IE : IoctlEnv W} sleep lock n max_nents max_nents' lost (d d' : vgdev B) (w w' : W)
  (Hq : quiet lock) (Hmax : max_nents < 2 ^ 31) (Hrun : life_run sleep lock n max_nents max_nents' lost (d, w) (d', w'))
  (Hready : gp_ready (dv_pool d) = true) (Hwf : pool_wf (dv_pool d)) (Hapart : apart (mm_live (gp_mm (dv_pool d))))
  (Hlive : mm_live (gp_mm (dv_pool d)) ≡ₚ owned_blocks (dv_bos d)) :
  mm_live (gp_mm (dv_pool d')) ≡ₚ owned_blocks (dv_bos d') ++ lost /\
  Forall (block_in 0 (gp_backed (dv_pool d'))) (mm_live (gp_mm (dv_pool d'))) /\
  apart (mm_live (gp_mm (dv_pool d'))) /\
  forall a1 a2 x y, a1 <> a2 -> x ∈ blocks_at (dv_bos d') a1 -> y ∈ blocks_at (dv_bos d') a2 -> overlaps x y = false.
Proof.
  assert (L : pool_ledger [] d) by (split_and!; [done | by intros _ | done | by rewrite app_nil_r]).
  pose proof (life_run_ledger sleep lock n max_nents max_nents' Hq Hmax [] lost (d, w) (d', w') Hrun L) as L'.
  rewrite app_nil_r in L'. cbn [fst] in L'. pose proof L' as (L1 & L2 & L3 & L4).
  split_and!; [done | apply wf_live; by apply L2 | done|]. intros a1 a2 x y. by eapply ledger_apart.
Qed.

(** ** A run: one blob is created, two are released, of which the host refuses one *)

Definition life_features : features := Features true true true true true true 16 None.
Definition life_file : fpriv := Fpriv 2 4 false 1 40 1 [] false.
Definition life_rc : create_blob := CreateBlob VIRTGPU_BLOB_MEM_GUEST 9 10000 0 0 55.
Definition life_start : vgdev toy_mm :=
  dv_set_bos sample_dev (<[101 := sample_bo true [Block 8192 4096]]> (dv_bos sample_dev)).
Definition unref_100 : vbuf := Vbuf 1 (CtrlHdr 0x102 0 0 0 0) (ResourceUnref 77) 0 [] 0 24 (CbUnref 100) None 8.
Definition unref_101 : vbuf := Vbuf 1 (CtrlHdr 0x102 0 0 0 0) (ResourceUnref 77) 0 [] 0 24 (CbUnref 101) None 9.
Definition life_1 : dev_st toy_mm toy_queue := snd (snd (virtio_gpu_resource_create_blob_ioctl no_sleep no_lock_q 1 64 64
  life_features life_rc (life_file, (life_start, empty_queue 5)))).
Definition life_2 := snd (gem_object_put no_sleep no_lock_q 1 100 life_1).
Definition life_3 := snd (run_resp_cb no_lock_q unref_100 (0x1100, 0, 0, []) life_2).
Definition life_4 := snd (run_resp_cb no_lock_q unref_101 (0x1200, 0, 0, []) life_3).

Lemma pool_blocks_one_owner_witness :
  let lost := [Block 8192 4096] in
  let '(d', w') := life_4 in
  mm_live (gp_mm (dv_pool d')) ≡ₚ owned_blocks (dv_bos d') ++ lost /\
  Forall (block_in 0 (gp_backed (dv_pool d'))) (mm_live (gp_mm (dv_pool d'))) /\
  apart (mm_live (gp_mm (dv_pool d'))) /\
  forall a1 a2 x y, a1 <> a2 -> x ∈ blocks_at (dv_bos d') a1 -> y ∈ blocks_at (dv_bos d') a2 -> overlaps x y = false.
Proof.
  cbv zeta. destruct life_4 as [d' w'] eqn:E.
  refine (pool_blocks_one_owner no_sleep no_lock_q 1 64 64 [Block 8192 4096] life_start d' (empty_queue 5) w'
            no_lock_q_quiet _ _ _ _ _ _).
  - lia.
  - rewrite <- E. change [Block 8192 4096] with (((([] ++ refused unref_101 (0x1200, 0, 0, []) (fst life_3)) ++
      refused unref_100 (0x1100, 0, 0, []) (fst life_2)) ++ []) ++ [] : list block).
    apply life_cons with life_1; [|apply life_cons with life_2; [|apply life_cons with life_3; [|apply life_cons with life_4; [|apply life_nil]]]].
    + unfold life_1. apply (LifeBlob no_sleep no_lock_q 1 64 64 life_features life_rc life_file (life_start, empty_queue 5)); [split; done|]. intros p g h. vm_compute. intros [= <- <- <-].
      split_and!; intros a [= <-]; done.
    + unfold life_2. apply LifePut.
    + unfold life_3. apply LifeAnswer.
    + unfold life_4. apply LifeAnswer.
  - done.
  - apply sample_ready_wf. done.
  - repeat constructor.
  - vm_compute. apply Permutation_swap || reflexivity.
Defined.

Example life_sample :
  tm_live (gp_mm (dv_pool (fst life_4))) = [Block 12288 12288; Block 8192 4096] /\
  dom (dv_bos (fst life_4)) = ({[200]} : gset Z) /\
  (bo_guest_blob <$> dv_bos (fst life_4) !! 200) = Some true.
Proof. by vm_compute. Qed.
