(* ===== verification/Display.v ===== *)
(** * Planes and modesetting (virtio_gpu/virtgpu_plane.c and virtgpu_display.c)

    What a commit sends to the host: uploads of dumb buffers, scanouts, flushes and the cursor; the
    fences and pins a plane state holds; framebuffers, modes and the outputs' set-up. The DRM
    core's own checks and helpers are the class [KmsEnv]. *)

From stdpp Require Import gmap.
From S2P Require Import Prelude PoolCtl GuestPool Wire Fence ObjArray CtrlQueue GpuDev GpuCmds VramObj Submit Prime.

(** the host's byte order is little endian *)
Definition DRM_FORMAT_HOST_XRGB8888 : Z := DRM_FORMAT_XRGB8888.
Definition DRM_FORMAT_HOST_ARGB8888 : Z := DRM_FORMAT_ARGB8888.

Definition virtio_gpu_formats : list Z := [VIRTIO_GPU_PRIMARY_FORMAT; DRM_FORMAT_HOST_XRGB8888].
Definition virtio_gpu_cursor_formats : list Z := [DRM_FORMAT_HOST_ARGB8888].

Definition XRES_MIN : Z := 32.
Definition YRES_MIN : Z := 32.
Definition XRES_DEF : Z := 1024.
Definition YRES_DEF : Z := 768.
Definition XRES_MAX : Z := 8192.
Definition YRES_MAX : Z := 8192.

(** ** Planes and outputs *)

Inductive plane_type := PlanePrimary | PlaneCursor.
#[export] Instance plane_type_eq_dec : EqDecision plane_type.
Proof. solve_decision. Defined.

Record drm_rect := DrmRect { rt_x1 : Z; rt_y1 : Z; rt_x2 : Z; rt_y2 : Z }.

(** a framebuffer of one object: the address of the framebuffer, of [obj[0]], and [format->cpp[0]] *)
Record plane_fb := PlaneFb { pf_addr : Z; pf_obj : Z; pf_cpp : Z; pf_fb : framebuffer }.

(** [struct virtio_gpu_plane_state]; a CRTC is given by the index of its output; [ps_fence] is
    the address and the fence *)
Record plane_state := PlaneState {
  ps_fb : option plane_fb; ps_crtc : option nat;
  ps_src_x : Z; ps_src_y : Z; ps_src_w : Z; ps_src_h : Z;             (* 16.16 fixed point *)
  ps_crtc_x : Z; ps_crtc_y : Z; ps_crtc_w : Z; ps_crtc_h : Z;
  ps_hotspot_x : Z; ps_hotspot_y : Z;
  ps_visible : bool; ps_ignore_damage_clips : bool;
  ps_fence : option (Z * virtio_gpu_fence)
}.
Definition ps_set_fence (s : plane_state) (f : option (Z * virtio_gpu_fence)) : plane_state :=
  PlaneState (ps_fb s) (ps_crtc s) (ps_src_x s) (ps_src_y s) (ps_src_w s) (ps_src_h s) (ps_crtc_x s) (ps_crtc_y s)
    (ps_crtc_w s) (ps_crtc_h s) (ps_hotspot_x s) (ps_hotspot_y s) (ps_visible s) (ps_ignore_damage_clips s) f.
Definition ps_set_ignore (s : plane_state) (x : bool) : plane_state :=
  PlaneState (ps_fb s) (ps_crtc s) (ps_src_x s) (ps_src_y s) (ps_src_w s) (ps_src_h s) (ps_crtc_x s) (ps_crtc_y s)
    (ps_crtc_w s) (ps_crtc_h s) (ps_hotspot_x s) (ps_hotspot_y s) (ps_visible s) x (ps_fence s).

(** [output->cursor], of [struct virtio_gpu_update_cursor] *)
Record cursor := Cursor { cu_move : bool; cu_x : Z; cu_y : Z; cu_resource_id : Z; cu_hot_x : Z; cu_hot_y : Z }.
(** the part of [struct virtio_gpu_output] the driver itself changes; [info] and the EDIDs are in [vgdev] *)
Record output := Output { ou_index : Z; ou_active : bool; ou_needs_modeset : bool; ou_cursor : cursor }.
Definition ou_set_needs (o : output) (x : bool) : output := Output (ou_index o) (ou_active o) x (ou_cursor o).
Definition ou_set_cursor (o : output) (c : cursor) : output := Output (ou_index o) (ou_active o) (ou_needs_modeset o) c.

Definition cursor_cmd (o : output) : gpu_cmd :=
  let c := ou_cursor o in
  (if cu_move c then MoveCursor else UpdateCursor) (ou_index o) (u32 (cu_x c)) (u32 (cu_y c)) (cu_resource_id c)
    (u32 (cu_hot_x c)) (u32 (cu_hot_y c)).

(** [struct drm_display_mode], as far as it is read *)
Record drm_mode := DrmMode { dm_hdisplay : Z; dm_vdisplay : Z; dm_preferred : bool }.
(** [struct drm_mode_fb_cmd2] *)
Record fb_cmd := FbCmd { fc_pixel_format : Z; fc_handle : Z; fc_cpp : Z; fc_fb : framebuffer }.
(** what [fb_create] returns: an error pointer, [NULL], or a framebuffer *)
Inductive fb_result := FbErr (e : Z) | FbNull | FbOk (fb : plane_fb).

Class KmsEnv (W : Type) := {
  damage_merged : W -> plane_state -> plane_state -> option drm_rect;   (* old, new *)
  get_crtc_state : W -> nat -> Z;                                       (* 0 or an errno *)
  check_plane_state : W -> plane_state -> bool -> Z;                    (* may be positioned *)
  gem_plane_helper_prepare_fb : ST W unit;
  dma_fence_wait_timeout : Z -> Z -> ST W Z;                            (* fence, milliseconds *)
  shmem_vaddr : W -> Z -> bool;                                         (* the object is mapped, has pages *)
  shmem_has_pages : W -> Z -> bool;
  kzalloc_fb : ST W (option Z);
  kfree_fb : Z -> ST W unit;
  drm_framebuffer_init : Z -> ST W Z;
  crtc_vblank_on : nat -> ST W unit;
  crtc_vblank_off : nat -> ST W unit;
  crtc_vblank_get : nat -> ST W Z;
  crtc_arm_vblank_event : nat -> ST W unit;
  crtc_send_vblank_event : nat -> ST W unit;
  edid_add_modes : nat -> ST W Z;
  add_modes_noedid : nat -> Z -> Z -> ST W Z;
  set_preferred_mode : nat -> Z -> Z -> ST W unit;
  drm_cvt_mode : Z -> Z -> W -> option drm_mode;
  mode_probed_add : nat -> drm_mode -> ST W unit;
  plane_alloc : plane_type -> Z -> list Z -> ST W (Z + Z);              (* type, possible CRTCs, formats *)
  enable_damage_clips : Z -> ST W unit;
  crtc_init_with_planes : nat -> Z -> Z -> ST W Z;
  connector_init : nat -> bool -> ST W unit;                            (* with an EDID property *)
  encoder_init : nat -> Z -> ST W unit;                                 (* possible CRTCs *)
  mode_config_init : ST W Z;
  vblank_init : nat -> ST W Z;
  mode_config_reset : ST W unit
}.

Section Display.
Context {B W : Type} `{BO : BuddyOps B} `{PA : PoolApi W} `{CE : CtrlEnv W} `{OA : !ObjArrays W} `{BE : !BoEnv W}
  `{GE : GemEnv W} `{VE : !VramEnv W} `{SE : !SubmitEnv W} `{PE : !PrimeEnv W} `{KE : !KmsEnv W}.
Context (sleep : gpu_st W -> gpu_st W) (fuel : nat).
Abbreviation dev_st := (dev_st B W).
(** the outputs and the device *)
Definition kms_st : Type := list output * dev_st.

Definition on_kms {A} (m : ST dev_st A) : ST kms_st A := fun '(os, st) => let '(a, st1) := m st in (a, (os, st1)).
Definition upd_output (i : nat) (f : output -> output) : ST kms_st unit := fun '(os, st) => (tt, (alter f i os, st)).

Definition bo_is_dumb (d : vgdev B) (a : Z) : bool := from_option bo_dumb false (dv_bos d !! a).
Definition bo_is_blob (d : vgdev B) (a : Z) : bool := from_option (fun b => bo_host3d_blob b || bo_guest_blob b) false (dv_bos d !! a).

(** ** Plane states *)

(** [ok]: the memory for the copy was there *)
Definition virtio_gpu_plane_duplicate_state (ok : bool) (s : option plane_state) : option plane_state :=
  match s with Some s => if ok then Some (ps_set_fence s None) else None | None => None end.

Definition fb_addr (s : plane_state) : option Z := pf_addr <$> ps_fb s.
Definition same_fb (s s' : plane_state) : bool := bool_decide (fb_addr s = fb_addr s').

(** the result, and the new state *)
Definition virtio_gpu_plane_atomic_check (ty : plane_type) (new_s old_s : plane_state) (w : W) : Z * plane_state :=
  match ps_fb new_s, ps_crtc new_s with
  | Some _, Some crtc =>
      let new_s := if negb (same_fb old_s new_s) then ps_set_ignore new_s true else new_s in
      let e := get_crtc_state w crtc in
      if c_true e then (e, new_s)
      else (check_plane_state w new_s (bool_decide (ty = PlaneCursor)), new_s)
  | _, _ => (0, new_s)
  end.

(** ** Uploads and flushes *)

(** [x * cpp + y * pitch], in 32 bits *)
Definition dumb_offset (fb : plane_fb) (r : drm_rect) : Z :=
  u32 (u32 (u32 (rt_x1 r) * pf_cpp fb) + u32 (u32 (rt_y1 r) * nth 0 (fb_pitches (pf_fb fb)) 0)).
Definition rect_w (r : drm_rect) : Z := u32 (rt_x2 r - rt_x1 r).
Definition rect_h (r : drm_rect) : Z := u32 (rt_y2 r - rt_y1 r).

Definition virtio_gpu_update_dumb_bo (fb : plane_fb) (r : drm_rect) : ST dev_st unit := fun st =>
  let a := pf_obj fb in
  let '(objs, st1) := on_world (virtio_gpu_array_alloc 1) st in
  match objs with
  | None => (tt, st1)
  | Some arr =>
      let '(arr, st2) := on_world (virtio_gpu_array_add_obj arr a) st1 in
      virtio_gpu_cmd_transfer_to_host_2d sleep fuel (dumb_offset fb r) (rect_w r) (rect_h r) (u32 (rt_x1 r)) (u32 (rt_y1 r))
        (oa_objs arr) None st2
  end.

(** the state shown has a framebuffer *)
Definition virtio_gpu_resource_flush (s : plane_state) (fb : plane_fb) (x y width height : Z) : ST dev_st unit := fun st =>
  let a := pf_obj fb in
  let handle := handle_of (fst st) a in
  match ps_fence s with
  | Some (fa, fence) =>
      let '(objs, st1) := on_world (virtio_gpu_array_alloc 1) st in
      match objs with
      | None => (tt, st1)
      | Some arr =>
          let '(arr, st2) := on_world (virtio_gpu_array_add_obj arr a) st1 in
          let '(_, st3) := on_world (virtio_gpu_array_lock_resv (oa_objs arr)) st2 in   (* the result is not looked at *)
          let '(_, st4) := virtio_gpu_cmd_resource_flush sleep fuel handle x y width height (Some (oa_objs arr)) (Some fence) st3 in
          let '(_, st5) := notify st4 in
          (tt, snd (on_world (dma_fence_wait_timeout fa 50) st5))
      end
  | None =>
      let '(_, st1) := virtio_gpu_cmd_resource_flush sleep fuel handle x y width height None None st in
      notify st1
  end.

(** ** The primary plane *)

(** the output an update is for: the old state's CRTC, else the new one's *)
Definition update_output (s old : plane_state) : option nat :=
  match ps_crtc old with Some i => Some i | None => ps_crtc s end.

Definition scanout_changed (s old : plane_state) (o : output) : bool :=
  negb (same_fb s old) || negb (ps_src_w s =? ps_src_w old) || negb (ps_src_h s =? ps_src_h old) ||
  negb (ps_src_x s =? ps_src_x old) || negb (ps_src_y s =? ps_src_y old) || ou_needs_modeset o.

Definition plane_set_scanout (s : plane_state) (fb : plane_fb) (o : output) : ST dev_st unit := fun st =>
  let a := pf_obj fb in
  let px z := Z.shiftr z 16 in
  if bo_is_blob (fst st) a
  then virtio_gpu_cmd_set_scanout_blob sleep fuel (ou_index o) a (pf_fb fb) (px (ps_src_w s)) (px (ps_src_h s))
         (px (ps_src_x s)) (px (ps_src_y s)) st
  else virtio_gpu_cmd_set_scanout sleep fuel (ou_index o) (handle_of (fst st) a) (px (ps_src_w s)) (px (ps_src_h s))
         (px (ps_src_x s)) (px (ps_src_y s)) st.

Definition virtio_gpu_primary_plane_update (s old : plane_state) : ST kms_st unit := fun st =>
  match update_output s old with
  | None => (tt, st)                                               (* WARN_ON *)
  | Some i =>
      match fst st !! i with
      | None => (tt, st)
      | Some o =>
          match ps_fb s, ou_active o with
          | Some fb, true =>
              match damage_merged (snd (snd st)) old s with
              | None => (tt, st)
              | Some r =>
                  let st1 := if bo_is_dumb (fst (snd st)) (pf_obj fb)
                             then snd (on_kms (virtio_gpu_update_dumb_bo fb r) st) else st in
                  let st2 := if scanout_changed s old o
                             then snd (on_kms (plane_set_scanout s fb o) (snd (upd_output i (fun o => ou_set_needs o false) st1)))
                             else st1 in
                  on_kms (virtio_gpu_resource_flush s fb (u32 (rt_x1 r)) (u32 (rt_y1 r)) (rect_w r) (rect_h r)) st2
              end
          | _, _ =>
              let '(_, st1) := on_kms (virtio_gpu_cmd_set_scanout sleep fuel (ou_index o) 0
                                         (Z.shiftr (ps_src_w s) 16) (Z.shiftr (ps_src_h s) 16) 0 0) st in
              on_kms notify st1
          end
      end
  end.

(** ** Preparing and cleaning up a framebuffer *)

Definition virtio_gpu_prepare_imported_obj (a attach dmabuf : Z) : ST dev_st Z := fun st =>
  let '(_, st1) := on_world (dmabuf_resv_lock dmabuf) st in
  let '(ret, st2) := on_world (dma_buf_pin attach) st1 in
  if c_true ret then (ret, snd (on_world (dmabuf_resv_unlock dmabuf) st2))
  else
    let no_sgt := match dv_bos (fst st2) !! a with Some b => negb (bool_decide (is_Some (bo_sgt b))) | None => false end in
    if no_sgt then
      let '(ents, st3) := virtgpu_dma_buf_import_sgt a attach st2 in
      match ents with
      | inl ret =>
          let '(_, st4) := on_world (dma_buf_unpin attach) st3 in
          (ret, snd (on_world (dmabuf_resv_unlock dmabuf) st4))
      | inr (ents, data) =>
          let '(_, st4) := virtio_gpu_object_attach sleep fuel a ents data st3 in
          (0, snd (on_world (dmabuf_resv_unlock dmabuf) st4))
      end
    else (0, snd (on_world (dmabuf_resv_unlock dmabuf) st2)).

(** the result, and the state with its fence *)
Definition virtio_gpu_plane_prepare_fb (ty : plane_type) (s : plane_state) : ST dev_st (Z * plane_state) := fun st =>
  match ps_fb s with
  | None => ((0, s), st)
  | Some fb =>
      let a := pf_obj fb in
      let '(_, st1) := on_world gem_plane_helper_prepare_fb st in
      match dv_bos (fst st1) !! a with
      | None => ((0, s), st1)
      | Some b =>
          if bool_decide (ty = PlanePrimary) && negb (bo_guest_blob b) then ((0, s), st1)
          else
            let '(fence, st2) := if bo_dumb b || bool_decide (is_Some (bo_import b))
                                 then fence_alloc (main_fence_ctx st1) 0 st1 else (ps_fence s, st1) in
            if (bo_dumb b || bool_decide (is_Some (bo_import b))) && negb (bool_decide (is_Some fence))
            then ((- ENOMEM, ps_set_fence s None), st2)
            else
              let s1 := ps_set_fence s fence in
              match bo_import b with
              | None => ((0, s1), st2)
              | Some (attach, dmabuf) =>
                  let '(ret, st3) := virtio_gpu_prepare_imported_obj a attach dmabuf st2 in
                  if c_true ret then
                    match fence with
                    | Some (fa, _) => ((ret, ps_set_fence s1 None), snd (on_world (dma_fence_put fa) st3))
                    | None => ((ret, s1), st3)
                    end
                  else ((0, s1), st3)
              end
      end
  end.

Definition virtio_gpu_cleanup_imported_obj (attach dmabuf : Z) : ST dev_st unit := fun st =>
  let '(_, st1) := on_world (dmabuf_resv_lock dmabuf) st in
  let '(_, st2) := on_world (dma_buf_unpin attach) st1 in
  on_world (dmabuf_resv_unlock dmabuf) st2.

Definition virtio_gpu_plane_cleanup_fb (s : plane_state) : ST dev_st plane_state := fun st =>
  match ps_fb s with
  | None => (s, st)
  | Some fb =>
      let '(s1, st1) := match ps_fence s with
                        | Some (fa, _) => (ps_set_fence s None, snd (on_world (dma_fence_put fa) st))
                        | None => (s, st)
                        end in
      match dv_bos (fst st1) !! pf_obj fb with
      | Some b =>
          match bo_import b with
          | Some (attach, dmabuf) => (s1, snd (virtio_gpu_cleanup_imported_obj attach dmabuf st1))
          | None => (s1, st1)
          end
      | None => (s1, st1)
      end
  end.

(** ** The cursor plane *)

(** the new image of a dumb cursor, waited for; false: no memory for the array. A cursor state with a
    dumb object has the fence [prepare_fb] gave it *)
Definition cursor_upload (s : plane_state) (fb : plane_fb) : ST dev_st bool := fun st =>
  let a := pf_obj fb in
  let '(objs, st1) := on_world (virtio_gpu_array_alloc 1) st in
  match objs with
  | None => (false, st1)
  | Some arr =>
      let '(arr, st2) := on_world (virtio_gpu_array_add_obj arr a) st1 in
      let '(_, st3) := on_world (virtio_gpu_array_lock_resv (oa_objs arr)) st2 in
      let '(_, st4) := virtio_gpu_cmd_transfer_to_host_2d sleep fuel 0 (ps_crtc_w s) (ps_crtc_h s) 0 0 (oa_objs arr)
                         (snd <$> ps_fence s) st3 in
      let '(_, st5) := notify st4 in
      (true, match ps_fence s with Some (fa, _) => snd (on_world (dma_fence_wait fa) st5) | None => st5 end)
  end.

Definition cursor_next (s old : plane_state) (handle : Z) (c : cursor) : cursor :=
  if negb (same_fb s old) then
    match ps_fb s with
    | Some _ => Cursor false (ps_crtc_x s) (ps_crtc_y s) handle (ps_hotspot_x s) (ps_hotspot_y s)
    | None => Cursor false (ps_crtc_x s) (ps_crtc_y s) handle 0 0
    end
  else Cursor true (ps_crtc_x s) (ps_crtc_y s) (cu_resource_id c) (cu_hot_x c) (cu_hot_y c).

Definition virtio_gpu_cursor_plane_update (s old : plane_state) : ST kms_st unit := fun st =>
  match update_output s old with
  | None => (tt, st)                                               (* WARN_ON *)
  | Some i =>
      match fst st !! i with
      | None => (tt, st)
      | Some o =>
          let d := fst (snd st) in
          let handle := match ps_fb s with Some fb => handle_of d (pf_obj fb) | None => 0 end in
          let '(ok, st1) :=
            match ps_fb s with
            | Some fb => if bo_is_dumb d (pf_obj fb) && negb (same_fb s old) then on_kms (cursor_upload s fb) st else (true, st)
            | None => (true, st)
            end in
          if negb ok then (tt, st1)
          else
            let o1 := ou_set_cursor o (cursor_next s old handle (ou_cursor o)) in
            let '(_, st2) := upd_output i (fun _ => o1) st1 in
            (tt, snd (on_kms (virtio_gpu_cursor_ping fuel (ou_index o1) (cursor_cmd o1)) st2))
      end
  end.

(** ** Scanout buffers for a panic *)

(** [-ENODEV], or mapped ([true]) or by its pages *)
Definition virtio_drm_get_scanout_buffer (s : option plane_state) (st : dev_st) : Z + bool :=
  match s with
  | Some s =>
      match ps_fb s with
      | Some fb =>
          let a := pf_obj fb in
          if negb (ps_visible s) then inl (- ENODEV)
          else if is_vram_bo (fst st) a || is_import_bo (fst st) a then inl (- ENODEV)
          else if shmem_vaddr (snd st) a then inr true
          else if shmem_has_pages (snd st) a then inr false else inl (- ENODEV)
      | None => inl (- ENODEV)
      end
  | None => inl (- ENODEV)
  end.

(** ** CRTCs *)

Definition virtio_gpu_crtc_mode_set_nofb (index : Z) (mode : drm_mode) : ST dev_st unit := fun st =>
  notify (snd (virtio_gpu_cmd_set_scanout sleep fuel index 0 (dm_hdisplay mode) (dm_vdisplay mode) 0 0 st)).

Definition virtio_gpu_crtc_atomic_enable (i : nat) : ST dev_st unit := on_world (crtc_vblank_on i).

Definition virtio_gpu_crtc_atomic_disable (i : nat) (index : Z) : ST dev_st unit := fun st =>
  let '(_, st1) := on_world (crtc_vblank_off i) st in
  notify (snd (virtio_gpu_cmd_set_scanout sleep fuel index 0 0 0 0 0 st1)).

(** [event]: the commit wants one; it is sent once *)
Definition virtio_gpu_crtc_atomic_flush (i : nat) (needs_modeset event : bool) : ST kms_st unit := fun st =>
  let st1 := if needs_modeset then snd (upd_output i (fun o => ou_set_needs o true) st) else st in
  if event then
    let '(ret, st2) := on_kms (on_world (crtc_vblank_get i)) st1 in
    if ret =? 0 then on_kms (on_world (crtc_arm_vblank_event i)) st2
    else on_kms (on_world (crtc_send_vblank_event i)) st2
  else (tt, st1).

(** ** Connectors *)

Definition output_info (d : vgdev B) (i : nat) : display_one := nth i (dv_outputs d) (DisplayOne (GpuRect 0 0 0 0) 0 0).
Definition info_width (d : vgdev B) (i : nat) : Z := s32 (rc_width (do_r (output_info d i))).
Definition info_height (d : vgdev B) (i : nat) : Z := s32 (rc_height (do_r (output_info d i))).

Definition virtio_gpu_conn_get_modes (i : nat) : ST dev_st Z := fun st =>
  let '(count, st1) := on_world (edid_add_modes i) st in
  if c_true count then (count, st1)
  else
    let width := info_width (fst st1) i in
    let height := info_height (fst st1) i in
    let '(count, st2) := on_world (add_modes_noedid i XRES_MAX YRES_MAX) st1 in
    if (width =? 0) || (height =? 0) then (count, snd (on_world (set_preferred_mode i XRES_DEF YRES_DEF) st2))
    else
      match drm_cvt_mode width height (snd st2) with
      | None => (count, st2)
      | Some mode =>
          (count + 1, snd (on_world (mode_probed_add i (DrmMode (dm_hdisplay mode) (dm_vdisplay mode) true)) st2))
      end.

Definition virtio_gpu_conn_mode_valid (d : vgdev B) (i : nat) (mode : drm_mode) : bool :=
  let width := info_width d i in
  let height := info_height d i in
  if negb (dm_preferred mode) then true
  else if (dm_hdisplay mode =? XRES_DEF) && (dm_vdisplay mode =? YRES_DEF) then true
  else (dm_hdisplay mode <=? width) && (width - 16 <=? dm_hdisplay mode) &&
       (dm_vdisplay mode <=? height) && (height - 16 <=? dm_vdisplay mode).

(** connected *)
Definition virtio_gpu_conn_detect (d : vgdev B) (i : nat) : bool := c_true (do_enabled (output_info d i)).

(** ** Framebuffers *)

Definition fb_format_ok (fmt : Z) : bool :=
  (fmt =? VIRTIO_GPU_PRIMARY_FORMAT) || (fmt =? DRM_FORMAT_HOST_ARGB8888) || (fmt =? DRM_FORMAT_HOST_XRGB8888).

(** the framebuffer filled in, or the errno *)
Definition virtio_gpu_framebuffer_init (addr obj : Z) (cmd : fb_cmd) : ST dev_st (Z + plane_fb) := fun st =>
  let '(ret, st1) := on_world (drm_framebuffer_init addr) st in
  (if c_true ret then inl ret else inr (PlaneFb addr obj (fc_cpp cmd) (fc_fb cmd)), st1).

(** [put]: [drm_gem_object_put] *)
Definition virtio_gpu_user_framebuffer_create (put : Z -> ST dev_st unit) (cmd : fb_cmd) : ST dev_st fb_result := fun st =>
  if negb (fb_format_ok (fc_pixel_format cmd)) then (FbErr (- ENOENT), st)
  else
    let '(obj, st1) := on_world (drm_gem_object_lookup (fc_handle cmd)) st in
    match obj with
    | None => (FbErr (- EINVAL), st1)
    | Some obj =>
        let '(addr, st2) := on_world kzalloc_fb st1 in
        match addr with
        | None => (FbErr (- ENOMEM), snd (put obj st2))
        | Some addr =>
            let '(r, st3) := virtio_gpu_framebuffer_init addr obj cmd st2 in
            match r with
            | inl _ => (FbNull, snd (put obj (snd (on_world (kfree_fb addr) st3))))
            | inr fb => (FbOk fb, st3)
            end
        end
    end.

(** ** Set-up *)

(** an errno, or the plane *)
Definition virtio_gpu_plane_init (ty : plane_type) (index : Z) : ST dev_st (Z + Z) := fun st =>
  let formats := match ty with PlaneCursor => virtio_gpu_cursor_formats | PlanePrimary => virtio_gpu_formats end in
  let '(plane, st1) := on_world (plane_alloc ty (Z.shiftl 1 index) formats) st in
  match plane, ty with
  | inr p, PlanePrimary => (plane, snd (on_world (enable_damage_clips p) st1))
  | _, _ => (plane, st1)
  end.

Definition set_output_info (d : vgdev B) (i : nat) (f : display_one -> display_one) : vgdev B :=
  dv_set_display d (dv_display_pending d) (alter f i (dv_outputs d)).
(** [output->index = index], and the size assumed for the first output *)
Definition output_defaults (i : nat) : ST kms_st unit := fun '(os, (d, w)) =>
  let os := alter (fun o => Output (Z.of_nat i) (ou_active o) (ou_needs_modeset o) (ou_cursor o)) i os in
  let f x := DisplayOne (GpuRect (rc_x (do_r x)) (rc_y (do_r x)) XRES_DEF YRES_DEF) 1 (do_flags x) in
  (tt, (os, (if (i =? 0)%nat then set_output_info d 0 f else d, w))).

Definition vgdev_output_init (i : nat) : ST kms_st Z := fun st =>
  let '(_, st1) := output_defaults i st in
  on_kms (fun st =>
    let '(primary, st1) := virtio_gpu_plane_init PlanePrimary (Z.of_nat i) st in
    match primary with
    | inl e => (e, st1)
    | inr primary =>
        let '(cursor, st2) := virtio_gpu_plane_init PlaneCursor (Z.of_nat i) st1 in
        match cursor with
        | inl e => (e, st2)
        | inr cursor =>
            let '(ret, st3) := on_world (crtc_init_with_planes i primary cursor) st2 in
            if c_true ret then (ret, st3)
            else
              let '(_, st4) := on_world (connector_init i (dv_has_edid (fst st3))) st3 in
              (0, snd (on_world (encoder_init i (Z.shiftl 1 (Z.of_nat i))) st4))
        end
    end) st1.

(** the results are not looked at *)
Definition init_outputs (l : list nat) : kms_st -> kms_st := fun st =>
  foldl (fun st i => snd (vgdev_output_init i st)) st l.

Definition virtio_gpu_modeset_init : ST kms_st Z := fun st =>
  let n := dv_num_scanouts (fst (snd st)) in
  if (n =? 0)%nat then (0, st)
  else
    let '(ret, st1) := on_kms (on_world mode_config_init) st in
    if c_true ret then (ret, st1)
    else
      let st2 := init_outputs (seq 0 n) st1 in
      let '(ret, st3) := on_kms (on_world (vblank_init n)) st2 in
      if c_true ret then (ret, st3) else (0, snd (on_kms (on_world mode_config_reset) st3)).

Definition virtio_gpu_modeset_fini : ST dev_st unit := fun st =>
  let n := dv_num_scanouts (fst st) in
  if (n =? 0)%nat then (tt, st)
  else (tt, foldl (fun st e => snd (on_world (drm_edid_free e) st)) st (take n (dv_edids (fst st)))).

End Display.
