(* ===== verification/Panic.v ===== *)
(** * The panic path (drm_panic) and the cursor queue's answers

    The copies of the queueing and command functions of virtgpu_vq.c, and of the upload and flush of
    virtgpu_plane.c, that run while the kernel panics: no locks, no waiting, atomic allocations.
    They are shown to do what the normal functions do when nothing has to be waited for. *)

From stdpp Require Import gmap.
From S2P Require Import Prelude PoolCtl GuestPool Wire Fence ObjArray CtrlQueue GpuDev GpuCmds VramObj Submit Prime Display.

Class PanicEnv (W : Type) := {
  vbuf_zalloc_atomic : ST W (option Z);   (* [GFP_ATOMIC], so it may fail *)
  arr_alloc_header : ST W bool            (* an object array without room for objects *)
}.

Section Panic.
Context {B W : Type} `{BO : BuddyOps B} `{PA : PoolApi W} `{CE : CtrlEnv W} `{OA : !ObjArrays W} `{BE : !BoEnv W}
  `{GE : GemEnv W} `{PN : !PanicEnv W}.
Abbreviation dev_st := (dev_st B W).

(** ** Queueing; [None] is a write through the NULL that [kmem_cache_zalloc] returned *)

Definition virtio_gpu_panic_get_vbuf (cmd : gpu_cmd) : ST W (option vbuf) := fun w =>
  let '(a, w1) := vbuf_zalloc_atomic w in
  match a with
  | None => (None, w1)
  | Some a => (Some (Vbuf a (CtrlHdr (cmd_type cmd) 0 0 0 0) cmd 0 [] 0 sizeof_ctrl_hdr CbNone None 0), w1)
  end.

Definition virtio_gpu_panic_alloc_cmd_resp (cmd : gpu_cmd) : ST W (option vbuf) := virtio_gpu_panic_get_vbuf cmd.

Definition virtio_gpu_panic_queue_ctrl_sgs (v : vbuf) (elemcnt : Z) : ST (gpu_st W) Z := fun '(g, w) =>
  let elemcnt := if g_has_indirect g then 1 else elemcnt in
  if vq_num_free w <? elemcnt then (- ENOMEM, (g, w))
  else
    let seqno := u32 (g_seqno g + 1) in
    let '(_, w1) := vq_add_sgs (set_seqno v seqno) w in    (* WARN_ON(ret) *)
    (0, (Gpu (g_has_indirect g) seqno (g_pending g + 1) (g_fence g) (g_signalled g), w1)).

Definition virtio_gpu_panic_queue_ctrl_buffer (v : vbuf) : ST (gpu_st W) Z :=
  virtio_gpu_panic_queue_ctrl_sgs v (1 + (if vb_resp_size v =? 0 then 0 else 1)).

Definition virtio_gpu_panic_notify : ST (gpu_st W) unit := fun '(g, w) =>
  if g_pending g =? 0 then (tt, (g, w))
  else
    let g1 := Gpu (g_has_indirect g) (g_seqno g) 0 (g_fence g) (g_signalled g) in
    let '(notify, w1) := vq_kick_prepare w in
    if notify then (tt, (g1, snd (vq_notify w1))) else (tt, (g1, w1)).

(** allocate, fill and queue one command *)
Definition panic_issue (cmd : gpu_cmd) (objs : option (list Z)) : ST dev_st (option Z) := fun '(d, w) =>
  let '(v, w1) := virtio_gpu_panic_alloc_cmd_resp cmd w in
  match v with
  | None => (None, (d, w1))
  | Some v =>
      let '(ret, st) := on_queue (virtio_gpu_panic_queue_ctrl_buffer (with_objs v objs)) (d, w1) in (Some ret, st)
  end.

Definition virtio_gpu_panic_cmd_resource_flush (resource_id x y width height : Z) : ST dev_st (option Z) :=
  panic_issue (ResourceFlush (GpuRect x y width height) resource_id) None.

Definition virtio_gpu_panic_cmd_transfer_to_host_2d (offset width height x y : Z) (objs : list Z)
  : ST dev_st (option Z) := fun st =>
  let a := obj0 objs in
  let '(_, st1) := sync_shmem a st in
  panic_issue (TransferToHost2d (GpuRect x y width height) offset (handle_of (fst st) a)) (Some objs) st1.

(** ** Objects and planes *)

(** the array with the number of slots it was allocated with: the block ends with the header, though
    the array says that it has room for one object *)
Definition virtio_gpu_panic_array_alloc : ST W (option (obj_array * Z)) := fun w =>
  let '(ok, w1) := arr_alloc_header w in (if ok then Some (ObjArr [] 1, 0) else None, w1).

(** [virtio_gpu_array_add_obj] on an array of so many slots, and whether it wrote past them. C does not
    say what becomes of such a write; the model goes on as if the object could be read back. *)
Definition array_add_checked (arr : obj_array) (slots obj : Z) : ST W (obj_array * bool) := fun w =>
  let '(arr', w1) := virtio_gpu_array_add_obj arr obj w in
  ((arr', slots <? Z.of_nat (length (oa_objs arr'))), w1).

(** the result, and whether memory past the array was written *)
Definition virtio_gpu_panic_update_dumb_bo (fb : plane_fb) (r : drm_rect) : ST dev_st (option Z * bool) := fun st =>
  let a := pf_obj fb in
  let '(objs, st1) := on_world virtio_gpu_panic_array_alloc st in
  match objs with
  | None => ((Some (- ENOMEM), false), st1)
  | Some (arr, slots) =>
      let '((arr, overrun), st2) := on_world (array_add_checked arr slots a) st1 in
      let '(ret, st3) := virtio_gpu_panic_cmd_transfer_to_host_2d (dumb_offset fb r) (rect_w r) (rect_h r)
        (u32 (rt_x1 r)) (u32 (rt_y1 r)) (oa_objs arr) st2 in
      ((ret, overrun), st3)
  end.

(** false: a NULL was written through *)
Definition virtio_gpu_panic_resource_flush (fb : plane_fb) (x y width height : Z) : ST dev_st bool := fun st =>
  let '(ret, st1) := virtio_gpu_panic_cmd_resource_flush (handle_of (fst st) (pf_obj fb)) x y width height st in
  match ret with
  | None => (false, st1)
  | Some _ => (true, snd (on_queue virtio_gpu_panic_notify st1))
  end.

(** how the flush went with the kernel's memory: a NULL was written through, or what lies past an array *)
Record panic_end := PanicEnd { pe_null : bool; pe_overrun : bool }.

Definition virtio_panic_flush (s : plane_state) (fb : plane_fb) : ST dev_st panic_end := fun st =>
  let r := DrmRect 0 0 (s32 (fb_width (pf_fb fb))) (s32 (fb_height (pf_fb fb))) in
  let '((ret, overrun), st1) :=
    if bo_is_dumb (fst st) (pf_obj fb) then virtio_gpu_panic_update_dumb_bo fb r st else ((Some 0, false), st) in
  match ret with
  | None => (PanicEnd true overrun, st1)
  | Some ret =>
      if c_true ret then (PanicEnd false overrun, st1)
      else
        let px z := Z.shiftr z 16 in
        let '(ok, st2) := virtio_gpu_panic_resource_flush fb (px (ps_src_x s)) (px (ps_src_y s)) (px (ps_src_w s))
          (px (ps_src_h s)) st1 in
        (PanicEnd (negb ok) overrun, st2)
  end.

(** ** The cursor queue's answers *)

Fixpoint cursor_free (l : list (vbuf * response)) : ST W unit := fun w =>
  match l with [] => (tt, w) | (v, _) :: l' => cursor_free l' (snd (free_vbuf v w)) end.

(** on the cursor queue; [get] and [enable] are its [virtqueue_get_buf] and [virtqueue_enable_cb],
    [wake] its [ack_queue] *)
Section CursorQueue.
Context (get : ST W (option (vbuf * response))) (enable : ST W bool) (wake : ST W unit).
Fixpoint cursor_reclaim (fuel : nat) (acc : list (vbuf * response)) : ST W (list (vbuf * response)) := fun w =>
  match fuel with
  | O => (acc, w)
  | S fuel' =>
      let '(r, w1) := get w in
      match r with None => (acc, w1) | Some e => cursor_reclaim fuel' (acc ++ [e]) w1 end
  end.
Fixpoint cursor_collect (fuel rfuel : nat) (acc : list (vbuf * response)) : ST W (option (list (vbuf * response))) := fun w =>
  match fuel with
  | O => (None, w)
  | S fuel' =>
      let '(acc1, w1) := cursor_reclaim rfuel acc w in
      let '(enabled, w2) := enable w1 in
      if enabled then (Some acc1, w2) else cursor_collect fuel' rfuel acc1 w2
  end.
Definition virtio_gpu_dequeue_cursor_func (fuel rfuel : nat) : ST W bool := fun w =>
  let '(l, w1) := cursor_collect fuel rfuel [] w in
  match l with
  | None => (false, w1)
  | Some l => let '(_, w2) := cursor_free l w1 in (true, snd (wake w2))
  end.
End CursorQueue.

End Panic.
