(* ===== verification/DisplayProps.v ===== *)
(** * Properties of planes, modes and the panic path *)

From stdpp Require Import gmap gmultiset.
From S2P Require Import Prelude PoolCtl GuestPool GuestPoolSpec Wire Fence ObjArray CtrlQueue GpuDev GpuCmds GpuProps VramObj VramProps ObjProps Submit SubmitProps Prime PrimeProps Display Panic.

(** ** The panic path does what the normal path does *)

Section PanicPath.
Context {B W : Type} `{BO : BuddyOps B} `{PA : PoolApi W} `{CE : CtrlEnv W} `{OA : !ObjArrays W} `{BE : !BoEnv W}
  `{GE : GemEnv W} `{PN : !PanicEnv W}.
Context (sleep : gpu_st W -> gpu_st W) (n : nat).

(** the device and the room of its queue are as they were *)
Definition calm (w w' : W) : Prop := drm_dev_enter w' = drm_dev_enter w /\ vq_num_free w' = vq_num_free w.

(** an atomic allocation that succeeds is like the one that may sleep; nothing on the way takes room of
    the queue or unplugs the device, and a command takes two descriptors at most *)
Class PanicLaws : Prop := {
  pl_zalloc (w : W) a w1 : vbuf_zalloc_atomic w = (Some a, w1) -> vbuf_zalloc w = (a, w1);
  pl_header (w : W) w1 : arr_alloc_header w = (true, w1) -> arr_alloc 1 w = (true, w1);
  pl_calm_zalloc (w : W) : calm w (snd (vbuf_zalloc w)) ;
  pl_calm_array (w : W) : calm w (snd (arr_alloc 1 w));
  pl_calm_get o (w : W) : calm w (snd (drm_gem_object_get o w));
  pl_calm_sync a (w : W) : calm w (snd (dma_sync_for_device a w));
  pl_add v (w : W) : vq_num_free w - 2 <= vq_num_free (snd (vq_add_sgs v w)) /\
    drm_dev_enter (snd (vq_add_sgs v w)) = drm_dev_enter w
}.
Context `{PL : !PanicLaws}.

(** the device is there, and its queue has so many free descriptors *)
Definition ready_for (k : Z) (w : W) : Prop := drm_dev_enter w = true /\ k <= vq_num_free w.

Lemma ready_calm k (w w' : W) : calm w w' -> ready_for k w -> ready_for k w'.
Proof. unfold calm, ready_for. intros [H1 H2]. by rewrite H1, H2. Qed.

Lemma panic_notify_same (st : gpu_st W) : virtio_gpu_panic_notify st = virtio_gpu_notify st.
Proof. by destruct st. Qed.

(** with room for it and its buffer allocated, a command of the panic path is queued as any other *)
Lemma panic_issue_same k cmd objs (st : dev_st B W) : Z.of_nat (length (cmd_body cmd)) <= 72 ->
  ready_for (k + 2) (snd st) -> 0 <= k -> is_Some (fst (vbuf_zalloc_atomic (snd st))) ->
  let '(r, st') := panic_issue cmd objs st in
  r = Some 0 /\ st' = snd (issue sleep (S n) cmd 0 sizeof_ctrl_hdr false CbNone (fun v => with_objs v objs) None st) /\
  ready_for k (snd st').
Proof.
  intros Hlen Hready H0 Hok. destruct st as [d w]. cbn [snd] in *.
  unfold panic_issue, issue, virtio_gpu_panic_alloc_cmd_resp, virtio_gpu_panic_get_vbuf, virtio_gpu_get_vbuf.
  destruct (vbuf_zalloc_atomic w) as [[a|] w1] eqn:Ea; [|by destruct Hok].
  pose proof (ready_calm _ _ _ (pl_calm_zalloc w) Hready) as Hr1. rewrite (pl_zalloc w a w1 Ea) in *. cbn [fst snd] in *. destruct Hr1 as [Hp Hf].
  unfold sizeof_ctrl_hdr, MAX_INLINE_CMD_SIZE, MAX_INLINE_RESP_SIZE. rewrite !Z.gtb_ltb.
  destruct (Z.ltb_spec 96 (24 + Z.of_nat (length (cmd_body cmd)))); [lia|].
  destruct (Z.ltb_spec (24 + Z.of_nat (length (cmd_body cmd))) 24); [lia|]. cbn [orb]. change (24 <? 24) with false. cbn [andb fst snd].
  unfold on_queue, virtio_gpu_panic_queue_ctrl_buffer, virtio_gpu_queue_fenced_ctrl_buffer. cbn [with_objs vb_resp_size vb_data_size Z.eqb].
  unfold virtio_gpu_panic_queue_ctrl_sgs, virtio_gpu_queue_ctrl_sgs. rewrite Hp. cbn [negb queue_wait_room snd].
  set (e := if g_has_indirect (dv_gpu d) then 1 else 1 + 1). assert (He : e <= 2) by (subst e; case_if; lia).
  destruct (Z.ltb_spec (vq_num_free w1) e); [lia|]. cbn [negb queue_emit_fence].
  match goal with |- context [vq_add_sgs ?v w1] => destruct (pl_add v w1) as [A1 A2]; destruct (vq_add_sgs v w1) as [r w2] end.
  cbn [snd] in *. split_and!; [done | done|]. split; cbn [snd]; [congruence | lia].
Qed.

(** where the buffer of the upload is allocated: its array is made, and its memory written back *)
Definition before_upload fb (st : dev_st B W) : dev_st B W :=
  let '(_, w1) := arr_alloc 1 (snd st) in
  snd (sync_shmem (pf_obj fb) (fst st, snd (drm_gem_object_get (pf_obj fb) w1))).

(** what the normal functions do: the upload of the whole of a dumb buffer, then the flush *)
Definition uploaded fb (st : dev_st B W) : dev_st B W :=
  let whole := DrmRect 0 0 (s32 (fb_width (pf_fb fb))) (s32 (fb_height (pf_fb fb))) in
  if bo_is_dumb (fst st) (pf_obj fb) then snd (virtio_gpu_update_dumb_bo sleep (S n) fb whole st) else st.
Definition flushed s fb (st : dev_st B W) : dev_st B W :=
  let px z := Z.shiftr z 16 in
  snd (virtio_gpu_cmd_resource_flush sleep (S n) (handle_of (fst st) (pf_obj fb)) (px (ps_src_x s))
         (px (ps_src_y s)) (px (ps_src_w s)) (px (ps_src_h s)) None None st).

(** this run's three allocations succeed *)
Record panic_allocs fb (st : dev_st B W) : Prop := {
  pa_array : bo_is_dumb (fst st) (pf_obj fb) = true -> fst (arr_alloc_header (snd st)) = true;
  pa_upload : bo_is_dumb (fst st) (pf_obj fb) = true -> is_Some (fst (vbuf_zalloc_atomic (snd (before_upload fb st))));
  pa_flush : is_Some (fst (vbuf_zalloc_atomic (snd (uploaded fb st))))
}.

Lemma panic_resource_flush_same k s fb (st : dev_st B W) : ready_for (k + 2) (snd st) -> 0 <= k ->
  is_Some (fst (vbuf_zalloc_atomic (snd st))) ->
  virtio_gpu_panic_resource_flush fb (Z.shiftr (ps_src_x s) 16) (Z.shiftr (ps_src_y s) 16)
    (Z.shiftr (ps_src_w s) 16) (Z.shiftr (ps_src_h s) 16) st = (true, snd (notify (flushed s fb st))).
Proof.
  intros Hr Hk Ha. unfold virtio_gpu_panic_resource_flush, virtio_gpu_panic_cmd_resource_flush, flushed, virtio_gpu_cmd_resource_flush.
  match goal with |- context [panic_issue ?c ?o st] =>
    pose proof (panic_issue_same k c o st ltac:(by vm_compute) Hr Hk Ha) as Q; destruct (panic_issue c o st) as [r st1] end.
  destruct Q as (-> & -> & _). by destruct (issue _ _ _ _ _ _ _ _ _ st).
Qed.

Lemma panic_update_same k fb (st : dev_st B W) : ready_for (k + 2) (snd st) -> 0 <= k -> panic_allocs fb st ->
  bo_is_dumb (fst st) (pf_obj fb) = true ->
  let '(r, st') := virtio_gpu_panic_update_dumb_bo fb
    (DrmRect 0 0 (s32 (fb_width (pf_fb fb))) (s32 (fb_height (pf_fb fb)))) st in
  r = (Some 0, true) /\ st' = uploaded fb st /\ ready_for k (snd st').
Proof.
  intros Hr Hk [A1 A2 _] Hd. specialize (A1 Hd). specialize (A2 Hd). unfold uploaded, before_upload in *. rewrite Hd. set (whole := DrmRect _ _ _ _).
  unfold virtio_gpu_panic_update_dumb_bo, virtio_gpu_update_dumb_bo, virtio_gpu_panic_array_alloc, virtio_gpu_array_alloc, array_add_checked, on_world.
  destruct st as [d w]. cbn [fst snd] in *. pose proof (pl_calm_array w) as C1.
  destruct (arr_alloc_header w) as [ok w1] eqn:Eh. cbn [fst] in A1. subst ok.
  rewrite (pl_header w w1 Eh) in *. cbn [snd] in *. unfold virtio_gpu_array_add_obj. cbn [oa_objs oa_total length app].
  change (Z.of_nat 0 =? 1) with false. cbv iota. cbn [oa_objs length app]. change (0 <? Z.of_nat 1) with true.
  pose proof (ready_calm _ _ _ (pl_calm_get (pf_obj fb) w1) (ready_calm _ _ _ C1 Hr)) as Hr2.
  set (w2 := snd (drm_gem_object_get (pf_obj fb) w1)) in *.
  unfold virtio_gpu_panic_cmd_transfer_to_host_2d, virtio_gpu_cmd_transfer_to_host_2d. cbn [obj0 fst].
  assert (Hr3 : ready_for (k + 2) (snd (snd (sync_shmem (pf_obj fb) (d, w2))))).
  { unfold sync_shmem. case_if; [|done]. apply (ready_calm _ _ _ (pl_calm_sync _ _) Hr2). }
  destruct (sync_shmem _ _) as [u st3]. cbn [snd] in *.
  match goal with |- context [panic_issue ?c ?o st3] =>
    pose proof (panic_issue_same k c o st3 ltac:(by vm_compute) Hr3 Hk A2) as Q; destruct (panic_issue c o st3) as [r st4] end.
  by destruct Q as (-> & -> & Q).
Qed.

End PanicPath.

(** C15: a panic finds the device there and four descriptors of its queue free, and the run's atomic
    allocations (the object array of a dumb buffer, a buffer for each of the commands) succeed. Then
    the panic flush writes through no NULL and has the effect of the normal functions one after the
    other: for a dumb buffer the upload of the whole framebuffer, then the flush of the visible part,
    then the notification; the same commands with the same headers, in the same order, on the same
    state. But for a dumb buffer, and only then, the object is written past the end of its array,
    which is allocated without room for it. *)
Theorem panic_flush_as_normal {B W} `{BO : BuddyOps B} `{PA : PoolApi W} `{CE : CtrlEnv W} `{OA : !ObjArrays W} `{BE : !BoEnv W}
  `{GE : GemEnv W} `{PN : !PanicEnv W} `{PL : !PanicLaws} sleep n s fb (st : dev_st B W)
  (Hready : ready_for 4 (snd st)) (Halloc : panic_allocs sleep n fb st) :
  virtio_panic_flush s fb st =
  (PanicEnd false (bo_is_dumb (fst st) (pf_obj fb)), snd (notify (flushed sleep n s fb (uploaded sleep n fb st)))).
Proof.
  unfold virtio_panic_flush. pose proof (pa_flush sleep n fb st Halloc) as Hf.
  destruct (bo_is_dumb (fst st) (pf_obj fb)) eqn:Hd.
  - pose proof (panic_update_same sleep n 2 fb st Hready ltac:(lia) Halloc Hd) as U.
    destruct (virtio_gpu_panic_update_dumb_bo _ _ st) as [r st1]. destruct U as (-> & -> & U). change (c_true 0) with false. cbv iota zeta.
    by rewrite (panic_resource_flush_same sleep n 0 s fb) by (lia || done).
  - unfold uploaded in *. rewrite Hd in *. change (c_true 0) with false. cbv iota zeta.
    by rewrite (panic_resource_flush_same sleep n 2 s fb st) by (lia || done).
Qed.

(** ** Uploads of dumb buffers *)

(** The upload of a damaged rectangle, inside the framebuffer of a dumb buffer (four bytes a pixel,
    rows of at least the framebuffer's width, everything below 4 GiB), starts at the byte of its
    first pixel, in spite of the 32-bit arithmetic, and ends inside the object. *)
Theorem dumb_upload_in_bounds fb r size (Hcpp : pf_cpp fb = 4)
  (Hx : 0 <= rt_x1 r < rt_x2 r) (Hxw : rt_x2 r <= fb_width (pf_fb fb))
  (Hy : 0 <= rt_y1 r < rt_y2 r) (Hyh : rt_y2 r <= fb_height (pf_fb fb))
  (Hpitch : 4 * fb_width (pf_fb fb) <= nth 0 (fb_pitches (pf_fb fb)) 0)
  (Hsize : nth 0 (fb_pitches (pf_fb fb)) 0 * fb_height (pf_fb fb) <= size) (Hdumb : size < 2 ^ 32) :
  let pitch := nth 0 (fb_pitches (pf_fb fb)) 0 in
  dumb_offset fb r = 4 * rt_x1 r + pitch * rt_y1 r /\ rect_w r = rt_x2 r - rt_x1 r /\ rect_h r = rt_y2 r - rt_y1 r /\
  dumb_offset fb r + pitch * (rect_h r - 1) + 4 * rect_w r <= size.
Proof.
  cbv zeta. set (pitch := nth 0 _ 0) in *. unfold dumb_offset, rect_w, rect_h. fold pitch. rewrite Hcpp.
  assert (Hp : pitch * rt_y2 r <= size) by nia. assert (Hq : 4 * rt_x2 r <= pitch) by lia.
  rewrite (u32_small (rt_x1 r)), (u32_small (rt_y1 r)), (u32_small (rt_x1 r * 4)), (u32_small (rt_y1 r * pitch)),
    (u32_small (rt_x1 r * 4 + rt_y1 r * pitch)), (u32_small (rt_x2 r - rt_x1 r)), (u32_small (rt_y2 r - rt_y1 r)) by nia.
  split_and!; nia.
Qed.

(** ** Modes *)

(** On an output without an EDID whose size the host gave, the mode the driver adds as preferred is
    one it accepts, and so is the default mode; a preferred mode that is larger than the output, or
    smaller by more than sixteen pixels either way, is rejected. *)
Theorem preferred_mode_valid {B W} `{KE : !KmsEnv W} (d : vgdev B) i (w : W)
  (Hcvt : forall x y mode, drm_cvt_mode x y w = Some mode -> dm_hdisplay mode = x - x mod 8 /\ dm_vdisplay mode = y) :
  let width := info_width d i in let height := info_height d i in
  (forall mode, drm_cvt_mode width height w = Some mode ->
     virtio_gpu_conn_mode_valid d i (DrmMode (dm_hdisplay mode) (dm_vdisplay mode) true) = true) /\
  virtio_gpu_conn_mode_valid d i (DrmMode XRES_DEF YRES_DEF true) = true /\
  forall mode, dm_preferred mode = true -> (dm_hdisplay mode, dm_vdisplay mode) <> (XRES_DEF, YRES_DEF) ->
    virtio_gpu_conn_mode_valid d i mode = true <->
    width - 16 <= dm_hdisplay mode <= width /\ height - 16 <= dm_vdisplay mode <= height.
Proof.
  cbv zeta. split_and!.
  - intros mode Hm. destruct (Hcvt _ _ _ Hm) as [-> ->]. unfold virtio_gpu_conn_mode_valid. cbn [dm_preferred negb dm_hdisplay dm_vdisplay].
    case_if; [done|]. pose proof (Z.mod_pos_bound (info_width d i) 8). set (x := info_width d i) in *. set (y := info_height d i).
    rewrite !andb_true_iff, !Z.leb_le. lia.
  - done.
  - intros [h v p] Hp Hne. cbn in *. subst p. unfold virtio_gpu_conn_mode_valid. cbn [dm_preferred negb dm_hdisplay dm_vdisplay].
    destruct (Z.eqb_spec h XRES_DEF) as [->|], (Z.eqb_spec v YRES_DEF) as [->|]; try done; cbn [andb]; rewrite !andb_true_iff, !Z.leb_le; lia.
Qed.

(** ** Framebuffers *)

(** what framebuffers need of the DRM core: their memory and set-up do not touch the objects, and a
    reference put is given back *)
Class FbLaws {B : Type} (W : Type) `{GL : GemLaws W} `{KE : !KmsEnv W} (put : Z -> ST (dev_st B W) unit) : Prop := {
  fl_kzalloc w : gobs (snd (kzalloc_fb w)) = gobs w;
  fl_kfree a w : gobs (snd (kfree_fb a w)) = gobs w;
  fl_init a w : gobs (snd (drm_framebuffer_init a w)) = gobs w;
  fl_put o st rest : go_refs (gobs (snd st)) ≡ₚ o :: rest -> go_refs (gobs (snd (snd (put o st)))) ≡ₚ rest
}.

(** C32: Creating a user's framebuffer fails with ENOENT for a format the driver does not take, with EINVAL
    when the handle has no object, with ENOMEM without memory; when the DRM core refuses the
    framebuffer, with whatever error, the result is a null pointer, which is no error pointer;
    otherwise it is the framebuffer of that object, in the caller's layout. The framebuffer holds one
    reference of its object, and every failure gives the reference back. *)
Theorem framebuffer_create_balanced {B W} `{BO : BuddyOps B} `{PA : PoolApi W} `{CE : CtrlEnv W} `{OA : !ObjArrays W} `{BE : !BoEnv W}
  `{GL : GemLaws W} `{KE : !KmsEnv W} put `{FL : !FbLaws (B := B) W put} cmd (st : dev_st B W) :
  let '(r, st') := virtio_gpu_user_framebuffer_create put cmd st in
  let '(obj, w1) := drm_gem_object_lookup (fc_handle cmd) (snd st) in
  let '(mem, w2) := kzalloc_fb w1 in
  r = (if negb (fb_format_ok (fc_pixel_format cmd)) then FbErr (- ENOENT)
       else match obj, mem with
            | None, _ => FbErr (- EINVAL)
            | Some _, None => FbErr (- ENOMEM)
            | Some o, Some a =>
                if fst (drm_framebuffer_init a w2) =? 0 then FbOk (PlaneFb a o (fc_cpp cmd) (fc_fb cmd)) else FbNull
            end) /\
  go_refs (gobs (snd st')) ≡ₚ match r with FbOk fb => [pf_obj fb] | _ => [] end ++ go_refs (gobs (snd st)).
Proof.
  destruct st as [d w]. unfold virtio_gpu_user_framebuffer_create, on_world at 1. cbn [snd].
  pose proof (law_gem_lookup (fc_handle cmd) w) as L. destruct (drm_gem_object_lookup _ w) as [o w1].
  pose proof (fl_kzalloc (put := put) w1) as K. destruct (kzalloc_fb w1) as [mem w2] eqn:Ek. cbn [snd] in K.
  destruct (negb (fb_format_ok _)); [done|]. destruct o as [o|]; destruct L as [_ L]; [|done]. cbn [app snd] in L.
  unfold on_world at 1. rewrite Ek. destruct mem as [a|].
  - unfold virtio_gpu_framebuffer_init, on_world at 1. pose proof (fl_init (put := put) a w2) as I.
    destruct (drm_framebuffer_init a w2) as [ret w3]. cbn [fst snd] in *. unfold c_true. destruct (Z.eqb_spec ret 0) as [->|Hr]; cbn [negb].
    + split; [done|]. cbn [app pf_obj snd]. by rewrite I, K.
    + unfold on_world. pose proof (fl_kfree (put := put) a w3) as F. destruct (kfree_fb a w3) as [u w4]. cbn [snd] in F.
      pose proof (fl_put (put := put) o (d, w4) (go_refs (gobs w))) as P.
      split; [done|]. apply P. cbn [snd]. by rewrite F, I, K.
  - pose proof (fl_put (put := put) o (d, w2) (go_refs (gobs w))) as P.
    split; [done|]. apply P. cbn [snd]. by rewrite K.
Qed.

(** ** Pins *)

Section Pins.
Context {B W : Type} `{BO : BuddyOps B} `{PA : PoolApi W} `{GE : GemEnv W} `{PL : PrimeLaws W}.
Context (sleep : gpu_st W -> gpu_st W) (n : nat).
Context (Hsleep : forall st, pobs (snd (sleep st)) = pobs (snd st)).
Implicit Types (w : W) (st : dev_st B W) (m : gmap Z gpu_bo) (R X : gmultiset pheld).

Lemma importing_attach a attach buf c s X R m st ents data :
  importing a attach buf c s X R m st -> importing a attach buf c s X R m (snd (virtio_gpu_object_attach sleep n a ents data st)).
Proof.
  intros I. unfold virtio_gpu_object_attach. destruct (dv_bos (fst st) !! a) as [b|]; [|done]. case_if; [done|].
  unfold virtio_gpu_cmd_resource_attach_backing.
  match goal with |- context [issue sleep n ?c0 ?x ?r ?h ?cb ?f ?fe st] =>
    pose proof (importing_issue sleep n Hsleep a attach buf c s X R m st c0 x r h cb f fe I) as K;
    destruct (issue sleep n c0 x r h cb f fe st) as [r0 st1] end.
  eapply importing_on_bo; [|exact K]. by intros b' H1 H2.
Qed.

(** the mapping an import has, as what is held *)
Definition mapped (attach : Z) (s : option Z) : gmultiset pheld := match s with Some s => {[+ PMap attach s +]} | None => ∅ end.

Lemma prepare_imported_spec a attach buf c s0 R m st : importing a attach buf c s0 (mapped attach s0) R m st ->
  let '(ret, st') := virtio_gpu_prepare_imported_obj sleep n a attach buf st in
  (ret < 0 /\ importing a attach buf c s0 (mapped attach s0) R m st') \/
  (ret = 0 /\ exists s, importing a attach buf c (Some s) ({[+ PPin attach +]} ⊎ mapped attach (Some s)) R m st' /\
     forall s1, s0 = Some s1 -> s = s1).
Proof.
  intros I. unfold virtio_gpu_prepare_imported_obj.
  assert (K1 : importing a attach buf c s0 ({[+ PLock buf +]} ⊎ mapped attach s0) R m (snd (on_world (dmabuf_resv_lock buf) st)))
    by (eapply importing_world; [|exact I]; intros w' Ew; rewrite pl_lock, Ew; multiset_solver).
  assert (Hun : forall s X st', importing a attach buf c s ({[+ PLock buf +]} ⊎ X) R m st' ->
    importing a attach buf c s X R m (snd (on_world (dmabuf_resv_unlock buf) st')))
    by (intros s X st' K; eapply importing_world; [|exact K]; intros w' Ew; apply pl_unlock; rewrite Ew; multiset_solver).
  destruct (on_world (dmabuf_resv_lock buf) st) as [u1 [d1 w1]]. cbn [snd] in K1. clear I st.
  unfold on_world at 1. pose proof (pl_pin attach w1) as Pn. destruct (dma_buf_pin attach w1) as [r w2].
  destruct Pn as [P1 P2]. unfold c_true. destruct (Z.eqb_spec r 0) as [->|Hr]; cbn [negb].
  2:{ left. split; [lia|]. apply Hun. destruct K1 as [J1 J2]. split; [|done]. cbn [snd] in *. rewrite P2, J1. multiset_solver. }
  assert (K2 : importing a attach buf c s0 ({[+ PLock buf; PPin attach +]} ⊎ mapped attach s0) R m (d1, w2)).
  { destruct K1 as [J1 J2]. split; [|done]. cbn [snd] in *. rewrite P2, J1. multiset_solver. }
  clear K1 P1 P2. destruct s0 as [s0|].
  - destruct K2 as (J1 & b & J2 & J3 & J4 & J5 & J6). cbn [fst] in *. rewrite J2, lookup_insert_eq, J6.
    change (negb (bool_decide (is_Some (Some s0)))) with false. cbv iota. right. split; [done|]. exists s0.
    split; [|congruence]. apply Hun. split; [rewrite J1; multiset_solver|]. by exists b.
  - assert (E : (match dv_bos (fst (d1, w2)) !! a with Some b => negb (bool_decide (is_Some (bo_sgt b))) | None => false end) = true).
    { destruct K2 as (_ & b & J2 & _ & _ & _ & J6). by rewrite J2, lookup_insert_eq, J6. }
    rewrite E. clear E. pose proof (import_sgt_spec sleep Hsleep a attach buf c _ R m (d1, w2) K2) as S.
    destruct (virtgpu_dma_buf_import_sgt a attach (d1, w2)) as [[e|[ents data]] st3].
    + destruct S as [S1 S2].
      assert (K3 : importing a attach buf c None ({[+ PLock buf +]} ⊎ mapped attach None) R m (snd (on_world (dma_buf_unpin attach) st3)))
        by (eapply importing_world; [|exact S2]; intros w' Ew; apply pl_unpin; rewrite Ew; multiset_solver).
      destruct (on_world (dma_buf_unpin attach) st3) as [u st4]. left. split; [done|]. by apply Hun.
    + destruct S as (s & segs & w3 & _ & _ & S). apply (importing_attach _ _ _ _ _ _ _ _ _ ents data) in S.
      destruct (virtio_gpu_object_attach sleep n a ents data st3) as [u st4]. cbn [snd] in S. right. split; [done|]. exists s.
      split; [|done]. apply Hun. destruct S as [S1 S2]. split; [|done]. rewrite S1. cbn [mapped]. multiset_solver.
Qed.

End Pins.

(** C16: A plane that shows an imported buffer pins it while it is shown, and no longer: preparing the
    framebuffer fails with nothing pinned and no fence in the state, or it pins the buffer, gives
    the state a fence and maps the buffer unless it is mapped already; cleaning up then removes the
    pin and the fence, and only the mapping stays. *)
Theorem plane_pins_balanced {B W} `{BO : BuddyOps B} `{PA : PoolApi W} `{GE : GemEnv W} `{PL : PrimeLaws W} `{KE : !KmsEnv W}
  sleep n ty s fb a b attach buf (d : vgdev B) (w : W)
  (Hsleep : forall st, pobs (snd (sleep st)) = pobs (snd st))
  (Hhelper : forall w, pobs (snd (gem_plane_helper_prepare_fb w)) = pobs w)
  (Hfb : ps_fb s = Some fb) (Ha : pf_obj fb = a) (Hb : dv_bos d !! a = Some b) (Hi : bo_import b = Some (attach, buf))
  (Hv : bo_vram b = None) (Hg : bo_guest_blob b = true)
  (Hmap : exists R, pobs w = mapped attach (bo_sgt b) ⊎ R) :
  let '((ret, s'), (d', w')) := virtio_gpu_plane_prepare_fb sleep n ty s (d, w) in
  let new b' := if bo_sgt b is None then mapped attach (bo_sgt b') else ∅ in
  exists b', dv_bos d' = <[a := b']> (dv_bos d) /\ bo_import b' = Some (attach, buf) /\
  ((ret < 0 /\ ps_fence s' = None /\ bo_sgt b' = bo_sgt b /\ pobs w' = pobs w) \/
   (ret = 0 /\ is_Some (ps_fence s') /\ is_Some (bo_sgt b') /\ pobs w' = {[+ PPin attach +]} ⊎ (new b' ⊎ pobs w) /\
    let '(s2, (d2, w2)) := virtio_gpu_plane_cleanup_fb s' (d', w') in
    ps_fence s2 = None /\ dv_bos d2 = dv_bos d' /\ pobs w2 = new b' ⊎ pobs w)).
Proof.
  destruct Hmap as [R HR]. unfold virtio_gpu_plane_prepare_fb. rewrite Hfb. unfold on_world at 1.
  pose proof (Hhelper w) as Hw1. destruct (gem_plane_helper_prepare_fb w) as [u w1]. cbn [fst snd] in *. rewrite Ha, Hb, Hi, Hg.
  rewrite andb_false_r. change (bool_decide (is_Some (Some (attach, buf)))) with true. rewrite orb_true_r. cbn [andb].
  unfold fence_alloc, on_world at 1. pose proof (pl_fence w1) as Hw2. destruct (fence_kzalloc w1) as [fa w2]. cbn [snd] in Hw2.
  destruct fa as [fa|].
  2:{ cbn. exists b. split_and!; [by rewrite insert_id | done|]. left. split_and!; try done. congruence. }
  change (bool_decide (is_Some (Some fa))) with true. cbn [virtio_gpu_fence_alloc].
  set (f := Fence _ _ _ _ _). change (negb (bool_decide (is_Some (Some (fa, f))))) with false. cbv iota.
  assert (I : importing a attach buf (bo_created b) (bo_sgt b) (mapped attach (bo_sgt b)) R (dv_bos d) (d, w2)).
  { split; [cbn [snd]; congruence|]. exists b. by rewrite insert_id. }
  pose proof (prepare_imported_spec sleep n Hsleep a attach buf _ _ R (dv_bos d) (d, w2) I) as S.
  destruct (virtio_gpu_prepare_imported_obj _ _ _ _ _ _) as [ret [d3 w3]]. unfold c_true.
  destruct S as [[S1 (S2 & b' & S3 & S4 & S5 & S6 & S7)]|(-> & sg & (S2 & b' & S3 & S4 & S5 & S6 & S7) & S8)].
  - destruct (Z.eqb_spec ret 0); [lia|]. cbn [negb]. unfold on_world. pose proof (pl_fence_put fa w3) as Q.
    destruct (dma_fence_put fa w3) as [u4 w4]. cbn [snd fst] in *. exists b'. split_and!; [done | done|]. left. split_and!; try done. congruence.
  - change (0 =? 0) with true. cbn [negb fst snd ps_set_fence ps_fence] in *. exists b'. split_and!; [done | done|]. right.
    assert (E : {[+ PPin attach +]} ⊎ mapped attach (Some sg) ⊎ R =
      {[+ PPin attach +]} ⊎ ((if bo_sgt b is None then mapped attach (bo_sgt b') else ∅) ⊎ pobs w)).
    { rewrite HR, S7. destruct (bo_sgt b) as [s1|]; [rewrite (S8 s1 eq_refl)|]; multiset_solver. }
    split_and!; [done | done | by rewrite S7 | by rewrite S2|]. unfold virtio_gpu_plane_cleanup_fb.
    cbn [ps_set_fence ps_fb ps_fence]. rewrite Hfb. unfold virtio_gpu_cleanup_imported_obj, on_world.
    cbn [fst snd]. pose proof (pl_fence_put fa w3) as Q.
    destruct (dma_fence_put fa w3) as [u4 w4]. cbn [snd fst] in *. rewrite Ha, S3, lookup_insert_eq, S4.
    pose proof (pl_lock buf w4) as Q1. destruct (dmabuf_resv_lock buf w4) as [u5 w5]. cbn [snd] in Q1.
    set (T := (if bo_sgt b is None then mapped attach (bo_sgt b') else ∅) ⊎ pobs w) in *.
    pose proof (pl_unpin attach w5 ({[+ PLock buf +]} ⊎ T)) as Q2. destruct (dma_buf_unpin attach w5) as [u6 w6]. cbn [snd] in Q2.
    pose proof (pl_unlock buf w6 T) as Q3. destruct (dmabuf_resv_unlock buf w6) as [u7 w7]. cbn [snd fst] in *.
    split_and!; [done | done|]. apply Q3, Q2. rewrite Q1, Q, S2, E. multiset_solver.
Qed.

(** ** Sample worlds *)

(** a DRM core that grants everything and leaves the world alone *)
Definition plain_kms {W : Type} (init : W -> Z) : KmsEnv W := {|
  damage_merged w old s := Some (DrmRect 0 0 64 32); get_crtc_state w i := 0; check_plane_state w s p := 0;
  gem_plane_helper_prepare_fb w := (tt, w); dma_fence_wait_timeout f ms w := (1, w);
  shmem_vaddr w a := true; shmem_has_pages w a := true; kzalloc_fb w := (Some 600, w); kfree_fb a w := (tt, w);
  drm_framebuffer_init a w := (init w, w);
  crtc_vblank_on i w := (tt, w); crtc_vblank_off i w := (tt, w); crtc_vblank_get i w := (0, w);
  crtc_arm_vblank_event i w := (tt, w); crtc_send_vblank_event i w := (tt, w);
  edid_add_modes i w := (0, w); add_modes_noedid i x y w := (1, w); set_preferred_mode i x y w := (tt, w);
  drm_cvt_mode x y w := Some (DrmMode (x - x mod 8) y false); mode_probed_add i m w := (tt, w);
  plane_alloc ty c f w := (inr 700, w); enable_damage_clips p w := (tt, w); crtc_init_with_planes i p c w := (0, w);
  connector_init i e w := (tt, w); encoder_init i c w := (tt, w); mode_config_init w := (0, w); vblank_init n w := (0, w);
  mode_config_reset w := (tt, w) |}.
#[export] Instance toy_share_kms : KmsEnv toy_share := plain_kms (fun _ => 0).
#[export] Instance toy_job_kms : KmsEnv toy_job := plain_kms (fun w => if tj_events w then 0 else - EINVAL).
(** memory is short from the fifth buffer on *)
#[export] Instance toy_queue_panic : PanicEnv toy_queue := {
  vbuf_zalloc_atomic w := if decide (size (cq_live (tq_obs w)) < 4)%nat then (Some (fst (vbuf_zalloc w)), snd (vbuf_zalloc w)) else (None, w);
  arr_alloc_header w := (true, w)
}.
#[export] Instance toy_queue_panic_laws : PanicLaws (W := toy_queue).
Proof.
  split; try done.
  - intros w a w1. cbn. case_decide; [|done]. by intros [= <- <-].
  - intros v w. cbn. split; [lia | done].
Qed.

(** a dumb framebuffer of 640 by 480 pixels, and the plane that shows it *)
Definition dumb_bo : gpu_bo := Bo 7 1228800 true true true false false 0 0 0 [] None None None.
Definition dumb_fb : plane_fb := PlaneFb 600 100 4 (Framebuffer DRM_FORMAT_XRGB8888 640 480 [2560; 0; 0; 0] [0; 0; 0; 0]).
Definition shown (fb : plane_fb) : plane_state :=
  PlaneState (Some fb) (Some 0%nat) 0 0 (Z.shiftl 640 16) (Z.shiftl 480 16) 0 0 640 480 0 0 true false None.
Definition dumb_dev : vgdev unit := dv_set_bos share_dev {[ 100 := dumb_bo ]}.

Lemma panic_flush_as_normal_witness :
  let '(e, (d, w)) := virtio_panic_flush (shown dumb_fb) dumb_fb (dumb_dev, empty_queue 4) in
  e = PanicEnd false true /\ g_seqno (dv_gpu d) = g_seqno (dv_gpu dumb_dev) + 2 /\ g_pending (dv_gpu d) = 0 /\
  (cmd_type ∘ vb_cmd <$> cq_ring (tq_obs w)) = [VIRTIO_GPU_CMD_TRANSFER_TO_HOST_2D; VIRTIO_GPU_CMD_RESOURCE_FLUSH].
Proof.
  rewrite (panic_flush_as_normal (fun st => st) 0 (shown dumb_fb) dumb_fb (dumb_dev, empty_queue 4)).
  - by vm_compute.
  - split; [done | by vm_compute].
  - split; intros; [done | vm_compute; by eexists..].
Defined.

Lemma dumb_upload_in_bounds_witness :
  let r := DrmRect 16 8 80 40 in
  dumb_offset dumb_fb r = 20544 /\ dumb_offset dumb_fb r + 2560 * (rect_h r - 1) + 4 * rect_w r <= 1228800.
Proof.
  intros r. destruct (dumb_upload_in_bounds dumb_fb r 1228800 eq_refl ltac:(cbn; lia) ltac:(cbn; lia) ltac:(cbn; lia)
    ltac:(cbn; lia) ltac:(cbn; lia) ltac:(cbn; lia) ltac:(lia)) as (T1 & _ & _ & T2).
  split; [rewrite T1; reflexivity | exact T2].
Defined.

Definition wide_dev : vgdev unit := dv_set_display share_dev false [DisplayOne (GpuRect 0 0 1366 768) 1 0].
Lemma preferred_mode_valid_witness :
  virtio_gpu_conn_mode_valid wide_dev 0 (DrmMode 1360 768 true) = true /\
  virtio_gpu_conn_mode_valid wide_dev 0 (DrmMode 1340 768 true) = false.
Proof.
  destruct (preferred_mode_valid (KE := toy_share_kms) wide_dev 0 share_start ltac:(intros x y mode Hm; cbn in Hm; injection Hm as <-; by split)) as (T1 & _ & T3). split.
  - apply (T1 (DrmMode 1360 768 false)). by vm_compute.
  - destruct (virtio_gpu_conn_mode_valid wide_dev 0 (DrmMode 1340 768 true)) eqn:E; [|done].
    apply T3 in E; [|done..]. exfalso. revert E. vm_compute. intros [[H _] _]. by apply H.
Defined.

#[export] Instance toy_job_fb_laws : FbLaws (B := unit) toy_job (fun o => on_world (drm_gem_object_put o)).
Proof.
  split; try done. intros o [d w] rest Hp. unfold on_world. cbn in *. by apply remove_one_perm.
Defined.

(** the core refuses the framebuffer: a null pointer, and the reference is back *)
Lemma framebuffer_create_balanced_witness :
  let '(r, st) := virtio_gpu_user_framebuffer_create (fun o => on_world (drm_gem_object_put o))
                    (FbCmd DRM_FORMAT_XRGB8888 5 4 (pf_fb dumb_fb)) (job_dev, job_world false) in
  r = FbNull /\ go_refs (gobs (snd st)) ≡ₚ [7].
Proof.
  pose proof (framebuffer_create_balanced (fun o => on_world (drm_gem_object_put o))
    (FbCmd DRM_FORMAT_XRGB8888 5 4 (pf_fb dumb_fb)) (job_dev, job_world false)) as T.
  destruct (virtio_gpu_user_framebuffer_create _ _ _) as [r st]. destruct T as [-> T]. split; [done | exact T].
Defined.

(** an imported buffer, not mapped, on the cursor plane *)
Definition unmapped_bo : gpu_bo := Bo 78 8192 false true false true false 1 2 0 [] None None (Some (31, 9)).
Definition share_fb : plane_fb := PlaneFb 601 400 4 (Framebuffer DRM_FORMAT_ARGB8888 64 32 [256; 0; 0; 0] [0; 0; 0; 0]).

Lemma plane_pins_balanced_witness :
  let st := (dv_set_bos share_dev {[ 400 := unmapped_bo ]}, share_start) in
  let '((ret, s'), st') := virtio_gpu_plane_prepare_fb (fun st => st) 1 PlaneCursor (shown share_fb) st in
  ret = 0 /\ PPin 31 ∈ th_held (snd st') /\ PPin 31 ∉ th_held (snd (snd (virtio_gpu_plane_cleanup_fb s' st'))).
Proof.
  intros st. pose proof (plane_pins_balanced (fun st => st) 1 PlaneCursor (shown share_fb) share_fb 400 unmapped_bo 31 9
    (dv_set_bos share_dev {[ 400 := unmapped_bo ]}) share_start ltac:(done) ltac:(done) eq_refl eq_refl eq_refl eq_refl eq_refl
    eq_refl ltac:(exists (pobs share_start); cbn; multiset_solver)) as T.
  assert (E : fst (fst (virtio_gpu_plane_prepare_fb (fun st => st) 1 PlaneCursor (shown share_fb) st)) = 0) by (by vm_compute).
  destruct (virtio_gpu_plane_prepare_fb _ _ _ _ _) as [[ret s'] [d' w']]. cbn [fst] in E. subst ret.
  destruct T as (b' & _ & _ & [[T _]|(_ & _ & [sg Hs] & T1 & T2)]); [lia|]. cbn [bo_sgt unmapped_bo] in T1, T2. rewrite Hs in *.
  cbn [snd] in *. change (pobs w' : gmultiset pheld) with (th_held w') in T1. split_and!; [done | rewrite T1; multiset_solver|].
  destruct (virtio_gpu_plane_cleanup_fb s' (d', w')) as [s2 [d2 w2]]. destruct T2 as (_ & _ & T2).
  change (pobs w2 : gmultiset pheld) with (th_held w2) in T2. cbn [snd]. rewrite T2. change (pobs share_start) with ({[+ PBuf 9 +]} : gmultiset pheld).
  unfold mapped. multiset_solver.
Defined.
