(* ===== verification/Kms.v ===== *)
(** * Bring-up and tear-down (virtio_gpu/virtgpu_kms.c and virtgpu_drv.c)

    Probe and initialisation with their error labels, the search for the host's pool in the device
    tree, capability-set discovery, the configuration worker, open and close of a file, and the
    release of the device. What the kernel does is the class [BootEnv]; the device's answers during a
    wait are the parameter [wait], and [flush] is what a flushed work item does. *)

From stdpp Require Import gmap.
From S2P Require Import Prelude PoolCtl GuestPool Wire Fence ObjArray CtrlQueue GpuDev GpuCmds VramObj Submit Prime Ioctl Display.

Definition VIRTIO_F_VERSION_1 : Z := 32.
Definition VIRTIO_F_ACCESS_PLATFORM : Z := 33.
Definition VIRTIO_RING_F_INDIRECT_DESC : Z := 28.
Definition VIRTIO_GPU_F_VIRGL : Z := 0.
Definition VIRTIO_GPU_F_EDID : Z := 1.
Definition VIRTIO_GPU_F_RESOURCE_UUID : Z := 2.
Definition VIRTIO_GPU_F_RESOURCE_BLOB : Z := 3.
Definition VIRTIO_GPU_F_CONTEXT_INIT : Z := 4.
Definition VIRTIO_GPU_F_CREATE_GUEST_HANDLE : Z := 6.
Definition VIRTIO_GPU_EVENT_DISPLAY : Z := 1.
Definition VIRTIO_GPU_MAX_SCANOUTS : nat := 16.
Definition UINT_MAX : Z := 2 ^ 32 - 1.

(** the names of the host pools' nodes, in the order they are looked for *)
Inductive pool_node := GfxHost | Drm2kgslHost | VenusHost.
#[export] Instance pool_node_eq_dec : EqDecision pool_node.
Proof. solve_decision. Defined.

Inductive gpu_work := WorkObjFree | WorkCtrlDequeue | WorkCursorDequeue | WorkConfigChanged.

(** device-tree nodes are given by address *)
Class BootEnv (W : Type) := {
  of_find_reserved_memory : ST W (option Z);
  of_get_next_child : Z -> option Z -> ST W (option Z);      (* parent, previous: its reference goes *)
  of_node_name_prefix : W -> Z -> pool_node -> bool;
  of_address_to_resource : W -> Z -> option Z;               (* [res.start] *)
  of_node_put : Z -> ST W unit;
  pool_dt : W -> option (list dt_child);                     (* what the pool's set-up reads there *)
  virtio_has_feature : W -> Z -> bool;
  virglhack_param : W -> bool;
  kms_enabled : bool;
  cread_events : W -> Z;
  cwrite_events_clear : Z -> ST W unit;
  cread_num_scanouts : W -> Z;
  cread_num_capsets : W -> Z;
  hpd_irq_event : ST W unit;
  drmm_kcalloc_capsets : Z -> ST W bool;
  drmm_kfree_capsets : ST W unit;
  drmm_kzalloc_vgdev : ST W bool;
  fence_context_alloc : ST W Z;                               (* [dma_fence_context_alloc(1)] *)
  virtio_get_shm_region : W -> option (Z * Z);               (* address, length *)
  devm_request_mem_region : Z -> Z -> ST W bool;
  drm_mm_init : Z -> Z -> ST W unit;
  drm_mm_takedown : ST W unit;
  virtio_find_vqs : ST W Z;
  del_vqs : ST W unit;
  kmem_cache_create : ST W bool;
  kmem_cache_destroy : ST W unit;
  virtio_device_ready : ST W unit;
  virtio_reset_device : ST W unit;
  schedule_work : gpu_work -> ST W unit;
  kzalloc_fpriv : ST W (option Z);
  kfree_fpriv : Z -> ST W unit;
  ctx_ida_alloc : ST W Z;
  ctx_ida_free : Z -> ST W unit;
  drm_dev_alloc : ST W Z;                                    (* 0 or an errno *)
  drm_dev_put : ST W bool;                                   (* it was the last reference *)
  dev_is_pci : W -> bool;
  parent_is_vga : W -> bool;                                 (* [pci_is_vga] of the parent device *)
  pci_is_vga : W -> Z -> bool;
  aperture_remove : ST W Z;
  dma_max_mapping_size : W -> Z;
  dma_set_max_seg_size : Z -> ST W unit;
  drm_dev_register : ST W Z;
  drm_dev_unplug : ST W unit;
  drm_client_setup : ST W unit;
  drm_atomic_helper_shutdown : ST W unit;
  pci_get_device : ST W (option Z);
  pci_dev_put : Z -> ST W unit;
  vga_get_interruptible : Z -> ST W Z;
  vga_put : Z -> ST W unit;
  register_virtio_driver : ST W Z
}.

(** ** The host's pool in the device tree *)

Section Tree.
Context {W : Type} `{KB : BootEnv W}.

(** [for_each_child_of_node] with its body; [None]: the fuel ran out *)
Fixpoint find_pool_child (fuel : nat) (rmem : Z) (prefix : pool_node) (prev : option Z) : ST W (option Z) := fun w =>
  match fuel with
  | O => (None, w)
  | S fuel' =>
      let '(child, w1) := of_get_next_child rmem prev w in
      match child with
      | None => (Some 0, w1)
      | Some c =>
          if negb (of_node_name_prefix w1 c prefix) then find_pool_child fuel' rmem prefix (Some c) w1
          else match of_address_to_resource w1 c with
               | Some start => (Some start, snd (of_node_put c w1))
               | None => find_pool_child fuel' rmem prefix (Some c) w1
               end
      end
  end.

Definition virtio_gpu_find_pool_base_named (fuel : nat) (prefix : pool_node) : ST W (option Z) := fun w =>
  let '(rmem, w1) := of_find_reserved_memory w in
  match rmem with
  | None => (Some 0, w1)
  | Some rmem =>
      let '(base, w2) := find_pool_child fuel rmem prefix None w1 in
      (base, snd (of_node_put rmem w2))
  end.

(** the base (0: none) and the node it was looked for in last *)
Definition virtio_gpu_find_pool_base (fuel : nat) : ST W (option (Z * pool_node)) := fun w =>
  let '(b1, w1) := virtio_gpu_find_pool_base_named fuel GfxHost w in
  match b1 with
  | None => (None, w1)
  | Some b1 =>
      if c_true b1 then (Some (b1, GfxHost), w1)
      else
        let '(b2, w2) := virtio_gpu_find_pool_base_named fuel Drm2kgslHost w1 in
        match b2 with
        | None => (None, w2)
        | Some b2 =>
            if c_true b2 then (Some (b2, Drm2kgslHost), w2)
            else
              let '(b3, w3) := virtio_gpu_find_pool_base_named fuel VenusHost w2 in
              (option_map (fun b3 => (b3, VenusHost)) b3, w3)
        end
  end.
End Tree.

(** ** The driver's state *)

(** beside [vgdev] and the outputs: whether [dev_private] is set, what the device was found to have, the
    driver's modesetting features, the host pool's base, and whether the buffer cache exists *)
Record drv := Drv {
  dr_private : bool; dr_ft : features; dr_modeset : bool; dr_pool_base : Z; dr_vbufs : bool
}.
Definition no_features : features := Features false false false false false false 0 None.
Definition drv_zero : drv := Drv false no_features true 0 false.
Definition dr_set_private (x : bool) (r : drv) : drv := Drv x (dr_ft r) (dr_modeset r) (dr_pool_base r) (dr_vbufs r).
Definition dr_set_ft (x : features) (r : drv) : drv := Drv (dr_private r) x (dr_modeset r) (dr_pool_base r) (dr_vbufs r).
Definition dr_set_modeset (x : bool) (r : drv) : drv := Drv (dr_private r) (dr_ft r) x (dr_pool_base r) (dr_vbufs r).
Definition dr_set_base (x : Z) (r : drv) : drv := Drv (dr_private r) (dr_ft r) (dr_modeset r) x (dr_vbufs r).
Definition dr_set_vbufs (x : bool) (r : drv) : drv := Drv (dr_private r) (dr_ft r) (dr_modeset r) (dr_pool_base r) x.
Definition ft_set_region (x : option Z) (f : features) : features :=
  Features (ft_virgl_3d f) (ft_resource_blob f) true (ft_assign_uuid f) (ft_context_init f) (ft_guest_handle f) (ft_capset_id_mask f) x.
Definition ft_set_mask (x : Z) (f : features) : features :=
  Features (ft_virgl_3d f) (ft_resource_blob f) (ft_host_visible f) (ft_assign_uuid f) (ft_context_init f) (ft_guest_handle f) x
    (ft_region f).

Section Kms.
Context {B W : Type} `{BO : BuddyOps B} `{PA : PoolApi W} `{CE : CtrlEnv W} `{OA : !ObjArrays W} `{BE : !BoEnv W}
  `{KE : !KmsEnv W} `{KB : !BootEnv W}.
Context (sleep : gpu_st W -> gpu_st W) (lock : gp_st B W -> gp_st B W) (fuel : nat).
Abbreviation dev_st := (dev_st B W).
Abbreviation kms_st := (@kms_st B W).
(** what happens while [resp_wq] is waited on, at most five seconds *)
Context (wait : dev_st -> dev_st).
(** [1 << id], an [int]: for ids above 30 the standard does not say *)
Context (shl_int : Z -> Z).

(** ** The configuration worker *)

Definition virtio_gpu_config_changed_work_func : ST dev_st unit := fun st =>
  let events_read := cread_events (snd st) in
  let '(events_clear, st1) :=
    if c_true (Z.land events_read VIRTIO_GPU_EVENT_DISPLAY) then
      (VIRTIO_GPU_EVENT_DISPLAY,
       if negb (dv_num_scanouts (fst st) =? 0)%nat then
         let st1 := if dv_has_edid (fst st) then snd (virtio_gpu_cmd_get_edids sleep fuel st) else st in
         let '(_, st2) := virtio_gpu_cmd_get_display_info sleep fuel st1 in
         let '(_, st3) := notify st2 in
         snd (on_world hpd_irq_event st3)
       else st)
    else (0, st) in
  on_world (cwrite_events_clear events_clear) st1.

(** ** Capability sets *)

Definition dv_set_num_capsets (d : vgdev B) (n : Z) : vgdev B :=
  VgDev (dv_gpu d) (dv_pool d) (dv_bos d) (dv_virglhack d) (dv_res_seqno d) (dv_has_edid d) (dv_use_dma_api d)
    (dv_display_pending d) (dv_num_scanouts d) (dv_outputs d) (dv_edids d) (dv_capsets d) n (dv_cap_cache d).
Definition capset_id (d : vgdev B) (i : Z) : Z :=
  match dv_capsets d with Some l => cs_id (nth (Z.to_nat i) l (Capset 0 0 0)) | None => 0 end.

(** whether all were found, with the mask *)
Fixpoint get_capsets_from (n : nat) (i mask : Z) : ST dev_st (bool * Z) := fun st =>
  match n with
  | O => ((true, mask), st)
  | S n' =>
      let '(_, st1) := virtio_gpu_cmd_get_capset_info sleep fuel i st in
      let '(_, st2) := notify st1 in
      let st3 := wait st2 in
      let id := capset_id (fst st3) i in
      let ret := if id >? 0 then 1 else 0 in
      let invalid := negb (c_true id) || (id >? MAX_CAPSET_ID) in
      if (ret =? 0) || invalid then
        let '(_, (d4, w4)) := on_world drmm_kfree_capsets st3 in ((false, mask), (dv_set_capsets d4 None, w4))
      else get_capsets_from n' (i + 1) (Z.lor mask (u64 (shl_int id))) st3
  end.

(** the mask, over the device *)
Definition virtio_gpu_get_capsets (num_capsets : Z) : ST (Z * dev_st) unit := fun '(mask, (d, w)) =>
  let '(ok, w1) := drmm_kcalloc_capsets num_capsets w in
  if negb ok then (tt, (mask, (dv_set_capsets d None, w1)))
  else
    let n := Z.to_nat num_capsets in
    let '((found, mask), (d1, w1)) := get_capsets_from n 0 mask (dv_set_capsets d (Some (replicate n (Capset 0 0 0))), w1) in
    (tt, (mask, ((if found then dv_set_num_capsets d1 (u32 num_capsets) else d1), w1))).

(** ** The buffer cache *)

(** 0, or [-ENOMEM] *)
Definition virtio_gpu_alloc_vbufs : ST W Z := fun w =>
  let '(ok, w1) := kmem_cache_create w in ((if ok then 0 else - ENOMEM), w1).
Definition virtio_gpu_free_vbufs : ST W unit := kmem_cache_destroy.

(** ** Initialisation *)

Definition drv_st : Type := drv * kms_st.
Definition on_kms_st {A} (m : ST kms_st A) : ST drv_st A := fun '(r, k) => let '(a, k1) := m k in (a, (r, k1)).
Definition on_dev_st {A} (m : ST dev_st A) : ST drv_st A := on_kms_st (on_kms m).
Definition on_w {A} (m : ST W A) : ST drv_st A := on_dev_st (on_world m).
Definition upd_drv (f : drv -> drv) : ST drv_st unit := fun '(r, k) => (tt, (f r, k)).
Definition the_dev (st : drv_st) : vgdev B := fst (snd (snd st)).
Definition the_world (st : drv_st) : W := snd (snd (snd st)).

Definition no_output : output := Output 0 false false (Cursor false 0 0 0 0 0).
(** the zeroed device; [mm] is the zeroed buddy allocator *)
Definition vgdev_zero (mm : B) (w : W) : vgdev B :=
  VgDev (Gpu false 0 0 (fence_driver_init 0) []) (GuestPool false 0 0 0 0 0 0 mm false false) ∅ (virglhack_param w) 0
    false (virtio_has_feature w VIRTIO_F_ACCESS_PLATFORM) false 0
    (replicate VIRTIO_GPU_MAX_SCANOUTS (DisplayOne (GpuRect 0 0 0 0) 0 0)) (replicate VIRTIO_GPU_MAX_SCANOUTS 0) None 0 [].

(** the features read before the host-visible region is reserved; the guest is little endian *)
Definition init_features (w : W) : features :=
  Features (virtio_has_feature w VIRTIO_GPU_F_VIRGL) (virtio_has_feature w VIRTIO_GPU_F_RESOURCE_BLOB) false
    (virtio_has_feature w VIRTIO_GPU_F_RESOURCE_UUID) false false 0 None.
Definition init_late_features (w : W) (f : features) : features :=
  Features (ft_virgl_3d f) (ft_resource_blob f) (ft_host_visible f) (ft_assign_uuid f)
    (virtio_has_feature w VIRTIO_GPU_F_CONTEXT_INIT) (virtio_has_feature w VIRTIO_GPU_F_CREATE_GUEST_HANDLE)
    (ft_capset_id_mask f) (ft_region f).
Definition dv_set_edid_feature (x : bool) (d : vgdev B) : vgdev B :=
  VgDev (dv_gpu d) (dv_pool d) (dv_bos d) (dv_virglhack d) (dv_res_seqno d) x (dv_use_dma_api d)
    (dv_display_pending d) (dv_num_scanouts d) (dv_outputs d) (dv_edids d) (dv_capsets d) (dv_num_capsets d) (dv_cap_cache d).
Definition dv_set_num_scanouts (n : nat) (d : vgdev B) : vgdev B :=
  VgDev (dv_gpu d) (dv_pool d) (dv_bos d) (dv_virglhack d) (dv_res_seqno d) (dv_has_edid d) (dv_use_dma_api d)
    (dv_display_pending d) n (dv_outputs d) (dv_edids d) (dv_capsets d) (dv_num_capsets d) (dv_cap_cache d).

(** the zeroed device with its locks, lists and works, and the first features *)
Definition init_device (mm : B) : ST drv_st unit := fun '(r, (_, (_, w))) =>
  let '(context, w1) := fence_context_alloc w in
  let d := dv_set_edid_feature (virtio_has_feature w1 VIRTIO_GPU_F_EDID) (vgdev_zero mm w1) in
  let g := Gpu (virtio_has_feature w1 VIRTIO_RING_F_INDIRECT_DESC) 0 0 (fence_driver_init context) [] in
  (tt, (dr_set_ft (init_features w1) (dr_set_private true r), (replicate VIRTIO_GPU_MAX_SCANOUTS no_output, (dv_set_gpu d g, w1)))).

(** the host-visible window *)
Definition init_window : ST drv_st Z := fun st =>
  match virtio_get_shm_region (the_world st) with
  | None => (0, st)
  | Some (addr, len) =>
      let '(ok, st1) := on_w (devm_request_mem_region addr len) st in
      if negb ok then (- EBUSY, st1)
      else
        let '(_, st2) := upd_drv (fun r => dr_set_ft (ft_set_region (Some addr) (dr_ft r)) r) st1 in
        let '(_, st3) := on_w (drm_mm_init addr len) st2 in (0, st3)
  end.

(** the two pools; what goes wrong there stops nothing *)
Definition init_pools : ST drv_st unit := fun st =>
  let '(_, st1) := upd_drv (fun r => dr_set_ft (init_late_features (the_world st) (dr_ft r)) r) st in
  let '(base, st2) := on_w (virtio_gpu_find_pool_base fuel) st1 in
  let '(_, st3) := upd_drv (dr_set_base (match base with Some (b, _) => b | None => 0 end)) st2 in
  let dt := pool_dt (the_world st3) in
  let '(_, st4) := on_dev_st (on_pool (fun '(p, w) => let '(ret, p1) := virtio_gpu_guest_pool_init dt p in (ret, (p1, w)))) st3 in
  (tt, st4).

Definition init_err_vqs (ret : Z) : ST drv_st Z := fun st => (ret, snd (upd_drv (dr_set_private false) st)).
Definition init_err_vbufs (ret : Z) : ST drv_st Z := fun st => init_err_vqs ret (snd (on_w del_vqs st)).
Definition init_err_scanouts (ret : Z) : ST drv_st Z := fun st =>
  init_err_vbufs ret (snd (upd_drv (dr_set_vbufs false) (snd (on_w virtio_gpu_free_vbufs st)))).

(** [min_t(uint32_t, num_scanouts, 16)]; none, and no EDIDs, without modesetting *)
Definition init_scanouts : ST drv_st unit := fun '(r, (os, (d, w))) =>
  let n := Z.to_nat (Z.min (u32 (cread_num_scanouts w)) (Z.of_nat VIRTIO_GPU_MAX_SCANOUTS)) in
  if negb kms_enabled || (n =? 0)%nat
  then (tt, (dr_set_modeset false r, (os, (dv_set_edid_feature false (dv_set_num_scanouts 0 d), w))))
  else (tt, (r, (os, (dv_set_num_scanouts n d, w)))).

Definition get_capsets_drv (num : Z) : ST drv_st unit := fun '(r, (os, st)) =>
  let '(_, (mask, st1)) := virtio_gpu_get_capsets num (ft_capset_id_mask (dr_ft r), st) in
  (tt, (dr_set_ft (ft_set_mask mask (dr_ft r)) r, (os, st1))).

(** the first questions to the device, once it runs *)
Definition init_start (num_capsets : Z) : ST drv_st unit := fun st =>
  let '(_, st1) := on_w virtio_device_ready st in
  let st2 := if c_true num_capsets then snd (get_capsets_drv (s32 num_capsets) st1) else st1 in
  if (dv_num_scanouts (the_dev st2) =? 0)%nat then (tt, st2)
  else
    on_dev_st (fun st =>
      let st1 := if dv_has_edid (fst st) then snd (virtio_gpu_cmd_get_edids sleep fuel st) else st in
      let '(_, st2) := virtio_gpu_cmd_get_display_info sleep fuel st1 in
      let '(_, st3) := notify st2 in (tt, wait st3)) st2.

Definition virtio_gpu_init (mm : B) : ST drv_st Z := fun st =>
  if negb (virtio_has_feature (the_world st) VIRTIO_F_VERSION_1) then (- ENODEV, st)
  else
    let '(ok, st1) := on_w drmm_kzalloc_vgdev st in
    if negb ok then (- ENOMEM, st1)
    else
      let '(_, st2) := init_device mm st1 in
      let '(ret, st3) := init_window st2 in
      if c_true ret then init_err_vqs ret st3
      else
        let '(_, st4) := init_pools st3 in
        let '(ret, st5) := on_w virtio_find_vqs st4 in
        if c_true ret then init_err_vqs ret st5
        else
          let '(ret, st6) := on_w virtio_gpu_alloc_vbufs st5 in
          if c_true ret then init_err_vbufs ret st6
          else
            let '(_, st7) := upd_drv (dr_set_vbufs true) st6 in
            let '(_, st8) := init_scanouts st7 in
            let num_capsets := u32 (cread_num_capsets (the_world st8)) in
            let '(ret, st9) := on_kms_st virtio_gpu_modeset_init st8 in
            if c_true ret then init_err_scanouts ret st9
            else let '(_, st10) := init_start num_capsets st9 in (0, st10).

(** ** Tear-down *)

(** what the work does when it is flushed *)
Context (flush : gpu_work -> dev_st -> dev_st).
Definition flush_work (k : gpu_work) : ST drv_st unit := on_dev_st (fun st => (tt, flush k st)).

Definition virtio_gpu_cleanup_cap_cache : ST dev_st unit := fun '(d, w) =>
  (tt, (d, foldl (fun w (_ : cap_cache) => snd (kfree_buf (snd (kfree_buf w)))) w (dv_cap_cache d))).

Definition virtio_gpu_deinit : ST drv_st unit := fun st =>
  let '(_, st1) := flush_work WorkObjFree st in
  let '(_, st2) := flush_work WorkCtrlDequeue st1 in
  let '(_, st3) := flush_work WorkCursorDequeue st2 in
  let '(_, st4) := flush_work WorkConfigChanged st3 in
  let '(_, st5) := on_w virtio_reset_device st4 in
  on_w del_vqs st5.

Definition virtio_gpu_release : ST drv_st unit := fun st =>
  if negb (dr_private (fst st)) then (tt, st)
  else
    let '(_, st1) := on_dev_st virtio_gpu_modeset_fini st in
    let '(_, st2) := on_w virtio_gpu_free_vbufs st1 in
    let '(_, st3) := upd_drv (dr_set_vbufs false) st2 in
    let '(_, st4) := on_dev_st virtio_gpu_cleanup_cap_cache st3 in
    let '(_, st5) := on_dev_st (on_pool (virtio_gpu_guest_pool_fini lock)) st4 in
    if ft_host_visible (dr_ft (fst st5)) then on_w drm_mm_takedown st5 else (tt, st5).

(** ** Files *)

(** [file->driver_priv]: the address, and what it holds *)
Definition virtio_gpu_driver_open (ft : features) : ST W (Z * option (Z * fpriv)) := fun w =>
  if negb (ft_virgl_3d ft) then ((0, None), w)
  else
    let '(a, w1) := kzalloc_fpriv w in
    match a with
    | None => ((- ENOMEM, None), w1)
    | Some a =>
        let '(handle, w2) := ctx_ida_alloc w1 in
        if handle <? 0 then ((handle, None), snd (kfree_fpriv a w2))
        else ((0, Some (a, Fpriv (u32 (handle + 1)) 0 false 0 0 0 [] false)), w2)
    end.

Definition virtio_gpu_driver_postclose (ft : features) (priv : option (Z * fpriv)) : ST dev_st (option (Z * fpriv)) := fun st =>
  if negb (ft_virgl_3d ft) then (priv, st)
  else
    match priv with
    | None => (None, st)
    | Some (a, f) =>
        let st1 := if fp_context_created f
                   then snd (notify (snd (virtio_gpu_cmd_context_destroy sleep fuel (fp_ctx_id f) st))) else st in
        let '(_, st2) := on_world (ctx_ida_free (u32 (fp_ctx_id f - 1))) st1 in
        (None, snd (on_world (kfree_fpriv a) st2))
    end.

(** ** The driver (virtgpu_drv.c) *)

Definition virtio_gpu_ctrl_ack : ST W unit := schedule_work WorkCtrlDequeue.
Definition virtio_gpu_cursor_ack : ST W unit := schedule_work WorkCursorDequeue.
Definition virtio_gpu_config_changed : ST W unit := schedule_work WorkConfigChanged.

Definition virtio_gpu_pci_quirk : ST W Z := fun w =>
  if parent_is_vga w then
    let '(ret, w1) := aperture_remove w in if c_true ret then (ret, w1) else (0, w1)
  else (0, w).

(** the last [drm_dev_put] releases the device *)
Definition dev_put : ST drv_st unit := fun st =>
  let '(last, st1) := on_w drm_dev_put st in if last : bool then virtio_gpu_release st1 else (tt, st1).

Definition probe_err_free (ret : Z) : ST drv_st Z := fun st => (ret, snd (dev_put st)).
Definition probe_err_deinit (ret : Z) : ST drv_st Z := fun st => probe_err_free ret (snd (virtio_gpu_deinit st)).

(** [modeset] and [fbdev]: the module's parameters; [fw_only]: only firmware drivers were asked for *)
Definition virtio_gpu_probe (fw_only : bool) (modeset : Z) (fbdev : bool) (mm : B) : ST drv_st Z := fun st =>
  if fw_only && (modeset =? -1) then (- EINVAL, st)
  else if modeset =? 0 then (- EINVAL, st)
  else
    let '(ret, st1) := on_w drm_dev_alloc st in
    if c_true ret then (ret, st1)
    else
      let '(ret, st2) := if dev_is_pci (the_world st1) then on_w virtio_gpu_pci_quirk st1 else (0, st1) in
      if c_true ret then probe_err_free ret st2
      else
        let max := dma_max_mapping_size (the_world st2) in
        let '(_, st3) := on_w (dma_set_max_seg_size (u32 (if c_true max then max else UINT_MAX))) st2 in
        let '(ret, st4) := virtio_gpu_init mm st3 in
        if c_true ret then probe_err_free ret st4
        else
          let '(ret, st5) := on_w drm_dev_register st4 in
          if c_true ret then probe_err_deinit ret st5
          else (0, if fbdev then snd (on_w drm_client_setup st5) else st5).

Definition virtio_gpu_remove : ST drv_st unit := fun st =>
  let '(_, st1) := on_w drm_dev_unplug st in
  let '(_, st2) := on_w drm_atomic_helper_shutdown st1 in
  let '(_, st3) := virtio_gpu_deinit st2 in
  dev_put st3.

Definition virtio_gpu_shutdown : ST drv_st unit := on_w drm_dev_unplug.

Definition virtio_gpu_driver_init : ST W Z := fun w =>
  let '(pdev, w1) := pci_get_device w in
  match pdev with
  | None => register_virtio_driver w1
  | Some pdev =>
      let vga := pci_is_vga w1 pdev in
      let '(ret, w2) := if vga then vga_get_interruptible pdev w1 else (0, w1) in
      if vga && c_true ret then (ret, snd (pci_dev_put pdev w2))
      else
        let '(ret, w3) := register_virtio_driver w2 in
        let w4 := if pci_is_vga w3 pdev then snd (vga_put pdev w3) else w3 in
        (ret, snd (pci_dev_put pdev w4))
  end.

End Kms.
