(* ===== verification/KmsProps.v ===== *)
(** * Properties of bring-up and tear-down *)

From stdpp Require Import gmap gmultiset.
From S2P Require Import Prelude PoolCtl GuestPool GuestPoolSpec GuestPoolProps Wire Fence ObjArray CtrlQueue GpuDev GpuCmds GpuProps VramObj VramProps ObjProps Submit SubmitProps Prime PrimeProps Ioctl IoctlProps Display Panic DisplayProps Kms.

(** ** The search for the host's pool *)

(** the device tree does not change; a node's references are taken and given back *)
Class TreeLaws (W : Type) `{KB : BootEnv W} (reserved : option Z) (kids : list Z) (named : pool_node -> Z -> bool)
  (res : Z -> option Z) : Prop := {
  tl_nodup : NoDup kids;
  tl_named w c p : of_node_name_prefix w c p = named p c;
  tl_res w c : of_address_to_resource w c = res c;
  tl_find w : fst (of_find_reserved_memory w) = reserved;
  tl_first w r : fst (of_get_next_child r None w) = head kids;
  tl_next w r l1 c l2 : kids = l1 ++ c :: l2 -> fst (of_get_next_child r (Some c) w) = head l2
}.

(** references of nodes *)
Class TreeRefs (W : Type) `{KB : BootEnv W} := {
  nobs : W -> gmultiset Z;
  tr_find w : let '(r, w') := of_find_reserved_memory w in nobs w' = match r with Some r => {[+ r +]} | None => ∅ end ⊎ nobs w;
  tr_next r prev w R : nobs w = match prev with Some p => {[+ p +]} | None => ∅ end ⊎ R ->
    let '(c, w') := of_get_next_child r prev w in nobs w' = match c with Some c => {[+ c +]} | None => ∅ end ⊎ R;
  tr_put n w R : nobs w = {[+ n +]} ⊎ R -> nobs (snd (of_node_put n w)) = R
}.

Section Tree.
Context {W : Type} `{KB : BootEnv W} (reserved : option Z) (kids : list Z) (named : pool_node -> Z -> bool) (res : Z -> option Z).
Context `{TL : !TreeLaws W reserved kids named res} `{TR : !TreeRefs W}.

(** the address of the first child of that name that has one, else 0 *)
Fixpoint first_base (p : pool_node) (l : list Z) : Z :=
  match l with
  | [] => 0
  | c :: l' => match (if named p c then res c else None) with Some b => b | None => first_base p l' end
  end.

Lemma find_pool_child_first fuel r p l1 l2 w R : kids = l1 ++ l2 -> (length l2 < fuel)%nat ->
  nobs w = match last l1 with Some c => {[+ c +]} | None => ∅ end ⊎ R ->
  let '(b, w') := find_pool_child fuel r p (last l1) w in b = Some (first_base p l2) /\ nobs w' = R.
Proof.
  revert l1 l2 w. induction fuel as [|fuel IH]; intros l1 l2 w Hk Hf Hn; [lia|]. cbn [find_pool_child].
  assert (Hc : fst (of_get_next_child r (last l1) w) = head l2).
  { destruct l1 as [|x l1 _] using rev_ind; [cbn in *; subst; apply tl_first|].
    rewrite last_snoc. eapply tl_next. by rewrite Hk, <- app_assoc. }
  pose proof (tr_next r (last l1) w R Hn) as T. destruct (of_get_next_child r (last l1) w) as [c w1]. cbn [fst] in Hc. subst c.
  destruct l2 as [|c l2]; cbn [head] in *; [split; [done | multiset_solver]|].
  assert (Hrec : let '(b, w') := find_pool_child fuel r p (Some c) w1 in b = Some (first_base p l2) /\ nobs w' = R).
  { rewrite <- (last_snoc c l1). apply IH; [by rewrite Hk, <- app_assoc | cbn in Hf; lia | by rewrite last_snoc]. }
  rewrite (tl_named w1 c p). cbn [first_base]. destruct (named p c); cbn [negb]; [|exact Hrec].
  rewrite (tl_res w1 c). destruct (res c) as [b|]; [split; [done | by apply tr_put] | exact Hrec].
Qed.

Lemma find_pool_base_named_spec fuel p w : (length kids < fuel)%nat ->
  let '(b, w') := virtio_gpu_find_pool_base_named fuel p w in
  b = Some (match reserved with Some _ => first_base p kids | None => 0 end) /\ nobs w' = nobs w.
Proof.
  intros Hf. unfold virtio_gpu_find_pool_base_named. pose proof (tl_find w) as F. pose proof (tr_find w) as T.
  destruct (of_find_reserved_memory w) as [r w1]. cbn [fst] in F. rewrite <- F.
  destruct r as [r|]; [|split; [done | rewrite T; multiset_solver]].
  pose proof (find_pool_child_first fuel r p [] kids w1 ({[+ r +]} ⊎ nobs w) eq_refl Hf) as C. cbn [last] in C.
  specialize (C ltac:(rewrite T; multiset_solver)). destruct (find_pool_child fuel r p None w1) as [b w2].
  destruct C as [-> C]. split; [done | by apply tr_put].
Qed.

End Tree.

(** C31: the search for the host's pool ends whatever the device tree, if the fuel exceeds the number of
    reserved regions; it gives the address of the first named region that has one, [gfx_host] before
    [drm2kgsl_host] before [venus_host], or 0, and every node reference it took is given back. *)
Theorem pool_base_found {W} `{KB : BootEnv W} reserved kids named res `{TL : !TreeLaws W reserved kids named res} `{TR : !TreeRefs W}
  fuel (w : W) (Hfuel : (length kids < fuel)%nat) :
  let base p := match reserved with Some _ => first_base named res p kids | None => 0 end in
  let '(r, w') := virtio_gpu_find_pool_base fuel w in
  nobs w' = nobs w /\
  r = Some (if c_true (base GfxHost) then (base GfxHost, GfxHost)
            else if c_true (base Drm2kgslHost) then (base Drm2kgslHost, Drm2kgslHost) else (base VenusHost, VenusHost)).
Proof.
  cbv zeta. unfold virtio_gpu_find_pool_base.
  pose proof (find_pool_base_named_spec reserved kids named res fuel GfxHost w Hfuel) as H1.
  destruct (virtio_gpu_find_pool_base_named fuel GfxHost w) as [b1 w1]. destruct H1 as [-> N1].
  destruct (c_true _); [done|].
  pose proof (find_pool_base_named_spec reserved kids named res fuel Drm2kgslHost w1 Hfuel) as H2.
  destruct (virtio_gpu_find_pool_base_named fuel Drm2kgslHost w1) as [b2 w2]. destruct H2 as [-> N2].
  destruct (c_true _); [split; [congruence | done]|].
  pose proof (find_pool_base_named_spec reserved kids named res fuel VenusHost w2 Hfuel) as H3.
  destruct (virtio_gpu_find_pool_base_named fuel VenusHost w2) as [b3 w3]. destruct H3 as [-> N3].
  split; [congruence | done].
Qed.

(** ** Capability sets *)

(** the host answers the oldest open query; an answer of id 0 is none *)
Fixpoint answer_from (answers : nat -> capset) (i : nat) (l : list capset) : list capset :=
  match l with
  | [] => []
  | c :: l' => if c_true (cs_id c) then c :: answer_from answers (S i) l' else answers i :: l'
  end.
Definition answer_next (answers : nat -> capset) (l : list capset) : list capset := answer_from answers 0 l.

Definition capset_valid (c : capset) : Prop := 0 < cs_id c <= MAX_CAPSET_ID.
#[export] Instance capset_valid_dec c : Decision (capset_valid c).
Proof. unfold capset_valid. apply _. Defined.

Lemma answer_from_open answers k n c0 rest : cs_id c0 = 0 -> (forall j, (k <= j < k + n)%nat -> capset_valid (answers j)) ->
  answer_from answers k (map answers (seq k n) ++ c0 :: rest) = map answers (seq k (S n)) ++ rest.
Proof.
  intros H0. revert k; induction n as [|n IH]; intros k Hv; cbn.
  - unfold c_true. by rewrite H0.
  - assert (Hk : capset_valid (answers k)) by (apply Hv; lia). destruct Hk as [Hk _]. unfold c_true.
    destruct (Z.eqb_spec (cs_id (answers k)) 0); [lia|]. cbn [negb]. f_equal. apply IH. intros j Hj. apply Hv. lia.
Qed.

Section Capsets.
Context {B W : Type} `{CE : CtrlEnv W} `{OA : !ObjArrays W} `{BE : !BoEnv W} `{KE : !KmsEnv W} `{KB : !BootEnv W}.
Context (sleep : gpu_st W -> gpu_st W) (n : nat) (wait : dev_st B W -> dev_st B W) (shl_int : Z -> Z).

Lemma get_capset_info_dev i (st : dev_st B W) :
  exists g, fst (snd (virtio_gpu_cmd_get_capset_info sleep n i st)) = dv_set_gpu (fst st) g.
Proof.
  destruct st as [d w]. unfold virtio_gpu_cmd_get_capset_info. destruct (kzalloc_buf _ w) as [[] w1]; cbn [negb].
  - match goal with |- context [issue sleep n ?c0 ?x ?r ?h ?cb ?f ?fe (d, w1)] =>
      destruct (issue_keeps_dev sleep n c0 x r h cb f fe d w1) as [g Hg] end. exists g. exact Hg.
  - exists (dv_gpu d). by destruct d.
Qed.

(** a query and its notification leave what was answered so far *)
Lemma capset_query_keeps i (st : dev_st B W) : let st2 := snd (notify (snd (virtio_gpu_cmd_get_capset_info sleep n i st))) in
  dv_capsets (fst st2) = dv_capsets (fst st) /\ dv_num_capsets (fst st2) = dv_num_capsets (fst st).
Proof.
  cbv zeta. destruct (get_capset_info_dev i st) as [g Hg]. destruct (virtio_gpu_cmd_get_capset_info sleep n i st) as [r [d1 w1]].
  cbn [fst snd] in Hg. subst d1. unfold notify, on_queue. cbn [snd]. by destruct (virtio_gpu_notify _) as [u [g' w2]].
Qed.

(** the mask with the bits of [k] answers from the [i]-th on *)
Definition mask_from (answers : nat -> capset) (mask : Z) (i k : nat) : Z :=
  foldl (fun m j => Z.lor m (u64 (shl_int (cs_id (answers j))))) mask (seq i k).

Section Host.
Context (answers : nat -> capset).
Context (Hwait : forall st l, dv_capsets (fst st) = Some l -> dv_capsets (fst (wait st)) = Some (answer_next answers l)).
Context (Hnum : forall st, dv_num_capsets (fst (wait st)) = dv_num_capsets (fst st)).

Lemma get_capsets_from_spec k i mask (st : dev_st B W) :
  dv_capsets (fst st) = Some (map answers (seq 0 i) ++ replicate k (Capset 0 0 0)) ->
  (forall j, (j < i)%nat -> capset_valid (answers j)) ->
  let '((found, mask'), st') := get_capsets_from sleep n wait shl_int k (Z.of_nat i) mask st in
  dv_num_capsets (fst st') = dv_num_capsets (fst st) /\
  if found then (forall j, (j < i + k)%nat -> capset_valid (answers j)) /\
    dv_capsets (fst st') = Some (map answers (seq 0 (i + k))) /\ mask' = mask_from answers mask i k
  else dv_capsets (fst st') = None /\ exists m, (m < k)%nat /\ (forall j, (j < i + m)%nat -> capset_valid (answers j)) /\
    ~ capset_valid (answers (i + m)%nat) /\ mask' = mask_from answers mask i m.
Proof.
  revert i mask st. induction k as [|k IH]; intros i mask st Hst Hv; cbn [get_capsets_from].
  { split; [done|]. rewrite Nat.add_0_r, app_nil_r in *. by split_and!. }
  destruct (capset_query_keeps (Z.of_nat i) st) as [Q1 Q2].
  destruct (virtio_gpu_cmd_get_capset_info sleep n (Z.of_nat i) st) as [r1 st1]. cbn [snd] in Q1, Q2.
  destruct (notify st1) as [r2 st2]. cbn [snd] in Q1, Q2. rewrite Hst in Q1. apply Hwait in Q1.
  pose proof (Hnum st2) as Q3. set (st3 := wait st2) in *. clearbody st3.
  unfold answer_next in Q1. cbn [replicate] in Q1. rewrite answer_from_open in Q1; [|done | intros j Hj; apply Hv; lia].
  assert (Eid : capset_id (fst st3) (Z.of_nat i) = cs_id (answers i)).
  { unfold capset_id. rewrite Q1, Nat2Z.id, seq_S, map_app, <- app_assoc. cbn [map app].
    rewrite app_nth2; rewrite length_map, length_seq; [|lia]. by rewrite Nat.sub_diag. }
  rewrite Eid. set (id := cs_id (answers i)).
  assert (Hdec : (((if id >? 0 then 1 else 0) =? 0) || (negb (c_true id) || (id >? MAX_CAPSET_ID))) =
                 negb (bool_decide (capset_valid (answers i)))).
  { unfold capset_valid, c_true. fold id. rewrite !Z.gtb_ltb. unfold MAX_CAPSET_ID.
    case_bool_decide; destruct (Z.ltb_spec 0 id), (Z.ltb_spec 63 id), (Z.eqb_spec id 0); cbn; lia || done. }
  rewrite Hdec. case_bool_decide as Hval; cbn [negb].
  - specialize (IH (S i) (Z.lor mask (u64 (shl_int id))) st3). rewrite Nat2Z.inj_succ, <- Z.add_1_r in IH.
    specialize (IH Q1). destruct (get_capsets_from _ _ _ _ _ _ _ _) as [[found mask'] st'].
    destruct IH as [I1 I2]. { intros j Hj. destruct (decide (j = i)) as [->|]; [done | apply Hv; lia]. }
    split; [congruence|]. replace (S i + k)%nat with (i + S k)%nat in I2 by lia. destruct found.
    + destruct I2 as (I2 & I3 & I4). by split_and!.
    + destruct I2 as (I2 & m & I3 & I4 & I5 & I6). split; [done|]. exists (S m).
      replace (S i + m)%nat with (i + S m)%nat in * by lia. split_and!; [lia | done | done | done].
  - unfold on_world. destruct st3 as [d3 w3]. destruct (drmm_kfree_capsets w3) as [u w4]. cbn [fst] in *.
    split; [cbn; congruence|]. split; [done|]. exists O. rewrite Nat.add_0_r. split_and!; [lia | done | done | done].
Qed.

End Host.

(** *** The mask *)

Definition high_bits_agree (m : Z) : Prop := forall b, 31 <= b <= 63 -> Z.testbit m b = Z.testbit m 63.

Lemma int_high_bits x b : - 2 ^ 31 <= x < 2 ^ 31 -> 31 <= b <= 63 -> Z.testbit (u64 x) b = (x <? 0).
Proof.
  intros Hx Hb. unfold u64. rewrite Z.mod_pow2_bits_low by lia. rewrite Z.testbit_odd, Z.shiftr_div_pow2 by lia.
  assert (Hp : 2 ^ 31 <= 2 ^ b) by (apply Z.pow_le_mono_r; lia).
  destruct (Z.ltb_spec x 0).
  - by rewrite <- (Z.div_unique x (2 ^ b) (-1) (x + 2 ^ b)) by lia.
  - by rewrite Z.div_small by lia.
Qed.

Lemma get_capsets_from_high k i mask (st : dev_st B W) : (forall x, - 2 ^ 31 <= shl_int x < 2 ^ 31) -> high_bits_agree mask ->
  high_bits_agree (snd (fst (get_capsets_from sleep n wait shl_int k i mask st))).
Proof.
  intros Hs. revert i mask st; induction k as [|k IH]; intros i mask st Hm; cbn [get_capsets_from]; [done|].
  destruct (virtio_gpu_cmd_get_capset_info sleep n i st) as [r1 st1]. destruct (notify st1) as [r2 st2].
  case_if; [by destruct (on_world drmm_kfree_capsets (wait st2)) as [u [d4 w4]]|]. apply IH.
  intros b Hb. rewrite !Z.lor_spec, !int_high_bits, (Hm b Hb) by (lia || apply Hs). done.
Qed.

End Capsets.

Lemma mask_from_bits shl_int answers mask i k b :
  (forall x, 0 <= x <= 30 -> shl_int x = 2 ^ x) -> (forall j, (j < i + k)%nat -> 0 <= cs_id (answers j) <= 30) -> 0 <= b ->
  Z.testbit (mask_from shl_int answers mask i k) b = true <->
  Z.testbit mask b = true \/ exists j, (i <= j < i + k)%nat /\ cs_id (answers j) = b.
Proof.
  intros Hs. revert i mask; induction k as [|k IH]; intros i mask Hid Hb; unfold mask_from; cbn.
  - split; [by left | intros [?|(j & ? & _)]; [done | lia]].
  - fold (mask_from shl_int answers (Z.lor mask (u64 (shl_int (cs_id (answers i))))) (S i) k). rewrite IH; [|intros j ?; apply Hid; lia | done].
    assert (Hi : 0 <= cs_id (answers i) <= 30) by (apply Hid; lia). rewrite (Hs _ Hi).
    assert (Hlt : 2 ^ cs_id (answers i) <= 2 ^ 30) by (apply Z.pow_le_mono_r; lia).
    rewrite u64_small by (split; [apply Z.pow_nonneg; lia | lia]).
    rewrite Z.lor_spec, orb_true_iff, Z.pow2_bits_eqb, Z.eqb_eq by lia. split.
    + intros [[?|?]|(j & Hj & ?)]; [by left | right; exists i; split; [lia | done] | right; exists j; split; [lia | done]].
    + intros [?|(j & Hj & ?)]; [by left; left|]. destruct (decide (j = i)) as [->|]; [by left; right|].
      right. exists j. split; [lia | done].
Qed.

(** C17: if the host answers each capability query before the wait for it is over, the discovery ends with
    what it said: all sets, their number, and a mask which for ids up to 30 has exactly the bits
    of the ids found. At the first answer that is missing or out of range the whole table is
    dropped and no set counts, but the bits of the ids before it stay in the mask. *)
Theorem capsets_discovered {B W} `{CE : CtrlEnv W} `{OA : !ObjArrays W} `{BE : !BoEnv W} `{KE : !KmsEnv W} `{KB : !BootEnv W}
  sleep n wait shl_int answers num (d : vgdev B) (w : W)
  (Hshl : forall x, 0 <= x <= 30 -> shl_int x = 2 ^ x)
  (Hwait : forall st l, dv_capsets (fst st) = Some l -> dv_capsets (fst (wait st)) = Some (answer_next answers l))
  (Hnum : forall st, dv_num_capsets (fst (wait st)) = dv_num_capsets (fst st))
  (Hmem : fst (drmm_kcalloc_capsets num w) = true) :
  let k := Z.to_nat num in
  let '(_, (mask, (d', w'))) := virtio_gpu_get_capsets sleep n wait shl_int num (0, (d, w)) in
  ((forall i, (i < k)%nat -> capset_valid (answers i)) ->
     dv_capsets d' = Some (map answers (seq 0 k)) /\ dv_num_capsets d' = u32 num /\
     ((forall i, (i < k)%nat -> cs_id (answers i) <= 30) -> forall b, 0 <= b ->
        Z.testbit mask b = true <-> exists i, (i < k)%nat /\ cs_id (answers i) = b)) /\
  (forall m, (m < k)%nat -> ~ capset_valid (answers m) -> (forall i, (i < m)%nat -> capset_valid (answers i)) ->
     dv_capsets d' = None /\ dv_num_capsets d' = dv_num_capsets d /\
     ((forall i, (i < m)%nat -> cs_id (answers i) <= 30) -> forall b, 0 <= b ->
        Z.testbit mask b = true <-> exists i, (i < m)%nat /\ cs_id (answers i) = b)).
Proof.
  cbv zeta. unfold virtio_gpu_get_capsets. destruct (drmm_kcalloc_capsets num w) as [ok w1]. cbn [fst] in Hmem. subst ok.
  cbn [negb]. set (d0 := dv_set_capsets d _).
  pose proof (get_capsets_from_spec sleep n wait shl_int answers Hwait Hnum (Z.to_nat num) 0 0 (d0, w1) eq_refl) as S.
  cbn [Z.of_nat] in S. destruct (get_capsets_from _ _ _ _ _ _ _ _) as [[found mask] [d1 w2]].
  destruct S as [S1 S2]; [lia|]. cbn [fst] in *.
  assert (Hbits : forall m b, (forall i, (i < m)%nat -> capset_valid (answers i)) -> (forall i, (i < m)%nat -> cs_id (answers i) <= 30) ->
    0 <= b -> Z.testbit (mask_from shl_int answers 0 0 m) b = true <-> exists i, (i < m)%nat /\ cs_id (answers i) = b).
  { intros m b Hv Hle Hb. rewrite mask_from_bits; [|done | |done].
    - rewrite Z.bits_0. split; [intros [?|(j & ? & ?)]; [done | exists j; split; [lia | done]] | intros (j & ? & ?); right; exists j; split; [lia | done]].
    - intros j Hj. destruct (Hv j Hj). split; [lia | by apply Hle]. }
  destruct found.
  - destruct S2 as (Hall & S3 & ->). cbn in Hall, S3. split.
    + intros _. split_and!; [done | done|]. intros Hle b Hb. by apply Hbits.
    + intros m Hm Hbad _. by destruct Hbad; apply Hall.
  - destruct S2 as (S3 & m0 & Hm0 & Hall & Hbad0 & ->). cbn in Hall, Hbad0. split.
    + intros Hv. by destruct Hbad0; apply Hv.
    + intros m Hm Hbad Hgood. assert (m = m0) as ->.
      { destruct (Nat.lt_trichotomy m m0) as [?|[?|?]]; [by destruct Hbad; apply Hall | done | by destruct Hbad0; apply Hgood]. }
      split_and!; [done | done|]. intros Hle b Hb. by apply Hbits.
Qed.

(** Whatever the C compiler makes of [1 << id] for ids above 30, the discovery gives the bits 31 to 63
    of the mask one common value: a context may then be created with any capability set from 31
    to 63, or with none of them, whichever of these the host offers. *)
Theorem capset_mask_conflates {B W} `{CE : CtrlEnv W} `{OA : !ObjArrays W} `{BE : !BoEnv W} `{KE : !KmsEnv W}
  `{KB : !BootEnv W} {W'} `{IE : IoctlEnv W'} sleep n wait shl_int num ft f (w0 : W') (st : dev_st B W)
  (Hint : forall x, - 2 ^ 31 <= shl_int x < 2 ^ 31) (Hft : ft_capset_id_mask ft = 0) :
  let '(_, (mask, _)) := virtio_gpu_get_capsets sleep n wait shl_int num (ft_capset_id_mask ft, st) in
  forall id id', 31 <= id <= 63 -> 31 <= id' <= 63 ->
    Z.testbit mask id = Z.testbit mask id' /\
    fst (context_param (ft_set_mask mask ft) VIRTGPU_CONTEXT_PARAM_CAPSET_ID id (f, w0)) =
    fst (context_param (ft_set_mask mask ft) VIRTGPU_CONTEXT_PARAM_CAPSET_ID id' (f, w0)).
Proof.
  assert (H : high_bits_agree (fst (snd (virtio_gpu_get_capsets sleep n wait shl_int num (ft_capset_id_mask ft, st))))).
  { destruct st as [d w]. rewrite Hft. unfold virtio_gpu_get_capsets. assert (H0 : high_bits_agree 0) by (intros b _; by rewrite !Z.bits_0).
    destruct (drmm_kcalloc_capsets num w) as [[] w1]; cbn [negb]; [|done].
    match goal with |- context [get_capsets_from sleep n wait shl_int ?k ?i ?m ?s] =>
      pose proof (get_capsets_from_high sleep n wait shl_int k i m s Hint H0) as Hh;
      destruct (get_capsets_from sleep n wait shl_int k i m s) as [[found mask] [d1 w2]] end. exact Hh. }
  destruct (virtio_gpu_get_capsets _ _ _ _ _ _) as [u [mask st']]. cbn [fst snd] in H. intros id id' Hid Hid'.
  assert (E : Z.testbit mask id = Z.testbit mask id') by (by rewrite (H id Hid), (H id' Hid')). split; [done|].
  unfold context_param. change (VIRTGPU_CONTEXT_PARAM_CAPSET_ID =? VIRTGPU_CONTEXT_PARAM_CAPSET_ID) with true. cbv iota.
  unfold MAX_CAPSET_ID. rewrite !Z.gtb_ltb. destruct (Z.ltb_spec 63 id); [lia|]. destruct (Z.ltb_spec 63 id'); [lia|].
  cbn [ft_set_mask ft_capset_id_mask].
  assert (Hbit : forall x, 31 <= x <= 63 -> (Z.land mask (u64 (Z.shiftl 1 x)) =? 0) = negb (Z.testbit mask x)).
  { intros x Hx. rewrite Z.shiftl_1_l, u64_small by (split; [apply Z.pow_nonneg; lia | apply Z.pow_lt_mono_r; lia]).
    destruct (Z.testbit mask x) eqn:Et; cbn [negb].
    - apply Z.eqb_neq. intros Hz. assert (Z.testbit (Z.land mask (2 ^ x)) x = true) as Hc by (rewrite Z.land_spec, Et, Z.pow2_bits_true; [done | lia]).
      by rewrite Hz, Z.bits_0 in Hc.
    - apply Z.eqb_eq. apply Z.bits_inj'. intros b Hb. rewrite Z.land_spec, Z.bits_0, Z.pow2_bits_eqb by lia.
      destruct (Z.eqb_spec x b) as [<-|]; [by rewrite Et | apply andb_false_r]. }
  rewrite !Hbit, E by lia. by repeat case_if.
Qed.

(** ** Probe, initialisation and release *)

(** the queues, the buffer cache, the allocator of the host-visible window, the DRM device *)
Inductive boot_held := BVqs | BCache | BMm | BDev.
#[export] Instance boot_held_eq_dec : EqDecision boot_held.
Proof. solve_decision. Defined.
#[export] Instance boot_held_countable : Countable boot_held.
Proof.
  refine (inj_countable' (fun h => match h with BVqs => 0 | BCache => 1 | BMm => 2 | BDev => 3 end)
    (fun z => if z =? 0 then BVqs else if z =? 1 then BCache else if z =? 2 then BMm else BDev) _). by intros [].
Defined.

Definition boot_got (b : bool) (h : boot_held) : gmultiset boot_held := if b then {[+ h +]} else ∅.

Class BootLaws (W : Type) `{CE : CtrlEnv W} `{OA : !ObjArrays W} `{BE : !BoEnv W} `{KE : !KmsEnv W} `{KB : !BootEnv W} := {
  bobs : W -> gmultiset boot_held;
  bl_quiet :: CtrlQuiet bobs;
  bl_buf n w : bobs (snd (kzalloc_buf n w)) = bobs w;
  bl_buf_free w : bobs (snd (kfree_buf w)) = bobs w;
  bl_edid_free e w : bobs (snd (drm_edid_free e w)) = bobs w;
  bl_mode_config w : bobs (snd (mode_config_init w)) = bobs w;
  bl_plane t c f w : bobs (snd (plane_alloc t c f w)) = bobs w;
  bl_clips p w : bobs (snd (enable_damage_clips p w)) = bobs w;
  bl_crtc i p c w : bobs (snd (crtc_init_with_planes i p c w)) = bobs w;
  bl_connector i e w : bobs (snd (connector_init i e w)) = bobs w;
  bl_encoder i c w : bobs (snd (encoder_init i c w)) = bobs w;
  bl_vblank n w : bobs (snd (vblank_init n w)) = bobs w;
  bl_reset w : bobs (snd (mode_config_reset w)) = bobs w;
  bl_rmem w : bobs (snd (of_find_reserved_memory w)) = bobs w;
  bl_child r p w : bobs (snd (of_get_next_child r p w)) = bobs w;
  bl_node n w : bobs (snd (of_node_put n w)) = bobs w;
  bl_kcalloc n w : bobs (snd (drmm_kcalloc_capsets n w)) = bobs w;
  bl_kfree w : bobs (snd (drmm_kfree_capsets w)) = bobs w;
  bl_vgdev w : bobs (snd (drmm_kzalloc_vgdev w)) = bobs w;
  bl_fence_ctx w : bobs (snd (fence_context_alloc w)) = bobs w;
  bl_region a l w : bobs (snd (devm_request_mem_region a l w)) = bobs w;
  bl_mm a l w : bobs (snd (drm_mm_init a l w)) = {[+ BMm +]} ⊎ bobs w;
  bl_mm_down w R : bobs w = {[+ BMm +]} ⊎ R -> bobs (snd (drm_mm_takedown w)) = R;
  bl_vqs w : let '(ret, w') := virtio_find_vqs w in bobs w' = boot_got (ret =? 0) BVqs ⊎ bobs w;
  bl_del_vqs w R : bobs w = {[+ BVqs +]} ⊎ R -> bobs (snd (del_vqs w)) = R;
  bl_cache w : let '(ok, w') := kmem_cache_create w in bobs w' = boot_got ok BCache ⊎ bobs w;
  bl_cache_free w R : bobs w = {[+ BCache +]} ⊎ R -> bobs (snd (kmem_cache_destroy w)) = R;
  bl_ready w : bobs (snd (virtio_device_ready w)) = bobs w;
  bl_dev_reset w : bobs (snd (virtio_reset_device w)) = bobs w;
  bl_dev w : let '(ret, w') := drm_dev_alloc w in bobs w' = boot_got (ret =? 0) BDev ⊎ bobs w;
  bl_dev_put w R : bobs w = {[+ BDev +]} ⊎ R -> bobs (snd (drm_dev_put w)) = R;
  bl_aperture w : bobs (snd (aperture_remove w)) = bobs w;
  bl_max_seg n w : bobs (snd (dma_set_max_seg_size n w)) = bobs w;
  bl_register w : bobs (snd (drm_dev_register w)) = bobs w;
  bl_unplug w : bobs (snd (drm_dev_unplug w)) = bobs w;
  bl_client w : bobs (snd (drm_client_setup w)) = bobs w;
  bl_shutdown w : bobs (snd (drm_atomic_helper_shutdown w)) = bobs w
}.

Section Boot.
Context {B W : Type} `{BO : BuddyOps B} `{PA : PoolApi W} `{BL : BootLaws W}.
Context (sleep : gpu_st W -> gpu_st W) (lock : gp_st B W -> gp_st B W) (n : nat) (wait : dev_st B W -> dev_st B W)
  (shl_int : Z -> Z) (flush : gpu_work -> dev_st B W -> dev_st B W).
Context (Hsleep : forall st, bobs (snd (sleep st)) = bobs (snd st)) (Hlock : forall st, bobs (snd (lock st)) = bobs (snd st))
  (Hwait : forall st, bobs (snd (wait st)) = bobs (snd st)) (Hflush : forall k st, bobs (snd (flush k st)) = bobs (snd st)).
Implicit Types (w : W) (st : dev_st B W) (X : gmultiset boot_held).

(** nothing held changes *)
Definition quiet {A} (m : ST (dev_st B W) A) : Prop := forall st, bobs (snd (snd (m st))) = bobs (snd st).

Lemma quiet_world {A} (op : ST W A) : (forall w, bobs (snd (op w)) = bobs w) -> quiet (on_world op).
Proof. intros H [d w]. unfold on_world. specialize (H w). by destruct (op w). Qed.
Lemma quiet_issue cmd cx rs hb cb fill fence : quiet (issue sleep n cmd cx rs hb cb fill fence).
Proof. intros st. apply (issue_quiet bobs sleep Hsleep). Qed.
Lemma quiet_notify : quiet notify.
Proof. intros st. apply (notify_quiet bobs). Qed.

Lemma quiet_display_info : quiet (virtio_gpu_cmd_get_display_info sleep n).
Proof.
  intros [d w]. unfold virtio_gpu_cmd_get_display_info. pose proof (bl_buf sizeof_resp_display_info w) as Q.
  destruct (kzalloc_buf _ w) as [[] w1]; cbn [negb snd] in *; [|done]. by rewrite quiet_issue.
Qed.
Lemma quiet_capset_info i : quiet (virtio_gpu_cmd_get_capset_info sleep n i).
Proof.
  intros [d w]. unfold virtio_gpu_cmd_get_capset_info. pose proof (bl_buf sizeof_resp_capset_info w) as Q.
  destruct (kzalloc_buf _ w) as [[] w1]; cbn [negb snd] in *; [|done]. by rewrite quiet_issue.
Qed.
Lemma quiet_edids_from k i : quiet (get_edids_from sleep n k i).
Proof.
  revert i; induction k as [|k IH]; intros i [d w]; cbn [get_edids_from]; [done|]. pose proof (bl_buf sizeof_resp_edid w) as Q.
  destruct (kzalloc_buf _ w) as [[] w1]; cbn [negb snd] in *; [|done].
  match goal with |- context [issue sleep n ?c0 ?x ?r ?h ?cb ?f ?fe ?s] =>
    pose proof (quiet_issue c0 x r h cb f fe s) as Q1; destruct (issue sleep n c0 x r h cb f fe s) as [r0 st1] end.
  cbn [snd] in Q1. by rewrite IH, Q1.
Qed.
Lemma quiet_edids : quiet (virtio_gpu_cmd_get_edids sleep n).
Proof. intros st. unfold virtio_gpu_cmd_get_edids. case_if; [done | apply quiet_edids_from]. Qed.

Lemma quiet_capsets_from k i mask : quiet (get_capsets_from sleep n wait shl_int k i mask).
Proof.
  revert i mask; induction k as [|k IH]; intros i mask st; cbn [get_capsets_from]; [done|].
  pose proof (quiet_capset_info i st) as Q1. destruct (virtio_gpu_cmd_get_capset_info sleep n i st) as [r1 st1].
  pose proof (quiet_notify st1) as Q2. destruct (notify st1) as [r2 st2]. cbn [snd] in *. pose proof (Hwait st2) as Q3.
  case_if; [|rewrite IH; congruence].
  pose proof (quiet_world drmm_kfree_capsets bl_kfree (wait st2)) as Q4.
  destruct (on_world drmm_kfree_capsets (wait st2)) as [u [d4 w4]]. cbn [snd] in *. congruence.
Qed.

Lemma quiet_pool_base k w : bobs (snd (virtio_gpu_find_pool_base k w)) = bobs w.
Proof.
  assert (Hc : forall k r p prev w, bobs (snd (find_pool_child k r p prev w)) = bobs w).
  { clear k w. intros k r p. induction k as [|k IH]; intros prev w; cbn [find_pool_child]; [done|].
    pose proof (bl_child r prev w) as Q. destruct (of_get_next_child r prev w) as [[c|] w1]; cbn [snd] in Q; [|done].
    repeat case_if; try case_match; rewrite ?IH; cbn [snd]; rewrite ?bl_node; done. }
  assert (Hn : forall p w, bobs (snd (virtio_gpu_find_pool_base_named k p w)) = bobs w).
  { intros p w0. unfold virtio_gpu_find_pool_base_named. pose proof (bl_rmem w0) as Q.
    destruct (of_find_reserved_memory w0) as [[r|] w1]; cbn [snd] in Q; [|done]. pose proof (Hc k r p None w1) as Q1.
    destruct (find_pool_child k r p None w1) as [b w2]. cbn [snd] in *. by rewrite bl_node, Q1. }
  unfold virtio_gpu_find_pool_base. pose proof (Hn GfxHost w) as Q1.
  destruct (virtio_gpu_find_pool_base_named k GfxHost w) as [[b1|] w1]; cbn [snd] in Q1; [|done]. case_if; [done|].
  pose proof (Hn Drm2kgslHost w1) as Q2.
  destruct (virtio_gpu_find_pool_base_named k Drm2kgslHost w1) as [[b2|] w2]; cbn [snd] in Q2; [|cbn; congruence]. case_if; [cbn; congruence|].
  pose proof (Hn VenusHost w2) as Q3. destruct (virtio_gpu_find_pool_base_named k VenusHost w2) as [b3 w3]. cbn [snd] in *. congruence.
Qed.

(** *** The whole driver's state *)

Implicit Types (s : drv_st (B := B) (W := W)).
Definition held s : gmultiset boot_held := bobs (the_world s).
Definition drv_of s : drv := fst s.

(** an operation of the world, with what it does to what is held *)
Lemma on_w_held {A} (op : ST W A) s X : bobs (snd (op (the_world s))) = X ->
  let '(a, s') := on_w op s in a = fst (op (the_world s)) /\ held s' = X /\ drv_of s' = drv_of s /\ the_dev s' = the_dev s.
Proof. destruct s as [r [os [d w]]]. unfold on_w, on_dev_st, on_kms_st, on_kms, on_world, held, the_world. cbn. by destruct (op w). Qed.

Lemma on_dev_held {A} (m : ST (dev_st B W) A) s : quiet m ->
  let '(a, s') := on_dev_st m s in held s' = held s /\ drv_of s' = drv_of s.
Proof.
  intros Q. destruct s as [r [os [d w]]]. unfold on_dev_st, on_kms_st, on_kms, held, the_world. cbn. specialize (Q (d, w)).
  destruct (m (d, w)) as [a [d' w']]. by cbn in *.
Qed.

Lemma plane_init_quiet t i : quiet (virtio_gpu_plane_init (B := B) t i).
Proof.
  intros st. unfold virtio_gpu_plane_init.
  match goal with |- context [on_world (plane_alloc t ?c ?f) st] =>
    pose proof (quiet_world (plane_alloc t c f) (bl_plane t c f) st) as Q; destruct (on_world (plane_alloc t c f) st) as [[e|p] st1] end;
    cbn [snd] in Q; [by destruct t|]. destruct t; [|done]. cbn [snd]. by rewrite (quiet_world _ (bl_clips p)), Q.
Qed.

Lemma output_init_held i (k : @kms_st B W) : bobs (snd (snd (snd (vgdev_output_init i k)))) = bobs (snd (snd k)).
Proof.
  destruct k as [os [d w]]. unfold vgdev_output_init, output_defaults, on_kms. cbn [snd].
  set (st := ((if (i =? 0)%nat then _ else d), w) : dev_st B W). assert (Hst : bobs (snd st) = bobs w) by done.
  rewrite <- Hst. clearbody st. clear Hst d w.
  pose proof (plane_init_quiet PlanePrimary (Z.of_nat i) st) as Q1. destruct (virtio_gpu_plane_init PlanePrimary _ st) as [[e|p] st1];
    cbn [snd] in *; [done|].
  pose proof (plane_init_quiet PlaneCursor (Z.of_nat i) st1) as Q2. destruct (virtio_gpu_plane_init PlaneCursor _ st1) as [[e|c] st2];
    cbn [snd] in *; [congruence|].
  pose proof (quiet_world _ (bl_crtc i p c) st2) as Q3. destruct (on_world (crtc_init_with_planes i p c) st2) as [ret st3]. cbn [snd] in *.
  case_if; [cbn; congruence|]. pose proof (quiet_world _ (bl_connector i (dv_has_edid (fst st3))) st3) as Q4.
  destruct (on_world (connector_init i _) st3) as [u st4]. cbn [snd] in *. rewrite (quiet_world _ (bl_encoder _ _)). congruence.
Qed.

Lemma modeset_init_held s : let '(ret, s') := on_kms_st virtio_gpu_modeset_init s in held s' = held s /\ drv_of s' = drv_of s.
Proof.
  destruct s as [r k]. unfold on_kms_st. assert (Q : bobs (snd (snd (snd (virtio_gpu_modeset_init k)))) = bobs (snd (snd k))).
  { unfold virtio_gpu_modeset_init. case_if; [done|].
    assert (Hw : forall {A} (op : ST W A) (k : @kms_st B W), (forall w, bobs (snd (op w)) = bobs w) ->
      bobs (snd (snd (snd (on_kms (on_world op) k)))) = bobs (snd (snd k))).
    { intros A op [os [d w]] Hop. unfold on_kms, on_world. cbn. specialize (Hop w). by destruct (op w). }
    pose proof (Hw _ _ k bl_mode_config) as Q1. destruct (on_kms (on_world mode_config_init) k) as [ret k1]. cbn [snd] in Q1.
    case_if; [done|]. set (l := seq 0 _). set (m := dv_num_scanouts _). clearbody m.
    assert (Qi : bobs (snd (snd (init_outputs l k1))) = bobs (snd (snd k1))).
    { unfold init_outputs. clear Q1. clearbody l. revert k1; induction l as [|i l IH]; intros k1; cbn [foldl]; [done|].
      by rewrite IH, output_init_held. }
    pose proof (Hw _ _ (init_outputs l k1) (bl_vblank m)) as Q2.
    destruct (on_kms (on_world (vblank_init m)) (init_outputs l k1)) as [ret2 k3]. cbn [snd] in Q2.
    case_if; [cbn; congruence|]. cbn [snd]. rewrite Hw; [congruence | apply bl_reset]. }
  destruct (virtio_gpu_modeset_init k) as [ret k']. by split.
Qed.

(** the bring-up of the window: its allocator, exactly when the window is there *)
Definition window_held (f : features) : gmultiset boot_held := boot_got (ft_host_visible f) BMm.

Lemma init_window_held s : ft_host_visible (dr_ft (drv_of s)) = false ->
  let '(ret, s') := init_window s in
  dr_private (drv_of s') = dr_private (drv_of s) /\ held s' = window_held (dr_ft (drv_of s')) ⊎ held s /\
  (ret <> 0 -> ft_host_visible (dr_ft (drv_of s')) = false).
Proof.
  intros Hv. unfold init_window. destruct (virtio_get_shm_region _) as [[addr len]|].
  2:{ unfold window_held. rewrite Hv. split_and!; [done | multiset_solver | done]. }
  pose proof (on_w_held (devm_request_mem_region addr len) s _ eq_refl) as H1. rewrite (bl_region addr len) in H1.
  destruct (on_w (devm_request_mem_region addr len) s) as [ok s1]. destruct H1 as (_ & H1 & H2 & _). destruct ok; cbn [negb].
  - unfold upd_drv. destruct s1 as [r k]. cbn [drv_of fst] in H2. subst r.
    pose proof (on_w_held (drm_mm_init addr len) (dr_set_ft (ft_set_region (Some addr) (dr_ft (drv_of s))) (drv_of s), k) _ eq_refl) as H3.
    rewrite (bl_mm addr len) in H3. change (bobs (the_world (_, k))) with (held (drv_of s, k)) in H3. rewrite H1 in H3.
    destruct (on_w (drm_mm_init addr len) _) as [u s3]. destruct H3 as (_ & H3 & H4 & _). rewrite H4, H3. by split_and!.
  - rewrite H1, H2. unfold window_held. rewrite Hv. split_and!; [done | cbn [boot_got]; unfold held; multiset_solver | done].
Qed.

Lemma init_pools_held s : let '(_, s') := init_pools n s in
  held s' = held s /\ dr_private (drv_of s') = dr_private (drv_of s) /\
  ft_host_visible (dr_ft (drv_of s')) = ft_host_visible (dr_ft (drv_of s)).
Proof.
  destruct s as [r k]. unfold init_pools, upd_drv.
  match goal with |- context [on_w (virtio_gpu_find_pool_base n) ?s0] =>
    pose proof (on_w_held (virtio_gpu_find_pool_base n) s0 _ eq_refl) as H1; rewrite quiet_pool_base in H1;
    destruct (on_w (virtio_gpu_find_pool_base n) s0) as [base [r1 k1]] end.
  destruct H1 as (_ & H1 & H2 & _). cbn [drv_of fst] in H2. subst r1.
  match goal with |- context [on_dev_st ?m ?s0] => pose proof (on_dev_held m s0) as H3; destruct (on_dev_st m s0) as [ret s4] end.
  destruct H3 as [H3 H4].
  { intros [d w]. unfold on_pool. by destruct (virtio_gpu_guest_pool_init _ _). }
  rewrite H4, H3. split_and!; [exact H1 | done | done].
Qed.

Lemma init_scanouts_held s : let '(_, s') := init_scanouts s in
  held s' = held s /\ dr_private (drv_of s') = dr_private (drv_of s) /\ dr_ft (drv_of s') = dr_ft (drv_of s).
Proof. destruct s as [r [os [d w]]]. unfold init_scanouts. by case_if. Qed.

Lemma get_capsets_held num s : let '(_, s') := get_capsets_drv sleep n wait shl_int num s in
  held s' = held s /\ dr_private (drv_of s') = dr_private (drv_of s) /\
  ft_host_visible (dr_ft (drv_of s')) = ft_host_visible (dr_ft (drv_of s)).
Proof.
  destruct s as [r [os [d w]]]. unfold get_capsets_drv, virtio_gpu_get_capsets. pose proof (bl_kcalloc num w) as Q.
  destruct (drmm_kcalloc_capsets num w) as [[] w1]; cbn [negb snd] in *; [|by split_and!].
  match goal with |- context [get_capsets_from sleep n wait shl_int ?k ?i ?m ?st] =>
    pose proof (quiet_capsets_from k i m st) as Q1; destruct (get_capsets_from sleep n wait shl_int k i m st) as [[found mask] [d1 w2]] end.
  cbn [snd] in Q1. split_and!; [|done|done]. unfold held, the_world. cbn. congruence.
Qed.

Lemma init_start_held num s : let '(_, s') := init_start sleep n wait shl_int num s in
  held s' = held s /\ dr_private (drv_of s') = dr_private (drv_of s) /\
  ft_host_visible (dr_ft (drv_of s')) = ft_host_visible (dr_ft (drv_of s)).
Proof.
  unfold init_start. pose proof (on_w_held virtio_device_ready s _ eq_refl) as H1. rewrite bl_ready in H1.
  destruct (on_w virtio_device_ready s) as [u s1]. destruct H1 as (_ & H1 & H2 & _).
  assert (H3 : let s2 := if c_true num then snd (get_capsets_drv sleep n wait shl_int (s32 num) s1) else s1 in
    held s2 = held s /\ dr_private (drv_of s2) = dr_private (drv_of s) /\
    ft_host_visible (dr_ft (drv_of s2)) = ft_host_visible (dr_ft (drv_of s))).
  { cbv zeta. case_if; [|by rewrite H2]. pose proof (get_capsets_held (s32 num) s1) as Q.
    destruct (get_capsets_drv _ _ _ _ _ s1) as [u' s2]. cbn [snd]. destruct Q as (-> & -> & ->). by rewrite H2. }
  cbv zeta in H3. set (s2 := if c_true num then _ else s1) in *. clearbody s2. destruct H3 as (H3 & H4 & H5).
  case_if; [by split_and!|].
  match goal with |- context [on_dev_st ?m s2] => pose proof (on_dev_held m s2) as H6; destruct (on_dev_st m s2) as [u' s3] end.
  destruct H6 as [H6 H7]; [|split_and!; [congruence | by rewrite H7 | by rewrite H7]].
  intros st. match goal with |- context [virtio_gpu_cmd_get_display_info sleep n ?x] =>
    assert (Q : bobs (snd x) = bobs (snd st)) by (case_if; [apply quiet_edids | done]); revert Q; generalize x end.
  intros st1 Q. pose proof (quiet_display_info st1) as Q1.
  destruct (virtio_gpu_cmd_get_display_info sleep n st1) as [r st2]. pose proof (quiet_notify st2) as Q2.
  destruct (notify st2) as [u2 st3]. cbn [snd] in *. rewrite Hwait. congruence.
Qed.

(** the outcome of an initialisation begun with [X] held: the allocator of the window stays when it fails *)
Definition init_outcome X (r : Z * drv_st (B := B) (W := W)) : Prop :=
  let '(ret, s) := r in
  (ret <> 0 /\ dr_private (drv_of s) = false /\ (held s = X \/ held s = {[+ BMm +]} ⊎ X)) \/
  (ret = 0 /\ dr_private (drv_of s) = true /\ held s = {[+ BVqs; BCache +]} ⊎ (window_held (dr_ft (drv_of s)) ⊎ X)).

Lemma err_vqs_outcome f e s X : held s = window_held f ⊎ X -> e <> 0 -> init_outcome X (init_err_vqs e s).
Proof.
  destruct s as [r k]. intros He Hne. assert (E : held (dr_set_private false r, k) = window_held f ⊎ X) by exact He.
  left. split_and!; [done | done|]. cbn [init_err_vqs upd_drv snd]. rewrite E. unfold window_held. destruct (ft_host_visible _); cbn [boot_got]; [by right|].
  left. multiset_solver.
Qed.

Lemma err_vbufs_outcome f e s X : held s = {[+ BVqs +]} ⊎ (window_held f ⊎ X) -> e <> 0 -> init_outcome X (init_err_vbufs e s).
Proof.
  intros He Hne. unfold init_err_vbufs. pose proof (on_w_held del_vqs s _ (bl_del_vqs _ _ He)) as Q.
  destruct (on_w del_vqs s) as [u s']. cbn [snd]. destruct Q as (_ & Q & _). by apply (err_vqs_outcome f).
Qed.

Lemma err_scanouts_outcome f e s X : held s = {[+ BVqs; BCache +]} ⊎ (window_held f ⊎ X) -> e <> 0 ->
  init_outcome X (init_err_scanouts e s).
Proof.
  intros He Hne. unfold init_err_scanouts, virtio_gpu_free_vbufs.
  pose proof (on_w_held kmem_cache_destroy s ({[+ BVqs +]} ⊎ (window_held f ⊎ X))) as Q.
  destruct (on_w kmem_cache_destroy s) as [u [r k]]. destruct Q as (_ & Q & _).
  { apply bl_cache_free. change (bobs (the_world s)) with (held s). rewrite He. multiset_solver. }
  by apply (err_vbufs_outcome f).
Qed.

(** from the scanouts on: the queues and the cache are there *)
Lemma init_tail_outcome f s X : held s = {[+ BVqs; BCache +]} ⊎ (window_held f ⊎ X) -> dr_private (drv_of s) = true ->
  ft_host_visible (dr_ft (drv_of s)) = ft_host_visible f ->
  init_outcome X (let '(_, st8) := init_scanouts s in
    let num_capsets := u32 (cread_num_capsets (the_world st8)) in
    let '(ret, st9) := on_kms_st virtio_gpu_modeset_init st8 in
    if c_true ret then init_err_scanouts ret st9
    else let '(_, st10) := init_start sleep n wait shl_int num_capsets st9 in (0, st10)).
Proof.
  intros K1 K2 K3. pose proof (init_scanouts_held s) as L. destruct (init_scanouts s) as [u8 s8]. destruct L as (L1 & L2 & L3).
  cbv zeta. set (num := u32 _). clearbody num. pose proof (modeset_init_held s8) as M.
  destruct (on_kms_st virtio_gpu_modeset_init s8) as [ret9 s9]. destruct M as [M1 M2]. unfold c_true.
  destruct (Z.eqb_spec ret9 0) as [->|Hne]; cbn [negb].
  - pose proof (init_start_held num s9) as I. destruct (init_start _ _ _ _ num s9) as [u10 s10]. destruct I as (I1 & I2 & I3).
    right. split_and!; [done | congruence|]. rewrite I1, M1, L1, K1. unfold window_held. by rewrite I3, M2, L3, K3.
  - apply (err_scanouts_outcome f); [congruence | done].
Qed.

Lemma init_device_held mm s : let '(_, s') := init_device mm s in
  held s' = held s /\ ft_host_visible (dr_ft (drv_of s')) = false /\ dr_private (drv_of s') = true.
Proof.
  destruct s as [r [os [d w]]]. unfold init_device. pose proof (bl_fence_ctx w) as Q. destruct (fence_context_alloc w) as [c w1].
  by split_and!.
Qed.

Lemma virtio_gpu_init_outcome mm s : dr_private (drv_of s) = false ->
  init_outcome (held s) (virtio_gpu_init sleep n wait shl_int mm s).
Proof.
  intros Hp. unfold virtio_gpu_init. destruct (virtio_has_feature _ _); cbn [negb]; [|left; split_and!; [done | done | by left]].
  pose proof (on_w_held drmm_kzalloc_vgdev s _ eq_refl) as H1. rewrite bl_vgdev in H1.
  destruct (on_w drmm_kzalloc_vgdev s) as [ok s1]. destruct H1 as (_ & H1 & H2 & _).
  destruct ok; cbn [negb]; [|left; split_and!; [done | congruence | left; exact H1]].
  pose proof (init_device_held mm s1) as H3. destruct (init_device mm s1) as [u2 s2]. destruct H3 as (H3 & H4 & H5).
  pose proof (init_window_held s2 H4) as H6. destruct (init_window s2) as [ret s3]. destruct H6 as (H6 & H7 & H8).
  rewrite H3, H1 in H7. change (bobs (the_world s)) with (held s) in H7. set (f := dr_ft (drv_of s3)) in *.
  unfold c_true at 1. destruct (Z.eqb_spec ret 0) as [->|Hne]; cbn [negb]; [|by apply (err_vqs_outcome f)].
  pose proof (init_pools_held s3) as H9. destruct (init_pools n s3) as [u4 s4]. destruct H9 as (H9 & H10 & H11). fold f in H11.
  pose proof (on_w_held virtio_find_vqs s4 _ eq_refl) as H12. pose proof (bl_vqs (the_world s4)) as H13.
  destruct (on_w virtio_find_vqs s4) as [ret5 s5]. destruct (virtio_find_vqs (the_world s4)) as [ret' w']. cbn [fst snd] in *.
  destruct H12 as (-> & H12 & H14 & _). rewrite H13 in H12. change (bobs (the_world s4)) with (held s4) in H12. rewrite H9, H7 in H12.
  unfold c_true at 1. destruct (Z.eqb_spec ret' 0) as [->|Hne]; cbn [negb boot_got] in *.
  2:{ apply (err_vqs_outcome f); [|done]. rewrite H12. multiset_solver. }
  pose proof (on_w_held virtio_gpu_alloc_vbufs s5 _ eq_refl) as H15.
  assert (H16 : let '(ret, w') := virtio_gpu_alloc_vbufs (the_world s5) in bobs w' = boot_got (ret =? 0) BCache ⊎ bobs (the_world s5)).
  { unfold virtio_gpu_alloc_vbufs. pose proof (bl_cache (the_world s5)) as Q. by destruct (kmem_cache_create _) as [[] ?]. }
  destruct (on_w virtio_gpu_alloc_vbufs s5) as [ret6 s6]. destruct (virtio_gpu_alloc_vbufs (the_world s5)) as [ret'' w''].
  cbn [fst snd] in *. destruct H15 as (-> & H15 & H17 & _). rewrite H16 in H15. change (bobs (the_world s5)) with (held s5) in H15.
  rewrite H12 in H15. unfold c_true at 1. destruct (Z.eqb_spec ret'' 0) as [->|Hne]; cbn [negb boot_got] in *.
  2:{ apply (err_vbufs_outcome f); [|done]. rewrite H15. multiset_solver. }
  destruct s6 as [r6 k6]. cbn [drv_of fst] in H17. subst r6. apply (init_tail_outcome f).
  - change (held (_, k6)) with (held (drv_of s5, k6)). rewrite H15. multiset_solver.
  - cbn. congruence.
  - cbn. congruence.
Qed.

(** *** Tear-down *)

Lemma virtio_gpu_deinit_held s X : held s = {[+ BVqs +]} ⊎ X ->
  let '(_, s') := virtio_gpu_deinit flush s in held s' = X /\ drv_of s' = drv_of s.
Proof.
  intros Hs. unfold virtio_gpu_deinit.
  assert (Hf : forall k s, let '(_, s') := flush_work flush k s in held s' = held s /\ drv_of s' = drv_of s).
  { intros k s0. apply on_dev_held. intros st. apply Hflush. }
  pose proof (Hf WorkObjFree s) as H1. destruct (flush_work flush WorkObjFree s) as [u1 s1].
  pose proof (Hf WorkCtrlDequeue s1) as H2. destruct (flush_work flush WorkCtrlDequeue s1) as [u2 s2].
  pose proof (Hf WorkCursorDequeue s2) as H3. destruct (flush_work flush WorkCursorDequeue s2) as [u3 s3].
  pose proof (Hf WorkConfigChanged s3) as H4. destruct (flush_work flush WorkConfigChanged s3) as [u4 s4].
  destruct H1 as [A1 B1], H2 as [A2 B2], H3 as [A3 B3], H4 as [A4 B4].
  pose proof (on_w_held virtio_reset_device s4 _ eq_refl) as H5. rewrite bl_dev_reset in H5.
  destruct (on_w virtio_reset_device s4) as [u5 s5]. destruct H5 as (_ & A5 & B5 & _). change (bobs (the_world s4)) with (held s4) in A5.
  pose proof (on_w_held del_vqs s5 X) as H6. destruct (on_w del_vqs s5) as [u6 s6]. destruct H6 as (_ & A6 & B6 & _).
  { apply bl_del_vqs. change (bobs (the_world s5)) with (held s5). congruence. }
  split; [done | congruence].
Qed.

Lemma modeset_fini_quiet : quiet (virtio_gpu_modeset_fini (B := B)).
Proof.
  intros st. unfold virtio_gpu_modeset_fini. destruct (dv_num_scanouts (fst st) =? 0)%nat; [done|]. cbn [snd]. generalize (take (dv_num_scanouts (fst st)) (dv_edids (fst st))).
  intros l. revert st; induction l as [|e l IH]; intros st; cbn [foldl]; [done|]. rewrite IH. apply (quiet_world _ (bl_edid_free e)).
Qed.
Lemma cap_cache_quiet : quiet (virtio_gpu_cleanup_cap_cache (B := B)).
Proof.
  intros [d w]. unfold virtio_gpu_cleanup_cap_cache. cbn. revert w; induction (dv_cap_cache d) as [|c l IH]; intros w; cbn [foldl]; [done|].
  by rewrite IH, !bl_buf_free.
Qed.

Definition pool_closed s : Prop := gp_ready (dv_pool (the_dev s)) = false.

Lemma pool_fini_held s : let '(_, s') := on_dev_st (on_pool (virtio_gpu_guest_pool_fini lock)) s in
  held s' = held s /\ drv_of s' = drv_of s /\ pool_closed s'.
Proof.
  destruct s as [r [os [d w]]]. unfold on_dev_st, on_kms_st, on_kms, on_pool, virtio_gpu_guest_pool_fini, pool_closed, held, the_dev, the_world.
  cbn. destruct (gp_ready (dv_pool d)) eqn:Er; cbn.
  - match goal with |- context [lock ?st] => pose proof (Hlock st) as Q; destruct (lock st) as [p1 w1] end. cbn in *.
    split_and!; [done | done|]. by destruct (gp_ready p1) eqn:E.
  - by split_and!.
Qed.

Lemma virtio_gpu_release_held s X : dr_private (drv_of s) = true -> held s = {[+ BCache +]} ⊎ (window_held (dr_ft (drv_of s)) ⊎ X) ->
  let '(_, s') := virtio_gpu_release lock s in held s' = X /\ pool_closed s'.
Proof.
  intros Hp Hs. unfold virtio_gpu_release. change (fst s) with (drv_of s). rewrite Hp. cbn [negb].
  pose proof (on_dev_held _ s modeset_fini_quiet) as H1. destruct (on_dev_st virtio_gpu_modeset_fini s) as [u1 s1]. destruct H1 as [A1 B1].
  pose proof (on_w_held virtio_gpu_free_vbufs s1 (window_held (dr_ft (drv_of s)) ⊎ X)) as H2.
  destruct (on_w virtio_gpu_free_vbufs s1) as [u2 [r2 k2]]. destruct H2 as (_ & A2 & B2 & _).
  { apply bl_cache_free. change (bobs (the_world s1)) with (held s1). congruence. }
  unfold upd_drv. cbn [drv_of fst] in B2. rewrite B1 in B2. subst r2.
  match goal with |- context [on_dev_st virtio_gpu_cleanup_cap_cache ?s0] =>
    pose proof (on_dev_held _ s0 cap_cache_quiet) as H3; destruct (on_dev_st virtio_gpu_cleanup_cap_cache s0) as [u4 s4] end.
  destruct H3 as [A4 B4]. change (held (_, k2)) with (held (drv_of s, k2)) in A4. rewrite A2 in A4.
  pose proof (pool_fini_held s4) as H5. destruct (on_dev_st (on_pool (virtio_gpu_guest_pool_fini lock)) s4) as [u5 s5].
  destruct H5 as (A5 & B5 & C5). rewrite A4 in A5. unfold window_held in A5.
  change (fst s5) with (drv_of s5). rewrite B5, B4. change (dr_ft (drv_of (dr_set_vbufs false (drv_of s), k2))) with (dr_ft (drv_of s)).
  destruct (ft_host_visible (dr_ft (drv_of s))); cbn [boot_got] in A5; [|split; [rewrite A5; multiset_solver | done]].
  pose proof (on_w_held drm_mm_takedown s5 _ (bl_mm_down _ _ A5)) as H6. destruct (on_w drm_mm_takedown s5) as [u6 s6].
  destruct H6 as (_ & A6 & _ & D6). split; [done|]. unfold pool_closed. by rewrite D6.
Qed.

(** everything is given back and the guest pool closed: now, or when the last user of the device closes
    it and the release runs *)
Definition unwound X s : Prop :=
  (held s = X /\ pool_closed s) \/
  (dr_private (drv_of s) = true /\
   let s' := snd (virtio_gpu_release lock s) in held s' = X /\ pool_closed s').

Section Put.

Lemma dev_put_gone s X : dr_private (drv_of s) = false -> held s = {[+ BDev +]} ⊎ X ->
  let '(_, s') := dev_put lock s in held s' = X /\ drv_of s' = drv_of s.
Proof.
  intros Hp Hs. unfold dev_put. pose proof (on_w_held drm_dev_put s _ (bl_dev_put _ _ Hs)) as H1.
  destruct (on_w drm_dev_put s) as [last s1]. destruct H1 as (_ & H1 & H2 & _). destruct last; [|done].
  unfold virtio_gpu_release. change (fst s1) with (drv_of s1). by rewrite H2, Hp.
Qed.

Lemma dev_put_release s X : dr_private (drv_of s) = true -> held s = {[+ BDev; BCache +]} ⊎ (window_held (dr_ft (drv_of s)) ⊎ X) ->
  let '(_, s') := dev_put lock s in unwound X s'.
Proof.
  intros Hp Hs. unfold dev_put.
  pose proof (on_w_held drm_dev_put s ({[+ BCache +]} ⊎ (window_held (dr_ft (drv_of s)) ⊎ X))) as H1.
  destruct (on_w drm_dev_put s) as [last s1]. destruct H1 as (_ & H1 & H2 & _).
  { apply bl_dev_put. change (bobs (the_world s)) with (held s). rewrite Hs. multiset_solver. }
  pose proof (virtio_gpu_release_held s1 X) as R. rewrite H2 in R. specialize (R Hp H1).
  destruct last.
  - destruct (virtio_gpu_release lock s1) as [u s2]. by left.
  - right. split; [by rewrite H2|]. by destruct (virtio_gpu_release lock s1) as [u s2].
Qed.

Lemma deinit_put s X : dr_private (drv_of s) = true ->
  held s = {[+ BDev; BVqs; BCache +]} ⊎ (window_held (dr_ft (drv_of s)) ⊎ X) ->
  let '(_, s') := dev_put lock (snd (virtio_gpu_deinit flush s)) in unwound X s'.
Proof.
  intros Hp Hs. pose proof (virtio_gpu_deinit_held s ({[+ BDev; BCache +]} ⊎ (window_held (dr_ft (drv_of s)) ⊎ X))) as H1.
  destruct (virtio_gpu_deinit flush s) as [u s1]. destruct H1 as [H1 H2]; [rewrite Hs; multiset_solver|].
  apply dev_put_release; cbn [snd]; rewrite H2; done.
Qed.

Lemma virtio_gpu_remove_held s X : dr_private (drv_of s) = true ->
  held s = {[+ BDev; BVqs; BCache +]} ⊎ (window_held (dr_ft (drv_of s)) ⊎ X) ->
  let '(_, s') := virtio_gpu_remove lock flush s in unwound X s'.
Proof.
  intros Hp Hs. unfold virtio_gpu_remove. pose proof (on_w_held drm_dev_unplug s _ eq_refl) as H1. rewrite bl_unplug in H1.
  destruct (on_w drm_dev_unplug s) as [u1 s1]. destruct H1 as (_ & A1 & B1 & _).
  pose proof (on_w_held drm_atomic_helper_shutdown s1 _ eq_refl) as H2. rewrite bl_shutdown in H2.
  destruct (on_w drm_atomic_helper_shutdown s1) as [u2 s2]. destruct H2 as (_ & A2 & B2 & _).
  change (bobs (the_world s)) with (held s) in A1. change (bobs (the_world s1)) with (held s1) in A2.
  pose proof (deinit_put s2 X) as D. destruct (virtio_gpu_deinit flush s2) as [u3 s3]. cbn [snd] in D.
  apply D; rewrite B2, B1; [done | congruence].
Qed.

(** the outcome of a probe begun with [X] held *)
Definition probe_outcome X (r : Z * drv_st (B := B) (W := W)) : Prop :=
  let '(ret, s) := r in
  (ret = 0 /\ held s = {[+ BDev; BVqs; BCache +]} ⊎ (window_held (dr_ft (drv_of s)) ⊎ X) /\
     unwound X (snd (virtio_gpu_remove lock flush s))) \/
  (ret <> 0 /\ dr_private (drv_of s) = false /\ (held s = X \/ held s = {[+ BMm +]} ⊎ X)) \/
  (ret <> 0 /\ unwound X s).

Lemma err_free_outcome e s X Y : dr_private (drv_of s) = false -> held s = {[+ BDev +]} ⊎ Y -> e <> 0 ->
  Y = X \/ Y = {[+ BMm +]} ⊎ X -> probe_outcome X (probe_err_free lock e s).
Proof.
  intros Hp Hs He HY. unfold probe_err_free. pose proof (dev_put_gone s Y Hp Hs) as P.
  destruct (dev_put lock s) as [u s']. cbn [snd]. right. left. destruct P as [-> ->]. split_and!; [done | done|].
  destruct HY as [->| ->]; [by left | by right].
Qed.

(** the registration, of a device that is initialised *)
Lemma register_outcome fbdev s X : dr_private (drv_of s) = true ->
  held s = {[+ BDev; BVqs; BCache +]} ⊎ (window_held (dr_ft (drv_of s)) ⊎ X) ->
  probe_outcome X (let '(ret, st5) := on_w drm_dev_register s in
                   if c_true ret then probe_err_deinit lock flush ret st5
                   else (0, if fbdev : bool then snd (on_w drm_client_setup st5) else st5)).
Proof.
  intros Hp Hs. pose proof (on_w_held drm_dev_register s _ eq_refl) as H8. rewrite bl_register in H8.
  destruct (on_w drm_dev_register s) as [ret5 s5]. destruct H8 as (_ & H8 & H9 & _). change (bobs (the_world s)) with (held s) in H8.
  rewrite Hs, <- H9 in H8. unfold c_true. destruct (Z.eqb_spec ret5 0) as [->|Hne]; cbn [negb].
  - assert (H11 : let s6 := if fbdev then snd (on_w drm_client_setup s5) else s5 in held s6 = held s5 /\ drv_of s6 = drv_of s5).
    { cbv zeta. destruct fbdev; [|done]. pose proof (on_w_held drm_client_setup s5 _ eq_refl) as Q. rewrite bl_client in Q.
      destruct (on_w drm_client_setup s5) as [u s6]. by destruct Q as (_ & Q & Q' & _). }
    cbv zeta in H11. set (s6 := if fbdev then _ else s5) in *. clearbody s6. destruct H11 as [H11 H12]. left.
    split; [done|]. split; [by rewrite H11, H12|].
    pose proof (virtio_gpu_remove_held s6 X) as R. destruct (virtio_gpu_remove lock flush s6) as [u s7]. cbn [snd].
    apply R; rewrite H12; [congruence | congruence].
  - unfold probe_err_deinit, probe_err_free. pose proof (deinit_put s5 X ltac:(congruence) H8) as D.
    destruct (dev_put lock (snd (virtio_gpu_deinit flush s5))) as [u s6]. cbn [snd]. right. right. by split.
Qed.

Lemma pci_quirk_held s : let '(_, s') := if dev_is_pci (the_world s) then on_w virtio_gpu_pci_quirk s else (0, s) in
  held s' = held s /\ drv_of s' = drv_of s.
Proof.
  case_if; [|done]. pose proof (on_w_held virtio_gpu_pci_quirk s _ eq_refl) as Q.
  destruct (on_w virtio_gpu_pci_quirk s) as [r s']. destruct Q as (_ & -> & Q & _). split; [|done].
  unfold virtio_gpu_pci_quirk. case_if; [|done]. pose proof (bl_aperture (the_world s)) as Q2.
  destruct (aperture_remove (the_world s)) as [r' w']. by case_if.
Qed.
End Put.

End Boot.

(** C14: a probe that succeeds leaves the DRM device, the two queues, the buffer cache and, if there is a
    host-visible window, its allocator; removing the device then gives all of them back and closes
    the guest pool, at once when the driver held the last reference of the device, else when the last
    user of the device closes it and the release runs. A probe that fails gives back the device, the
    queues and the cache too. When it was the registration of the initialised device that failed,
    the window's allocator goes and the guest pool is closed the same way. When it was an earlier step,
    the device has been forgotten (or was never made) and its release does nothing: then the window's
    allocator can stay behind, and the guest pool is left as the initialisation had it. *)
Theorem probe_unwinds {B W} `{BO : BuddyOps B} `{PA : PoolApi W} `{BL : BootLaws W} sleep lock n wait shl_int flush
  fw_only modeset fbdev mm (st : drv_st (B := B) (W := W))
  (Hsleep : forall st, bobs (snd (sleep st)) = bobs (snd st)) (Hlock : forall st, bobs (snd (lock st)) = bobs (snd st))
  (Hwait : forall st, bobs (snd (wait st)) = bobs (snd st)) (Hflush : forall k st, bobs (snd (flush k st)) = bobs (snd st))
  (Hnew : dr_private (drv_of st) = false) :
  let '(ret, st') := virtio_gpu_probe sleep lock n wait shl_int flush fw_only modeset fbdev mm st in
  (ret = 0 /\ held st' = {[+ BDev; BVqs; BCache +]} ⊎ (window_held (dr_ft (drv_of st')) ⊎ held st) /\
     unwound lock (held st) (snd (virtio_gpu_remove lock flush st'))) \/
  (ret <> 0 /\ dr_private (drv_of st') = false /\ (held st' = held st \/ held st' = {[+ BMm +]} ⊎ held st)) \/
  (ret <> 0 /\ unwound lock (held st) st').
Proof.
  change (probe_outcome lock flush (held st) (virtio_gpu_probe sleep lock n wait shl_int flush fw_only modeset fbdev mm st)).
  unfold virtio_gpu_probe. case_if; [by right; left; split_and!; [| |left]|]. case_if; [by right; left; split_and!; [| |left]|].
  pose proof (on_w_held drm_dev_alloc st _ eq_refl) as H1. pose proof (bl_dev (the_world st)) as H2.
  destruct (on_w drm_dev_alloc st) as [ret s1]. destruct (drm_dev_alloc (the_world st)) as [ret' w']. cbn [fst snd] in *.
  destruct H1 as (-> & H1 & H3 & _). rewrite H2 in H1. change (bobs (the_world st)) with (held st) in H1. clear H2 w'.
  unfold c_true at 1. destruct (Z.eqb_spec ret' 0) as [Hr|Hne]; [subst ret'|]; cbn [negb boot_got] in *.
  2:{ right. left. split_and!; [done | congruence |]. left. rewrite H1. multiset_solver. }
  pose proof (pci_quirk_held s1) as H4. destruct (if dev_is_pci (the_world s1) then _ else _) as [ret2 s2]. destruct H4 as [H4 H5].
  unfold c_true at 1. destruct (Z.eqb_spec ret2 0) as [->|Hne]; cbn [negb].
  2:{ apply (err_free_outcome lock flush ret2 s2 (held st) (held st)); [congruence | congruence | done | by left]. }
  cbv zeta. match goal with |- context [on_w (dma_set_max_seg_size ?z) s2] =>
    pose proof (on_w_held (dma_set_max_seg_size z) s2 _ eq_refl) as H6; rewrite (bl_max_seg z) in H6;
    destruct (on_w (dma_set_max_seg_size z) s2) as [u3 s3] end.
  destruct H6 as (_ & H6 & H7 & _). change (bobs (the_world s2)) with (held s2) in H6.
  pose proof (virtio_gpu_init_outcome sleep lock n wait shl_int flush Hsleep Hlock Hwait Hflush mm s3 ltac:(congruence)) as I.
  destruct (virtio_gpu_init _ _ _ _ mm s3) as [ret4 s4]. unfold init_outcome in I. rewrite H6, H4, H1 in I.
  destruct I as [(I1 & I2 & I3)|(-> & I2 & I3)].
  - unfold c_true at 1. destruct (Z.eqb_spec ret4 0); [done|]. cbn [negb].
    destruct I3 as [I3|I3].
    + by apply (err_free_outcome lock flush ret4 s4 (held st) (held st)); [| | |left].
    + apply (err_free_outcome lock flush ret4 s4 (held st) ({[+ BMm +]} ⊎ held st)); [done | rewrite I3; multiset_solver | done | by right].
  - change (c_true 0) with false. cbv iota.
    apply (register_outcome sleep lock wait flush Hsleep Hlock Hwait Hflush); [done | rewrite I3; multiset_solver].
Qed.

(** When the queues cannot be found (or a later step of the initialisation fails) the device is
    forgotten with its guest pool still open and the window's allocator still there: the release
    that follows does nothing at all, because it looks for the device first. *)
Theorem failed_init_leaks {B W} `{BO : BuddyOps B} `{PA : PoolApi W} `{CE : CtrlEnv W} `{OA : !ObjArrays W} `{BE : !BoEnv W}
  `{KE : !KmsEnv W} `{KB : !BootEnv W} sleep lock n wait shl_int mm e dt addr len (st : drv_st (B := B) (W := W))
  (Hver : forall w, virtio_has_feature w VIRTIO_F_VERSION_1 = true) (Hmem : forall w, fst (drmm_kzalloc_vgdev w) = true)
  (Hdt : forall w, pool_dt w = dt) (Hshm : forall w, virtio_get_shm_region w = Some (addr, len))
  (Hres : forall a l w, fst (devm_request_mem_region a l w) = true)
  (Hvqs : forall w, fst (virtio_find_vqs w) = e) (He : e <> 0) :
  let '(ret, st') := virtio_gpu_init sleep n wait shl_int mm st in
  ret = e /\ virtio_gpu_release lock st' = (tt, st') /\ ft_host_visible (dr_ft (fst st')) = true /\
  dv_pool (the_dev st') = snd (virtio_gpu_guest_pool_init dt (dv_pool (vgdev_zero mm (the_world st)))).
Proof.
  destruct st as [r [os [d w]]]. unfold virtio_gpu_init, the_world, on_w, on_dev_st, on_kms_st, on_kms, on_world. cbn [fst snd].
  rewrite Hver. cbn [negb]. pose proof (Hmem w) as H1. destruct (drmm_kzalloc_vgdev w) as [ok w1]. cbn [fst] in H1. subst ok. cbn [negb].
  unfold init_device. destruct (fence_context_alloc w1) as [c w2]. unfold init_window, the_world. cbn [fst snd]. rewrite Hshm.
  unfold on_w, on_dev_st, on_kms_st, on_kms, on_world, upd_drv. pose proof (Hres addr len w2) as H2.
  destruct (devm_request_mem_region addr len w2) as [ok w3]. cbn [fst] in H2. subst ok. cbn [negb].
  destruct (drm_mm_init addr len w3) as [u w4]. change (c_true 0) with false. cbv iota.
  unfold init_pools, upd_drv, on_w, on_dev_st, on_kms_st, on_kms, on_world, on_pool, the_world. cbn [fst snd].
  destruct (virtio_gpu_find_pool_base n w4) as [base w5]. cbn [fst snd]. rewrite Hdt.
  change (dv_pool (dv_set_gpu _ _)) with (GuestPool false 0 0 0 0 0 0 mm false false).
  change (dv_pool (vgdev_zero mm w)) with (GuestPool false 0 0 0 0 0 0 mm false false).
  destruct (virtio_gpu_guest_pool_init dt _) as [ret p]. cbn [fst snd]. pose proof (Hvqs w5) as H3.
  destruct (virtio_find_vqs w5) as [ret' w6]. cbn [fst] in H3. subst ret'. unfold c_true. destruct (Z.eqb_spec e 0); [done|].
  cbn [negb]. done.
Qed.

(** ** Sample world *)

(** what is held, and the node references *)
Record toy_boot := ToyBoot { tb_held : gmultiset boot_held; tb_nodes : gmultiset Z }.
Definition tb_take (w : toy_boot) (h : boot_held) : toy_boot := ToyBoot ({[+ h +]} ⊎ tb_held w) (tb_nodes w).
Definition tb_give (w : toy_boot) (h : boot_held) : toy_boot := ToyBoot (tb_held w ∖ {[+ h +]}) (tb_nodes w).
Definition tb_ref (w : toy_boot) (n : option Z) : toy_boot :=
  ToyBoot (tb_held w) (match n with Some n => {[+ n +]} | None => ∅ end ⊎ tb_nodes w).
Definition tb_unref (w : toy_boot) (n : option Z) : toy_boot :=
  ToyBoot (tb_held w) (tb_nodes w ∖ match n with Some n => {[+ n +]} | None => ∅ end).

#[export] Instance toy_boot_ctrl : CtrlEnv toy_boot := {
  drm_dev_enter w := true; vbuf_zalloc w := (1, w); vbuf_free a w := (tt, w);
  vq_num_free w := 5; vq_add_sgs v w := (0, w); vq_get_buf w := (None, w);
  vq_enable_cb w := (true, w); vq_kick_prepare w := (true, w); vq_notify w := (tt, w); wake_ack w := (tt, w);
  is_vmalloc_addr a := false; sgt_alloc n w := (true, w); vmalloc_to_page a w := (true, w); sgt_free w := (tt, w);
  cursor_add v w := (0, w); cursor_kick_prepare w := (true, w); cursor_notify w := (tt, w); cursor_wait w := (tt, w)
}.
#[export] Instance toy_boot_arrays : ObjArrays toy_boot := {
  objs_unlock l w := (tt, w); objs_add_fence l f w := (tt, w); objs_put_delayed l w := (tt, w)
}.
#[export] Instance toy_boot_bo : BoEnv toy_boot := {
  kzalloc_buf n w := (true, w); kfree_buf w := (tt, w); dma_sync_for_device a w := (tt, w);
  wake_resp_wq w := (tt, w); hotplug_event w := (tt, w); ida_alloc w := (1, w); ida_free i w := (tt, w);
  drm_gem_shmem_free a w := (tt, w); drm_mm_remove_node s z w := (tt, w); vram_release a w := (tt, w); import_release a w := (tt, w);
  drm_edid_read_custom s n b w := (1, w); drm_edid_free e w := (tt, w)
}.
#[export] Instance toy_boot_pool : PoolApi toy_boot := {
  pool_grow id off len w := (0, w); pool_shrink id off len w := (0, w); pool_query_range id off len w := ((0, Some true), w)
}.
#[export] Instance toy_boot_kms : KmsEnv toy_boot := plain_kms (fun _ => 0).

(** three reserved regions; the second is the native contexts' pool *)
Definition boot_kids : list Z := [3; 7; 9].
Definition boot_named (p : pool_node) (c : Z) : bool := bool_decide (p = Drm2kgslHost) && (c =? 7).
Definition boot_res (c : Z) : option Z := if c =? 7 then Some 0x90000000 else None.
Definition after (prev : option Z) : option Z :=
  match prev with None => Some 3 | Some c => if c =? 3 then Some 7 else if c =? 7 then Some 9 else None end.

(** [vqs]: the queues can be found *)
Definition toy_boot_env_of (vqs : bool) : BootEnv toy_boot := {|
  of_find_reserved_memory w := (Some 1, tb_ref w (Some 1));
  of_get_next_child r p w := (after p, tb_ref (tb_unref w p) (after p));
  of_node_name_prefix w c p := boot_named p c; of_address_to_resource w c := boot_res c;
  of_node_put n w := (tt, tb_unref w (Some n));
  pool_dt w := Some dt0; virtio_has_feature w f := negb (f =? VIRTIO_F_ACCESS_PLATFORM); virglhack_param w := true; kms_enabled := true;
  cread_events w := 1; cwrite_events_clear e w := (tt, w); cread_num_scanouts w := 1; cread_num_capsets w := 2;
  hpd_irq_event w := (tt, w); drmm_kcalloc_capsets n w := (true, w); drmm_kfree_capsets w := (tt, w);
  drmm_kzalloc_vgdev w := (true, w); fence_context_alloc w := (40, w);
  virtio_get_shm_region w := Some (0x200000000, 0x10000000); devm_request_mem_region a l w := (true, w);
  drm_mm_init a l w := (tt, tb_take w BMm); drm_mm_takedown w := (tt, tb_give w BMm);
  virtio_find_vqs w := if vqs then (0, tb_take w BVqs) else (- ENOENT, w); del_vqs w := (tt, tb_give w BVqs);
  kmem_cache_create w := (true, tb_take w BCache); kmem_cache_destroy w := (tt, tb_give w BCache);
  virtio_device_ready w := (tt, w); virtio_reset_device w := (tt, w); schedule_work k w := (tt, w);
  kzalloc_fpriv w := (Some 800, w); kfree_fpriv a w := (tt, w); ctx_ida_alloc w := (0, w); ctx_ida_free i w := (tt, w);
  drm_dev_alloc w := (0, tb_take w BDev); drm_dev_put w := (true, tb_give w BDev); dev_is_pci w := true; parent_is_vga w := false;
  pci_is_vga w p := false; aperture_remove w := (0, w); dma_max_mapping_size w := 0; dma_set_max_seg_size n w := (tt, w);
  drm_dev_register w := (0, w); drm_dev_unplug w := (tt, w); drm_client_setup w := (tt, w); drm_atomic_helper_shutdown w := (tt, w);
  pci_get_device w := (None, w); pci_dev_put p w := (tt, w); vga_get_interruptible p w := (0, w); vga_put p w := (tt, w);
  register_virtio_driver w := (0, w) |}.
#[export] Instance toy_boot_env : BootEnv toy_boot := toy_boot_env_of true.

#[export] Instance toy_boot_tree : TreeLaws toy_boot (Some 1) boot_kids boot_named boot_res.
Proof.
  split; try done.
  - repeat constructor; set_solver.
  - intros w r l1 c l2 E. unfold boot_kids in E.
    destruct l1 as [|x1 [|x2 [|x3 [|x4 l1]]]]; cbn in E; simplify_eq; done.
Defined.
#[export] Instance toy_boot_refs : TreeRefs toy_boot.
Proof.
  refine {| nobs := tb_nodes |}.
  - done.
  - intros r prev w R E. cbn. rewrite E. destruct prev; multiset_solver.
  - intros k w R E. cbn. rewrite E. multiset_solver.
Defined.
#[export] Instance toy_boot_quiet : CtrlQuiet tb_held.
Proof. by split. Qed.
Lemma tb_gives (w : toy_boot) h R : tb_held w = {[+ h +]} ⊎ R -> tb_held (tb_give w h) = R.
Proof. intros E. cbn. rewrite E. multiset_solver. Qed.
#[export] Instance toy_boot_laws : BootLaws toy_boot.
Proof.
  refine {| bobs := tb_held |}; intros; cbn; try first [done | by apply tb_gives].
Defined.

Lemma pool_base_found_witness (w := ToyBoot ∅ ∅) :
  let '(r, w') := virtio_gpu_find_pool_base 4 w in r = Some (0x90000000, Drm2kgslHost) /\ tb_nodes w' = ∅.
Proof.
  pose proof (pool_base_found (Some 1) boot_kids boot_named boot_res 4 w ltac:(cbn; lia)) as T. cbv zeta in T.
  destruct (virtio_gpu_find_pool_base 4 w) as [r w']. destruct T as [T1 T2]. split; [rewrite T2; reflexivity | exact T1].
Defined.

Definition boot_mm : unit := tt.
(** the host answers with the sets 1 and 6 *)
Definition boot_answers (i : nat) : capset := match i with O => Capset 1 1 308 | _ => Capset 6 1 160 end.
Definition boot_wait (st : dev_st unit toy_boot) : dev_st unit toy_boot :=
  (dv_set_capsets (fst st) (answer_next boot_answers <$> dv_capsets (fst st)), snd st).
(** [1 << id] as the machine's 32-bit shift gives it *)
Definition shl32 (id : Z) : Z := s32 (Z.shiftl 1 (id mod 32)).

Lemma shl32_exact x : 0 <= x <= 30 -> shl32 x = 2 ^ x.
Proof.
  intros Hx. unfold shl32. rewrite Z.mod_small by lia. rewrite Z.shiftl_1_l.
  assert (2 ^ x <= 2 ^ 30) by (apply Z.pow_le_mono_r; lia). assert (0 < 2 ^ x) by (apply Z.pow_pos_nonneg; lia).
  unfold s32. rewrite Z.mod_small by lia. lia.
Qed.
Lemma shl32_int x : - 2 ^ 31 <= shl32 x < 2 ^ 31.
Proof. apply s32_range. Qed.

Lemma capsets_discovered_witness :
  let '(_, (mask, (d', w'))) := virtio_gpu_get_capsets (fun st => st) 1 boot_wait shl32 2 (0, (job_dev, ToyBoot ∅ ∅)) in
  dv_capsets d' = Some [Capset 1 1 308; Capset 6 1 160] /\ Z.testbit mask 6 = true /\ Z.testbit mask 5 = false.
Proof.
  pose proof (capsets_discovered (fun st => st) 1 boot_wait shl32 boot_answers 2 job_dev (ToyBoot ∅ ∅) shl32_exact
    ltac:(intros st l Hl; unfold boot_wait; cbn; by rewrite Hl) ltac:(done) eq_refl) as T. cbv zeta in T.
  destruct (virtio_gpu_get_capsets _ _ _ _ _ _) as [u [mask [d' w']]]. destruct T as [T _].
  destruct T as (T1 & _ & T2).
  { intros i Hi. unfold capset_valid, MAX_CAPSET_ID. destruct i as [|[|i]]; cbn; lia. }
  assert (Hle : forall i, (i < 2)%nat -> cs_id (boot_answers i) <= 30) by (intros [|[|i]] Hi; cbn; lia). split_and!; [exact T1 | |].
  - apply (T2 Hle); [lia|]. exists 1%nat. split; [cbn; lia | reflexivity].
  - destruct (Z.testbit mask 5) eqn:E5; [|done]. apply (T2 Hle) in E5 as (i & Hi & E5); [|lia]. destruct i as [|[|i]]; cbn in Hi, E5; lia.
Defined.

(** a host that offers the sets 1 and 31 seems to offer 63 too *)
Definition boot_answers31 (i : nat) : capset := match i with O => Capset 1 1 308 | _ => Capset 31 1 160 end.
Definition boot_wait31 (st : dev_st unit toy_boot) : dev_st unit toy_boot :=
  (dv_set_capsets (fst st) (answer_next boot_answers31 <$> dv_capsets (fst st)), snd st).
Lemma capset_mask_conflates_witness :
  let '(_, (mask, _)) := virtio_gpu_get_capsets (fun st => st) 1 boot_wait31 shl32 2 (0, (job_dev, ToyBoot ∅ ∅)) in
  fst (context_param (ft_set_mask mask no_features) VIRTGPU_CONTEXT_PARAM_CAPSET_ID 63 (ctx_file, empty_queue 5)) = 0.
Proof.
  pose proof (capset_mask_conflates (fun st => st) 1 boot_wait31 shl32 2 no_features ctx_file (empty_queue 5)
    (job_dev, ToyBoot ∅ ∅) shl32_int eq_refl) as T.
  assert (E : Z.testbit (fst (snd (virtio_gpu_get_capsets (fun st => st) 1 boot_wait31 shl32 2 (0, (job_dev, ToyBoot ∅ ∅))))) 31 = true /\
    fst (context_param (ft_set_mask (fst (snd (virtio_gpu_get_capsets (fun st => st) 1 boot_wait31 shl32 2 (0, (job_dev, ToyBoot ∅ ∅)))))
      no_features) VIRTGPU_CONTEXT_PARAM_CAPSET_ID 31 (ctx_file, empty_queue 5)) = 0) by (split; by vm_compute).
  change (ft_capset_id_mask no_features) with 0 in T.
  destruct (virtio_gpu_get_capsets _ _ _ _ _ _) as [u [mask st']]. cbn [fst snd] in E. destruct E as [_ E].
  rewrite <- E. symmetry. apply (T 31 63); lia.
Defined.

Definition boot_start : drv_st (B := unit) (W := toy_boot) := (drv_zero, ([], (job_dev, ToyBoot ∅ ∅))).

Lemma probe_unwinds_witness :
  let '(ret, st') := virtio_gpu_probe (fun st => st) (fun st => st) 4 boot_wait shl32 (fun _ st => st) false (- 1) true boot_mm boot_start in
  ret = 0 /\ held st' = {[+ BDev; BVqs; BCache; BMm +]} /\
  unwound (fun st => st) ∅ (snd (virtio_gpu_remove (fun st => st) (fun _ st => st) st')).
Proof.
  pose proof (probe_unwinds (fun st => st) (fun st => st) 4 boot_wait shl32 (fun _ st => st) false (- 1) true boot_mm boot_start
    ltac:(done) ltac:(done) ltac:(done) ltac:(done) eq_refl) as T.
  assert (E : fst (virtio_gpu_probe (fun st => st) (fun st => st) 4 boot_wait shl32 (fun _ st => st) false (- 1) true boot_mm boot_start) = 0 /\
    ft_host_visible (dr_ft (drv_of (snd (virtio_gpu_probe (fun st => st) (fun st => st) 4 boot_wait shl32 (fun _ st => st) false (- 1) true
      boot_mm boot_start)))) = true) by (split; by vm_compute).
  destruct (virtio_gpu_probe _ _ _ _ _ _ _ _ _ _ _) as [ret st']. cbn [fst snd] in E. destruct E as [-> E].
  destruct T as [(_ & T1 & T2)|[[T _]|[T _]]]; [|done..]. unfold window_held in T1. rewrite E in T1.
  change (held boot_start) with (∅ : gmultiset boot_held) in *. split_and!; [done | rewrite T1; multiset_solver | exact T2].
Defined.

Lemma failed_init_leaks_witness :
  let '(ret, st') := virtio_gpu_init (KB := toy_boot_env_of false) (fun st => st) 4 boot_wait shl32 boot_mm boot_start in
  ret = - ENOENT /\ gp_ready (dv_pool (the_dev st')) = true /\ virtio_gpu_release (KB := toy_boot_env_of false) (fun st => st) st' = (tt, st').
Proof.
  pose proof (failed_init_leaks (KB := toy_boot_env_of false) (fun st => st) (fun st => st) 4 boot_wait shl32 boot_mm (- ENOENT) (Some dt0)
    0x200000000 0x10000000 boot_start ltac:(done) ltac:(done) ltac:(done) ltac:(done) ltac:(done) ltac:(done) ltac:(done)) as T.
  destruct (virtio_gpu_init _ _ _ _ _ _) as [ret st']. destruct T as (T1 & T2 & _ & T3).
  split_and!; [exact T1 | rewrite T3; by vm_compute | exact T2].
Defined.
