(* ===== verification/DynTest.v ===== *)
(** * The dynamic-pool test module (dynpool_test/dynpool_test.c)

    The module exercises a growable pool from inside the guest: it sends grow, shrink, query and
    test-reference requests ([PoolApi], [PoolTestApi]), touches the memory it was granted
    ([ProbeEnv]) and reports through sysfs. Its globals are the record [dyn]; formatting and
    scanning are the kernel's ([Text]). cmd_store and result_show hold result_lock throughout, so
    a command is one atomic step. *)

From Stdlib Require Import Ascii.
From stdpp Require Import strings.
From S2P Require Import Prelude RmClient AcceptDev PoolCtl.

Definition MB : Z := Z.shiftl 1 20.

(** ** What the module calls *)

(** the two requests only this module uses *)
Class PoolTestApi (S : Type) := {
  pool_query : Z -> ST S (Z * option Z);                     (* id: result, [*live_grants] *)
  pool_test_ref : Z -> Z -> Z -> bool -> ST S Z              (* id offset len take *)
}.

#[export] Instance pool_ctl_test_api {W} `{PoolEnv W} : PoolTestApi (pool_st W) := {
  pool_query := gunyah_pool_query;
  pool_test_ref := gunyah_pool_test_ref
}.

(** mappings of physical memory and accesses through them *)
Class ProbeEnv (W : Type) := {
  memremap : Z -> Z -> ST W (option Z);                      (* address, length *)
  memunmap : Z -> ST W unit;
  ioremap_exec : Z -> Z -> ST W (option Z);                  (* __ioremap_prot, PAGE_KERNEL_EXEC *)
  iounmap : Z -> ST W unit;
  write_u64 : Z -> Z -> Z -> ST W unit;                      (* mapping, displacement, value *)
  read_u64 : Z -> Z -> ST W Z;                               (* mapping, displacement *)
  memcpy_toio : Z -> list Z -> ST W unit;
  memcmp_io : Z -> list Z -> ST W Z;
  flush_icache_range : Z -> Z -> ST W unit;
  call_code : Z -> ST W Z;
  remap_pfn_range : Z -> Z -> Z -> ST W Z                    (* user address, frame, length *)
}.

(** an argument of a format *)
Inductive arg := AInt (z : Z) | AStr (s : string).
Coercion AInt : Z >-> arg.
Coercion AStr : string >-> arg.

(** vsnprintf, and sscanf at the three formats used: with the verb the numbers that followed it *)
Class Text := {
  vsnprintf : string -> list arg -> list ascii;
  sscanf_cmd : list ascii -> option (string * list Z);
  sscanf_window : list ascii -> option (Z * Z);              (* three fields matched *)
  sscanf_accept : list ascii -> option (Z * Z * Z)           (* four fields matched *)
}.

(** ** State: the file's static variables *)

Record dp_pool := DpPool { dp_base : Z; dp_size : Z; dp_prealloc : Z; dp_step : Z; dp_id : Z }.
Definition DP_MAX_POOLS : nat := 4.

Record dyn := Dyn {
  active : dp_pool;               (* pool_base, pool_size, pool_prealloc, pool_step, pool_id *)
  dp_map_base : Z; dp_map_size : Z;
  dp_pools : list dp_pool;        (* the first dp_npools entries *)
  result : list ascii;            (* the text in [result], up to its NUL: result_len characters *)
  dp_misc_ok : bool
}.
Definition dyn_boot : dyn := Dyn (DpPool 0 0 0 0 0) 0 0 [] [] false.

Definition pool_base d := dp_base (active d).
Definition pool_size d := dp_size (active d).
Definition pool_prealloc d := dp_prealloc (active d).
Definition pool_step d := dp_step (active d).
Definition pool_id d := dp_id (active d).

Definition set_result d (r : list ascii) := Dyn (active d) (dp_map_base d) (dp_map_size d) (dp_pools d) r (dp_misc_ok d).
Definition set_map d b s := Dyn (active d) b s (dp_pools d) (result d) (dp_misc_ok d).
Definition set_pools d l := Dyn (active d) (dp_map_base d) (dp_map_size d) l (result d) (dp_misc_ok d).
Definition set_misc_ok d := Dyn (active d) (dp_map_base d) (dp_map_size d) (dp_pools d) (result d) true.

Definition dp_activate (idx : Z) (d : dyn) : dyn :=
  if (idx <? 0) || (idx >=? Z.of_nat (length (dp_pools d))) then d
  else match dp_pools d !! Z.to_nat idx with
       | None => d
       | Some p => Dyn p (dp_base p) (dp_size p) (dp_pools d) (result d) (dp_misc_ok d)
       end.

(** sizeof(result) *)
Definition RESULT_SIZE : nat := 4096.

(** the words of a range the verifier touches: [for (i = 0; i < len; i += 4096)], for a length whose
    last step does not wrap *)
Definition word_offsets (len : Z) : list Z := (fun k => 4096 * k) <$> seqZ 0 ((len + 4095) / 4096).

Definition pattern (offset i : Z) : Z := Z.lor 0xD501D0000000 (u64 (offset + i)).

(** mov x0, #42; ret *)
Definition dp_exec_code : list Z := le_put 4 0xd2800540 ++ le_put 4 0xd65f03c0.

Section Ops.
Context {W : Type} `{PA : PoolApi W} `{PT : !PoolTestApi W} `{RA : !RmApi W} `{PE : !ProbeEnv W} `{TX : Text}.

Definition dt_st : Type := dyn * W.

(** an operation of the world *)
Definition on_host {A} (m : ST W A) : ST dt_st A := fun '(d, w) => let '(a, w') := m w in (a, (d, w')).
(** read the module's globals *)
Definition the_dyn : ST dt_st dyn := fun st => (fst st, st).
Definition upd_dyn (f : dyn -> dyn) : ST dt_st unit := fun '(d, w) => (tt, (f d, w)).

(** vscnprintf at the end of the buffer *)
Definition say_text (r : list ascii) (fmt : string) (args : list arg) : list ascii :=
  r ++ take (RESULT_SIZE - length r - 1) (vsnprintf fmt args).
Definition say (fmt : string) (args : list arg) : ST dt_st unit :=
  upd_dyn (fun d => set_result d (say_text (result d) fmt args)).
Definition say_reset : ST dt_st unit := upd_dyn (fun d => set_result d []).

Definition grow off len : ST dt_st Z := d ← the_dyn; on_host (pool_grow (pool_id d) off len).
Definition shrink off len : ST dt_st Z := d ← the_dyn; on_host (pool_shrink (pool_id d) off len).
Definition test_ref off len take : ST dt_st Z := d ← the_dyn; on_host (pool_test_ref (pool_id d) off len take).
(** the result and the caller's [live], which it leaves alone when there is no answer *)
Definition query (live : Z) : ST dt_st (Z * Z) :=
  d ← the_dyn; r ← on_host (pool_query (pool_id d)); mret (r.1, default live r.2).


Definition ok_or (b : bool) (yes no : string) : arg := AStr (if b then yes else no).
Definition okstr (b : bool) : arg := ok_or b "ok" "UNEXPECTED".

(** ** verify_range *)

Fixpoint verify_write (va offset : Z) (l : list Z) : ST dt_st unit :=
  match l with
  | [] => mret tt
  | i :: rest => on_host (write_u64 va i (pattern offset i)) ;; verify_write va offset rest
  end.

Fixpoint verify_read (va offset : Z) (l : list Z) : ST dt_st Z :=
  match l with
  | [] => mret 0
  | i :: rest =>
      got ← on_host (read_u64 va i);
      if negb (got =? pattern offset i) then
        say "  MISMATCH at +%#llx: wrote %#llx read %#llx%s\n"
            [AInt (u64 (offset + i)); AInt (pattern offset i); AInt got;
             ok_or (got =? 0) "  (zero: this range is NOT backed)" ""] ;;
        mret (- EIO)
      else verify_read va offset rest
  end.

Definition verify_range (offset len : Z) : ST dt_st Z :=
  d ← the_dyn;
  m ← on_host (memremap (u64 (pool_base d + offset)) len);
  match m with
  | None => say "  memremap(%#llx+%#llx) failed\n" [AInt (u64 (pool_base d + offset)); AInt len] ;; mret (- ENOMEM)
  | Some va =>
      verify_write va offset (word_offsets len) ;;
      ret ← verify_read va offset (word_offsets len);
      on_host (memunmap va) ;;
      (if ret =? 0 then say "  verified %#llx+%#llx\n" [AInt offset; AInt len] else mret tt) ;;
      mret ret
  end.

(** ** The commands *)

Definition rejection_cases (d : dyn) : list (string * Z * Z * Z) :=
  let step := pool_step d in let pre := pool_prealloc d in let size := pool_size d in
  [("below the pre-shared floor"%string, 0, step, - EINVAL);
   ("past the window"%string, size, step, - EINVAL);
   ("length past the window"%string, u64 (size - step), u64 (step * 2), - EINVAL);
   ("misaligned offset"%string, u64 (pre + 4096), step, - EINVAL);
   ("misaligned length"%string, pre, u64 (step + 4096), - EINVAL);
   ("zero length"%string, pre, 0, - EINVAL);
   ("releasing what was never granted"%string, pre, step, - ENOENT)].

Definition say_case (what : string) (rc : Z) (ok : bool) : ST dt_st unit :=
  say "  %-34s -> %d %s\n" [AStr what; AInt rc; okstr ok].

(** the last case is a shrink, the others are grows *)
Fixpoint run_rejections (cases : list (string * Z * Z * Z)) : ST dt_st unit :=
  match cases with
  | [] => mret tt
  | (what, off, len, want) :: rest =>
      rc ← (match rest with [] => shrink off len | _ => grow off len end);
      say_case what rc (rc =? want) ;; run_rejections rest
  end.

(** the overlap cases, which need a live grant *)
Definition test_overlaps : ST dt_st unit :=
  d ← the_dyn;
  let growable := u64 (pool_size d - pool_prealloc d) in
  let pre := pool_prealloc d in let step := pool_step d in
  if growable >=? u64 (step * 2) then
    rc ← grow pre step;
    if rc =? 0 then
      rc ← grow pre step;
      say_case "granting the same range twice" rc (rc =? - EEXIST) ;;
      rc ← grow pre (u64 (step * 2));
      say_case "a range enclosing a live grant" rc (rc =? - EEXIST) ;;
      rc ← shrink pre (u64 (step * 2));
      say_case "releasing more than was taken" rc ((rc =? - ERANGE) || (rc =? - EINVAL)) ;;
      shrink pre step ;; mret tt
    else say "  (skipped overlap cases: grow returned %d)\n" [AInt rc]
  else mret tt.

Definition test_rejections : ST dt_st unit :=
  d ← the_dyn;
  say "rejections:\n" [] ;;
  run_rejections (rejection_cases d) ;;
  test_overlaps.

Definition test_busy : ST dt_st unit :=
  d ← the_dyn;
  let off := pool_prealloc d in let len := pool_step d in
  say "busy:\n" [] ;;
  if (pool_step d =? 0) || (pool_prealloc d >=? pool_size d) then
    say "  pool is not growable; nothing to do\n" []
  else
    rc ← grow off len;
    say "  grow                          -> %d\n" [AInt rc] ;;
    if c_true rc then mret tt
    else
      rc ← test_ref off len true;
      say "  take a reference              -> %d %s\n" [AInt rc; okstr (rc =? 0)] ;;
      rc ← shrink off len;
      say "  shrink while referenced       -> %d %s\n"
          [AInt rc; ok_or (rc =? - EBUSY) "ok (refused)" "UNEXPECTED -- it should have been refused"] ;;
      rc ← test_ref off len false;
      say "  drop the reference            -> %d\n" [AInt rc] ;;
      rc ← shrink off len;
      say "  shrink after dropping it      -> %d %s\n" [AInt rc; okstr (rc =? 0)] ;;
      rc ← test_ref off len true;
      say "  reference an ungranted range  -> %d %s\n"
          [AInt rc; ok_or (rc =? - EFAULT) "ok (refused)" "UNEXPECTED -- it should have been refused"].

(** the second, larger grant of the self-test *)
Definition selftest_second (off len : Z) : ST dt_st unit :=
  d ← the_dyn;
  if u64 (pool_size d - pool_prealloc d) >=? u64 (len + u64 (pool_step d * 2)) then
    let off2 := u64 (off + len) in let len2 := u64 (pool_step d * 2) in
    rc ← grow off2 len2;
    say "  grow %#llx+%#llx -> %d  (2 steps, still ONE memparcel)\n" [AInt off2; AInt len2; AInt rc] ;;
    if rc =? 0 then
      verify_range off2 len2 ;;
      verify_range off len ;;
      rc ← shrink off2 len2;
      say "  shrink %#llx+%#llx -> %d\n" [AInt off2; AInt len2; AInt rc]
    else mret tt
  else mret tt.

Definition test_selftest : ST dt_st unit :=
  d ← the_dyn;
  let off := pool_prealloc d in let len := pool_step d in
  say "selftest:\n" [] ;;
  if pool_step d =? 0 then say "  pool is not growable (step 0); nothing to do\n" []
  else if pool_prealloc d >=? pool_size d then say "  pool is fully pre-shared; nothing to grow\n" []
  else
    rc ← grow off len;
    say "  grow %#llx+%#llx -> %d\n" [AInt off; AInt len; AInt rc] ;;
    if c_true rc then mret tt
    else
      v ← verify_range off len;
      if c_true v then mret tt
      else
        selftest_second off len ;;
        q ← query 0;
        say "  query -> %d, host says %llu live grant(s)\n" [AInt q.1; AInt q.2] ;;
        rc ← shrink off len;
        say "  shrink %#llx+%#llx -> %d\n" [AInt off; AInt len; AInt rc] ;;
        q ← query q.2;
        say "  query -> %d, host says %llu live grant(s)\n" [AInt q.1; AInt q.2] ;;
        say "  NOW CHECK THE HOST: served should have fallen back and pool_avail risen\n" [].

(** ** Accepting a parcel and executing from it *)

Definition test_accept (gpa size handle : Z) : ST dt_st unit :=
  say "accept handle=%#x at %#llx+%#llx\n" [AInt handle; AInt gpa; AInt size] ;;
  rc ← on_host (rm_mem_accept handle gpa size);
  say "  MEM_ACCEPT -> %d%s\n" [AInt rc; ok_or (c_true rc) "  (rejected)" ""] ;;
  if c_true rc then mret tt
  else
    upd_dyn (fun d => set_map d gpa size) ;;
    say "  /dev/dynpool now maps %#llx+%#llx\n" [AInt gpa; AInt size] ;;
    m ← on_host (memremap gpa PAGE_SIZE);
    match m with
    | None => say "  memremap failed; cannot check the contents\n" []
    | Some va =>
        got ← on_host (read_u64 va 0);
        say "  first word %#llx (host wrote the GPA repeated: %s)\n"
            [AInt got; ok_or (got =? gpa) "MATCH -- these are the host's pages" "MISMATCH -- not the host's pages"] ;;
        on_host (write_u64 va 0 (u64 (Z.lnot got))) ;;
        r1 ← on_host (read_u64 va 0);
        r2 ← on_host (read_u64 va 0);
        say "  wrote back %#llx, read %#llx %s\n"
            [AInt (u64 (Z.lnot got)); AInt r1; ok_or (r2 =? u64 (Z.lnot got)) "ok" "MISMATCH"] ;;
        on_host (memunmap va)
    end.

Definition test_accept_exec (gpa size handle : Z) : ST dt_st unit :=
  test_accept gpa size handle ;;
  m ← on_host (ioremap_exec gpa PAGE_SIZE);
  match m with
  | None => say "  __ioremap_prot(EXEC) failed\n" []
  | Some va =>
      on_host (memcpy_toio va dp_exec_code) ;;
      c ← on_host (memcmp_io va dp_exec_code);
      if c_true c then
        say "  code did not read back; NOT calling it\n" [] ;; on_host (iounmap va)
      else
        on_host (flush_icache_range va (va + Z.of_nat (length dp_exec_code))) ;;
        say "  EL1: calling %#llx (a stage-2 XN takes the VM down here)\n" [AInt gpa] ;;
        rc ← on_host (call_code va);
        say "  EL1: returned %d (expect 42) -> the guest CAN execute from this parcel\n" [AInt rc] ;;
        on_host (iounmap va)
  end.

Definition test_exec_el1 (off : Z) : ST dt_st unit :=
  d ← the_dyn;
  let pa := u64 (dp_map_base d + off) in
  if off >=? dp_map_size d then
    say "offset %#llx is outside the current window (%#llx+%#llx)\n" [AInt off; AInt (dp_map_base d); AInt (dp_map_size d)]
  else
    m ← on_host (ioremap_exec pa PAGE_SIZE);
    match m with
    | None => say "__ioremap_prot(%#llx, PAGE_KERNEL_EXEC) failed\n" [AInt pa]
    | Some va =>
        on_host (memcpy_toio va dp_exec_code) ;;
        c ← on_host (memcmp_io va dp_exec_code);
        if c_true c then
          say "code did not read back at %#llx -- the range is not backed; NOT calling it\n" [AInt pa] ;;
          on_host (iounmap va)
        else
          on_host (flush_icache_range va (va + Z.of_nat (length dp_exec_code))) ;;
          say "EL1: calling into %#llx (a stage-2 XN takes the VM down here)\n" [AInt pa] ;;
          got ← on_host (call_code va);
          say "EL1: returned %d (expect 42) -> guest CAN execute from a granted range\n" [AInt got] ;;
          on_host (iounmap va)
    end.

(** the user's [vm_start], [vm_end] and [vm_pgoff] *)
Definition dp_mmap (vm_start vm_end vm_pgoff : Z) : ST dt_st Z :=
  d ← the_dyn;
  let len := u64 (vm_end - vm_start) in
  let off := u64 (Z.shiftl vm_pgoff PAGE_SHIFT) in
  if (len =? 0) || (dp_map_size d =? 0) || (off >=? dp_map_size d) || (len >? u64 (dp_map_size d - off))
  then mret (- EINVAL)
  else on_host (remap_pfn_range vm_start (Z.shiftr (u64 (dp_map_base d + off)) PAGE_SHIFT) len).

(** ** The sysfs files *)

(** the last pool with the id *)
Definition find_pool (pools : list dp_pool) (id : Z) : Z :=
  snd (foldl (fun '(i, hit) p => (i + 1, if dp_id p =? id then i else hit)) (0, -1) pools).

Definition cmd_select (a_mb : Z) : ST dt_st unit :=
  d ← the_dyn;
  let hit := find_pool (dp_pools d) (u32 a_mb) in
  if hit <? 0 then say "no pool with id %llu (have %d pools)\n" [AInt a_mb; AInt (Z.of_nat (length (dp_pools d)))]
  else
    upd_dyn (dp_activate hit) ;;
    d ← the_dyn;
    say "selected pool_id %u (base %#llx, %llu MB, pre %llu MB, step %llu MB)\n"
        [AInt (pool_id d); AInt (pool_base d); AInt (pool_size d / MB); AInt (pool_prealloc d / MB); AInt (pool_step d / MB)].

Definition cmd_window (buf : list ascii) : ST dt_st unit :=
  match sscanf_window buf with
  | None => say "usage: window <gpa_hex> <size_mb>\n" []
  | Some (gpa, size_mb) =>
      upd_dyn (fun d => set_map d gpa (u64 (size_mb * MB))) ;;
      say "window is now %#llx+%#llx (nothing was accepted)\n" [AInt gpa; AInt (u64 (size_mb * MB))]
  end.

Definition cmd_accept (verb : string) (buf : list ascii) : ST dt_st unit :=
  match sscanf_accept buf with
  | None => say "usage: %s <gpa_hex> <size_mb> <handle_hex>\n" [AStr verb]
  | Some (gpa, size_mb, handle) =>
      if String.eqb verb "accept" then test_accept gpa (u64 (size_mb * MB)) handle
      else test_accept_exec gpa (u64 (size_mb * MB)) handle
  end.

Definition cmd_verb (buf : list ascii) (verb : string) (nums : list Z) : ST dt_st unit :=
  let n := 1 + Z.of_nat (length nums) in
  let a_mb := default 0 (nums !! 0%nat) in let b_mb := default 0 (nums !! 1%nat) in
  let a := u64 (a_mb * MB) in let b := u64 (b_mb * MB) in
  if String.eqb verb "window" then cmd_window buf
  else if String.eqb verb "accept" || String.eqb verb "acceptexec" then cmd_accept verb buf
  else if String.eqb verb "select" && (n >=? 2) then cmd_select a_mb
  else if String.eqb verb "selftest" then test_selftest
  else if String.eqb verb "reject" then test_rejections
  else if String.eqb verb "busy" then test_busy
  else if String.eqb verb "grow" && (n =? 3) then
    rc ← grow a b; say "grow %llu MB at +%llu MB -> %d\n" [AInt b_mb; AInt a_mb; AInt rc]
  else if String.eqb verb "shrink" && (n =? 3) then
    rc ← shrink a b; say "shrink %llu MB at +%llu MB -> %d\n" [AInt b_mb; AInt a_mb; AInt rc]
  else if String.eqb verb "verify" && (n =? 3) then verify_range a b ;; mret tt
  else if String.eqb verb "exec" && (n >=? 2) then test_exec_el1 a
  else say "usage: selftest | reject | busy | grow <off_mb> <len_mb> | shrink <off_mb> <len_mb> | verify <off_mb> <len_mb> | exec <off_mb> | accept <gpa_hex> <size_mb> <handle_hex> | acceptexec <gpa_hex> <size_mb> <handle_hex>\n" [].

(** the whole buffer is consumed *)
Definition cmd_store (buf : list ascii) : ST dt_st Z :=
  say_reset ;;
  match sscanf_cmd buf with
  | None => say "could not parse a command\n" [] ;; mret (Z.of_nat (length buf))
  | Some (verb, nums) => cmd_verb buf verb nums ;; mret (Z.of_nat (length buf))
  end.

(** scnprintf into a page *)
Definition result_show (d : dyn) : list ascii := take (Z.to_nat PAGE_SIZE - 1) (result d).

Definition info_show (d : dyn) : list ascii :=
  take (Z.to_nat PAGE_SIZE - 1)
    (vsnprintf "pool_id     %u\nbase        %#llx\nsize        %llu MB\npre_alloc   %llu MB   (backed before boot; never released)\nstep        %llu MB   (0 = not growable)\ngrowable    %llu MB\n"
      [AInt (pool_id d); AInt (pool_base d); AInt (pool_size d / MB); AInt (pool_prealloc d / MB); AInt (pool_step d / MB);
       AInt (u64 (pool_size d - pool_prealloc d) / MB)]).

End Ops.
Arguments dt_st : clear implicits.

(** ** Loading and unloading *)

(** a droidvm,dynamic-pool node: its [reg] (start, size) and the properties it carries *)
Record dp_node := DpNode {
  dn_reg : option (Z * Z);
  dn_pool_size : option Z; dn_pre_alloc_size : option Z; dn_step_size : option Z; dn_pool_id : option Z
}.

(** the module parameters *)
Record dp_params := DpParams { param_base : Z; param_size : Z; param_prealloc : Z; param_step : Z; param_id : Z }.

Class ModEnv (W : Type) := {
  kobject_create_and_add : ST W bool;
  kobject_put : ST W unit;
  sysfs_create_groups : ST W Z;
  sysfs_remove_groups : ST W unit;
  misc_register : ST W Z;
  misc_deregister : ST W unit
}.

Definition node_pool (n : dp_node) (start rsize : Z) : dp_pool :=
  DpPool start (default rsize (dn_pool_size n)) (default rsize (dn_pre_alloc_size n))
         (default 0 (dn_step_size n)) (default 0 (dn_pool_id n)).

(** [for_each_compatible_node]: the table, and the node whose reference its [break] leaves held *)
Fixpoint dp_collect (nodes : list dp_node) (pools : list dp_pool) : list dp_pool * option dp_node :=
  match nodes with
  | [] => (pools, None)
  | n :: rest =>
      if (DP_MAX_POOLS <=? length pools)%nat then (pools, Some n)
      else match dn_reg n with
           | None => dp_collect rest pools
           | Some (start, rsize) => dp_collect rest (pools ++ [node_pool n start rsize])
           end
  end.

Definition param_pool (pa : dp_params) : dp_pool :=
  DpPool (param_base pa) (param_size pa) (param_prealloc pa)
         (if c_true (param_step pa) then param_step pa else param_size pa) (param_id pa).

Section Module_.
Context {W : Type} `{ME : ModEnv W}.

Definition dp_init (nodes : list dp_node) (pa : dp_params) : ST (dt_st W) Z := fun '(d, w) =>
  let '(pools, _) := dp_collect nodes [] in
  let pools := if (length pools =? 0)%nat && c_true (param_size pa) then [param_pool pa] else pools in
  let d := set_pools d pools in
  if (length pools =? 0)%nat then (- ENODEV, (d, w))
  else
    let d := dp_activate 0 d in
    let '(kobj, w1) := kobject_create_and_add w in
    if negb kobj then (- ENOMEM, (d, w1))
    else
      let '(ret, w2) := sysfs_create_groups w1 in
      if c_true ret then (ret, (d, snd (kobject_put w2)))
      else
        let '(ret, w3) := misc_register w2 in
        if c_true ret then (0, (d, w3)) else (0, (set_misc_ok d, w3)).

Definition dp_exit : ST (dt_st W) unit := fun '(d, w) =>
  let w1 := if dp_misc_ok d then snd (misc_deregister w) else w in
  let '(_, w2) := sysfs_remove_groups w1 in
  let '(_, w3) := kobject_put w2 in
  (tt, (d, w3)).

End Module_.
