(* ===== verification/DynProps.v ===== *)
(** * What the test module's commands do on a host that keeps the pool contract

    The contract of the requests, as the comments of gunyah_guest.h and of the test module state it, is
    a relation on what can be observed of the host ([host_obs]): grants, references, mappings,
    memory, and the accesses that went to memory nobody granted. A request may also fail, or time out
    whether or not the host carried it out: the failures are noted, and what a theorem says of runs
    without one it says with [ho_failed]. The commands are then proved against the contract, with the
    weakest precondition of [ST]. *)

From Stdlib Require Import Ascii String.
From stdpp Require Import strings gmap gmultiset.
From S2P Require Import Prelude RmClient PoolCtl DynTest.

(** ** The contract *)

Record host_obs := HostObs {
  ho_grants : gset (Z * Z * Z);        (* pool id, offset, length *)
  ho_refs : gmultiset (Z * Z * Z);     (* references on grants *)
  ho_maps : gmap Z (Z * Z);            (* mapping -> address, length *)
  ho_mem : gmap Z Z;                   (* the words written since they were granted *)
  ho_strays : list Z;                  (* accesses outside granted memory, newest first *)
  ho_failed : list Z                   (* results of the requests that failed, newest first *)
}.

Definition set_grants o g m := HostObs g (ho_refs o) (ho_maps o) m (ho_strays o) (ho_failed o).
Definition set_refs o r := HostObs (ho_grants o) r (ho_maps o) (ho_mem o) (ho_strays o) (ho_failed o).
Definition set_maps o m := HostObs (ho_grants o) (ho_refs o) m (ho_mem o) (ho_strays o) (ho_failed o).
Definition set_mem o m := HostObs (ho_grants o) (ho_refs o) (ho_maps o) m (ho_strays o) (ho_failed o).
Definition stray o a := HostObs (ho_grants o) (ho_refs o) (ho_maps o) (ho_mem o) (a :: ho_strays o) (ho_failed o).
Definition note_failed o (ret : Z) :=
  HostObs (ho_grants o) (ho_refs o) (ho_maps o) (ho_mem o) (ho_strays o) (ret :: ho_failed o).

(** grants and shrinks are above the floor, inside the window, and multiples of the step *)
Definition request_ok (p : dp_pool) (off len : Z) : bool :=
  (dp_prealloc p <=? off) && (0 <? len) && (off + len <=? dp_size p) &&
  (off mod dp_step p =? 0) && (len mod dp_step p =? 0).

Definition meets (i off len : Z) (e : Z * Z * Z) : Prop :=
  e.1.1 = i /\ off < e.1.2 + e.2 /\ e.1.2 < off + len.
#[export] Instance meets_dec i off len e : Decision (meets i off len e).
Proof. unfold meets. apply _. Defined.

Definition met (i off len : Z) (g : gset (Z * Z * Z)) : bool := bool_decide (set_Exists (meets i off len) g).

(** what the host does with a request and answers *)
Definition host_grow p i off len o (ret : Z) o' : Prop :=
  if negb (request_ok p off len) then ret = - EINVAL /\ o' = o
  else if met i off len (ho_grants o) then ret = - EEXIST /\ o' = o
  else (ret <> 0 /\ o' = o) \/
       (ret = 0 /\ exists m, o' = set_grants o ({[(i, off, len)]} ∪ ho_grants o) m).

Definition host_shrink p i off len o (ret : Z) o' : Prop :=
  if negb (request_ok p off len) then ret <> 0 /\ o' = o
  else if negb (met i off len (ho_grants o)) then ret = - ENOENT /\ o' = o
  else if bool_decide ((i, off, len) ∉ ho_grants o) then (ret = - ERANGE \/ ret = - EINVAL) /\ o' = o
  else if bool_decide ((i, off, len) ∈ ho_refs o) then ret = - EBUSY /\ o' = o
  else ret = 0 /\ exists m, o' = set_grants o (ho_grants o ∖ {[(i, off, len)]}) m.

Definition host_ref i off len (take : bool) o (ret : Z) o' : Prop :=
  if take then
    if bool_decide ((i, off, len) ∈ ho_grants o) then ret = 0 /\ o' = set_refs o ({[+ (i, off, len) +]} ⊎ ho_refs o)
    else ret <> 0 /\ (met i off len (ho_grants o) = false -> ret = - EFAULT) /\ o' = o
  else
    if bool_decide ((i, off, len) ∈ ho_refs o) then ret = 0 /\ o' = set_refs o (ho_refs o ∖ {[+ (i, off, len) +]})
    else ret <> 0 /\ o' = o.

(** What a caller of the client sees of a request: the host's answer, or a failure, which is noted.
    A request that failed before the host took it, or that the host could not carry out, changed
    nothing; one that timed out was carried out or not. (The queue serves requests in their order, so
    one carried out after its timeout is as well carried out before the next.) *)
Definition requested (host : host_obs -> Z -> host_obs -> Prop) o (ret : Z) o' : Prop :=
  host o ret o' \/
  (ret <> 0 /\ exists o1, (o1 = o \/ ret = - ETIMEDOUT /\ exists r, host o r o1) /\ o' = note_failed o1 ret).

Definition grow_post p i off len := requested (host_grow p i off len).
Definition shrink_post p i off len := requested (host_shrink p i off len).
Definition ref_post i off len take := requested (host_ref i off len take).

(** an address of a pool's pre-shared part or of a live grant *)
Definition backed (decl : Z -> option dp_pool) (o : host_obs) (a : Z) : Prop :=
  exists i p, decl i = Some p /\
    (0 <= a - dp_base p < dp_prealloc p \/
     exists off len, (i, off, len) ∈ ho_grants o /\ off <= a - dp_base p < off + len).

(** references are held on grants only *)
Definition refs_granted (o : host_obs) : Prop := forall e, e ∈ ho_refs o -> e ∈ ho_grants o.

Class PoolContract (W : Type) `{PoolApi W} `{PoolTestApi W} `{ProbeEnv W} := {
  declared : Z -> option dp_pool;
  view : W -> host_obs;
  contract_grow i p off len w : declared i = Some p ->
    grow_post p i off len (view w) (fst (pool_grow i off len w)) (view (snd (pool_grow i off len w)));
  contract_shrink i p off len w : declared i = Some p ->
    shrink_post p i off len (view w) (fst (pool_shrink i off len w)) (view (snd (pool_shrink i off len w)));
  contract_ref i p off len take w : declared i = Some p ->
    ref_post i off len take (view w) (fst (pool_test_ref i off len take w)) (view (snd (pool_test_ref i off len take w)));
  contract_query i w : view (snd (pool_query i w)) = view w;
  contract_memremap a len w :
    match fst (memremap a len w) with
    | None => view (snd (memremap a len w)) = view w
    | Some va => ho_maps (view w) !! va = None /\
        view (snd (memremap a len w)) = set_maps (view w) (<[va := (a, len)]> (ho_maps (view w)))
    end;
  contract_memunmap va w :
    view (snd (memunmap va w)) = set_maps (view w) (delete va (ho_maps (view w)));
  contract_write va a len i x w : ho_maps (view w) !! va = Some (a, len) -> 0 <= i < len ->
    (backed declared (view w) (a + i) -> view (snd (write_u64 va i x w)) = set_mem (view w) (<[a + i := x]> (ho_mem (view w)))) /\
    (~ backed declared (view w) (a + i) -> view (snd (write_u64 va i x w)) = stray (view w) (a + i));
  contract_read va a len i w : ho_maps (view w) !! va = Some (a, len) -> 0 <= i < len ->
    (backed declared (view w) (a + i) ->
       (forall x, ho_mem (view w) !! (a + i) = Some x -> fst (read_u64 va i w) = x) /\
       view (snd (read_u64 va i w)) = view w) /\
    (~ backed declared (view w) (a + i) -> view (snd (read_u64 va i w)) = stray (view w) (a + i))
}.

(** a growable pool the module's requests suit: its numbers are multiples of a step above a page *)
Record tested_pool (p : dp_pool) : Prop := {
  tp_base : 0 <= dp_base p;
  tp_floor : 0 <= dp_prealloc p < dp_size p;
  tp_step : 4096 < dp_step p;
  tp_bound : dp_base p + dp_size p + 2 * dp_step p < 2 ^ 64;
  tp_floor_step : dp_prealloc p mod dp_step p = 0;
  tp_size_step : dp_size p mod dp_step p = 0
}.

(** the text of a list of messages said one after the other *)
Definition spoken `{Text} (r : list ascii) (ms : list (string * list arg)) : list ascii :=
  foldl (fun r m => say_text r (fst m) (snd m)) r ms.

(** ** What `reject` reports *)

Definition case_msg (what : string) (rc : Z) (ok : bool) : string * list arg :=
  ("  %-34s -> %d %s\n"%string, [AStr what; AInt rc; okstr ok]).

(** the grows that must fail, each said to be ok *)
Definition refused_report : list (string * list arg) :=
  ("rejections:\n"%string, []) ::
  ((fun what => case_msg what (- EINVAL) true) <$>
    ["below the pre-shared floor"; "past the window"; "length past the window"; "misaligned offset";
     "misaligned length"; "zero length"]%string).

Definition skip_msg (ret : Z) : string * list arg :=
  ("  (skipped overlap cases: grow returned %d)\n"%string, [AInt ret]).

Definition overlap_msgs (rc : Z) : list (string * list arg) :=
  [case_msg "granting the same range twice" (- EEXIST) true;
   case_msg "a range enclosing a live grant" (- EEXIST) true;
   case_msg "releasing more than was taken" rc true].

(** the overlap cases have no room, or the host refuses their grant, or each is said to be ok *)
Definition overlap_report (p : dp_pool) (tail : list (string * list arg)) : Prop :=
  (dp_size p - dp_prealloc p < 2 * dp_step p /\ tail = []) \/
  (exists ret, ret <> 0 /\ tail = [skip_msg ret]) \/
  (exists rc, (rc = - ERANGE \/ rc = - EINVAL) /\ tail = overlap_msgs rc).

(** ** What `busy` reports: its start, and the rest once its grow was accepted *)

Definition busy_start (ret : Z) : list (string * list arg) :=
  [("busy:\n"%string, []); ("  grow                          -> %d\n"%string, [AInt ret])].

Definition busy_msgs : list (string * list arg) :=
  [("  take a reference              -> %d %s\n", [AInt 0; okstr true]);
   ("  shrink while referenced       -> %d %s\n", [AInt (- EBUSY); AStr "ok (refused)"]);
   ("  drop the reference            -> %d\n", [AInt 0]);
   ("  shrink after dropping it      -> %d %s\n", [AInt 0; okstr true]);
   ("  reference an ungranted range  -> %d %s\n", [AInt (- EFAULT); AStr "ok (refused)"])]%string.

(** taking a reference and dropping it *)
Lemma ref_taken (e : Z * Z * Z) (r : gmultiset (Z * Z * Z)) : e ∈ {[+ e +]} ⊎ r.
Proof. multiset_solver. Qed.
Lemma ref_dropped (e : Z * Z * Z) (r : gmultiset (Z * Z * Z)) : ({[+ e +]} ⊎ r) ∖ {[+ e +]} = r.
Proof. multiset_solver. Qed.

(** every request is a multiple of the step, so only the two tests of the window are left *)
Lemma request_ok_steps p k j : tested_pool p -> 0 <= k -> 1 <= j ->
  dp_prealloc p + k * dp_step p + j * dp_step p <= dp_size p ->
  request_ok p (dp_prealloc p + k * dp_step p) (j * dp_step p) = true.
Proof.
  intros [] Hk Hj Hfit. unfold request_ok.
  rewrite Z.mod_add, tp_floor_step0, Z.mod_mul by lia.
  pose proof (Z.mul_nonneg_nonneg k (dp_step p)). pose proof (Z.mul_pos_pos j (dp_step p)).
  rewrite !andb_true_iff, !Z.leb_le, Z.ltb_lt. repeat split; lia.
Qed.

Lemma request_ok_first p : tested_pool p -> dp_prealloc p + dp_step p <= dp_size p ->
  request_ok p (dp_prealloc p) (dp_step p) = true.
Proof.
  intros T Hfit. pose proof (request_ok_steps p 0 1 T). rewrite !Z.mul_0_l, !Z.add_0_r, !Z.mul_1_l in H.
  apply H; lia.
Qed.

(** the growable part holds a whole step *)
Lemma tested_fits p : tested_pool p -> dp_prealloc p + dp_step p <= dp_size p.
Proof.
  intros []. assert (Hs : dp_step p <> 0) by lia.
  destruct (proj1 (Z.mod_divide _ _ Hs) tp_floor_step0) as [x Hx].
  destruct (proj1 (Z.mod_divide _ _ Hs) tp_size_step0) as [y Hy].
  assert (x < y) by (apply (Z.mul_lt_mono_pos_r (dp_step p)); lia).
  pose proof (Z.mul_le_mono_nonneg_r (x + 1) y (dp_step p)). lia.
Qed.

Lemma word_offsets_in len i : i ∈ word_offsets len -> 0 <= i < len.
Proof.
  unfold word_offsets. intros (k & -> & Hk)%list_elem_of_fmap. apply elem_of_seqZ in Hk.
  pose proof (Z.mul_div_le (len + 4095) 4096 ltac:(lia)). lia.
Qed.

(** ** Rules of the module's own operations *)

Section Rules.
Context {W : Type} `{TX : Text}.

Lemma wp_say fmt args (Q : unit -> dyn * W -> Prop) d w :
  Q tt (set_result d (say_text (result d) fmt args), w) -> wp (say fmt args) Q (d, w).
Proof. done. Qed.

Lemma wp_the_dyn (Q : dyn -> dyn * W -> Prop) d w : Q d (d, w) -> wp the_dyn Q (d, w).
Proof. done. Qed.

Lemma wp_host {A} (m : ST W A) (Q : A -> dyn * W -> Prop) d w :
  (forall w', m w = (fst (m w), w') -> Q (fst (m w)) (d, w')) -> wp (on_host m) Q (d, w).
Proof. intros H'. unfold wp, on_host. destruct (m w) eqn:E. by apply H'. Qed.

End Rules.

(** one step of a command: bind, read the globals, say *)
Ltac wp_step :=
  lazymatch goal with
  | |- wp (mbind _ _) _ _ => apply wp_bind
  | |- wp the_dyn _ _ => apply wp_the_dyn
  | |- wp (say_case _ _ _) _ _ => unfold say_case
  | |- wp (say _ _) _ _ => apply wp_say
  | |- wp (mret _) _ _ => apply wp_ret
  end; cbn beta.
Ltac wp_steps := repeat wp_step.

Section Contract.
Context {W : Type} `{PC : PoolContract W} `{TX : Text}.
Implicit Types (d : dyn) (w : W) (o : host_obs).

(** ** One rule per request *)

(** ** Accesses to memory nobody granted *)

Definition strayed o s := HostObs (ho_grants o) (ho_refs o) (ho_maps o) (ho_mem o) (s ++ ho_strays o) (ho_failed o).

Definition unbacked o a len : Prop := forall i, 0 <= i < len -> ~ backed declared o (a + i).

Lemma strayed_app o s t : strayed (strayed o s) t = strayed o (t ++ s).
Proof. unfold strayed. cbn. by rewrite app_assoc. Qed.

Lemma wp_write_unbacked va a len i x Q d w : ho_maps (view w) !! va = Some (a, len) -> 0 <= i < len ->
  unbacked (view w) a len -> (forall w', view w' = strayed (view w) [a + i] -> Q tt (d, w')) ->
  wp (on_host (write_u64 va i x)) Q (d, w).
Proof.
  intros Hm Hi Hu HQ. apply wp_host. intros w' E. destruct (fst (write_u64 va i x w)). apply HQ.
  destruct (contract_write va a len i x w Hm Hi) as [_ Hw]. rewrite E in Hw. by apply Hw, Hu.
Qed.

Lemma wp_strays_write va a len offset l Q d w : ho_maps (view w) !! va = Some (a, len) ->
  unbacked (view w) a len -> (forall i, i ∈ l -> 0 <= i < len) ->
  (forall w' s, view w' = strayed (view w) s -> Q tt (d, w')) -> wp (verify_write va offset l) Q (d, w).
Proof.
  revert w. induction l as [|i l IH]; intros w Hm Hu Hl HQ.
  { apply wp_ret, (HQ w []). by destruct (view w). }
  apply wp_bind, (wp_write_unbacked va a len); [done | apply Hl; left | done|]. intros w1 Hv.
  apply IH; rewrite ?Hv; [done | done | intros j Hj; apply Hl; by right|].
  intros w' s Hv'. rewrite strayed_app in Hv'. by apply (HQ w' (s ++ [a + i])).
Qed.

Lemma wp_strays_read va a len offset l Q d w : ho_maps (view w) !! va = Some (a, len) ->
  unbacked (view w) a len -> (forall i, i ∈ l -> 0 <= i < len) ->
  (forall ret r w' s, view w' = strayed (view w) s -> Q ret (set_result d r, w')) ->
  wp (verify_read va offset l) Q (d, w).
Proof.
  revert w. induction l as [|i l IH]; intros w Hm Hu Hl HQ.
  { apply wp_ret. destruct d. apply (HQ _ _ w []). by destruct (view w). }
  apply wp_bind, wp_host. intros w1 E. destruct (contract_read va a len i w Hm (Hl i ltac:(left))) as [_ Hv].
  specialize (Hv (Hu i (Hl i ltac:(left)))). rewrite E in Hv. cbn [snd] in Hv.
  destruct (negb _).
  { apply wp_bind, wp_say, wp_ret. by apply (HQ _ _ w1 [a + i]). }
  apply IH; rewrite ?Hv; [done | done | intros j Hj; apply Hl; by right|].
  intros ret r w' s Hv'. apply (HQ ret r w' (s ++ [a + i])). by rewrite Hv', <- strayed_app.
Qed.

Lemma word_offsets_first len : 0 < len -> exists l, word_offsets len = 0 :: l.
Proof.
  intros Hl. unfold word_offsets. assert (1 <= (len + 4095) / 4096) by (apply Z.div_le_lower_bound; lia).
  rewrite seqZ_cons by lia. cbn. by eexists.
Qed.

Context (p : dp_pool) (Hdecl : declared (dp_id p) = Some p).

Lemma wp_grow off len Q d w : active d = p ->
  (forall ret w', pool_grow (dp_id p) off len w = (ret, w') ->
     grow_post p (dp_id p) off len (view w) ret (view w') -> Q ret (d, w')) ->
  wp (grow off len) Q (d, w).
Proof.
  intros <- H'. apply wp_bind, wp_the_dyn, wp_host. intros w' E.
  pose proof (contract_grow _ _ off len w Hdecl) as G. unfold pool_id in *. rewrite E in G at 2. by apply H'.
Qed.

Lemma wp_shrink off len Q d w : active d = p ->
  (forall ret w', shrink_post p (dp_id p) off len (view w) ret (view w') -> Q ret (d, w')) ->
  wp (shrink off len) Q (d, w).
Proof.
  intros <- H'. apply wp_bind, wp_the_dyn, wp_host. intros w' E.
  pose proof (contract_shrink _ _ off len w Hdecl) as G. unfold pool_id in *. rewrite E in G at 2. by apply H'.
Qed.

Lemma wp_test_ref off len take Q d w : active d = p ->
  (forall ret w', ref_post (dp_id p) off len take (view w) ret (view w') -> Q ret (d, w')) ->
  wp (test_ref off len take) Q (d, w).
Proof.
  intros <- H'. apply wp_bind, wp_the_dyn, wp_host. intros w' E.
  pose proof (contract_ref _ _ off len take w Hdecl) as G. unfold pool_id in *. rewrite E in G at 2. by apply H'.
Qed.

(** ** Runs in which no request fails

    A failure stays noted, so a postcondition about runs without one holds of every run with one:
    it is [lossy], and the rules for it have the host's answers only. *)

Definition notes {A} (m : ST (dt_st W) A) : Prop := forall d w, active d = p ->
  active (fst (snd (m (d, w)))) = p /\
  exists l, ho_failed (view (snd (snd (m (d, w))))) = l ++ ho_failed (view w).

Definition lossy {A} (L : list Z) (Q : A -> dyn * W -> Prop) : Prop :=
  forall a d w l e, active d = p -> ho_failed (view w) = l ++ e :: L -> Q a (d, w).

Lemma lossy_bind {A B} L (k : A -> ST (dt_st W) B) Q :
  (forall a, notes (k a)) -> lossy L Q -> lossy L (fun a => wp (k a) Q).
Proof.
  intros Hk HQ a d w l e Ha Hl. unfold wp. destruct (Hk a d w Ha) as [Ha' [l' Hl']].
  destruct (k a (d, w)) as [b [d' w']]. cbn [fst snd] in *.
  apply (HQ b d' w' (l' ++ l) e Ha'). by rewrite Hl', Hl, app_assoc.
Qed.

(** a claim about the runs without a failure *)
Lemma lossy_claim {A} L (R : A -> dyn * W -> Prop) :
  lossy L (fun a st => ho_failed (view (snd st)) = L -> R a st).
Proof.
  intros a d w l e _ Hl Hn. cbn [snd] in Hn. rewrite Hl in Hn. apply (f_equal length) in Hn.
  rewrite length_app in Hn. cbn in Hn. lia.
Qed.

Lemma notes_ret {A} (a : A) : notes (mret a).
Proof. intros d w Ha. split; [done | by exists []]. Qed.
Lemma notes_bind {A B} (m : ST (dt_st W) A) (k : A -> ST (dt_st W) B) :
  notes m -> (forall a, notes (k a)) -> notes (m ≫= k).
Proof.
  intros Hm Hk d w Ha. unfold mbind, st_bind. destruct (Hm d w Ha) as [Ha1 [l1 Hl1]].
  destruct (m (d, w)) as [a [d1 w1]]. destruct (Hk a d1 w1 Ha1) as [Ha2 [l2 Hl2]]. split; [done|].
  exists (l2 ++ l1). cbn [fst snd] in Hl1. by rewrite Hl2, Hl1, app_assoc.
Qed.
Lemma notes_dyn : notes the_dyn.
Proof. intros d w Ha. split; [done | by exists []]. Qed.
Lemma notes_say fmt args : notes (say fmt args).
Proof. intros d w Ha. split; [done | by exists []]. Qed.

Lemma notes_requested m host : (forall d w, active d = p -> wp m (fun ret st => fst st = d /\
    requested host (view w) ret (view (snd st))) (d, w)) ->
  (forall o ret o', host o ret o' -> ho_failed o' = ho_failed o) -> notes m.
Proof.
  unfold notes, dt_st in *. intros Hm Hh d w Ha. destruct (Hm d w Ha) as [E Hr]. split; [by rewrite E|]. clear Hm. revert Hr.
  intros [Hm|(_ & o1 & Ho1 & ->)].
  - exists []. by apply Hh in Hm.
  - exists [fst (m (d, w))]. cbn. f_equal. destruct Ho1 as [->|(_ & r & Hr)]; [done | by apply Hh in Hr].
Qed.

Lemma host_grow_notes i off len o ret o' : host_grow p i off len o ret o' -> ho_failed o' = ho_failed o.
Proof.
  unfold host_grow. destruct (negb _); [by intros [_ ->]|]. destruct (met _ _ _ _); [by intros [_ ->]|].
  by intros [[_ ->]|(_ & m & ->)].
Qed.
Lemma host_shrink_notes i off len o ret o' : host_shrink p i off len o ret o' -> ho_failed o' = ho_failed o.
Proof.
  unfold host_shrink. destruct (negb _); [by intros [_ ->]|]. destruct (negb _); [by intros [_ ->]|].
  case_bool_decide; [by intros [_ ->]|]. case_bool_decide; [by intros [_ ->]|]. by intros (_ & m & ->).
Qed.
Lemma host_ref_notes i off len take o ret o' : host_ref i off len take o ret o' -> ho_failed o' = ho_failed o.
Proof. unfold host_ref. destruct take; case_bool_decide; intros; by destruct_and?; subst. Qed.

Lemma notes_grow off len : notes (grow off len).
Proof.
  apply (notes_requested _ (host_grow p (dp_id p) off len)); [|apply host_grow_notes].
  intros d w Ha. by apply wp_grow.
Qed.
Lemma notes_shrink off len : notes (shrink off len).
Proof.
  apply (notes_requested _ (host_shrink p (dp_id p) off len)); [|apply host_shrink_notes].
  intros d w Ha. by apply wp_shrink.
Qed.
Lemma notes_test_ref off len take : notes (test_ref off len take).
Proof.
  apply (notes_requested _ (host_ref (dp_id p) off len take)); [|apply host_ref_notes].
  intros d w Ha. by apply wp_test_ref.
Qed.

Lemma requested_sure (host : host_obs -> Z -> host_obs -> Prop) L (Q : Z -> dyn * W -> Prop) d w ret w' :
  active d = p -> ho_failed (view w) = L -> lossy L Q -> requested host (view w) ret (view w') ->
  (forall o ret o', host o ret o' -> ho_failed o' = ho_failed o) ->
  (host (view w) ret (view w') -> Q ret (d, w')) -> Q ret (d, w').
Proof.
  intros Ha HL HQ [Hh|(_ & o1 & Ho1 & Hv)] Hn H'; [by apply H'|].
  apply (HQ _ _ _ [] ret Ha). rewrite Hv. cbn. f_equal. rewrite <- HL.
  destruct Ho1 as [->|(_ & r & Hr)]; [done | by apply Hn in Hr].
Qed.

Lemma wp_grow_sure L off len Q d w : active d = p -> ho_failed (view w) = L -> lossy L Q ->
  (forall ret w', host_grow p (dp_id p) off len (view w) ret (view w') -> Q ret (d, w')) ->
  wp (grow off len) Q (d, w).
Proof.
  intros Ha HL HQ H'. apply wp_grow; [done|]. intros ret w' _ G.
  apply (requested_sure _ L Q d w ret w' Ha HL HQ G (host_grow_notes _ off len)), H'.
Qed.

Lemma wp_shrink_sure L off len Q d w : active d = p -> ho_failed (view w) = L -> lossy L Q ->
  (forall ret w', host_shrink p (dp_id p) off len (view w) ret (view w') -> Q ret (d, w')) ->
  wp (shrink off len) Q (d, w).
Proof.
  intros Ha HL HQ H'. apply wp_shrink; [done|]. intros ret w' G.
  apply (requested_sure _ L Q d w ret w' Ha HL HQ G (host_shrink_notes _ off len)), H'.
Qed.

Lemma wp_test_ref_sure L off len take Q d w : active d = p -> ho_failed (view w) = L -> lossy L Q ->
  (forall ret w', host_ref (dp_id p) off len take (view w) ret (view w') -> Q ret (d, w')) ->
  wp (test_ref off len take) Q (d, w).
Proof.
  intros Ha HL HQ H'. apply wp_test_ref; [done|]. intros ret w' G.
  apply (requested_sure _ L Q d w ret w' Ha HL HQ G (host_ref_notes _ off len take)), H'.
Qed.

Lemma wp_query live Q d w :
  (forall r w', view w' = view w -> Q r (d, w')) -> wp (query live) Q (d, w).
Proof.
  intros H'. apply wp_bind, wp_the_dyn, wp_bind, wp_host. intros w' E. apply wp_ret, H'.
  pose proof (contract_query (pool_id d) w) as G. by rewrite E in G.
Qed.

(** ** Verifying a granted range *)

Lemma wp_verify_write va a len offset l Q d w :
  ho_maps (view w) !! va = Some (a, len) ->
  (forall i, i ∈ l -> 0 <= i < len /\ backed declared (view w) (a + i)) ->
  (forall w' m, view w' = set_mem (view w) m ->
     (forall i, i ∈ l \/ ho_mem (view w) !! (a + i) = Some (pattern offset i) -> m !! (a + i) = Some (pattern offset i)) ->
     Q tt (d, w')) ->
  wp (verify_write va offset l) Q (d, w).
Proof.
  intros Hmap. revert w Hmap. induction l as [|i l IH]; intros w Hmap Hb HQ.
  - apply wp_ret, (HQ w (ho_mem (view w))); [by destruct (view w)|].
    intros j [Hj|Hj]; [by apply elem_of_nil in Hj | done].
  - destruct (Hb i ltac:(left)) as [Hi Hbi].
    destruct (contract_write va a len i (pattern offset i) w Hmap Hi) as [Hw _]. specialize (Hw Hbi).
    apply wp_bind, wp_host. intros w1 E. rewrite E in Hw. cbn [snd] in Hw.
    apply IH; rewrite ?Hw; [done | intros j Hj; apply Hb; by right|].
    intros w' m Hv Hm. apply (HQ w' m); [by rewrite Hv|].
    intros j Hj. apply Hm. cbn. destruct (decide (j = i)) as [->|Hne]; [right; by rewrite lookup_insert_eq|].
    rewrite lookup_insert_ne by lia. destruct Hj as [Hj|Hj]; [left; by apply elem_of_cons in Hj as [->|Hj] | by right].
Qed.

Lemma wp_verify_read va a len offset l Q d w :
  ho_maps (view w) !! va = Some (a, len) ->
  (forall i, i ∈ l -> 0 <= i < len /\ backed declared (view w) (a + i) /\
     ho_mem (view w) !! (a + i) = Some (pattern offset i)) ->
  (forall w', view w' = view w -> Q 0 (d, w')) -> wp (verify_read va offset l) Q (d, w).
Proof.
  intros Hmap. revert w Hmap. induction l as [|i l IH]; intros w Hmap Hb HQ; [by apply wp_ret, HQ|].
  destruct (Hb i ltac:(left)) as (Hi & Hbi & Hmi).
  destruct (contract_read va a len i w Hmap Hi) as [Hr _]. destruct (Hr Hbi) as [Hval Hw].
  apply wp_bind, wp_host. intros w1 E. rewrite E in Hw. cbn [snd] in Hw.
  rewrite (Hval _ Hmi), Z.eqb_refl. cbn [negb].
  apply IH; rewrite ?Hw; [done | intros j Hj; apply Hb; by right|].
  intros w' Hv. apply HQ. by rewrite Hv.
Qed.

(** the memory of a range is granted, word by word *)
Definition range_backed o offset len : Prop :=
  forall i, 0 <= i < len -> backed declared o (dp_base p + offset + i).

Lemma granted_backed o offset len : (dp_id p, offset, len) ∈ ho_grants o -> range_backed o offset len.
Proof. intros Hin i Hi. exists (dp_id p), p. split; [done|]. right. exists offset, len. split; [done | lia]. Qed.

Lemma wp_verify_range offset len Q d w : active d = p ->
  0 <= dp_base p + offset < 2 ^ 64 -> range_backed (view w) offset len ->
  (forall w', fst (memremap (dp_base p + offset) len w) = None -> view w' = view w ->
     Q (- ENOMEM) (set_result d (say_text (result d) "  memremap(%#llx+%#llx) failed\n"
                     [AInt (dp_base p + offset); AInt len]), w')) ->
  (forall w' m, is_Some (fst (memremap (dp_base p + offset) len w)) -> view w' = set_mem (view w) m ->
     Q 0 (set_result d (say_text (result d) "  verified %#llx+%#llx\n" [AInt offset; AInt len]), w')) ->
  wp (verify_range offset len) Q (d, w).
Proof.
  intros Ha Hr Hb Hno Hyes. apply wp_bind, wp_the_dyn, wp_bind, wp_host. unfold pool_base. rewrite Ha, u64_small by done.
  intros w1 E. pose proof (contract_memremap (dp_base p + offset) len w) as Hm. rewrite E in Hm. cbn [fst snd] in Hm.
  destruct (fst (memremap _ _ w)) as [va|] eqn:Ev.
  2:{ apply wp_bind, wp_say, wp_ret. by apply Hno. }
  destruct Hm as [Hfree Hv1].
  assert (Hw : forall i, i ∈ word_offsets len -> 0 <= i < len /\ backed declared (view w1) (dp_base p + offset + i)).
  { intros i Hi%word_offsets_in. split; [done|]. rewrite Hv1. by apply (Hb i). }
  apply wp_bind, (wp_verify_write _ (dp_base p + offset) len); [by rewrite Hv1; apply lookup_insert_eq | done|].
  intros w2 m Hv2 Hmem. apply wp_bind, (wp_verify_read _ (dp_base p + offset) len).
  - rewrite Hv2, Hv1. apply lookup_insert_eq.
  - intros i Hi. destruct (Hw i Hi) as [? ?]. rewrite Hv2. split_and!; [lia.. | done |]. apply Hmem. by left.
  - intros w3 Hv3. apply wp_bind, wp_host. intros w4 E4.
    pose proof (contract_memunmap va w3) as Hu. rewrite E4 in Hu. cbn [snd] in Hu.
    apply wp_bind. rewrite Z.eqb_refl. apply wp_say, wp_ret. apply (Hyes w4 m); [by rewrite ?Ev|].
    rewrite Hu, Hv3, Hv2, Hv1. unfold set_maps, set_mem. cbn. by rewrite delete_insert_id.
Qed.

(** ** Taking a range and giving it back *)

Context (T : tested_pool p).

Lemma met_self i off len g : 0 < len -> (i, off, len) ∈ g -> met i off len g = true.
Proof. intros Hl Hin. apply bool_decide_eq_true. exists (i, off, len). split; [done|]. unfold meets. cbn. lia. Qed.

(** the host with more grants, changed memory and failures noted *)
Definition with_extra o (x : gset (Z * Z * Z)) (l : list Z) m :=
  HostObs (x ∪ ho_grants o) (ho_refs o) (ho_maps o) m (ho_strays o) (l ++ ho_failed o).

Lemma extra_none o m : with_extra o ∅ [] m = set_mem o m.
Proof. unfold with_extra, set_mem. by rewrite (left_id_L ∅ _). Qed.
Lemma extra_same o : with_extra o ∅ [] (ho_mem o) = o.
Proof. rewrite extra_none. by destruct o. Qed.
Lemma extra_extra o x l m x' l' m' : with_extra (with_extra o x l m) x' l' m' = with_extra o (x' ∪ x) (l' ++ l) m'.
Proof. unfold with_extra. cbn. by rewrite (assoc_L (∪)), app_assoc. Qed.
Lemma extra_mem o x l m m' : set_mem (with_extra o x l m) m' = with_extra o x l m'.
Proof. done. Qed.

(** a grow that returns an error leaves the range with the host only where its answer was lost *)
Lemma wp_grow_new off len Q d w : active d = p -> request_ok p off len = true ->
  (forall ret w' x l m, pool_grow (dp_id p) off len w = (ret, w') -> ret <> 0 -> x ⊆ {[(dp_id p, off, len)]} ->
     (l = [] -> x = ∅) -> view w' = with_extra (view w) x l m -> Q ret (d, w')) ->
  (forall w' m, pool_grow (dp_id p) off len w = (0, w') -> met (dp_id p) off len (ho_grants (view w)) = false ->
     view w' = with_extra (view w) {[(dp_id p, off, len)]} [] m -> Q 0 (d, w')) ->
  wp (grow off len) Q (d, w).
Proof.
  intros Ha Hok Hno Hyes. apply wp_grow; [done|]. intros ret w' E.
  assert (Hsame : ret <> 0 -> view w' = view w -> Q ret (d, w')).
  { intros Hr Hv. apply (Hno ret w' ∅ [] (ho_mem (view w)) E Hr); [set_solver | done|]. by rewrite extra_same. }
  intros [G|(Hr & o1 & Ho1 & Hv)]; unfold host_grow in *; rewrite Hok in *; cbn [negb] in *.
  - destruct (met _ _ _ _) eqn:Hm; [destruct G as [-> ?]; by apply Hsame|].
    destruct G as [[? ?]|(-> & m & ?)]; [by apply Hsame | by apply (Hyes w' m)].
  - assert (Hx : exists x m, x ⊆ {[(dp_id p, off, len)]} /\ o1 = with_extra (view w) x [] m).
    { assert (Hv0 : exists x m, x ⊆ {[(dp_id p, off, len)]} /\ view w = with_extra (view w) x [] m).
      { exists ∅, (ho_mem (view w)). split; [set_solver | by rewrite extra_same]. }
      destruct Ho1 as [->|(_ & r & Hg)]; [done|]. destruct (met _ _ _ _); [by destruct Hg as [_ ->]|].
      destruct Hg as [[_ ->]|(_ & m & ->)]; [done|]. eexists _, m. done. }
    destruct Hx as (x & m & Hx & ->). by apply (Hno ret w' x [ret] m E Hr).
Qed.

(** a range that met no grant is no grant, and has no reference *)
Lemma not_met_fresh off len w : refs_granted (view w) -> 0 < len -> met (dp_id p) off len (ho_grants (view w)) = false ->
  ((dp_id p, off, len) ∉ ho_grants (view w)) /\ ((dp_id p, off, len) ∉ ho_refs (view w)).
Proof.
  intros Hrg Hl Hm. assert (Hn : (dp_id p, off, len) ∉ ho_grants (view w)).
  { intros Hin. by rewrite met_self in Hm. }
  split; [done|]. intros Hr. by apply Hn, Hrg.
Qed.

Lemma request_ok_pos off len : request_ok p off len = true -> 0 < len.
Proof. unfold request_ok. intros. bool_prop. done. Qed.

(** the same where no request fails *)
Lemma wp_grow_fresh L off len Q d w : active d = p -> request_ok p off len = true -> ho_failed (view w) = L -> lossy L Q ->
  (forall ret w', ret <> 0 -> view w' = view w -> Q ret (d, w')) ->
  (forall w' m, met (dp_id p) off len (ho_grants (view w)) = false ->
     view w' = set_grants (view w) ({[(dp_id p, off, len)]} ∪ ho_grants (view w)) m -> Q 0 (d, w')) ->
  wp (grow off len) Q (d, w).
Proof.
  intros Ha Hok HL HQ Hno Hyes. apply (wp_grow_sure L); [done..|]. intros ret w'. unfold host_grow. rewrite Hok. cbn [negb].
  destruct (met _ _ _ _) eqn:Hm; [intros [-> ?]; by apply Hno|].
  intros [[? ?]|(-> & m & ?)]; [by apply Hno | by apply (Hyes w' m)].
Qed.

Lemma wp_shrink_back L off len g Q d w : active d = p -> ho_failed (view w) = L -> lossy L Q -> request_ok p off len = true ->
  ho_grants (view w) = {[(dp_id p, off, len)]} ∪ g -> (dp_id p, off, len) ∉ g ->
  (dp_id p, off, len) ∉ ho_refs (view w) ->
  (forall w' m, view w' = set_grants (view w) g m -> Q 0 (d, w')) ->
  wp (shrink off len) Q (d, w).
Proof.
  intros Ha HL HQ' Hok Hg Hn Hr HQ. apply (wp_shrink_sure L); [done..|]. intros ret w'. unfold host_shrink. rewrite Hok. cbn [negb].
  rewrite met_self; [|by apply request_ok_pos in Hok | rewrite Hg; set_solver]. cbn [negb].
  rewrite bool_decide_eq_false_2 by (rewrite Hg; set_solver).
  rewrite bool_decide_eq_false_2 by done. intros (-> & m & Hv). apply (HQ w' m). rewrite Hv, Hg.
  f_equal. set_solver.
Qed.

(** giving an own range back: it stays only where the request failed *)
Lemma shrunk_own off len o x l m ret o' : request_ok p off len = true ->
  (dp_id p, off, len) ∉ x ∪ ho_grants o -> (dp_id p, off, len) ∉ ho_refs o ->
  host_shrink p (dp_id p) off len (with_extra o ({[(dp_id p, off, len)]} ∪ x) l m) ret o' ->
  ret = 0 /\ exists m', o' = with_extra o x l m'.
Proof.
  intros Hok Hn Hr. unfold host_shrink. rewrite Hok. cbn [negb with_extra ho_grants ho_refs].
  rewrite met_self; [|by apply request_ok_pos in Hok | set_solver]. cbn [negb].
  rewrite bool_decide_eq_false_2 by set_solver. rewrite bool_decide_eq_false_2 by done.
  intros (-> & m' & ->). split; [done|]. exists m'. unfold set_grants, with_extra. cbn. f_equal. set_solver.
Qed.

Lemma wp_shrink_own off len o x l m Q d w : active d = p -> request_ok p off len = true ->
  view w = with_extra o ({[(dp_id p, off, len)]} ∪ x) l m ->
  (dp_id p, off, len) ∉ x ∪ ho_grants o -> (dp_id p, off, len) ∉ ho_refs o ->
  (forall ret w' x' l' m', x' ⊆ {[(dp_id p, off, len)]} ∪ x -> (l' = [] -> l = [] /\ x' = x) ->
     view w' = with_extra o x' l' m' -> Q ret (d, w')) ->
  wp (shrink off len) Q (d, w).
Proof.
  intros Ha Hok Hv Hn Hr HQ. apply wp_shrink; [done|]. intros ret w'. rewrite Hv.
  intros [G|(_ & o1 & Ho1 & Hv')].
  { destruct (shrunk_own off len o x l m ret (view w') Hok Hn Hr G) as (-> & m' & Hv'). apply (HQ 0 w' x l m'); [set_solver | done..]. }
  destruct Ho1 as [->|(_ & r & G)].
  - apply (HQ ret w' ({[(dp_id p, off, len)]} ∪ x) (ret :: l) m); [done | done | by rewrite Hv'].
  - destruct (shrunk_own off len o x l m r o1 Hok Hn Hr G) as (_ & m' & ->).
    apply (HQ ret w' x (ret :: l) m'); [set_solver | done | by rewrite Hv'].
Qed.

(** verifying granted ranges changes no more of the host than its memory *)
Lemma wp_verify_granted offset len Q d w : active d = p -> request_ok p offset len = true ->
  (dp_id p, offset, len) ∈ ho_grants (view w) ->
  (forall r w' m, is_Some (fst (memremap (dp_base p + offset) len w)) -> view w' = set_mem (view w) m ->
     Q 0 (set_result d r, w')) ->
  (forall r w' m, fst (memremap (dp_base p + offset) len w) = None -> view w' = set_mem (view w) m ->
     Q (- ENOMEM) (set_result d r, w')) ->
  wp (verify_range offset len) Q (d, w).
Proof.
  intros Ha Hok Hin HQ Hno. destruct T. unfold request_ok in Hok. bool_prop.
  apply wp_verify_range; [done | lia | by apply granted_backed | |].
  - intros w' Hm Hv. apply (Hno _ _ (ho_mem (view w))); [done|]. rewrite Hv. by destruct (view w).
  - intros w' m Hm Hv. by apply (HQ _ _ m).
Qed.

Definition first_range : Z * Z * Z := (dp_id p, dp_prealloc p, dp_step p).
Definition second_range : Z * Z * Z := (dp_id p, dp_prealloc p + dp_step p, dp_step p * 2).

Lemma wp_selftest_second Q d w : active d = p -> refs_granted (view w) -> first_range ∈ ho_grants (view w) ->
  (forall r w' x l m, x ⊆ {[second_range]} -> (l = [] -> x = ∅) -> view w' = with_extra (view w) x l m ->
     Q tt (set_result d r, w')) ->
  wp (selftest_second (dp_prealloc p) (dp_step p)) Q (d, w).
Proof.
  intros Ha Hrg Hin HQ. pose proof (tested_fits p T) as Hfit. pose proof T as [].
  unfold selftest_second. wp_steps. unfold pool_size, pool_prealloc, pool_step. rewrite Ha.
  rewrite (u64_small (dp_step p * 2)), (u64_small (dp_size p - _)), (u64_small (dp_step p + dp_step p * 2)) by lia.
  rewrite (u64_small (dp_prealloc p + dp_step p)) by lia.
  destruct (_ >=? _) eqn:Hc.
  2:{ wp_steps. destruct d. apply (HQ _ w ∅ [] (ho_mem (view w))); [set_solver | done | by rewrite extra_same]. }
  bool_prop. pose proof (request_ok_steps p 1 2 T ltac:(lia) ltac:(lia) ltac:(lia)) as Hok.
  rewrite Z.mul_1_l, (Z.mul_comm 2) in Hok. wp_step.
  apply wp_grow_new; [done | done | intros ret w1 x l m _ Hr Hx Hl Hv | intros w1 m1 _ Hm Hv].
  { wp_steps. rewrite (proj2 (Z.eqb_neq ret 0)) by done. wp_steps. by apply (HQ _ w1 x l m). }
  destruct (not_met_fresh (dp_prealloc p + dp_step p) (dp_step p * 2) w Hrg ltac:(lia) Hm) as [Hn Hnr].
  wp_steps. cbn [Z.eqb]. wp_steps.
  assert (Hthen : forall r m (w2 : W), view w2 = with_extra (view w) {[second_range]} [] m ->
    wp (verify_range (dp_prealloc p) (dp_step p)) (fun _ => wp (rc ← shrink (dp_prealloc p + dp_step p) (dp_step p * 2);
      say "  shrink %#llx+%#llx -> %d\n" [AInt (dp_prealloc p + dp_step p); AInt (dp_step p * 2); AInt rc]) Q) (set_result d r, w2)).
  { intros r m w2 Hv2.
    assert (Hend : forall r3 m3 (w3 : W), view w3 = with_extra (view w) {[second_range]} [] m3 ->
      wp (rc ← shrink (dp_prealloc p + dp_step p) (dp_step p * 2);
        say "  shrink %#llx+%#llx -> %d\n" [AInt (dp_prealloc p + dp_step p); AInt (dp_step p * 2); AInt rc]) Q (set_result d r3, w3)).
    { intros r3 m3 w3 Hv3. wp_step. rewrite <- (right_id_L ∅ (∪) {[second_range]}) in Hv3.
      apply (wp_shrink_own _ _ (view w) ∅ [] m3); [done | done | done | set_solver | done |].
      intros ret w' x' l' m' Hx Hl Hv'. wp_steps. apply (HQ _ w' x' l' m'); [set_solver | by intros [_ ->]%Hl | done]. }
    apply wp_verify_granted; [done | by apply request_ok_first | rewrite Hv2; cbn; set_solver | |];
      intros r3 w3 m3 _ Hv3; rewrite Hv2, extra_mem in Hv3; by apply (Hend _ m3). }
  apply wp_verify_granted; [done | done | rewrite Hv; cbn; set_solver | |];
    intros r2 w2 m2 _ Hv2; rewrite Hv, extra_mem in Hv2; wp_step; by apply (Hthen _ m2).
Qed.

(** the kernel refused to map the range this run was granted first *)
Definition remap_refused w : Prop :=
  fst (pool_grow (dp_id p) (dp_prealloc p) (dp_step p) w) = 0 /\
  fst (memremap (dp_base p + dp_prealloc p) (dp_step p) (snd (pool_grow (dp_id p) (dp_prealloc p) (dp_step p) w))) = None.

(** what a run of the self-test leaves: with no failed request, its first range where that could not
    be mapped, and nothing otherwise *)
Definition selftest_leaves w (x : gset (Z * Z * Z)) (l : list Z) : Prop :=
  x ⊆ {[first_range; second_range]} /\
  (l = [] -> (remap_refused w /\ x = {[first_range]}) \/ (~ remap_refused w /\ x = ∅)).

Lemma wp_selftest Q d w : active d = p -> refs_granted (view w) ->
  (forall r w' x l m, selftest_leaves w x l -> view w' = with_extra (view w) x l m -> Q tt (set_result d r, w')) ->
  wp test_selftest Q (d, w).
Proof.
  intros Ha Hrg HQ. pose proof (request_ok_first p T (tested_fits p T)) as Hok. pose proof T as [].
  unfold test_selftest. wp_steps. unfold pool_size, pool_prealloc, pool_step. rewrite Ha.
  rewrite (proj2 (Z.eqb_neq (dp_step p) 0)) by lia.
  rewrite Z.geb_leb, (proj2 (Z.leb_gt (dp_size p) (dp_prealloc p))) by lia. wp_steps.
  apply wp_grow_new; [done | done | intros ret w1 x l m E Hr Hx Hl Hv | intros w1 m1 E Hm Hv].
  { wp_steps. unfold c_true. rewrite (proj2 (Z.eqb_neq ret 0)) by done. wp_steps. apply (HQ _ w1 x l m); [|done].
    split; [unfold first_range; set_solver|]. intros Hn. right. split; [|by apply Hl]. intros [Hz _]. by rewrite E in Hz. }
  destruct (not_met_fresh (dp_prealloc p) (dp_step p) w Hrg ltac:(lia) Hm) as [Hn Hnr].
  wp_steps. cbn [c_true Z.eqb negb]. wp_steps.
  apply wp_verify_granted; [done | done | rewrite Hv; cbn; set_solver | intros r2 w2 m2 Hs Hv2 | intros r2 w2 m2 Hs Hv2];
    rewrite Hv, extra_mem in Hv2; cbn [c_true Z.eqb negb]; wp_steps.
  2:{ apply (HQ _ w2 {[first_range]} [] m2); [|done]. split; [set_solver|]. intros _. left. split; [|done].
      unfold remap_refused. by rewrite E. }
  apply wp_selftest_second; [done | rewrite Hv2; intros e He; cbn; set_solver | rewrite Hv2; unfold first_range; cbn; set_solver |].
  intros r3 w3 x3 l3 m3 Hx3 Hl3 Hv3. rewrite Hv2, extra_extra, app_nil_r, (comm_L (∪)) in Hv3. wp_steps.
  apply wp_query. intros q w4 Hv4. rewrite Hv3 in Hv4. wp_steps.
  apply (wp_shrink_own _ _ (view w) x3 l3 m3); [done | done | done | | done |].
  { apply not_elem_of_union. split; [|done]. intros Hin%Hx3%elem_of_singleton. unfold second_range in Hin. injection Hin. lia. }
  intros ret w5 x5 l5 m5 Hx5 Hl5 Hv5. wp_steps. apply wp_query. intros q' w6 Hv6. wp_steps.
  apply (HQ _ w6 x5 l5 m5); [|by rewrite Hv6]. split; [unfold first_range; set_solver|].
  intros Hn5. right. destruct (Hl5 Hn5) as [-> ->]. split; [|by apply Hl3].
  intros [_ Hno]. rewrite E in Hno. cbn [snd] in Hno. rewrite Hno in Hs. by destruct Hs.
Qed.

(** ** The rejections *)

Lemma notes_run_rejections cases : notes (run_rejections cases).
Proof.
  induction cases as [|[[[what off] len] want] rest IH]; [apply notes_ret|]. cbn [run_rejections].
  apply notes_bind; [destruct rest; [apply notes_shrink | apply notes_grow] | intros rc].
  apply notes_bind; [apply notes_say | done].
Qed.

Ltac notes_step :=
  first [ apply notes_run_rejections | apply notes_ret | apply notes_dyn | apply notes_say | apply notes_grow
        | apply notes_shrink | apply notes_test_ref
        | apply notes_bind; [|intros ?]
        | match goal with |- notes (match ?x with _ => _ end) => destruct x end ].
Ltac lossy_tac :=
  repeat (apply lossy_bind; [intros ?; unfold say_case; repeat notes_step|]); first [done | apply lossy_claim].

(** every grow of the list is refused, and the report says ok *)
Lemma wp_refused L what off len c rest Q d w : active d = p -> ho_failed (view w) = L -> lossy L Q ->
  request_ok p off len = false ->
  (forall w', view w' = view w ->
     wp (run_rejections (c :: rest)) Q (set_result d (spoken (result d) [case_msg what (- EINVAL) true]), w')) ->
  wp (run_rejections ((what, off, len, - EINVAL) :: c :: rest)) Q (d, w).
Proof.
  intros Ha HL HQ' Hno HQ. cbn [run_rejections]. wp_step. apply (wp_grow_sure L); [done | done | lossy_tac |].
  intros ret w' Hp. unfold host_grow in Hp. rewrite Hno in Hp. destruct Hp as [-> Hv].
  wp_steps. rewrite Z.eqb_refl. by apply HQ.
Qed.

Lemma not_ok_floor off len : off < dp_prealloc p -> request_ok p off len = false.
Proof. intros. unfold request_ok. by rewrite (proj2 (Z.leb_gt (dp_prealloc p) off)). Qed.
Lemma not_ok_end off len : dp_size p < off + len -> request_ok p off len = false.
Proof. intros. unfold request_ok. rewrite (proj2 (Z.leb_gt (off + len) _)) by done. by rewrite andb_false_r. Qed.
Lemma not_ok_len off len : len <= 0 -> request_ok p off len = false.
Proof. intros. unfold request_ok. rewrite (proj2 (Z.ltb_ge 0 len)) by done. by rewrite andb_false_r. Qed.
Lemma not_ok_off_mod off len : off mod dp_step p <> 0 -> request_ok p off len = false.
Proof. intros. unfold request_ok. rewrite (proj2 (Z.eqb_neq _ 0)) by done. by rewrite andb_false_r. Qed.
Lemma not_ok_len_mod off len : len mod dp_step p <> 0 -> request_ok p off len = false.
Proof. intros. unfold request_ok. rewrite (proj2 (Z.eqb_neq (len mod _) 0)) by done. by rewrite andb_false_r. Qed.

Lemma wp_rejections L Q d0 d w : active d0 = p -> active d = p -> 0 < dp_prealloc p ->
  ho_failed (view w) = L -> lossy L Q ->
  (forall ret w', host_shrink p (dp_id p) (dp_prealloc p) (dp_step p) (view w) ret (view w') ->
     Q tt (set_result d (spoken (result d) (tail refused_report ++
       [case_msg "releasing what was never granted" ret (ret =? - ENOENT)])), w')) ->
  wp (run_rejections (rejection_cases d0)) Q (d, w).
Proof.
  intros Ha0 Ha Hpre HL HQ' HQ. pose proof (tested_fits p T). destruct T.
  unfold rejection_cases, pool_size, pool_prealloc, pool_step. rewrite Ha0.
  rewrite !u64_small by lia.
  apply (wp_refused L); [done | done | done | apply not_ok_floor; lia | intros w1 V1].
  apply (wp_refused L); [done | by rewrite V1 | done | apply not_ok_end; lia | intros w2 V2].
  apply (wp_refused L); [done | by rewrite V2, V1 | done | apply not_ok_end; lia | intros w3 V3].
  apply (wp_refused L); [done | by rewrite V3, V2, V1 | done | apply not_ok_off_mod | intros w4 V4].
  { rewrite Z.add_mod, tp_floor_step0, Z.add_0_l, Z.mod_mod, Z.mod_small by lia. lia. }
  apply (wp_refused L); [done | by rewrite V4, V3, V2, V1 | done | apply not_ok_len_mod | intros w5 V5].
  { replace (dp_step p + 4096) with (4096 + 1 * dp_step p) by lia. rewrite Z.mod_add, Z.mod_small by lia. lia. }
  apply (wp_refused L); [done | by rewrite V5, V4, V3, V2, V1 | done | apply not_ok_len; lia | intros w6 V6].
  cbn [run_rejections]. wp_step. apply (wp_shrink_sure L);
    [done | by rewrite V6, V5, V4, V3, V2, V1 | lossy_tac |]. intros ret w7 Hp. wp_steps.
  rewrite V6, V5, V4, V3, V2, V1 in Hp. by apply (HQ ret w7).
Qed.

Lemma wp_overlaps L Q d w : active d = p -> refs_granted (view w) -> ho_failed (view w) = L -> lossy L Q ->
  (forall tail w' m, overlap_report p tail -> view w' = set_mem (view w) m ->
     Q tt (set_result d (spoken (result d) tail), w')) ->
  wp test_overlaps Q (d, w).
Proof.
  intros Ha Hrg HL HQ' HQ. pose proof (tested_fits p T) as Hfit. pose proof (request_ok_first p T Hfit) as Hok. pose proof T as [].
  unfold test_overlaps. wp_steps. unfold pool_size, pool_prealloc, pool_step. rewrite Ha.
  rewrite (u64_small (dp_step p * 2)), (u64_small (dp_size p - _)) by lia.
  destruct (_ >=? _) eqn:Hc; bool_prop.
  2:{ wp_steps. specialize (HQ [] w (ho_mem (view w))). destruct d. apply HQ; [left; split; [lia | done] | by destruct (view w)]. }
  pose proof (request_ok_steps p 0 2 T ltac:(lia) ltac:(lia) ltac:(lia)) as Hok2.
  rewrite Z.mul_0_l, Z.add_0_r, (Z.mul_comm 2) in Hok2. wp_step.
  apply (wp_grow_fresh L); [done | done | done | lossy_tac | intros ret w1 Hr Hv | intros w1 m1 Hm Hv].
  { rewrite (proj2 (Z.eqb_neq ret 0)) by done. wp_steps. apply (HQ [skip_msg ret] w1 (ho_mem (view w))).
    - right. left. by exists ret.
    - rewrite Hv. by destruct (view w). }
  destruct (not_met_fresh (dp_prealloc p) (dp_step p) w Hrg ltac:(lia) Hm) as [Hn Hnr].
  assert (Hg1 : (dp_id p, dp_prealloc p, dp_step p) ∈ ho_grants (view w1)) by (rewrite Hv; cbn; set_solver).
  cbn [Z.eqb]. wp_step. apply (wp_grow_sure L); [done | by rewrite Hv | lossy_tac |]. intros ret w2. unfold host_grow. rewrite Hok. cbn [negb].
  rewrite met_self by (done || lia). intros [-> Hv2]. wp_steps.
  assert (Hmet2 : met (dp_id p) (dp_prealloc p) (dp_step p * 2) (ho_grants (view w1)) = true).
  { apply bool_decide_eq_true. eexists; split; [exact Hg1|]. unfold meets. cbn. lia. }
  apply (wp_grow_sure L); [done | by rewrite Hv2, Hv | lossy_tac |]. intros ret w3. unfold host_grow. rewrite Hok2, Hv2, Hmet2. cbn [negb].
  intros [-> Hv3]. wp_steps.
  apply (wp_shrink_sure L); [done | by rewrite Hv3, Hv | lossy_tac |]. intros ret w4. unfold host_shrink. rewrite Hok2, Hv3, Hmet2. cbn [negb].
  rewrite bool_decide_eq_true_2.
  2:{ rewrite Hv. cbn. intros [He|Hin]%elem_of_union.
      - apply elem_of_singleton in He. injection He. lia.
      - apply bool_decide_eq_false in Hm. apply Hm. eexists; split; [exact Hin|]. unfold meets. cbn. lia. }
  intros [Hret Hv4]. wp_steps.
  apply (wp_shrink_back L _ _ (ho_grants (view w))); [done | by rewrite Hv4, Hv | lossy_tac | done | by rewrite Hv4, Hv | done | by rewrite Hv4, Hv |].
  intros w5 m5 Hv5. wp_steps. rewrite !Z.eqb_refl.
  replace ((ret =? - ERANGE) || (ret =? - EINVAL)) with true by (destruct Hret as [->| ->]; done).
  apply (HQ (overlap_msgs ret) w5 m5); [right; right; by exists ret|].
  rewrite Hv5, Hv4, Hv. done.
Qed.

(** ** The busy test *)

Lemma wp_busy L Q d w : active d = p -> refs_granted (view w) -> ho_failed (view w) = L -> lossy L Q ->
  (forall ret w', ret <> 0 -> view w' = view w -> Q tt (set_result d (spoken (result d) (busy_start ret)), w')) ->
  (forall w' m, view w' = set_mem (view w) m ->
     Q tt (set_result d (spoken (result d) (busy_start 0 ++ busy_msgs)), w')) ->
  wp test_busy Q (d, w).
Proof.
  intros Ha Hrg HL HQ' Hno HQ. pose proof (request_ok_first p T (tested_fits p T)) as Hok. pose proof T as [].
  unfold test_busy. wp_steps. unfold pool_size, pool_prealloc, pool_step. rewrite Ha.
  rewrite (proj2 (Z.eqb_neq (dp_step p) 0)) by lia.
  rewrite Z.geb_leb, (proj2 (Z.leb_gt (dp_size p) (dp_prealloc p))) by lia. cbn [orb]. wp_steps.
  apply (wp_grow_fresh L); [done | done | done | lossy_tac | intros ret w1 Hr Hv | intros w1 m1 Hm Hv].
  { wp_steps. unfold c_true. rewrite (proj2 (Z.eqb_neq ret 0)) by done. wp_steps. by apply Hno. }
  destruct (not_met_fresh (dp_prealloc p) (dp_step p) w Hrg ltac:(lia) Hm) as [Hn Hnr].
  assert (Hg1 : (dp_id p, dp_prealloc p, dp_step p) ∈ ho_grants (view w1)) by (rewrite Hv; cbn; set_solver).
  wp_steps. cbn [c_true Z.eqb negb]. wp_steps.
  apply (wp_test_ref_sure L); [done | by rewrite Hv | lossy_tac |]. intros ret w2. unfold host_ref. rewrite bool_decide_eq_true_2 by done.
  intros [-> Hv2]. wp_steps.
  apply (wp_shrink_sure L); [done | by rewrite Hv2, Hv | lossy_tac |]. intros ret w3. unfold host_shrink. rewrite Hok, Hv2. cbn [negb set_refs ho_grants ho_refs].
  rewrite met_self by (done || lia). cbn [negb].
  rewrite bool_decide_eq_false_2 by (intros Hc; by apply Hc). rewrite bool_decide_eq_true_2 by apply ref_taken.
  intros [-> Hv3]. wp_steps.
  apply (wp_test_ref_sure L); [done | by rewrite Hv3; cbn; rewrite ?Hv | lossy_tac |]. intros ret w4. unfold host_ref. rewrite Hv3. cbn [set_refs ho_grants ho_refs].
  rewrite bool_decide_eq_true_2 by apply ref_taken. intros [-> Hv4]. wp_steps.
  apply (wp_shrink_back L _ _ (ho_grants (view w)));
    [done | by rewrite Hv4, Hv | lossy_tac | done | by rewrite Hv4, Hv | done | by rewrite Hv4; cbn [set_refs ho_refs]; rewrite ref_dropped, Hv | intros w5 m5 Hv5]. wp_steps.
  assert (Hv5' : view w5 = set_mem (view w) m5).
  { rewrite Hv5, Hv4, Hv. unfold set_grants, set_refs, set_mem. cbn [ho_grants ho_refs ho_maps ho_mem ho_strays]. by rewrite ref_dropped. }
  apply (wp_test_ref_sure L); [done | by rewrite Hv5' | lossy_tac |]. intros ret w6. unfold host_ref. rewrite Hv5'. cbn [set_mem ho_grants].
  rewrite bool_decide_eq_false_2 by done. intros (_ & Hret & Hv6). rewrite (Hret Hm). wp_steps.
  by apply (HQ w6 m5).
Qed.

Lemma notes_overlaps : notes test_overlaps.
Proof. unfold test_overlaps, say_case. repeat notes_step. Qed.

End Contract.

(** ** The commands on a host that keeps the contract *)

Section Commands.
Context {W : Type} `{PC : PoolContract W} `{TX : Text}.
Implicit Types (d : dyn) (w : W).

(** C22: a self-test accesses no memory that is not granted, writes granted memory only, and keeps every
    grant, reference and mapping the host had. Of the two ranges it takes for itself none stays with
    the host, unless one of its requests failed (timed out, or did not reach the host), or the kernel
    refused to map the first range once it was granted: then exactly that range stays. *)
Theorem selftest_restores d w (Hdecl : declared (pool_id d) = Some (active d)) (T : tested_pool (active d))
  (Hrefs : refs_granted (view w)) :
  exists r w' x l m, snd (test_selftest (d, w)) = (set_result d r, w') /\
    view w' = HostObs (x ∪ ho_grants (view w)) (ho_refs (view w)) (ho_maps (view w)) m
      (ho_strays (view w)) (l ++ ho_failed (view w)) /\
    x ⊆ {[first_range (active d); second_range (active d)]} /\
    (l = [] -> (remap_refused (active d) w /\ x = {[first_range (active d)]}) \/
               (~ remap_refused (active d) w /\ x = ∅)).
Proof.
  change (wp test_selftest (fun _ st => exists r w' x l m, st = (set_result d r, w') /\
    view w' = with_extra (view w) x l m /\ selftest_leaves (active d) w x l) (d, w)).
  apply (wp_selftest (active d)); [done..|]. intros r w' x l m Hx Hv. by exists r, w', x, l, m.
Qed.

(** C24: take a pool whose numbers are multiples of its step, with a pre-shared part, and whose first
    growable step meets no grant, and a run of `reject` none of whose requests failed. Then every
    line of the seven rejection cases says ok; the overlap cases are left out where two steps do not
    fit, skipped with the host's result where it refuses the grant they need, and all said to be ok
    otherwise; and no grant, reference or mapping of the host has changed. *)
Theorem reject_reports_ok d w (Hdecl : declared (pool_id d) = Some (active d)) (T : tested_pool (active d))
  (Hrefs : refs_granted (view w))
  (Hpre : 0 < pool_prealloc d) (Hfree : met (pool_id d) (pool_prealloc d) (pool_step d) (ho_grants (view w)) = false)
  (Hrun : ho_failed (view (snd (snd (test_rejections (d, w))))) = ho_failed (view w)) :
  exists tail w' m, overlap_report (active d) tail /\ view w' = set_mem (view w) m /\
    snd (test_rejections (d, w)) = (set_result d (spoken (result d)
      (refused_report ++ case_msg "releasing what was never granted" (- ENOENT) true :: tail)), w').
Proof.
  revert Hrun. change (wp test_rejections (fun _ st => ho_failed (view (snd st)) = ho_failed (view w) ->
    exists tail w' m, overlap_report (active d) tail /\ view w' = set_mem (view w) m /\
    st = (set_result d (spoken (result d)
      (refused_report ++ case_msg "releasing what was never granted" (- ENOENT) true :: tail)), w')) (d, w)).
  set (L := ho_failed (view w)). unfold test_rejections. wp_steps.
  apply (wp_rejections (active d) Hdecl T L); [done.. | apply lossy_bind; [intros ?; by apply notes_overlaps | apply lossy_claim] |]. intros ret w1. unfold host_shrink.
  rewrite request_ok_first by (done || by apply tested_fits). cbn [negb].
  unfold pool_id, pool_prealloc, pool_step in Hfree. rewrite Hfree. cbn [negb]. intros [-> Hv].
  apply (wp_overlaps (active d) Hdecl T L); [done | by rewrite Hv | by rewrite Hv | apply lossy_claim |].
  intros tail w2 m Ht Hv2 _. exists tail, w2, m. split_and!; [done | by rewrite Hv2, Hv | done].
Qed.

(** `reject` is not without effect on live memory: where the first growable step is granted, its case
    "releasing what was never granted" gives that grant back to the host. *)
Theorem reject_releases_live_grant d w (Hdecl : declared (pool_id d) = Some (active d)) (T : tested_pool (active d))
  (Hrefs : refs_granted (view w))
  (Hpre : 0 < pool_prealloc d)
  (Hlive : (pool_id d, pool_prealloc d, pool_step d) ∈ ho_grants (view w))
  (Hidle : (pool_id d, pool_prealloc d, pool_step d) ∉ ho_refs (view w))
  (Hrun : ho_failed (view (snd (snd (test_rejections (d, w))))) = ho_failed (view w)) :
  exists m, view (snd (snd (test_rejections (d, w)))) =
    set_grants (view w) (ho_grants (view w) ∖ {[(pool_id d, pool_prealloc d, pool_step d)]}) m.
Proof.
  revert Hrun. change (wp test_rejections (fun _ st => ho_failed (view (snd st)) = ho_failed (view w) ->
    exists m, view (snd st) =
    set_grants (view w) (ho_grants (view w) ∖ {[(pool_id d, pool_prealloc d, pool_step d)]}) m) (d, w)).
  set (L := ho_failed (view w)). unfold test_rejections. wp_steps.
  apply (wp_rejections (active d) Hdecl T L); [done.. | apply lossy_bind; [intros ?; by apply notes_overlaps | apply lossy_claim] |]. intros ret w1. unfold host_shrink.
  rewrite request_ok_first by (done || by apply tested_fits). cbn [negb].
  rewrite met_self by (done || by destruct T; lia). cbn [negb].
  rewrite bool_decide_eq_false_2 by (intros Hc; by apply Hc). rewrite bool_decide_eq_false_2 by done.
  intros (-> & m1 & Hv). apply (wp_overlaps (active d) Hdecl T L); [done | | by rewrite Hv | apply lossy_claim |].
  { rewrite Hv. intros e He. cbn in *. specialize (Hrefs e He). set_solver. } intros tail w2 m _ Hv2 _. exists m.
  cbn [snd]. by rewrite Hv2, Hv.
Qed.

(** Where no request fails, a grant with a reference refuses to be released, without it it goes, and an
    ungranted range takes no reference: the busy test reports so, and leaves the host as it was. *)
Theorem busy_reports_ok d w (Hdecl : declared (pool_id d) = Some (active d)) (T : tested_pool (active d))
  (Hrefs : refs_granted (view w))
  (Hrun : ho_failed (view (snd (snd (test_busy (d, w))))) = ho_failed (view w)) :
  exists ms w' m, snd (test_busy (d, w)) = (set_result d (spoken (result d) ms), w') /\
    view w' = set_mem (view w) m /\
    ((exists ret, ret <> 0 /\ ms = busy_start ret) \/ ms = busy_start 0 ++ busy_msgs).
Proof.
  revert Hrun. change (wp test_busy (fun _ st => ho_failed (view (snd st)) = ho_failed (view w) ->
    exists ms w' m, st = (set_result d (spoken (result d) ms), w') /\
    view w' = set_mem (view w) m /\
    ((exists ret, ret <> 0 /\ ms = busy_start ret) \/ ms = busy_start 0 ++ busy_msgs)) (d, w)).
  apply (wp_busy (active d) Hdecl T (ho_failed (view w))); [done.. | apply lossy_claim | |].
  - intros ret w' Hr Hv _. exists (busy_start ret), w', (ho_mem (view w)). split_and!; [done | | eauto].
    rewrite Hv. by destruct (view w).
  - intros w' m Hv _. exists (busy_start 0 ++ busy_msgs), w', m. split_and!; [done | done | by right].
Qed.

(** `verify` asks nobody whether its range is granted: outside granted memory, wherever the kernel maps
    the range, already its first access goes astray. *)
Theorem verify_touches_ungranted d w offset len (Hlen : 0 < len) (Hr : 0 <= pool_base d + offset < 2 ^ 64)
  (Hmap : is_Some (fst (memremap (pool_base d + offset) len w)))
  (Hun : unbacked (view w) (pool_base d + offset) len) :
  exists s, ho_strays (view (snd (snd (verify_range offset len (d, w))))) =
    s ++ (pool_base d + offset) :: ho_strays (view w).
Proof.
  change (wp (verify_range offset len) (fun _ st => exists s, ho_strays (view (snd st)) =
    s ++ (pool_base d + offset) :: ho_strays (view w)) (d, w)).
  destruct Hmap as [va Hva]. destruct (word_offsets_first len Hlen) as [l Hwords].
  assert (Hin : forall i, i ∈ word_offsets len -> 0 <= i < len) by apply word_offsets_in.
  unfold verify_range. rewrite Hwords in *. apply wp_bind, wp_the_dyn, wp_bind, wp_host. rewrite u64_small by done. intros w1 E.
  pose proof (contract_memremap (pool_base d + offset) len w) as Hm. rewrite E in Hm. cbn [fst snd] in Hm.
  rewrite Hva in *. destruct Hm as [_ Hv1].
  assert (Hmap1 : ho_maps (view w1) !! va = Some (pool_base d + offset, len)) by (rewrite Hv1; apply lookup_insert_eq).
  assert (Hun1 : unbacked (view w1) (pool_base d + offset) len) by (rewrite Hv1; exact Hun).
  apply wp_bind. cbn [verify_write]. apply wp_bind, (wp_write_unbacked va (pool_base d + offset) len); [done | apply Hin; left | done |]. intros w2 Hv2.
  apply (wp_strays_write va (pool_base d + offset) len);
    [by rewrite Hv2 | by rewrite Hv2 | intros i Hi; apply Hin; by right |]. intros w3 s3 Hv3. rewrite Hv2, strayed_app in Hv3.
  apply wp_bind, (wp_strays_read va (pool_base d + offset) len); [by rewrite Hv3 | by rewrite Hv3 | done |].
  intros ret r w4 s4 Hv4. rewrite Hv3, strayed_app in Hv4. apply wp_bind, wp_host. intros w5 E5.
  pose proof (contract_memunmap va w4) as Hu. rewrite E5 in Hu. cbn [snd] in Hu.
  assert (Hs : ho_strays (view w5) = (s4 ++ s3) ++ (pool_base d + offset) :: ho_strays (view w)).
  { rewrite Hu, Hv4, Hv1. cbn. by rewrite Z.add_0_r, <- !app_assoc. }
  apply wp_bind. destruct (ret =? 0); wp_steps; by exists (s4 ++ s3).
Qed.

End Commands.

(** ** A concrete host: one pool of four steps, the first pre-shared; it loses the release of two *)

Definition toy_pool : dp_pool := DpPool 0x40000000 (4 * SZ_2M) SZ_2M SZ_2M 7.
Definition toy_decl (i : Z) : option dp_pool := if i =? 7 then Some toy_pool else None.

Definition toy_backed (o : host_obs) (a : Z) : bool :=
  let x := a - dp_base toy_pool in
  ((0 <=? x) && (x <? dp_prealloc toy_pool)) ||
  existsb (fun e => (e.1.1 =? 7) && (e.1.2 <=? x) && (x <? e.1.2 + e.2)) (elements (ho_grants o)).

Lemma toy_backed_iff o a : toy_backed o a = true <-> backed toy_decl o a.
Proof.
  unfold toy_backed, backed. rewrite orb_true_iff, andb_true_iff, Z.leb_le, Z.ltb_lt, existsb_exists. split.
  - intros [Hp|([[i off] len] & Hin & He)]; exists 7, toy_pool; (split; [done|]); [by left | right].
    rewrite !andb_true_iff, Z.eqb_eq, Z.leb_le, Z.ltb_lt in He. cbn in He. destruct He as [[-> ?] ?].
    exists off, len. split; [|done]. by apply list_elem_of_In, elem_of_elements in Hin.
  - intros (i & q & Hq & Hc). unfold toy_decl in Hq. destruct (Z.eqb_spec i 7) as [->|]; [|done].
    injection Hq as <-. destruct Hc as [Hp|(off & len & Hin & Ha)]; [by left | right].
    exists (7, off, len). split; [by apply list_elem_of_In, elem_of_elements|].
    rewrite !andb_true_iff, Z.eqb_eq, Z.leb_le, Z.ltb_lt. cbn in *. lia.
Qed.

#[export] Instance toy_obs_pool : PoolApi host_obs := {
  pool_grow i off len o :=
    if negb (request_ok toy_pool off len) then (- EINVAL, o)
    else if met i off len (ho_grants o) then (- EEXIST, o)
    else (0, set_grants o ({[(i, off, len)]} ∪ ho_grants o) (ho_mem o));
  pool_shrink i off len o :=
    if negb (request_ok toy_pool off len) then (- EINVAL, o)
    else if negb (met i off len (ho_grants o)) then (- ENOENT, o)
    else if bool_decide ((i, off, len) ∉ ho_grants o) then (- ERANGE, o)
    else if bool_decide ((i, off, len) ∈ ho_refs o) then (- EBUSY, o)
    else if len =? 2 * SZ_2M then (- ETIMEDOUT, note_failed o (- ETIMEDOUT))
    else (0, set_grants o (ho_grants o ∖ {[(i, off, len)]}) (ho_mem o));
  pool_query_range i off len o := ((0, Some (bool_decide ((i, off, len) ∈ ho_grants o))), o)
}.

#[export] Instance toy_obs_test : PoolTestApi host_obs := {
  pool_query i o := ((0, Some (Z.of_nat (size (ho_grants o)))), o);
  pool_test_ref i off len take o :=
    if take then
      if bool_decide ((i, off, len) ∈ ho_grants o) then (0, set_refs o ({[+ (i, off, len) +]} ⊎ ho_refs o))
      else (- EFAULT, o)
    else if bool_decide ((i, off, len) ∈ ho_refs o) then (0, set_refs o (ho_refs o ∖ {[+ (i, off, len) +]}))
    else (- EFAULT, o)
}.

#[export] Instance toy_obs_probe : ProbeEnv host_obs := {
  memremap a len o := let va := fresh (dom (ho_maps o)) in (Some va, set_maps o (<[va := (a, len)]> (ho_maps o)));
  memunmap va o := (tt, set_maps o (delete va (ho_maps o)));
  ioremap_exec a len o := (None, o);
  iounmap va o := (tt, o);
  write_u64 va i x o := match ho_maps o !! va with
    | None => (tt, o)
    | Some (a, _) => (tt, if toy_backed o (a + i) then set_mem o (<[a + i := x]> (ho_mem o)) else stray o (a + i))
    end;
  read_u64 va i o := match ho_maps o !! va with
    | None => (0, o)
    | Some (a, _) => if toy_backed o (a + i) then (default 0 (ho_mem o !! (a + i)), o) else (0, stray o (a + i))
    end;
  memcpy_toio va l o := (tt, o);
  memcmp_io va l o := (0, o);
  flush_icache_range a b o := (tt, o);
  call_code a o := (42, o);
  remap_pfn_range a pfn len o := (0, o)
}.

(** formats are said as they are; a command is its verb alone *)
#[export] Instance toy_text : Text := {
  vsnprintf fmt args := String.list_ascii_of_string fmt;
  sscanf_cmd buf := match buf with [] => None | _ => Some (String.string_of_list_ascii buf, []) end;
  sscanf_window buf := None;
  sscanf_accept buf := None
}.

#[export] Instance toy_obs_contract : PoolContract host_obs.
Proof.
  refine {| declared := toy_decl; view := id |}; unfold id.
  - intros i p off len w Hd. unfold toy_decl in Hd. destruct (i =? 7); [|done]. injection Hd as <-.
    left. unfold host_grow. cbn. destruct (request_ok _ _ _); [|done]. destruct (met _ _ _ _); [done|].
    right. split; [done | by eexists].
  - intros i p off len w Hd. unfold toy_decl in Hd. destruct (i =? 7); [|done]. injection Hd as <-.
    unfold shrink_post, requested, host_shrink. cbn -[Z.mul]. destruct (request_ok _ _ _); [|by left].
    destruct (met _ _ _ _); [|by left]. cbn -[Z.mul].
    case_bool_decide; [left; split; [by left | done]|]. case_bool_decide; [by left|].
    destruct (len =? 2 * SZ_2M); [right; split; [done|]; exists w; split; [by left | done] | left; split; [done | by eexists]].
  - intros i p off len take w Hd. left. unfold host_ref. cbn. destruct take; case_bool_decide; done.
  - done.
  - intros a len w. cbn. split; [|done]. apply not_elem_of_dom, is_fresh.
  - done.
  - intros va a len i x w Hm Hi. cbn. rewrite Hm. rewrite <- toy_backed_iff. by destruct (toy_backed _ _).
  - intros va a len i w Hm Hi. cbn. rewrite Hm. rewrite <- toy_backed_iff.
    destruct (toy_backed _ _); (split; [|done]); [|done]. intros _. split; [|done]. by intros x ->.
Defined.

Definition toy_obs0 : host_obs := HostObs ∅ ∅ ∅ ∅ [] [].
Definition toy_live : host_obs := HostObs {[(7, SZ_2M, SZ_2M)]} ∅ ∅ ∅ [] [].
Definition toy_dyn : dyn := Dyn toy_pool 0x40000000 (4 * SZ_2M) [toy_pool] [] false.

Lemma toy_tested : tested_pool (active toy_dyn).
Proof. by split. Qed.
Lemma toy_declared : declared (W := host_obs) (pool_id toy_dyn) = Some (active toy_dyn).
Proof. by vm_compute. Qed.
Lemma toy_refs g m : refs_granted (HostObs g ∅ m ∅ [] []).
Proof. intros e He. by apply gmultiset_not_elem_of_empty in He. Qed.

Lemma selftest_restores_witness : exists r w' x l m,
  snd (test_selftest (toy_dyn, toy_obs0)) = (set_result toy_dyn r, w') /\
  view w' = HostObs (x ∪ ∅) ∅ ∅ m [] (l ++ []) /\
  x ⊆ {[first_range toy_pool; second_range toy_pool]} /\
  (l = [] -> (remap_refused toy_pool toy_obs0 /\ x = {[first_range toy_pool]}) \/
             (~ remap_refused toy_pool toy_obs0 /\ x = ∅)).
Proof. exact (selftest_restores toy_dyn toy_obs0 toy_declared toy_tested (toy_refs _ _)). Defined.

(** there the second range stays, and its release is the failed request *)
Example selftest_lost_release : let o := view (snd (snd (test_selftest (toy_dyn, toy_obs0)))) in
  ho_grants o = {[second_range toy_pool]} /\ ho_failed o = [- ETIMEDOUT].
Proof. by vm_compute. Qed.

Lemma reject_reports_ok_witness : exists tail w' m, overlap_report toy_pool tail /\ view w' = set_mem toy_obs0 m /\
  snd (test_rejections (toy_dyn, toy_obs0)) = (set_result toy_dyn (spoken []
    (refused_report ++ case_msg "releasing what was never granted" (- ENOENT) true :: tail)), w').
Proof. refine (reject_reports_ok toy_dyn toy_obs0 toy_declared toy_tested (toy_refs _ _) eq_refl eq_refl _). by vm_compute. Defined.

Lemma reject_releases_live_grant_witness : exists m,
  view (snd (snd (test_rejections (toy_dyn, toy_live)))) =
  set_grants toy_live ({[(7, SZ_2M, SZ_2M)]} ∖ {[(7, SZ_2M, SZ_2M)]}) m.
Proof.
  apply (reject_releases_live_grant toy_dyn toy_live toy_declared toy_tested (toy_refs _ _) eq_refl).
  - by vm_compute.
  - apply gmultiset_not_elem_of_empty.
  - by vm_compute.
Defined.

Lemma busy_reports_ok_witness : exists ms w' m,
  snd (test_busy (toy_dyn, toy_obs0)) = (set_result toy_dyn (spoken [] ms), w') /\
  view w' = set_mem toy_obs0 m /\
  ((exists ret, ret <> 0 /\ ms = busy_start ret) \/ ms = busy_start 0 ++ busy_msgs).
Proof. refine (busy_reports_ok toy_dyn toy_obs0 toy_declared toy_tested (toy_refs _ _) _). by vm_compute. Defined.

Lemma verify_touches_ungranted_witness : exists s,
  ho_strays (view (snd (snd (verify_range SZ_2M MB (toy_dyn, toy_obs0))))) = s ++ [0x40200000].
Proof.
  change [0x40200000] with (pool_base toy_dyn + SZ_2M :: ho_strays (view toy_obs0)).
  apply (verify_touches_ungranted toy_dyn toy_obs0 SZ_2M MB).
  - done.
  - by vm_compute.
  - by eexists.
  - intros i Hi Hb. apply toy_backed_iff in Hb. revert Hb. unfold toy_backed. cbn.
    unfold MB, SZ_2M in *. rewrite orb_false_r, andb_true_iff, Z.leb_le, Z.ltb_lt. lia.
Defined.
