(* ===== verification/DynState.v ===== *)
(** * The test module's own state: what every command keeps, the window of /dev/dynpool, loading

    [dyn_ok] is the well-formedness of the module's globals. It is established by dp_init and kept by
    every command whatever the host does. *)

From Stdlib Require Import Ascii String.
From stdpp Require Import strings gmap.
From S2P Require Import Prelude RmClient PoolCtl DynTest.

(** the result and its NUL fit the buffer, the table fits its array, and the active pool is an entry *)
Record dyn_ok (d : dyn) : Prop := {
  dyn_result : (length (result d) < RESULT_SIZE)%nat;
  dyn_pools : (length (dp_pools d) <= DP_MAX_POOLS)%nat;
  dyn_active : active d ∈ dp_pools d
}.

Lemma dp_activate_ok idx d : dyn_ok d -> dyn_ok (dp_activate idx d).
Proof.
  intros []. unfold dp_activate. case_if; [by split|].
  destruct (_ !! _) eqn:El; [|by split]. split; [done | done|]. by apply list_elem_of_lookup_2 in El.
Qed.

Section Keeps.
Context {W : Type} `{PA : PoolApi W} `{PT : !PoolTestApi W} `{RA : !RmApi W} `{PE : !ProbeEnv W} `{TX : Text}.

Lemma say_text_fits r fmt args : (length r < RESULT_SIZE)%nat -> (length (say_text r fmt args) < RESULT_SIZE)%nat.
Proof. intros Hr. unfold say_text. rewrite length_app, length_take. lia. Qed.

(** an operation keeps the state well-formed *)
Definition keeps {A} (m : ST (dt_st W) A) : Prop := forall d w, dyn_ok d -> dyn_ok (fst (snd (m (d, w)))).

Lemma keeps_ret {A} (a : A) : keeps (mret a).
Proof. by intros d w. Qed.
Lemma keeps_bind {A B} (m : ST (dt_st W) A) (k : A -> ST (dt_st W) B) :
  keeps m -> (forall a, keeps (k a)) -> keeps (m ≫= k).
Proof.
  intros Hm Hk d w Hd. unfold mbind, st_bind. specialize (Hm d w Hd). destruct (m (d, w)) as [a [d' w']].
  by apply Hk.
Qed.
Lemma keeps_dyn : keeps the_dyn.
Proof. by intros d w. Qed.
Lemma keeps_host {A} (m : ST W A) : keeps (on_host m).
Proof. intros d w Hd. unfold on_host. by destruct (m w). Qed.
Lemma keeps_say fmt args : keeps (say fmt args).
Proof. intros d w []. by split; [apply say_text_fits | |]. Qed.
Lemma keeps_map b s : keeps (upd_dyn (fun d => set_map d b s)).
Proof. intros d w []. by split. Qed.
Lemma keeps_activate idx : keeps (upd_dyn (dp_activate idx)).
Proof. intros d w Hd. by apply dp_activate_ok. Qed.
Lemma keeps_reset : keeps say_reset.
Proof. intros d w []. split; [cbn; unfold RESULT_SIZE; lia | done..]. Qed.
End Keeps.

Create HintDb dynpool.
#[export] Hint Resolve keeps_ret keeps_dyn keeps_host keeps_say keeps_map keeps_activate keeps_reset : dynpool.

(** one operation of a command at a time; a command already known is in the database *)
Ltac keeps_step :=
  first [ solve [auto with dynpool nocore]
        | apply keeps_bind; [|intros ?]
        | match goal with |- keeps (match ?x with _ => _ end) => destruct x end ].
Ltac keeps_tac := repeat keeps_step.

Section Commands.
Context {W : Type} `{PA : PoolApi W} `{PT : !PoolTestApi W} `{RA : !RmApi W} `{PE : !ProbeEnv W} `{TX : Text}.

Lemma keeps_grow off len : keeps (grow off len).
Proof. unfold grow. keeps_tac. Qed.
Lemma keeps_shrink off len : keeps (shrink off len).
Proof. unfold shrink. keeps_tac. Qed.
Lemma keeps_test_ref off len take : keeps (test_ref off len take).
Proof. unfold test_ref. keeps_tac. Qed.
Lemma keeps_query live : keeps (query live).
Proof. unfold query. keeps_tac. Qed.
Hint Resolve keeps_grow keeps_shrink keeps_test_ref keeps_query : dynpool.

Lemma keeps_verify_write va offset l : keeps (verify_write va offset l).
Proof. induction l; cbn [verify_write]; keeps_tac. Qed.
Lemma keeps_verify_read va offset l : keeps (verify_read va offset l).
Proof. induction l; cbn [verify_read]; keeps_tac. Qed.
Hint Resolve keeps_verify_write keeps_verify_read : dynpool.

Lemma keeps_verify_range offset len : keeps (verify_range offset len).
Proof. unfold verify_range. keeps_tac. Qed.
Hint Resolve keeps_verify_range : dynpool.

Lemma keeps_run_rejections cases : keeps (run_rejections cases).
Proof.
  induction cases as [|[[[what off] len] want] rest IH]; cbn [run_rejections]; [keeps_tac|].
  apply keeps_bind; [destruct rest; keeps_tac | intros ?]. unfold say_case. keeps_tac.
Qed.
Hint Resolve keeps_run_rejections : dynpool.

Lemma keeps_rejections : keeps test_rejections.
Proof. unfold test_rejections, test_overlaps, say_case. keeps_tac. Qed.
Lemma keeps_busy : keeps test_busy.
Proof. unfold test_busy. keeps_tac. Qed.
Lemma keeps_selftest : keeps test_selftest.
Proof. unfold test_selftest, selftest_second. keeps_tac. Qed.
Lemma keeps_exec off : keeps (test_exec_el1 off).
Proof. unfold test_exec_el1. keeps_tac. Qed.
Lemma keeps_accept gpa size handle : keeps (test_accept gpa size handle).
Proof. unfold test_accept. keeps_tac. Qed.
Hint Resolve keeps_rejections keeps_busy keeps_selftest keeps_exec keeps_accept : dynpool.
Lemma keeps_accept_exec gpa size handle : keeps (test_accept_exec gpa size handle).
Proof. unfold test_accept_exec. keeps_tac. Qed.
Hint Resolve keeps_accept_exec : dynpool.

Lemma keeps_cmd_store buf : keeps (cmd_store buf).
Proof.
  unfold cmd_store, cmd_verb, cmd_window, cmd_accept, cmd_select. keeps_tac.
Qed.
End Commands.

(** ** Loading *)

(** the pool a node declares, if it has an address *)
Definition declared_pool (n : dp_node) : option dp_pool :=
  match dn_reg n with Some (start, rsize) => Some (node_pool n start rsize) | None => None end.

Lemma dp_collect_spec nodes l : (length l <= DP_MAX_POOLS)%nat ->
  fst (dp_collect nodes l) = take DP_MAX_POOLS (l ++ omap declared_pool nodes).
Proof.
  revert l; induction nodes as [|n nodes IH]; intros l Hl; cbn -[Nat.leb DP_MAX_POOLS].
  - by rewrite app_nil_r, take_ge.
  - destruct (Nat.leb_spec DP_MAX_POOLS (length l)).
    + cbn [fst]. rewrite take_app_le by lia. by rewrite take_ge.
    + unfold declared_pool at 1. destruct (dn_reg n) as [[start rsize]|]; [|by apply IH].
      rewrite IH by (rewrite length_app; cbn; lia). by rewrite <- app_assoc.
Qed.

(** the table dp_init fills: the first four nodes with an address, or the parameters' pool *)
Definition pool_table (nodes : list dp_node) (pa : dp_params) : list dp_pool :=
  match take DP_MAX_POOLS (omap declared_pool nodes) with
  | [] => if c_true (param_size pa) then [param_pool pa] else []
  | l => l
  end.

Lemma pool_table_length nodes pa : (length (pool_table nodes pa) <= DP_MAX_POOLS)%nat.
Proof.
  unfold pool_table. pose proof (firstn_le_length DP_MAX_POOLS (omap declared_pool nodes)) as Hl.
  destruct (take _ _); [destruct (c_true _); cbn; unfold DP_MAX_POOLS; lia | lia].
Qed.

(** what the module holds of the kernel's frameworks *)
Inductive mod_thing := Kobject | Groups | MiscDevice.
#[export] Instance mod_thing_eq_dec : EqDecision mod_thing.
Proof. solve_decision. Defined.
#[export] Instance mod_thing_countable : Countable mod_thing.
Proof.
  refine (inj_countable' (fun t => match t with Kobject => 0%nat | Groups => 1%nat | MiscDevice => 2%nat end)
    (fun n => match n with 0%nat => Kobject | 1%nat => Groups | _ => MiscDevice end) _).
  by intros [].
Defined.

Class ModLaws (W : Type) `{ModEnv W} := {
  mod_held : W -> gset mod_thing;
  mod_kobject w : mod_held (snd (kobject_create_and_add w)) =
    if fst (kobject_create_and_add w) then {[Kobject]} ∪ mod_held w else mod_held w;
  mod_kobject_put w : mod_held (snd (kobject_put w)) = mod_held w ∖ {[Kobject]};
  mod_groups w : mod_held (snd (sysfs_create_groups w)) =
    if fst (sysfs_create_groups w) =? 0 then {[Groups]} ∪ mod_held w else mod_held w;
  mod_groups_remove w : mod_held (snd (sysfs_remove_groups w)) = mod_held w ∖ {[Groups]};
  mod_misc w : mod_held (snd (misc_register w)) =
    if fst (misc_register w) =? 0 then {[MiscDevice]} ∪ mod_held w else mod_held w;
  mod_misc_deregister w : mod_held (snd (misc_deregister w)) = mod_held w ∖ {[MiscDevice]}
}.

Section Loading.
Context {W : Type} `{ML : ModLaws W}.

Lemma dp_activate_first p0 rest :
  dp_activate 0 (set_pools dyn_boot (p0 :: rest)) = Dyn p0 (dp_base p0) (dp_size p0) (p0 :: rest) [] false.
Proof.
  unfold dp_activate. rewrite Z.geb_leb, (proj2 (Z.leb_gt _ _)); [done | cbn [set_pools dp_pools length]; lia].
Qed.

(** dp_init with the table filled in *)
Lemma dp_init_eq nodes pa w :
  dp_init nodes pa (dyn_boot, w) =
  match pool_table nodes pa with
  | [] => (- ENODEV, (set_pools dyn_boot [], w))
  | p0 :: rest =>
      let d := Dyn p0 (dp_base p0) (dp_size p0) (p0 :: rest) [] false in
      let '(kobj, w1) := kobject_create_and_add w in
      if negb kobj then (- ENOMEM, (d, w1))
      else
        let '(ret, w2) := sysfs_create_groups w1 in
        if c_true ret then (ret, (d, snd (kobject_put w2)))
        else
          let '(ret, w3) := misc_register w2 in
          if c_true ret then (0, (d, w3)) else (0, (set_misc_ok d, w3))
  end.
Proof.
  unfold dp_init. pose proof (dp_collect_spec nodes [] ltac:(cbn; lia)) as Hc. cbn [app] in Hc.
  destruct (dp_collect nodes []) as [pools held]. cbn [fst] in Hc. subst pools. cbn zeta.
  set (table := if _ && _ then [param_pool pa] else _).
  assert (Ht : table = pool_table nodes pa).
  { subst table. unfold pool_table. by destruct (take _ _). }
  rewrite Ht. clearbody table. destruct (pool_table nodes pa) as [|p0 rest]; [done|].
  cbn [length Nat.eqb]. by rewrite dp_activate_first.
Qed.

(** Loading fills the table with the first four nodes that have an address, or with the parameters'
    pool, and makes its first entry the active one and the window; a load that fails leaves nothing
    of the module behind, and unloading after one that succeeds gives everything back. *)
Theorem dp_init_exit_balanced nodes pa (w : W) (Hnone : mod_held w = ∅) :
  let '(ret, (d, w')) := dp_init nodes pa (dyn_boot, w) in
  dp_pools d = pool_table nodes pa /\
  (pool_table nodes pa = [] -> ret = - ENODEV) /\
  (ret <> 0 -> mod_held w' = ∅) /\
  (ret = 0 -> exists p, pool_table nodes pa !! 0%nat = Some p /\ active d = p /\
     dp_map_base d = dp_base p /\ dp_map_size d = dp_size p /\
     mod_held w' = {[Kobject; Groups]} ∪ (if dp_misc_ok d then {[MiscDevice]} else ∅) /\
     mod_held (snd (snd (dp_exit (d, w')))) = ∅).
Proof.
  rewrite dp_init_eq. destruct (pool_table nodes pa) as [|p0 rest]; [done|]. cbn zeta.
  pose proof (mod_kobject w) as Hk. destruct (kobject_create_and_add w) as [[] w1]; cbn [fst snd negb] in Hk |- *.
  2:{ split_and!; [done | done | by rewrite Hk | done]. }
  pose proof (mod_groups w1) as Hg. destruct (sysfs_create_groups w1) as [ret w2]. cbn [fst snd] in Hg. unfold c_true.
  destruct (ret =? 0) eqn:Er; cbn [negb].
  2:{ apply Z.eqb_neq in Er. split_and!; [done | done | | done]. intros _. rewrite mod_kobject_put, Hg, Hk, Hnone. by vm_compute. }
  pose proof (mod_misc w2) as Hm. destruct (misc_register w2) as [ret2 w3]. cbn [fst snd] in Hm.
  unfold dp_exit. destruct (ret2 =? 0); cbn [negb dp_pools dp_misc_ok set_misc_ok]; (split; [done|]); (split; [done|]);
    (split; [intros Hf; by destruct Hf|]); intros _; exists p0;
    (split_and!; [done | done | done | done | rewrite Hm, Hg, Hk, Hnone; by vm_compute |]).
  - pose proof (mod_groups_remove (snd (misc_deregister w3))) as Hr. destruct (sysfs_remove_groups _) as [[] w4].
    pose proof (mod_kobject_put w4) as Hp. destruct (kobject_put w4) as [[] w5]. cbn [fst snd] in *.
    rewrite Hp, Hr, mod_misc_deregister, Hm, Hg, Hk, Hnone. by vm_compute.
  - pose proof (mod_groups_remove w3) as Hr. destruct (sysfs_remove_groups _) as [[] w4].
    pose proof (mod_kobject_put w4) as Hp. destruct (kobject_put w4) as [[] w5]. cbn [fst snd] in *.
    rewrite Hp, Hr, Hm, Hg, Hk, Hnone. by vm_compute.
Qed.

Lemma dp_init_ok nodes pa (w : W) : fst (dp_init nodes pa (dyn_boot, w)) = 0 ->
  dyn_ok (fst (snd (dp_init nodes pa (dyn_boot, w)))).
Proof.
  pose proof (pool_table_length nodes pa) as Hl. rewrite dp_init_eq. destruct (pool_table nodes pa) as [|p0 rest]; [done|].
  assert (Hok : forall m, dyn_ok (Dyn p0 (dp_base p0) (dp_size p0) (p0 :: rest) [] m)).
  { intros m. split; [cbn; unfold RESULT_SIZE; lia | done | left]. }
  cbn zeta. destruct (kobject_create_and_add w) as [[] w1]; [|done]. cbn [negb].
  destruct (sysfs_create_groups w1) as [ret w2]. destruct (c_true ret) eqn:Er.
  { cbn [fst]. intros ->. by unfold c_true in Er. }
  destruct (misc_register w2) as [ret2 w3]. destruct (c_true ret2); intros _; apply Hok.
Qed.
End Loading.

(** ** Runs of commands, and the window *)

Section Runs.
Context {W : Type} `{PA : PoolApi W} `{PT : !PoolTestApi W} `{RA : !RmApi W} `{PE : !ProbeEnv W} `{TX : Text} `{ML : ModLaws W}.

(** the commands written to sysfs, one after the other *)
Definition run_commands (bufs : list (list ascii)) (st : dt_st W) : dt_st W :=
  foldl (fun st buf => snd (cmd_store buf st)) st bufs.

(** C23: whatever is written to the module after it was loaded, and whatever the host, the resource manager
    and the memory answer, the result stays within its buffer with its NUL, the table within its
    array, and the active pool is an entry of the table. *)
Theorem module_state_well_formed nodes pa (w : W) bufs (Hload : fst (dp_init nodes pa (dyn_boot, w)) = 0) :
  dyn_ok (fst (run_commands bufs (snd (dp_init nodes pa (dyn_boot, w))))).
Proof.
  pose proof (dp_init_ok nodes pa w Hload) as Hok. revert Hok. generalize (snd (dp_init nodes pa (dyn_boot, w))).
  induction bufs as [|buf bufs IH]; intros [d w'] Hok; [done|]. cbn. apply IH. by apply keeps_cmd_store.
Qed.

(** A mapping of /dev/dynpool shows exactly the asked part of the window, and one that would leave the
    window is refused. *)
Theorem dp_mmap_in_window vm_start vm_end vm_pgoff d (w : W)
  (Hv : 0 <= vm_start < vm_end /\ vm_end < 2 ^ 64)
  (Hw : 0 <= dp_map_base d /\ 0 <= dp_map_size d < 2 ^ 64 /\ dp_map_base d + dp_map_size d <= 2 ^ 64)
  (Halign : (PAGE_SIZE | dp_map_base d)) :
  let off := u64 (vm_pgoff * PAGE_SIZE) in let len := vm_end - vm_start in
  (off + len <= dp_map_size d -> exists pfn, pfn * PAGE_SIZE = dp_map_base d + off /\
     dp_mmap vm_start vm_end vm_pgoff (d, w) = on_host (remap_pfn_range vm_start pfn len) (d, w)) /\
  (dp_map_size d < off + len -> dp_mmap vm_start vm_end vm_pgoff (d, w) = (- EINVAL, (d, w))).
Proof.
  cbn zeta. unfold dp_mmap, mbind, st_bind, the_dyn. cbn [fst].
  rewrite (u64_small (vm_end - vm_start)), Z.shiftl_mul_pow2 by (lia || done). change (2 ^ PAGE_SHIFT) with PAGE_SIZE.
  set (off := u64 (vm_pgoff * PAGE_SIZE)). pose proof (u64_range (vm_pgoff * PAGE_SIZE)) as Ho. fold off in Ho.
  assert (Hoff : (PAGE_SIZE | off)).
  { apply Z.mod_divide; [done|]. subst off. unfold u64, PAGE_SIZE. change (2 ^ 64) with (4096 * 2 ^ 52).
    rewrite Z.mul_comm, Z.mul_mod_distr_l by done. by rewrite Z.mul_comm, Z.mod_mul. }
  rewrite (proj2 (Z.eqb_neq (vm_end - vm_start) 0)) by lia. cbn [orb]. split; intros Hin.
  - rewrite (proj2 (Z.eqb_neq (dp_map_size d) 0)), Z.geb_leb, (proj2 (Z.leb_gt (dp_map_size d) off)) by lia.
    rewrite (u64_small (dp_map_size d - off)), Z.gtb_ltb by lia. rewrite (proj2 (Z.ltb_ge _ _)) by lia. cbn [orb].
    exists ((dp_map_base d + off) / PAGE_SIZE). split.
    + assert (Hd : (PAGE_SIZE | dp_map_base d + off)) by by apply Z.divide_add_r.
      destruct Hd as [q ->]. by rewrite Z.div_mul.
    + rewrite u64_small, Z.shiftr_div_pow2 by (lia || done). done.
  - destruct (dp_map_size d =? 0); [done|]. cbn [orb]. rewrite Z.geb_leb.
    destruct (Z.leb_spec (dp_map_size d) off); [done|]. cbn [orb].
    rewrite (u64_small (dp_map_size d - off)), Z.gtb_ltb by lia. by rewrite (proj2 (Z.ltb_lt _ _)) by lia.
Qed.
End Runs.

(** ** A kernel that grants every registration, without a resource manager or a pool device *)

Definition toy_kernel : Type := gset mod_thing.

#[export] Instance toy_kernel_mod : ModEnv toy_kernel := {
  kobject_create_and_add w := (true, {[Kobject]} ∪ w);
  kobject_put w := (tt, w ∖ {[Kobject]});
  sysfs_create_groups w := (0, {[Groups]} ∪ w);
  sysfs_remove_groups w := (tt, w ∖ {[Groups]});
  misc_register w := (0, {[MiscDevice]} ∪ w);
  misc_deregister w := (tt, w ∖ {[MiscDevice]})
}.

#[export] Instance toy_kernel_laws : ModLaws toy_kernel.
Proof. by refine {| mod_held := fun w => w |}. Defined.

#[export] Instance toy_kernel_pool : PoolApi toy_kernel := {
  pool_grow i off len w := (- ENODEV, w);
  pool_shrink i off len w := (- ENODEV, w);
  pool_query_range i off len w := ((- ENODEV, None), w)
}.
#[export] Instance toy_kernel_test : PoolTestApi toy_kernel := {
  pool_query i w := ((- ENODEV, None), w);
  pool_test_ref i off len take w := (- ENODEV, w)
}.
#[export] Instance toy_kernel_rm : RmApi toy_kernel := {
  rm_available w := false;
  rm_mem_accept h g z w := (- ENODEV, w);
  rm_mem_release h w := (- ENODEV, w)
}.
#[export] Instance toy_kernel_probe : ProbeEnv toy_kernel := {
  memremap a len w := (None, w);
  memunmap va w := (tt, w);
  ioremap_exec a len w := (None, w);
  iounmap va w := (tt, w);
  write_u64 va i x w := (tt, w);
  read_u64 va i w := (0, w);
  memcpy_toio va l w := (tt, w);
  memcmp_io va l w := (0, w);
  flush_icache_range a b w := (tt, w);
  call_code a w := (0, w);
  remap_pfn_range a pfn len w := (0, w)
}.
#[local] Instance verb_text : Text := {
  vsnprintf fmt args := String.list_ascii_of_string fmt;
  sscanf_cmd buf := match buf with [] => None | _ => Some (String.string_of_list_ascii buf, []) end;
  sscanf_window buf := None;
  sscanf_accept buf := None
}.

Definition toy_node : dp_node := DpNode (Some (0x40000000, SZ_2M)) (Some (4 * SZ_2M)) None (Some SZ_2M) (Some 7).
Definition toy_params : dp_params := DpParams 0 0 0 0 0.

Lemma dp_init_exit_balanced_witness :
  let '(ret, (d, w')) := dp_init [toy_node] toy_params (dyn_boot, (∅ : toy_kernel)) in
  dp_pools d = pool_table [toy_node] toy_params /\
  (pool_table [toy_node] toy_params = [] -> ret = - ENODEV) /\
  (ret <> 0 -> mod_held w' = ∅) /\
  (ret = 0 -> exists p, pool_table [toy_node] toy_params !! 0%nat = Some p /\ active d = p /\
     dp_map_base d = dp_base p /\ dp_map_size d = dp_size p /\
     mod_held w' = {[Kobject; Groups]} ∪ (if dp_misc_ok d then {[MiscDevice]} else ∅) /\
     mod_held (snd (snd (dp_exit (d, w')))) = ∅).
Proof. exact (dp_init_exit_balanced [toy_node] toy_params (∅ : toy_kernel) eq_refl). Defined.

Lemma module_state_well_formed_witness :
  dyn_ok (fst (run_commands [String.list_ascii_of_string "reject"; []]
    (snd (dp_init [toy_node] toy_params (dyn_boot, (∅ : toy_kernel)))))).
Proof. apply module_state_well_formed. by vm_compute. Defined.

(** the second page of the pool *)
Definition toy_window : dyn := Dyn (DpPool 0 0 0 0 0) 0x40000000 (4 * SZ_2M) [] [] false.

Lemma dp_mmap_in_window_witness :
  exists pfn, pfn * PAGE_SIZE = dp_map_base toy_window + u64 (1 * PAGE_SIZE) /\
    dp_mmap 0x7000 0x8000 1 (toy_window, (∅ : toy_kernel)) =
    on_host (remap_pfn_range 0x7000 pfn (0x8000 - 0x7000)) (toy_window, (∅ : toy_kernel)).
Proof.
  apply (proj1 (dp_mmap_in_window 0x7000 0x8000 1 toy_window (∅ : toy_kernel)
    ltac:(lia) ltac:(by vm_compute) ltac:(by exists 0x40000))).
  by vm_compute.
Defined.
